(* ===== verification/_CoqProject ===== *)
-Q . S2P
Prelude.v
GoStrings.v
GoFloat.v
GoTime.v
GoUtf8.v
GoDigits.v
GoFloatText.v
GoFloatBounds.v
GoJson.v
Models.v
PayloadJson.v
Config.v
Alerts.v
Logger.v
LoggerDisplay.v
InternalMetrics.v
DockerTypes.v
ContainerEngine.v
DockerStats.v
DockerClient.v
DockerStreams.v
Security.v
Crypto.v
MemoryStore.v
Receiver.v
Discovery.v
Sender.v
SenderLoop.v
Cluster.v
Topology.v
Storage.v
History.v
Prune.v
Exporter.v
ExporterServer.v
Fleet.v
DockerWorker.v
MainApp.v
I18n.v
Tui.v
TuiRuntime.v
TuiScenarios.v
TuiView.v
