(* ===== verification/Prelude.v ===== *)
(** * Castle Rock Agent: verification library

    The Castle Rock Agent watches the Docker containers of a host: it collects their
    metrics, raises alerts, audits their security, exports to Prometheus, pushes to a
    leader in a cluster, prunes when the disk fills up, and shows all this in a terminal
    interface.  This library models its Go code, one file per component, and proves what
    makes each component correct.

    ** How the parts interact

    [main] (cmd/agent/main.go, file [MainApp]) loads the configuration ([Config]) and
    starts one of three modes.  All of them talk to the container engine through the
    interface of [ContainerEngine]; the Docker client ([DockerStats], [DockerClient],
    [DockerStreams]) is its implementation over the class [DockerAPI] of SDK calls
    ([DockerTypes]).  The interactive mode runs the terminal program ([Tui],
    [TuiRuntime], [TuiView]), which calls the alert engine ([Alerts]), the security
    auditor ([Security]) and the network mapper ([Topology]), next to the event store
    ([Storage], [History]) and the automatic pruner ([Prune]).  A worker's loop
    ([SenderLoop]) finds its leader ([Discovery]) and pushes its metrics to it ([Sender]),
    as JSON ([PayloadJson]), encrypted ([Crypto]) and compressed; the leader's receiver
    ([Receiver]) keeps them in a sharded store ([MemoryStore]), and [Cluster] puts the two
    ends of a push together.  The exporter ([Exporter]) collects local and remote metrics
    and its server ([ExporterServer]) serves them.  [Fleet] composes workers, leader and
    exporter; [DockerWorker] shows that hosts with Docker fit it.

    ** Files

    - [Prelude]: results, machine integers, iteration over maps, record update, tactics
      and lemmas shared by all files.
    - [GoStrings], [GoFloat], [GoTime]: what the code uses of Go's strings, strconv, fmt,
      float64 and time, executable.
    - [GoUtf8], [GoDigits], [GoFloatText], [GoFloatBounds]: UTF-8 and its repair, decimal
      numerals, the shortest decimal text of a float64 and the magnitude of float64 results.
    - [GoJson]: the text format of encoding/json, its parser and its printer.
    - [Models]: pkg/models/container.go; [PayloadJson]: its records as JSON, by their tags.
    - [Config]: internal/config/config.go.
    - [Alerts]: internal/alerts/alerts.go.
    - [Logger], [LoggerDisplay]: internal/logger/logger.go (the slog handler, [Redact] and
      the display record; the banner, the tables and the shutdown lines).
    - [InternalMetrics]: internal/metrics/internal.go.
    - [DockerTypes]: the SDK's types and calls; [ContainerEngine], [DockerStats],
      [DockerClient], [DockerStreams]: internal/docker/client.go.
    - [Security]: internal/security/auditor.go.
    - [Crypto], [MemoryStore] and [Receiver], [Discovery], [Sender] and [SenderLoop]:
      internal/cluster/crypto.go, receiver.go, discovery.go and sender.go; [Cluster]: the
      two ends of a push together; [Fleet]: any number of workers, the leader, its
      exporter and other clients in any interleaving over an unreliable network; [DockerWorker]: workers over Docker.
    - [Topology]: internal/topology/mapper.go.
    - [Storage] (the write queue) and [History] (opening and reading):
      internal/storage/sqlite.go.
    - [Prune]: internal/prune/pruner.go.
    - [Exporter], [ExporterServer]: internal/collector/container.go and
      internal/metrics/prometheus.go.
    - [MainApp]: cmd/agent/main.go.
    - [I18n]: internal/i18n/i18n.go.
    - [Tui], [TuiView]: internal/tui/tui.go; [TuiRuntime]: the program's runs;
      [TuiScenarios]: concrete runs.

    Definitions have the names of the Go functions and types; a field [f] of a struct is
    [xx_f] with a prefix of its record.

    ** Modelling

    - A method is a function from its receiver's state to its result and the next state.
      A Go panic is [None]; an error is [Err] with its text.  Where a slice or an index of
      the source can be out of range it is partial here too ([slice], [index], and
      [str_slice], [str_index] in [GoStrings]); the capacities of a list that a test just
      above guards ([push_history]) or a pair of slices ([Decrypt]) are plain prefixes.
    - Go ranges over a map in any order: a definition takes the order as an argument, and
      theorems hold for every order that [range_of] allows.
    - A group of goroutines that only share a locked map or their own slots is a fold over
      them in a schedule given as an argument; theorems hold for every permutation.
    - Goroutines with channels (the event store's worker, the event and log streams) and
      the Bubble Tea loop are step functions or step relations over explicit events.
    - Headers travel as net/http sends them ([Cluster]): a value with a control character
      is refused, and blanks at its ends are gone when the server reads it.
    - What really happened in a run is read off the code's own calls: a store that writes
      down its updates ([Fleet]) and an engine that counts its prunes ([Prune]) go through
      the same definitions as any other.
    - float64 is the Standard Library's executable binary64; uint64 sums wrap.
    - Code outside the repository is a class: the Docker SDK ([DockerAPI]), the Go
      cryptography ([CryptoLib]), gzip ([Codec]), YAML ([YamlDecoder]), the HTTP client
      ([HttpClient]), the mDNS library ([MDNS]), the SQL engine and its driver ([SQLDB]),
      the Prometheus registry and its handler ([Registerer], [PromHTTP]), Unicode case
      tables ([UnicodeCase]), the float syntax beyond decimals ([FloatSyntax]) and lipgloss
      ([Lipgloss]).  Hypotheses on them are their documented contracts, such as [gcm_laws],
      [query_law], [mdns_laws] and [stats_law].  The JSON of the payload is not such code:
      [GoJson] and [PayloadJson] say what encoding/json writes and reads.
    - The store is an interface with laws ([ClusterStore], [ClusterStoreLaws]): the receiver
      and [Fleet] are proved against it and the sharded store discharges it
      ([memory_store_laws]).

    ** Theorems

    - Alerts: the engine refines an abstract machine per rule and container
      ([Evaluate_refines]); a reported alert's condition held for the rule's duration
      ([fired_alert_persisted]), a condition that persists does fire
      ([persistent_condition_fires]), the list shown is one worst alert per metric
      ([GetActiveAlerts_spec]), and what happens to containers that vanish
      ([pending_survives_absence]).
    - Cluster: in any interleaving, over a network that loses requests and answers, the leader
      exports exactly the local containers and the fresh last updates of its store, in all
      nine gauges ([fleet_exports]), a worker's collection that gets through is among them
      for thirty seconds unless its host pushes again ([fleet_delivers]), and with a token
      only workers' data gets in ([fleet_only_workers]).  A push reaches the leader's store,
      if the shared token can travel in a header ([push_delivers]), within four attempts
      ([push_retries_bounded]), and never with a wrong token ([wrong_token_never_delivers]); a worker pushes to one leader ([sender_one_leader]).
      The payload's text reads back as the payload ([json_roundtrip]), whatever arrives is
      well typed ([json_decoded_typed]) and what a Docker host collects always marshals
      ([docker_payload_marshals]).  Exactly which requests are accepted
      ([ServeHTTP_accepts_iff]); encryption round trip ([encrypt_roundtrip]); the sharded
      store refines a flat map ([store_refines_flat]) and shows fresh payloads only
      ([visible_metric_iff]).
    - Docker client: no secret of the environment is listed ([listing_env_redacted]),
      listings and statistics do not depend on scheduling
      ([detailed_listing_deterministic], [GetAllContainerStats_spec]), percentages are
      neither negative nor NaN ([percentages_safe]), the metadata cache
      ([metadata_cache_hit]), log and event streams ([log_stream_bounded],
      [frame_roundtrip], [WatchEvents_delivers]).
    - Security: no alert if and only if the container is hardened
      ([no_alert_iff_hardened]); the cached audit ([Audit_spec]).
    - Storage and pruning: rows are the accepted records in order ([store_fifo]), closing
      completes in every schedule with everything flushed ([close_completes]), what is read back ([GetRecent_spec]), prunes are at
      least an hour apart ([prunes_spaced]), and exactly when the pruner panics on the closed
      store ([pruner_panics_iff]).
    - Terminal interface: the invariant of its state ([interface_invariant]), no action
      without confirmation ([actions_confirmed]) of what the screen shows
      ([confirmation_is_shown]), exactly one tick ([one_ticker]), which messages panic
      ([update_panics_iff]) and that the view never does ([view_never_panics]).
    - Configuration, exporter, map, entry point: where each setting comes from
      ([Load_precedence]), what a collection exports and when an invalid label makes it
      panic ([collect_spec]), [exports_last_success] over the runs of the collection loop,
      [BuildMap_spec], [push_endpoint_iff], and what each mode starts and the release of
      every resource on every path of [main] ([main_releases_all]).

    ** Fuel and bounds

    No component is defined with fuel that could run out: recursion is on lists, strings
    or the number of attempts left.  The parser of durations and the count of runes use
    the length of their text as a measure, and each of their turns consumes a byte or
    more; the JSON reader recurses on its tokens, with the nesting limit of the library.
    The search for the shortest decimal tries at most 800 digits, which [GoFloatText] proves
    to be enough for every binary64 number.  Queue, log and history capacities are the
    source's constants.

    ** Not modelled

    Log lines, except for the text the logger itself writes.  What the classes above stand
    for: in particular the text /metrics renders, and SQL beyond the contract of the one
    query.  In [Fleet] the environment chooses when things happen and which attempts get
    through; the shutdown of the HTTP server, its timeouts and the waits between attempts
    are part of that choice.  Of net/http's treatment of headers, the limit on their total size, and
    in [PayloadJson] a nil list of containers, which no caller has: the containers of a push
    come from [make] and print as a list, and its metrics, if none, as null.  The names of the security rules ([Name]), which nothing uses,
    and the options of the log handler have no definition of their own.  Next: the
    terminal program over the Docker client, as one system. *)
From Stdlib Require Export ZArith Lia Ascii.
From Stdlib Require String.
From stdpp Require Export base gmap strings list fin_maps pretty.

(** ** Scope and notations *)

Declare Scope go_scope.
Delimit Scope go_scope with go.
Open Scope Z_scope.
Open Scope stdpp_scope.

(** A Go call that returns [(T, error)]: a value, or an error carrying the text
    of [err.Error()]. *)
Definition error := string.

Inductive result (A : Type) : Type :=
  | Ok (a : A)
  | Err (e : error).
Arguments Ok {A} a.
Arguments Err {A} e.

#[export] Instance result_ret : MRet result := @Ok.
#[export] Instance result_bind : MBind result := fun A B f r =>
  match r with Ok a => f a | Err e => Err e end.
#[export] Instance result_fmap : FMap result := fun A B f r =>
  match r with Ok a => Ok (f a) | Err e => Err e end.

(** [fmt.Errorf("prefix: %w", err)]. *)
Definition wrap_err {A} (prefix : string) (r : result A) : result A :=
  match r with Ok a => Ok a | Err e => Err (prefix +:+ e) end.

Definition is_ok {A} (r : result A) : bool :=
  match r with Ok _ => true | Err _ => false end.

(** ** Machine integers *)

Definition wrap_u64 (z : Z) : Z := z `mod` 2 ^ 64.
Definition wrap_u32 (z : Z) : Z := z `mod` 2 ^ 32.
Definition wrap_i64 (z : Z) : Z := (z + 2 ^ 63) `mod` 2 ^ 64 - 2 ^ 63.

Definition is_u64 (z : Z) : Prop := 0 <= z < 2 ^ 64.
Definition is_i64 (z : Z) : Prop := - 2 ^ 63 <= z < 2 ^ 63.

(** ** Slices and indices

    [l[a:b]] and [l[i]]; [None] is the panic of bounds out of order or range.  The upper
    bound of a slice is checked against its length (Go takes its capacity, which is no
    smaller). *)
Definition slice {A} (l : list A) (a b : Z) : option (list A) :=
  if (0 <=? a) && (a <=? b) && (b <=? Z.of_nat (length l))
  then Some (take (Z.to_nat (b - a)) (drop (Z.to_nat a) l)) else None.

Definition index {A} (l : list A) (i : Z) : option A :=
  if i <? 0 then None else l !! Z.to_nat i.

(** ** Iteration over Go maps

    Go ranges over a map in an unspecified order.  A definition that ranges over
    a map takes the order as an argument, and [range_of m l] says that [l] is one
    of the orders the language allows for [m]. *)
Definition range_of `{Countable K} {V} (m : gmap K V) (l : list (K * V)) : Prop :=
  l ≡ₚ map_to_list m.

(** ** Record update

    [r <| f := v |>] is the record [r] with the field [f] changed, as an assignment to a
    field of a Go struct that is passed by value.  A record type declares its eta
    expansion; the setter of each field is derived from it. *)
Class Eta (T : Type) := eta : T -> T.
Class Setter {T A : Type} (proj : T -> A) := update : (A -> A) -> T -> T.

Ltac derive_setter proj :=
  let f := fresh "f" in let r := fresh "r" in intros f r;
  let b := eval hnf in (eta r) in
  let b := eval pattern (proj r) in b in
  match b with ?g _ => let t := eval cbv beta in (g (f (proj r))) in exact t end.

#[export] Hint Extern 0 (Setter ?proj) => derive_setter proj : typeclass_instances.

Notation "r <| proj := v |>" := (update (proj:=proj) (fun _ => v) r)
  (at level 1, left associativity, format "r  <|  proj  :=  v  |>").

(** ** Tactics *)

(** Split every conditional and [match] the goal or a hypothesis is stuck on. *)
Ltac break := repeat (case_match; simplify_eq/=).

(** Turn boolean tests in hypotheses into propositions. *)
Ltac reflect_bools :=
  repeat match goal with
  | H : (_ && _) = true |- _ => apply andb_true_iff in H; destruct H
  | H : (_ || _) = false |- _ => apply orb_false_iff in H; destruct H
  | H : negb _ = true |- _ => apply negb_true_iff in H
  | H : negb _ = false |- _ => apply negb_false_iff in H
  | H : (_ <? _) = true |- _ => apply Z.ltb_lt in H
  | H : (_ <? _) = false |- _ => apply Z.ltb_ge in H
  | H : (_ <=? _) = true |- _ => apply Z.leb_le in H
  | H : (_ <=? _) = false |- _ => apply Z.leb_gt in H
  | H : (_ =? _) = true |- _ => apply Z.eqb_eq in H
  | H : (_ =? _) = false |- _ => apply Z.eqb_neq in H
  | H : bool_decide _ = true |- _ => apply bool_decide_eq_true in H
  | H : bool_decide _ = false |- _ => apply bool_decide_eq_false in H
  end.

(** ** Hint databases

    [castle] holds the lemmas that close the routine side conditions of the
    components. *)
Create HintDb castle.

(** ** Lists *)

Section lists.
Context {A B C : Type}.

Lemma foldl_bind (f : C -> B -> C) (g : A -> list B) (l : list A) (c : C) :
  foldl (fun c a => foldl f c (g a)) c l = foldl f c (l ≫= g).
Proof.
  revert c; induction l as [|a l IH]; intros c; simpl; [done|].
  by rewrite IH, foldl_app.
Qed.

Lemma foldl_ext_in (f g : C -> B -> C) (l : list B) (c : C) :
  (forall c b, b ∈ l -> f c b = g c b) -> foldl f c l = foldl g c l.
Proof.
  revert c; induction l as [|b l IH]; intros c H; simpl; [done|].
  rewrite H by set_solver. apply IH. intros; apply H; set_solver.
Qed.

(** An invariant of the accumulator that every step preserves. *)
Lemma foldl_inv (P : C -> Prop) (f : C -> B -> C) (l : list B) (c : C) :
  P c -> (forall c b, b ∈ l -> P c -> P (f c b)) -> P (foldl f c l).
Proof.
  revert c; induction l as [|b l IH]; intros c Hc Hf; simpl; [done|].
  apply IH; [apply Hf; set_solver|]. intros; apply Hf; set_solver.
Qed.

(** Steps that commute make the order irrelevant. *)
Lemma foldl_perm (f : C -> B -> C) (l1 l2 : list B) (c : C) :
  (forall c x y, x ∈ l1 -> y ∈ l1 -> f (f c x) y = f (f c y) x) ->
  l1 ≡ₚ l2 -> foldl f c l1 = foldl f c l2.
Proof.
  intros Hcomm Hp; revert c Hcomm; induction Hp as [|x l1 l2 Hp IH|x y l|l1 l2 l3 H1 IH1 H2 IH2];
    intros c Hcomm; simpl; [done| | |].
  - apply IH. intros c' a b Ha Hb; apply Hcomm; rewrite elem_of_cons; auto.
  - rewrite Hcomm; [done|rewrite !elem_of_cons; auto..].
  - rewrite IH1 by done. apply IH2. intros; apply Hcomm; by rewrite H1.
Qed.

Lemma filter_ext_in (P Q : A -> Prop) `{forall x, Decision (P x)} `{forall x, Decision (Q x)} (l : list A) :
  (forall x, x ∈ l -> P x <-> Q x) -> filter P l = filter Q l.
Proof.
  induction l as [|x l IH]; intros HPQ; [done|]. rewrite !filter_cons, IH by set_solver.
  destruct (HPQ x) as [H1 H2]; [left|]. repeat case_decide; tauto.
Qed.

Lemma bind_ext_in (f g : A -> list B) (l : list A) :
  (forall x, x ∈ l -> f x = g x) -> l ≫= f = l ≫= g.
Proof. intros H. apply Forall_bind_ext, Forall_forall. exact H. Qed.

(** Concatenating duplicate-free lists that no two positions share an element of. *)
Lemma NoDup_bind_index (f : A -> list B) (l : list A) :
  (forall i x, l !! i = Some x -> NoDup (f x)) ->
  (forall i j x y z, l !! i = Some x -> l !! j = Some y -> z ∈ f x -> z ∈ f y -> i = j) ->
  NoDup (l ≫= f).
Proof.
  induction l as [|x l IH]; intros Hf Hd; [constructor|]. cbn. apply NoDup_app. split_and!.
  - by apply (Hf O).
  - intros z Hx (y & Hy & Hin)%list_elem_of_bind. apply list_elem_of_lookup in Hin as [j Hj].
    by pose proof (Hd O (S j) x y z eq_refl Hj Hx Hy).
  - apply IH.
    + intros i y Hi. by apply (Hf (S i)).
    + intros i j y y' z Hi Hj Hy Hy'. by pose proof (Hd (S i) (S j) y y' z Hi Hj Hy Hy') as [= ->].
Qed.

Lemma omap_cons_app (f : A -> option B) (x : A) (l : list A) :
  omap f (x :: l) = option_list (f x) ++ omap f l.
Proof. simpl. by destruct (f x). Qed.

Lemma reverse_option_list (o : option A) : reverse (option_list o) = option_list o.
Proof. by destruct o. Qed.
End lists.

(** Slices and indices that are in range. *)
Lemma slice_in_range {A} (l : list A) a b :
  0 <= a <= b -> b <= Z.of_nat (length l) -> slice l a b = Some (take (Z.to_nat (b - a)) (drop (Z.to_nat a) l)).
Proof.
  intros. unfold slice. by rewrite (proj2 (Z.leb_le 0 a)), (proj2 (Z.leb_le a b)), (proj2 (Z.leb_le b _)) by lia.
Qed.

Lemma index_in_range {A} (l : list A) i :
  0 <= i < Z.of_nat (length l) -> exists x, index l i = Some x /\ l !! Z.to_nat i = Some x.
Proof.
  intros Hi. unfold index. rewrite (proj2 (Z.ltb_ge i 0)) by lia.
  destruct (lookup_lt_is_Some_2 l (Z.to_nat i)) as [x Hx]; [lia|]. by exists x.
Qed.

Lemma range_of_elem `{Countable K} {V} (m : gmap K V) l k v :
  range_of m l -> (k, v) ∈ l <-> m !! k = Some v.
Proof. intros ->. apply elem_of_map_to_list. Qed.

Lemma range_of_NoDup `{Countable K} {V} (m : gmap K V) l :
  range_of m l -> NoDup l.*1.
Proof. intros ->. apply NoDup_fst_map_to_list. Qed.

Lemma range_of_refl `{Countable K} {V} (m : gmap K V) : range_of m (map_to_list m).
Proof. unfold range_of. reflexivity. Qed.

Lemma range_of_length `{Countable K} {V} (m : gmap K V) l :
  range_of m l -> length l = size m.
Proof. intros ->. by rewrite length_map_to_list. Qed.

Lemma range_of_empty `{Countable K} {V} : range_of (∅ : gmap K V) [].
Proof. unfold range_of. by rewrite map_to_list_empty. Qed.

Lemma range_of_singleton `{Countable K} {V} (k : K) (v : V) :
  range_of ({[k := v]} : gmap K V) [(k, v)].
Proof. unfold range_of. by rewrite map_to_list_singleton. Qed.

#[export] Hint Resolve range_of_refl range_of_NoDup range_of_empty range_of_singleton : castle.

(** ** Integers *)

Lemma wrap_u64_small z : is_u64 z -> wrap_u64 z = z.
Proof. apply Z.mod_small. Qed.

Lemma wrap_u64_range z : is_u64 (wrap_u64 z).
Proof. apply Z.mod_pos_bound. lia. Qed.

Lemma wrap_u64_add_l a b : wrap_u64 (wrap_u64 a + b) = wrap_u64 (a + b).
Proof. apply Z.add_mod_idemp_l. lia. Qed.

Lemma wrap_u32_range z : 0 <= wrap_u32 z < 2 ^ 32.
Proof. apply Z.mod_pos_bound. lia. Qed.

#[export] Hint Resolve wrap_u64_range wrap_u32_range wrap_u64_small : castle.
