(* ===== verification/GoStrings.v ===== *)
(** * The parts of Go's [strings], [strconv] and [fmt] packages the agent uses

    A Go string is a sequence of bytes, here [string].  Upper and lower casing of
    text outside ASCII needs the Unicode tables of the Go runtime: the class
    [UnicodeCase] stands for them and is consulted only on such text. *)
From S2P Require Import Prelude.

(** ** Slicing *)

Fixpoint str_take (n : nat) (s : string) : string :=
  match n, s with
  | S n', String a s' => String a (str_take n' s')
  | _, _ => EmptyString
  end.

Fixpoint str_drop (n : nat) (s : string) : string :=
  match n, s with
  | S n', String _ s' => str_drop n' s'
  | _, _ => s
  end.

(** [s[:n]], which panics ([None]) when [n] is out of range. *)
Definition slice_to (s : string) (n : nat) : option string :=
  if (n <=? String.length s)%nat then Some (str_take n s) else None.

(** [s[a:b]] and [s[i]]; [None] is the panic of bounds out of order or range. *)
Definition str_slice (s : string) (a b : Z) : option string :=
  if (0 <=? a) && (a <=? b) && (b <=? Z.of_nat (String.length s))
  then Some (str_take (Z.to_nat (b - a)) (str_drop (Z.to_nat a) s)) else None.

Definition str_index (s : string) (i : Z) : option ascii :=
  if i <? 0 then None else String.get (Z.to_nat i) s.

(** [string(b[:n])] cut to [n] bytes when longer, with the [...] the agent appends:
    [if len(s) > max { s = s[:max-3] + "..." }]. *)
Definition ellipsize (max : nat) (s : string) : string :=
  if (max <? String.length s)%nat then str_take (max - 3) s +:+ "..." else s.

(** ** Package strings *)

Definition newline : string := String (Ascii.ascii_of_nat 10) EmptyString.

Definition HasPrefix (s p : string) : bool := String.prefix p s.

Fixpoint Contains (s sub : string) : bool :=
  String.prefix sub s ||
  match s with
  | EmptyString => false
  | String _ s' => Contains s' sub
  end.

Definition TrimPrefix (s p : string) : string :=
  if HasPrefix s p then str_drop (String.length p) s else s.

Fixpoint IndexByte (s : string) (c : ascii) : option nat :=
  match s with
  | EmptyString => None
  | String a s' => if bool_decide (a = c) then Some O else S <$> IndexByte s' c
  end.

(** [strings.Split(s, sep)] for a separator of one byte. *)
Fixpoint Split (s : string) (sep : ascii) : list string :=
  match s with
  | EmptyString => [EmptyString]
  | String a s' =>
      if bool_decide (a = sep) then EmptyString :: Split s' sep
      else match Split s' sep with
           | [] => [String a EmptyString]
           | h :: t => String a h :: t
           end
  end.

(** [strings.SplitN(s, sep, 2)] for a separator of one byte: one part when the
    separator does not occur, else the text before and after its first occurrence. *)
Definition SplitN2 (s : string) (sep : ascii) : string * option string :=
  match IndexByte s sep with
  | None => (s, None)
  | Some i => (str_take i s, Some (str_drop (S i) s))
  end.

Fixpoint Join (l : list string) (sep : string) : string :=
  match l with
  | [] => EmptyString
  | [x] => x
  | x :: l' => x +:+ sep +:+ Join l' sep
  end.

(** [strings.ReplaceAll], for a text [old] that is not empty; [skip] bytes of [s] belong
    to an occurrence already replaced. *)
Fixpoint replace_from (skip : nat) (s old new : string) : string :=
  match s with
  | EmptyString => EmptyString
  | String a s' =>
      match skip with
      | S skip' => replace_from skip' s' old new
      | O => if HasPrefix s old then new +:+ replace_from (String.length old - 1) s' old new
             else String a (replace_from O s' old new)
      end
  end.

Definition ReplaceAll (s old new : string) : string := replace_from O s old new.

(** [fmt.Sprintf(format, arg)] for a format whose only verb is at most one [%s]. *)
Fixpoint Sprintf_s (format arg : string) : string :=
  match format with
  | EmptyString => "%!(EXTRA string=" +:+ arg +:+ ")"
  | String a f => if HasPrefix format "%s" then arg +:+ str_drop 2 format else String a (Sprintf_s f arg)
  end.

(** *** Case mapping *)

Class UnicodeCase := {
  unicode_ToUpper : string -> string;
  unicode_ToLower : string -> string
}.

Definition byte_val (a : ascii) : Z := Z.of_N (Ascii.N_of_ascii a).

Definition is_ascii_byte (a : ascii) : bool := byte_val a <? 128.

Fixpoint str_forall (p : ascii -> bool) (s : string) : bool :=
  match s with
  | EmptyString => true
  | String a s' => p a && str_forall p s'
  end.

Fixpoint str_map (f : ascii -> ascii) (s : string) : string :=
  match s with
  | EmptyString => EmptyString
  | String a s' => String (f a) (str_map f s')
  end.

Definition ascii_shift (d : Z) (a : ascii) : ascii :=
  Ascii.ascii_of_N (Z.to_N (byte_val a + d)).

Definition ascii_upper (a : ascii) : ascii :=
  if (97 <=? byte_val a) && (byte_val a <=? 122) then ascii_shift (-32) a else a.

Definition ascii_lower (a : ascii) : ascii :=
  if (65 <=? byte_val a) && (byte_val a <=? 90) then ascii_shift 32 a else a.

Definition ToUpper `{UnicodeCase} (s : string) : string :=
  if str_forall is_ascii_byte s then str_map ascii_upper s else unicode_ToUpper s.

Definition ToLower `{UnicodeCase} (s : string) : string :=
  if str_forall is_ascii_byte s then str_map ascii_lower s else unicode_ToLower s.

(** *** White space

    [strings.TrimSpace] removes the runes of [unicode.IsSpace]: six ASCII bytes and
    the UTF-8 encodings, of two or three bytes, of U+0085, U+00A0, U+1680,
    U+2000-200A, U+2028, U+2029, U+202F, U+205F and U+3000. *)
Definition space1 (a : ascii) : bool :=
  let v := byte_val a in ((9 <=? v) && (v <=? 13)) || (v =? 32).

Definition space2 (a b : ascii) : bool :=
  (byte_val a =? 194) && ((byte_val b =? 133) || (byte_val b =? 160)).

Definition space3 (a b c : ascii) : bool :=
  let va := byte_val a in let vb := byte_val b in let vc := byte_val c in
  ((va =? 225) && (vb =? 154) && (vc =? 128)) ||
  ((va =? 226) && (vb =? 128) &&
     (((128 <=? vc) && (vc <=? 138)) || (vc =? 168) || (vc =? 169) || (vc =? 175))) ||
  ((va =? 226) && (vb =? 129) && (vc =? 159)) ||
  ((va =? 227) && (vb =? 128) && (vc =? 128)).

Fixpoint trim_left (sp2 : ascii -> ascii -> bool) (sp3 : ascii -> ascii -> ascii -> bool)
    (s : string) : string :=
  match s with
  | EmptyString => EmptyString
  | String a s1 =>
      if space1 a then trim_left sp2 sp3 s1 else
      match s1 with
      | EmptyString => s
      | String b s2 =>
          if sp2 a b then trim_left sp2 sp3 s2 else
          match s2 with
          | EmptyString => s
          | String c s3 => if sp3 a b c then trim_left sp2 sp3 s3 else s
          end
      end
  end.

Definition TrimLeftSpace (s : string) : string := trim_left space2 space3 s.

Definition TrimRightSpace (s : string) : string :=
  String.rev (trim_left (fun a b => space2 b a) (fun a b c => space3 c b a) (String.rev s)).

Definition TrimSpace (s : string) : string := TrimRightSpace (TrimLeftSpace s).

(** ** Package strconv and the integer verbs of fmt *)

(** [%d] and [strconv.Itoa]. *)
Definition itoa (z : Z) : string := pretty z.

Definition digit_val (a : ascii) : option Z :=
  let v := byte_val a in
  if (48 <=? v) && (v <=? 57) then Some (v - 48) else None.

Fixpoint digits_val (acc : Z) (s : string) : option Z :=
  match s with
  | EmptyString => Some acc
  | String a s' => d ← digit_val a; digits_val (10 * acc + d) s'
  end.

(** [strconv.Atoi]: an optional sign and at least one digit, within [int64]. *)
Definition Atoi (s : string) : option Z :=
  let '(neg, rest) :=
    match s with
    | String a s' =>
        if byte_val a =? 45 then (true, s')
        else if byte_val a =? 43 then (false, s') else (false, s)
    | EmptyString => (false, s)
    end in
  match rest with
  | EmptyString => None
  | _ =>
      n ← digits_val 0 rest;
      let v := if neg : bool then - n else n in
      if (- 2 ^ 63 <=? v) && (v <? 2 ^ 63) then Some v else None
  end.

(** ** Runes

    The number of bytes of the first UTF-8 sequence of a string, as [unicode/utf8]
    decodes it: an invalid sequence is one byte (and one rune, U+FFFD). *)
Definition in_range (lo hi : Z) (a : ascii) : bool :=
  (lo <=? byte_val a) && (byte_val a <=? hi).

Definition cont_byte : ascii -> bool := in_range 128 191.

Definition rune_len (s : string) : nat :=
  match s with
  | EmptyString => 0
  | String a (String b r) =>
      if in_range 194 223 a && cont_byte b then 2
      else match r with
      | String c r' =>
          if ((in_range 224 224 a && in_range 160 191 b) ||
              (in_range 237 237 a && in_range 128 159 b) ||
              ((in_range 225 236 a || in_range 238 239 a) && cont_byte b)) && cont_byte c
          then 3
          else match r' with
          | String d _ =>
              if ((in_range 240 240 a && in_range 144 191 b) ||
                  (in_range 244 244 a && in_range 128 143 b) ||
                  (in_range 241 243 a && cont_byte b)) && cont_byte c && cont_byte d
              then 4 else 1
          | EmptyString => 1
          end
      | EmptyString => 1
      end
  | _ => 1
  end%nat.

(** [[]rune(s)], each rune as its bytes; a turn consumes at least one byte. *)
Fixpoint runes_fuel (fuel : nat) (s : string) : list string :=
  match fuel, s with
  | S fuel', String _ _ =>
      let n := rune_len s in str_take n s :: runes_fuel fuel' (str_drop n s)
  | _, _ => []
  end.

Definition runes (s : string) : list string := runes_fuel (String.length s) s.

Definition RuneCount (s : string) : nat := length (runes s).

Fixpoint str_repeat (n : nat) (s : string) : string :=
  match n with O => EmptyString | S n' => s +:+ str_repeat n' s end.

(** The verbs [%-ns] and [%ns]: pad to [n] runes. *)
Definition pad_right (n : nat) (s : string) : string := s +:+ str_repeat (n - RuneCount s) " ".
Definition pad_left (n : nat) (s : string) : string := str_repeat (n - RuneCount s) " " +:+ s.

(** ** Lemmas: append, length, slices *)

Lemma str_app_nil_l s : EmptyString +:+ s = s.
Proof. reflexivity. Qed.

Lemma str_app_cons a s t : String a s +:+ t = String a (s +:+ t).
Proof. reflexivity. Qed.

Lemma str_app_nil_r s : s +:+ EmptyString = s.
Proof. induction s as [|a s IH]; [done|]. by rewrite str_app_cons, IH. Qed.

Lemma str_app_assoc (s t u : string) : (s +:+ t) +:+ u = s +:+ (t +:+ u).
Proof. induction s as [|a s IH]; [done|]. by rewrite !str_app_cons, IH. Qed.

Lemma str_length_app s t :
  String.length (s +:+ t) = (String.length s + String.length t)%nat.
Proof. induction s as [|a s IH]; [done|]. rewrite str_app_cons. simpl. by rewrite IH. Qed.

Lemma str_slice_in_range s a b :
  0 <= a <= b -> b <= Z.of_nat (String.length s) ->
  str_slice s a b = Some (str_take (Z.to_nat (b - a)) (str_drop (Z.to_nat a) s)).
Proof.
  intros. unfold str_slice. by rewrite (proj2 (Z.leb_le 0 a)), (proj2 (Z.leb_le a b)), (proj2 (Z.leb_le b _)) by lia.
Qed.

(** Of a prefix. *)
Lemma str_slice_prefix s n : (n <= String.length s)%nat -> str_slice s 0 (Z.of_nat n) = Some (str_take n s).
Proof. intros. rewrite str_slice_in_range by lia. by rewrite Z.sub_0_r, Nat2Z.id. Qed.

Lemma str_get_lt n s : (n < String.length s)%nat -> is_Some (String.get n s).
Proof. revert s; induction n as [|n IH]; intros [|a s] H; cbn in *; [lia|done|lia|]. apply IH. lia. Qed.

Lemma str_index_in_range s i : 0 <= i < Z.of_nat (String.length s) -> is_Some (str_index s i).
Proof. intros. unfold str_index. rewrite (proj2 (Z.ltb_ge i 0)) by lia. apply str_get_lt. lia. Qed.

Lemma str_take_length n s :
  (n <= String.length s)%nat -> String.length (str_take n s) = n.
Proof.
  revert s; induction n as [|n IH]; intros [|a s] H; simpl in *; try lia.
  rewrite IH; lia.
Qed.

Lemma str_take_drop n s : str_take n s +:+ str_drop n s = s.
Proof. revert s; induction n as [|n IH]; intros [|a s]; [done..|]. simpl. by rewrite str_app_cons, IH. Qed.

Lemma str_take_app s t : str_take (String.length s) (s +:+ t) = s.
Proof. induction s as [|a s IH]; [by destruct t|]. rewrite str_app_cons. simpl. by rewrite IH. Qed.

Lemma str_take_all n s : (String.length s <= n)%nat -> str_take n s = s.
Proof. revert s; induction n as [|n IH]; intros [|a s] H; cbn in *; [done|lia|done|]. by rewrite IH by lia. Qed.

Lemma str_drop_app s t : str_drop (String.length s) (s +:+ t) = t.
Proof. induction s as [|a s IH]; [by destruct t|]. rewrite str_app_cons. exact IH. Qed.

Lemma slice_to_Some s n t : slice_to s n = Some t -> String.length t = n.
Proof.
  unfold slice_to. case_match eqn:E; intros [= <-].
  apply str_take_length. by apply Nat.leb_le.
Qed.

Lemma slice_to_None s n : slice_to s n = None <-> (String.length s < n)%nat.
Proof. unfold slice_to. destruct (Nat.leb_spec n (String.length s)); split; intros; try done; lia. Qed.

Lemma ellipsize_length max s :
  (3 <= max)%nat -> (String.length (ellipsize max s) <= max)%nat.
Proof.
  intros Hm. unfold ellipsize.
  destruct (Nat.ltb_spec max (String.length s)); [|done].
  rewrite str_length_app, str_take_length by lia. simpl. lia.
Qed.

(** ** Lemmas: prefixes and search *)

Lemma prefix_nil s : String.prefix EmptyString s = true.
Proof. by destruct s. Qed.

Lemma prefix_iff p s : String.prefix p s = true <-> exists t, s = p +:+ t.
Proof.
  revert s; induction p as [|a p IH]; intros s.
  - rewrite prefix_nil. split; [by exists s|done].
  - destruct s as [|b s]; simpl; [split; [done|by intros [t ?]]|].
    destruct (Ascii.ascii_dec a b) as [->|Hne].
    + rewrite IH. split; intros [t Ht]; exists t; [by subst|]. by injection Ht.
    + split; [done|]. intros [t Ht]. by injection Ht as ->.
Qed.

Lemma HasPrefix_iff s p : HasPrefix s p = true <-> exists t, s = p +:+ t.
Proof. apply prefix_iff. Qed.

Lemma TrimPrefix_app p t : TrimPrefix (p +:+ t) p = t.
Proof.
  unfold TrimPrefix. replace (HasPrefix (p +:+ t) p) with true.
  - apply str_drop_app.
  - symmetry. apply HasPrefix_iff. eauto.
Qed.

Lemma Contains_iff s sub :
  Contains s sub = true <-> exists l r, s = l +:+ sub +:+ r.
Proof.
  induction s as [|a s IH].
  - change (String.prefix sub EmptyString || false = true <->
      exists l r, EmptyString = l +:+ sub +:+ r).
    rewrite orb_false_r, prefix_iff. split.
    + intros [t Ht]. by exists EmptyString, t.
    + intros ([|b l] & r & Hr); [by exists r|done].
  - change (String.prefix sub (String a s) || Contains s sub = true <->
      exists l r, String a s = l +:+ sub +:+ r).
    rewrite orb_true_iff, prefix_iff, IH. split.
    + intros [[t Ht]|(l & r & Hr)]; [by exists EmptyString, t|].
      exists (String a l), r. by rewrite Hr.
    + intros ([|b l] & r & Hr); [left; by exists r|].
      right. injection Hr as -> ->. eauto.
Qed.

Lemma IndexByte_Some s c i :
  IndexByte s c = Some i ->
  s = str_take i s +:+ String c (str_drop (S i) s) /\ IndexByte (str_take i s) c = None.
Proof.
  revert i; induction s as [|a s IH]; intros i H; simpl in H; [done|].
  case_bool_decide as E; simplify_eq; [done|].
  destruct (IndexByte s c) as [j|] eqn:Ej; simplify_eq/=.
  destruct (IH _ eq_refl) as [H1 H2]. split.
  - change (String a s = String a (str_take j s +:+ String c (str_drop (S j) s))).
    f_equal. exact H1.
  - simpl. rewrite bool_decide_eq_false_2 by done. by rewrite H2.
Qed.

Lemma IndexByte_lt s c i : IndexByte s c = Some i -> (i < String.length s)%nat.
Proof.
  revert i; induction s as [|a s IH]; intros i H; simpl in *; [done|]. case_bool_decide; simplify_eq; [lia|].
  destruct (IndexByte s c) as [j|]; simplify_eq/=. specialize (IH _ eq_refl). lia.
Qed.

Lemma IndexByte_app_None s t c :
  IndexByte s c = None ->
  IndexByte (s +:+ t) c = (fun i => (String.length s + i)%nat) <$> IndexByte t c.
Proof.
  induction s as [|a s IH]; intros H.
  - rewrite str_app_nil_l. by destruct (IndexByte t c).
  - rewrite str_app_cons. simpl in *. case_bool_decide; [done|].
    destruct (IndexByte s c); [done|]. rewrite IH by done. by destruct (IndexByte t c).
Qed.

Lemma SplitN2_app k v c :
  IndexByte k c = None -> SplitN2 (k +:+ String c v) c = (k, Some v).
Proof.
  intros Hk. unfold SplitN2. rewrite IndexByte_app_None by done. simpl.
  rewrite bool_decide_eq_true_2 by done. simpl.
  rewrite Nat.add_0_r, str_take_app.
  f_equal; f_equal. change (S (String.length k)) with (1 + String.length k)%nat.
  clear Hk. induction k as [|a k IH]; [done|]. exact IH.
Qed.

Lemma Contains_byte_IndexByte s c :
  Contains s (String c EmptyString) = bool_decide (is_Some (IndexByte s c)).
Proof.
  induction s as [|a s IH]; [done|].
  change (Contains (String a s) (String c EmptyString)) with
    (String.prefix (String c EmptyString) (String a s) || Contains s (String c EmptyString)).
  rewrite IH. simpl.
  destruct (Ascii.ascii_dec c a) as [->|Hne].
  - rewrite (bool_decide_eq_true_2 (a = a)) by done.
    rewrite (bool_decide_eq_true_2 (is_Some (Some 0%nat))) by eauto. by destruct s.
  - rewrite (bool_decide_eq_false_2 (a = c)) by done. simpl.
    apply bool_decide_ext. by rewrite fmap_is_Some.
Qed.

(** Splitting and joining are inverse. *)
Lemma Join_Split s c : Join (Split s c) (String c EmptyString) = s.
Proof.
  induction s as [|a s IH]; [done|]. simpl.
  case_bool_decide as E.
  - subst. rewrite <-IH at 2. destruct (Split s c) eqn:Es; [|done].
    destruct s; simpl in Es; [done|]. by repeat case_match.
  - destruct (Split s c) as [|h [|h' t]] eqn:Es; simpl in *; subst; done.
Qed.

#[export] Hint Rewrite str_app_nil_r str_app_assoc str_length_app str_take_app
  str_drop_app TrimPrefix_app Join_Split : castle_rw.
#[export] Hint Resolve slice_to_Some ellipsize_length : castle.

Example replace_example : ReplaceAll "a-b--c" "-" "+-" = "a+-b+-+-c".
Proof. reflexivity. Qed.

Example sprintf_example : Sprintf_s "Logs: %s" "web, db" = "Logs: web, db".
Proof. reflexivity. Qed.
