(* ===== verification/GoFloat.v ===== *)
(** * Go's [float64]

    IEEE 754 binary64 as the Standard Library's executable [spec_float], with the
    conversions and the fixed-precision formatting verbs the agent uses, and the
    facts on signs and NaN that its percentage computations rest on. *)
From Stdlib Require Export SpecFloat.
From S2P Require Import Prelude.
From S2P Require Import GoStrings.

Notation prec64 := 53 (only parsing).
Notation emax64 := 1024 (only parsing).

(** ** Values and operations *)

Definition float64 := spec_float.

#[export] Instance float64_eq_dec : EqDecision float64.
Proof. unfold float64. solve_decision. Defined.

Definition f64_zero : float64 := S754_zero false.
Definition f64_nan : float64 := S754_nan.

(** [float64(z)] for an integer [z], rounded to nearest even. *)
Definition f64_of_Z (z : Z) : float64 := binary_normalize prec64 emax64 z 0 false.

(** The float64 nearest to [n / d], as a decimal literal denotes it. *)
Definition f64_ratio (n : Z) (d : positive) : float64 :=
  let quot (s : bool) (p : positive) :=
    let '(mz, ez, lz) := SFdiv_core_binary prec64 emax64 (Zpos p) 0 (Zpos d) 0 in
    binary_round_aux prec64 emax64 s mz ez lz in
  match n with
  | Z0 => S754_zero false
  | Zpos p => quot false p
  | Zneg p => quot true p
  end.

Definition f64_add : float64 -> float64 -> float64 := SFadd prec64 emax64.
Definition f64_sub : float64 -> float64 -> float64 := SFsub prec64 emax64.
Definition f64_mul : float64 -> float64 -> float64 := SFmul prec64 emax64.
Definition f64_div : float64 -> float64 -> float64 := SFdiv prec64 emax64.

Definition f64_lt (a b : float64) : bool := SFltb a b.
Definition f64_le (a b : float64) : bool := SFleb a b.
Definition f64_eq (a b : float64) : bool := SFeqb a b.
Definition f64_gt (a b : float64) : bool := SFltb b a.
Definition f64_ge (a b : float64) : bool := SFleb b a.

(** [uint64(x)] for a finite [x >= 0]: truncation (the conversion of anything
    else is implementation-specific in Go; the agent never performs it). *)
Definition f64_trunc (x : float64) : Z :=
  match x with
  | S754_finite false m e => Z.shiftl (Zpos m) e
  | _ => 0
  end.

(** ** Formatting: [%.kf]

    [strconv] formats the exact value, rounding half to even at the last digit;
    an infinity is printed with its sign and a NaN without one. *)
Definition div_half_even (n d : Z) : Z :=
  let q := n / d in
  match 2 * (n mod d) ?= d with
  | Lt => q
  | Gt => q + 1
  | Eq => if Z.even q then q else q + 1
  end.

Definition f64_scaled (k : Z) (m : positive) (e : Z) : Z :=
  if 0 <=? e then Z.shiftl (Zpos m) e * 10 ^ k
  else div_half_even (Zpos m * 10 ^ k) (2 ^ (- e)).

Fixpoint zeros (n : nat) : string :=
  match n with O => EmptyString | S n' => String "0"%char (zeros n') end.

(** [z] in decimal, padded with zeros to [n] digits. *)
Definition pad_zeros (n : nat) (z : Z) : string :=
  let s := itoa z in zeros (n - String.length s) +:+ s.

Definition format_fixed (k : nat) (x : float64) : string :=
  let dec (v : Z) :=
    let p := 10 ^ Z.of_nat k in
    itoa (v / p) +:+ (match k with O => EmptyString | _ => "." +:+ pad_zeros k (v mod p) end) in
  match x with
  | S754_nan => "NaN"
  | S754_infinity s => if s then "-Inf" else "+Inf"
  | S754_zero s => (if s then "-" else EmptyString) +:+ dec 0
  | S754_finite s m e =>
      (if s then "-" else EmptyString) +:+ dec (f64_scaled (Z.of_nat k) m e)
  end.

(** ** Sign and NaN *)

(** A number that is neither NaN nor negative (the zero is the positive one). *)
Definition nonneg (x : float64) : Prop :=
  match x with
  | S754_zero false | S754_infinity false | S754_finite false _ _ => True
  | _ => False
  end.

(** A finite positive number. *)
Definition positive_finite (x : float64) : Prop :=
  match x with S754_finite false _ _ => True | _ => False end.

Lemma nonneg_not_nan x : nonneg x -> x <> S754_nan.
Proof. by destruct x. Qed.

Lemma nonneg_not_lt_zero x : nonneg x -> f64_lt x f64_zero = false.
Proof. by destruct x as [[]|[]| |[] m e]. Qed.

Lemma positive_finite_nonneg x : positive_finite x -> nonneg x.
Proof. by destruct x as [[]|[]| |[] m e]. Qed.

Lemma gt_zero_cases x :
  f64_gt x f64_zero = true -> positive_finite x \/ x = S754_infinity false.
Proof. destruct x as [[]|[]| |[] m e]; intros H; try done; [by right|by left]. Qed.

(** *** Shifting and rounding of mantissas *)

Section rounding.
Local Notation shr_1n n := (SpecFloat.iter_pos shr_1 n).

Lemma iter_pos_ind {A} (P : Z -> A -> Prop) (f : A -> A) (x : A) (n : positive) :
  P 0 x -> (forall k y, 0 <= k -> P k y -> P (k + 1) (f y)) -> P (Zpos n) (SpecFloat.iter_pos f n x).
Proof.
  intros H0 HS.
  enough (forall n k y, 0 <= k -> P k y -> P (k + Zpos n) (SpecFloat.iter_pos f n y)) as E.
  { by apply (E n 0 x). }
  clear n x H0. induction n as [n IH|n IH|]; intros k y Hk Hy; simpl.
  - replace (k + Zpos (n~1)) with (((k + 1) + Zpos n) + Zpos n) by lia.
    apply IH; [lia|]. apply IH; [lia|]. by apply HS.
  - replace (k + Zpos (n~0)) with ((k + Zpos n) + Zpos n) by lia.
    apply IH; [lia|]. by apply IH.
  - by apply HS.
Qed.

Lemma shr_1_m r : 0 <= shr_m r -> shr_m (shr_1 r) = shr_m r / 2.
Proof.
  destruct r as [[|p|p] b s]; simpl; intros H; [done| |lia].
  destruct p; simpl; [rewrite Pos2Z.inj_xI|rewrite Pos2Z.inj_xO|done];
    Z.to_euclidean_division_equations; lia.
Qed.

Lemma iter_shr_1_m n r :
  0 <= shr_m r -> shr_m (shr_1n n r) = shr_m r / 2 ^ Zpos n.
Proof.
  intros Hr.
  enough (0 <= shr_m (shr_1n n r) /\ shr_m (shr_1n n r) = shr_m r / 2 ^ Zpos n) by tauto.
  apply (iter_pos_ind (fun k y => 0 <= shr_m y /\ shr_m y = shr_m r / 2 ^ k)).
  - rewrite Z.pow_0_r, Z.div_1_r. done.
  - intros k y Hk [Hy Ey]. rewrite shr_1_m by done. split; [by apply Z.div_pos|].
    rewrite Ey, Z.div_div by lia. rewrite Z.pow_add_r by lia. done.
Qed.

Lemma shr_record_of_loc_m m l : shr_m (shr_record_of_loc m l) = m.
Proof. by destruct l as [|[]]. Qed.

(** What [shr_fexp] does to mantissa and exponent. *)
Lemma shr_fexp_spec m e l r e' :
  0 <= m -> shr_fexp prec64 emax64 m e l = (r, e') ->
  let n := fexp prec64 emax64 (Zdigits2 m + e) - e in
  shr_m r = m / 2 ^ Z.max 0 n /\ e' = e + Z.max 0 n.
Proof.
  intros Hm H n. unfold shr_fexp in H. fold n in H.
  assert (shr_m (shr_record_of_loc m l) = m) as Em by apply shr_record_of_loc_m.
  destruct n as [|p|p] eqn:En; unfold shr in H; simplify_eq.
  - rewrite Z.max_l, Z.pow_0_r, Z.div_1_r by lia. split; [done|lia].
  - rewrite Z.max_r by lia. rewrite iter_shr_1_m by lia. by rewrite Em.
  - rewrite Z.max_l, Z.pow_0_r, Z.div_1_r by lia. split; [done|lia].
Qed.

Lemma round_nearest_even_bounds m l :
  m <= round_nearest_even m l <= m + 1.
Proof. unfold round_nearest_even. repeat case_match; lia. Qed.

Lemma Zdigits2_bounds m : 0 < m -> 2 ^ (Zdigits2 m - 1) <= m < 2 ^ Zdigits2 m.
Proof.
  destruct m as [|p|p]; try lia. intros _. simpl.
  enough (2 ^ (Zpos (digits2_pos p) - 1) <= Zpos p < 2 ^ Zpos (digits2_pos p)) by done.
  induction p as [p IH|p IH|]; cbn [digits2_pos]; [| |done].
  all: rewrite Pos2Z.inj_succ, Z.pow_succ_r by lia.
  all: replace (Z.succ (Zpos (digits2_pos p)) - 1)
    with (Z.succ (Zpos (digits2_pos p) - 1)) by lia.
  all: rewrite Z.pow_succ_r by lia; lia.
Qed.

Lemma Zdigits2_pos m : 0 < m -> 1 <= Zdigits2 m.
Proof. destruct m; simpl; lia. Qed.

Lemma Zdigits2_le m k : 0 < m -> 0 <= k -> m <= 2 ^ k -> Zdigits2 m <= k + 1.
Proof.
  intros Hm Hk H. pose proof (Zdigits2_bounds m Hm).
  destruct (Z_le_gt_dec (Zdigits2 m) (k + 1)); [done|].
  assert (2 ^ (k + 1) <= 2 ^ (Zdigits2 m - 1)) by (apply Z.pow_le_mono_r; lia).
  rewrite Z.pow_add_r in * by lia. lia.
Qed.

(** Rounding keeps the sign and never makes a NaN. *)
Lemma binary_round_aux_sign s m e l :
  0 <= m ->
  match binary_round_aux prec64 emax64 s m e l with
  | S754_zero s' | S754_infinity s' | S754_finite s' _ _ => s' = s
  | S754_nan => False
  end.
Proof.
  intros Hm. unfold binary_round_aux.
  destruct (shr_fexp _ _ m e l) as [r1 e1] eqn:E1.
  destruct (shr_fexp_spec _ _ _ _ _ Hm E1) as [H1 _].
  assert (0 <= shr_m r1) by (rewrite H1; apply Z.div_pos; lia).
  pose proof (round_nearest_even_bounds (shr_m r1) (loc_of_shr_record r1)).
  destruct (shr_fexp _ _ (round_nearest_even _ _) e1 loc_Exact) as [r2 e2] eqn:E2.
  apply shr_fexp_spec in E2 as [H2 _]; [|lia].
  assert (0 <= shr_m r2) by (rewrite H2; apply Z.div_pos; lia).
  destruct (shr_m r2); [done| |lia]. by destruct (e2 <=? _).
Qed.

Lemma binary_round_aux_nonneg m e l :
  0 <= m -> nonneg (binary_round_aux prec64 emax64 false m e l).
Proof.
  intros Hm. pose proof (binary_round_aux_sign false m e l Hm).
  by destruct (binary_round_aux _ _ _ _ _ _) as [[]|[]| |[] ? ?].
Qed.
End rounding.

Lemma shl_align_spec m e e' m1 e1 :
  shl_align m e e' = (m1, e1) ->
  (e' < e /\ Zpos m1 = Zpos m * 2 ^ (e - e') /\ e1 = e') \/
  (e <= e' /\ m1 = m /\ e1 = e).
Proof.
  unfold shl_align. destruct (e' - e) as [|d|d] eqn:E; intros H;
    injection H as <- <-; [right; lia..|left].
  split; [lia|]. split; [|lia]. replace (e - e') with (Zpos d) by lia.
  clear E e e'. induction d as [|d IH] using Pos.peano_ind; [simpl; lia|].
  rewrite Pos.iter_succ, Pos2Z.inj_xO, IH, Pos2Z.inj_succ, Z.pow_succ_r by lia. lia.
Qed.

(** A finite positive number of moderate size. *)
Definition moderate (x : float64) : Prop :=
  match x with
  | S754_finite false m e => Zpos m < 2 ^ 68 /\ - 53 <= e <= 40
  | _ => False
  end.

Lemma moderate_positive x : moderate x -> positive_finite x.
Proof. by destruct x as [[]|[]| |[] m e]. Qed.

(** A mantissa of 53 to 65 bits with an exponent around zero rounds to a positive
    finite number. *)
Lemma binary_round_aux_moderate m e :
  2 ^ 52 <= m < 2 ^ 65 -> - 53 <= e <= 0 ->
  moderate (binary_round_aux prec64 emax64 false m e loc_Exact).
Proof.
  intros Hm He. unfold binary_round_aux.
  destruct (shr_fexp _ _ m e loc_Exact) as [r1 e1] eqn:E1.
  apply shr_fexp_spec in E1 as [H1 He1]; [|lia].
  assert (1 <= Zdigits2 m <= 66) as Hdm.
  { split; [apply Zdigits2_pos; lia|]. apply (Zdigits2_le _ 65); lia. }
  set (n1 := Z.max 0 _) in H1, He1.
  assert (0 <= n1 <= 13) as Hn1 by (unfold n1, fexp, emin; lia).
  assert (1 <= shr_m r1 < 2 ^ 66) as Hr1.
  { rewrite H1. assert (0 < 2 ^ n1) by (apply Z.pow_pos_nonneg; lia). split.
    - apply Z.div_le_lower_bound; [lia|].
      assert (2 ^ n1 <= 2 ^ 13) by (apply Z.pow_le_mono_r; lia). lia.
    - apply Z.div_lt_upper_bound; [lia|]. nia. }
  pose proof (round_nearest_even_bounds (shr_m r1) (loc_of_shr_record r1)) as Hrne.
  set (m2 := round_nearest_even _ _) in *.
  destruct (shr_fexp _ _ m2 e1 loc_Exact) as [r2 e2] eqn:E2.
  apply shr_fexp_spec in E2 as [H2 He2]; [|lia].
  assert (1 <= Zdigits2 m2 <= 67) as Hdm2.
  { split; [apply Zdigits2_pos; lia|]. apply (Zdigits2_le _ 66); lia. }
  set (n2 := Z.max 0 _) in H2, He2.
  assert (0 <= n2 <= Z.max 0 (Zdigits2 m2 - 53)) as Hn2 by (unfold n2, fexp, emin; lia).
  assert (1 <= shr_m r2) as Hr2.
  { rewrite H2. pose proof (Zdigits2_bounds m2 ltac:(lia)).
    apply Z.div_le_lower_bound; [apply Z.pow_pos_nonneg; lia|].
    assert (2 ^ n2 <= 2 ^ (Zdigits2 m2 - 1)) by (apply Z.pow_le_mono_r; lia). lia. }
  assert (shr_m r2 <= m2) as Hle.
  { rewrite H2. apply Z.div_le_upper_bound; [apply Z.pow_pos_nonneg; lia|].
    assert (1 <= 2 ^ n2) by (pose proof (Z.pow_pos_nonneg 2 n2); lia). nia. }
  destruct (shr_m r2) as [|q|q]; try lia.
  rewrite (proj2 (Z.leb_le e2 _)) by lia. split; lia.
Qed.

(** Rounding a mantissa and an exponent of moderate size does not overflow. *)
Lemma binary_round_aux_no_overflow s m e :
  0 <= m < 2 ^ 200 -> - 200 <= e <= 100 ->
  match binary_round_aux prec64 emax64 s m e loc_Exact with S754_infinity _ => False | _ => True end.
Proof.
  intros Hm He. unfold binary_round_aux.
  destruct (shr_fexp _ _ m e loc_Exact) as [r1 e1] eqn:E1.
  apply shr_fexp_spec in E1 as [H1 He1]; [|lia].
  assert (0 <= Zdigits2 m <= 201) as Hdm.
  { destruct (Z.eq_dec m 0) as [->|]; [cbn; lia|].
    split; [pose proof (Zdigits2_pos m); lia|]. apply (Zdigits2_le _ 200); lia. }
  set (n1 := Z.max 0 _) in H1, He1.
  assert (0 <= n1 <= 201) as Hn1 by (unfold n1, fexp, emin; lia).
  assert (0 <= shr_m r1 <= m) as Hr1.
  { rewrite H1. assert (1 <= 2 ^ n1) by (pose proof (Z.pow_pos_nonneg 2 n1); lia).
    split; [apply Z.div_pos; lia|]. apply Z.div_le_upper_bound; [lia|]. nia. }
  pose proof (round_nearest_even_bounds (shr_m r1) (loc_of_shr_record r1)) as Hrne.
  set (m2 := round_nearest_even _ _) in *.
  destruct (shr_fexp _ _ m2 e1 loc_Exact) as [r2 e2] eqn:E2.
  apply shr_fexp_spec in E2 as [H2 He2]; [|lia].
  assert (0 <= Zdigits2 m2 <= 201) as Hdm2.
  { destruct (Z.eq_dec m2 0) as [->|]; [cbn; lia|].
    split; [pose proof (Zdigits2_pos m2); lia|]. apply (Zdigits2_le _ 200); lia. }
  assert (e2 <= 971) by (unfold fexp, emin in He2; lia).
  destruct (shr_m r2) as [|q|q]; [done| |done].
  by rewrite (proj2 (Z.leb_le e2 _)) by lia.
Qed.

(** The conversion of a positive [uint64] is positive and finite. *)
Lemma f64_of_Z_moderate z : 0 < z < 2 ^ 64 -> moderate (f64_of_Z z).
Proof.
  destruct z as [|p|p]; try lia. intros [_ Hp]. unfold f64_of_Z, binary_normalize, binary_round.
  pose proof (Zdigits2_bounds (Zpos p) ltac:(lia)) as Hd.
  pose proof (Zdigits2_pos (Zpos p) ltac:(lia)).
  assert (Zdigits2 (Zpos p) <= 65) as Hd65 by (apply (Zdigits2_le _ 64); lia).
  change (Zpos (digits2_pos p)) with (Zdigits2 (Zpos p)).
  set (d := Zdigits2 (Zpos p)) in *.
  destruct (shl_align p 0 _) as [m1 e1] eqn:Es.
  assert (fexp prec64 emax64 (d + 0) = d - 53) as Hf by (unfold fexp, emin; lia).
  rewrite Hf in Es. apply shl_align_spec in Es.
  apply binary_round_aux_moderate; destruct Es as [(? & Hm & ?)|(? & -> & ?)]; try lia.
  - assert (2 ^ (d - 1) * 2 ^ (53 - d) = 2 ^ 52) by (rewrite <-Z.pow_add_r by lia; f_equal; lia).
    assert (2 ^ d * 2 ^ (53 - d) = 2 ^ 53) by (rewrite <-Z.pow_add_r by lia; f_equal; lia).
    assert (0 < 2 ^ (53 - d)) by (apply Z.pow_pos_nonneg; lia).
    replace (0 - (d - 53)) with (53 - d) in Hm by lia. nia.
  - assert (2 ^ 52 <= 2 ^ (d - 1)) by (apply Z.pow_le_mono_r; lia). lia.
Qed.

Lemma f64_of_Z_positive z : 0 < z < 2 ^ 64 -> positive_finite (f64_of_Z z).
Proof. intros. by apply moderate_positive, f64_of_Z_moderate. Qed.

Lemma f64_of_Z_nonneg z : is_u64 z -> nonneg (f64_of_Z z).
Proof.
  intros Hz. destruct (Z.eq_dec z 0) as [->|]; [done|].
  apply positive_finite_nonneg, f64_of_Z_positive. unfold is_u64 in Hz. lia.
Qed.

Lemma f64_div_nonneg x y :
  nonneg x -> positive_finite y -> nonneg (f64_div x y).
Proof.
  destruct x as [[]|[]| |[] mx ex], y as [[]|[]| |[] my ey]; intros Hx Hy; try done.
  unfold f64_div, SFdiv.
  destruct (SFdiv_core_binary _ _ _ _ _ _) as [[mz ez] lz] eqn:E.
  simpl xorb. apply binary_round_aux_nonneg.
  unfold SFdiv_core_binary in E.
  set (m' := match _ with Z0 => _ | Zpos _ => _ | Zneg _ => _ end) in E.
  assert (0 <= m') as Hm'.
  { unfold m'. repeat case_match; try lia. apply Z.shiftl_nonneg. lia. }
  pose proof (Z_div_mod m' (Zpos my) ltac:(lia)) as Hdm.
  destruct (Z.div_eucl m' (Zpos my)) as [q r]. simplify_eq. nia.
Qed.

Lemma f64_mul_nonneg x y :
  nonneg x -> positive_finite y -> nonneg (f64_mul x y).
Proof.
  destruct x as [[]|[]| |[] mx ex], y as [[]|[]| |[] my ey]; intros Hx Hy; try done.
  unfold f64_mul, SFmul. simpl xorb. apply binary_round_aux_nonneg. lia.
Qed.

Lemma binary_normalize_no_overflow d e :
  Z.abs d < 2 ^ 199 -> - 53 <= e <= 40 ->
  match binary_normalize prec64 emax64 d e false with S754_infinity _ => False | _ => True end.
Proof.
  intros Hd He.
  assert (forall s p, Zpos p < 2 ^ 199 ->
    match binary_round prec64 emax64 s p e with S754_infinity _ => False | _ => True end) as H.
  { intros s p Hp. unfold binary_round. destruct (shl_align p e _) as [m1 e1] eqn:Es.
    pose proof (Zdigits2_le (Zpos p) 199 ltac:(lia) ltac:(lia) ltac:(lia)) as Hdg.
    pose proof (Zdigits2_pos (Zpos p) ltac:(lia)).
    pose proof (Zdigits2_bounds (Zpos p) ltac:(lia)) as Hb.
    change (Zpos (digits2_pos p)) with (Zdigits2 (Zpos p)) in Es.
    set (dg := Zdigits2 (Zpos p)) in *.
    assert (fexp prec64 emax64 (dg + e) = dg + e - 53) as Hf by (unfold fexp, emin; lia).
    rewrite Hf in Es. apply shl_align_spec in Es.
    apply binary_round_aux_no_overflow; destruct Es as [(? & Hm & ?)|(? & -> & ?)]; try lia.
    split; [lia|]. rewrite Hm. replace (e - (dg + e - 53)) with (53 - dg) by lia.
    assert (2 ^ dg * 2 ^ (53 - dg) = 2 ^ 53) by (rewrite <-Z.pow_add_r by lia; f_equal; lia).
    assert (0 < 2 ^ (53 - dg)) by (apply Z.pow_pos_nonneg; lia). nia. }
  destruct d as [|p|p]; [done|apply (H false); lia|apply (H true); lia].
Qed.

(** The difference of two converted [uint64] values is finite. *)
Lemma f64_sub_no_overflow a b :
  is_u64 a -> is_u64 b ->
  match f64_sub (f64_of_Z a) (f64_of_Z b) with S754_infinity _ => False | _ => True end.
Proof.
  intros Ha Hb. unfold is_u64 in *.
  assert (forall z, 0 <= z < 2 ^ 64 -> z = 0 \/ moderate (f64_of_Z z)) as H.
  { intros z Hz. destruct (Z.eq_dec z 0); [by left|right; apply f64_of_Z_moderate; lia]. }
  destruct (H a Ha) as [->|Ma], (H b Hb) as [->|Mb].
  - done.
  - change (f64_of_Z 0) with (S754_zero false). by destruct (f64_of_Z b) as [[]|[]| |[] m e].
  - change (f64_of_Z 0) with (S754_zero false). by destruct (f64_of_Z a) as [[]|[]| |[] m e].
  - destruct (f64_of_Z a) as [[]|[]| |[] ma ea], (f64_of_Z b) as [[]|[]| |[] mb eb]; try done.
    destruct Ma as [Hma Hea], Mb as [Hmb Heb]. unfold f64_sub, SFsub. cbn zeta.
    set (ez := Z.min ea eb).
    destruct (shl_align ma ea ez) as [m1 e1] eqn:E1, (shl_align mb eb ez) as [m2 e2] eqn:E2.
    assert (forall m e m' e', Zpos m < 2 ^ 68 -> -53 <= e <= 40 -> ez <= e -> -53 <= ez ->
      shl_align m e ez = (m', e') -> Zpos m' < 2 ^ 162) as Hs.
    { intros m e m' e' Hm He Hz Hz' [(? & Hm' & _)|(? & -> & _)]%shl_align_spec; [|lia].
      assert (2 ^ (e - ez) <= 2 ^ 93) by (apply Z.pow_le_mono_r; lia). nia. }
    apply binary_normalize_no_overflow; [|lia].
    apply Hs in E1, E2; try lia. cbn [fst SpecFloat.cond_Zopp]. clear -E1 E2. lia.
Qed.

Lemma f64_sub_positive a b :
  is_u64 a -> is_u64 b -> f64_gt (f64_sub (f64_of_Z a) (f64_of_Z b)) f64_zero = true ->
  positive_finite (f64_sub (f64_of_Z a) (f64_of_Z b)).
Proof.
  intros Ha Hb [?|E]%gt_zero_cases; [done|].
  pose proof (f64_sub_no_overflow a b Ha Hb) as H. by rewrite E in H.
Qed.

Lemma f64_100_positive : positive_finite (f64_of_Z 100).
Proof. done. Qed.

#[export] Hint Resolve f64_of_Z_nonneg f64_div_nonneg f64_mul_nonneg
  positive_finite_nonneg f64_100_positive : castle.

(** The formatting verbs on the values of the repository's own tests. *)
Example format_95_5 : format_fixed 1 (f64_ratio 955 10) = "95.5".
Proof. reflexivity. Qed.
Example format_80 : format_fixed 1 (f64_of_Z 80) = "80.0".
Proof. reflexivity. Qed.
Example format_half_even : format_fixed 0 (f64_ratio 25 10) = "2".
Proof. reflexivity. Qed.
Example format_neg : format_fixed 1 (f64_ratio (-1) 4) = "-0.2".
Proof. reflexivity. Qed.
