(* ===== verification/GoTime.v ===== *)
(** * Go's [time] package, and the parsers of durations and floats

    An instant is its number of nanoseconds since the zero [time.Time]; a
    [time.Duration] is an [int64] number of nanoseconds. *)
From S2P Require Import Prelude.
From S2P Require Import GoStrings.
From S2P Require Import GoFloat.

(** ** Instants and durations *)

Definition Time := Z.
Definition Duration := Z.

Definition Nanosecond : Duration := 1.
Definition Millisecond : Duration := 10 ^ 6.
Definition Second : Duration := 10 ^ 9.
Definition Minute : Duration := 60 * Second.
Definition Hour : Duration := 60 * Minute.

Definition maxDuration : Duration := 2 ^ 63 - 1.
Definition minDuration : Duration := - 2 ^ 63.

(** [t.Sub(u)], which saturates at the range of [Duration]. *)
Definition Sub (t u : Time) : Duration := Z.max minDuration (Z.min maxDuration (t - u)).

(** The zero [time.Time]. *)
Definition zeroTime : Time := 0.

(** [d.Round(Second)]. *)
Definition Round_second (d : Duration) : Duration :=
  let r := Z.rem (Z.abs d) Second in
  if d <? 0 then
    if r + r <? Second then d + r else Z.max minDuration (d - Second + r)
  else if r + r <? Second then d - r else Z.min maxDuration (d + Second - r).

(** The digits of [z], [k] of them, without the trailing zeros. *)
Fixpoint frac_digits (k : nat) (z : Z) (started : bool) (acc : string) : string :=
  match k with
  | O => acc
  | S k' =>
      let digit := z mod 10 in
      let started := started || negb (digit =? 0) in
      frac_digits k' (z / 10) started (if started then itoa digit +:+ acc else acc)
  end.

Definition fmtFrac (k : nat) (z : Z) : string :=
  let s := frac_digits k z false "" in if bool_decide (s = "") then "" else "." +:+ s.

(** [d.String()]. *)
Definition Duration_String (d : Duration) : string :=
  let u := Z.abs d in
  let sign := if d <? 0 then "-" else "" in
  if u =? 0 then "0s"
  else if u <? 10 ^ 3 then sign +:+ itoa u +:+ "ns"
  else if u <? 10 ^ 6 then sign +:+ itoa (u / 10 ^ 3) +:+ fmtFrac 3 (u mod 10 ^ 3) +:+ "µs"
  else if u <? Second then sign +:+ itoa (u / 10 ^ 6) +:+ fmtFrac 6 (u mod 10 ^ 6) +:+ "ms"
  else
    let secs := u / Second in
    let s := itoa (secs mod 60) +:+ fmtFrac 9 (u mod Second) +:+ "s" in
    let mins := secs / 60 in
    sign +:+
    (if 0 <? mins then
       (if 0 <? mins / 60 then itoa (mins / 60) +:+ "h" else "") +:+ itoa (mins mod 60) +:+ "m" +:+ s
     else s).

(** ** Dates

    The calendar date of a day number ([0] is 1 January of year 1). *)
Definition civil (days : Z) : Z * Z * Z :=
  let z := days + 306 in
  let era := z / 146097 in
  let doe := z mod 146097 in
  let yoe := (doe - doe / 1460 + doe / 36524 - doe / 146096) / 365 in
  let doy := doe - (365 * yoe + yoe / 4 - yoe / 100) in
  let mp := (5 * doy + 2) / 153 in
  let d := doy - (153 * mp + 2) / 5 + 1 in
  let m := if mp <? 10 then mp + 3 else mp - 9 in
  (yoe + era * 400 + (if m <=? 2 then 1 else 0), m, d).

Definition pad2 (z : Z) : string := pad_zeros 2 z.

(** [t] shifted to a zone [offset] seconds east of UTC. *)
Definition in_zone (offset : Z) (t : Time) : Z := t + offset * Second.

Definition format_date (t : Z) : string :=
  let '(y, m, d) := civil (t / (24 * Hour)) in
  pad_zeros 4 y +:+ "-" +:+ pad2 m +:+ "-" +:+ pad2 d.

Definition format_clock (t : Z) : string :=
  let r := t mod (24 * Hour) in
  pad2 (r / Hour) +:+ ":" +:+ pad2 (r / Minute mod 60) +:+ ":" +:+ pad2 (r / Second mod 60).

(** [t.Format("15:04:05")]. *)
Definition Format_clock (offset : Z) (t : Time) : string := format_clock (in_zone offset t).

(** [t.Format("2006-01-02 15:04:05")]. *)
Definition Format_seconds (offset : Z) (t : Time) : string :=
  format_date (in_zone offset t) +:+ " " +:+ format_clock (in_zone offset t).

(** [t.Format("2006-01-02 15:04:05.000")]. *)
Definition Format_millis (offset : Z) (t : Time) : string :=
  Format_seconds offset t +:+ "." +:+
  pad_zeros 3 (in_zone offset t mod Second / Millisecond).

(** [time.Unix(s, 0)]: the Unix epoch is 719162 days after the zero time. *)
Definition Unix (s : Z) : Time := 719162 * 24 * Hour + s * Second.

(** ** [time.ParseDuration] *)

Definition is_digit (a : ascii) : bool := bool_decide (is_Some (digit_val a)).

(** [leadingInt]: [None] is an overflow of 2^63. *)
Fixpoint leadingInt (x : Z) (s : string) : option (Z * string) :=
  match s with
  | EmptyString => Some (x, s)
  | String a s' =>
      match digit_val a with
      | None => Some (x, s)
      | Some d =>
          if 2 ^ 63 / 10 <? x then None
          else let x' := x * 10 + d in
               if 2 ^ 63 <? x' then None else leadingInt x' s'
      end
  end.

(** [leadingFraction]: the digits as an integer and the power of ten under it;
    digits past the overflow are skipped. *)
Fixpoint leadingFraction (x scale : Z) (ovf : bool) (s : string) : Z * Z * string :=
  match s with
  | EmptyString => (x, scale, s)
  | String a s' =>
      match digit_val a with
      | None => (x, scale, s)
      | Some d =>
          if ovf then leadingFraction x scale true s'
          else if (2 ^ 63 - 1) / 10 <? x then leadingFraction x scale true s'
          else let y := x * 10 + d in
               if 2 ^ 63 <? y then leadingFraction x scale true s'
               else leadingFraction y (scale * 10) false s'
      end
  end.

(** The unit: the bytes up to the next digit or dot. *)
Fixpoint take_unit (s : string) : string * string :=
  match s with
  | EmptyString => (EmptyString, EmptyString)
  | String a s' =>
      if is_digit a || (byte_val a =? 46) then (EmptyString, s)
      else let '(u, r) := take_unit s' in (String a u, r)
  end.

(** [unitMap]; the micro sign is either U+00B5 or U+03BC. *)
Definition unitMap (u : string) : option Z :=
  if bool_decide (u = "ns") then Some Nanosecond
  else if bool_decide (u ∈ ["us"; "µs"; "μs"]) then Some 1000
  else if bool_decide (u = "ms") then Some Millisecond
  else if bool_decide (u = "s") then Some Second
  else if bool_decide (u = "m") then Some Minute
  else if bool_decide (u = "h") then Some Hour
  else None.

(** The [for s != ""] loop: [d] accumulates; each turn consumes at least one byte,
    so [String.length s] turns suffice. *)
Fixpoint parse_duration_loop (fuel : nat) (d : Z) (s : string) : option Z :=
  match s with
  | EmptyString => Some d
  | String a _ =>
      match fuel with
      | O => None
      | S fuel' =>
          if negb (is_digit a || (byte_val a =? 46)) then None else
          '(v, s1) ← leadingInt 0 s;
          let pre := bool_decide (String.length s <> String.length s1) in
          let '(f, scale, s2, post) :=
            match s1 with
            | String b s1' =>
                if byte_val b =? 46 then
                  let '(f, scale, s2) := leadingFraction 0 1 false s1' in
                  (f, scale, s2, bool_decide (String.length s1' <> String.length s2))
                else (0, 1, s1, false)
            | EmptyString => (0, 1, s1, false)
            end in
          if negb pre && negb post then None else
          let '(u, s3) := take_unit s2 in
          match u with
          | EmptyString => None
          | _ =>
              unit ← unitMap u;
              if 2 ^ 63 / unit <? v then None else
              let v1 := v * unit in
              let v2 := if 0 <? f
                then v1 + f64_trunc (f64_mul (f64_of_Z f) (f64_div (f64_of_Z unit) (f64_of_Z scale)))
                else v1 in
              if (0 <? f) && (2 ^ 63 <? v2) then None else
              let d' := wrap_u64 (d + v2) in
              if 2 ^ 63 <? d' then None else parse_duration_loop fuel' d' s3
          end
      end
  end.

Definition ParseDuration (s : string) : option Duration :=
  let '(neg, rest) :=
    match s with
    | String a s' =>
        if byte_val a =? 45 then (true, s')
        else if byte_val a =? 43 then (false, s') else (false, s)
    | EmptyString => (false, s)
    end in
  if bool_decide (rest = "0") then Some 0
  else match rest with
  | EmptyString => None
  | _ =>
      d ← parse_duration_loop (String.length rest) 0 rest;
      if neg : bool then Some (- d)
      else if 2 ^ 63 - 1 <? d then None else Some d
  end.

(** ** [strconv.ParseFloat(s, 64)]

    Decimal syntax is parsed here and rounded correctly.  Text with any other byte
    (hexadecimal floats, underscores, infinities, NaN) is left to the class. *)
Class FloatSyntax := { ParseFloat_other : string -> option float64 }.

Definition decimal_byte (a : ascii) : bool :=
  let v := byte_val a in
  is_digit a || (v =? 43) || (v =? 45) || (v =? 46) || (v =? 69) || (v =? 101).

Fixpoint take_digits (s : string) : string * string :=
  match s with
  | String a s' =>
      if is_digit a then let '(u, r) := take_digits s' in (String a u, r)
      else (EmptyString, s)
  | EmptyString => (EmptyString, EmptyString)
  end.

(** The exponent's digits; the accumulator stops growing at 10000. *)
Fixpoint exp_digits (e : Z) (s : string) : option Z :=
  match s with
  | EmptyString => Some e
  | String a s' => d ← digit_val a; exp_digits (if e <? 10000 then e * 10 + d else e) s'
  end.

Definition parse_exponent (s : string) : option Z :=
  match s with
  | EmptyString => Some 0
  | String a s' =>
      if (byte_val a =? 69) || (byte_val a =? 101) then
        let '(neg, ds) :=
          match s' with
          | String b s'' =>
              if byte_val b =? 45 then (true, s'')
              else if byte_val b =? 43 then (false, s'') else (false, s')
          | EmptyString => (false, s')
          end in
        match ds with
        | EmptyString => None
        | _ => e ← exp_digits 0 ds; Some (if neg : bool then - e else e)
        end
      else None
  end.

(** The float64 nearest to [m * 10^e]. *)
Definition f64_decimal (m e : Z) : float64 :=
  f64_ratio (m * 10 ^ Z.max 0 e) (Z.to_pos (10 ^ Z.max 0 (- e))).

Definition parse_decimal_float (s : string) : option float64 :=
  let '(neg, r0) :=
    match s with
    | String a s' =>
        if byte_val a =? 45 then (true, s')
        else if byte_val a =? 43 then (false, s') else (false, s)
    | EmptyString => (false, s)
    end in
  let '(int_digits, r1) := take_digits r0 in
  let '(frac_digits, r2) :=
    match r1 with
    | String a r1' => if byte_val a =? 46 then take_digits r1' else (EmptyString, r1)
    | EmptyString => (EmptyString, r1)
    end in
  let digits := int_digits +:+ frac_digits in
  match digits with
  | EmptyString => None
  | _ =>
      m ← digits_val 0 digits;
      e ← parse_exponent r2;
      let e' := e - Z.of_nat (String.length frac_digits) in
      let x := f64_decimal m e' in
      match x with
      | S754_infinity _ | S754_nan => None
      | _ => Some (if neg : bool then SFopp x else x)
      end
  end.

Definition ParseFloat `{FloatSyntax} (s : string) : option float64 :=
  if str_forall decimal_byte s then parse_decimal_float s else ParseFloat_other s.

(** ** Lemmas *)

Lemma Sub_small t u : minDuration <= t - u <= maxDuration -> Sub t u = t - u.
Proof. unfold Sub. lia. Qed.

Lemma Sub_self t : Sub t t = 0.
Proof. rewrite Sub_small; unfold minDuration, maxDuration; lia. Qed.

Lemma Sub_mono t t' u : t <= t' -> Sub t u <= Sub t' u.
Proof. unfold Sub. lia. Qed.

(** A saturated difference compares with an in-range duration as the exact one. *)
Lemma Sub_lt_iff t u d :
  minDuration < d <= maxDuration -> Sub t u < d <-> t - u < d.
Proof. unfold Sub, minDuration, maxDuration. lia. Qed.

Lemma Sub_gt_iff t u d :
  minDuration <= d < maxDuration -> d < Sub t u <-> d < t - u.
Proof. unfold Sub, minDuration, maxDuration. lia. Qed.

(** The instant of the repository's handler test. *)
Example format_test_instant :
  Format_millis 0 (63833832000 * Second) = "2023-10-25 12:00:00.000".
Proof. vm_compute. reflexivity. Qed.
Example format_unix_epoch : Format_seconds (-3600) (Unix 0) = "1969-12-31 23:00:00".
Proof. vm_compute. reflexivity. Qed.
Example parse_1h30m : ParseDuration "1h30m" = Some (90 * Minute).
Proof. reflexivity. Qed.
Example parse_1_5s : ParseDuration "1.5s" = Some (1500 * Millisecond).
Proof. reflexivity. Qed.
Example parse_neg_ms : ParseDuration "-10ms" = Some (-10 * Millisecond).
Proof. reflexivity. Qed.
Example parse_no_unit : ParseDuration "5" = None.
Proof. reflexivity. Qed.
Example parse_overflow : ParseDuration "9223372036854775808ns" = None.
Proof. reflexivity. Qed.
Example parse_float_85_5 : parse_decimal_float "85.5" = Some (f64_ratio 171 2).
Proof. reflexivity. Qed.
Example parse_float_1e400 : parse_decimal_float "1e400" = None.
Proof. vm_compute. reflexivity. Qed.
Example atoi_9110 : Atoi "9110" = Some 9110.
Proof. reflexivity. Qed.
Example atoi_bad : Atoi "91x0" = None.
Proof. reflexivity. Qed.
Example atoi_range : Atoi "9223372036854775808" = None.
Proof. reflexivity. Qed.

#[export] Hint Resolve Sub_small Sub_self Sub_mono : castle.

Example duration_texts :
  Duration_String <$> [0; 150 * Second; 3723 * Second; 1500 * Millisecond; - Second; 1100; 2 * Millisecond] =
  ["0s"; "2m30s"; "1h2m3s"; "1.5s"; "-1s"; "1.1µs"; "2ms"].
Proof. vm_compute. reflexivity. Qed.

Example round_examples :
  Round_second <$> [1499 * Millisecond; 1500 * Millisecond; - 1500 * Millisecond; maxDuration] =
  [Second; 2 * Second; - 2 * Second; maxDuration].
Proof. vm_compute. reflexivity. Qed.
