(* ===== verification/GoUtf8.v ===== *)
(** * UTF-8 text

    What Go's [unicode/utf8] and [unicode/utf16] do with the bytes of a string: rewriting
    a string rune by rune, validity, the replacement of invalid bytes by U+FFFD, and the
    encoding of a rune.  [encoding/json] is built on these. *)
From S2P Require Import Prelude.
From S2P Require Import GoStrings.

Definition byte (z : Z) : ascii := Ascii.ascii_of_N (Z.to_N z).

Definition bytes_string (l : list Z) : string := foldr (fun z s => String (byte z) s) EmptyString l.

(** ** Rewriting from the left

    [f s] is what the head of [s] becomes and how many bytes that head has; [skip] bytes
    of [s] belong to a head already rewritten. *)
Fixpoint rewrite_from (f : string -> string * nat) (skip : nat) (s : string) : string :=
  match s with
  | EmptyString => EmptyString
  | String _ s' =>
      match skip with
      | S k => rewrite_from f k s'
      | O => (f s).1 +:+ rewrite_from f (Nat.pred (f s).2) s'
      end
  end.

Definition rewrite_runes (f : string -> string * nat) (s : string) : string := rewrite_from f 0 s.

(** ** Validity and sanitizing *)

(** The first rune of a non-empty string is one of UTF-8. *)
Definition head_valid (s : string) : bool :=
  match s with
  | EmptyString => false
  | String a _ => is_ascii_byte a || (2 <=? rune_len s)%nat
  end.

Fixpoint valid_from (skip : nat) (s : string) : bool :=
  match s with
  | EmptyString => true
  | String _ s' =>
      match skip with
      | S k => valid_from k s'
      | O => head_valid s && valid_from (Nat.pred (rune_len s)) s'
      end
  end.

(** [utf8.ValidString]. *)
Definition ValidString (s : string) : bool := valid_from 0 s.

(** U+FFFD. *)
Definition runeError : string := bytes_string [239; 191; 189].

Definition sanitize1 (s : string) : string * nat :=
  if head_valid s then (str_take (rune_len s) s, rune_len s) else (runeError, 1%nat).

(** Every byte that is not part of a valid rune replaced by U+FFFD, as a range over the
    runes of a string sees it. *)
Definition sanitize (s : string) : string := rewrite_runes sanitize1 s.

(** ** Encoding *)

Definition is_surrogate (r : Z) : bool := (55296 <=? r) && (r <=? 57343).

(** [utf8.EncodeRune]. *)
Definition encode_rune (r : Z) : string :=
  if (r <? 0) || is_surrogate r || (1114111 <? r) then runeError
  else if r <? 128 then bytes_string [r]
  else if r <? 2048 then bytes_string [192 + r / 64; 128 + r mod 64]
  else if r <? 65536 then bytes_string [224 + r / 4096; 128 + r / 64 mod 64; 128 + r mod 64]
  else bytes_string [240 + r / 262144; 128 + r / 4096 mod 64; 128 + r / 64 mod 64; 128 + r mod 64].

(** [utf16.DecodeRune]: the rune of a surrogate pair, U+FFFD otherwise. *)
Definition decode_surrogates (r1 r2 : Z) : Z :=
  if (55296 <=? r1) && (r1 <? 56320) && (56320 <=? r2) && (r2 <? 57344)
  then (r1 - 55296) * 1024 + (r2 - 56320) + 65536
  else 65533.

(** ** Lemmas *)

Lemma byte_val_byte z : 0 <= z < 256 -> byte_val (byte z) = z.
Proof.
  intros Hz. unfold byte_val, byte. rewrite Ascii.N_ascii_embedding by lia. lia.
Qed.

Lemma byte_val_range a : 0 <= byte_val a < 256.
Proof. unfold byte_val. pose proof (Ascii.N_ascii_bounded a). lia. Qed.

Lemma rune_len_bounds a s : (1 <= rune_len (String a s) <= String.length (String a s))%nat.
Proof. cbn -[in_range cont_byte]. destruct s as [|b [|c [|d s]]]; cbn -[in_range cont_byte]; repeat case_match; lia. Qed.

Lemma str_drop_nil n : str_drop n "" = "".
Proof. by destruct n. Qed.

Lemma str_length_drop n s : String.length (str_drop n s) = (String.length s - n)%nat.
Proof. revert s; induction n as [|n IH]; intros [|a s]; cbn; [lia..|done|apply IH]. Qed.

Lemma rewrite_from_drop f k s : rewrite_from f k s = rewrite_runes f (str_drop k s).
Proof.
  revert k; induction s as [|a s IH]; intros [|k]; [done..|]. cbn. apply IH.
Qed.

Lemma valid_from_drop k s : valid_from k s = ValidString (str_drop k s).
Proof. revert k; induction s as [|a s IH]; intros [|k]; [done..|]. cbn. apply IH. Qed.

Lemma str_drop_pred n a s : (1 <= n)%nat -> str_drop (Nat.pred n) s = str_drop n (String a s).
Proof. destruct n; [lia|done]. Qed.

(** One turn of a rewriting. *)
Lemma rewrite_runes_step f a s out n :
  f (String a s) = (out, n) -> (1 <= n)%nat ->
  rewrite_runes f (String a s) = out +:+ rewrite_runes f (str_drop n (String a s)).
Proof.
  intros Hf Hn. unfold rewrite_runes at 1. cbn [rewrite_from]. rewrite Hf. cbn [fst snd].
  by rewrite rewrite_from_drop, (str_drop_pred _ a).
Qed.

Lemma ValidString_step a s :
  ValidString (String a s) = head_valid (String a s) && ValidString (str_drop (rune_len (String a s)) (String a s)).
Proof.
  unfold ValidString at 1. cbn [valid_from]. rewrite valid_from_drop, (str_drop_pred _ a); [done|].
  apply rune_len_bounds.
Qed.

(** Induction along the runes of a string. *)
Lemma rune_ind (P : string -> Prop) :
  P "" -> (forall a s, P (str_drop (rune_len (String a s)) (String a s)) -> P (String a s)) -> forall s, P s.
Proof.
  intros H0 HS s. remember (String.length s) as n eqn:En. revert s En.
  induction n as [n IH] using lt_wf_ind; intros [|a s] ->; [done|]. apply HS.
  eapply IH; [|done]. rewrite str_length_drop. pose proof (rune_len_bounds a s). lia.
Qed.

(** The bytes of a valid rune determine it, whatever follows. *)
Lemma rune_len_app s t :
  (2 <= rune_len s)%nat -> rune_len (str_take (rune_len s) s +:+ t) = rune_len s.
Proof.
  destruct s as [|a [|b [|c [|d s]]]]; cbn -[in_range cont_byte]; intros H; try lia;
    repeat (case_match; cbn -[in_range cont_byte] in *; simplify_eq; try lia); try done;
    rewrite ?str_app_cons; cbn -[in_range cont_byte];
    repeat match goal with E : ?x = true |- context [?x] => rewrite E
                         | E : ?x = false |- context [?x] => rewrite E end; done.
Qed.

Lemma rune_len_ascii a s : is_ascii_byte a = true -> rune_len (String a s) = 1%nat.
Proof.
  unfold is_ascii_byte. intros Ha%Z.ltb_lt.
  assert (forall lo hi, 128 <= lo -> in_range lo hi a = false) as H.
  { intros lo hi Hlo. unfold in_range. rewrite (proj2 (Z.leb_gt lo _)) by lia. done. }
  cbn -[in_range cont_byte]. destruct s as [|b [|c [|d s]]]; [done|..];
    rewrite !H by lia; done.
Qed.

Lemma head_valid_app s t :
  head_valid s = true ->
  rune_len (str_take (rune_len s) s +:+ t) = rune_len s /\
  head_valid (str_take (rune_len s) s +:+ t) = true.
Proof.
  destruct s as [|a s]; [done|]. unfold head_valid at 1. intros Hv.
  destruct (is_ascii_byte a) eqn:Ea.
  - rewrite !rune_len_ascii by done. cbn [str_take]. rewrite str_app_cons. split; [by apply rune_len_ascii|].
    cbn. by rewrite Ea.
  - cbn [orb] in Hv. apply Nat.leb_le in Hv. pose proof (rune_len_app (String a s) t Hv) as E. split; [done|].
    destruct (rune_len (String a s)) as [|n] eqn:En; [lia|]. cbn [str_take] in *. rewrite str_app_cons in *.
    unfold head_valid. rewrite E, Ea. cbn [orb]. by apply Nat.leb_le.
Qed.

(** *** Single runes *)

(** [b] is the encoding of one rune. *)
Definition is_rune (b : string) : bool := head_valid b && (rune_len b =? String.length b)%nat.

Lemma is_rune_app b t :
  is_rune b = true -> rune_len (b +:+ t) = String.length b /\ head_valid (b +:+ t) = true.
Proof.
  unfold is_rune. intros [Hv Hl%Nat.eqb_eq]%andb_true_iff.
  pose proof (head_valid_app b t Hv) as H. rewrite Hl, str_take_all in H by done. exact H.
Qed.

Lemma is_rune_head s : head_valid s = true -> is_rune (str_take (rune_len s) s) = true.
Proof.
  intros Hv. pose proof (head_valid_app s "" Hv) as [Hl Hh]. rewrite !str_app_nil_r in *.
  unfold is_rune. rewrite Hh, Hl. cbn [andb]. apply Nat.eqb_eq. symmetry. apply str_take_length.
  destruct s as [|a s]; [done|]. apply rune_len_bounds.
Qed.

Lemma is_rune_length b : is_rune b = true -> (1 <= String.length b)%nat.
Proof. destruct b; [done|]. cbn. lia. Qed.

Lemma is_rune_error : is_rune runeError = true.
Proof. reflexivity. Qed.

Lemma is_rune_ascii a : is_ascii_byte a = true -> is_rune (String a "") = true.
Proof. intros Ha. unfold is_rune. rewrite rune_len_ascii by done. cbn. by rewrite Ha. Qed.

Lemma is_ascii_byte_byte z : 0 <= z < 128 -> is_ascii_byte (byte z) = true.
Proof. intros Hz. unfold is_ascii_byte. rewrite byte_val_byte by lia. apply Z.ltb_lt. lia. Qed.

Lemma in_range_byte lo hi z : 0 <= z < 256 -> lo <= z <= hi -> in_range lo hi (byte z) = true.
Proof. intros Hz H. unfold in_range. rewrite byte_val_byte by done. apply andb_true_iff. rewrite !Z.leb_le. lia. Qed.

Lemma in_range_byte_false lo hi z : 0 <= z < 256 -> z < lo \/ hi < z -> in_range lo hi (byte z) = false.
Proof. intros Hz H. unfold in_range. rewrite byte_val_byte by done. apply andb_false_iff. rewrite !Z.leb_gt. lia. Qed.

(** Every rune is encoded as one. *)
Lemma is_rune_encode r : is_rune (encode_rune r) = true.
Proof.
  unfold encode_rune. destruct ((r <? 0) || is_surrogate r || (1114111 <? r)) eqn:Eb; [done|].
  apply orb_false_iff in Eb as [[H0 Hs]%orb_false_iff Hm]. reflect_bools.
  assert (r < 55296 \/ 57343 < r) as Hs'.
  { unfold is_surrogate in Hs. apply andb_false_iff in Hs as [?|?]; reflect_bools; lia. }
  assert (forall z, 0 <= z mod 64 < 64) as Hmod by (intros z; apply Z.mod_pos_bound; lia).
  repeat case_match; reflect_bools.
  - by apply is_rune_ascii, is_ascii_byte_byte.
  - unfold is_rune, head_valid, bytes_string, foldr, rune_len, cont_byte.
    pose proof (Hmod r). assert (2 <= r / 64 < 32) by (split; [apply Z.div_le_lower_bound|apply Z.div_lt_upper_bound]; lia).
    rewrite !in_range_byte by lia. cbn. by rewrite ?orb_true_r.
  - unfold is_rune, head_valid, bytes_string, foldr, rune_len, cont_byte.
    pose proof (Hmod r). pose proof (Hmod (r / 64)).
    assert (r / 4096 = r / 64 / 64) as E by (by rewrite Z.div_div by lia).
    pose proof (Z.div_mod (r / 64) 64 ltac:(lia)). pose proof (Z.div_mod r 64 ltac:(lia)).
    rewrite E. set (q := r / 64 / 64) in *. set (m := (r / 64) mod 64) in *. set (l := r mod 64) in *.
    assert (0 <= q < 16) by lia.
    rewrite (in_range_byte_false 194 223) by lia. cbn [andb].
    rewrite (in_range_byte 128 191 (128 + l)) by lia.
    assert (q = 0 /\ 32 <= m \/ q = 13 /\ m < 32 \/ 1 <= q <= 12 \/ 14 <= q <= 15) as [[-> ?]|[[-> ?]|[?|?]]] by lia.
    + rewrite (in_range_byte 160 191) by lia. cbn. by rewrite ?orb_true_r.
    + rewrite (in_range_byte 128 159) by lia. cbn. by rewrite ?orb_true_r.
    + rewrite (in_range_byte 225 236) by lia. rewrite (in_range_byte 128 191 (128 + m)) by lia.
      cbn [orb andb]. rewrite ?orb_true_r. cbn. by rewrite ?orb_true_r.
    + rewrite (in_range_byte 238 239) by lia. rewrite (in_range_byte 128 191 (128 + m)) by lia.
      rewrite (orb_true_r (in_range 225 236 _)). cbn [orb andb]. rewrite ?orb_true_r. cbn. by rewrite ?orb_true_r.
  - unfold is_rune, head_valid, bytes_string, foldr, rune_len, cont_byte.
    pose proof (Hmod r). pose proof (Hmod (r / 64)). pose proof (Hmod (r / 4096)).
    assert (r / 4096 = r / 64 / 64) as E by (by rewrite Z.div_div by lia).
    assert (r / 262144 = r / 64 / 64 / 64) as E' by (by rewrite !Z.div_div by lia).
    pose proof (Z.div_mod (r / 64 / 64) 64 ltac:(lia)).
    pose proof (Z.div_mod (r / 64) 64 ltac:(lia)). pose proof (Z.div_mod r 64 ltac:(lia)).
    rewrite E', E in *. set (q := r / 64 / 64 / 64) in *. set (k := (r / 64 / 64) mod 64) in *.
    set (m := (r / 64) mod 64) in *. set (l := r mod 64) in *.
    assert (0 <= q < 5) by lia.
    rewrite (in_range_byte_false 194 223), (in_range_byte_false 224 224), (in_range_byte_false 237 237),
      (in_range_byte_false 225 236), (in_range_byte_false 238 239) by lia. cbn [andb orb].
    rewrite (in_range_byte 128 191 (128 + l)), (in_range_byte 128 191 (128 + m)) by lia.
    assert (q = 0 /\ 16 <= k \/ q = 4 /\ k < 16 \/ 1 <= q <= 3) as [[-> ?]|[[-> ?]|?]] by lia.
    + rewrite (in_range_byte 144 191) by lia. cbn. by rewrite ?orb_true_r.
    + rewrite (in_range_byte 128 143) by lia. cbn. by rewrite ?orb_true_r.
    + rewrite (in_range_byte 241 243) by lia. rewrite (in_range_byte 128 191 (128 + k)) by lia.
      cbn [orb andb]. rewrite ?orb_true_r. cbn. by rewrite ?orb_true_r.
Qed.

#[export] Hint Resolve is_rune_error is_rune_encode is_rune_ascii is_rune_head : castle.

(** *** Strings of runes *)

Lemma ValidString_rune b t : is_rune b = true -> ValidString (b +:+ t) = ValidString t.
Proof.
  intros Hb. pose proof (is_rune_app b t Hb) as [Hl Hv]. destruct b as [|a b]; [done|].
  rewrite str_app_cons in *. rewrite ValidString_step, Hv, Hl. cbn [andb].
  by rewrite <-str_app_cons, str_drop_app.
Qed.

Lemma sanitize_step a s :
  sanitize (String a s) =
  if head_valid (String a s)
  then str_take (rune_len (String a s)) (String a s) +:+ sanitize (str_drop (rune_len (String a s)) (String a s))
  else runeError +:+ sanitize s.
Proof.
  unfold sanitize. destruct (head_valid (String a s)) eqn:E.
  - apply rewrite_runes_step; [by unfold sanitize1; rewrite E|apply rune_len_bounds].
  - change s with (str_drop 1 (String a s)) at 2. apply rewrite_runes_step; [by unfold sanitize1; rewrite E|lia].
Qed.

Lemma sanitize_rune b t : is_rune b = true -> sanitize (b +:+ t) = b +:+ sanitize t.
Proof.
  intros Hb. pose proof (is_rune_app b t Hb) as [Hl Hv]. destruct b as [|a b]; [done|].
  rewrite str_app_cons in *. rewrite sanitize_step, Hv, Hl.
  rewrite <-str_app_cons. by rewrite str_take_app, str_drop_app.
Qed.

(** Rewriting to runes, or to nothing, yields valid text. *)
Lemma rewrite_runes_valid f s :
  (forall a s, (1 <= (f (String a s)).2)%nat /\ is_rune (f (String a s)).1 = true) ->
  ValidString (rewrite_runes f s) = true.
Proof.
  intros Hf. remember (String.length s) as n eqn:En. revert s En.
  induction n as [n IH] using lt_wf_ind; intros [|a s] ->; [done|].
  destruct (Hf a s) as [Hn Hr]. destruct (f (String a s)) as [out k] eqn:E. cbn in Hn, Hr.
  rewrite (rewrite_runes_step _ _ _ _ _ E Hn), ValidString_rune by done.
  eapply IH; [|done]. rewrite str_length_drop. cbn. lia.
Qed.

Lemma sanitize1_rune a s : (1 <= (sanitize1 (String a s)).2)%nat /\ is_rune (sanitize1 (String a s)).1 = true.
Proof.
  unfold sanitize1. destruct (head_valid (String a s)) eqn:E; cbn [fst snd].
  - split; [apply rune_len_bounds|by apply is_rune_head].
  - split; [lia|done].
Qed.

Lemma sanitize_valid s : ValidString (sanitize s) = true.
Proof. apply rewrite_runes_valid, sanitize1_rune. Qed.

(** Valid text is left as it is. *)
Lemma sanitize_id s : ValidString s = true -> sanitize s = s.
Proof.
  induction s as [|a s IH] using rune_ind; [done|]. rewrite ValidString_step. intros [Hv Hs]%andb_true_iff.
  rewrite sanitize_step, Hv, IH by done. apply str_take_drop.
Qed.

Lemma sanitize_nonempty s : s <> "" -> sanitize s <> "".
Proof.
  destruct s as [|a s]; [done|]. intros _. rewrite sanitize_step. destruct (head_valid _) eqn:E; [|done].
  pose proof (is_rune_length _ (is_rune_head _ E)). intros H'. apply (f_equal String.length) in H'.
  rewrite str_length_app in H'. cbn [String.length] in *. lia.
Qed.

Lemma sanitize_idemp s : sanitize (sanitize s) = sanitize s.
Proof. apply sanitize_id, sanitize_valid. Qed.

Lemma str_forall_ascii_valid s : str_forall is_ascii_byte s = true -> ValidString s = true.
Proof.
  induction s as [|a s IH]; [done|]. cbn [str_forall]. intros [Ha Hs]%andb_true_iff.
  change (String a s) with (String a "" +:+ s). rewrite ValidString_rune; [by apply IH|by apply is_rune_ascii].
Qed.

Example encode_euro : encode_rune 8364 = "€".
Proof. reflexivity. Qed.
Example encode_whale : encode_rune (decode_surrogates 55357 56371) = "🐳".
Proof. reflexivity. Qed.
Example sanitize_example : sanitize (bytes_string [104; 255; 105; 226; 130]) = "h�i��".
Proof. reflexivity. Qed.
