(* ===== verification/GoDigits.v ===== *)
(** * Decimal digits

    The text of an integer ([strconv.Itoa], [FormatUint]) and reading digits back
    ([ParseUint]): shared by the float formats and by JSON. *)
From S2P Require Import Prelude.
From S2P Require Import GoStrings.
From S2P Require Import GoFloat.
From S2P Require Import GoTime.
From S2P Require Import GoUtf8.
From Stdlib Require Import Zwf.

(** [strconv.ParseUint(s, 10, 64)]. *)
Definition ParseUint (s : string) : option Z :=
  match s with
  | EmptyString => None
  | _ => n ← digits_val 0 s; if n <? 2 ^ 64 then Some n else None
  end.

(** ** The digits of an integer *)

Lemma pretty_N_go_app x s : pretty_N_go x s = pretty_N_go x "" +:+ s.
Proof.
  revert s. induction (N.lt_wf_0 x) as [x _ IH]; intros s.
  destruct (N.eq_dec x 0%N) as [->|Hx]; [by rewrite !pretty_N_go_0|].
  rewrite (pretty_N_go_step x s), (pretty_N_go_step x "") by lia.
  assert (x `div` 10 < x)%N as Hlt by (apply N.div_lt; lia).
  rewrite (IH _ Hlt), (IH _ Hlt (String _ "")). by rewrite str_app_assoc.
Qed.

Lemma itoa_N x : itoa (Z.of_N x) = if decide (x = 0)%N then "0" else pretty_N_go x "".
Proof. by destruct x. Qed.

Lemma itoa_digit z : 0 <= z < 10 -> itoa z = String (byte (48 + z)) "".
Proof.
  intros Hz. assert (z ∈ (seqZ 0 10)) as Hin by (apply elem_of_seqZ; lia).
  revert z Hin Hz. apply (Forall_forall (fun z => 0 <= z < 10 -> itoa z = String (byte (48 + z)) "")). by repeat constructor.
Qed.

Lemma itoa_step z : 10 <= z -> itoa z = itoa (z / 10) +:+ itoa (z mod 10).
Proof.
  intros Hz. pose proof (Z.mod_pos_bound z 10 ltac:(lia)). 
  replace z with (Z.of_N (Z.to_N z)) by lia. set (x := Z.to_N z). assert (10 <= x)%N as Hx by lia.
  change 10 with (Z.of_N 10). rewrite <-N2Z.inj_div, <-N2Z.inj_mod, !itoa_N.
  assert (x / 10 <> 0)%N as Hd. { intros E%N.div_small_iff; lia. }
  rewrite (decide_False (P := (x = 0)%N)) by lia. rewrite (decide_False (P := (x `div` 10 = 0)%N)) by done.
  rewrite (pretty_N_go_step x) by lia. rewrite pretty_N_go_app. f_equal.
  pose proof (N.mod_lt x 10 ltac:(lia)) as Hm. destruct (decide (x mod 10 = 0)%N) as [->|Hm0]; [done|].
  revert Hm Hm0. generalize (x mod 10)%N as m. intros m Hm Hm0.
  rewrite pretty_N_go_step, (N.div_small m), (N.mod_small m) by lia. done.
Qed.

(** Induction on the digits of an integer. *)
Lemma dec_ind (P : Z -> Prop) :
  (forall z, 0 <= z < 10 -> P z) -> (forall z, 10 <= z -> P (z / 10) -> P z) -> forall z, 0 <= z -> P z.
Proof.
  intros H0 HS z Hz. revert Hz. induction (Zwf_well_founded 0 z) as [z _ IH]. intros Hz.
  destruct (Z_lt_le_dec z 10); [by apply H0|]. apply HS; [done|]. apply IH; [|apply Z.div_pos; lia].
  split; [done|apply Z.div_lt; lia].
Qed.

Lemma is_digit_iff a : is_digit a = true <-> 48 <= byte_val a <= 57.
Proof.
  unfold is_digit, digit_val. rewrite bool_decide_eq_true.
  destruct ((48 <=? byte_val a) && (byte_val a <=? 57)) eqn:E.
  - reflect_bools. split; [lia|eauto].
  - split; [by intros []|]. intros H. apply andb_false_iff in E as [E|E]; reflect_bools; lia.
Qed.

Lemma is_digit_false_iff a : is_digit a = false <-> ~ 48 <= byte_val a <= 57.
Proof. rewrite <-is_digit_iff. by destruct (is_digit a). Qed.

Lemma digit_val_byte z : 0 <= z < 10 -> digit_val (byte (48 + z)) = Some z.
Proof.
  intros Hz. unfold digit_val. rewrite byte_val_byte by lia.
  rewrite (proj2 (Z.leb_le _ _)), (proj2 (Z.leb_le _ _)) by lia. cbn [andb]. f_equal. lia.
Qed.

Lemma is_digit_byte z : 0 <= z < 10 -> is_digit (byte (48 + z)) = true.
Proof. intros Hz. apply is_digit_iff. rewrite byte_val_byte; lia. Qed.

(** A non-empty string of digits. *)
Definition all_digits (s : string) : bool := str_forall is_digit s.

Lemma str_forall_app p s t : str_forall p (s +:+ t) = str_forall p s && str_forall p t.
Proof. induction s as [|a s IH]; [done|]. rewrite str_app_cons. cbn. by rewrite IH, andb_assoc. Qed.

Lemma digits_val_app a s t : digits_val a (s +:+ t) = digits_val a s ≫= fun b => digits_val b t.
Proof.
  revert a; induction s as [|c s IH]; intros a; [done|]. rewrite str_app_cons. cbn [digits_val].
  destruct (digit_val c); [|done]. apply IH.
Qed.

Lemma all_digits_itoa z : 0 <= z -> all_digits (itoa z) = true.
Proof.
  revert z. apply dec_ind; intros z Hz.
  - rewrite itoa_digit by done. cbn. by rewrite is_digit_byte.
  - intros IH. rewrite itoa_step by done. unfold all_digits. rewrite str_forall_app.
    unfold all_digits in IH. rewrite IH, itoa_digit by (apply Z.mod_pos_bound; lia). cbn.
    by rewrite is_digit_byte by (apply Z.mod_pos_bound; lia).
Qed.

Lemma digits_val_itoa a z :
  0 <= z -> digits_val a (itoa z) = Some (a * 10 ^ Z.of_nat (String.length (itoa z)) + z).
Proof.
  intros Hz. revert a. revert z Hz. apply (dec_ind (fun z => forall a, _)).
  - intros z Hz a. rewrite itoa_digit by done. cbn [digits_val]. rewrite digit_val_byte by done. cbn. f_equal. lia.
  - intros z Hz IH a. rewrite itoa_step by done. pose proof (Z.mod_pos_bound z 10 ltac:(lia)).
    rewrite digits_val_app, IH, str_length_app, Nat2Z.inj_add, Z.pow_add_r by lia.
    rewrite (itoa_digit (z mod 10)) by done. cbn [mbind option_bind digits_val]. rewrite digit_val_byte by done.
    cbn [mbind option_bind digits_val String.length]. f_equal. pose proof (Z.div_mod z 10 ltac:(lia)).
    change (10 ^ Z.of_nat 1) with 10. lia.
Qed.

Lemma itoa_length z :
  0 < z -> 10 ^ (Z.of_nat (String.length (itoa z)) - 1) <= z < 10 ^ Z.of_nat (String.length (itoa z)).
Proof.
  intros Hz. assert (0 <= z) as Hz' by lia. revert z Hz' Hz. apply (dec_ind (fun z => 0 < z -> _)).
  - intros z Hz Hp. rewrite itoa_digit by done. cbn. lia.
  - intros z Hz IH _. rewrite itoa_step by done. pose proof (Z.mod_pos_bound z 10 ltac:(lia)).
    rewrite str_length_app, (itoa_digit (z mod 10)) by done. cbn [String.length].
    assert (0 < z / 10) as Hd by (apply Z.div_str_pos; lia). specialize (IH Hd).
    pose proof (Z.div_mod z 10 ltac:(lia)). set (n := String.length (itoa (z / 10))) in *.
    replace (Z.of_nat (n + 1) - 1) with (Z.of_nat n) by lia.
    replace (Z.of_nat (n + 1)) with (Z.of_nat n + 1) by lia. rewrite Z.pow_add_r by lia.
    assert (1 <= Z.of_nat n) by (destruct n; [cbn in IH; lia|lia]).
    assert (10 ^ Z.of_nat n = 10 ^ (Z.of_nat n - 1) * 10) as E.
    { replace (Z.of_nat n) with ((Z.of_nat n - 1) + 1) at 1 by lia.
      rewrite Z.pow_add_r by lia. lia. }
    lia.
Qed.

Lemma itoa_length_pos z : 0 <= z -> (1 <= String.length (itoa z))%nat.
Proof.
  revert z. apply dec_ind; intros z Hz; [by rewrite itoa_digit|]. intros IH. rewrite itoa_step, str_length_app by done. lia.
Qed.

(** The first digit of a positive integer is not zero. *)
Lemma itoa_head z : 0 < z -> exists a s, itoa z = String a s /\ 49 <= byte_val a <= 57 /\ all_digits s = true.
Proof.
  intros Hz. assert (0 <= z) as Hz' by lia. revert z Hz' Hz. apply (dec_ind (fun z => 0 < z -> _)).
  - intros z Hz Hp. rewrite itoa_digit by done. do 2 eexists. split; [done|]. rewrite byte_val_byte by lia. by split; [lia|].
  - intros z Hz IH _. rewrite itoa_step by done.
    destruct IH as (a & s & -> & Ha & Hs); [apply Z.div_str_pos; lia|].
    rewrite str_app_cons. do 2 eexists. split_and!; [done|lia..|]. unfold all_digits in *. rewrite str_forall_app, Hs.
    apply all_digits_itoa. apply Z.mod_pos_bound. lia.
Qed.

(** [FormatUint] and [ParseUint] are inverse on [uint64]. *)
Lemma ParseUint_itoa z : is_u64 z -> ParseUint (itoa z) = Some z.
Proof.
  intros Hz. unfold is_u64 in Hz. pose proof (itoa_length_pos z ltac:(lia)).
  unfold ParseUint. destruct (itoa z) eqn:E; [cbn in *; lia|]. rewrite <-E, digits_val_itoa by lia.
  cbn [mbind option_bind]. rewrite Z.mul_0_l, Z.add_0_l. by rewrite (proj2 (Z.ltb_lt _ _)) by lia.
Qed.

Lemma digit_val_range c d : digit_val c = Some d -> 0 <= d < 10.
Proof.
  unfold digit_val. destruct ((48 <=? byte_val c) && (byte_val c <=? 57)) eqn:E; [|done].
  reflect_bools. intros [= <-]. lia.
Qed.

Lemma digits_val_mono a s n : 0 <= a -> digits_val a s = Some n -> a <= n.
Proof.
  revert a; induction s as [|c s IH]; intros a Ha; cbn; [intros [= <-]; lia|].
  destruct (digit_val c) as [d|] eqn:E; [|done]. cbn. intros Hn.
  apply digit_val_range in E. specialize (IH (10 * a + d) ltac:(lia) Hn). lia.
Qed.

Lemma ParseUint_u64 s n : ParseUint s = Some n -> is_u64 n.
Proof.
  unfold ParseUint. destruct s as [|a s]; [done|]. destruct (digits_val 0 _) as [m|] eqn:E; [|done].
  cbn. destruct (m <? 2 ^ 64) eqn:El; [|done]. intros [= <-]. reflect_bools.
  split; [|done]. by apply digits_val_mono in E.
Qed.

(** *** Splitting off digits *)

Definition starts_digit (s : string) : bool := match s with String a _ => is_digit a | EmptyString => false end.

Lemma take_digits_app s t :
  all_digits s = true -> starts_digit t = false -> take_digits (s +:+ t) = (s, t).
Proof.
  intros Hs Ht. induction s as [|a s IH].
  - rewrite str_app_nil_l. destruct t as [|b t]; [done|]. cbn in *. by rewrite Ht.
  - cbn in Hs. apply andb_true_iff in Hs as [Ha Hs]. rewrite str_app_cons. cbn [take_digits]. by rewrite Ha, IH.
Qed.

Lemma take_digits_all s : all_digits s = true -> take_digits s = (s, "").
Proof. intros Hs. rewrite <-(str_app_nil_r s) at 1. by apply take_digits_app. Qed.

(** The capped accumulation of an exponent is exact on small ones. *)
Lemma exp_digits_exact a s n : 0 <= a -> digits_val a s = Some n -> n < 100000 -> exp_digits a s = Some n.
Proof.
  revert a; induction s as [|c s IH]; intros a Ha; cbn; [done|].
  destruct (digit_val c) as [d|] eqn:E; [|done]. cbn. intros Hn Hlt.
  apply digit_val_range in E. pose proof (digits_val_mono (10 * a + d) s n ltac:(lia) Hn).
  rewrite (proj2 (Z.ltb_lt a 10000)) by lia. rewrite (Z.mul_comm a 10). by apply IH; [lia|..].
Qed.
