(* ===== verification/GoFloatText.v ===== *)
(** * float64 values and their shortest decimal text

    [strconv.FormatFloat(x, _, -1, 64)] and the format [encoding/json] writes: the
    shortest decimal that reads back as [x].  Before that, facts on rounding: every
    quotient is rounded to a binary64 value, and a quotient that is one is left alone. *)
From S2P Require Import Prelude.
From S2P Require Import GoStrings.
From S2P Require Import GoFloat.
From S2P Require Import GoTime.
From S2P Require Import GoUtf8.
From S2P Require Import GoDigits.

(** A value of type [float64]. *)
Definition is_float64 (x : float64) : Prop := valid_binary prec64 emax64 x = true.

#[export] Instance is_float64_dec x : Decision (is_float64 x).
Proof. unfold is_float64. apply _. Defined.

Definition finite64 (x : float64) : Prop :=
  match x with S754_zero _ | S754_finite _ _ _ => True | _ => False end.

#[export] Instance finite64_dec x : Decision (finite64 x).
Proof. destruct x; cbn; apply _. Defined.

(** ** Rounding *)

Lemma fexp64 k : fexp prec64 emax64 k = Z.max (k - 53) (-1074).
Proof. reflexivity. Qed.

Lemma Zdigits2_unique m k : 0 < m -> 2 ^ (k - 1) <= m < 2 ^ k -> Zdigits2 m = k.
Proof.
  intros Hm Hk. pose proof (Zdigits2_bounds m Hm). pose proof (Zdigits2_pos m Hm).
  assert (0 < k). { destruct (Z_lt_le_dec 0 k); [done|]. assert (2 ^ k <= 2 ^ 0) by (apply Z.pow_le_mono_r; lia). lia. }
  destruct (Z_lt_le_dec (Zdigits2 m) k).
  - assert (2 ^ Zdigits2 m <= 2 ^ (k - 1)) by (apply Z.pow_le_mono_r; lia). lia.
  - destruct (Z.eq_dec (Zdigits2 m) k); [done|].
    assert (2 ^ k <= 2 ^ (Zdigits2 m - 1)) by (apply Z.pow_le_mono_r; lia). lia.
Qed.

Lemma Zdigits2_mul_pow m k : 0 < m -> 0 <= k -> Zdigits2 (m * 2 ^ k) = Zdigits2 m + k.
Proof.
  intros Hm Hk. pose proof (Zdigits2_bounds m Hm) as Hb. pose proof (Zdigits2_pos m Hm).
  assert (0 < 2 ^ k) by (apply Z.pow_pos_nonneg; lia). apply Zdigits2_unique; [nia|].
  replace (Zdigits2 m + k - 1) with ((Zdigits2 m - 1) + k) by lia. rewrite !Z.pow_add_r by lia. nia.
Qed.

Lemma Zdigits2_div_pow m n : 0 < m -> 0 <= n < Zdigits2 m -> Zdigits2 (m / 2 ^ n) = Zdigits2 m - n.
Proof.
  intros Hm Hn. pose proof (Zdigits2_bounds m Hm) as Hb.
  assert (0 < 2 ^ n) by (apply Z.pow_pos_nonneg; lia).
  assert (2 ^ (Zdigits2 m - 1) = 2 ^ (Zdigits2 m - n - 1) * 2 ^ n) as E1 by (rewrite <-Z.pow_add_r by lia; f_equal; lia).
  assert (2 ^ Zdigits2 m = 2 ^ (Zdigits2 m - n) * 2 ^ n) as E2 by (rewrite <-Z.pow_add_r by lia; f_equal; lia).
  assert (0 < 2 ^ (Zdigits2 m - n - 1)) by (apply Z.pow_pos_nonneg; lia).
  assert (2 ^ (Zdigits2 m - n - 1) <= m / 2 ^ n) by (apply Z.div_le_lower_bound; lia).
  apply Zdigits2_unique; [lia|]. split; [done|]. apply Z.div_lt_upper_bound; lia.
Qed.

Lemma Zdigits2_div_small m n : 0 < m -> Zdigits2 m <= n -> m / 2 ^ n = 0.
Proof.
  intros Hm Hn. pose proof (Zdigits2_bounds m Hm). pose proof (Zdigits2_pos m Hm).
  apply Z.div_small. assert (2 ^ Zdigits2 m <= 2 ^ n) by (apply Z.pow_le_mono_r; lia). lia.
Qed.

(** Shifting a mantissa whose exponent is not above the canonical one makes it canonical. *)
Lemma shr_fexp_canonical m e l r e' :
  0 < m -> e <= fexp prec64 emax64 (Zdigits2 m + e) -> shr_fexp prec64 emax64 m e l = (r, e') ->
  e' = fexp prec64 emax64 (Zdigits2 m + e) /\
  ((shr_m r = 0 /\ Zdigits2 m + e <= e') \/
   (0 < shr_m r /\ Zdigits2 (shr_m r) + e' = Zdigits2 m + e)).
Proof.
  intros Hm He H. apply shr_fexp_spec in H as [Hr He']; [|lia]. rewrite Z.max_r in * by lia.
  split; [lia|]. set (n := fexp _ _ _ - e) in *. pose proof (Zdigits2_pos m Hm).
  destruct (Z_lt_le_dec n (Zdigits2 m)).
  - right. rewrite Hr, Zdigits2_div_pow by lia. split; [|lia].
    pose proof (Zdigits2_bounds m Hm). apply Z.div_str_pos. split; [apply Z.pow_pos_nonneg; lia|].
    assert (2 ^ n <= 2 ^ (Zdigits2 m - 1)) by (apply Z.pow_le_mono_r; lia). lia.
  - left. rewrite Hr, Zdigits2_div_small by lia. lia.
Qed.

(** Rounding a mantissa that has all its digits yields a binary64 value. *)
Lemma binary_round_aux_valid s m e l :
  0 <= m -> (0 < m -> e <= fexp prec64 emax64 (Zdigits2 m + e)) -> (m = 0 -> e = -1074 \/ l = loc_Exact) ->
  is_float64 (binary_round_aux prec64 emax64 s m e l).
Proof.
  intros Hm He Hz. unfold binary_round_aux.
  destruct (shr_fexp _ _ m e l) as [r1 e1] eqn:E1.
  pose proof (round_nearest_even_bounds (shr_m r1) (loc_of_shr_record r1)) as Hrne.
  set (m2 := round_nearest_even _ _) in *.
  assert (0 <= shr_m r1) as Hr1.
  { destruct (shr_fexp_spec _ _ _ _ _ Hm E1) as [-> _]. apply Z.div_pos; [lia|]. apply Z.pow_pos_nonneg; lia. }
  assert (m2 = 0 \/ 0 < m2 /\ e1 <= fexp prec64 emax64 (Zdigits2 m2 + e1)) as Hm2.
  { destruct (Z.eq_dec m2 0) as [|Hne]; [by left|right]. split; [lia|].
    destruct (Z.eq_dec m 0) as [->|Hm0].
    - unfold shr_fexp in E1. change (Zdigits2 0) with 0 in E1. destruct (Hz eq_refl) as [-> | ->].
      + cbn in E1. injection E1 as <- <-. rewrite fexp64. lia.
      + exfalso. apply Hne. clear -E1 m2. unfold m2. clear m2.
        unfold shr in E1. case_match; simplify_eq; [done| |done].
        assert (shr_record_of_loc 0 loc_Exact = SpecFloat.iter_pos shr_1 p (shr_record_of_loc 0 loc_Exact)) as <-; [|done].
        apply (iter_pos_ind (fun _ y => shr_record_of_loc 0 loc_Exact = y)); [done|]. by intros k y _ <-.
    - destruct (shr_fexp_canonical m e l r1 e1 ltac:(lia) (He ltac:(lia)) E1) as [He1 [[Hr0 Hd]|[Hrp Hd]]].
      + assert (m2 = 1) as -> by lia. rewrite fexp64 in *. cbn. lia.
      + rewrite He1 at 1. rewrite <-Hd, !fexp64.
        assert (Zdigits2 (shr_m r1) <= Zdigits2 m2); [|lia].
        pose proof (Zdigits2_bounds (shr_m r1) Hrp). pose proof (Zdigits2_bounds m2 ltac:(lia)).
        pose proof (Zdigits2_pos m2 ltac:(lia)).
        destruct (Z_le_gt_dec (Zdigits2 (shr_m r1)) (Zdigits2 m2)); [done|].
        assert (2 ^ Zdigits2 m2 <= 2 ^ (Zdigits2 (shr_m r1) - 1)) by (apply Z.pow_le_mono_r; lia). lia. }
  destruct (shr_fexp _ _ m2 e1 loc_Exact) as [r2 e2] eqn:E2.
  destruct Hm2 as [Hm2|[Hm2 Hf]].
  - apply shr_fexp_spec in E2 as [Hr2 _]; [|lia]. rewrite Hr2, Hm2, Z.div_0_l by (apply Z.pow_nonzero; lia). done.
  - destruct (shr_fexp_canonical _ _ _ _ _ Hm2 Hf E2) as [He2 [[-> _]|[Hp Hd]]]; [done|].
    destruct (shr_m r2) as [|p|p]; try lia. destruct (Z.leb_spec e2 (emax64 - prec64)); [|done].
    unfold is_float64, valid_binary, bounded, canonical_mantissa. apply andb_true_iff. split; [|by apply Z.leb_le].
    apply Z.eqb_eq. change (Zpos (digits2_pos p)) with (Zdigits2 (Zpos p)). rewrite Hd. done.
Qed.

(** ** Quotients *)

(** What the division of two integers hands to the rounding. *)
Lemma SFdiv_core_spec n d q e' l :
  SFdiv_core_binary prec64 emax64 (Zpos n) 0 (Zpos d) 0 = (q, e', l) ->
  e' = Z.min (fexp prec64 emax64 (Zdigits2 (Zpos n) - Zdigits2 (Zpos d))) 0 /\
  q = (Zpos n * 2 ^ (- e')) / Zpos d /\
  l = new_location (Zpos d) ((Zpos n * 2 ^ (- e')) mod Zpos d).
Proof.
  unfold SFdiv_core_binary. rewrite !Z.add_0_r, Z.sub_0_r. set (k := Z.min _ 0).
  replace (0 - k) with (- k) by lia.
  assert (match - k with Z0 => Zpos n | Zpos _ => Z.shiftl (Zpos n) (- k) | Zneg _ => 0 end = Zpos n * 2 ^ (- k)) as ->.
  { destruct (- k) eqn:E; [lia| |lia]. rewrite <-E. apply Z.shiftl_mul_pow2. lia. }
  destruct (Z.div_eucl (Zpos n * 2 ^ (- k)) (Zpos d)) as [q' r] eqn:E. intros [= <- <- <-].
  split; [done|]. unfold Z.div, Z.modulo. rewrite E. done.
Qed.

Lemma ratio_digits n d k :
  0 <= k -> Zdigits2 (Zpos d) - k < Zdigits2 (Zpos n) ->
  Zdigits2 (Zpos n) + k - Zdigits2 (Zpos d) <= Zdigits2 ((Zpos n * 2 ^ k) / Zpos d) /\
  0 < (Zpos n * 2 ^ k) / Zpos d.
Proof.
  intros Hk Hd. pose proof (Zdigits2_bounds (Zpos n) ltac:(lia)) as Hn. pose proof (Zdigits2_bounds (Zpos d) ltac:(lia)) as Hd'.
  pose proof (Zdigits2_pos (Zpos n) ltac:(lia)). pose proof (Zdigits2_pos (Zpos d) ltac:(lia)).
  set (dn := Zdigits2 (Zpos n)) in *. set (dd := Zdigits2 (Zpos d)) in *.
  assert (2 ^ (dn + k - dd - 1) <= (Zpos n * 2 ^ k) / Zpos d) as Hq.
  { apply Z.div_le_lower_bound; [lia|].
    assert (2 ^ (dn - 1) * 2 ^ k = 2 ^ dd * 2 ^ (dn + k - dd - 1)) as E by (rewrite <-!Z.pow_add_r by lia; f_equal; lia).
    assert (0 < 2 ^ k) by (apply Z.pow_pos_nonneg; lia).
    assert (0 < 2 ^ (dn + k - dd - 1)) by (apply Z.pow_pos_nonneg; lia). nia. }
  assert (0 < 2 ^ (dn + k - dd - 1)) by (apply Z.pow_pos_nonneg; lia).
  split; [|lia]. set (q := _ / _) in *. pose proof (Zdigits2_bounds q ltac:(lia)).
  destruct (Z_le_gt_dec (dn + k - dd) (Zdigits2 q)); [done|].
  assert (2 ^ Zdigits2 q <= 2 ^ (dn + k - dd - 1)) by (apply Z.pow_le_mono_r; [lia|lia]). lia.
Qed.

Lemma ratio_rounding_valid s n d :
  let '(q, e', l) := SFdiv_core_binary prec64 emax64 (Zpos n) 0 (Zpos d) 0 in
  is_float64 (binary_round_aux prec64 emax64 s q e' l).
Proof.
  destruct (SFdiv_core_binary _ _ _ _ _ _) as [[q e'] l] eqn:E.
  apply SFdiv_core_spec in E as (He & Hq & _). rewrite fexp64 in He.
  assert (0 <= q). { rewrite Hq. apply Z.div_pos; [|lia]. apply Z.mul_nonneg_nonneg; [lia|]. apply Z.pow_nonneg. lia. }
  destruct (Z_lt_le_dec (Zdigits2 (Zpos d) - (- e')) (Zdigits2 (Zpos n))) as [Hd|Hd].
  - destruct (ratio_digits n d (- e') ltac:(lia) Hd) as [Hdig Hpos]. rewrite <-Hq in Hdig, Hpos.
    apply binary_round_aux_valid; [done| |lia]. intros _. rewrite fexp64. lia.
  - apply binary_round_aux_valid; [done| |lia]. intros Hp. rewrite fexp64. lia.
Qed.

(** Every decimal literal denotes a binary64 value. *)
Lemma f64_ratio_valid n d : is_float64 (f64_ratio n d).
Proof.
  unfold f64_ratio. destruct n as [|p|p]; [done|..];
    [pose proof (ratio_rounding_valid false p d) as H|pose proof (ratio_rounding_valid true p d) as H];
    by destruct (SFdiv_core_binary _ _ _ _ _ _) as [[q e'] l].
Qed.

Lemma shr_exact m n : 
  0 <= m -> 0 <= n -> 
  forall e, shr (Build_shr_record (m * 2 ^ n) false false) e n = (Build_shr_record m false false, e + n).
Proof.
  intros Hm Hn e. destruct n as [|p|p]; [by rewrite Z.mul_1_r, Z.add_0_r| |lia]. unfold shr. f_equal.
  assert (forall x, 0 <= x -> shr_1 (Build_shr_record (x * 2) false false) = Build_shr_record x false false) as H1.
  { intros [|x|x] Hx; [done| |lia]. by rewrite Z.mul_comm. }
  assert (forall p x, 0 <= x -> SpecFloat.iter_pos shr_1 p (Build_shr_record (x * 2 ^ Zpos p) false false) = Build_shr_record x false false) as H.
  { clear - H1. induction p as [p IH|p IH|]; intros x Hx; cbn [SpecFloat.iter_pos].
    - assert (x * 2 ^ Zpos p~1 = x * 2 ^ Zpos p * 2 ^ Zpos p * 2) as ->.
      { rewrite (Pos2Z.inj_xI p), <-(Z.add_diag (Zpos p)), !Z.pow_add_r by lia. lia. }
      rewrite H1 by (repeat apply Z.mul_nonneg_nonneg; try lia; apply Z.pow_nonneg; lia).
      rewrite IH by (apply Z.mul_nonneg_nonneg; [lia|apply Z.pow_nonneg; lia]). by apply IH.
    - assert (x * 2 ^ Zpos p~0 = x * 2 ^ Zpos p * 2 ^ Zpos p) as ->.
      { rewrite (Pos2Z.inj_xO p), <-(Z.add_diag (Zpos p)), Z.pow_add_r by lia. lia. }
      rewrite IH by (apply Z.mul_nonneg_nonneg; [lia|apply Z.pow_nonneg; lia]). by apply IH.
    - by apply H1. }
  by apply H.
Qed.

(** A quotient whose value is a binary64 number is that number. *)
Lemma f64_ratio_exact n d m e :
  is_float64 (S754_finite false m e) ->
  Zpos n * 2 ^ Z.max 0 (- e) = Zpos m * 2 ^ Z.max 0 e * Zpos d ->
  f64_ratio (Zpos n) d = S754_finite false m e.
Proof.
  unfold is_float64, valid_binary, bounded, canonical_mantissa. intros [Hc Hb]%andb_true_iff Hv.
  apply Z.eqb_eq in Hc. apply Z.leb_le in Hb. change (Zpos (digits2_pos m)) with (Zdigits2 (Zpos m)) in Hc.
  unfold f64_ratio. destruct (SFdiv_core_binary _ _ _ _ _ _) as [[q e'] l] eqn:E.
  apply SFdiv_core_spec in E as (He & Hq & Hl). 
  assert (Zdigits2 (Zpos n) - Zdigits2 (Zpos d) <= Zdigits2 (Zpos m) + e) as Hdig.
  { pose proof (Zdigits2_bounds (Zpos m) ltac:(lia)). pose proof (Zdigits2_bounds (Zpos d) ltac:(lia)).
    assert (Zdigits2 (Zpos n * 2 ^ Z.max 0 (- e)) <= Zdigits2 (Zpos m) + Z.max 0 e + Zdigits2 (Zpos d)) as H'.
    { set (x := Zpos n * _) in *. assert (0 < x). { unfold x. apply Z.mul_pos_pos; [lia|]. apply Z.pow_pos_nonneg; lia. }
      pose proof (Zdigits2_bounds x ltac:(done)). pose proof (Zdigits2_pos x ltac:(done)).
      pose proof (Zdigits2_pos (Zpos m) ltac:(lia)). pose proof (Zdigits2_pos (Zpos d) ltac:(lia)).
      set (k := Zdigits2 (Zpos m) + Z.max 0 e + Zdigits2 (Zpos d)).
      assert (x < 2 ^ k).
      { unfold k. rewrite Hv, !Z.pow_add_r by lia. assert (0 < 2 ^ Z.max 0 e) by (apply Z.pow_pos_nonneg; lia).
        apply Z.mul_lt_mono_nonneg; [lia|nia|lia|lia]. }
      destruct (Z_le_gt_dec (Zdigits2 x) k); [done|].
      assert (2 ^ k <= 2 ^ (Zdigits2 x - 1)) by (apply Z.pow_le_mono_r; lia). lia. }
    rewrite Zdigits2_mul_pow in H' by lia. lia. }
  rewrite fexp64 in Hc, He. set (k := e - e') in *. assert (0 <= k) as Hk by lia.
  assert (Zpos n * 2 ^ (- e') = Zpos m * 2 ^ k * Zpos d) as Hx.
  { apply (Z.mul_cancel_r _ _ (2 ^ Z.max 0 (- e))); [apply Z.pow_nonzero; lia|].
    rewrite <-Z.mul_assoc, (Z.mul_comm (2 ^ (- e'))), Z.mul_assoc, Hv.
    assert (2 ^ Z.max 0 e * 2 ^ (- e') = 2 ^ k * 2 ^ Z.max 0 (- e)) as E by (rewrite <-!Z.pow_add_r by lia; f_equal; lia).
    nia. }
  rewrite Hx, Z.div_mul in Hq by lia. rewrite Hx, Z.mod_mul in Hl by lia.
  assert (l = loc_Exact) as -> by (rewrite Hl; unfold new_location; by destruct (Z.even _)).
  unfold binary_round_aux, shr_fexp. rewrite Hq, Zdigits2_mul_pow by lia. rewrite fexp64.
  replace (Z.max (Zdigits2 (Zpos m) + k + e' - 53) (-1074) - e') with k by lia.
  cbn [shr_record_of_loc]. rewrite shr_exact by lia. cbn [shr_m loc_of_shr_record round_nearest_even].
  rewrite fexp64. replace (Z.max (Zdigits2 (Zpos m) + (e' + k) - 53) (-1074) - (e' + k)) with 0 by lia.
  unfold shr. cbn [shr_record_of_loc shr_m]. replace (e' + k) with e by lia. by rewrite (proj2 (Z.leb_le _ _)).
Qed.

(** ** Decimal text

    A positive decimal is its digits, without trailing zeros, and the position of its
    point: [(ds, dp)] is [0.ds * 10^dp]. *)
Fixpoint strip_zeros (s : string) : string :=
  match s with
  | EmptyString => EmptyString
  | String a s' =>
      let t := strip_zeros s' in
      if bool_decide (t = "") && bool_decide (a = "0"%char) then EmptyString else String a t
  end.

(** The decimal [d * 10^q]. *)
Definition decimal_of (d q : Z) : string * Z :=
  (strip_zeros (itoa d), q + Z.of_nat (String.length (itoa d))).

(** The format [%f] with as many digits as needed. *)
Definition fmtF (dec : string * Z) : string :=
  let '(ds, dp) := dec in
  if dp <=? 0 then "0." +:+ zeros (Z.to_nat (- dp)) +:+ ds
  else if Z.of_nat (String.length ds) <=? dp then ds +:+ zeros (Z.to_nat (dp - Z.of_nat (String.length ds)))
  else str_take (Z.to_nat dp) ds +:+ "." +:+ str_drop (Z.to_nat dp) ds.

(** The format [%e] with as many digits as needed and an exponent without padding. *)
Definition fmtE (dec : string * Z) : string :=
  let '(ds, dp) := dec in
  str_take 1 ds +:+ (if (1 <? String.length ds)%nat then "." +:+ str_drop 1 ds else "") +:+
  "e" +:+ (if dp - 1 <? 0 then "-" else "+") +:+ itoa (Z.abs (dp - 1)).

Definition render (expf : bool) (dec : string * Z) : string := if expf then fmtE dec else fmtF dec.

(** ** The shortest decimal that reads back *)

(** The number of decimal digits: an estimate from the binary logarithm, checked. *)
Definition digits10 (v : Z) : Z :=
  let k := Z.log2 v * 1233 / 4096 + 1 in
  if (10 ^ (k - 1) <=? v) && (v <? 10 ^ k) then k
  else if (10 ^ k <=? v) && (v <? 10 ^ (k + 1)) then k + 1
  else Z.of_nat (String.length (itoa v)).

Section shortest.
Context (expf : bool) (m : positive) (e : Z).

(** The number is [num / den]. *)
Definition num : Z := Zpos m * 2 ^ Z.max 0 e.
Definition den : Z := 2 ^ Z.max 0 (- e).

(** The position of its decimal point. *)
Definition dec_point : Z := digits10 (num * 10 ^ 400 / den) - 400.

Definition reads_back (t : string) : bool :=
  bool_decide (parse_decimal_float t = Some (S754_finite false m e)).

(** The decimals of [n] digits around the number: the nearer one that reads back, the
    even one if both are as near. *)
Definition candidate (n : Z) : option string :=
  let q := dec_point - n in
  let num' := num * 10 ^ Z.max 0 (- q) in
  let den' := den * 10 ^ Z.max 0 q in
  let d := num' / den' in
  let down := render expf (decimal_of d q) in
  let up := render expf (decimal_of (d + 1) q) in
  let down_ok := (0 <? d) && reads_back down in
  let up_ok := reads_back up in
  let nearer_up := match 2 * (num' mod den') ?= den' with Lt => false | Eq => Z.odd d | Gt => true end in
  if down_ok then (if up_ok && nearer_up then Some up else Some down)
  else if up_ok then Some up else None.

Fixpoint shortest_from (fuel : nat) (n : Z) : option string :=
  match fuel with
  | O => None
  | S fuel' => match candidate n with Some t => Some t | None => shortest_from fuel' (n + 1) end
  end.

(** No binary64 number has more than 768 significant digits. *)
Definition shortest : option string := shortest_from 800 1.
End shortest.

(** The format of [encoding/json]: [%e] below 1e-6 and from 1e21 on. *)
Definition exp_form (x : float64) : bool :=
  f64_lt (SFabs x) (f64_decimal 1 (-6)) || f64_ge (SFabs x) (f64_decimal 1 21).

Definition float_text (x : float64) : string :=
  match x with
  | S754_zero s => if s then "-0" else "0"
  | S754_finite s m e => (if s then "-" else "") +:+ default "" (shortest (exp_form x) m e)
  | S754_infinity s => if s then "-Inf" else "+Inf"
  | S754_nan => "NaN"
  end.

Example float_text_examples :
  float_text <$> [f64_decimal 5 (-1); f64_decimal 1 21; f64_decimal 123456789 (-3); f64_decimal 1 (-7); f64_of_Z 100;
                  f64_decimal (-25) (-1); S754_zero true] =
  ["0.5"; "1e+21"; "123456.789"; "1e-7"; "100"; "-2.5"; "-0"].
Proof. vm_compute. reflexivity. Qed.

(** *** Reading the text of a decimal *)

Lemma zeros_length n : String.length (zeros n) = n.
Proof. induction n; cbn; by f_equal. Qed.

Lemma all_digits_zeros n : all_digits (zeros n) = true.
Proof. induction n as [|n IH]; [done|exact IH]. Qed.

Lemma all_digits_app s t : all_digits (s +:+ t) = all_digits s && all_digits t.
Proof. apply str_forall_app. Qed.

Lemma digits_val_zeros a n : digits_val a (zeros n) = Some (a * 10 ^ Z.of_nat n).
Proof.
  revert a; induction n as [|n IH]; intros a; [cbn; f_equal; lia|]. cbn [zeros digits_val].
  change (digit_val "0"%char) with (Some 0). cbn [mbind option_bind]. rewrite IH, Nat2Z.inj_succ, Z.pow_succ_r by lia.
  f_equal. lia.
Qed.

Lemma strip_zeros_spec s : exists k, s = strip_zeros s +:+ zeros k.
Proof.
  induction s as [|a s [k IH]]; [by exists O|]. cbn [strip_zeros].
  destruct (bool_decide (strip_zeros s = "") && bool_decide (a = "0"%char)) eqn:E.
  - apply andb_true_iff in E as [E1%bool_decide_eq_true ->%bool_decide_eq_true]. exists (S k).
    rewrite E1 in IH. by rewrite IH.
  - exists k. rewrite str_app_cons. by f_equal.
Qed.

(** The digits and the exponent a decimal stands for. *)
Lemma decimal_of_spec d q ds dp :
  0 < d -> decimal_of d q = (ds, dp) ->
  all_digits ds = true /\ (1 <= String.length ds)%nat /\ exists v k, 0 <= k /\ digits_val 0 ds = Some v /\
    d = v * 10 ^ k /\ dp - Z.of_nat (String.length ds) = q + k.
Proof.
  intros Hd. unfold decimal_of. intros [= <- <-]. pose proof (all_digits_itoa d ltac:(lia)) as Ha.
  pose proof (digits_val_itoa 0 d ltac:(lia)) as Hv. 
  destruct (itoa_head d Hd) as (a & s & Es & Ha0 & _).
  destruct (strip_zeros_spec (itoa d)) as [k Hk]. set (ds := strip_zeros (itoa d)) in *.
  rewrite Hk in Ha, Hv. rewrite all_digits_app in Ha. apply andb_true_iff in Ha as [Ha _].
  split; [done|]. split.
  { destruct ds; [|cbn; lia]. exfalso. rewrite Hk in Es. destruct k; [done|].
    cbn in Es. injection Es as <- <-. change (byte_val "0") with 48 in Ha0. lia. }
  rewrite digits_val_app in Hv. destruct (digits_val 0 ds) as [v|]; [|done]. cbn [mbind option_bind] in Hv.
  rewrite digits_val_zeros in Hv. injection Hv as Hv. exists v, (Z.of_nat k). split_and!; [lia|done|lia|].
  rewrite Hk, str_length_app, zeros_length. lia.
Qed.

(** The result of reading [m * 10^e] when it is positive. *)
Definition read_result (m e : Z) : option float64 :=
  match f64_decimal m e with S754_infinity _ | S754_nan => None | x => Some x end.

(** A text of digits, point, digits and exponent, each as [parse_decimal_float] splits it. *)
Lemma parse_parts int (point : bool) frac ex mant x :
  all_digits int = true -> (1 <= String.length int)%nat -> all_digits frac = true ->
  (point = false -> frac = "") -> parse_exponent ex = Some x ->
  digits_val 0 (int +:+ frac) = Some mant ->
  parse_decimal_float (int +:+ (if point then "." else "") +:+ frac +:+ ex) =
  read_result mant (x - Z.of_nat (String.length frac)).
Proof.
  intros Hi Hl Hf Hp Hx Hm. unfold parse_decimal_float, read_result.
  assert (ex = "" \/ exists b r, ex = String b r /\ (byte_val b = 69 \/ byte_val b = 101)) as Hex.
  { destruct ex as [|b r]; [by left|right]. exists b, r. split; [done|]. cbn in Hx.
    destruct ((byte_val b =? 69) || (byte_val b =? 101)) eqn:E; [|done]. apply orb_true_iff in E. rewrite !Z.eqb_eq in E. done. }
  assert (starts_digit ex = false) as Hsd.
  { destruct Hex as [-> | (b & r & -> & Hb)]; [done|]. apply is_digit_false_iff. lia. }
  destruct int as [|a int]; [cbn in Hl; lia|].
  pose proof Hi as Ha. cbn in Ha. apply andb_true_iff in Ha as [Ha%is_digit_iff _].
  rewrite str_app_cons. rewrite (proj2 (Z.eqb_neq (byte_val a) 45)), (proj2 (Z.eqb_neq (byte_val a) 43)) by lia.
  rewrite <-str_app_cons. destruct point.
  - change ("." +:+ frac +:+ ex) with (String "." (frac +:+ ex)).
    rewrite take_digits_app by done. change (byte_val "." =? 46) with true. cbn iota.
    rewrite take_digits_app by done. rewrite Hm, Hx, str_app_cons. cbn [mbind option_bind]. by destruct (f64_decimal _ _).
  - rewrite (Hp eq_refl) in *. rewrite !str_app_nil_l, str_app_nil_r in *. rewrite take_digits_app by done.
    assert (match ex with String a0 r1' => if byte_val a0 =? 46 then take_digits r1' else ("", ex) | "" => ("", ex) end = ("", ex)) as ->.
    { destruct Hex as [-> | (b & r & -> & Hb)]; [done|]. by rewrite (proj2 (Z.eqb_neq (byte_val b) 46)) by lia. }
    rewrite str_app_nil_r, Hm, Hx. cbn [mbind option_bind]. by destruct (f64_decimal _ _).
Qed.

(** Two readings of the same value that is a binary64 number. *)
Lemma read_result_exact mant x m e :
  is_float64 (S754_finite false m e) -> 0 < mant ->
  mant * 10 ^ Z.max 0 x * 2 ^ Z.max 0 (- e) = Zpos m * 2 ^ Z.max 0 e * 10 ^ Z.max 0 (- x) ->
  read_result mant x = Some (S754_finite false m e).
Proof.
  intros Hv Hm E. unfold read_result, f64_decimal.
  assert (0 < 10 ^ Z.max 0 x) by (apply Z.pow_pos_nonneg; lia).
  assert (0 < 10 ^ Z.max 0 (- x)) by (apply Z.pow_pos_nonneg; lia).
  destruct (mant * 10 ^ Z.max 0 x) as [|n|n] eqn:En; [nia| |nia].
  rewrite (f64_ratio_exact n _ m e); [done|done|]. rewrite E, Z2Pos.id by done. done.
Qed.

Lemma pow10_shift x y a b c d :
  0 <= a -> 0 <= b -> 0 <= c -> 0 <= d -> a - b = c - d -> x * 10 ^ a = y * 10 ^ b -> x * 10 ^ c = y * 10 ^ d.
Proof.
  intros Ha Hb Hc Hd E H. apply (Z.mul_cancel_r _ _ (10 ^ b)); [apply Z.pow_nonzero; lia|].
  rewrite <-!Z.mul_assoc, <-!Z.pow_add_r by lia. replace (c + b) with (a + d) by lia.
  rewrite (Z.add_comm d b), !Z.pow_add_r, !Z.mul_assoc by lia. by rewrite H.
Qed.

Lemma parse_exponent_text k :
  Z.abs k < 100000 -> parse_exponent ("e" +:+ (if k <? 0 then "-" else "+") +:+ itoa (Z.abs k)) = Some k.
Proof.
  intros Hk. pose proof (itoa_length_pos (Z.abs k) ltac:(lia)) as Hl.
  pose proof (digits_val_itoa 0 (Z.abs k) ltac:(lia)) as Hd. rewrite Z.mul_0_l, Z.add_0_l in Hd.
  apply exp_digits_exact in Hd; [|lia..]. 
  destruct (itoa (Z.abs k)) as [|a s] eqn:E; [cbn in Hl; lia|]. clear E Hl.
  destruct (Z.ltb_spec k 0).
  - change ("e" +:+ "-" +:+ String a s) with (String "e" (String "-" (String a s))). unfold parse_exponent.
    cbn [byte_val]. change (byte_val "e") with 101. change (byte_val "-") with 45. cbn [Z.eqb Pos.eqb orb].
    rewrite Hd. cbn. f_equal. lia.
  - change ("e" +:+ "+" +:+ String a s) with (String "e" (String "+" (String a s))). unfold parse_exponent.
    change (byte_val "e") with 101. change (byte_val "+") with 43. cbn [Z.eqb Pos.eqb orb].
    rewrite Hd. cbn. f_equal. lia.
Qed.

Lemma all_digits_split n s :
  all_digits s = true -> all_digits (str_take n s) = true /\ all_digits (str_drop n s) = true.
Proof. intros H. rewrite <-(str_take_drop n s), all_digits_app in H. by apply andb_true_iff in H. Qed.

(** The text of a decimal whose value is a binary64 number reads back as that number. *)
Lemma parse_render expf d q m e :
  0 < d -> is_float64 (S754_finite false m e) -> -10000 <= q + Z.of_nat (String.length (itoa d)) <= 10000 ->
  d * 10 ^ Z.max 0 q * 2 ^ Z.max 0 (- e) = Zpos m * 2 ^ Z.max 0 e * 10 ^ Z.max 0 (- q) ->
  parse_decimal_float (render expf (decimal_of d q)) = Some (S754_finite false m e).
Proof.
  intros Hd Hf Hr E. destruct (decimal_of d q) as [ds dp] eqn:Edec.
  assert (dp = q + Z.of_nat (String.length (itoa d))) as Hdp by (unfold decimal_of in Edec; by simplify_eq).
  apply decimal_of_spec in Edec as (Ha & Hl & v & k & Hk & Hv & -> & Hx); [|done].
  set (A := 2 ^ Z.max 0 (- e)) in *. set (B := Zpos m * 2 ^ Z.max 0 e) in *.
  assert (0 < v) as Hv0 by (assert (0 < 10 ^ k) by (apply Z.pow_pos_nonneg; lia); nia).
  assert (forall c d, 0 <= c -> 0 <= d -> q + k = c - d -> v * A * 10 ^ c = B * 10 ^ d) as Hs.
  { intros c d' Hc Hd' Ec. apply (pow10_shift _ _ (k + Z.max 0 q) (Z.max 0 (- q))); [lia..|].
    rewrite Z.pow_add_r by lia. rewrite <-E. ring. }
  assert (read_result v (dp - Z.of_nat (String.length ds)) = Some (S754_finite false m e)) as Hr1.
  { apply read_result_exact; [done|done|]. rewrite Hx. fold A B. rewrite <-(Hs (Z.max 0 (q + k)) (Z.max 0 (- (q + k)))) by lia. ring. }
  set (nd := String.length ds) in *. unfold render. destruct expf; unfold fmtE, fmtF.
  - destruct (all_digits_split 1 ds Ha) as [Ht Hdr].
    pose proof (str_take_length 1 ds Hl) as Htl. pose proof (str_length_drop 1 ds) as Hdl.
    pose proof (parse_exponent_text (dp - 1) ltac:(lia)) as Hex. fold nd.
    destruct (Nat.ltb_spec 1 nd) as [Hn|Hn].
    + rewrite str_app_assoc. rewrite (parse_parts _ true _ _ v _ Ht) by (try done; try lia; by rewrite str_take_drop).
      rewrite Hdl. fold nd. rewrite <-Hr1. f_equal. lia.
    + rewrite str_app_nil_l. rewrite (str_take_all 1 ds) by lia.
      rewrite <-(str_app_nil_l ("e" +:+ _)), <-(str_app_nil_l ("" +:+ _)) at 1.
      rewrite (parse_parts ds false "" _ v _ Ha) by (try done; by rewrite str_app_nil_r).
      rewrite <-Hr1. f_equal. cbn. lia.
  - fold nd. destruct (Z.leb_spec dp 0); [|destruct (Z.leb_spec (Z.of_nat nd) dp)].
    + rewrite <-(str_app_nil_r (zeros _ +:+ ds)). 
      change ("0." +:+ ?s) with ("0" +:+ "." +:+ s).
      rewrite (parse_parts "0" true (zeros (Z.to_nat (- dp)) +:+ ds) "" v 0); [|done|cbn; lia| |done|done|].
      * rewrite str_length_app, zeros_length. fold nd. rewrite <-Hr1. f_equal. lia.
      * by rewrite all_digits_app, all_digits_zeros.
      * change ("0" +:+ zeros (Z.to_nat (- dp)) +:+ ds) with (zeros (S (Z.to_nat (- dp))) +:+ ds).
        by rewrite digits_val_app, digits_val_zeros.
    + rewrite <-(str_app_nil_r (ds +:+ _)), <-(str_app_nil_l ""), <-(str_app_nil_l ("" +:+ _)).
      rewrite (parse_parts _ false "" "" (v * 10 ^ (dp - Z.of_nat nd)) 0); [|..|done|done|].
      * apply read_result_exact; [done|apply Z.mul_pos_pos; [done|apply Z.pow_pos_nonneg; lia]|].
        fold A B. change (10 ^ Z.max 0 (0 - Z.of_nat _)) with 1.
        transitivity (v * A * 10 ^ (dp - Z.of_nat nd)); [ring|]. rewrite (Hs _ 0) by lia. reflexivity.
      * by rewrite all_digits_app, all_digits_zeros, Ha.
      * rewrite str_length_app. lia.
      * done.
      * rewrite str_app_nil_r, digits_val_app, Hv. cbn [mbind option_bind]. rewrite digits_val_zeros. do 2 f_equal. f_equal. lia.
    + destruct (all_digits_split (Z.to_nat dp) ds Ha) as [Ht Hdr].
      rewrite <-(str_app_nil_r (str_drop _ ds)).
      rewrite (parse_parts _ true _ "" v 0 Ht); [|rewrite str_take_length; lia|done|done|done|by rewrite str_take_drop].
      rewrite str_length_drop. fold nd. rewrite <-Hr1. f_equal. lia.
Qed.

(** *** The search succeeds *)

Lemma digits10_eq v : 0 <= v -> digits10 v = Z.of_nat (String.length (itoa v)).
Proof.
  intros Hv. destruct (Z.eq_dec v 0) as [->|Hne]; [done|]. unfold digits10. set (k := _ + 1).
  pose proof (Z.div_pos (Z.log2 v * 1233) 4096 ltac:(pose proof (Z.log2_nonneg v); lia) ltac:(lia)).
  pose proof (itoa_length v ltac:(lia)) as Hl. pose proof (itoa_length_pos v Hv).
  assert (forall j, 1 <= j -> 10 ^ (j - 1) <= v < 10 ^ j -> j = Z.of_nat (String.length (itoa v))) as Huniq.
  { intros j Hj Hb. set (L := Z.of_nat _) in *.
    assert (10 ^ (j - 1) < 10 ^ L) as H1%Z.pow_lt_mono_r_iff by lia; [|lia..].
    assert (10 ^ (L - 1) < 10 ^ j) as H2%Z.pow_lt_mono_r_iff by lia; lia. }
  destruct (_ && _) eqn:E1; [reflect_bools; apply Huniq; lia|]. clear E1.
  destruct (_ && _) eqn:E2; [reflect_bools; apply Huniq; [lia|]|done]. by replace (k + 1 - 1) with k by lia.
Qed.

Lemma candidate_reads expf m e n t :
  candidate expf m e n = Some t -> parse_decimal_float t = Some (S754_finite false m e).
Proof.
  unfold candidate, reads_back. cbv zeta. intros H. repeat case_match; simplify_eq; reflect_bools; done.
Qed.

Lemma float64_bounds s m e : is_float64 (S754_finite s m e) -> Zpos m < 2 ^ 53 /\ -1074 <= e <= 971.
Proof.
  unfold is_float64, valid_binary, bounded, canonical_mantissa. intros [Hc Hb]%andb_true_iff.
  apply Z.eqb_eq in Hc. apply Z.leb_le in Hb. change (Zpos (digits2_pos m)) with (Zdigits2 (Zpos m)) in Hc.
  rewrite fexp64 in Hc. pose proof (Zdigits2_bounds (Zpos m) ltac:(lia)).
  assert (2 ^ Zdigits2 (Zpos m) <= 2 ^ 53) by (apply Z.pow_le_mono_r; lia). lia.
Qed.

Lemma pow10_25 k : 0 <= k -> 10 ^ k = 2 ^ k * 5 ^ k.
Proof. intros Hk. by rewrite <-Z.pow_mul_l. Qed.

(** The number times [5^k] for the power that makes it an integer. *)
(** A power below a power of ten, by blocks of ten. *)
Lemma pow_blocks b c n k : 0 <= b -> 0 <= n -> 0 <= c -> b ^ 10 <= 10 ^ c -> k <= 10 * n -> 0 < b -> b ^ k <= 10 ^ (c * n).
Proof.
  intros Hb Hn Hc Hbc Hk Hb0. transitivity (b ^ (10 * n)); [apply Z.pow_le_mono_r; lia|].
  rewrite !Z.pow_mul_r by lia. apply Z.pow_le_mono_l. split; [|done]. apply Z.pow_nonneg. lia.
Qed.

Lemma exact_digits_bound m e :
  Zpos m < 2 ^ 53 -> -1074 <= e <= 971 -> 0 < num m e * 5 ^ Z.max 0 (- e) < 10 ^ 772.
Proof.
  intros Hm He. unfold num.
  assert (0 < 2 ^ Z.max 0 e) by (apply Z.pow_pos_nonneg; lia).
  assert (0 < 5 ^ Z.max 0 (- e)) by (apply Z.pow_pos_nonneg; lia). split; [nia|].
  assert (Zpos m < 10 ^ 16) as Hm' by lia. clear Hm.
  replace (10 ^ 772) with (10 ^ 16 * 10 ^ 756) by (rewrite <-Z.pow_add_r by lia; f_equal).
  assert (2 ^ Z.max 0 e * 5 ^ Z.max 0 (- e) <= 10 ^ 756) as Hp.
  { destruct (Z_le_gt_dec 0 e).
    - rewrite (Z.max_l 0 (- e)) by lia. rewrite Z.pow_0_r, Z.mul_1_r.
      apply (pow_blocks 2 7 108); (lia || done).
    - rewrite (Z.max_l 0 e) by lia. rewrite Z.pow_0_r, Z.mul_1_l.
      apply (pow_blocks 5 7 108); (lia || done). }
  set (T := 10 ^ 756) in *. clearbody T. nia.
Qed.

Lemma itoa_length_upper z k : 0 < z -> 0 <= k -> z < 10 ^ k -> Z.of_nat (String.length (itoa z)) <= k.
Proof.
  intros Hz Hk H. pose proof (itoa_length z Hz) as Hl. pose proof (itoa_length_pos z ltac:(lia)).
  destruct (Z_le_gt_dec (Z.of_nat (String.length (itoa z))) k); [done|].
  assert (10 ^ k <= 10 ^ (Z.of_nat (String.length (itoa z)) - 1)) by (apply Z.pow_le_mono_r; lia). lia.
Qed.

Lemma itoa_length_lower z k : 0 < z -> 10 ^ k <= z -> k < Z.of_nat (String.length (itoa z)).
Proof.
  intros Hz H. pose proof (itoa_length z Hz) as Hl. pose proof (itoa_length_pos z ltac:(lia)).
  destruct (Z_lt_le_dec k (Z.of_nat (String.length (itoa z)))); [done|].
  assert (10 ^ Z.of_nat (String.length (itoa z)) <= 10 ^ k) by (apply Z.pow_le_mono_r; lia). lia.
Qed.

(** With all its digits a candidate is the number itself. *)
Lemma candidate_exact expf m e :
  is_float64 (S754_finite false m e) -> is_Some (candidate expf m e (dec_point m e + Z.max 0 (- e))).
Proof.
  intros Hf. pose proof (float64_bounds _ _ _ Hf) as [Hm He]. pose proof (proj1 (exact_digits_bound m e Hm He)) as Hd.
  unfold candidate. cbv zeta. set (k := Z.max 0 (- e)) in *.
  replace (dec_point m e - (dec_point m e + k)) with (- k) by lia.
  rewrite Z.opp_involutive, (Z.max_r 0 k), (Z.max_l 0 (- k)) by lia. rewrite Z.pow_0_r, Z.mul_1_r.
  assert (num m e * 10 ^ k / den e = num m e * 5 ^ k) as ->.
  { unfold den. fold k. rewrite pow10_25 by lia. rewrite (Z.mul_comm (2 ^ k)), Z.mul_assoc. apply Z.div_mul. apply Z.pow_nonzero; lia. }
  set (d := num m e * 5 ^ k) in *. rewrite (proj2 (Z.ltb_lt 0 d)) by lia. cbn [andb].
  assert (reads_back m e (render expf (decimal_of d (- k))) = true) as ->; [|by case_match].
  apply bool_decide_eq_true. apply parse_render; [lia|done| |].
  - pose proof (itoa_length_upper d 772 ltac:(lia) ltac:(lia) (proj2 (exact_digits_bound m e Hm He))). lia.
  - fold k. rewrite Z.opp_involutive, (Z.max_r 0 k), (Z.max_l 0 (- k)) by lia. unfold d, num.
    rewrite (pow10_25 k) by lia. ring.
Qed.

Lemma dec_point_bounds m e :
  is_float64 (S754_finite false m e) -> 1 <= dec_point m e + Z.max 0 (- e) <= 800.
Proof.
  intros Hf. pose proof (float64_bounds _ _ _ Hf) as [Hm He]. pose proof (proj1 (exact_digits_bound m e Hm He)) as Hd.
  unfold dec_point, den. set (k := Z.max 0 (- e)) in *. set (T := 10 ^ 400). set (V := num m e * T / 2 ^ k).
  assert (0 < 2 ^ k) as H2 by (apply Z.pow_pos_nonneg; lia). assert (0 < 5 ^ k) as H5 by (apply Z.pow_pos_nonneg; lia).
  assert (0 < num m e) as Hn by nia.
  assert (0 <= V) as HV by (apply Z.div_pos; [apply Z.mul_nonneg_nonneg; [lia|by apply Z.pow_nonneg]|done]).
  pose proof (itoa_length_pos V HV) as Hl1. rewrite digits10_eq by done. split.
  - destruct (Z_le_gt_dec 400 k); [lia|].
    assert (10 ^ (400 - k) <= V) as HV'.
    { apply Z.div_le_lower_bound; [done|]. replace T with (10 ^ (400 - k) * 10 ^ k) by (unfold T; rewrite <-Z.pow_add_r by lia; f_equal; lia).
      rewrite (pow10_25 k) by lia. assert (0 < 10 ^ (400 - k)) by (apply Z.pow_pos_nonneg; lia).
      assert (1 <= num m e * 5 ^ k) by lia. nia. }
    assert (0 < 10 ^ (400 - k)) by (apply Z.pow_pos_nonneg; lia).
    pose proof (itoa_length_lower V (400 - k) ltac:(lia) HV'). lia.
  - destruct (Z.eq_dec V 0) as [->|HV0]; [change (String.length (itoa 0)) with 1%nat; lia|].
    pose proof (itoa_length V ltac:(lia)) as [HL _]. set (L := Z.of_nat _) in *.
    assert (V * 2 ^ k <= num m e * T) as Hle by (unfold V; rewrite Z.mul_comm; apply Z.mul_div_le; lia).
    assert (10 ^ (L - 1 + k) < 10 ^ 1172) as Hlt.
    { rewrite Z.pow_add_r by lia. rewrite (pow10_25 k) by lia.
      replace 1172 with (772 + 400) by done. rewrite (Z.pow_add_r 10 772 400) by done. fold T.
      apply Z.le_lt_trans with (num m e * 5 ^ k * T).
      - transitivity (V * 2 ^ k * 5 ^ k).
        + rewrite Z.mul_assoc. repeat (apply Z.mul_le_mono_nonneg_r; [lia|]). done.
        + transitivity (num m e * T * 5 ^ k); [by apply Z.mul_le_mono_nonneg_r; [lia|]|]. apply Z.eq_le_incl. ring.
      - apply Z.mul_lt_mono_pos_r; [by apply Z.pow_pos_nonneg|]. exact (proj2 (exact_digits_bound m e Hm He)). }
    apply Z.pow_lt_mono_r_iff in Hlt; lia.
Qed.

Lemma shortest_from_Some expf m e fuel n k :
  n <= k < n + Z.of_nat fuel -> is_Some (candidate expf m e k) -> is_Some (shortest_from expf m e fuel n).
Proof.
  revert n; induction fuel as [|fuel IH]; intros n Hk Hc; [lia|]. cbn [shortest_from].
  destruct (candidate expf m e n) eqn:E; [eauto|]. apply IH; [|done].
  destruct (Z.eq_dec n k) as [->|]; [rewrite E in Hc; by destruct Hc|lia].
Qed.

Lemma shortest_from_reads expf m e fuel n t :
  shortest_from expf m e fuel n = Some t -> parse_decimal_float t = Some (S754_finite false m e).
Proof.
  revert n; induction fuel as [|fuel IH]; intros n; [done|]. cbn [shortest_from].
  destruct (candidate expf m e n) eqn:E; [|apply IH]. intros [= <-]. by apply candidate_reads in E.
Qed.

Lemma shortest_spec expf m e :
  is_float64 (S754_finite false m e) ->
  exists t, shortest expf m e = Some t /\ parse_decimal_float t = Some (S754_finite false m e).
Proof.
  intros Hf. pose proof (dec_point_bounds m e Hf).
  destruct (shortest_from_Some expf m e 800 1 (dec_point m e + Z.max 0 (- e)) ltac:(lia) (candidate_exact expf m e Hf)) as [t Ht].
  exists t. split; [done|by eapply shortest_from_reads].
Qed.

Lemma shortest_render expf m e t :
  shortest expf m e = Some t -> exists d q, 0 < d /\ t = render expf (decimal_of d q).
Proof.
  unfold shortest. generalize 800%nat as fuel. generalize 1 as n. intros n fuel. revert n.
  induction fuel as [|fuel IH]; intros n; [done|]. cbn [shortest_from].
  destruct (candidate expf m e n) eqn:E; [|apply IH]. intros [= ->]. unfold candidate in E. cbv zeta in E.
  set (d := _ / _) in E.
  assert (0 <= d) as Hd.
  { apply Z.div_pos; unfold num, den.
    - repeat apply Z.mul_nonneg_nonneg; try apply Z.pow_nonneg; lia.
    - apply Z.mul_pos_pos; apply Z.pow_pos_nonneg; lia. }
  destruct ((0 <? d) && _) eqn:Ed.
  - apply andb_true_iff in Ed as [Hp%Z.ltb_lt _].
    destruct (reads_back _ _ _ && _); injection E as <-; do 2 eexists; (split; [|done]); lia.
  - clear Ed. destruct (reads_back _ _ _); [|done]. injection E as <-. do 2 eexists; (split; [|done]); lia.
Qed.

(** A rendered decimal starts with a digit. *)
Lemma render_head expf d q :
  0 < d -> exists a s, render expf (decimal_of d q) = String a s /\ is_digit a = true.
Proof.
  intros Hd. destruct (decimal_of d q) as [ds dp] eqn:E. apply decimal_of_spec in E as (Ha & Hl & _); [|done].
  destruct ds as [|a ds]; [cbn in Hl; lia|]. unfold all_digits in Ha. cbn in Ha. apply andb_true_iff in Ha as [Ha _].
  unfold render. destruct expf; unfold fmtE, fmtF.
  - cbn [str_take]. rewrite str_app_cons. eauto.
  - destruct (Z.leb_spec dp 0); [by do 2 eexists|]. destruct (_ <=? dp); [rewrite str_app_cons; eauto|].
    destruct (Z.to_nat dp) eqn:En; [lia|]. cbn [str_take]. rewrite str_app_cons. eauto.
Qed.

Lemma parse_neg t x :
  starts_digit t = true -> parse_decimal_float t = Some x ->
  parse_decimal_float (String "-" t) = Some (SFopp x).
Proof.
  unfold parse_decimal_float. destruct t as [|a t]; [done|]. cbn [starts_digit]. intros Ha%is_digit_iff.
  rewrite (proj2 (Z.eqb_neq (byte_val a) 45)), (proj2 (Z.eqb_neq (byte_val a) 43)) by lia.
  change (byte_val "-" =? 45) with true. cbn iota.
  destruct (take_digits (String a t)) as [int r1]. destruct (match r1 with "" => _ | String _ _ => _ end) as [frac r2].
  destruct (int +:+ frac); [done|]. destruct (digits_val 0 _); [|done]. cbn [mbind option_bind].
  destruct (parse_exponent r2); [|done]. cbn [mbind option_bind]. destruct (f64_decimal _ _); by intros [= <-].
Qed.

(** The text of a finite float64 reads back as that number, bit for bit. *)
Lemma float_text_reads x :
  is_float64 x -> finite64 x -> parse_decimal_float (float_text x) = Some x.
Proof.
  intros Hv Hf. destruct x as [[]|s| |s m e]; try done. cbn [float_text].
  assert (is_float64 (S754_finite false m e)) as Hv' by exact Hv.
  destruct (shortest_spec (exp_form (S754_finite s m e)) m e Hv') as (t & Ht & Hr).
  rewrite Ht. cbn [default]. destruct s; [|done].
  destruct (shortest_render _ _ _ _ Ht) as (d & q & Hd & ->).
  destruct (render_head (exp_form (S754_finite true m e)) d q Hd) as (a & s & E & Ha).
  change ("-" +:+ ?t) with (String "-" t). rewrite (parse_neg _ (S754_finite false m e)); [done| |done].
  rewrite E. exact Ha.
Qed.

(** What reading a decimal yields is a finite float64. *)
Lemma parse_decimal_float_valid s x : parse_decimal_float s = Some x -> is_float64 x /\ finite64 x.
Proof.
  unfold parse_decimal_float. destruct (match s with "" => _ | String _ _ => _ end) as [neg r0].
  destruct (take_digits r0) as [int r1]. destruct (match r1 with "" => _ | String _ _ => _ end) as [frac r2].
  destruct (int +:+ frac); [done|]. destruct (digits_val 0 _) as [mt|]; [|done]. cbn [mbind option_bind].
  destruct (parse_exponent r2) as [ex|]; [|done]. cbn [mbind option_bind].
  pose proof (f64_ratio_valid (mt * 10 ^ Z.max 0 (ex - Z.of_nat (String.length frac)))
    (Z.to_pos (10 ^ Z.max 0 (- (ex - Z.of_nat (String.length frac)))))) as Hv.
  unfold f64_decimal. destruct (f64_ratio _ _); destruct neg; intros E; simplify_eq; done.
Qed.
