(* ===== verification/GoFloatBounds.v ===== *)
(** * Magnitudes of float64 results

    Bounds on the size of sums, products and quotients, precise enough to exclude
    overflow: a positive number is [sized lo hi] when it is at least [2^(lo-1)] and less than [2^hi]. *)
From S2P Require Import Prelude.
From S2P Require Import GoStrings.
From S2P Require Import GoFloat.
From S2P Require Import GoTime.
From S2P Require Import GoUtf8.
From S2P Require Import GoDigits.
From S2P Require Import GoFloatText.

Definition sized (lo hi : Z) (x : float64) : Prop :=
  is_float64 x /\
  match x with S754_finite false m e => lo <= Zdigits2 (Zpos m) + e <= hi | _ => False end.

Lemma sized_weaken lo hi lo' hi' x : sized lo hi x -> lo' <= lo -> hi <= hi' -> sized lo' hi' x.
Proof. intros [Hv Hx] Hl Hh. split; [done|]. destruct x as [|[]| |[]]; try done. lia. Qed.

Lemma sized_finite lo hi x : sized lo hi x -> is_float64 x /\ finite64 x.
Proof. intros [Hv Hx]. split; [done|]. by destruct x as [|[]| |[]]. Qed.

Lemma Zdigits2_mono m n : 0 < m <= n -> Zdigits2 m <= Zdigits2 n.
Proof.
  intros Hm. pose proof (Zdigits2_bounds m ltac:(lia)). pose proof (Zdigits2_bounds n ltac:(lia)).
  pose proof (Zdigits2_pos n ltac:(lia)). destruct (Z_le_gt_dec (Zdigits2 m) (Zdigits2 n)); [done|].
  assert (2 ^ Zdigits2 n <= 2 ^ (Zdigits2 m - 1)) by (apply Z.pow_le_mono_r; lia). lia.
Qed.

(** Adding one adds at most one digit. *)
Lemma Zdigits2_succ m : 0 < m -> Zdigits2 m <= Zdigits2 (m + 1) <= Zdigits2 m + 1.
Proof.
  intros Hm. pose proof (Zdigits2_bounds m Hm). pose proof (Zdigits2_bounds (m + 1) ltac:(lia)).
  pose proof (Zdigits2_pos m Hm). split; [apply Zdigits2_mono; lia|].
  destruct (Z_le_gt_dec (Zdigits2 (m + 1)) (Zdigits2 m + 1)); [done|].
  assert (2 ^ (Zdigits2 m + 1) <= 2 ^ (Zdigits2 (m + 1) - 1)) by (apply Z.pow_le_mono_r; lia).
  rewrite Z.pow_add_r in * by lia. lia.
Qed.

(** Rounding keeps the size, or makes it one larger. *)
Lemma round_sized m e l :
  0 < m -> e <= fexp prec64 emax64 (Zdigits2 m + e) -> -1000 <= Zdigits2 m + e <= 1000 ->
  sized (Zdigits2 m + e) (Zdigits2 m + e + 1) (binary_round_aux prec64 emax64 false m e l).
Proof.
  intros Hm He Hd. split; [apply binary_round_aux_valid; lia|]. unfold binary_round_aux.
  destruct (shr_fexp _ _ m e l) as [r1 e1] eqn:E1.
  destruct (shr_fexp_canonical m e l r1 e1 Hm He E1) as [He1 [[_ Hc]|[Hr1 Hd1]]]; rewrite fexp64 in He1; [lia|].
  pose proof (round_nearest_even_bounds (shr_m r1) (loc_of_shr_record r1)) as Hrne.
  set (m2 := round_nearest_even _ _) in *.
  assert (Zdigits2 (shr_m r1) <= Zdigits2 m2 <= Zdigits2 (shr_m r1) + 1) as Hd2.
  { assert (m2 = shr_m r1 \/ m2 = shr_m r1 + 1) as [-> | ->] by lia; [lia|by apply Zdigits2_succ]. }
  destruct (shr_fexp _ _ m2 e1 loc_Exact) as [r2 e2] eqn:E2.
  assert (e1 <= fexp prec64 emax64 (Zdigits2 m2 + e1)) as Hf by (rewrite fexp64; lia).
  destruct (shr_fexp_canonical m2 e1 loc_Exact r2 e2 ltac:(lia) Hf E2) as [He2 [[_ Hc]|[Hr2 Hd3]]]; rewrite fexp64 in He2; [lia|].
  destruct (shr_m r2) as [|p|p]; [lia| |lia]. rewrite (proj2 (Z.leb_le e2 _)) by lia. lia.
Qed.

(** A canonical mantissa of a number that is not tiny has all its digits. *)
Lemma sized_digits lo hi m e : sized lo hi (S754_finite false m e) -> -1000 <= lo -> Zdigits2 (Zpos m) = 53.
Proof.
  intros [Hv Hx] Hl. unfold is_float64, valid_binary, bounded, canonical_mantissa in Hv.
  apply andb_true_iff in Hv as [Hv%Z.eqb_eq _]. change (Zpos (digits2_pos m)) with (Zdigits2 (Zpos m)) in Hv.
  rewrite fexp64 in Hv. lia.
Qed.

Lemma normalize_sized d e :
  -1000 <= Zdigits2 (Zpos d) + e <= 1000 ->
  sized (Zdigits2 (Zpos d) + e) (Zdigits2 (Zpos d) + e + 1) (binary_normalize prec64 emax64 (Zpos d) e false).
Proof.
  intros Hd. unfold binary_normalize, binary_round. change (Zpos (digits2_pos d)) with (Zdigits2 (Zpos d)).
  destruct (shl_align d e _) as [m1 e1] eqn:Es. apply shl_align_spec in Es.
  assert (Zdigits2 (Zpos m1) + e1 = Zdigits2 (Zpos d) + e /\ e1 <= fexp prec64 emax64 (Zdigits2 (Zpos d) + e)) as [Hs He].
  { destruct Es as [(Hlt & Hm & ->)|(Hle & -> & ->)]; [|done]. rewrite Hm, Zdigits2_mul_pow by lia. split; lia. }
  rewrite <-Hs in *. by apply round_sized.
Qed.

Lemma f64_of_Z_sized z : 0 < z < 2 ^ 64 -> sized 1 65 (f64_of_Z z).
Proof.
  intros Hz. destruct z as [|p|p]; try lia. pose proof (Zdigits2_pos (Zpos p) ltac:(lia)).
  pose proof (Zdigits2_bounds (Zpos p) ltac:(lia)).
  assert (Zdigits2 (Zpos p) <= 64).
  { destruct (Z_le_gt_dec (Zdigits2 (Zpos p)) 64); [done|].
    assert (2 ^ 64 <= 2 ^ (Zdigits2 (Zpos p) - 1)) by (apply Z.pow_le_mono_r; lia). lia. }
  eapply sized_weaken; [apply (normalize_sized p 0)|..]; lia.
Qed.

Lemma Zdigits2_mul m n : 0 < m -> 0 < n ->
  Zdigits2 m + Zdigits2 n - 1 <= Zdigits2 (m * n) <= Zdigits2 m + Zdigits2 n.
Proof.
  intros Hm Hn. pose proof (Zdigits2_bounds m Hm). pose proof (Zdigits2_bounds n Hn).
  pose proof (Zdigits2_bounds (m * n) ltac:(nia)). pose proof (Zdigits2_pos m Hm). pose proof (Zdigits2_pos n Hn).
  pose proof (Zdigits2_pos (m * n) ltac:(nia)).
  assert (2 ^ (Zdigits2 m - 1 + (Zdigits2 n - 1)) <= m * n) as Hlo by (rewrite Z.pow_add_r by lia; nia).
  assert (m * n < 2 ^ (Zdigits2 m + Zdigits2 n)) as Hhi by (rewrite Z.pow_add_r by lia; nia). split.
  - destruct (Z_le_gt_dec (Zdigits2 m + Zdigits2 n - 1) (Zdigits2 (m * n))); [done|].
    assert (2 ^ Zdigits2 (m * n) <= 2 ^ (Zdigits2 m - 1 + (Zdigits2 n - 1))) by (apply Z.pow_le_mono_r; lia). lia.
  - destruct (Z_le_gt_dec (Zdigits2 (m * n)) (Zdigits2 m + Zdigits2 n)); [done|].
    assert (2 ^ (Zdigits2 m + Zdigits2 n) <= 2 ^ (Zdigits2 (m * n) - 1)) by (apply Z.pow_le_mono_r; lia). lia.
Qed.

Lemma f64_mul_sized lo hi lo' hi' x y :
  sized lo hi x -> sized lo' hi' y -> -400 <= lo -> hi <= 400 -> -400 <= lo' -> hi' <= 400 ->
  sized (lo + lo' - 1) (hi + hi' + 1) (f64_mul x y).
Proof.
  intros Hx Hy Hlo Hhi Hlo' Hhi'. destruct x as [|[]| |[] mx ex]; try by destruct Hx.
  destruct y as [|[]| |[] my ey]; try by destruct Hy.
  pose proof (sized_digits _ _ _ _ Hx ltac:(lia)) as Hdx. pose proof (sized_digits _ _ _ _ Hy ltac:(lia)) as Hdy.
  destruct Hx as [_ Hx], Hy as [_ Hy]. unfold f64_mul, SFmul. cbn [xorb].
  pose proof (Zdigits2_mul (Zpos mx) (Zpos my) ltac:(lia) ltac:(lia)) as Hd.
  change (Zpos (mx * my)) with (Zpos mx * Zpos my).
  eapply sized_weaken; [apply round_sized|..]; rewrite ?fexp64; lia.
Qed.

Lemma Zdigits2_div m n k : 0 < m -> 0 < n -> 0 <= k -> Zdigits2 n <= Zdigits2 m + k - 1 ->
  0 < (m * 2 ^ k) / n /\ Zdigits2 m + k - Zdigits2 n <= Zdigits2 ((m * 2 ^ k) / n) <= Zdigits2 m + k - Zdigits2 n + 1.
Proof.
  intros Hm Hn Hk Hd. destruct m as [|m|m]; [lia| |lia]. destruct n as [|n|n]; [lia| |lia].
  destruct (ratio_digits m n k Hk ltac:(lia)) as [Hlo Hpos]. split; [done|]. split; [done|].
  set (q := _ / _) in *. pose proof (Zdigits2_bounds q Hpos) as Hq. pose proof (Zdigits2_bounds (Zpos m) ltac:(lia)).
  pose proof (Zdigits2_bounds (Zpos n) ltac:(lia)). pose proof (Zdigits2_pos (Zpos n) ltac:(lia)). pose proof (Zdigits2_pos q Hpos).
  pose proof (Zdigits2_pos (Zpos m) ltac:(lia)).
  destruct (Z_le_gt_dec (Zdigits2 q) (Zdigits2 (Zpos m) + k - Zdigits2 (Zpos n) + 1)); [done|].
  assert (Zpos n * q <= Zpos m * 2 ^ k) as Hle by (apply Z.mul_div_le; lia).
  assert (2 ^ (Zdigits2 (Zpos m) + k) <= 2 ^ ((Zdigits2 (Zpos n) - 1) + (Zdigits2 q - 1))) as Hp by (apply Z.pow_le_mono_r; lia).
  rewrite !Z.pow_add_r in Hp by lia. assert (0 < 2 ^ k) by (apply Z.pow_pos_nonneg; lia).
  assert (0 < 2 ^ (Zdigits2 q - 1)) by (apply Z.pow_pos_nonneg; lia).
  assert (2 ^ (Zdigits2 (Zpos n) - 1) * 2 ^ (Zdigits2 q - 1) <= Zpos n * q) by (apply Z.mul_le_mono_nonneg; lia).
  nia.
Qed.

Lemma f64_div_sized lo hi lo' hi' x y :
  sized lo hi x -> sized lo' hi' y -> -400 <= lo -> hi <= 400 -> -400 <= lo' -> hi' <= 400 ->
  sized (lo - hi') (hi - lo' + 2) (f64_div x y).
Proof.
  intros Hx Hy Hlo Hhi Hlo' Hhi'. destruct x as [|[]| |[] mx ex]; try by destruct Hx.
  destruct y as [|[]| |[] my ey]; try by destruct Hy.
  pose proof (sized_digits _ _ _ _ Hx ltac:(lia)) as Hdx. pose proof (sized_digits _ _ _ _ Hy ltac:(lia)) as Hdy.
  destruct Hx as [_ Hx], Hy as [_ Hy]. unfold f64_div, SFdiv, SFdiv_core_binary. cbn [xorb].
  rewrite Hdx, Hdy. set (e' := Z.min _ _).
  assert (e' = ex - ey - 53) as He'.
  { unfold e'. rewrite fexp64. lia. }
  assert (match ex - ey - e' with Z0 => Zpos mx | Zpos _ => Z.shiftl (Zpos mx) (ex - ey - e') | Zneg _ => 0 end = Zpos mx * 2 ^ 53) as ->.
  { replace (ex - ey - e') with 53 by lia. apply Z.shiftl_mul_pow2. lia. }
  destruct (Z.div_eucl (Zpos mx * 2 ^ 53) (Zpos my)) as [q r] eqn:Eq.
  assert (q = (Zpos mx * 2 ^ 53) / Zpos my) as Hq by (unfold Z.div; by rewrite Eq).
  destruct (Zdigits2_div (Zpos mx) (Zpos my) 53) as [Hpos Hd]; [lia..|]. rewrite <-Hq in *.
  eapply sized_weaken; [apply round_sized|..]; rewrite ?fexp64; lia.
Qed.

(** The positive difference of two converted [uint64] values. *)
Lemma f64_sub_sized a b :
  is_u64 a -> is_u64 b -> f64_gt (f64_sub (f64_of_Z a) (f64_of_Z b)) f64_zero = true ->
  sized (-60) 80 (f64_sub (f64_of_Z a) (f64_of_Z b)).
Proof.
  intros Ha Hb Hg. unfold is_u64 in *.
  destruct (Z.eq_dec b 0) as [->|Hb0].
  { destruct (Z.eq_dec a 0) as [->|Ha0]; [done|]. pose proof (f64_of_Z_sized a ltac:(lia)) as Hs.
    change (f64_of_Z 0) with (S754_zero false). destruct (f64_of_Z a) as [|[]| |[] m e]; try by destruct Hs.
    eapply (sized_weaken _ _ _ _ _ Hs); lia. }
  pose proof (f64_of_Z_sized b ltac:(lia)) as Hsb.
  destruct (Z.eq_dec a 0) as [->|Ha0].
  { change (f64_of_Z 0) with (S754_zero false) in *. destruct (f64_of_Z b) as [|[]| |[] m e]; try by destruct Hsb. }
  pose proof (f64_of_Z_sized a ltac:(lia)) as Hsa.
  destruct (f64_of_Z a) as [|[]| |[] ma ea]; try by destruct Hsa.
  destruct (f64_of_Z b) as [|[]| |[] mb eb]; try by destruct Hsb.
  pose proof (sized_digits _ _ _ _ Hsa ltac:(lia)) as Hda. pose proof (sized_digits _ _ _ _ Hsb ltac:(lia)) as Hdb.
  destruct Hsa as [_ Hsa], Hsb as [_ Hsb]. unfold f64_sub, SFsub in *. cbn zeta in *.
  destruct (shl_align ma ea _) as [m1 e1] eqn:E1, (shl_align mb eb _) as [m2 e2] eqn:E2.
  cbn [fst SpecFloat.cond_Zopp] in *. set (ez := Z.min ea eb) in *.
  assert (Zdigits2 (Zpos m1) + ez = 53 + ea) as Hm1.
  { apply shl_align_spec in E1 as [(? & -> & _)|(? & -> & _)]; [rewrite Zdigits2_mul_pow|]; lia. }
  destruct (Zpos m1 - Zpos m2) as [|d|d] eqn:Ed; [done| |].
  - pose proof (Zdigits2_pos (Zpos d) ltac:(lia)). pose proof (Zdigits2_mono (Zpos d) (Zpos m1) ltac:(lia)).
    eapply sized_weaken; [apply normalize_sized|..]; lia.
  - exfalso. revert Hg. unfold binary_normalize, binary_round. destruct (shl_align d ez _) as [m' e'].
    pose proof (binary_round_aux_sign true (Zpos m') e' loc_Exact ltac:(lia)) as Hs.
    by destruct (binary_round_aux _ _ _ _ _ _) as [|[]| |[]].
Qed.
