(* ===== verification/GoJson.v ===== *)
(** * JSON text ([encoding/json])

    The scanner of [encoding/json] as a lexer and a parser, each one step per byte or
    token with an explicit stack, and the compact text that [Marshal] writes.  Printing
    and parsing are inverse up to the replacement of invalid UTF-8. *)
From S2P Require Import Prelude.
From S2P Require Import GoStrings.
From S2P Require Import GoFloat.
From S2P Require Import GoTime.
From S2P Require Import GoUtf8.
From S2P Require Import GoDigits.
From S2P Require Import GoFloatText.

(** ** Values

    A number is kept as its literal, a string as the text it denotes. *)
Unset Elimination Schemes.
Inductive json :=
  | JNull
  | JBool (b : bool)
  | JNum (literal : string)
  | JStr (s : string)
  | JArr (l : list json)
  | JObj (l : list (string * json)).
Set Elimination Schemes.

(** Induction through the lists of values. *)
Section json_induction.
Context (P : json -> Prop).
Hypothesis Hnull : P JNull.
Hypothesis Hbool : forall b, P (JBool b).
Hypothesis Hnum : forall t, P (JNum t).
Hypothesis Hstr : forall s, P (JStr s).
Hypothesis Harr : forall l, Forall P l -> P (JArr l).
Hypothesis Hobj : forall l, Forall (fun kv => P kv.2) l -> P (JObj l).

Fixpoint json_ind (j : json) : P j :=
  match j with
  | JNull => Hnull
  | JBool b => Hbool b
  | JNum t => Hnum t
  | JStr s => Hstr s
  | JArr l => Harr l ((fix go l : Forall P l :=
      match l with [] => Forall_nil_2 P | x :: l => Forall_cons_2 P x l (json_ind x) (go l) end) l)
  | JObj l => Hobj l ((fix go l : Forall (fun kv => P kv.2) l :=
      match l with [] => Forall_nil_2 _ | kv :: l => Forall_cons_2 _ kv l (json_ind kv.2) (go l) end) l)
  end.
End json_induction.

(** ** Strings *)

Definition quote : ascii := Ascii.ascii_of_nat 34.
Definition backslash : ascii := "\"%char.

Definition hex_digit (z : Z) : ascii := byte (if z <? 10 then 48 + z else 87 + z).

Definition hex_val (a : ascii) : option Z :=
  let v := byte_val a in
  if (48 <=? v) && (v <=? 57) then Some (v - 48)
  else if (97 <=? v) && (v <=? 102) then Some (v - 87)
  else if (65 <=? v) && (v <=? 70) then Some (v - 55)
  else None.

(** [getu4]: the value of a [\uXXXX] at the head of the text. *)
Definition getu4 (s : string) : option Z :=
  match s with
  | String a (String u (String h1 (String h2 (String h3 (String h4 _))))) =>
      if bool_decide (a = backslash) && bool_decide (u = "u"%char) then
        d1 ← hex_val h1; d2 ← hex_val h2; d3 ← hex_val h3; d4 ← hex_val h4;
        Some (d1 * 4096 + d2 * 256 + d3 * 16 + d4)
      else None
  | _ => None
  end.

(** The short escapes. *)
Definition unescape (c : ascii) : ascii :=
  if bool_decide (c = "b"%char) then byte 8
  else if bool_decide (c = "f"%char) then byte 12
  else if bool_decide (c = "n"%char) then byte 10
  else if bool_decide (c = "r"%char) then byte 13
  else if bool_decide (c = "t"%char) then byte 9
  else c.

(** [unquoteBytes], one turn: an escape, a pair of surrogates, a rune, or a byte that is
    not UTF-8. *)
Definition unquote1 (s : string) : string * nat :=
  match s with
  | String a (String c _) =>
      if bool_decide (a = backslash) then
        match getu4 s with
        | Some r =>
            if is_surrogate r then
              match getu4 (str_drop 6 s) with
              | Some r2 =>
                  if decode_surrogates r r2 =? 65533 then (runeError, 6%nat)
                  else (encode_rune (decode_surrogates r r2), 12%nat)
              | None => (runeError, 6%nat)
              end
            else (encode_rune r, 6%nat)
        | None => (sanitize (String (unescape c) ""), 2%nat)
        end
      else sanitize1 s
  | _ => sanitize1 s
  end.

Definition unquote (raw : string) : string := rewrite_runes unquote1 raw.

(** [appendString] with HTML escaping, one turn. *)
Definition quote1 (s : string) : string * nat :=
  match s with
  | EmptyString => (EmptyString, 1%nat)
  | String a _ =>
      let v := byte_val a in
      if is_ascii_byte a then
        if (v =? 34) || (v =? 92) then (String backslash (String a ""), 1%nat)
        else if v =? 8 then ("\b", 1%nat)
        else if v =? 12 then ("\f", 1%nat)
        else if v =? 10 then ("\n", 1%nat)
        else if v =? 13 then ("\r", 1%nat)
        else if v =? 9 then ("\t", 1%nat)
        else if (v <? 32) || (v =? 60) || (v =? 62) || (v =? 38)
        then ("\u00" +:+ String (hex_digit (v / 16)) (String (hex_digit (v mod 16)) ""), 1%nat)
        else (String a "", 1%nat)
      else if head_valid s then
        let r := str_take (rune_len s) s in
        if bool_decide (r = bytes_string [226; 128; 168]) then ("\u2028", 3%nat)
        else if bool_decide (r = bytes_string [226; 128; 169]) then ("\u2029", 3%nat)
        else (r, rune_len s)
      else ("\ufffd", 1%nat)
  end.

Definition quoted (s : string) : string := rewrite_runes quote1 s.

(** ** Tokens *)

Inductive token :=
  | TOpenArr | TCloseArr | TOpenObj | TCloseObj | TComma | TColon
  | TNull | TBool (b : bool) | TNum (literal : string) | TStr (s : string).

(** Where the scanner is inside a number (its states [stateNeg] ... [stateE0]). *)
Inductive num_state := NNeg | NZero | NInt | NDot | NFrac | NExp | NExpSign | NExpDigits.

Definition num_step (n : num_state) (a : ascii) : option num_state :=
  let v := byte_val a in
  let exp := (v =? 69) || (v =? 101) in
  match n with
  | NNeg => if v =? 48 then Some NZero else if is_digit a then Some NInt else None
  | NZero => if v =? 46 then Some NDot else if exp then Some NExp else None
  | NInt => if is_digit a then Some NInt else if v =? 46 then Some NDot else if exp then Some NExp else None
  | NDot => if is_digit a then Some NFrac else None
  | NFrac => if is_digit a then Some NFrac else if exp then Some NExp else None
  | NExp => if (v =? 43) || (v =? 45) then Some NExpSign else if is_digit a then Some NExpDigits else None
  | NExpSign | NExpDigits => if is_digit a then Some NExpDigits else None
  end.

(** The number may end here. *)
Definition num_done (n : num_state) : bool :=
  match n with NZero | NInt | NFrac | NExpDigits => true | _ => false end.

(** The state a number starts in. *)
Definition num_start (a : ascii) : option num_state :=
  if byte_val a =? 45 then Some NNeg
  else if byte_val a =? 48 then Some NZero
  else if is_digit a then Some NInt
  else None.

(** Inside a string: after a backslash, or before [n] more hexadecimal digits. *)
Inductive esc_state := EPlain | EBackslash | EHex (n : nat).

Inductive lex_state :=
  | LIdle
  | LStr (raw : string) (e : esc_state)
  | LNum (raw : string) (n : num_state)
  | LWord (t : token) (rest : string).

Definition is_space (a : ascii) : bool :=
  let v := byte_val a in (v =? 32) || (v =? 9) || (v =? 13) || (v =? 10).

Definition snoc (s : string) (a : ascii) : string := s +:+ String a "".

(** A byte between tokens. *)
Definition lex_idle (a : ascii) : option (lex_state * list token) :=
  if is_space a then Some (LIdle, [])
  else if bool_decide (a = "["%char) then Some (LIdle, [TOpenArr])
  else if bool_decide (a = "]"%char) then Some (LIdle, [TCloseArr])
  else if bool_decide (a = "{"%char) then Some (LIdle, [TOpenObj])
  else if bool_decide (a = "}"%char) then Some (LIdle, [TCloseObj])
  else if bool_decide (a = ","%char) then Some (LIdle, [TComma])
  else if bool_decide (a = ":"%char) then Some (LIdle, [TColon])
  else if bool_decide (a = quote) then Some (LStr "" EPlain, [])
  else if bool_decide (a = "t"%char) then Some (LWord (TBool true) "rue", [])
  else if bool_decide (a = "f"%char) then Some (LWord (TBool false) "alse", [])
  else if bool_decide (a = "n"%char) then Some (LWord TNull "ull", [])
  else n ← num_start a; Some (LNum (String a "") n, []).

Definition lex_step (st : lex_state) (a : ascii) : option (lex_state * list token) :=
  match st with
  | LIdle => lex_idle a
  | LStr raw EPlain =>
      if bool_decide (a = quote) then Some (LIdle, [TStr (unquote raw)])
      else if bool_decide (a = backslash) then Some (LStr (snoc raw a) EBackslash, [])
      else if byte_val a <? 32 then None
      else Some (LStr (snoc raw a) EPlain, [])
  | LStr raw EBackslash =>
      if bool_decide (a = "u"%char) then Some (LStr (snoc raw a) (EHex 4), [])
      else if existsb (fun c => bool_decide (a = c)) [quote; backslash; "/"; "b"; "f"; "n"; "r"; "t"]%char
      then Some (LStr (snoc raw a) EPlain, [])
      else None
  | LStr raw (EHex n) =>
      _ ← hex_val a;
      Some (LStr (snoc raw a) (match n with S (S n') => EHex (S n') | _ => EPlain end), [])
  | LNum raw n =>
      match num_step n a with
      | Some n' => Some (LNum (snoc raw a) n', [])
      | None =>
          if num_done n then
            '(st', ts) ← lex_idle a; Some (st', TNum raw :: ts)
          else None
      end
  | LWord t (String c rest) =>
      if bool_decide (a = c)
      then Some (match rest with EmptyString => (LIdle, [t]) | _ => (LWord t rest, []) end)
      else None
  | LWord t EmptyString => None
  end.

(** The end of the text. *)
Definition lex_end (st : lex_state) : option (list token) :=
  match st with
  | LIdle => Some []
  | LNum raw n => if num_done n then Some [TNum raw] else None
  | _ => None
  end.

Fixpoint lex (st : lex_state) (s : string) : option (list token) :=
  match s with
  | EmptyString => lex_end st
  | String a s' => '(st', ts) ← lex_step st a; rest ← lex st' s'; Some (ts ++ rest)
  end.

(** ** The parser *)

(** An open array with its elements so far, an open object with its members so far and
    the key of the pending one. *)
Inductive frame :=
  | FArr (l : list json)
  | FObj (l : list (string * json)) (key : string).

Inductive parse_state :=
  | SValue (st : list frame)
  | SValueOrEnd (st : list frame)                              (* after an opening bracket *)
  | SKeyOrEnd (st : list frame)                                (* after an opening brace *)
  | SKey (l : list (string * json)) (st : list frame)
  | SColon (l : list (string * json)) (key : string) (st : list frame)
  | SAfterElem (l : list json) (st : list frame)
  | SAfterMember (l : list (string * json)) (st : list frame)
  | SEnd (j : json).

(** A complete value below the open frames. *)
Definition deliver (j : json) (st : list frame) : parse_state :=
  match st with
  | [] => SEnd j
  | FArr l :: st' => SAfterElem (l ++ [j]) st'
  | FObj l k :: st' => SAfterMember (l ++ [(k, j)]) st'
  end.

Definition maxNestingDepth : nat := Z.to_nat 10000.
#[local] Arguments maxNestingDepth : simpl never.

Definition parse_value (st : list frame) (t : token) : option parse_state :=
  match t with
  | TNull => Some (deliver JNull st)
  | TBool b => Some (deliver (JBool b) st)
  | TNum l => Some (deliver (JNum l) st)
  | TStr s => Some (deliver (JStr s) st)
  | TOpenArr => if (length st <? maxNestingDepth)%nat then Some (SValueOrEnd st) else None
  | TOpenObj => if (length st <? maxNestingDepth)%nat then Some (SKeyOrEnd st) else None
  | _ => None
  end.

Definition parse_step (p : parse_state) (t : token) : option parse_state :=
  match p, t with
  | SValue st, _ => parse_value st t
  | SValueOrEnd st, TCloseArr => Some (deliver (JArr []) st)
  | SValueOrEnd st, _ => parse_value (FArr [] :: st) t
  | SKeyOrEnd st, TCloseObj => Some (deliver (JObj []) st)
  | SKeyOrEnd st, TStr k => Some (SColon [] k st)
  | SKey l st, TStr k => Some (SColon l k st)
  | SColon l k st, TColon => Some (SValue (FObj l k :: st))
  | SAfterElem l st, TComma => Some (SValue (FArr l :: st))
  | SAfterElem l st, TCloseArr => Some (deliver (JArr l) st)
  | SAfterMember l st, TComma => Some (SKey l st)
  | SAfterMember l st, TCloseObj => Some (deliver (JObj l) st)
  | _, _ => None
  end.

Definition parse_from (p : parse_state) (ts : list token) : option parse_state :=
  foldl (fun o t => o ≫= fun p => parse_step p t) (Some p) ts.

(** A whole text: one value and white space. *)
Definition parse (s : string) : option json :=
  ts ← lex LIdle s;
  match parse_from (SValue []) ts with Some (SEnd j) => Some j | _ => None end.

(** ** The printer *)

Fixpoint print (j : json) : string :=
  match j with
  | JNull => "null"
  | JBool b => if b then "true" else "false"
  | JNum l => l
  | JStr s => String quote (quoted s +:+ String quote "")
  | JArr l => "[" +:+ Join (print <$> l) "," +:+ "]"
  | JObj l => "{" +:+ Join ((fun kv => String quote (quoted kv.1 +:+ String quote (":" +:+ print kv.2))) <$> l) "," +:+ "}"
  end.

(** ** Lemmas: one byte at a time *)

Lemma lex_emit st a st' ts s :
  lex_step st a = Some (st', ts) -> lex st (String a s) = app ts <$> lex st' s.
Proof. intros E. cbn. rewrite E. cbn. by destruct (lex st' s). Qed.

Lemma lex_silent st a st' s : lex_step st a = Some (st', []) -> lex st (String a s) = lex st' s.
Proof. intros E. rewrite (lex_emit _ _ _ _ _ E). by destruct (lex st' s). Qed.

Lemma hex_val_digit z : 0 <= z < 16 -> hex_val (hex_digit z) = Some z.
Proof.
  intros Hz. unfold hex_val, hex_digit. destruct (Z.ltb_spec z 10); rewrite byte_val_byte by lia.
  - rewrite (proj2 (Z.leb_le _ _)), (proj2 (Z.leb_le _ _)) by lia. cbn [andb]. f_equal. lia.
  - rewrite (proj2 (Z.leb_gt (87 + z) 57)) by lia. rewrite andb_false_r.
    rewrite (proj2 (Z.leb_le _ _)), (proj2 (Z.leb_le _ _)) by lia. cbn [andb]. f_equal. lia.
Qed.

Lemma byte_byte_val a : byte (byte_val a) = a.
Proof. unfold byte, byte_val. rewrite N2Z.id. apply Ascii.ascii_N_embedding. Qed.

Lemma byte_val_inj a b : byte_val a = byte_val b -> a = b.
Proof. intros E. by rewrite <-(byte_byte_val a), <-(byte_byte_val b), E. Qed.

Lemma byte_ne a b : byte_val a <> byte_val b -> bool_decide (a = b) = false.
Proof. intros H. apply bool_decide_eq_false_2. by intros ->. Qed.

(** *** Inside strings

    A block is a text the lexer passes without leaving the string; reading it back
    yields the text [u]. *)
Definition str_block (b : string) : Prop :=
  forall raw t, lex (LStr raw EPlain) (b +:+ t) = lex (LStr (raw +:+ b) EPlain) t.

Definition unq_block (b u : string) : Prop := forall t, unquote (b +:+ t) = u +:+ unquote t.

Lemma str_block_app b b' : str_block b -> str_block b' -> str_block (b +:+ b').
Proof. intros H H' raw t. by rewrite str_app_assoc, H, H', str_app_assoc. Qed.

Lemma str_block_plain a : byte_val a <> 34 -> byte_val a <> 92 -> 32 <= byte_val a -> str_block (String a "").
Proof.
  intros H34 H92 H32 raw t. rewrite str_app_cons. apply lex_silent. cbn [lex_step].
  rewrite (byte_ne a quote), (byte_ne a backslash) by done. by rewrite (proj2 (Z.ltb_ge _ _)).
Qed.

Lemma str_block_high s : str_forall (fun a => 128 <=? byte_val a) s = true -> str_block s.
Proof.
  induction s as [|a s IH]; cbn [str_forall].
  - intros _ raw t. by rewrite str_app_nil_l, str_app_nil_r.
  - intros [Ha%Z.leb_le Hs]%andb_true_iff. change (String a s) with (String a "" +:+ s).
    apply str_block_app; [apply str_block_plain; lia|by apply IH].
Qed.

Lemma rune_bytes_high s :
  (2 <= rune_len s)%nat -> str_forall (fun a => 128 <=? byte_val a) (str_take (rune_len s) s) = true.
Proof.
  assert (forall lo hi a, 128 <= lo -> in_range lo hi a = true -> 128 <=? byte_val a = true) as H.
  { unfold in_range. intros lo hi a Hlo E. reflect_bools. apply Z.leb_le. lia. }
  assert (forall a, cont_byte a = true -> 128 <=? byte_val a = true) as Hc by (intros a; by apply H).
  destruct s as [|a [|b [|c [|d s]]]]; cbn -[in_range cont_byte Z.leb]; intros Hn; try lia;
    repeat (case_match; cbn -[in_range cont_byte Z.leb] in *; simplify_eq; try lia);
    repeat match goal with
    | E : _ && _ = true |- _ => apply andb_true_iff in E as [? ?]
    | E : _ || _ = true |- _ => apply orb_true_iff in E as [?|?]
    end;
    repeat match goal with
    | |- context [128 <=? byte_val ?x] =>
        let E := fresh in assert (128 <=? byte_val x = true) as E by (first [by apply Hc | by eapply H; [|eassumption]]);
        rewrite E
    end; done.
Qed.

(** An escape of one letter. *)
Lemma block_escape c v :
  c ∈ ["b"; "f"; "n"; "r"; "t"; quote; backslash]%char -> byte_val (unescape c) = v ->
  str_block (String backslash (String c "")) /\
  unq_block (String backslash (String c "")) (String (byte v) "").
Proof.
  intros Hin <-. rewrite byte_byte_val. split.
  - intros raw t. rewrite !str_app_cons, str_app_nil_l.
    rewrite (lex_silent _ _ (LStr (snoc raw backslash) EBackslash)) by done.
    rewrite (lex_silent _ _ (LStr (snoc (snoc raw backslash) c) EPlain)).
    + unfold snoc. by rewrite str_app_assoc.
    + repeat (apply elem_of_cons in Hin as [-> | Hin]; [done|]). by apply elem_of_nil in Hin.
  - intros t. rewrite !str_app_cons, str_app_nil_l. unfold unquote. erewrite rewrite_runes_step; [|..].
    2:{ unfold unquote1. rewrite bool_decide_eq_true_2 by done.
        assert (getu4 (String backslash (String c t)) = None) as ->; [|done].
        unfold getu4. rewrite (bool_decide_eq_false_2 (c = "u"%char)).
        - rewrite andb_false_r. by repeat case_match.
        - intros ->. repeat (apply elem_of_cons in Hin as [?|Hin]; [done|]). by apply elem_of_nil in Hin. }
    2:{ lia. }
    cbn [str_drop]. f_equal. repeat (apply elem_of_cons in Hin as [-> | Hin]; [done|]). by apply elem_of_nil in Hin.
Qed.

(** An escape of four digits whose rune is not a surrogate. *)
Lemma block_hex d1 d2 d3 d4 :
  (0 <= d1 < 16 /\ 0 <= d2 < 16 /\ 0 <= d3 < 16 /\ 0 <= d4 < 16) ->
  let r := d1 * 4096 + d2 * 256 + d3 * 16 + d4 in is_surrogate r = false ->
  let b := "\u" +:+ String (hex_digit d1) (String (hex_digit d2) (String (hex_digit d3) (String (hex_digit d4) ""))) in
  str_block b /\ unq_block b (encode_rune r).
Proof.
  intros (H1 & H2 & H3 & H4) r Hs b. split.
  - intros raw t. change (b +:+ t) with (String backslash (String "u" (String (hex_digit d1) (String (hex_digit d2)
      (String (hex_digit d3) (String (hex_digit d4) t)))))).
    rewrite (lex_silent _ _ (LStr (snoc raw backslash) EBackslash)) by done.
    rewrite (lex_silent _ _ (LStr (snoc (snoc raw backslash) "u") (EHex 4))) by done.
    do 4 (erewrite lex_silent; [|cbn [lex_step]; rewrite hex_val_digit by done; reflexivity]).
    unfold snoc. by rewrite !str_app_assoc.
  - intros t. change (b +:+ t) with (String backslash (String "u" (String (hex_digit d1) (String (hex_digit d2)
      (String (hex_digit d3) (String (hex_digit d4) t)))))).
    unfold unquote. rewrite (rewrite_runes_step _ _ _ (encode_rune r) 6); [done| |lia].
    unfold unquote1. rewrite bool_decide_eq_true_2 by done. unfold getu4. rewrite bool_decide_eq_true_2 by done.
    rewrite bool_decide_eq_true_2 by done. cbn [andb]. rewrite !hex_val_digit by done. cbn [mbind option_bind].
    fold r. by rewrite Hs.
Qed.

Lemma unq_block_rune b : is_rune b = true -> (forall s, b <> String backslash s) -> unq_block b b.
Proof.
  intros Hb Hne t. pose proof (is_rune_app b t Hb) as [Hl Hv]. destruct b as [|a b]; [done|].
  rewrite str_app_cons in *. unfold unquote. rewrite (rewrite_runes_step _ _ _ (String a b) (String.length (String a b))).
  - rewrite <-str_app_cons. by rewrite str_drop_app.
  - assert (unquote1 (String a (b +:+ t)) = sanitize1 (String a (b +:+ t))) as ->.
    { unfold unquote1. rewrite (bool_decide_eq_false_2 (a = backslash)) by (intros ->; by apply (Hne b)). by destruct (b +:+ t). }
    unfold sanitize1. rewrite Hv, Hl. rewrite <-str_app_cons. by rewrite str_take_app.
  - cbn. lia.
Qed.

(** One turn of quoting. *)
Lemma quote1_spec a s :
  exists b u n, quote1 (String a s) = (b, n) /\ sanitize1 (String a s) = (u, n) /\ (1 <= n)%nat /\
    str_block b /\ unq_block b u.
Proof.
  unfold quote1. destruct (is_ascii_byte a) eqn:Ha.
  - assert (sanitize1 (String a s) = (String a "", 1%nat)) as Hsan.
    { unfold sanitize1, head_valid. rewrite Ha. cbn [orb]. by rewrite rune_len_ascii. }
    pose proof (byte_val_range a) as Hr. unfold is_ascii_byte in Ha. apply Z.ltb_lt in Ha.
    assert (forall b, str_block b /\ unq_block b (String (byte (byte_val a)) "") -> exists b' u n, (b, 1%nat) = (b', n) /\
      sanitize1 (String a s) = (u, n) /\ (1 <= n)%nat /\ str_block b' /\ unq_block b' u) as Hfin.
    { intros b [H1 H2]. rewrite byte_byte_val in H2. do 3 eexists. split; [done|]. split; [done|]. split; [lia|done]. }
    destruct ((byte_val a =? 34) || (byte_val a =? 92)) eqn:E.
    { apply Hfin. apply orb_true_iff in E. rewrite !Z.eqb_eq in E. apply block_escape.
      - destruct E as [E|E]; [assert (a = quote) as -> by by apply byte_val_inj
          |assert (a = backslash) as -> by by apply byte_val_inj]; set_solver.
      - destruct E as [E|E]; [assert (a = quote) as -> by by apply byte_val_inj
          |assert (a = backslash) as -> by by apply byte_val_inj]; done. }
    apply orb_false_iff in E as [E34%Z.eqb_neq E92%Z.eqb_neq].
    destruct (Z.eqb_spec (byte_val a) 8) as [E|_]; [apply Hfin; rewrite E; apply (block_escape "b"); [set_solver|done]|].
    destruct (Z.eqb_spec (byte_val a) 12) as [E|_]; [apply Hfin; rewrite E; apply (block_escape "f"); [set_solver|done]|].
    destruct (Z.eqb_spec (byte_val a) 10) as [E|_]; [apply Hfin; rewrite E; apply (block_escape "n"); [set_solver|done]|].
    destruct (Z.eqb_spec (byte_val a) 13) as [E|_]; [apply Hfin; rewrite E; apply (block_escape "r"); [set_solver|done]|].
    destruct (Z.eqb_spec (byte_val a) 9) as [E|_]; [apply Hfin; rewrite E; apply (block_escape "t"); [set_solver|done]|].
    destruct ((byte_val a <? 32) || _ || _ || _) eqn:E.
    + apply Hfin. set (v := byte_val a) in *.
      pose proof (Z.mod_pos_bound v 16 ltac:(lia)). pose proof (Z.div_mod v 16 ltac:(lia)).
      assert (0 <= v / 16 < 16) by (split; [apply Z.div_pos; lia|apply Z.div_lt_upper_bound; lia]).
      change ("\u00" +:+ ?t) with ("\u" +:+ String (hex_digit 0) (String (hex_digit 0) t)).
      pose proof (block_hex 0 0 (v / 16) (v mod 16)) as Hb. cbv zeta in Hb.
      replace (0 * 4096 + 0 * 256 + v / 16 * 16 + v mod 16) with v in Hb by lia.
      assert (encode_rune v = String (byte v) "") as <-.
      { unfold encode_rune, is_surrogate. rewrite (proj2 (Z.ltb_ge v 0)), (proj2 (Z.leb_gt 55296 v)), (proj2 (Z.ltb_ge 1114111 v)), (proj2 (Z.ltb_lt v 128)) by lia. done. }
      apply Hb; [lia|]. unfold is_surrogate. by rewrite (proj2 (Z.leb_gt 55296 v)) by lia.
    + apply Hfin. apply orb_false_iff in E as [[[E%Z.ltb_ge _]%orb_false_iff _]%orb_false_iff _]. rewrite byte_byte_val.
      split; [by apply str_block_plain|]. apply unq_block_rune.
      * apply is_rune_ascii. unfold is_ascii_byte. by apply Z.ltb_lt.
      * intros s' [= -> _]. done.
  - destruct (head_valid (String a s)) eqn:Hv.
    + assert (sanitize1 (String a s) = (str_take (rune_len (String a s)) (String a s), rune_len (String a s))) as Hsan
        by (unfold sanitize1; by rewrite Hv).
      pose proof (is_rune_head _ Hv) as Hrune.
      assert (2 <= rune_len (String a s))%nat as Hl.
      { unfold head_valid in Hv. rewrite Ha in Hv. by apply Nat.leb_le in Hv. }
      set (r := str_take _ _) in *. rewrite Hsan.
      assert (String.length r = rune_len (String a s)) as Hlen by (apply str_take_length, rune_len_bounds).
      repeat case_bool_decide; do 3 eexists; (split; [done|]).
      * assert (rune_len (String a s) = 3%nat) as -> by (rewrite <-Hlen, H; done). rewrite H. split; [done|]. split; [lia|].
        apply (block_hex 2 0 2 8); [lia|done].
      * assert (rune_len (String a s) = 3%nat) as -> by (rewrite <-Hlen, H0; done). rewrite H0. split; [done|]. split; [lia|].
        apply (block_hex 2 0 2 9); [lia|done].
      * split; [done|]. split; [lia|]. split; [by apply str_block_high, rune_bytes_high|].
        apply unq_block_rune; [done|]. intros s' E. pose proof (rune_bytes_high _ Hl) as Hh. fold r in Hh.
        rewrite E in Hh. done.
    + do 3 eexists. split; [done|]. unfold sanitize1. rewrite Hv. split; [done|]. split; [lia|].
      apply (block_hex 15 15 15 13); [lia|done].
Qed.

Lemma quoted_step a s b n :
  quote1 (String a s) = (b, n) -> (1 <= n)%nat -> quoted (String a s) = b +:+ quoted (str_drop n (String a s)).
Proof. apply rewrite_runes_step. Qed.

(** Induction along the turns of quoting. *)
Lemma quoted_ind (P : string -> Prop) :
  P "" -> (forall a s b u n, quote1 (String a s) = (b, n) -> sanitize1 (String a s) = (u, n) -> (1 <= n)%nat ->
    str_block b -> unq_block b u -> P (str_drop n (String a s)) -> P (String a s)) -> forall s, P s.
Proof.
  intros H0 HS s. remember (String.length s) as n eqn:En. revert s En.
  induction n as [n IH] using lt_wf_ind; intros [|a s] ->; [done|].
  destruct (quote1_spec a s) as (b & u & k & Hq & Hs & Hk & Hb & Hu). eapply HS; [done..|].
  eapply IH; [|done]. rewrite str_length_drop. cbn. lia.
Qed.

Lemma quoted_block s : str_block (quoted s).
Proof.
  induction s as [|a s b u n Hq _ Hn Hb _ IH] using quoted_ind; [by apply str_block_high|].
  rewrite (quoted_step _ _ _ _ Hq Hn). by apply str_block_app.
Qed.

(** What is quoted is read back, with the bytes that are not UTF-8 replaced. *)
Lemma unquote_quoted s : unquote (quoted s) = sanitize s.
Proof.
  induction s as [|a s b u n Hq Hs Hn _ Hu IH] using quoted_ind; [done|].
  rewrite (quoted_step _ _ _ _ Hq Hn), Hu, IH. symmetry. by apply rewrite_runes_step.
Qed.

(** Whatever a literal is, its string is valid text. *)
Lemma unquote_valid raw : ValidString (unquote raw) = true.
Proof.
  apply rewrite_runes_valid. intros a s. unfold unquote1. destruct s as [|c s]; [apply sanitize1_rune|].
  case_bool_decide; [|apply sanitize1_rune]. destruct (getu4 _) as [r|].
  - destruct (is_surrogate r); [|split; cbn; [lia|apply is_rune_encode]].
    destruct (getu4 _) as [r2|]; [|split; cbn; [lia|done]].
    destruct (_ =? _); (split; [cbn; lia|]); [done|apply is_rune_encode].
  - split; [cbn; lia|]. cbn [fst]. unfold sanitize, rewrite_runes. cbn [rewrite_from]. rewrite str_app_nil_r.
    apply sanitize1_rune.
Qed.

(** A quoted string is one token. *)
Lemma lex_string s t :
  lex LIdle (String quote (quoted s +:+ String quote t)) = cons (TStr (sanitize s)) <$> lex LIdle t.
Proof.
  rewrite (lex_silent _ _ (LStr "" EPlain)) by done. rewrite quoted_block, str_app_nil_l.
  rewrite (lex_emit _ _ LIdle [TStr (unquote (quoted s))]) by done. rewrite unquote_quoted.
  by destruct (lex LIdle t).
Qed.

(** *** Numbers *)

Fixpoint num_run (n : num_state) (s : string) : option num_state :=
  match s with
  | EmptyString => Some n
  | String a s' => n' ← num_step n a; num_run n' s'
  end.

(** A literal of JSON's grammar of numbers. *)
Definition is_number (s : string) : bool :=
  match s with
  | EmptyString => false
  | String a s' =>
      match num_start a ≫= fun n => num_run n s' with Some n => num_done n | None => false end
  end.

(** A text at which a number ends. *)
Definition ends (t : string) : bool :=
  match t with EmptyString => true | String b _ => (byte_val b =? 44) || (byte_val b =? 93) || (byte_val b =? 125) end.

Lemma num_run_app n s t : num_run n (s +:+ t) = num_run n s ≫= fun n' => num_run n' t.
Proof.
  revert n; induction s as [|a s IH]; intros n; [done|]. rewrite str_app_cons. cbn.
  destruct (num_step n a); [|done]. apply IH.
Qed.

Lemma lex_num_run raw n s n' t :
  num_run n s = Some n' -> lex (LNum raw n) (s +:+ t) = lex (LNum (raw +:+ s) n') t.
Proof.
  revert raw n; induction s as [|a s IH]; intros raw n.
  - intros [= ->]. by rewrite str_app_nil_l, str_app_nil_r.
  - cbn [num_run]. destruct (num_step n a) as [n1|] eqn:E; [|done]. cbn [mbind option_bind]. intros Hr.
    rewrite str_app_cons. rewrite (lex_silent _ _ (LNum (snoc raw a) n1)) by (cbn [lex_step]; by rewrite E).
    rewrite (IH _ _ Hr). unfold snoc. by rewrite str_app_assoc.
Qed.

Lemma num_step_ends n b t : ends (String b t) = true -> num_step n b = None.
Proof.
  unfold ends. intros H. assert (byte_val b = 44 \/ byte_val b = 93 \/ byte_val b = 125) as Hb.
  { rewrite !orb_true_iff, !Z.eqb_eq in H. tauto. }
  assert (is_digit b = false) as Hd by (apply is_digit_false_iff; lia).
  unfold num_step. rewrite Hd. destruct Hb as [-> |[-> | ->]]; by destruct n.
Qed.

Lemma lex_num_end raw n t :
  num_done n = true -> ends t = true -> lex (LNum raw n) t = cons (TNum raw) <$> lex LIdle t.
Proof.
  intros Hn Ht. destruct t as [|b t]; cbn [lex lex_end]; [by rewrite Hn|].
  cbn [lex_step]. rewrite (num_step_ends _ _ _ Ht), Hn. cbn [lex_step].
  destruct (lex_idle b) as [[st ts]|]; [|done]. cbn [mbind option_bind]. by destruct (lex st t).
Qed.

Lemma lex_idle_num a n : num_start a = Some n -> lex_idle a = Some (LNum (String a "") n, []).
Proof.
  intros Hn. assert (byte_val a = 45 \/ 48 <= byte_val a <= 57) as Ha.
  { unfold num_start in Hn. destruct (Z.eqb_spec (byte_val a) 45); [by left|].
    destruct (Z.eqb_spec (byte_val a) 48); [right; lia|]. destruct (is_digit a) eqn:E; [|done]. right. by apply is_digit_iff. }
  unfold lex_idle, is_space. rewrite !(proj2 (Z.eqb_neq (byte_val a) _)) by lia. cbn [orb].
  rewrite !byte_ne by (match goal with |- byte_val a <> ?x => let v := eval vm_compute in x in change x with v end; lia).
  by rewrite Hn.
Qed.

Lemma lex_number lit t :
  is_number lit = true -> ends t = true -> lex LIdle (lit +:+ t) = cons (TNum lit) <$> lex LIdle t.
Proof.
  destruct lit as [|a s]; [done|]. cbn [is_number]. destruct (num_start a) as [n|] eqn:En; [|done].
  cbn [mbind option_bind]. destruct (num_run n s) as [n'|] eqn:Er; [|done]. intros Hd Ht.
  rewrite str_app_cons, (lex_silent _ _ (LNum (String a "") n)) by (cbn [lex_step]; by apply lex_idle_num).
  rewrite (lex_num_run _ _ _ _ _ Er). by apply lex_num_end.
Qed.

(** *** Values *)

(** The tokens of a list of values, separated by commas. *)
Fixpoint sep (l : list (list token)) : list token :=
  match l with
  | [] => []
  | [ts] => ts
  | ts :: l' => ts ++ TComma :: sep l'
  end.

Fixpoint tokens (j : json) : list token :=
  match j with
  | JNull => [TNull]
  | JBool b => [TBool b]
  | JNum l => [TNum l]
  | JStr s => [TStr s]
  | JArr l => TOpenArr :: sep (tokens <$> l) ++ [TCloseArr]
  | JObj l => TOpenObj :: sep ((fun kv => TStr kv.1 :: TColon :: tokens kv.2) <$> l) ++ [TCloseObj]
  end.

(** A value as it is read back: text is valid UTF-8. *)
Fixpoint norm (j : json) : json :=
  match j with
  | JNull | JBool _ | JNum _ => j
  | JStr s => JStr (sanitize s)
  | JArr l => JArr (norm <$> l)
  | JObj l => JObj ((fun kv => (sanitize kv.1, norm kv.2)) <$> l)
  end.

(** The numbers of a value are literals of the grammar. *)
Fixpoint numbers_ok (j : json) : bool :=
  match j with
  | JNull | JBool _ | JStr _ => true
  | JNum l => is_number l
  | JArr l => forallb numbers_ok l
  | JObj l => forallb (fun kv => numbers_ok kv.2) l
  end.

Fixpoint depth (j : json) : nat :=
  match j with
  | JNull | JBool _ | JNum _ | JStr _ => 0
  | JArr l => S (max_list (depth <$> l))
  | JObj l => S (max_list ((fun kv => depth kv.2) <$> l))
  end.

(** [x] is lexed as [ts], wherever a value may end. *)
Definition lexes (x : string) (ts : list token) : Prop :=
  forall t, ends t = true -> lex LIdle (x +:+ t) = app ts <$> lex LIdle t.

Lemma app_fmap {A} (ts ts' : list A) (o : option (list A)) : app ts <$> (app ts' <$> o) = app (ts ++ ts') <$> o.
Proof. destruct o; cbn; by rewrite ?app_assoc. Qed.

Lemma lex_punct c ts t : lex_idle c = Some (LIdle, ts) -> lex LIdle (String c t) = app ts <$> lex LIdle t.
Proof. exact (lex_emit LIdle c LIdle ts t). Qed.

Lemma lexes_join l tl : Forall2 lexes l tl -> lexes (Join l ",") (sep tl).
Proof.
  induction 1 as [|x ts l tl Hx Hl IH]; intros t Ht; [rewrite str_app_nil_l; by destruct (lex LIdle t)|].
  destruct Hl as [|y ts' l tl Hy Hl]; [by apply Hx|].
  change (Join (x :: y :: l) ",") with (x +:+ "," +:+ Join (y :: l) ",").
  change (sep (ts :: ts' :: tl)) with (ts ++ TComma :: sep (ts' :: tl)).
  rewrite !str_app_assoc, Hx by done. change ("," +:+ ?u) with (String "," u).
  rewrite (lex_punct _ [TComma]) by done. rewrite IH by done. by rewrite !app_fmap, <-app_assoc.
Qed.

Lemma Forall2_images {A B C} (R : B -> C -> Prop) (f : A -> B) (g : A -> C) (l : list A) :
  (forall x, x ∈ l -> R (f x) (g x)) -> Forall2 R (f <$> l) (g <$> l).
Proof.
  induction l as [|x l IH]; intros H; cbn; constructor; [apply H; left|]. apply IH. intros y Hy. apply H. by right.
Qed.

(** The bytes of a fixed word. *)
Ltac lex_word := repeat (erewrite lex_silent; [|reflexivity]); erewrite lex_emit; [|reflexivity].

Lemma lex_print j : numbers_ok j = true -> lexes (print j) (tokens (norm j)).
Proof.
  induction j as [|b|n|s|l IH|l IH]; cbn [numbers_ok print norm tokens]; intros Hok t Ht.
  - rewrite !str_app_cons, str_app_nil_l. by lex_word.
  - destruct b; rewrite !str_app_cons, str_app_nil_l; by lex_word.
  - by apply lex_number.
  - rewrite str_app_cons, str_app_assoc. change (String quote "" +:+ t) with (String quote t). apply lex_string.
  - rewrite !str_app_assoc. change ("[" +:+ ?u) with (String "[" u). rewrite (lex_punct _ [TOpenArr]) by done.
    rewrite (lexes_join _ (tokens <$> (norm <$> l))); [| |done].
    + change ("]" +:+ t) with (String "]" t). rewrite (lex_punct _ [TCloseArr]) by done.
      by rewrite !app_fmap, <-app_assoc.
    + rewrite <-list_fmap_compose. apply Forall2_images. rewrite Forall_forall in IH.
      intros x Hx. apply IH; [done|]. rewrite forallb_forall in Hok. apply Hok. by apply list_elem_of_In.
  - rewrite !str_app_assoc. change ("{" +:+ ?u) with (String "{" u). rewrite (lex_punct _ [TOpenObj]) by done.
    rewrite (lexes_join _ ((fun kv => TStr kv.1 :: TColon :: tokens kv.2) <$> ((fun kv => (sanitize kv.1, norm kv.2)) <$> l))); [| |done].
    + change ("}" +:+ t) with (String "}" t). rewrite (lex_punct _ [TCloseObj]) by done.
      by rewrite !app_fmap, <-app_assoc.
    + rewrite <-list_fmap_compose. apply Forall2_images. rewrite Forall_forall in IH.
      intros [k x] Hx t' Ht'. cbn [fst snd]. rewrite str_app_cons, str_app_assoc, str_app_cons, lex_string.
      change (":" +:+ print x) with (String ":" (print x)). rewrite str_app_cons, (lex_punct _ [TColon]) by done.
      rewrite (IH (k, x) Hx); [|rewrite forallb_forall in Hok; apply (Hok (k, x)); by apply list_elem_of_In|done].
      by destruct (lex LIdle t').
Qed.

(** *** Parsing *)

Lemma parse_from_app p ts ts' p' : parse_from p ts = Some p' -> parse_from p (ts ++ ts') = parse_from p' ts'.
Proof. unfold parse_from. intros E. by rewrite foldl_app, E. Qed.

Lemma parse_from_cons p t ts : parse_from p (t :: ts) = parse_step p t ≫= fun p' => parse_from p' ts.
Proof.
  unfold parse_from. cbn [foldl mbind option_bind]. destruct (parse_step p t); [done|].
  by induction ts.
Qed.

Definition parses (d : nat) (ts : list token) (j : json) : Prop :=
  forall st, (length st + d <= maxNestingDepth)%nat -> parse_from (SValue st) ts = Some (deliver j st).

(** The first token of a value starts it after an opening bracket too. *)
Lemma parse_first j st ts :
  parse_from (SValueOrEnd st) (tokens j ++ ts) = parse_from (SValue (FArr [] :: st)) (tokens j ++ ts).
Proof. destruct j; cbn [tokens app]; rewrite !parse_from_cons; done. Qed.

Lemma parse_elems l done_ st :
  l <> [] -> Forall (fun j => parses (depth j) (tokens j) j) l ->
  (length st + S (max_list (depth <$> l)) <= maxNestingDepth)%nat ->
  parse_from (SValue (FArr done_ :: st)) (sep (tokens <$> l)) = Some (SAfterElem (done_ ++ l) st).
Proof.
  intros Hne Hl. revert done_. induction Hl as [|j l Hj Hl IH]; intros done_ Hd; [done|].
  cbn [fmap list_fmap foldr max_list_with id] in Hd.
  assert (parse_from (SValue (FArr done_ :: st)) (tokens j) = Some (SAfterElem (done_ ++ [j]) st)) as E.
  { apply Hj. cbn [length]. lia. }
  destruct l as [|j' l]; [exact E|].
  change (sep (tokens <$> j :: j' :: l)) with (tokens j ++ TComma :: sep (tokens <$> j' :: l)).
  rewrite (parse_from_app _ _ _ _ E), parse_from_cons. cbn [parse_step mbind option_bind].
  rewrite IH; [by rewrite <-app_assoc|done|]. cbn [fmap list_fmap foldr max_list_with id] in *. lia.
Qed.

Lemma parse_member k j done_ st p :
  parses (depth j) (tokens j) j -> (length st + S (depth j) <= maxNestingDepth)%nat ->
  (p = SKey done_ st \/ p = SKeyOrEnd st /\ done_ = []) ->
  parse_from p (TStr k :: TColon :: tokens j) = Some (SAfterMember (done_ ++ [(k, j)]) st).
Proof.
  intros Hj Hd Hp. rewrite parse_from_cons.
  assert (parse_step p (TStr k) = Some (SColon done_ k st)) as -> by (by destruct Hp as [-> | [-> ->]]).
  cbn [mbind option_bind]. rewrite parse_from_cons. cbn [parse_step mbind option_bind]. apply Hj. cbn [length]. lia.
Qed.

Lemma parse_members l done_ st p :
  l <> [] -> Forall (fun kv => parses (depth kv.2) (tokens kv.2) kv.2) l ->
  (length st + S (max_list ((fun kv => depth kv.2) <$> l)) <= maxNestingDepth)%nat ->
  (p = SKey done_ st \/ p = SKeyOrEnd st /\ done_ = []) ->
  parse_from p (sep ((fun kv => TStr kv.1 :: TColon :: tokens kv.2) <$> l)) = Some (SAfterMember (done_ ++ l) st).
Proof.
  intros Hne Hl. revert p done_. induction Hl as [|[k j] l Hj Hl IH]; intros p done_ Hd Hp; [done|].
  cbn [fmap list_fmap foldr max_list_with id snd] in Hd, Hj.
  pose proof (parse_member k j done_ st p Hj ltac:(lia) Hp) as E.
  destruct l as [|kv' l]; [exact E|].
  change (sep _) with ((TStr k :: TColon :: tokens j) ++ TComma :: sep ((fun kv => TStr kv.1 :: TColon :: tokens kv.2) <$> kv' :: l)).
  rewrite (parse_from_app _ _ _ _ E), parse_from_cons. cbn [parse_step mbind option_bind].
  rewrite (IH ltac:(done) _ (done_ ++ [(k, j)])); [by rewrite <-app_assoc| |by left].
  cbn [fmap list_fmap foldr max_list_with id] in *. lia.
Qed.

Lemma parse_tokens j : parses (depth j) (tokens j) j.
Proof.
  induction j as [|b|n|s|l IH|l IH]; intros st Hd; [done..| |].
  - cbn [tokens depth] in *. rewrite parse_from_cons. cbn [parse_step parse_value].
    rewrite (proj2 (Nat.ltb_lt _ _)) by lia. cbn [mbind option_bind].
    destruct l as [|j l]; [done|].
    assert (parse_from (SValueOrEnd st) (sep (tokens <$> j :: l)) = Some (SAfterElem (j :: l) st)) as E.
    { destruct l as [|j' l]; cbn [fmap list_fmap sep].
      - rewrite <-(app_nil_r (tokens j)), parse_first, app_nil_r. by apply (parse_elems [j] []).
      - rewrite parse_first. by apply (parse_elems (j :: j' :: l) []). }
    by rewrite (parse_from_app _ _ _ _ E).
  - cbn [tokens depth] in *. rewrite parse_from_cons. cbn [parse_step parse_value].
    rewrite (proj2 (Nat.ltb_lt _ _)) by lia. cbn [mbind option_bind].
    destruct l as [|kv l]; [done|].
    rewrite (parse_from_app _ _ _ (SAfterMember (kv :: l) st)); [done|].
    by apply (parse_members (kv :: l) []); [done|done|done|right].
Qed.

Lemma depth_norm j : depth (norm j) = depth j.
Proof.
  induction j as [|b|n|s|l IH|l IH]; cbn [norm depth]; [done..| |]; f_equal; f_equal; rewrite <-list_fmap_compose;
    apply list_fmap_ext; intros i x Hx; rewrite Forall_lookup in IH; by apply (IH i).
Qed.

(** Parsing what was printed. *)
Lemma parse_print j :
  numbers_ok j = true -> (depth j <= maxNestingDepth)%nat -> parse (print j) = Some (norm j).
Proof.
  intros Hok Hd. unfold parse. rewrite <-(str_app_nil_r (print j)), lex_print by done. cbn. rewrite app_nil_r.
  rewrite parse_tokens; [done|]. cbn. by rewrite depth_norm.
Qed.

(** *** Literals of numbers *)

Lemma num_run_digits n s :
  n ∈ [NInt; NFrac; NExpDigits] -> all_digits s = true -> num_run n s = Some n.
Proof.
  intros Hn. induction s as [|a s IH]; [done|]. unfold all_digits. cbn [str_forall num_run].
  intros [Ha Hs]%andb_true_iff.
  assert (num_step n a = Some n) as ->; [|by apply IH].
  unfold num_step. rewrite Ha. set_solver.
Qed.

Lemma is_number_digits a s :
  49 <= byte_val a <= 57 -> all_digits s = true -> num_start a = Some NInt /\ is_number (String a s) = true.
Proof.
  intros Ha Hs. assert (num_start a = Some NInt) as E.
  { unfold num_start. rewrite (proj2 (Z.eqb_neq _ 45)), (proj2 (Z.eqb_neq _ 48)) by lia.
    by rewrite (proj2 (is_digit_iff a)) by lia. }
  split; [done|]. unfold is_number. rewrite E. cbn [mbind option_bind]. by rewrite num_run_digits by (done || left).
Qed.

(** The text of an integer is a number. *)
Lemma is_number_itoa z : 0 <= z -> is_number (itoa z) = true.
Proof.
  intros Hz. destruct (Z.eq_dec z 0) as [->|Hne]; [done|].
  destruct (itoa_head z ltac:(lia)) as (a & s & -> & Ha & Hs). by apply is_number_digits.
Qed.

Lemma num_run_exponent n k :
  num_step n "e" = Some NExp -> exists n', num_run n ("e" +:+ (if k <? 0 then "-" else "+") +:+ itoa (Z.abs k)) = Some n' /\ num_done n' = true.
Proof.
  intros He. pose proof (all_digits_itoa (Z.abs k) ltac:(lia)) as Hd. pose proof (itoa_length_pos (Z.abs k) ltac:(lia)) as Hl.
  destruct (itoa (Z.abs k)) as [|a s]; [cbn in Hl; lia|]. unfold all_digits in Hd. cbn [str_forall] in Hd.
  apply andb_true_iff in Hd as [Ha Hs]. exists NExpDigits. split; [|done].
  rewrite str_app_cons, str_app_nil_l. cbn [num_run]. rewrite He. cbn [mbind option_bind].
  destruct (k <? 0); rewrite str_app_cons, str_app_nil_l; cbn [num_run];
    [change (num_step NExp "-") with (Some NExpSign)|change (num_step NExp "+") with (Some NExpSign)];
    cbn [mbind option_bind num_step num_run]; rewrite Ha; cbn [mbind option_bind]; apply num_run_digits; [set_solver|done|set_solver|done].
Qed.

Lemma decimal_head d q ds dp :
  0 < d -> decimal_of d q = (ds, dp) -> exists a s, ds = String a s /\ 49 <= byte_val a <= 57 /\ all_digits s = true.
Proof.
  intros Hd E. pose proof (decimal_of_spec d q ds dp Hd E) as (Ha & Hl & _).
  unfold decimal_of in E. simplify_eq. destruct (itoa_head d Hd) as (a & s & Ei & Ha' & _).
  destruct (strip_zeros_spec (itoa d)) as [k Hk]. destruct (strip_zeros (itoa d)) as [|b r]; [cbn in Hl; lia|].
  rewrite Hk in Ei. rewrite str_app_cons in Ei. injection Ei as -> _. unfold all_digits in Ha. cbn in Ha.
  apply andb_true_iff in Ha as [_ Ha]. by do 2 eexists.
Qed.

(** A rendered decimal is a number. *)
Lemma is_number_render expf d q : 0 < d -> is_number (render expf (decimal_of d q)) = true.
Proof.
  intros Hd. destruct (decimal_of d q) as [ds dp] eqn:E.
  pose proof (decimal_of_spec d q ds dp Hd E) as (Ha & Hl & _).
  destruct (decimal_head d q ds dp Hd E) as (a & s & -> & Ha49 & Hs). destruct (is_number_digits a s Ha49 Hs) as [Hst Hnum].
  unfold render. destruct expf; unfold fmtE, fmtF.
  - cbn [str_take]. rewrite str_app_cons, str_app_nil_l. cbn [is_number]. rewrite Hst. cbn [mbind option_bind].
    destruct (Nat.ltb_spec 1 (String.length (String a s))) as [Hn|Hn].
    + cbn [str_drop]. rewrite str_app_assoc. change ("." +:+ ?u) with (String "." u). cbn [num_run].
      change (num_step NInt ".") with (Some NDot). cbn [mbind option_bind]. cbn in Hn.
      destruct s as [|b s]; [cbn in Hn; lia|]. unfold all_digits in Hs. cbn [str_forall] in Hs. apply andb_true_iff in Hs as [Hb Hs].
      rewrite str_app_cons. cbn [num_run num_step]. rewrite Hb. cbn [mbind option_bind].
      rewrite num_run_app, num_run_digits by (done || set_solver). cbn [mbind option_bind].
      by destruct (num_run_exponent NFrac (dp - 1) eq_refl) as (n' & -> & ?).
    + rewrite str_app_nil_l. by destruct (num_run_exponent NInt (dp - 1) eq_refl) as (n' & -> & ?).
  - destruct (Z.leb_spec dp 0); [|destruct (Z.leb_spec (Z.of_nat (String.length (String a s))) dp)].
    + change ("0." +:+ ?u) with (String "0" (String "." u)). cbn [is_number]. change (num_start "0") with (Some NZero).
      cbn [mbind option_bind num_run]. change (num_step NZero ".") with (Some NDot). cbn [mbind option_bind].
      pose proof (all_digits_zeros (Z.to_nat (- dp))) as Hz.
      assert (all_digits (zeros (Z.to_nat (- dp)) +:+ String a s) = true) as Hall by (by rewrite all_digits_app, Hz, Ha).
      destruct (zeros (Z.to_nat (- dp)) +:+ String a s) as [|b r] eqn:Eu; [by destruct (zeros (Z.to_nat (- dp)))|].
      unfold all_digits in Hall. cbn [str_forall] in Hall. apply andb_true_iff in Hall as [Hb Hr].
      cbn [num_run num_step]. rewrite Hb. cbn [mbind option_bind]. by rewrite num_run_digits by (done || set_solver).
    + rewrite str_app_cons. apply is_number_digits; [done|]. by rewrite all_digits_app, Hs, all_digits_zeros.
    + destruct (Z.to_nat dp) as [|k] eqn:Ek; [lia|]. cbn [str_take str_drop]. rewrite str_app_cons. cbn [is_number].
      rewrite Hst. cbn [mbind option_bind]. destruct (all_digits_split k s Hs) as [Ht Hr].
      rewrite num_run_app, num_run_digits by (done || left). cbn [mbind option_bind].
      change ("." +:+ ?u) with (String "." u). cbn [num_run]. change (num_step NInt ".") with (Some NDot). cbn [mbind option_bind].
      assert (1 <= String.length (str_drop k s))%nat as Hk by (rewrite str_length_drop; cbn in *; lia).
      destruct (str_drop k s) as [|b r]; [cbn in Hk; lia|]. unfold all_digits in Hr. cbn [str_forall] in Hr.
      apply andb_true_iff in Hr as [Hb Hr]. cbn [num_run num_step]. rewrite Hb. cbn [mbind option_bind].
      by rewrite num_run_digits by (done || set_solver).
Qed.

Lemma is_number_neg t : starts_digit t = true -> is_number t = true -> is_number (String "-" t) = true.
Proof.
  destruct t as [|a t]; [done|]. cbn [starts_digit is_number]. intros Ha Hn. change (num_start "-") with (Some NNeg).
  cbn [mbind option_bind num_run]. assert (num_step NNeg a = num_start a) as ->; [|done].
  unfold num_step, num_start. apply is_digit_iff in Ha. by rewrite (proj2 (Z.eqb_neq _ 45)) by lia.
Qed.

(** The text of a finite float64 is a number. *)
Lemma is_number_float_text x : is_float64 x -> finite64 x -> is_number (float_text x) = true.
Proof.
  intros Hv Hf. destruct x as [[]|s| |s m e]; try done. cbn [float_text].
  destruct (shortest_spec (exp_form (S754_finite s m e)) m e Hv) as (t & Ht & _). rewrite Ht. cbn [default].
  destruct (shortest_render _ _ _ _ Ht) as (d & q & Hd & ->).
  pose proof (is_number_render (exp_form (S754_finite s m e)) d q Hd) as Hn. destruct s; [|done].
  destruct (render_head (exp_form (S754_finite true m e)) d q Hd) as (a & s & E & Ha).
  apply is_number_neg; [by rewrite E|done].
Qed.

(** ** The text of a parsed value is valid UTF-8 *)

Fixpoint text_validb (j : json) : bool :=
  match j with
  | JNull | JBool _ | JNum _ => true
  | JStr s => ValidString s
  | JArr l => forallb text_validb l
  | JObj l => forallb (fun kv => ValidString kv.1 && text_validb kv.2) l
  end.

Definition text_valid (j : json) : Prop := text_validb j = true.

Definition member_valid (kv : string * json) : Prop := ValidString kv.1 = true /\ text_valid kv.2.

Lemma forallb_iff {A} (f : A -> bool) (P : A -> Prop) l :
  (forall x, f x = true <-> P x) -> forallb f l = true <-> Forall P l.
Proof.
  intros H. induction l as [|x l IH]; cbn; [by split|]. by rewrite andb_true_iff, Forall_cons, IH, H.
Qed.

Lemma text_valid_arr l : text_valid (JArr l) <-> Forall text_valid l.
Proof. by apply forallb_iff. Qed.

Lemma text_valid_obj l : text_valid (JObj l) <-> Forall member_valid l.
Proof. apply forallb_iff. intros [k j]. unfold member_valid. by rewrite andb_true_iff. Qed.

Definition token_valid (t : token) : Prop := match t with TStr s => ValidString s = true | _ => True end.

Definition lex_state_valid (st : lex_state) : Prop := match st with LWord t _ => token_valid t | _ => True end.

Lemma lex_idle_valid a st ts : lex_idle a = Some (st, ts) -> lex_state_valid st /\ Forall token_valid ts.
Proof.
  unfold lex_idle. intros H. repeat (destruct (_ : bool) in H; [simplify_eq; by repeat constructor|]).
  destruct (num_start a); [|done]. simplify_eq/=. by repeat constructor.
Qed.

Lemma lex_step_valid st a st' ts :
  lex_state_valid st -> lex_step st a = Some (st', ts) -> lex_state_valid st' /\ Forall token_valid ts.
Proof.
  intros Hst. destruct st as [|raw [| |n]|raw n|t [|c r]]; cbn [lex_step].
  - apply lex_idle_valid.
  - destruct (bool_decide (a = quote)); [intros [= <- <-]; repeat constructor; apply unquote_valid|].
    destruct (bool_decide _); [intros [= <- <-]; by repeat constructor|].
    destruct (_ <? _); [done|intros [= <- <-]; by repeat constructor].
  - destruct (bool_decide _); [intros [= <- <-]; by repeat constructor|].
    destruct (existsb _ _); [intros [= <- <-]; by repeat constructor|done].
  - destruct (hex_val a); [|done]. intros [= <- <-]. by repeat constructor.
  - destruct (num_step n a); [intros [= <- <-]; by repeat constructor|]. destruct (num_done n); [|done].
    destruct (lex_idle a) as [[st1 ts1]|] eqn:E; [|done]. intros [= <- <-]. apply lex_idle_valid in E as [? ?].
    split; [done|]. by constructor.
  - done.
  - destruct (bool_decide _); [|done]. destruct r; intros [= <- <-]; by repeat constructor.
Qed.

Lemma lex_valid st s ts : lex_state_valid st -> lex st s = Some ts -> Forall token_valid ts.
Proof.
  revert st ts; induction s as [|a s IH]; intros st ts Hst; cbn [lex].
  - destruct st; cbn; [intros [= <-]; constructor|done| |done]. destruct (num_done n); [|done]. intros [= <-]. by repeat constructor.
  - destruct (lex_step st a) as [[st' ts1]|] eqn:E; [|done]. cbn [mbind option_bind].
    destruct (lex st' s) as [rest|] eqn:El; [|done]. intros [= <-].
    apply lex_step_valid in E as [Hst' H1]; [|done]. apply Forall_app. split; [done|by eapply IH].
Qed.

Definition frame_valid (f : frame) : Prop :=
  match f with
  | FArr l => Forall text_valid l
  | FObj l k => Forall member_valid l /\ ValidString k = true
  end.

Definition parse_state_valid (p : parse_state) : Prop :=
  match p with
  | SValue st | SValueOrEnd st | SKeyOrEnd st => Forall frame_valid st
  | SKey l st => Forall member_valid l /\ Forall frame_valid st
  | SColon l k st => Forall member_valid l /\ ValidString k = true /\ Forall frame_valid st
  | SAfterElem l st => Forall text_valid l /\ Forall frame_valid st
  | SAfterMember l st => Forall member_valid l /\ Forall frame_valid st
  | SEnd j => text_valid j
  end.

Lemma deliver_valid j st : text_valid j -> Forall frame_valid st -> parse_state_valid (deliver j st).
Proof.
  intros Hj Hst. destruct st as [|[l|l k] st]; cbn; [done|..]; apply Forall_cons in Hst as [Hf Hst].
  - split; [|done]. apply Forall_app. split; [done|by repeat constructor].
  - destruct Hf as [Hl Hk]. split; [|done]. apply Forall_app. split; [done|by repeat constructor].
Qed.

Lemma parse_value_valid st t p :
  Forall frame_valid st -> token_valid t -> parse_value st t = Some p -> parse_state_valid p.
Proof.
  intros Hst Ht. destruct t; cbn [parse_value]; try done;
    first [by intros [= <-]; apply deliver_valid | by destruct (_ <? _)%nat; [intros [= <-]|]].
Qed.

Lemma parse_step_valid p t p' :
  parse_state_valid p -> token_valid t -> parse_step p t = Some p' -> parse_state_valid p'.
Proof.
  intros Hp Ht. destruct p as [st|st|st|l st|l k st|l st|l st|j]; cbn [parse_state_valid] in Hp.
  - by apply parse_value_valid.
  - assert (Forall frame_valid (FArr [] :: st)) as Hf by (by repeat constructor).
    destruct t; try (by apply parse_value_valid). intros [= <-]. by apply deliver_valid.
  - destruct t; try done; intros [= <-]; [by apply deliver_valid|]. by repeat split.
  - destruct t; try done. intros [= <-]. destruct Hp. by repeat split.
  - destruct t; try done. intros [= <-]. destruct Hp as (? & ? & ?). cbn. by repeat constructor.
  - destruct t; try done; intros [= <-]; destruct Hp; [apply deliver_valid; [by apply text_valid_arr|done]|]. cbn. by constructor.
  - destruct t; try done; intros [= <-]; destruct Hp; [apply deliver_valid; [by apply text_valid_obj|done]|]. by repeat split.
  - by destruct t.
Qed.

Lemma parse_from_valid p ts p' :
  parse_state_valid p -> Forall token_valid ts -> parse_from p ts = Some p' -> parse_state_valid p'.
Proof.
  intros Hp Hts. revert p Hp; induction Hts as [|t ts Ht _ IH]; intros p Hp; [by intros [= <-]|].
  rewrite parse_from_cons. destruct (parse_step p t) as [p1|] eqn:E; [|done]. cbn [mbind option_bind].
  apply IH. by eapply parse_step_valid.
Qed.

(** Every string of a parsed value, keys included, is valid UTF-8. *)
Lemma parse_text_valid s j : parse s = Some j -> text_valid j.
Proof.
  unfold parse. destruct (lex LIdle s) as [ts|] eqn:El; [|done]. cbn [mbind option_bind].
  destruct (parse_from (SValue []) ts) as [p|] eqn:Ep; [|done]. destruct p; try done. intros [= <-].
  apply (parse_from_valid (SValue []) ts (SEnd j0)); [by constructor| |done]. by apply (lex_valid LIdle s).
Qed.

(** ** Examples *)

(** The text with double quotes for single ones. *)
Definition dq (s : string) : string := str_map (fun a => if bool_decide (a = "'"%char) then quote else a) s.

Example parse_example :
  parse (dq " { 'a' : [1, -2.5e3, true , null], 'a': 'x\u00e9\ud83d\udc33\n' } ") =
  Some (JObj [("a", JArr [JNum "1"; JNum "-2.5e3"; JBool true; JNull]); ("a", JStr ("xé🐳" +:+ newline))]).
Proof. vm_compute. reflexivity. Qed.

Example parse_rejects :
  parse <$> (dq <$> ["01"; "1."; "[1,]"; "{,}"; "tru"; "1 2"; "'\x'"; ""]) = replicate 8 None.
Proof. vm_compute. reflexivity. Qed.

Example print_example :
  print (JObj [("k<", JStr (dq "a'b" +:+ String (byte 1) "é")); ("l", JArr [])]) = dq "{'k\u003c':'a\'b\u0001é','l':[]}".
Proof. vm_compute. reflexivity. Qed.
