(* ===== verification/Models.v ===== *)
(** * Data transfer objects ([pkg/models/container.go])

    The records the agent's parts exchange: container identity, container metrics
    and the payload a worker pushes to its leader. *)
From S2P Require Import Prelude.
From S2P Require Import GoFloat.

Record ContainerInfo := mkContainerInfo {
  ci_HostID : string;
  ci_ID : string;
  ci_Name : string;
  ci_Image : string;
  ci_Status : string;
  ci_State : string;
  ci_Ports : string
}.

(** The [uint64] fields are integers of [0 .. 2^64 - 1]. *)
Record ContainerMetrics := mkContainerMetrics {
  cm_HostID : string;
  cm_ContainerID : string;
  cm_ContainerName : string;
  cm_Image : string;
  cm_CPUPercent : float64;
  cm_MemoryUsage : Z;
  cm_MemoryLimit : Z;
  cm_MemoryPercent : float64;
  cm_NetworkRx : Z;
  cm_NetworkTx : Z;
  cm_BlockRead : Z;
  cm_BlockWrite : Z
}.

Record PushPayload := mkPushPayload {
  pp_HostID : string;
  pp_Containers : list ContainerInfo;
  pp_Metrics : list ContainerMetrics
}.

#[export] Instance ContainerInfo_eq_dec : EqDecision ContainerInfo.
Proof. solve_decision. Defined.
#[export] Instance ContainerMetrics_eq_dec : EqDecision ContainerMetrics.
Proof. solve_decision. Defined.
#[export] Instance PushPayload_eq_dec : EqDecision PushPayload.
Proof. solve_decision. Defined.

(** The zero values Go starts a [var x T] from. *)
Definition zeroMetrics : ContainerMetrics := {|
  cm_HostID := ""; cm_ContainerID := ""; cm_ContainerName := ""; cm_Image := "";
  cm_CPUPercent := f64_zero; cm_MemoryUsage := 0; cm_MemoryLimit := 0;
  cm_MemoryPercent := f64_zero; cm_NetworkRx := 0; cm_NetworkTx := 0;
  cm_BlockRead := 0; cm_BlockWrite := 0 |}.

(** Field assignments [m.HostID = h] and [c.HostID = h]. *)
Definition set_metrics_host (h : string) (m : ContainerMetrics) : ContainerMetrics := {|
  cm_HostID := h; cm_ContainerID := cm_ContainerID m; cm_ContainerName := cm_ContainerName m;
  cm_Image := cm_Image m; cm_CPUPercent := cm_CPUPercent m; cm_MemoryUsage := cm_MemoryUsage m;
  cm_MemoryLimit := cm_MemoryLimit m; cm_MemoryPercent := cm_MemoryPercent m;
  cm_NetworkRx := cm_NetworkRx m; cm_NetworkTx := cm_NetworkTx m;
  cm_BlockRead := cm_BlockRead m; cm_BlockWrite := cm_BlockWrite m |}.

Definition set_info_host (h : string) (c : ContainerInfo) : ContainerInfo := {|
  ci_HostID := h; ci_ID := ci_ID c; ci_Name := ci_Name c; ci_Image := ci_Image c;
  ci_Status := ci_Status c; ci_State := ci_State c; ci_Ports := ci_Ports c |}.

(** The identity fields the Docker client stamps on a metrics record. *)
Definition set_metrics_identity (id name image : string) (m : ContainerMetrics) : ContainerMetrics := {|
  cm_HostID := cm_HostID m; cm_ContainerID := id; cm_ContainerName := name;
  cm_Image := image; cm_CPUPercent := cm_CPUPercent m; cm_MemoryUsage := cm_MemoryUsage m;
  cm_MemoryLimit := cm_MemoryLimit m; cm_MemoryPercent := cm_MemoryPercent m;
  cm_NetworkRx := cm_NetworkRx m; cm_NetworkTx := cm_NetworkTx m;
  cm_BlockRead := cm_BlockRead m; cm_BlockWrite := cm_BlockWrite m |}.
