(* ===== verification/PayloadJson.v ===== *)
(** * The payload as JSON ([pkg/models/container.go])

    The JSON tags of the data transfer objects: what [json.Marshal] writes for a payload
    (sender.go) and what [json.Unmarshal] makes of a body (receiver.go), with the rules of
    [encoding/json]: names match whatever their case, unknown members are skipped, [null]
    leaves a field as it is, repeated members decode into what is there, and a member of
    another type is an error.

    The texts of the errors, which only the log shows, are abbreviated. *)
From S2P Require Import Prelude.
From S2P Require Import GoStrings.
From S2P Require Import GoFloat.
From S2P Require Import GoTime.
From S2P Require Import GoUtf8.
From S2P Require Import GoDigits.
From S2P Require Import GoFloatText.
From S2P Require Import GoJson.
From S2P Require Import Models.

(** ** Encoding *)

(** A [float64] field: NaN and the infinities have no JSON. *)
Definition float_json (x : float64) : result json :=
  match x with
  | S754_nan | S754_infinity _ => Err ("json: unsupported value: " +:+ float_text x)
  | _ => Ok (JNum (float_text x))
  end.

(** A [uint64] field. *)
Definition uint_json (n : Z) : json := JNum (itoa n).

(** A string field tagged [omitempty]. *)
Definition omitempty (k s : string) : list (string * json) :=
  if bool_decide (s = "") then [] else [(k, JStr s)].

Definition info_json (c : ContainerInfo) : json :=
  JObj (omitempty "host_id" (ci_HostID c) ++
    [("id", JStr (ci_ID c)); ("name", JStr (ci_Name c)); ("image", JStr (ci_Image c));
     ("status", JStr (ci_Status c)); ("state", JStr (ci_State c))] ++
    omitempty "ports" (ci_Ports c)).

Definition metrics_json (m : ContainerMetrics) : result json :=
  cpu ← float_json (cm_CPUPercent m);
  mem ← float_json (cm_MemoryPercent m);
  Ok (JObj (omitempty "host_id" (cm_HostID m) ++
    [("container_id", JStr (cm_ContainerID m)); ("container_name", JStr (cm_ContainerName m));
     ("image", JStr (cm_Image m)); ("cpu_percent", cpu);
     ("memory_usage", uint_json (cm_MemoryUsage m)); ("memory_limit", uint_json (cm_MemoryLimit m));
     ("memory_percent", mem); ("network_rx", uint_json (cm_NetworkRx m));
     ("network_tx", uint_json (cm_NetworkTx m)); ("block_read", uint_json (cm_BlockRead m));
     ("block_write", uint_json (cm_BlockWrite m))])).

(** The metrics of a payload without any are a nil slice, which is [null]; the containers
    come from a listing, whose slice is never nil. *)
Definition payload_json (p : PushPayload) : result json :=
  ms ← mapM metrics_json (pp_Metrics p);
  Ok (JObj [("host_id", JStr (pp_HostID p)); ("containers", JArr (info_json <$> pp_Containers p));
            ("metrics", match ms with [] => JNull | _ => JArr ms end)]).

Definition json_Marshal (p : PushPayload) : result string := print <$> payload_json p.

(** ** Decoding *)

(** [foldName], for comparison with names of ASCII letters: the long s and the Kelvin sign
    fold to letters. *)
Definition fold1 (s : string) : string * nat :=
  if HasPrefix s "ſ" then ("S", 2%nat)
  else if HasPrefix s "K" then ("K", 3%nat)
  else match s with String a _ => (String (ascii_upper a) "", 1%nat) | EmptyString => ("", 1%nat) end.

Definition foldName (s : string) : string := rewrite_runes fold1 s.

(** Decoding a value into what is there; [None] is an [UnmarshalTypeError]. *)
Definition decoder (A : Type) : Type := json -> A -> option A.

Definition dec_string : decoder string := fun j old =>
  match j with JStr s => Some s | JNull => Some old | _ => None end.

Definition dec_uint64 : decoder Z := fun j old =>
  match j with JNum l => ParseUint l | JNull => Some old | _ => None end.

Definition dec_float64 : decoder float64 := fun j old =>
  match j with JNum l => parse_decimal_float l | JNull => Some old | _ => None end.

(** A field of a struct: its name and how a value is decoded into it. *)
Definition field (A : Type) : Type := string * decoder A.

Definition into {A B} (get : A -> B) (set : B -> A -> A) (d : decoder B) : decoder A := fun j r =>
  (fun b => set b r) <$> d j (get r).

Definition dec_member {A} (fields : list (field A)) (r : A) (kv : string * json) : option A :=
  match find (fun f => bool_decide (foldName f.1 = foldName kv.1)) fields with
  | Some f => f.2 kv.2 r
  | None => Some r
  end.

Definition dec_struct {A} (fields : list (field A)) : decoder A := fun j r =>
  match j with
  | JObj l => foldl (fun o kv => o ≫= fun r => dec_member fields r kv) (Some r) l
  | JNull => Some r
  | _ => None
  end.

(** A slice: the elements of its array that were ever written, and its length. *)
Record slice (A : Type) := mkSlice { sl_backing : list A; sl_len : nat }.
Arguments mkSlice {A}.
Arguments sl_backing {A}.
Arguments sl_len {A}.

Definition sl_nil {A} : slice A := mkSlice [] 0.
Definition sl_elems {A} (s : slice A) : list A := take (sl_len s) (sl_backing s).

(** The elements from [backing] on, each decoded into the old one or into a zero value. *)
Fixpoint dec_elems {A} (zero : A) (d : decoder A) (l : list json) (backing : list A) : option (list A) :=
  match l with
  | [] => Some backing
  | j :: l' =>
      x ← d j (default zero (head backing));
      rest ← dec_elems zero d l' (tail backing);
      Some (x :: rest)
  end.

Definition dec_slice {A} (zero : A) (d : decoder A) : decoder (slice A) := fun j s =>
  match j with
  | JNull | JArr [] => Some sl_nil
  | JArr l => b ← dec_elems zero d l (sl_backing s); Some (mkSlice b (length l))
  | _ => None
  end.

Definition zeroInfo : ContainerInfo := {|
  ci_HostID := ""; ci_ID := ""; ci_Name := ""; ci_Image := ""; ci_Status := ""; ci_State := ""; ci_Ports := "" |}.

#[export] Instance Eta_ContainerInfo : Eta ContainerInfo := fun c =>
  mkContainerInfo (ci_HostID c) (ci_ID c) (ci_Name c) (ci_Image c) (ci_Status c) (ci_State c) (ci_Ports c).
#[export] Instance Eta_ContainerMetrics : Eta ContainerMetrics := fun m =>
  mkContainerMetrics (cm_HostID m) (cm_ContainerID m) (cm_ContainerName m) (cm_Image m) (cm_CPUPercent m)
    (cm_MemoryUsage m) (cm_MemoryLimit m) (cm_MemoryPercent m) (cm_NetworkRx m) (cm_NetworkTx m)
    (cm_BlockRead m) (cm_BlockWrite m).

Definition info_fields : list (field ContainerInfo) := [
  ("host_id", into ci_HostID (fun s c => c <| ci_HostID := s |>) dec_string);
  ("id", into ci_ID (fun s c => c <| ci_ID := s |>) dec_string);
  ("name", into ci_Name (fun s c => c <| ci_Name := s |>) dec_string);
  ("image", into ci_Image (fun s c => c <| ci_Image := s |>) dec_string);
  ("status", into ci_Status (fun s c => c <| ci_Status := s |>) dec_string);
  ("state", into ci_State (fun s c => c <| ci_State := s |>) dec_string);
  ("ports", into ci_Ports (fun s c => c <| ci_Ports := s |>) dec_string)].

Definition metrics_fields : list (field ContainerMetrics) := [
  ("host_id", into cm_HostID (fun s m => m <| cm_HostID := s |>) dec_string);
  ("container_id", into cm_ContainerID (fun s m => m <| cm_ContainerID := s |>) dec_string);
  ("container_name", into cm_ContainerName (fun s m => m <| cm_ContainerName := s |>) dec_string);
  ("image", into cm_Image (fun s m => m <| cm_Image := s |>) dec_string);
  ("cpu_percent", into cm_CPUPercent (fun x m => m <| cm_CPUPercent := x |>) dec_float64);
  ("memory_usage", into cm_MemoryUsage (fun n m => m <| cm_MemoryUsage := n |>) dec_uint64);
  ("memory_limit", into cm_MemoryLimit (fun n m => m <| cm_MemoryLimit := n |>) dec_uint64);
  ("memory_percent", into cm_MemoryPercent (fun x m => m <| cm_MemoryPercent := x |>) dec_float64);
  ("network_rx", into cm_NetworkRx (fun n m => m <| cm_NetworkRx := n |>) dec_uint64);
  ("network_tx", into cm_NetworkTx (fun n m => m <| cm_NetworkTx := n |>) dec_uint64);
  ("block_read", into cm_BlockRead (fun n m => m <| cm_BlockRead := n |>) dec_uint64);
  ("block_write", into cm_BlockWrite (fun n m => m <| cm_BlockWrite := n |>) dec_uint64)].

(** The payload while it is decoded. *)
Record Decoding := mkDecoding {
  dc_HostID : string;
  dc_Containers : slice ContainerInfo;
  dc_Metrics : slice ContainerMetrics
}.

#[export] Instance Eta_Decoding : Eta Decoding := fun d => mkDecoding (dc_HostID d) (dc_Containers d) (dc_Metrics d).

Definition payload_fields : list (field Decoding) := [
  ("host_id", into dc_HostID (fun s d => d <| dc_HostID := s |>) dec_string);
  ("containers", into dc_Containers (fun s d => d <| dc_Containers := s |>)
     (dec_slice zeroInfo (dec_struct info_fields)));
  ("metrics", into dc_Metrics (fun s d => d <| dc_Metrics := s |>)
     (dec_slice zeroMetrics (dec_struct metrics_fields)))].

Definition json_Unmarshal (s : string) : result PushPayload :=
  match parse s with
  | None => Err "json: invalid syntax"
  | Some j =>
      match dec_struct payload_fields j (mkDecoding "" sl_nil sl_nil) with
      | None => Err "json: cannot unmarshal"
      | Some d => Ok {| pp_HostID := dc_HostID d; pp_Containers := sl_elems (dc_Containers d);
                        pp_Metrics := sl_elems (dc_Metrics d) |}
      end
  end.

(** ** Types

    What the Go types of a payload's fields guarantee, and the payload with its text made
    valid UTF-8. *)
Record metrics_typed (m : ContainerMetrics) : Prop := {
  mt_cpu : is_float64 (cm_CPUPercent m);
  mt_mem : is_float64 (cm_MemoryPercent m);
  mt_usage : is_u64 (cm_MemoryUsage m);
  mt_limit : is_u64 (cm_MemoryLimit m);
  mt_rx : is_u64 (cm_NetworkRx m);
  mt_tx : is_u64 (cm_NetworkTx m);
  mt_read : is_u64 (cm_BlockRead m);
  mt_write : is_u64 (cm_BlockWrite m)
}.

Definition payload_typed (p : PushPayload) : Prop := Forall metrics_typed (pp_Metrics p).

(** Neither NaN nor an infinity. *)
Definition metrics_finite (m : ContainerMetrics) : Prop :=
  finite64 (cm_CPUPercent m) /\ finite64 (cm_MemoryPercent m).

Definition sanitize_info (c : ContainerInfo) : ContainerInfo := {|
  ci_HostID := sanitize (ci_HostID c); ci_ID := sanitize (ci_ID c); ci_Name := sanitize (ci_Name c);
  ci_Image := sanitize (ci_Image c); ci_Status := sanitize (ci_Status c); ci_State := sanitize (ci_State c);
  ci_Ports := sanitize (ci_Ports c) |}.

Definition sanitize_metrics (m : ContainerMetrics) : ContainerMetrics := {|
  cm_HostID := sanitize (cm_HostID m); cm_ContainerID := sanitize (cm_ContainerID m);
  cm_ContainerName := sanitize (cm_ContainerName m); cm_Image := sanitize (cm_Image m);
  cm_CPUPercent := cm_CPUPercent m; cm_MemoryUsage := cm_MemoryUsage m; cm_MemoryLimit := cm_MemoryLimit m;
  cm_MemoryPercent := cm_MemoryPercent m; cm_NetworkRx := cm_NetworkRx m; cm_NetworkTx := cm_NetworkTx m;
  cm_BlockRead := cm_BlockRead m; cm_BlockWrite := cm_BlockWrite m |}.

Definition sanitize_payload (p : PushPayload) : PushPayload := {|
  pp_HostID := sanitize (pp_HostID p); pp_Containers := sanitize_info <$> pp_Containers p;
  pp_Metrics := sanitize_metrics <$> pp_Metrics p |}.

Definition valid_text (s : string) : Prop := ValidString s = true.

Definition info_valid (c : ContainerInfo) : Prop :=
  Forall valid_text [ci_HostID c; ci_ID c; ci_Name c; ci_Image c; ci_Status c; ci_State c; ci_Ports c].
Definition metrics_valid (m : ContainerMetrics) : Prop :=
  Forall valid_text [cm_HostID m; cm_ContainerID m; cm_ContainerName m; cm_Image m].

(** All text of the payload is valid UTF-8. *)
Definition payload_valid (p : PushPayload) : Prop :=
  valid_text (pp_HostID p) /\ Forall info_valid (pp_Containers p) /\ Forall metrics_valid (pp_Metrics p).

Lemma sanitize_info_id c : info_valid c -> sanitize_info c = c.
Proof.
  unfold info_valid, valid_text. rewrite !Forall_cons. intros. destruct c. unfold sanitize_info. cbn in *.
  by rewrite !sanitize_id by tauto.
Qed.

Lemma sanitize_metrics_id m : metrics_valid m -> sanitize_metrics m = m.
Proof.
  unfold metrics_valid, valid_text. rewrite !Forall_cons. intros. destruct m. unfold sanitize_metrics. cbn in *.
  by rewrite !sanitize_id by tauto.
Qed.

Lemma sanitize_payload_id p : payload_valid p -> sanitize_payload p = p.
Proof.
  intros (Hh & Hc & Hm). unfold sanitize_payload. destruct p as [h cs ms]. cbn in *.
  rewrite sanitize_id by done. f_equal.
  - induction Hc as [|c cs Ec _ IH]; cbn; [done|]. by rewrite sanitize_info_id, IH.
  - induction Hm as [|m ms Em _ IH]; cbn; [done|]. by rewrite sanitize_metrics_id, IH.
Qed.

(** ** Encoding succeeds on finite numbers *)

Lemma float_json_spec x : float_json x = (if decide (finite64 x) then Ok (JNum (float_text x)) else Err ("json: unsupported value: " +:+ float_text x)).
Proof. by destruct x; cbn [float_json]; case_decide. Qed.

Lemma metrics_json_ok m : metrics_finite m <-> is_Some (match metrics_json m with Ok j => Some j | Err _ => None end).
Proof.
  unfold metrics_json, metrics_finite. rewrite !float_json_spec. repeat case_decide; cbn; split; intros; try tauto; try (by eauto);
    by destruct H1.
Qed.

(** ** Decoding what was encoded *)

(** One member of an object. *)
Lemma dec_struct_cons {A} (fields : list (field A)) k v l r :
  dec_struct fields (JObj ((k, v) :: l)) r = dec_member fields r (k, v) ≫= dec_struct fields (JObj l).
Proof.
  cbn [dec_struct foldl mbind option_bind]. destruct (dec_member fields r (k, v)); [done|].
  cbn [option_bind mbind]. by induction l.
Qed.

Lemma dec_struct_nil {A} (fields : list (field A)) r : dec_struct fields (JObj []) r = Some r.
Proof. done. Qed.

Lemma norm_omitempty k s : ValidString k = true ->
  (fun kv => (sanitize kv.1, norm kv.2)) <$> omitempty k s = if bool_decide (s = "") then [] else [(k, JStr (sanitize s))].
Proof. intros Hk. unfold omitempty. case_bool_decide; [done|]. cbn. by rewrite sanitize_id. Qed.

Lemma decode_info c : dec_struct info_fields (norm (info_json c)) zeroInfo = Some (sanitize_info c).
Proof.
  unfold info_json. cbn [norm]. rewrite !fmap_app, !norm_omitempty by done. destruct c as [h i n im st sta p].
  cbn [ci_HostID ci_ID ci_Name ci_Image ci_Status ci_State ci_Ports].
  do 2 case_bool_decide; subst; reflexivity.
Qed.

Lemma dec_member_found {A} (fields : list (field A)) r k v f :
  find (fun f => bool_decide (foldName f.1 = foldName k)) fields = Some f ->
  dec_member fields r (k, v) = f.2 v r.
Proof. unfold dec_member. cbn [fst snd]. by intros ->. Qed.

(** A record of metrics whose literals read as its numbers. *)
Lemma decode_metrics_literals m cpu mem usage limit rx tx rd wr :
  parse_decimal_float cpu = Some (cm_CPUPercent m) -> parse_decimal_float mem = Some (cm_MemoryPercent m) ->
  ParseUint usage = Some (cm_MemoryUsage m) -> ParseUint limit = Some (cm_MemoryLimit m) ->
  ParseUint rx = Some (cm_NetworkRx m) -> ParseUint tx = Some (cm_NetworkTx m) ->
  ParseUint rd = Some (cm_BlockRead m) -> ParseUint wr = Some (cm_BlockWrite m) ->
  dec_struct metrics_fields (JObj ((if bool_decide (cm_HostID m = "") then [] else [("host_id", JStr (sanitize (cm_HostID m)))]) ++
    [("container_id", JStr (sanitize (cm_ContainerID m))); ("container_name", JStr (sanitize (cm_ContainerName m)));
     ("image", JStr (sanitize (cm_Image m))); ("cpu_percent", JNum cpu); ("memory_usage", JNum usage);
     ("memory_limit", JNum limit); ("memory_percent", JNum mem); ("network_rx", JNum rx);
     ("network_tx", JNum tx); ("block_read", JNum rd); ("block_write", JNum wr)])) zeroMetrics =
  Some (sanitize_metrics m).
Proof.
  intros E1 E2 E3 E4 E5 E6 E7 E8.
  destruct m as [h i n im c u l mp nr nt br bw]. cbn [cm_HostID cm_ContainerID cm_ContainerName cm_Image cm_CPUPercent
    cm_MemoryUsage cm_MemoryLimit cm_MemoryPercent cm_NetworkRx cm_NetworkTx cm_BlockRead cm_BlockWrite] in *.
  assert (forall r, foldl (fun o kv => o ≫= fun r => dec_member metrics_fields r kv) (Some r)
    [("container_id", JStr (sanitize i)); ("container_name", JStr (sanitize n));
     ("image", JStr (sanitize im)); ("cpu_percent", JNum cpu); ("memory_usage", JNum usage);
     ("memory_limit", JNum limit); ("memory_percent", JNum mem); ("network_rx", JNum rx);
     ("network_tx", JNum tx); ("block_read", JNum rd); ("block_write", JNum wr)] =
    Some (mkContainerMetrics (cm_HostID r) (sanitize i) (sanitize n) (sanitize im) c u l mp nr nt br bw)) as H.
  { intros r. cbn [foldl mbind option_bind].
    repeat (erewrite dec_member_found by reflexivity;
      cbn [fst snd into dec_string dec_float64 dec_uint64 fmap option_fmap option_map mbind option_bind];
      try first [rewrite E1|rewrite E2|rewrite E3|rewrite E4|rewrite E5|rewrite E6|rewrite E7|rewrite E8];
      cbn [fmap option_fmap option_map mbind option_bind]). reflexivity. }
  unfold dec_struct. case_bool_decide; subst; cbn [app]; [by rewrite H|].
  cbn [foldl mbind option_bind]. erewrite dec_member_found by reflexivity.
  exact (H (zeroMetrics <| cm_HostID := sanitize h |>)).
Qed.

Lemma decode_metrics m j :
  metrics_typed m -> metrics_json m = Ok j ->
  dec_struct metrics_fields (norm j) zeroMetrics = Some (sanitize_metrics m).
Proof.
  intros Ht E. unfold metrics_json in E. rewrite !float_json_spec in E.
  destruct (decide (finite64 (cm_CPUPercent m))) as [Hc|]; [|done].
  destruct (decide (finite64 (cm_MemoryPercent m))) as [Hm|]; [|done].
  cbn [mbind result_bind] in E. injection E as <-. destruct Ht.
  cbn [norm]. rewrite fmap_app, norm_omitempty by done.
  apply decode_metrics_literals; first [by apply float_text_reads | by apply ParseUint_itoa].
Qed.

Lemma dec_elems_map {A B} zero (d : decoder A) (enc : B -> json) (img : B -> A) (l : list B) :
  (forall x, x ∈ l -> d (enc x) zero = Some (img x)) -> dec_elems zero d (enc <$> l) [] = Some (img <$> l).
Proof.
  induction l as [|x l IH]; intros H; [done|]. cbn. rewrite (H x) by left. cbn.
  rewrite IH; [done|]. intros y Hy. apply H. by right.
Qed.

Lemma dec_slice_map {A B} zero (d : decoder A) (enc : B -> json) (img : B -> A) (l : list B) :
  (forall x, x ∈ l -> d (enc x) zero = Some (img x)) ->
  exists s, dec_slice zero d (JArr (enc <$> l)) sl_nil = Some s /\ sl_elems s = img <$> l.
Proof.
  intros H. destruct l as [|x l]; [by exists sl_nil|].
  exists (mkSlice (img <$> x :: l) (length (x :: l))). split.
  - change (enc <$> x :: l) with (enc x :: (enc <$> l)). unfold dec_slice.
    change (enc x :: (enc <$> l)) with (enc <$> x :: l). cbn [sl_backing sl_nil].
    rewrite (dec_elems_map zero d enc img) by done. cbn [mbind option_bind]. by rewrite length_fmap.
  - unfold sl_elems. cbn [sl_len sl_backing]. rewrite take_ge; [done|]. by rewrite length_fmap.
Qed.

Lemma mapM_Ok {A B} (f : A -> result B) l k :
  mapM f l = Ok k -> Forall2 (fun x y => f x = Ok y) l k.
Proof.
  revert k; induction l as [|x l IH]; intros k; cbn; [intros [= <-]; constructor|].
  destruct (f x) eqn:E; [|done]. cbn. destruct (mapM f l); [|done]. cbn. intros [= <-]. constructor; [done|by apply IH].
Qed.

Lemma mapM_Ok_inv {A B} (f : A -> result B) l k :
  Forall2 (fun x y => f x = Ok y) l k -> mapM f l = Ok k.
Proof. induction 1 as [|x y l k E _ IH]; [done|]. cbn. rewrite E. cbn. by rewrite IH. Qed.

(** The JSON of metrics, for those that have one. *)
Definition metrics_json' (m : ContainerMetrics) : json := match metrics_json m with Ok j => j | Err _ => JNull end.

Lemma payload_json_Ok p j :
  payload_json p = Ok j ->
  Forall (fun m => metrics_json m = Ok (metrics_json' m)) (pp_Metrics p) /\
  j = JObj [("host_id", JStr (pp_HostID p)); ("containers", JArr (info_json <$> pp_Containers p));
            ("metrics", match pp_Metrics p with [] => JNull | _ => JArr (metrics_json' <$> pp_Metrics p) end)].
Proof.
  unfold payload_json. destruct (mapM metrics_json (pp_Metrics p)) as [ms|] eqn:E; [|done]. intros [= <-].
  apply mapM_Ok in E.
  assert (Forall (fun m => metrics_json m = Ok (metrics_json' m)) (pp_Metrics p) /\ ms = metrics_json' <$> pp_Metrics p) as [H ->].
  { induction E as [|m j l k Ej _ [IH1 IH2]]; [done|].
    assert (metrics_json m = Ok (metrics_json' m)) as Em by (unfold metrics_json'; by rewrite Ej).
    split; [by constructor|]. cbn. rewrite IH2. f_equal. congruence. }
  split; [done|]. by destruct (pp_Metrics p).
Qed.

Lemma numbers_ok_omitempty k s l : forallb (fun kv => numbers_ok kv.2) (omitempty k s ++ l) = forallb (fun kv => numbers_ok kv.2) l.
Proof. unfold omitempty. by case_bool_decide. Qed.

Lemma numbers_ok_payload p j : payload_typed p -> payload_json p = Ok j -> numbers_ok j = true /\ (depth j <= 3)%nat.
Proof.
  intros Ht [Hj ->]%payload_json_Ok. unfold payload_typed in Ht.
  assert (forall c, numbers_ok (info_json c) = true /\ depth (info_json c) = 1%nat) as Hinfo.
  { intros c. unfold info_json. cbn [numbers_ok depth]. rewrite numbers_ok_omitempty. cbn. unfold omitempty.
    by repeat case_bool_decide. }
  assert (forall m, m ∈ pp_Metrics p -> numbers_ok (metrics_json' m) = true /\ depth (metrics_json' m) = 1%nat) as Hmet.
  { intros m Hm. rewrite Forall_forall in Ht, Hj. specialize (Ht m Hm). specialize (Hj m Hm).
    unfold metrics_json' in *. destruct (metrics_json m) as [j|] eqn:E; [|done]. clear Hj.
    unfold metrics_json in E. rewrite !float_json_spec in E. destruct Ht.
    destruct (decide (finite64 (cm_CPUPercent m))); [|done]. destruct (decide (finite64 (cm_MemoryPercent m))); [|done].
    cbn [mbind result_bind] in E. injection E as <-. cbn [numbers_ok depth]. rewrite numbers_ok_omitempty.
    cbn [forallb snd numbers_ok uint_json]. unfold is_u64 in *.
    rewrite !is_number_itoa, !is_number_float_text by (done || lia). split; [done|].
    unfold omitempty. by case_bool_decide. }
  assert (forall (B : Type) (f : B -> json) l, (forall x, x ∈ l -> numbers_ok (f x) = true /\ depth (f x) = 1%nat) ->
    forallb numbers_ok (f <$> l) = true /\ (max_list (depth <$> (f <$> l)) <= 1)%nat) as Hl.
  { intros B f l. induction l as [|x l IH]; intros H; [by split; [|cbn; lia]|]. cbn.
    destruct (H x) as [-> Hd]; [left|]. destruct IH as [-> IHd]; [intros y Hy; apply H; by right|]. split; [done|].
    cbn in IHd. unfold id in *. lia. }
  destruct (Hl _ info_json (pp_Containers p) (fun c _ => Hinfo c)) as [Hc1 Hc2].
  destruct (Hl _ metrics_json' (pp_Metrics p) Hmet) as [Hm1 Hm2].
  destruct (pp_Metrics p) as [|m ms]; cbn [numbers_ok depth forallb snd fmap list_fmap max_list_with]; cbn [fmap list_fmap max_list_with] in *.
  - rewrite Hc1. split; [done|]. unfold id in *. lia.
  - cbn [forallb] in Hm1. rewrite Hc1, Hm1. split; [done|]. unfold id in *. lia.
Qed.

Lemma decode_payload_members h jc jm sc sm :
  dec_slice zeroInfo (dec_struct info_fields) jc sl_nil = Some sc ->
  dec_slice zeroMetrics (dec_struct metrics_fields) jm sl_nil = Some sm ->
  dec_struct payload_fields (JObj [(sanitize "host_id", JStr h); (sanitize "containers", jc); (sanitize "metrics", jm)])
    (mkDecoding "" sl_nil sl_nil) = Some (mkDecoding h sc sm).
Proof.
  intros Hc Hm. unfold dec_struct at 1. cbn [foldl mbind option_bind].
  do 3 (erewrite dec_member_found by reflexivity; unfold into;
    cbn [fst snd dec_string fmap option_fmap option_map mbind option_bind];
    try match goal with
    | |- context [dec_slice zeroInfo ?d jc ?r] => replace (dec_slice zeroInfo d jc r) with (Some sc) by (symmetry; exact Hc)
    | |- context [dec_slice zeroMetrics ?d jm ?r] => replace (dec_slice zeroMetrics d jm r) with (Some sm) by (symmetry; exact Hm)
    end;
    cbn [fmap option_fmap option_map mbind option_bind]). reflexivity.
Qed.

(** C6. Round trip. What a worker marshals, the receiver unmarshals to the same payload:
    for a payload whose fields have their Go types, marshalling succeeds exactly when no
    percentage is NaN or infinite, and then reading the text back yields the payload with
    every string's invalid bytes replaced by U+FFFD, so the very payload if its text is
    valid UTF-8. *)
Theorem json_roundtrip p :
  payload_typed p ->
  (is_ok (json_Marshal p) = true <-> Forall metrics_finite (pp_Metrics p)) /\
  (forall d, json_Marshal p = Ok d -> json_Unmarshal d = Ok (sanitize_payload p) /\
    (payload_valid p -> json_Unmarshal d = Ok p)).
Proof.
  intros Ht. split.
  - assert (is_ok (json_Marshal p) = is_ok (mapM metrics_json (pp_Metrics p))) as ->.
    { unfold json_Marshal, payload_json. by destruct (mapM metrics_json _). }
    clear Ht. induction (pp_Metrics p) as [|m ms IH]; cbn; [by split|]. rewrite Forall_cons, <-IH, metrics_json_ok.
    destruct (metrics_json m); cbn; [|split; [done|by intros [[] _]]].
    destruct (mapM metrics_json ms); cbn; split; eauto; try done. by intros [].
  - intros d Hd. enough (json_Unmarshal d = Ok (sanitize_payload p)) as E.
    { split; [done|]. intros Hv. by rewrite sanitize_payload_id in E. }
    unfold json_Marshal in Hd. destruct (payload_json p) as [j|] eqn:Ej; [|done]. injection Hd as <-.
    destruct (numbers_ok_payload p j Ht Ej) as [Hn Hdep]. unfold json_Unmarshal.
    rewrite parse_print; [|done|unfold maxNestingDepth; lia].
    apply payload_json_Ok in Ej as [Hj ->]. unfold payload_typed in Ht. rewrite Forall_forall in Ht, Hj.
    destruct (dec_slice_map zeroInfo (dec_struct info_fields) (fun c => norm (info_json c)) sanitize_info (pp_Containers p))
      as (sc & Hsc & Ec); [intros; apply decode_info|].
    destruct (dec_slice_map zeroMetrics (dec_struct metrics_fields) (fun m => norm (metrics_json' m)) sanitize_metrics (pp_Metrics p))
      as (sm & Hsm & Em); [intros m Hm; apply decode_metrics; [by apply Ht|by apply Hj]|].
    rewrite (list_fmap_compose info_json norm) in Hsc.
    assert (exists sm', dec_slice zeroMetrics (dec_struct metrics_fields)
      (norm (match pp_Metrics p with [] => JNull | _ => JArr (metrics_json' <$> pp_Metrics p) end)) sl_nil = Some sm' /\
      sl_elems sm' = sanitize_metrics <$> pp_Metrics p) as (sm' & Hsm' & Em').
    { rewrite (list_fmap_compose metrics_json' norm) in Hsm. destruct (pp_Metrics p); [by exists sl_nil|]. by exists sm. }
    cbn [norm fmap list_fmap fst snd].
    rewrite (decode_payload_members _ _ _ _ _ Hsc Hsm'). unfold sanitize_payload. cbn. by rewrite <-Ec, <-Em'.
Qed.

(** ** Whatever arrives is well typed *)

(** [d] keeps [P] on values whose text is valid. *)
Definition keeps {A} (P : A -> Prop) (d : decoder A) : Prop :=
  forall j r r', text_valid j -> P r -> d j r = Some r' -> P r'.

Lemma keeps_string : keeps valid_text dec_string.
Proof. intros j r r' Hj Hr. destruct j; cbn; intros; simplify_eq; done. Qed.

Lemma keeps_uint64 : keeps is_u64 dec_uint64.
Proof. intros j r r' Hj Hr. destruct j; cbn; intros; simplify_eq; try done. by eapply ParseUint_u64. Qed.

Lemma keeps_float64 : keeps (fun x => is_float64 x /\ finite64 x) dec_float64.
Proof. intros j r r' Hj Hr. destruct j; cbn; intros; simplify_eq; try done. by eapply parse_decimal_float_valid. Qed.

Lemma keeps_into {A B} (P : A -> Prop) (Q : B -> Prop) (get : A -> B) set d :
  keeps Q d -> (forall r, P r -> Q (get r)) -> (forall b r, P r -> Q b -> P (set b r)) -> keeps P (into get set d).
Proof.
  intros Hd Hget Hset j r r' Hj Hr. unfold into. destruct (d j (get r)) as [b|] eqn:E; [|done].
  intros [= <-]. apply Hset; [done|]. eapply Hd; [done| |done]. by apply Hget.
Qed.

Lemma keeps_struct {A} (P : A -> Prop) (fields : list (field A)) :
  Forall (fun f => keeps P f.2) fields -> keeps P (dec_struct fields).
Proof.
  intros Hf j r r' Hj Hr. destruct j as [|b|n|s|l|l]; cbn; intros E; simplify_eq; [done|].
  apply text_valid_obj in Hj. revert r Hr E. induction Hj as [|[k v] l [_ Hv] _ IH]; intros r Hr E; cbn in E; [by simplify_eq|].
  destruct (dec_member fields r (k, v)) as [r1|] eqn:E1; [|exfalso; clear -E; by induction l].
  apply (IH r1); [|done]. unfold dec_member in E1.
  match type of E1 with match find ?p _ with _ => _ end = _ => destruct (find p fields) as [f|] eqn:Ef end; [|by simplify_eq].
  apply find_some in Ef as [Hin _]. rewrite Forall_forall in Hf. eapply (Hf f); [by apply list_elem_of_In|done..].
Qed.

Lemma dec_elems_keeps {A} (P : A -> Prop) zero (d : decoder A) l b b' :
  keeps P d -> P zero -> Forall text_valid l -> Forall P b -> dec_elems zero d l b = Some b' -> Forall P b'.
Proof.
  intros Hd Hz Hl. revert b b'. induction Hl as [|j l Hj _ IH]; intros b b' Hb; cbn; [by intros [= <-]|].
  destruct (d j _) as [x|] eqn:Ex; [|done]. cbn. destruct (dec_elems zero d l (tail b)) as [rest|] eqn:Er; [|done].
  intros [= <-]. constructor.
  - eapply Hd; [done| |done]. by destruct Hb.
  - eapply IH; [|done]. by destruct Hb.
Qed.

Lemma keeps_slice {A} (P : A -> Prop) zero (d : decoder A) :
  keeps P d -> P zero -> keeps (fun s => Forall P (sl_backing s)) (dec_slice zero d).
Proof.
  intros Hd Hz j r r' Hj Hr. destruct j as [|b|n|s|l|l]; cbn; try done; [intros [= <-]; constructor|].
  apply text_valid_arr in Hj. destruct l as [|j l]; [intros [= <-]; constructor|].
  destruct (dec_elems zero d (j :: l) (sl_backing r)) as [b|] eqn:E; [|done]. intros [= <-].
  by eapply dec_elems_keeps.
Qed.

(** What a record of metrics that arrived satisfies. *)
Definition metrics_ok (m : ContainerMetrics) : Prop := metrics_valid m /\ metrics_typed m /\ metrics_finite m.

Lemma keeps_info : keeps info_valid (dec_struct info_fields).
Proof.
  apply keeps_struct. unfold info_fields. repeat (apply Forall_cons; split); [..|by constructor]; cbn [snd];
    (apply (keeps_into _ valid_text); [apply keeps_string| |]); unfold info_valid;
    intros; rewrite ?Forall_cons in *; cbn in *; tauto.
Qed.

Lemma keeps_metrics : keeps metrics_ok (dec_struct metrics_fields).
Proof.
  apply keeps_struct. unfold metrics_fields. repeat (apply Forall_cons; split); [..|by constructor]; cbn [snd];
    (eapply keeps_into; [first [apply keeps_string|apply keeps_uint64|apply keeps_float64]| |]);
    unfold metrics_ok, metrics_valid, metrics_finite.
  all: try (intros r (Hv & [] & Hf); rewrite ?Forall_cons in *; cbn in *; tauto).
  all: intros b r (Hv & [] & Hf) Hb; rewrite ?Forall_cons in *; cbn in *; (split_and!; [tauto..| | |]; try tauto); constructor; cbn; tauto.
Qed.

(** C7. Types. Whatever text arrives, decoding ends with an error or with a well-typed payload:
    every string of it is valid UTF-8, every counter is in the range of uint64 and every
    percentage is a finite float64, neither NaN nor infinite, so that the payload can be
    marshalled again and then reads back as itself. *)
Theorem json_decoded_typed s p :
  json_Unmarshal s = Ok p ->
  payload_valid p /\ payload_typed p /\ Forall metrics_finite (pp_Metrics p) /\
  exists d, json_Marshal p = Ok d /\ json_Unmarshal d = Ok p.
Proof.
  unfold json_Unmarshal. destruct (parse s) as [j|] eqn:Ep; [|done].
  destruct (dec_struct payload_fields j _) as [d|] eqn:Ed; [|done]. intros [= <-].
  set (P := fun d => valid_text (dc_HostID d) /\ Forall info_valid (sl_backing (dc_Containers d)) /\
    Forall metrics_ok (sl_backing (dc_Metrics d))).
  assert (keeps P (dec_struct payload_fields)) as Hk.
  { apply keeps_struct. unfold payload_fields. repeat (apply Forall_cons; split); [..|by constructor]; cbn [snd].
    - apply (keeps_into _ valid_text); [apply keeps_string|unfold P; tauto..].
    - eapply keeps_into; [apply keeps_slice; [apply keeps_info|by repeat constructor]|unfold P; cbn; tauto..].
    - eapply keeps_into; [apply keeps_slice; [apply keeps_metrics|by repeat constructor]|unfold P; cbn; tauto..]. }
  assert (P d) as (Hh & Hc & Hm).
  { eapply Hk; [by eapply parse_text_valid| |exact Ed]. by repeat constructor. }
  set (p := mkPushPayload _ _ _).
  assert (Forall metrics_ok (pp_Metrics p)) as Hm' by (by apply Forall_take).
  assert (payload_valid p) as Hv.
  { split; [done|]. split; [by apply Forall_take|]. eapply Forall_impl; [exact Hm'|]. by intros m []. }
  assert (payload_typed p) as Ht by (eapply Forall_impl; [exact Hm'|]; by intros m (_ & ? & _)).
  assert (Forall metrics_finite (pp_Metrics p)) as Hf by (eapply Forall_impl; [exact Hm'|]; by intros m (_ & _ & ?)).
  split_and!; [done..|]. destruct (json_roundtrip p Ht) as [Hok Hrt].
  apply Hok in Hf. destruct (json_Marshal p) as [t|] eqn:E; [|done].
  exists t. split; [done|]. by apply Hrt.
Qed.

(** ** Witnesses and examples *)

Definition ex_json_payload : PushPayload := {|
  pp_HostID := "w1";
  pp_Containers := [{| ci_HostID := "w1"; ci_ID := "c1"; ci_Name := "web<1>"; ci_Image := "nginx"; ci_Status := "Up";
                       ci_State := "running"; ci_Ports := "" |}];
  pp_Metrics := [{| cm_HostID := "w1"; cm_ContainerID := "c1"; cm_ContainerName := "web<1>"; cm_Image := "nginx";
                    cm_CPUPercent := f64_ratio 25 2; cm_MemoryUsage := 2 ^ 64 - 1; cm_MemoryLimit := 0;
                    cm_MemoryPercent := f64_ratio 75 2; cm_NetworkRx := 1; cm_NetworkTx := 20; cm_BlockRead := 300;
                    cm_BlockWrite := 4000 |}] |}.

Definition ex_json_text : string := dq ("{'host_id':'w1','containers':[{'host_id':'w1','id':'c1','name':'web\u003c1\u003e','image':'nginx','status':'Up','state':'running'}]," +:+
  "'metrics':[{'host_id':'w1','container_id':'c1','container_name':'web\u003c1\u003e','image':'nginx','cpu_percent':12.5," +:+
  "'memory_usage':18446744073709551615,'memory_limit':0,'memory_percent':37.5,'network_rx':1,'network_tx':20,'block_read':300,'block_write':4000}]}").

Lemma ex_json_typed : payload_typed ex_json_payload.
Proof. apply Forall_cons. split; [|apply Forall_nil; exact I]. constructor; vm_compute; intuition discriminate. Qed.

Example marshal_example : json_Marshal ex_json_payload = Ok ex_json_text.
Proof. vm_compute. reflexivity. Qed.

Lemma json_roundtrip_witness :
  json_Marshal ex_json_payload = Ok ex_json_text /\ json_Unmarshal ex_json_text = Ok ex_json_payload.
Proof.
  assert (json_Marshal ex_json_payload = Ok ex_json_text) as E by (vm_compute; reflexivity).
  split; [exact E|]. apply (proj2 (json_roundtrip ex_json_payload ex_json_typed) ex_json_text E).
  split; [vm_compute; reflexivity|]. split; repeat (apply Forall_cons; split); try (apply Forall_nil; exact I);
    repeat (apply Forall_cons; split); try (apply Forall_nil; exact I); vm_compute; reflexivity.
Defined.

(** Names of any case, an unknown member, a repeated array and [null]. *)
Definition ex_odd_text : string :=
  dq "{'HOST_ID':'w2','x':[{}],'containers':[{'id':'a'},{'id':'b'}],'containers':[{'name':'n'}],'metrics':null}".

Definition ex_odd_payload : PushPayload := {|
  pp_HostID := "w2";
  pp_Containers := [{| ci_HostID := ""; ci_ID := "a"; ci_Name := "n"; ci_Image := ""; ci_Status := "";
                       ci_State := ""; ci_Ports := "" |}];
  pp_Metrics := [] |}.

Lemma json_decoded_typed_witness :
  json_Unmarshal ex_odd_text = Ok ex_odd_payload /\ payload_valid ex_odd_payload.
Proof.
  assert (json_Unmarshal ex_odd_text = Ok ex_odd_payload) as E by (vm_compute; reflexivity).
  split; [exact E|]. apply (json_decoded_typed ex_odd_text ex_odd_payload E).
Defined.

Example unmarshal_rejects :
  is_ok <$> (json_Unmarshal <$> (dq <$> ["{'host_id':1}"; "{'metrics':[{'memory_usage':-1}]}"; "{'metrics':[{'memory_usage':1.0}]}";
    "{'metrics':[{'cpu_percent':1e999}]}"; "{'host_id':'a'"; "[]"; "{'containers':{}}"])) = replicate 7 false.
Proof. vm_compute. reflexivity. Qed.
