(* ===== verification/Config.v ===== *)
(** * Configuration ([internal/config/config.go])

    The configuration records, their defaults, the environment overrides and
    [Load].  The environment and the host name are arguments; the YAML decoder
    (a third-party package) is an operation of the class [YamlDecoder]. *)
From S2P Require Import Prelude.
From S2P Require Import GoStrings.
From S2P Require Import GoFloat.
From S2P Require Import GoTime.

(** ** Data *)

Record PruneConfig := mkPruneConfig {
  prune_Enabled : bool;
  prune_TriggerDiskPercent : float64
}.

Record PrometheusConfig := mkPrometheusConfig {
  prom_Enabled : bool;
  prom_Port : Z
}.

Record StatsConfig := mkStatsConfig {
  stats_Interval : Duration;
  stats_IncludeContainers : list string
}.

Record ClusterConfig := mkClusterConfig {
  cluster_Mode : string;
  cluster_LeaderURL : string;
  cluster_HostID : string;
  cluster_SharedSecret : string;
  cluster_AuthToken : string
}.

Record AlertRule := mkAlertRule {
  ar_Name : string;
  ar_Metric : string;
  ar_Operator : string;
  ar_Threshold : float64;
  ar_Duration : Duration;
  ar_Severity : string
}.

Record AlertsConfig := mkAlertsConfig {
  alerts_Enabled : bool;
  alerts_Rules : list AlertRule
}.

Record Config := mkConfig {
  LogLevel : string;
  Language : string;
  Prometheus : PrometheusConfig;
  Stats : StatsConfig;
  Cluster : ClusterConfig;
  Alerts : AlertsConfig;
  Prune : PruneConfig
}.

#[export] Instance AlertRule_eq_dec : EqDecision AlertRule.
Proof. solve_decision. Defined.

Definition DefaultConfig : Config := {|
  LogLevel := "info";
  Language := "en";
  Prometheus := {| prom_Enabled := true; prom_Port := 9110 |};
  Stats := {| stats_Interval := 5 * Second; stats_IncludeContainers := [] |};
  Cluster := {|
    cluster_Mode := "standalone";
    cluster_LeaderURL := "http://127.0.0.1:9110/api/v1/push";
    cluster_HostID := "";
    cluster_SharedSecret := "";
    cluster_AuthToken := "" |};
  Alerts := {|
    alerts_Enabled := true;
    alerts_Rules := [
      {| ar_Name := "High CPU"; ar_Metric := "cpu_percent"; ar_Operator := ">";
         ar_Threshold := f64_of_Z 80; ar_Duration := 2 * Minute; ar_Severity := "critical" |};
      {| ar_Name := "High Memory"; ar_Metric := "memory_percent"; ar_Operator := ">";
         ar_Threshold := f64_of_Z 85; ar_Duration := 2 * Minute; ar_Severity := "critical" |} ] |};
  Prune := {| prune_Enabled := false; prune_TriggerDiskPercent := f64_of_Z 85 |}
|}.

(** ** Environment overrides *)

(** [os.Getenv]: the empty string for an unset variable. *)
Definition Env := string -> string.

(** [if v := os.Getenv(name); v != "" { field = v }]. *)
Definition env_string (env : Env) (name : string) (old : string) : string :=
  let v := env name in if bool_decide (v = "") then old else v.

(** [if v := os.Getenv(name); v != "" { field = v == "true" || v == "1" }]. *)
Definition env_bool (env : Env) (name : string) (old : bool) : bool :=
  let v := env name in
  if bool_decide (v = "") then old else bool_decide (v = "true") || bool_decide (v = "1").

(** [if v := ...; v != "" { if x, err := parse(v); err == nil { field = x } }]. *)
Definition env_parsed {A} (parse : string -> option A) (env : Env) (name : string) (old : A) : A :=
  let v := env name in if bool_decide (v = "") then old else default old (parse v).

Definition applyGeneralEnv (env : Env) (cfg : Config) : Config := {|
  LogLevel := env_string env "CASTLE_ROCK_LOG_LEVEL" (LogLevel cfg);
  Language := env_string env "CASTLE_ROCK_LANGUAGE" (Language cfg);
  Prometheus := Prometheus cfg; Stats := Stats cfg; Cluster := Cluster cfg;
  Alerts := Alerts cfg; Prune := Prune cfg |}.

Definition applyPrometheusEnv (env : Env) (cfg : Config) : Config := {|
  LogLevel := LogLevel cfg; Language := Language cfg;
  Prometheus := {|
    prom_Port := env_parsed Atoi env "CASTLE_ROCK_PROMETHEUS_PORT" (prom_Port (Prometheus cfg));
    prom_Enabled := env_bool env "CASTLE_ROCK_PROMETHEUS_ENABLED" (prom_Enabled (Prometheus cfg)) |};
  Stats := Stats cfg; Cluster := Cluster cfg; Alerts := Alerts cfg; Prune := Prune cfg |}.

(** The comma-separated list, each part trimmed, empty parts dropped. *)
Definition parse_includes (v : string) : list string :=
  foldl (fun includes p =>
    let trimmed := TrimSpace p in
    if bool_decide (trimmed = "") then includes else includes ++ [trimmed])
    [] (Split v ","%char).

Definition env_includes (env : Env) (old : list string) : list string :=
  let v := env "CASTLE_ROCK_STATS_INCLUDE_CONTAINERS" in
  if bool_decide (v = "") then old else parse_includes v.

Definition applyStatsEnv (env : Env) (cfg : Config) : Config := {|
  LogLevel := LogLevel cfg; Language := Language cfg; Prometheus := Prometheus cfg;
  Stats := {|
    stats_Interval :=
      env_parsed ParseDuration env "CASTLE_ROCK_STATS_INTERVAL" (stats_Interval (Stats cfg));
    stats_IncludeContainers := env_includes env (stats_IncludeContainers (Stats cfg)) |};
  Cluster := Cluster cfg; Alerts := Alerts cfg; Prune := Prune cfg |}.

Definition applyClusterEnv (env : Env) (cfg : Config) : Config := {|
  LogLevel := LogLevel cfg; Language := Language cfg; Prometheus := Prometheus cfg;
  Stats := Stats cfg;
  Cluster := {|
    cluster_Mode := env_string env "CASTLE_ROCK_CLUSTER_MODE" (cluster_Mode (Cluster cfg));
    cluster_LeaderURL :=
      env_string env "CASTLE_ROCK_CLUSTER_LEADER_URL" (cluster_LeaderURL (Cluster cfg));
    cluster_HostID := env_string env "CASTLE_ROCK_CLUSTER_HOST_ID" (cluster_HostID (Cluster cfg));
    cluster_SharedSecret :=
      env_string env "CASTLE_ROCK_CLUSTER_SHARED_SECRET" (cluster_SharedSecret (Cluster cfg));
    cluster_AuthToken :=
      env_string env "CASTLE_ROCK_CLUSTER_AUTH_TOKEN" (cluster_AuthToken (Cluster cfg)) |};
  Alerts := Alerts cfg; Prune := Prune cfg |}.

Definition applyAlertsAndPruneEnv `{FloatSyntax} (env : Env) (cfg : Config) : Config := {|
  LogLevel := LogLevel cfg; Language := Language cfg; Prometheus := Prometheus cfg;
  Stats := Stats cfg; Cluster := Cluster cfg;
  Alerts := {|
    alerts_Enabled := env_bool env "CASTLE_ROCK_ALERTS_ENABLED" (alerts_Enabled (Alerts cfg));
    alerts_Rules := alerts_Rules (Alerts cfg) |};
  Prune := {|
    prune_Enabled := env_bool env "CASTLE_ROCK_PRUNE_ENABLED" (prune_Enabled (Prune cfg));
    prune_TriggerDiskPercent :=
      env_parsed ParseFloat env "CASTLE_ROCK_PRUNE_DISK_TRIGGER"
        (prune_TriggerDiskPercent (Prune cfg)) |} |}.

Definition applyEnvOverrides `{FloatSyntax} (env : Env) (cfg : Config) : Config :=
  applyAlertsAndPruneEnv env
    (applyClusterEnv env (applyStatsEnv env (applyPrometheusEnv env (applyGeneralEnv env cfg)))).

(** ** Load *)

(** The outcome of [os.ReadFile]. *)
Inductive FileContent :=
  | FileNotExist
  | FileError (e : error)
  | FileData (data : string).

(** [yaml.Unmarshal(data, &cfg)]: the configuration it leaves behind and its error. *)
Class YamlDecoder := { yaml_Unmarshal : string -> Config -> Config * option error }.

Definition set_cluster_host (h : string) (cfg : Config) : Config := {|
  LogLevel := LogLevel cfg; Language := Language cfg; Prometheus := Prometheus cfg;
  Stats := Stats cfg;
  Cluster := {|
    cluster_Mode := cluster_Mode (Cluster cfg);
    cluster_LeaderURL := cluster_LeaderURL (Cluster cfg);
    cluster_HostID := h;
    cluster_SharedSecret := cluster_SharedSecret (Cluster cfg);
    cluster_AuthToken := cluster_AuthToken (Cluster cfg) |};
  Alerts := Alerts cfg; Prune := Prune cfg |}.

(** [Load] returns the configuration together with its error, as the code does. *)
Definition Load `{FloatSyntax, YamlDecoder} (path : string) (file : FileContent) (env : Env)
    (hostname : result string) : Config * option error :=
  let cfg := DefaultConfig in
  match file with
  | FileNotExist => (applyEnvOverrides env cfg, None)
  | FileError e => (cfg, Some ("config.Load: error reading " +:+ path +:+ ": " +:+ e))
  | FileData data =>
      match yaml_Unmarshal data cfg with
      | (cfg1, Some e) => (cfg1, Some ("config.Load: error parsing YAML: " +:+ e))
      | (cfg1, None) =>
          let cfg2 := applyEnvOverrides env cfg1 in
          if bool_decide (cluster_HostID (Cluster cfg2) = "") then
            match hostname with
            | Ok h => (set_cluster_host h cfg2, None)
            | Err _ => (set_cluster_host "unknown_host" cfg2, None)
            end
          else (cfg2, None)
      end
  end.

(** ** Precedence: environment over file over defaults *)

Section env_lemmas.
Context `{FloatSyntax}.
Implicit Types (env : Env) (cfg : Config).

Lemma env_string_idem env name old :
  env_string env name (env_string env name old) = env_string env name old.
Proof. unfold env_string. by case_bool_decide. Qed.

Lemma env_bool_idem env name old :
  env_bool env name (env_bool env name old) = env_bool env name old.
Proof. unfold env_bool. by case_bool_decide. Qed.

Lemma env_parsed_idem {A} (parse : string -> option A) env name old :
  env_parsed parse env name (env_parsed parse env name old) = env_parsed parse env name old.
Proof. unfold env_parsed. case_bool_decide; [done|]. by destruct (parse _). Qed.

Lemma env_string_nonempty env name old :
  env_string env name old = "" <-> env name = "" /\ old = "".
Proof. unfold env_string. case_bool_decide; naive_solver. Qed.

Lemma override_host env cfg :
  cluster_HostID (Cluster (applyEnvOverrides env cfg)) =
  env_string env "CASTLE_ROCK_CLUSTER_HOST_ID" (cluster_HostID (Cluster cfg)).
Proof. done. Qed.

Lemma set_cluster_host_host h cfg : cluster_HostID (Cluster (set_cluster_host h cfg)) = h.
Proof. done. Qed.

End env_lemmas.

Lemma parse_includes_spec v :
  parse_includes v = filter (fun p => p <> "") (TrimSpace <$> Split v ","%char).
Proof.
  unfold parse_includes.
  enough (forall l acc, foldl (fun includes p =>
    let trimmed := TrimSpace p in
    if bool_decide (trimmed = "") then includes else includes ++ [trimmed]) acc l =
    acc ++ filter (fun p => p <> "") (TrimSpace <$> l)) as E by apply E.
  induction l as [|p l IH]; intros acc; simpl; [by rewrite app_nil_r|].
  rewrite IH, filter_cons. case_bool_decide as E.
  - by rewrite decide_False by tauto.
  - rewrite decide_True by done. by rewrite <-app_assoc.
Qed.

(** The five passes as one record. *)
Lemma applyEnvOverrides_eq `{FloatSyntax} env cfg :
  applyEnvOverrides env cfg = {|
    LogLevel := env_string env "CASTLE_ROCK_LOG_LEVEL" (LogLevel cfg);
    Language := env_string env "CASTLE_ROCK_LANGUAGE" (Language cfg);
    Prometheus := {|
      prom_Enabled := env_bool env "CASTLE_ROCK_PROMETHEUS_ENABLED" (prom_Enabled (Prometheus cfg));
      prom_Port := env_parsed Atoi env "CASTLE_ROCK_PROMETHEUS_PORT" (prom_Port (Prometheus cfg)) |};
    Stats := {|
      stats_Interval :=
        env_parsed ParseDuration env "CASTLE_ROCK_STATS_INTERVAL" (stats_Interval (Stats cfg));
      stats_IncludeContainers := env_includes env (stats_IncludeContainers (Stats cfg)) |};
    Cluster := {|
      cluster_Mode := env_string env "CASTLE_ROCK_CLUSTER_MODE" (cluster_Mode (Cluster cfg));
      cluster_LeaderURL :=
        env_string env "CASTLE_ROCK_CLUSTER_LEADER_URL" (cluster_LeaderURL (Cluster cfg));
      cluster_HostID := env_string env "CASTLE_ROCK_CLUSTER_HOST_ID" (cluster_HostID (Cluster cfg));
      cluster_SharedSecret :=
        env_string env "CASTLE_ROCK_CLUSTER_SHARED_SECRET" (cluster_SharedSecret (Cluster cfg));
      cluster_AuthToken :=
        env_string env "CASTLE_ROCK_CLUSTER_AUTH_TOKEN" (cluster_AuthToken (Cluster cfg)) |};
    Alerts := {|
      alerts_Enabled := env_bool env "CASTLE_ROCK_ALERTS_ENABLED" (alerts_Enabled (Alerts cfg));
      alerts_Rules := alerts_Rules (Alerts cfg) |};
    Prune := {|
      prune_Enabled := env_bool env "CASTLE_ROCK_PRUNE_ENABLED" (prune_Enabled (Prune cfg));
      prune_TriggerDiskPercent :=
        env_parsed ParseFloat env "CASTLE_ROCK_PRUNE_DISK_TRIGGER"
          (prune_TriggerDiskPercent (Prune cfg)) |} |}.
Proof. reflexivity. Qed.

(** The overrides as case distinctions on the variable. *)
Lemma env_string_eq env name old : env_string env name old = if decide (env name = "") then old else env name.
Proof. unfold env_string. case_bool_decide; by case_decide. Qed.

Lemma env_bool_eq env name old :
  env_bool env name old = if decide (env name = "") then old else bool_decide (env name = "true" \/ env name = "1").
Proof. unfold env_bool. rewrite bool_decide_or. case_bool_decide; by case_decide. Qed.

Lemma env_parsed_eq {A} (parse : string -> option A) env name old :
  env_parsed parse env name old = if decide (env name = "") then old else default old (parse (env name)).
Proof. unfold env_parsed. case_bool_decide; by case_decide. Qed.

Lemma env_includes_eq env old :
  env_includes env old = if decide (env "CASTLE_ROCK_STATS_INCLUDE_CONTAINERS" = "") then old
    else filter (fun p => p <> "") (TrimSpace <$> Split (env "CASTLE_ROCK_STATS_INCLUDE_CONTAINERS") ","%char).
Proof. unfold env_includes. rewrite parse_includes_spec. case_bool_decide; by case_decide. Qed.

Section load.
Context `{FloatSyntax, YamlDecoder}.

(** What [Load] computes when the file is there and decodes. *)
Lemma Load_data path data env hostname cfg1 :
  yaml_Unmarshal data DefaultConfig = (cfg1, None) ->
  let cfg2 := applyEnvOverrides env cfg1 in
  exists h, Load path (FileData data) env hostname = (set_cluster_host h cfg2, None) /\
    h = (if bool_decide (cluster_HostID (Cluster cfg2) = "")
         then match hostname with Ok n => n | Err _ => "unknown_host" end
         else cluster_HostID (Cluster cfg2)).
Proof.
  intros Hy cfg2. unfold Load. rewrite Hy. fold cfg2.
  case_bool_decide; [destruct hostname; eauto|].
  exists (cluster_HostID (Cluster cfg2)). split; [|done].
  by destruct cfg2 as [? ? ? ? []].
Qed.

(** C34. Precedence. When the configuration file exists and decodes to [cfg1], no error is
    reported and every setting is the value of its environment variable when that is set,
    and the file's otherwise: the texts as they are, the flags true for [true] and [1] only,
    the port, the interval and the disk trigger if the text parses, the included containers
    as the trimmed parts that are not empty; the host identifier falls back on the name of
    the machine, then on [unknown_host]; the rules are the file's. *)
Theorem Load_precedence path data env hostname cfg1 :
  yaml_Unmarshal data DefaultConfig = (cfg1, None) ->
  let '(cfg, err) := Load path (FileData data) env hostname in
  let text name old := if decide (env name = "") then old else env name in
  let flag name old := if decide (env name = "") then old else bool_decide (env name = "true" \/ env name = "1") in
  err = None /\
  LogLevel cfg = text "CASTLE_ROCK_LOG_LEVEL" (LogLevel cfg1) /\
  Language cfg = text "CASTLE_ROCK_LANGUAGE" (Language cfg1) /\
  prom_Enabled (Prometheus cfg) = flag "CASTLE_ROCK_PROMETHEUS_ENABLED" (prom_Enabled (Prometheus cfg1)) /\
  prom_Port (Prometheus cfg) =
    (if decide (env "CASTLE_ROCK_PROMETHEUS_PORT" = "") then prom_Port (Prometheus cfg1)
     else default (prom_Port (Prometheus cfg1)) (Atoi (env "CASTLE_ROCK_PROMETHEUS_PORT"))) /\
  stats_Interval (Stats cfg) =
    (if decide (env "CASTLE_ROCK_STATS_INTERVAL" = "") then stats_Interval (Stats cfg1)
     else default (stats_Interval (Stats cfg1)) (ParseDuration (env "CASTLE_ROCK_STATS_INTERVAL"))) /\
  stats_IncludeContainers (Stats cfg) =
    (if decide (env "CASTLE_ROCK_STATS_INCLUDE_CONTAINERS" = "") then stats_IncludeContainers (Stats cfg1)
     else filter (fun p => p <> "") (TrimSpace <$> Split (env "CASTLE_ROCK_STATS_INCLUDE_CONTAINERS") ","%char)) /\
  cluster_Mode (Cluster cfg) = text "CASTLE_ROCK_CLUSTER_MODE" (cluster_Mode (Cluster cfg1)) /\
  cluster_LeaderURL (Cluster cfg) = text "CASTLE_ROCK_CLUSTER_LEADER_URL" (cluster_LeaderURL (Cluster cfg1)) /\
  cluster_HostID (Cluster cfg) =
    (let h := text "CASTLE_ROCK_CLUSTER_HOST_ID" (cluster_HostID (Cluster cfg1)) in
     if decide (h = "") then match hostname with Ok n => n | Err _ => "unknown_host" end else h) /\
  cluster_SharedSecret (Cluster cfg) = text "CASTLE_ROCK_CLUSTER_SHARED_SECRET" (cluster_SharedSecret (Cluster cfg1)) /\
  cluster_AuthToken (Cluster cfg) = text "CASTLE_ROCK_CLUSTER_AUTH_TOKEN" (cluster_AuthToken (Cluster cfg1)) /\
  alerts_Enabled (Alerts cfg) = flag "CASTLE_ROCK_ALERTS_ENABLED" (alerts_Enabled (Alerts cfg1)) /\
  alerts_Rules (Alerts cfg) = alerts_Rules (Alerts cfg1) /\
  prune_Enabled (Prune cfg) = flag "CASTLE_ROCK_PRUNE_ENABLED" (prune_Enabled (Prune cfg1)) /\
  prune_TriggerDiskPercent (Prune cfg) =
    (if decide (env "CASTLE_ROCK_PRUNE_DISK_TRIGGER" = "") then prune_TriggerDiskPercent (Prune cfg1)
     else default (prune_TriggerDiskPercent (Prune cfg1)) (ParseFloat (env "CASTLE_ROCK_PRUNE_DISK_TRIGGER"))).
Proof.
  intros Hy. destruct (Load_data path data env hostname cfg1 Hy) as (h & -> & ->). cbv zeta.
  rewrite override_host, applyEnvOverrides_eq, env_string_eq.
  split_and!; try first [done|apply env_string_eq|apply env_bool_eq|apply env_parsed_eq|apply env_includes_eq].
  cbn [Cluster cluster_HostID set_cluster_host]. generalize (if decide (env "CASTLE_ROCK_CLUSTER_HOST_ID" = "") then cluster_HostID (Cluster cfg1) else env "CASTLE_ROCK_CLUSTER_HOST_ID").
  intros s. case_bool_decide; by case_decide.
Qed.

(** The host identifier. A load that reports no error leaves the host id empty
    exactly when its variable is unset and either the file was missing (that path
    returns before the host-name fallback) or the decoded file has no host id and
    the operating system reports an empty host name. *)
Theorem Load_host_id_empty path file env hostname :
  snd (Load path file env hostname) = None ->
  cluster_HostID (Cluster (fst (Load path file env hostname))) = "" <->
  env "CASTLE_ROCK_CLUSTER_HOST_ID" = "" /\
  (file = FileNotExist \/
   exists data cfg1, file = FileData data /\
     yaml_Unmarshal data DefaultConfig = (cfg1, None) /\
     cluster_HostID (Cluster cfg1) = "" /\ hostname = Ok "").
Proof.
  destruct file as [|e|data]; intros Herr.
  - simpl. rewrite env_string_nonempty. naive_solver.
  - done.
  - destruct (yaml_Unmarshal data DefaultConfig) as [cfg1 [e|]] eqn:Hy.
    { by unfold Load in Herr; rewrite Hy in Herr. }
    destruct (Load_data path data env hostname cfg1 Hy) as (h & -> & ->).
    cbn [fst]. rewrite set_cluster_host_host, override_host.
    case_bool_decide as E; rewrite env_string_nonempty in E.
    + destruct E as [E1 E2]. destruct hostname as [n|e]; (split; [intros Hn|]).
      * split; [done|]. right. exists data, cfg1. by subst.
      * intros (_ & [|(? & ? & _ & _ & _ & [= ->])]); done.
      * done.
      * intros (_ & [|(? & ? & _ & _ & _ & ?)]); done.
    + rewrite env_string_nonempty. split; [tauto|].
      intros (? & [|(? & ? & [= <-] & ? & ? & _)]); [done|]. destruct E. split; congruence.
Qed.
End load.

Lemma env_includes_idem env old : env_includes env (env_includes env old) = env_includes env old.
Proof. unfold env_includes. by case_bool_decide. Qed.

(** Applying the environment overrides a second time changes nothing, whatever
    the configuration they are applied to. *)
Theorem applyEnvOverrides_idempotent `{FloatSyntax} env cfg :
  applyEnvOverrides env (applyEnvOverrides env cfg) = applyEnvOverrides env cfg.
Proof.
  rewrite (applyEnvOverrides_eq env (applyEnvOverrides env cfg)), (applyEnvOverrides_eq env cfg).
  cbn [LogLevel Language Prometheus Stats Cluster Alerts Prune prom_Enabled prom_Port
    stats_Interval stats_IncludeContainers cluster_Mode cluster_LeaderURL cluster_HostID
    cluster_SharedSecret cluster_AuthToken alerts_Enabled alerts_Rules prune_Enabled
    prune_TriggerDiskPercent].
  by rewrite !env_string_idem, !env_bool_idem, !env_parsed_idem, env_includes_idem.
Qed.

(** ** Witnesses *)

#[local] Instance no_other_floats : FloatSyntax := {| ParseFloat_other := fun _ => None |}.
(** A decoder that only understands the empty document and one that names a host. *)
#[local] Instance tiny_yaml : YamlDecoder := {|
  yaml_Unmarshal := fun data cfg =>
    if bool_decide (data = "") then (cfg, None)
    else if bool_decide (data = "host") then (set_cluster_host "node-7" cfg, None)
    else (cfg, Some "yaml: syntax error") |}.

Definition env_of (l : list (string * string)) : Env :=
  fun name => default "" ((list_to_map l : gmap string string) !! name).

Lemma Load_precedence_witness :
  let env := env_of [("CASTLE_ROCK_LOG_LEVEL", "debug"); ("CASTLE_ROCK_PROMETHEUS_PORT", "x");
    ("CASTLE_ROCK_STATS_INCLUDE_CONTAINERS", " web,,db ")] in
  let cfg := fst (Load "c.yaml" (FileData "") env (Ok "h")) in
  LogLevel cfg = "debug" /\ prom_Port (Prometheus cfg) = 9110 /\ cluster_HostID (Cluster cfg) = "h" /\
  stats_IncludeContainers (Stats cfg) = ["web"; "db"].
Proof.
  intros env cfg.
  pose proof (Load_precedence "c.yaml" "" env (Ok "h") DefaultConfig eq_refl) as P. unfold cfg.
  destruct (Load "c.yaml" (FileData "") env (Ok "h")) as [cfg' err]. cbn [fst].
  destruct P as (_ & Hl & _ & _ & Hp & _ & Hi & _ & _ & Hh & _).
  rewrite Hl, Hp, Hi, Hh. vm_compute. repeat split.
Defined.

Lemma Load_host_id_empty_witness :
  cluster_HostID (Cluster (fst (Load "c.yaml" FileNotExist (env_of []) (Ok "laptop")))) = "".
Proof.
  apply (Load_host_id_empty "c.yaml" FileNotExist (env_of []) (Ok "laptop")); [reflexivity|].
  split; [reflexivity|]. left. reflexivity.
Defined.
