(* ===== verification/Alerts.v ===== *)
(** * The alert engine ([internal/alerts/alerts.go])

    The engine's state, one definition per method, and an abstract specification of
    each condition as a three-state machine (idle, pending, firing) that the
    concrete maps refine.  Ranges over Go maps take their iteration order as an
    argument ([range_of] says which orders are possible). *)
From S2P Require Import Prelude.
From S2P Require Import GoStrings.
From S2P Require Import GoFloat.
From S2P Require Import GoTime.
From S2P Require Import Models.
From S2P Require Import Config.

(** ** Data *)

Record Alert := mkAlert {
  al_RuleName : string;
  al_ContainerID : string;
  al_ContainerName : string;
  al_Metric : string;
  al_CurrentValue : float64;
  al_Threshold : float64;
  al_Severity : string;
  al_FiredAt : Time;
  al_ActiveSince : Time
}.

#[export] Instance Alert_eq_dec : EqDecision Alert.
Proof. solve_decision. Defined.

Record Engine := mkEngine {
  rules : list AlertRule;
  conditionStart : gmap string Time;
  activeAlerts : gmap string Alert;
  firedAlerts : list Alert
}.

Definition NewEngine (rs : list AlertRule) : Engine := {|
  rules := rs; conditionStart := ∅; activeAlerts := ∅; firedAlerts := [] |}.

(** ** Operations *)

Definition alertKey (containerID ruleName : string) : string :=
  containerID +:+ ":" +:+ ruleName.

Definition getMetricValue (stats : ContainerMetrics) (metric : string) : float64 :=
  if bool_decide (metric = "cpu_percent") then cm_CPUPercent stats
  else if bool_decide (metric = "memory_percent") then cm_MemoryPercent stats
  else if bool_decide (metric = "memory_usage") then f64_of_Z (cm_MemoryUsage stats)
  else if bool_decide (metric = "network_rx") then f64_of_Z (cm_NetworkRx stats)
  else if bool_decide (metric = "network_tx") then f64_of_Z (cm_NetworkTx stats)
  else f64_zero.

Definition evaluateCondition (value : float64) (operator : string) (threshold : float64) : bool :=
  if bool_decide (operator = ">") then f64_gt value threshold
  else if bool_decide (operator = ">=") then f64_ge value threshold
  else if bool_decide (operator = "<") then f64_lt value threshold
  else if bool_decide (operator = "<=") then f64_le value threshold
  else if bool_decide (operator = "==") then f64_eq value threshold
  else false.

(** The condition of one rule on one container's metrics. *)
Definition conditionMet (s : ContainerMetrics) (rule : AlertRule) : bool :=
  evaluateCondition (getMetricValue s (ar_Metric rule)) (ar_Operator rule) (ar_Threshold rule).

(** The alert [evaluateRule] builds when the rule fires. *)
Definition newAlert (s : ContainerMetrics) (rule : AlertRule) (now startTime : Time) : Alert := {|
  al_RuleName := ar_Name rule;
  al_ContainerID := cm_ContainerID s;
  al_ContainerName := cm_ContainerName s;
  al_Metric := ar_Metric rule;
  al_CurrentValue := getMetricValue s (ar_Metric rule);
  al_Threshold := ar_Threshold rule;
  al_Severity := ar_Severity rule;
  al_FiredAt := now;
  al_ActiveSince := startTime |}.

(** Prepend to the history and keep the newest fifty. *)
Definition push_history (a : Alert) (h : list Alert) : list Alert :=
  let h' := a :: h in
  if (50 <? length h')%nat then take 50 h' else h'.

Definition evaluateRule (e : Engine) (s : ContainerMetrics) (rule : AlertRule) (now : Time)
    : Engine * option Alert :=
  let key := alertKey (cm_ContainerID s) (ar_Name rule) in
  if negb (conditionMet s rule) then
    ({| rules := rules e; conditionStart := delete key (conditionStart e);
        activeAlerts := delete key (activeAlerts e); firedAlerts := firedAlerts e |}, None)
  else match conditionStart e !! key with
  | None =>
      ({| rules := rules e; conditionStart := <[key := now]> (conditionStart e);
          activeAlerts := activeAlerts e; firedAlerts := firedAlerts e |}, None)
  | Some startTime =>
      if Sub now startTime <? ar_Duration rule then (e, None)
      else match activeAlerts e !! key with
      | Some _ => (e, None)
      | None =>
          let alert := newAlert s rule now startTime in
          ({| rules := rules e; conditionStart := conditionStart e;
              activeAlerts := <[key := alert]> (activeAlerts e);
              firedAlerts := push_history alert (firedAlerts e) |}, Some alert)
      end
  end.

(** [delete] of one key from both maps. *)
Definition clear_key (key : string) (e : Engine) : Engine := {|
  rules := rules e; conditionStart := delete key (conditionStart e);
  activeAlerts := delete key (activeAlerts e); firedAlerts := firedAlerts e |}.

(** [ordA] is the order of the range over [activeAlerts], [stats] the values of the
    metrics map. *)
Definition clearInactiveAlerts (ordA : list (string * Alert)) (stats : list ContainerMetrics)
    (e : Engine) : Engine :=
  let validContainers : gset string := list_to_set (cm_ContainerID <$> stats) in
  foldl (fun e '(key, alert) =>
    if bool_decide (al_ContainerID alert ∈ validContainers) then e else clear_key key e) e ordA.

(** One turn of the two nested loops: run the rule, append its alert if any. *)
Definition eval_step (now : Time) (acc : Engine * list Alert) (p : ContainerMetrics * AlertRule)
    : Engine * list Alert :=
  let '(e', fired) := evaluateRule acc.1 p.1 p.2 now in
  (e', match fired with Some a => acc.2 ++ [a] | None => acc.2 end).

(** [Evaluate] at time [now]: [ordA] orders the range over [activeAlerts] and [ordS]
    the range over the metrics map. *)
Definition Evaluate (ordA : list (string * Alert)) (ordS : list (string * ContainerMetrics))
    (now : Time) (e : Engine) : Engine * list Alert :=
  let e1 := clearInactiveAlerts ordA ordS.*2 e in
  foldl (fun acc s => foldl (fun acc rule => eval_step now acc (s, rule)) acc (rules e1))
    (e1, []) ordS.*2.

Definition severityWeight (severity : string) : Z :=
  if bool_decide (severity = "critical") then 3
  else if bool_decide (severity = "warning") then 2
  else if bool_decide (severity = "info") then 1
  else 0.

Definition groupKey (a : Alert) : string := al_ContainerID a +:+ ":" +:+ al_Metric a.

(** One turn of the deduplication loop of [GetActiveAlerts]. *)
Definition best_step (best : gmap string Alert) (a : Alert) : gmap string Alert :=
  match best !! groupKey a with
  | None => <[groupKey a := a]> best
  | Some existing =>
      if severityWeight (al_Severity existing) <? severityWeight (al_Severity a)
      then <[groupKey a := a]> best else best
  end.

Definition bestAlerts (ordA : list (string * Alert)) : gmap string Alert :=
  foldl best_step ∅ ordA.*2.

(** The result lists the values of [bestAlerts] in the order [ordB]. *)
Definition GetActiveAlerts (ordB : list (string * Alert)) : list Alert := ordB.*2.

Definition GetPendingCount (ordC : list (string * Time)) (e : Engine) : Z :=
  foldl (fun pending '(key, _) =>
    match activeAlerts e !! key with Some _ => pending | None => pending + 1 end) 0 ordC.

Definition FormatAlert (a : Alert) : string :=
  "[" +:+ al_Severity a +:+ "] " +:+ al_RuleName a +:+ ": " +:+ al_Metric a +:+ " " +:+
  format_fixed 1 (al_CurrentValue a) +:+ "% > " +:+ format_fixed 1 (al_Threshold a) +:+
  "% (container: " +:+ al_ContainerName a +:+ ")".

(** ** The abstract machine of one condition *)

Inductive CondState :=
  | Idle
  | Pending (since : Time)
  | Firing (since : Time) (a : Alert).

(** What one evaluation of rule [rule] on [s] at [now] does to its condition. *)
Definition cond_step (s : ContainerMetrics) (rule : AlertRule) (now : Time) (c : CondState)
    : CondState :=
  if conditionMet s rule then
    match c with
    | Idle => Pending now
    | Pending t => if Sub now t <? ar_Duration rule then Pending t
                   else Firing t (newAlert s rule now t)
    | Firing t a => Firing t a
    end
  else Idle.

(** The alert the step reports: only the step from pending to firing does. *)
Definition cond_alert (s : ContainerMetrics) (rule : AlertRule) (now : Time) (c : CondState)
    : option Alert :=
  match c, cond_step s rule now c with
  | Pending _, Firing _ a => Some a
  | _, _ => None
  end.

(** The state of the condition with key [k] in the engine's maps. *)
Definition abs_cond (e : Engine) (k : string) : CondState :=
  match conditionStart e !! k, activeAlerts e !! k with
  | Some t, Some a => Firing t a
  | Some t, None => Pending t
  | None, _ => Idle
  end.

(** The engine's invariant: an active alert has a running condition that began when
    the alert says, it is stored under its own key, and the history is bounded. *)
Record engine_wf (e : Engine) : Prop := {
  wf_active : forall k a, activeAlerts e !! k = Some a ->
    conditionStart e !! k = Some (al_ActiveSince a) /\
    k = alertKey (al_ContainerID a) (al_RuleName a);
  wf_history : (length (firedAlerts e) <= 50)%nat
}.

(** The (container, rule) pairs an evaluation visits, in order, and their keys. *)
Definition eval_pairs (ordS : list (string * ContainerMetrics)) (rs : list AlertRule)
    : list (ContainerMetrics * AlertRule) :=
  ordS.*2 ≫= fun s => (fun r => (s, r)) <$> rs.

Definition pair_key (p : ContainerMetrics * AlertRule) : string :=
  alertKey (cm_ContainerID p.1) (ar_Name p.2).

(** ** One rule on one container *)

Lemma push_history_take a h : (length h <= 50)%nat -> push_history a h = take 50 (a :: h).
Proof.
  intros Hh. unfold push_history. destruct (Nat.ltb_spec 50 (length (a :: h))); [done|].
  by rewrite take_ge by lia.
Qed.

Lemma abs_cond_delete_ne e k key :
  k <> key -> abs_cond (clear_key key e) k = abs_cond e k.
Proof. intros Hne. unfold abs_cond, clear_key; cbn. by rewrite !lookup_delete_ne. Qed.

Lemma abs_cond_delete e key : abs_cond (clear_key key e) key = Idle.
Proof. unfold abs_cond, clear_key; cbn. by rewrite lookup_delete_eq. Qed.

Lemma clear_key_wf key e : engine_wf e -> engine_wf (clear_key key e).
Proof.
  intros [Ha Hh]. split; [|done]. cbn. intros k a Hk.
  apply lookup_delete_Some in Hk as [Hne Hk]. rewrite lookup_delete_ne by done. by apply Ha.
Qed.

Section rule_step.
Context (e : Engine) (s : ContainerMetrics) (rule : AlertRule) (now : Time).
Hypothesis Hwf : engine_wf e.
Let key := alertKey (cm_ContainerID s) (ar_Name rule).

Lemma evaluateRule_wf : engine_wf (evaluateRule e s rule now).1.
Proof.
  unfold evaluateRule. fold key.
  destruct (conditionMet s rule); cbn [negb]; [|by apply (clear_key_wf key)].
  destruct Hwf as [Ha Hh].
  destruct (conditionStart e !! key) as [t|] eqn:Et; cbn.
  - destruct (_ <? _); [done|]. destruct (activeAlerts e !! key) eqn:Ea; [done|].
    split; cbn.
    + intros k a Hk. apply lookup_insert_Some in Hk as [[<- <-]|[_ Hk]]; [done|by apply Ha].
    + rewrite push_history_take by done. rewrite length_take. lia.
  - split; [|done]. cbn. intros k a Hk. destruct (Ha k a Hk) as [Hc Hkey].
    split; [|done]. rewrite lookup_insert_ne; [done|]. congruence.
Qed.

Lemma evaluateRule_key :
  abs_cond (evaluateRule e s rule now).1 key = cond_step s rule now (abs_cond e key).
Proof.
  unfold evaluateRule, cond_step. fold key.
  destruct (conditionMet s rule); cbn [negb]; [|apply (abs_cond_delete e key)].
  destruct Hwf as [Ha _].
  unfold abs_cond. destruct (conditionStart e !! key) as [t|] eqn:Et.
  - destruct (activeAlerts e !! key) as [a|] eqn:Ea; destruct (Sub now t <? _); cbn;
      by rewrite ?Et, ?Ea, ?lookup_insert_eq.
  - cbn. rewrite lookup_insert_eq.
    destruct (activeAlerts e !! key) as [a|] eqn:Ea; [|done].
    destruct (Ha _ _ Ea). congruence.
Qed.

Lemma evaluateRule_other k :
  k <> key -> abs_cond (evaluateRule e s rule now).1 k = abs_cond e k.
Proof.
  intros Hne. unfold evaluateRule. fold key.
  destruct (conditionMet s rule); cbn [negb]; [|by apply (abs_cond_delete_ne e k key)].
  unfold abs_cond. destruct (conditionStart e !! key) as [t|] eqn:Et; cbn.
  - destruct (_ <? _); [done|]. destruct (activeAlerts e !! key); [done|].
    cbn. by rewrite lookup_insert_ne.
  - by rewrite lookup_insert_ne.
Qed.

Lemma evaluateRule_alert :
  (evaluateRule e s rule now).2 = cond_alert s rule now (abs_cond e key).
Proof.
  unfold evaluateRule, cond_alert, cond_step. fold key.
  destruct (conditionMet s rule); cbn [negb].
  - unfold abs_cond. destruct (conditionStart e !! key) as [t|] eqn:Et; [|done].
    destruct (activeAlerts e !! key) as [a|] eqn:Ea; by destruct (Sub now t <? _).
  - by destruct (abs_cond e key).
Qed.

Lemma evaluateRule_history :
  firedAlerts (evaluateRule e s rule now).1 =
  take 50 (option_list (evaluateRule e s rule now).2 ++ firedAlerts e).
Proof.
  destruct Hwf as [_ Hh].
  assert (firedAlerts e = take 50 (firedAlerts e)) as E by (rewrite take_ge; [done|lia]).
  unfold evaluateRule. fold key.
  destruct (conditionMet s rule); cbn [negb]; [|exact E].
  destruct (conditionStart e !! key); [|exact E].
  destruct (_ <? _); [exact E|]. destruct (activeAlerts e !! key); [exact E|].
  cbn [fst snd firedAlerts option_list]. by apply push_history_take.
Qed.

Lemma evaluateRule_rules : rules (evaluateRule e s rule now).1 = rules e.
Proof. unfold evaluateRule. by repeat case_match. Qed.
End rule_step.

#[export] Hint Resolve evaluateRule_wf clear_key_wf : castle.

(** ** A whole evaluation *)

(** What clearing vanished containers does to one condition: only a firing one is
    dropped. *)
Definition cleared (ids : gset string) (c : CondState) : CondState :=
  match c with
  | Firing _ a => if decide (al_ContainerID a ∈ ids) then c else Idle
  | _ => c
  end.

Lemma take_app_take {A} n (l k : list A) : take n (l ++ take n k) = take n (l ++ k).
Proof. rewrite !take_app, take_take. f_equal. f_equal. lia. Qed.

Lemma clearInactive_wf ordA stats e : engine_wf e -> engine_wf (clearInactiveAlerts ordA stats e).
Proof.
  intros Hwf. unfold clearInactiveAlerts. apply foldl_inv; [done|].
  intros e' [k a] _ He'. case_bool_decide; auto with castle.
Qed.

Lemma clearInactive_rest ordA stats e :
  rules (clearInactiveAlerts ordA stats e) = rules e /\
  firedAlerts (clearInactiveAlerts ordA stats e) = firedAlerts e.
Proof.
  unfold clearInactiveAlerts.
  apply (foldl_inv (fun e' => rules e' = rules e /\ firedAlerts e' = firedAlerts e)); [done|].
  intros e' [k a] _ He'. by case_bool_decide.
Qed.

(** The range over [activeAlerts] deletes the keys of vanished containers. *)
Lemma clear_fold_abs (ids : gset string) (ordA : list (string * Alert)) e k :
  NoDup ordA.*1 ->
  abs_cond (foldl (fun e '(key, alert) =>
    if bool_decide (al_ContainerID alert ∈ ids) then e else clear_key key e) e ordA) k =
  match (list_to_map ordA : gmap string Alert) !! k with
  | Some a => if decide (al_ContainerID a ∈ ids) then abs_cond e k else Idle
  | None => abs_cond e k
  end.
Proof.
  revert e; induction ordA as [|[key a] ordA IH]; intros e Hnd; cbn [foldl]; [done|].
  apply NoDup_cons in Hnd as [Hnew Hnd]. cbn [fst] in Hnew.
  rewrite IH by done. cbn [list_to_map foldr]. cbn [uncurry].
  destruct (decide (k = key)) as [->|Hne].
  - rewrite lookup_insert_eq. rewrite not_elem_of_list_to_map_1 by done.
    case_bool_decide; [by rewrite decide_True|rewrite decide_False by done].
    apply abs_cond_delete.
  - rewrite lookup_insert_ne by done.
    assert (abs_cond (if bool_decide (al_ContainerID a ∈ ids) then e else clear_key key e) k =
      abs_cond e k) as ->; [|done].
    case_bool_decide; [done|]. by apply abs_cond_delete_ne.
Qed.

Lemma clearInactive_abs ordA stats e k :
  engine_wf e -> range_of (activeAlerts e) ordA ->
  abs_cond (clearInactiveAlerts ordA stats e) k =
  cleared (list_to_set (cm_ContainerID <$> stats)) (abs_cond e k).
Proof.
  intros Hwf Hord. unfold clearInactiveAlerts.
  pose proof (range_of_NoDup _ _ Hord) as Hnd.
  rewrite clear_fold_abs by done.
  assert (list_to_map ordA = activeAlerts e) as ->.
  { unfold range_of in Hord. rewrite <-(list_to_map_to_list (activeAlerts e)).
    by apply list_to_map_proper. }
  unfold cleared, abs_cond.
  destruct (activeAlerts e !! k) as [a|] eqn:Ea.
  - destruct (wf_active _ Hwf _ _ Ea) as [-> _]. done.
  - by destruct (conditionStart e !! k).
Qed.

(** The nested loops over a list of pairs with distinct keys. *)
Lemma eval_fold_spec now (ps : list (ContainerMetrics * AlertRule)) acc :
  engine_wf acc.1 -> NoDup (pair_key <$> ps) ->
  let res := foldl (eval_step now) acc ps in
  let fired := omap (fun p => cond_alert p.1 p.2 now (abs_cond acc.1 (pair_key p))) ps in
  engine_wf res.1 /\
  rules res.1 = rules acc.1 /\
  (forall p, p ∈ ps ->
    abs_cond res.1 (pair_key p) = cond_step p.1 p.2 now (abs_cond acc.1 (pair_key p))) /\
  (forall k, k ∉ pair_key <$> ps -> abs_cond res.1 k = abs_cond acc.1 k) /\
  res.2 = acc.2 ++ fired /\
  firedAlerts res.1 = take 50 (reverse fired ++ firedAlerts acc.1).
Proof.
  revert acc; induction ps as [|p ps IH]; intros acc Hwf Hnd; cbn [foldl].
  { split_and!; [done|done|set_solver|done|by rewrite app_nil_r|].
    rewrite take_ge; [done|]. apply Hwf. }
  rewrite fmap_cons in Hnd. apply NoDup_cons in Hnd as [Hnew Hnd].
  set (acc' := eval_step now acc p).
  assert (acc'.1 = (evaluateRule acc.1 p.1 p.2 now).1) as E1.
  { unfold acc', eval_step. by destruct (evaluateRule _ _ _ _). }
  assert (acc'.2 = acc.2 ++ option_list (evaluateRule acc.1 p.1 p.2 now).2) as E2.
  { unfold acc', eval_step. destruct (evaluateRule _ _ _ _) as [? [?|]]; cbn; [done|].
    by rewrite app_nil_r. }
  destruct (IH acc') as (Hwf' & Hr & Hin & Hout & Hf & Hh); [rewrite E1; by apply evaluateRule_wf|done|].
  assert (forall k, k <> pair_key p -> abs_cond acc'.1 k = abs_cond acc.1 k) as Hother.
  { intros k Hne. rewrite E1. by apply evaluateRule_other. }
  assert (omap (fun q => cond_alert q.1 q.2 now (abs_cond acc'.1 (pair_key q))) ps =
          omap (fun q => cond_alert q.1 q.2 now (abs_cond acc.1 (pair_key q))) ps) as Eomap.
  { apply list_omap_ext, Forall_Forall2_diag, Forall_forall. intros q Hq.
    rewrite Hother; [done|]. intros Heq. apply Hnew. rewrite <-Heq. by apply list_elem_of_fmap_2. }
  rewrite Eomap in Hf, Hh.
  pose proof (evaluateRule_alert acc.1 p.1 p.2 now) as Hal. fold (pair_key p) in Hal.
  split_and!; [done|by rewrite Hr, E1; apply evaluateRule_rules|..].
  - intros q [->|Hq]%elem_of_cons; [rewrite Hout by done|rewrite Hin by done].
    + rewrite E1. by apply evaluateRule_key.
    + rewrite Hother; [done|]. intros Heq. apply Hnew. rewrite <-Heq. by apply list_elem_of_fmap_2.
  - intros k Hk. rewrite fmap_cons, not_elem_of_cons in Hk. destruct Hk.
    rewrite Hout by done. by apply Hother.
  - by rewrite omap_cons_app, Hf, E2, Hal, <-app_assoc.
  - rewrite omap_cons_app, reverse_app, reverse_option_list.
    by rewrite Hh, E1, evaluateRule_history, Hal, take_app_take, <-app_assoc.
Qed.

Lemma Evaluate_unfold ordA ordS now e :
  let e1 := clearInactiveAlerts ordA ordS.*2 e in
  Evaluate ordA ordS now e = foldl (eval_step now) (e1, []) (eval_pairs ordS (rules e1)).
Proof.
  intros e1. unfold Evaluate, eval_pairs. fold e1. rewrite <-foldl_bind.
  apply foldl_ext_in. intros acc s _. generalize (rules e1) as rs. intros rs.
  revert acc; induction rs as [|r rs IH]; intros acc; [done|apply IH].
Qed.

(** The container identifiers of the metrics an evaluation sees. *)
Definition stat_ids (ordS : list (string * ContainerMetrics)) : gset string :=
  list_to_set (cm_ContainerID <$> ordS.*2).

Lemma Evaluate_spec ordA ordS now e :
  engine_wf e -> range_of (activeAlerts e) ordA ->
  NoDup (pair_key <$> eval_pairs ordS (rules e)) ->
  let res := Evaluate ordA ordS now e in
  let old k := cleared (stat_ids ordS) (abs_cond e k) in
  let fired := omap (fun p => cond_alert p.1 p.2 now (old (pair_key p))) (eval_pairs ordS (rules e)) in
  engine_wf res.1 /\ rules res.1 = rules e /\
  (forall p, p ∈ eval_pairs ordS (rules e) ->
    abs_cond res.1 (pair_key p) = cond_step p.1 p.2 now (old (pair_key p))) /\
  (forall k, k ∉ pair_key <$> eval_pairs ordS (rules e) -> abs_cond res.1 k = old k) /\
  res.2 = fired /\
  firedAlerts res.1 = take 50 (reverse fired ++ firedAlerts e).
Proof.
  intros Hwf Hord Hnd res old fired.
  set (e1 := clearInactiveAlerts ordA ordS.*2 e).
  destruct (clearInactive_rest ordA ordS.*2 e) as [Hr1 Hh1]; fold e1 in Hr1, Hh1.
  assert (forall k, abs_cond e1 k = old k) as Hold.
  { intros k. by apply clearInactive_abs. }
  assert (res = foldl (eval_step now) (e1, []) (eval_pairs ordS (rules e))) as Eres.
  { unfold res. rewrite Evaluate_unfold. fold e1. by rewrite Hr1. }
  destruct (eval_fold_spec now (eval_pairs ordS (rules e)) (e1, [])) as (H1 & H2 & H3 & H4 & H5 & H6);
    [by apply clearInactive_wf|done|].
  rewrite <-Eres in *. cbn [fst snd] in *.
  assert (omap (fun p => cond_alert p.1 p.2 now (abs_cond e1 (pair_key p))) (eval_pairs ordS (rules e))
    = fired) as Ef.
  { apply list_omap_ext, Forall_Forall2_diag, Forall_forall. intros q _. by rewrite Hold. }
  rewrite Ef in *. split_and!; [done|by rewrite H2|..|done|by rewrite H6, Hh1].
  - intros p Hp. by rewrite H3, Hold.
  - intros k Hk. by rewrite H4, Hold.
Qed.

(** *** Alert keys *)

Definition colon_free (s : string) : Prop := IndexByte s ":"%char = None.

Lemma alertKey_inj id1 n1 id2 n2 :
  colon_free id1 -> colon_free id2 -> alertKey id1 n1 = alertKey id2 n2 -> id1 = id2 /\ n1 = n2.
Proof.
  unfold alertKey. intros H1 H2 E.
  assert (SplitN2 (id1 +:+ ":" +:+ n1) ":"%char = SplitN2 (id2 +:+ ":" +:+ n2) ":"%char) as E'
    by by rewrite E.
  change (":" +:+ n1) with (String ":"%char n1) in E'.
  change (":" +:+ n2) with (String ":"%char n2) in E'.
  rewrite !SplitN2_app in E' by done. by simplify_eq.
Qed.

Lemma elem_of_eval_pairs ordS rs s r :
  (s, r) ∈ eval_pairs ordS rs <-> s ∈ ordS.*2 /\ r ∈ rs.
Proof.
  unfold eval_pairs. rewrite list_elem_of_bind. setoid_rewrite list_elem_of_fmap. naive_solver.
Qed.

(** Distinct container ids without a colon and distinct rule names give distinct keys. *)
Lemma pair_keys_NoDup ordS rs :
  (forall s, s ∈ ordS.*2 -> colon_free (cm_ContainerID s)) ->
  NoDup (cm_ContainerID <$> ordS.*2) -> NoDup (ar_Name <$> rs) ->
  NoDup (pair_key <$> eval_pairs ordS rs).
Proof.
  unfold eval_pairs. generalize ordS.*2 as ss. intros ss Hc Hids Hnames.
  induction ss as [|s ss IH]; [constructor|].
  cbn [mbind list_bind]. rewrite fmap_app. apply NoDup_app. cbn in Hids.
  apply NoDup_cons in Hids as [Hs Hids]. split_and!.
  - clear IH Hs.
    induction rs as [|r rs IHr]; [constructor|]. rewrite fmap_cons in Hnames.
    apply NoDup_cons in Hnames as [Hr Hn]. rewrite !fmap_cons.
    apply NoDup_cons. split; [|by apply IHr].
    intros (p & Heq & (r' & -> & Hin)%list_elem_of_fmap)%list_elem_of_fmap. apply Hr.
    assert (colon_free (cm_ContainerID s)) by (apply Hc; left).
    unfold pair_key in Heq; cbn [fst snd] in Heq.
    apply alertKey_inj in Heq as [_ ->]; [|done..]. by apply list_elem_of_fmap_2.
  - intros k (p & -> & (r & -> & Hr)%list_elem_of_fmap)%list_elem_of_fmap
      ([s' r'] & Heq & (s2 & (r2 & Hp2 & Hr2)%list_elem_of_fmap & Hs2)%list_elem_of_bind)%list_elem_of_fmap.
    simplify_eq. apply Hs. unfold pair_key in Heq; cbn in Heq.
    apply alertKey_inj in Heq as [-> _]; [by apply list_elem_of_fmap_2|..].
    + apply Hc. left.
    + apply Hc. by right.
  - apply IH; [|done]. intros s' Hs'. apply Hc. by right.
Qed.

(** Two well-formed engines with the same conditions have the same maps. *)
Lemma abs_cond_ext e1 e2 :
  engine_wf e1 -> engine_wf e2 -> (forall k, abs_cond e1 k = abs_cond e2 k) ->
  conditionStart e1 = conditionStart e2 /\ activeAlerts e1 = activeAlerts e2.
Proof.
  intros [H1 _] [H2 _] E.
  assert (forall k, conditionStart e1 !! k = conditionStart e2 !! k /\
    activeAlerts e1 !! k = activeAlerts e2 !! k) as EE.
  { intros k. specialize (E k). unfold abs_cond in E.
    destruct (activeAlerts e1 !! k) eqn:A1, (activeAlerts e2 !! k) eqn:A2;
      try destruct (H1 _ _ A1) as [C1 _]; try destruct (H2 _ _ A2) as [C2 _];
      rewrite ?C1, ?C2 in *; destruct (conditionStart e1 !! k), (conditionStart e2 !! k);
      simplify_eq/=; done. }
  split; apply map_eq; intros k; apply EE.
Qed.

(** ** Claims on one evaluation *)

(** C2. Refinement. One call of [Evaluate] on a well-formed engine, over any
    iteration orders, whose (container, rule) pairs have distinct keys, moves every
    condition exactly as the three-state machine says: a vanished container's firing
    condition is dropped first, each visited pair takes one [cond_step], every other
    condition keeps its state; the returned alerts are those the machine reports, in
    visiting order, and they are prepended to the history, newest first, which is cut
    to fifty. *)
Theorem Evaluate_refines ordA ordS now e :
  engine_wf e -> range_of (activeAlerts e) ordA ->
  NoDup (pair_key <$> eval_pairs ordS (rules e)) ->
  let '(e', newAlerts) := Evaluate ordA ordS now e in
  let old k := cleared (stat_ids ordS) (abs_cond e k) in
  engine_wf e' /\ rules e' = rules e /\
  (forall p, p ∈ eval_pairs ordS (rules e) ->
    abs_cond e' (pair_key p) = cond_step p.1 p.2 now (old (pair_key p))) /\
  (forall k, k ∉ pair_key <$> eval_pairs ordS (rules e) -> abs_cond e' k = old k) /\
  newAlerts = omap (fun p => cond_alert p.1 p.2 now (old (pair_key p))) (eval_pairs ordS (rules e)) /\
  firedAlerts e' = take 50 (reverse newAlerts ++ firedAlerts e).
Proof.
  intros Hwf Hord Hnd. pose proof (Evaluate_spec ordA ordS now e Hwf Hord Hnd) as H.
  destruct (Evaluate ordA ordS now e) as [e' fired]. cbn [fst snd] in H.
  destruct H as (? & ? & ? & ? & E & ?). rewrite E. by split_and!.
Qed.

(** Order independence. The iteration orders Go picks for the metrics map and for
    the map of active alerts affect neither the resulting conditions and active
    alerts nor which alerts are returned, only the order they are returned in. *)
Theorem Evaluate_order_independent (stats : gmap string ContainerMetrics)
    ordA ordA' ordS ordS' now e :
  engine_wf e -> range_of (activeAlerts e) ordA -> range_of (activeAlerts e) ordA' ->
  range_of stats ordS -> range_of stats ordS' ->
  NoDup (pair_key <$> eval_pairs ordS (rules e)) ->
  conditionStart (Evaluate ordA ordS now e).1 = conditionStart (Evaluate ordA' ordS' now e).1 /\
  activeAlerts (Evaluate ordA ordS now e).1 = activeAlerts (Evaluate ordA' ordS' now e).1 /\
  (Evaluate ordA ordS now e).2 ≡ₚ (Evaluate ordA' ordS' now e).2.
Proof.
  intros Hwf HA HA' HS HS' Hnd.
  assert (ordS ≡ₚ ordS') as Hperm by (by unfold range_of in *; rewrite HS, HS').
  assert (eval_pairs ordS (rules e) ≡ₚ eval_pairs ordS' (rules e)) as Hp.
  { unfold eval_pairs. by rewrite Hperm. }
  assert (stat_ids ordS = stat_ids ordS') as Hids.
  { apply set_eq. intros x. unfold stat_ids. by rewrite !elem_of_list_to_set, Hperm. }
  assert (NoDup (pair_key <$> eval_pairs ordS' (rules e))) as Hnd' by by rewrite <-Hp.
  destruct (Evaluate_spec ordA ordS now e Hwf HA Hnd) as (W1 & _ & In1 & Out1 & F1 & _).
  destruct (Evaluate_spec ordA' ordS' now e Hwf HA' Hnd') as (W2 & _ & In2 & Out2 & F2 & _).
  apply and_assoc. split.
  - apply abs_cond_ext; [done..|]. intros k.
    destruct (decide (k ∈ pair_key <$> eval_pairs ordS (rules e))) as [Hk|Hk].
    + apply list_elem_of_fmap in Hk as (p & -> & Hin).
      rewrite In1, In2, Hids by by rewrite <-?Hp. done.
    + rewrite Out1, Out2, Hids by by rewrite <-?Hp. done.
  - rewrite F1, F2, Hids. by rewrite Hp.
Qed.

(** ** Runs of the engine *)

Record Snapshot := mkSnapshot {
  sn_time : Time;
  sn_stats : list (string * ContainerMetrics)
}.

(** The engines reached from [e] by evaluating a sequence of snapshots. *)
Inductive engine_steps (e : Engine) : list Snapshot -> Engine -> Prop :=
  | steps_nil : engine_steps e [] e
  | steps_snoc h e1 ordA sn :
      engine_steps e h e1 -> range_of (activeAlerts e1) ordA ->
      engine_steps e (h ++ [sn]) (Evaluate ordA (sn_stats sn) (sn_time sn) e1).1.

Definition snapshot_ok (sn : Snapshot) : Prop :=
  (forall s, s ∈ (sn_stats sn).*2 -> colon_free (cm_ContainerID s)) /\
  NoDup (cm_ContainerID <$> (sn_stats sn).*2).

(** The condition of [r] on container [id] was met at [t] and has been met in every
    later snapshot of [h] that has the container. *)
Definition held_since (h : list Snapshot) (id : string) (r : AlertRule) (t : Time) : Prop :=
  exists h1 sn h2, h = h1 ++ sn :: h2 /\ sn_time sn = t /\
    (exists s, s ∈ (sn_stats sn).*2 /\ cm_ContainerID s = id /\ conditionMet s r = true) /\
    (forall sn' s, sn' ∈ h2 -> s ∈ (sn_stats sn').*2 -> cm_ContainerID s = id ->
      conditionMet s r = true).

Lemma NewEngine_wf rs : engine_wf (NewEngine rs).
Proof. split; cbn; [intros k a Hk; by rewrite lookup_empty in Hk|lia]. Qed.

Lemma Evaluate_wf ordA ordS now e : engine_wf e -> engine_wf (Evaluate ordA ordS now e).1.
Proof.
  intros Hwf. rewrite Evaluate_unfold.
  apply (foldl_inv (fun acc => engine_wf acc.1)).
  - by apply clearInactive_wf.
  - intros acc p _ Hacc. unfold eval_step.
    pose proof (evaluateRule_wf acc.1 p.1 p.2 now Hacc).
    by destruct (evaluateRule _ _ _ _).
Qed.

Lemma Evaluate_rules ordA ordS now e : rules (Evaluate ordA ordS now e).1 = rules e.
Proof.
  rewrite Evaluate_unfold. destruct (clearInactive_rest ordA ordS.*2 e) as [<- _].
  apply (foldl_inv (fun acc => rules acc.1 = _)); [done|].
  intros acc p _ Hacc. unfold eval_step. pose proof (evaluateRule_rules acc.1 p.1 p.2 now).
  destruct (evaluateRule _ _ _ _). cbn in *. congruence.
Qed.

Lemma steps_wf e h e' : engine_wf e -> engine_steps e h e' -> engine_wf e'.
Proof. intros Hwf. induction 1; [done|by apply Evaluate_wf]. Qed.

Lemma steps_rules e h e' : engine_steps e h e' -> rules e' = rules e.
Proof. induction 1 as [|h e1 ordA sn _ IH _]; [done|]. by rewrite Evaluate_rules. Qed.

#[export] Hint Resolve NewEngine_wf Evaluate_wf steps_wf : castle.

Lemma pending_count_filter ordC e :
  GetPendingCount ordC e =
  Z.of_nat (length (filter (fun k => activeAlerts e !! k = None) ordC.*1)).
Proof.
  unfold GetPendingCount.
  enough (forall n, foldl (fun pending '(key, _) =>
    match activeAlerts e !! key with Some _ => pending | None => pending + 1 end) n ordC =
    n + Z.of_nat (length (filter (fun k => activeAlerts e !! k = None) ordC.*1))) as E
    by (rewrite E; lia).
  induction ordC as [|[k t] ordC IH]; intros n; cbn [foldl fmap list_fmap fst]; [cbn; lia|].
  rewrite IH, filter_cons. destruct (activeAlerts e !! k) eqn:E.
  - rewrite decide_False by done. done.
  - rewrite decide_True by done. cbn [length]. lia.
Qed.

Lemma pending_count_size ordC e :
  engine_wf e -> range_of (conditionStart e) ordC ->
  GetPendingCount ordC e = Z.of_nat (size (conditionStart e)) - Z.of_nat (size (activeAlerts e)).
Proof.
  intros Hwf Hord. rewrite pending_count_filter.
  set (p := filter _ ordC.*1).
  assert (NoDup p) as Hnd by (by apply NoDup_filter, range_of_NoDup with (m := conditionStart e)).
  assert ((list_to_set p : gset string) = dom (conditionStart e) ∖ dom (activeAlerts e)) as Ep.
  { apply set_eq. intros k. rewrite elem_of_list_to_set, elem_of_difference, !elem_of_dom.
    unfold p. rewrite list_elem_of_filter, list_elem_of_fmap, eq_None_not_Some.
    split.
    - intros (Hn & [k' t] & -> & Hin). apply (range_of_elem _ _ _ _ Hord) in Hin. split; [by eexists|done].
    - intros [[t Ht] Hn]. split; [done|]. exists (k, t). split; [done|].
      by apply (range_of_elem _ _ _ _ Hord). }
  rewrite <-(size_list_to_set (C := gset string) p) by done. rewrite Ep.
  assert (dom (activeAlerts e) ⊆ dom (conditionStart e)) as Hsub.
  { intros k [a Ha]%elem_of_dom. apply elem_of_dom. destruct (wf_active _ Hwf _ _ Ha) as [-> _]. eauto. }
  rewrite size_difference by done. pose proof (subseteq_size _ _ Hsub).
  rewrite <-!(size_dom (D := gset string)). lia.
Qed.

(** Invariant. In every engine reached from a new one by any evaluations, each
    active alert is stored under its own key with a condition that started when the
    alert says, the history holds at most fifty alerts, and [GetPendingCount] (over
    any order) is the number of tracked conditions minus the number of active
    alerts. *)
Theorem engine_invariant rs h e ordC :
  engine_steps (NewEngine rs) h e -> range_of (conditionStart e) ordC ->
  engine_wf e /\
  GetPendingCount ordC e = Z.of_nat (size (conditionStart e)) - Z.of_nat (size (activeAlerts e)).
Proof.
  intros Hs Hord. assert (engine_wf e) by eauto with castle.
  split; [done|by apply pending_count_size].
Qed.

(** ** When an alert fires *)

(** The instant a condition has been true since. *)
Definition since (c : CondState) : option Time :=
  match c with Idle => None | Pending t | Firing t _ => Some t end.

Lemma since_cleared ids c t : since (cleared ids c) = Some t -> since c = Some t.
Proof. destruct c as [|?|? a]; cbn; [done..|]. by destruct (decide _). Qed.

Lemma since_cond_step s r now c t :
  since (cond_step s r now c) = Some t ->
  conditionMet s r = true /\ (since c = Some t \/ (c = Idle /\ t = now)).
Proof.
  unfold cond_step. destruct (conditionMet s r); [|done]. intros H. split; [done|].
  destruct c; cbn in *; [right; by simplify_eq|left..]; [|done].
  by destruct (_ <? _).
Qed.

Lemma steps_snoc_inv e h sn e' :
  engine_steps e (h ++ [sn]) e' ->
  exists e1 ordA, engine_steps e h e1 /\ range_of (activeAlerts e1) ordA /\
    e' = (Evaluate ordA (sn_stats sn) (sn_time sn) e1).1.
Proof.
  inversion 1 as [Hn|h' e1 ordA sn' Hs Hr Heq]; [by destruct h|].
  apply app_inj_tail in Heq as [-> ->]. eauto.
Qed.

Lemma snapshot_unique sn s s' :
  snapshot_ok sn ->
  s ∈ (sn_stats sn).*2 -> s' ∈ (sn_stats sn).*2 -> cm_ContainerID s = cm_ContainerID s' -> s = s'.
Proof.
  intros [_ Hnd]. revert Hnd. generalize (sn_stats sn).*2 as l.
  induction l as [|x l IH]; cbn; [set_solver|]. intros [Hx Hnd]%NoDup_cons Hs Hs' Heq.
  apply elem_of_cons in Hs as [->|Hs], Hs' as [->|Hs']; [done|..|by apply IH].
  - destruct Hx. rewrite Heq. by apply list_elem_of_fmap_2.
  - destruct Hx. rewrite <-Heq. by apply list_elem_of_fmap_2.
Qed.

(** One evaluation from a well-formed engine, for a rule and a container of it. *)
Section one_condition.
Context (e : Engine) (ordA : list (string * Alert)) (sn : Snapshot).
Hypothesis Hwf : engine_wf e.
Hypothesis HA : range_of (activeAlerts e) ordA.
Hypothesis Hok : snapshot_ok sn.
Hypothesis Hnames : NoDup (ar_Name <$> rules e).
Context (r : AlertRule) (Hr : r ∈ rules e).

Let e' := (Evaluate ordA (sn_stats sn) (sn_time sn) e).1.
Let ids := stat_ids (sn_stats sn).

Lemma snapshot_keys_NoDup : NoDup (pair_key <$> eval_pairs (sn_stats sn) (rules e)).
Proof. destruct Hok. by apply pair_keys_NoDup. Qed.

Lemma evaluate_present s :
  s ∈ (sn_stats sn).*2 ->
  abs_cond e' (alertKey (cm_ContainerID s) (ar_Name r)) =
  cond_step s r (sn_time sn) (cleared ids (abs_cond e (alertKey (cm_ContainerID s) (ar_Name r)))).
Proof.
  intros Hs. destruct (Evaluate_spec ordA (sn_stats sn) (sn_time sn) e Hwf HA snapshot_keys_NoDup)
    as (_ & _ & Hin & _). apply (Hin (s, r)). by apply elem_of_eval_pairs.
Qed.

Lemma evaluate_absent id :
  colon_free id -> (forall s, s ∈ (sn_stats sn).*2 -> cm_ContainerID s <> id) ->
  abs_cond e' (alertKey id (ar_Name r)) = cleared ids (abs_cond e (alertKey id (ar_Name r))).
Proof.
  intros Hid Habs.
  destruct (Evaluate_spec ordA (sn_stats sn) (sn_time sn) e Hwf HA snapshot_keys_NoDup)
    as (_ & _ & _ & Hout & _). apply Hout.
  intros ([s r'] & Heq & [Hs Hr']%elem_of_eval_pairs)%list_elem_of_fmap.
  unfold pair_key in Heq; cbn in Heq. apply alertKey_inj in Heq as [-> _]; [|done|].
  - by apply (Habs s).
  - by apply Hok.
Qed.
End one_condition.

Lemma held_since_snoc h sn id r t :
  held_since h id r t ->
  (forall s, s ∈ (sn_stats sn).*2 -> cm_ContainerID s = id -> conditionMet s r = true) ->
  held_since (h ++ [sn]) id r t.
Proof.
  intros (h1 & sn0 & h2 & -> & Ht & Hex & Hall) Hsn. exists h1, sn0, (h2 ++ [sn]).
  split_and!; [by rewrite <-app_assoc|done|done|].
  intros sn' s [Hin| ->%list_elem_of_singleton]%elem_of_app; [by apply Hall|apply Hsn].
Qed.

(** Every running condition has held since its start. *)
Lemma running_held rs h e id r t :
  engine_steps (NewEngine rs) h e -> Forall snapshot_ok h -> NoDup (ar_Name <$> rs) ->
  r ∈ rs -> colon_free id ->
  since (abs_cond e (alertKey id (ar_Name r))) = Some t -> held_since h id r t.
Proof.
  intros Hs Hok Hnames Hr Hid. revert t.
  induction Hs as [|h e1 ordA sn Hs IH HA]; intros t Ht; [done|].
  apply Forall_app in Hok as [Hok [Hsn _]%Forall_cons].
  assert (engine_wf e1) as Hwf by eauto with castle.
  pose proof (steps_rules _ _ _ Hs) as Hrs; cbn in Hrs.
  destruct (decide (Exists (fun s => cm_ContainerID s = id) (sn_stats sn).*2)) as [Hex|Hno].
  - apply Exists_exists in Hex as (s & Hin & <-).
    rewrite (evaluate_present e1 ordA sn) in Ht by (by rewrite ?Hrs).
    apply since_cond_step in Ht as [Hmet [Ht|[_ ->]]].
    + apply since_cleared in Ht. apply held_since_snoc; [by apply IH|].
      intros s' Hin' Heq. by rewrite (snapshot_unique sn s' s).
    + exists h, sn, []. split_and!; [done|done|by exists s|set_solver].
  - assert (forall s, s ∈ (sn_stats sn).*2 -> cm_ContainerID s <> id) as Habs.
    { intros s Hin Heq. apply Hno, Exists_exists. eauto. }
    rewrite (evaluate_absent e1 ordA sn) in Ht by (by rewrite ?Hrs).
    apply since_cleared in Ht. apply held_since_snoc; [by apply IH|].
    intros s Hin Heq. by destruct (Habs s).
Qed.

Lemma cond_alert_Some s r now c a :
  cond_alert s r now c = Some a ->
  exists t, since c = Some t /\ a = newAlert s r now t /\ conditionMet s r = true /\
    ar_Duration r <= Sub now t.
Proof.
  unfold cond_alert, cond_step. destruct c as [|t|t b]; [done| |by destruct (conditionMet s r)].
  destruct (conditionMet s r); [|done].
  destruct (Sub now t <? ar_Duration r) eqn:E; [done|]. intros [= <-].
  reflect_bools. by exists t.
Qed.

(** C1. Safety. Every alert an evaluation returns, in any run from a new engine with
    distinct rule names, is about a rule and a container of the metrics it was given,
    carries that rule and container's data, its condition holds now, and it has held
    in every evaluation that saw the container since an instant at least the rule's
    duration ago: no alert fires early. *)
Theorem fired_alert_persisted rs h e ordA sn a :
  engine_steps (NewEngine rs) h e -> Forall snapshot_ok (h ++ [sn]) ->
  NoDup (ar_Name <$> rs) -> range_of (activeAlerts e) ordA ->
  a ∈ (Evaluate ordA (sn_stats sn) (sn_time sn) e).2 ->
  exists s r t, s ∈ (sn_stats sn).*2 /\ r ∈ rs /\ a = newAlert s r (sn_time sn) t /\
    conditionMet s r = true /\ ar_Duration r <= Sub (sn_time sn) t /\
    held_since h (cm_ContainerID s) r t.
Proof.
  intros Hs [Hok [Hsn _]%Forall_cons]%Forall_app Hnames HA Ha.
  assert (engine_wf e) as Hwf by eauto with castle.
  pose proof (steps_rules _ _ _ Hs) as Hrs; cbn in Hrs.
  destruct (Evaluate_spec ordA (sn_stats sn) (sn_time sn) e Hwf HA) as (_ & _ & _ & _ & E & _).
  { apply snapshot_keys_NoDup; [done|by rewrite Hrs]. }
  rewrite E, Hrs in Ha. apply list_elem_of_omap in Ha as ([s r] & Hin & Hal).
  apply elem_of_eval_pairs in Hin as [Hin Hr]. cbn [fst snd] in Hal.
  apply cond_alert_Some in Hal as (t & Ht & -> & Hmet & Hdur). apply since_cleared in Ht.
  exists s, r, t. split_and!; [done..|]. eapply running_held; [done..| |done]. by apply Hsn.
Qed.

(** *** Liveness *)

Definition present_and_met (id : string) (r : AlertRule) (sn : Snapshot) : Prop :=
  exists s, s ∈ (sn_stats sn).*2 /\ cm_ContainerID s = id /\ conditionMet s r = true.

Definition is_firing (c : CondState) : Prop :=
  match c with Firing _ _ => True | _ => False end.

Definition due (r : AlertRule) (t0 : Time) (sn : Snapshot) : Prop :=
  ar_Duration r <= Sub (sn_time sn) t0.

Lemma stat_ids_present id r sn : present_and_met id r sn -> id ∈ stat_ids (sn_stats sn).
Proof.
  intros (s & Hin & <- & _). unfold stat_ids. apply elem_of_list_to_set. by apply list_elem_of_fmap_2.
Qed.

(** A condition that stays true keeps its start and fires once it is due. *)
Lemma met_run rs sn0 h e id r :
  engine_steps (NewEngine rs) (sn0 :: h) e -> Forall snapshot_ok (sn0 :: h) ->
  NoDup (ar_Name <$> rs) -> r ∈ rs -> Forall (present_and_met id r) (sn0 :: h) ->
  since (abs_cond e (alertKey id (ar_Name r))) = Some (sn_time sn0) /\
  (is_firing (abs_cond e (alertKey id (ar_Name r))) <-> Exists (due r (sn_time sn0)) h) /\
  (forall t a, abs_cond e (alertKey id (ar_Name r)) = Firing t a -> al_ContainerID a = id).
Proof.
  intros Hs Hok Hnames Hr Hmet. revert e Hs Hok Hmet.
  induction h as [|sn h IH] using rev_ind; intros e Hs Hok Hmet.
  - apply (steps_snoc_inv _ []) in Hs as (e1 & ordA & Hs & HA & ->).
    inversion Hs as [|h' ? ? ? ? ? Hh]; [subst e1|by destruct h'].
    apply Forall_cons in Hok as [Hok _], Hmet as [(s & Hin & <- & Hmet) _].
    rewrite (evaluate_present _ ordA sn0) by (eauto with castle).
    unfold abs_cond; cbn. rewrite lookup_empty. unfold cond_step. rewrite Hmet. cbn.
    rewrite Exists_nil. split_and!; [done|tauto|done].
  - rewrite app_comm_cons in Hs, Hok, Hmet.
    apply steps_snoc_inv in Hs as (e1 & ordA & Hs & HA & ->).
    apply Forall_app in Hok as [Hok [Hsn _]%Forall_cons], Hmet as [Hmets [Hmet _]%Forall_cons].
    destruct (IH e1 Hs Hok Hmets) as (Ht & Hf & Hid).
    pose proof (stat_ids_present _ _ _ Hmet) as Hpres. destruct Hmet as (s & Hin & <- & Hmet).
    assert (engine_wf e1) by eauto with castle.
    pose proof (steps_rules _ _ _ Hs) as Hrs; cbn in Hrs.
    rewrite (evaluate_present _ ordA sn) by by rewrite ?Hrs.
    rewrite Exists_app, Exists_cons, Exists_nil. unfold due at 2.
    unfold cond_step. rewrite Hmet.
    destruct (abs_cond e1 _) as [|t|t a]; cbn in *; simplify_eq.
    + destruct (Z.ltb_spec (Sub (sn_time sn) (sn_time sn0)) (ar_Duration r)); cbn;
        (split_and!; [done| |by intros; simplify_eq]); intuition lia.
    + rewrite decide_True by by rewrite (Hid _ _ eq_refl). cbn.
      split_and!; [done|tauto|by intros; simplify_eq; eapply Hid].
Qed.

(** C14. Liveness. From a new engine with distinct rule names, when a container is in
    every snapshot of a non-empty run and a rule's condition holds on it in each, the
    rule is firing on it after the run if and only if some evaluation after the first
    happened at least the rule's duration after the first. *)
Theorem persistent_condition_fires rs sn0 h e id r :
  engine_steps (NewEngine rs) (sn0 :: h) e -> Forall snapshot_ok (sn0 :: h) ->
  NoDup (ar_Name <$> rs) -> r ∈ rs -> Forall (present_and_met id r) (sn0 :: h) ->
  is_firing (abs_cond e (alertKey id (ar_Name r))) <->
  Exists (fun sn => ar_Duration r <= Sub (sn_time sn) (sn_time sn0)) h.
Proof. intros. by eapply met_run. Qed.

(** *** Vanished containers *)

(** C40. A pending condition survives its container. While a container is missing from
    the metrics its pending condition keeps its original start, whatever the time that
    passes, and the first evaluation that sees the container again with the condition
    true reports the alert at once if the duration has passed since that start: the
    time the container did not exist counts. *)
Theorem pending_survives_absence rs e h e' ordA id r t sn s :
  engine_wf e -> rules e = rs -> NoDup (ar_Name <$> rs) -> r ∈ rs -> colon_free id ->
  abs_cond e (alertKey id (ar_Name r)) = Pending t ->
  engine_steps e h e' -> Forall snapshot_ok (h ++ [sn]) ->
  (forall sn' s', sn' ∈ h -> s' ∈ (sn_stats sn').*2 -> cm_ContainerID s' <> id) ->
  range_of (activeAlerts e') ordA -> s ∈ (sn_stats sn).*2 -> cm_ContainerID s = id ->
  conditionMet s r = true -> ar_Duration r <= Sub (sn_time sn) t ->
  abs_cond e' (alertKey id (ar_Name r)) = Pending t /\
  newAlert s r (sn_time sn) t ∈ (Evaluate ordA (sn_stats sn) (sn_time sn) e').2.
Proof.
  intros Hwf Hrs Hnames Hr Hid Hp Hs [Hok [Hsn _]%Forall_cons]%Forall_app Habs HA Hin <- Hmet Hdur.
  assert (engine_wf e') as Hwf' by eauto with castle.
  pose proof (steps_rules _ _ _ Hs) as Hrs'.
  assert (abs_cond e' (alertKey (cm_ContainerID s) (ar_Name r)) = Pending t) as Hp'.
  { clear HA Hin Hmet Hdur Hsn sn ordA Hwf' Hrs'.
    induction Hs as [|h e1 ordA sn Hs IH HA]; [done|].
    apply Forall_app in Hok as [Hok [Hsn _]%Forall_cons].
    assert (engine_wf e1) by eauto with castle.
    pose proof (steps_rules _ _ _ Hs) as Hrs'.
    rewrite (evaluate_absent e1 ordA sn) by (try (by rewrite Hrs', Hrs); try done; set_solver).
    rewrite IH; [done|done|set_solver]. }
  split; [done|].
  destruct (Evaluate_spec ordA (sn_stats sn) (sn_time sn) e' Hwf' HA) as (_ & _ & _ & _ & -> & _).
  { apply snapshot_keys_NoDup; [done|by rewrite Hrs', Hrs]. }
  apply list_elem_of_omap. exists (s, r). rewrite elem_of_eval_pairs, Hrs', Hrs.
  split; [done|]. unfold pair_key. cbn [fst snd]. rewrite Hp'.
  cbn [cleared]. unfold cond_alert, cond_step. rewrite Hmet.
  by destruct (Z.ltb_spec (Sub (sn_time sn) t) (ar_Duration r)); [lia|].
Qed.

(** ** Deduplication *)

Definition weight (a : Alert) : Z := severityWeight (al_Severity a).

(** What the map of best alerts holds after the alerts [l]. *)
Definition best_of (l : list Alert) (best : gmap string Alert) : Prop :=
  (forall k a, best !! k = Some a -> k = groupKey a /\ a ∈ l) /\
  (forall a, a ∈ l -> exists b, best !! groupKey a = Some b /\ weight a <= weight b).

Lemma best_step_spec l best a : best_of l best -> best_of (l ++ [a]) (best_step best a).
Proof.
  intros [Hin Hmax]. unfold best_step.
  assert (forall b, b ∈ l ++ [a] -> b ∈ l \/ b = a) as Hsplit.
  { intros b [Hb| ->%list_elem_of_singleton]%elem_of_app; auto. }
  destruct (best !! groupKey a) as [x|] eqn:Ex.
  - destruct (Hin _ _ Ex) as [Hgx Hx]. fold (weight x) (weight a).
    destruct (Z.ltb_spec (weight x) (weight a)); split.
    + intros k b [[<- <-]|[_ Hb]]%lookup_insert_Some; [set_solver|].
      destruct (Hin _ _ Hb). set_solver.
    + intros b [Hb| ->]%Hsplit.
      * destruct (Hmax b Hb) as (y & Hy & Hle). destruct (decide (groupKey b = groupKey a)) as [E|Hne].
        -- exists a. rewrite E, lookup_insert_eq. rewrite E, Ex in Hy. simplify_eq. split; [done|lia].
        -- exists y. by rewrite lookup_insert_ne.
      * exists a. rewrite lookup_insert_eq. split; [done|lia].
    + intros k b Hb. destruct (Hin _ _ Hb). set_solver.
    + intros b [Hb| ->]%Hsplit; [by apply Hmax|]. exists x. split; [done|lia].
  - split.
    + intros k b [[<- <-]|[_ Hb]]%lookup_insert_Some; [set_solver|].
      destruct (Hin _ _ Hb). set_solver.
    + intros b [Hb| ->]%Hsplit.
      * destruct (Hmax b Hb) as (y & Hy & Hle). exists y.
        rewrite lookup_insert_ne; [done|]. intros E. by rewrite <-E, Ex in Hy.
      * exists a. rewrite lookup_insert_eq. split; [done|lia].
Qed.

Lemma bestAlerts_spec ordA : best_of ordA.*2 (bestAlerts ordA).
Proof.
  unfold bestAlerts. generalize ordA.*2 as l. intros l.
  induction l as [|a l IH] using rev_ind; [split; [|set_solver]|].
  - intros k a Hk. cbn in Hk. by rewrite lookup_empty in Hk.
  - rewrite foldl_app. cbn [foldl]. by apply best_step_spec.
Qed.

(** The three severities by weight. *)
Lemma weight_ranks a b : weight b <= weight a ->
  (al_Severity b = "critical" -> al_Severity a = "critical") /\
  (al_Severity b = "warning" -> al_Severity a = "critical" \/ al_Severity a = "warning") /\
  (al_Severity b = "info" -> al_Severity a = "critical" \/ al_Severity a = "warning" \/ al_Severity a = "info").
Proof.
  unfold weight, severityWeight. intros H.
  split_and!; intros Hb; rewrite Hb in H; cbn in H; repeat case_bool_decide; try lia; tauto.
Qed.

(** C30. [GetActiveAlerts] returns, whatever the iteration orders, active alerts only, at
    most one per container and metric, one for every container and metric that has an
    active alert, and each returned one has the highest severity of its group, critical
    above warning above info: a critical alert is never hidden by another severity, nor
    a warning by anything but a critical one, nor an info by an unknown severity. *)
Theorem GetActiveAlerts_spec e ordA ordB :
  range_of (activeAlerts e) ordA -> range_of (bestAlerts ordA) ordB ->
  let l := GetActiveAlerts ordB in
  let key a := al_ContainerID a +:+ ":" +:+ al_Metric a in
  NoDup (key <$> l) /\
  (forall a, a ∈ l -> (exists k, activeAlerts e !! k = Some a) /\
    forall k b, activeAlerts e !! k = Some b -> key b = key a ->
      (al_Severity b = "critical" -> al_Severity a = "critical") /\
      (al_Severity b = "warning" -> al_Severity a = "critical" \/ al_Severity a = "warning") /\
      (al_Severity b = "info" -> al_Severity a = "critical" \/ al_Severity a = "warning" \/ al_Severity a = "info")) /\
  (forall k b, activeAlerts e !! k = Some b -> exists a, a ∈ l /\ key a = key b).
Proof.
  intros HA HB l key. change key with groupKey. destruct (bestAlerts_spec ordA) as [Hin Hmax].
  assert (forall a, a ∈ l <-> exists k, bestAlerts ordA !! k = Some a) as Hl.
  { intros a. unfold l, GetActiveAlerts. rewrite list_elem_of_fmap. split.
    - intros ([k b] & -> & H). exists k. by apply (range_of_elem _ _ _ _ HB).
    - intros (k & Hk). exists (k, a). split; [done|]. by apply (range_of_elem _ _ _ _ HB). }
  assert (forall a, a ∈ ordA.*2 <-> exists k, activeAlerts e !! k = Some a) as HlA.
  { intros a. rewrite list_elem_of_fmap. split.
    - intros ([k b] & -> & H). exists k. by apply (range_of_elem _ _ _ _ HA).
    - intros (k & Hk). exists (k, a). split; [done|]. by apply (range_of_elem _ _ _ _ HA). }
  split_and!.
  - unfold l, GetActiveAlerts. rewrite <-list_fmap_compose.
    assert (groupKey ∘ snd <$> ordB = ordB.*1) as ->; [|by eapply range_of_NoDup].
    apply list_fmap_ext. intros i [k a] Hi. apply list_elem_of_lookup_2 in Hi.
    apply (range_of_elem _ _ _ _ HB) in Hi. by destruct (Hin _ _ Hi).
  - intros a [k Hk]%Hl. destruct (Hin _ _ Hk) as [-> Ha]. split; [by apply HlA|].
    intros k' b Hb Hg. destruct (Hmax b) as (y & Hy & Hle); [apply HlA; eauto|].
    rewrite Hg, Hk in Hy. simplify_eq. by apply weight_ranks.
  - intros k b Hb. destruct (Hmax b) as (y & Hy & _); [apply HlA; eauto|].
    destruct (Hin _ _ Hy) as [-> _]. exists y. split; [apply Hl; eauto|]. by destruct (Hin _ _ Hy).
Qed.

(** ** Witnesses *)

(** A rule with a ten second window, and one container over its threshold. *)
Definition ex_rule : AlertRule := {|
  ar_Name := "high_cpu"; ar_Metric := "cpu_percent"; ar_Operator := ">";
  ar_Threshold := f64_of_Z 80; ar_Duration := 10 * Second; ar_Severity := "critical" |}.

Definition ex_metrics : ContainerMetrics := {|
  cm_HostID := "host"; cm_ContainerID := "abc"; cm_ContainerName := "web"; cm_Image := "nginx";
  cm_CPUPercent := f64_ratio 955 10; cm_MemoryUsage := 0; cm_MemoryLimit := 0;
  cm_MemoryPercent := f64_zero; cm_NetworkRx := 0; cm_NetworkTx := 0;
  cm_BlockRead := 0; cm_BlockWrite := 0 |}.

Definition ex_stats : list (string * ContainerMetrics) := [("abc", ex_metrics)].
Definition ex_at (t : Time) : Snapshot := {| sn_time := t; sn_stats := ex_stats |}.
Definition ex_gone (t : Time) : Snapshot := {| sn_time := t; sn_stats := [] |}.

(** The engine after the first evaluation, and after the rule fired. *)
Definition ex_pending : Engine := (Evaluate [] ex_stats 0 (NewEngine [ex_rule])).1.
Definition ex_fired : Engine := (Evaluate [] ex_stats (10 * Second) ex_pending).1.
Definition ex_alert : Alert := newAlert ex_metrics ex_rule (10 * Second) 0.

Lemma ex_at_ok t : snapshot_ok (ex_at t).
Proof.
  split; cbn.
  - by intros s ->%list_elem_of_singleton.
  - apply NoDup_singleton.
Qed.

Lemma ex_gone_ok t : snapshot_ok (ex_gone t).
Proof. split; cbn; [set_solver|constructor]. Qed.

Lemma ex_names : NoDup (ar_Name <$> [ex_rule]).
Proof. apply NoDup_singleton. Qed.

Lemma ex_pending_steps : engine_steps (NewEngine [ex_rule]) [ex_at 0] ex_pending.
Proof. apply (steps_snoc _ [] _ [] (ex_at 0)); [apply steps_nil|apply range_of_empty]. Qed.

Lemma ex_fired_steps :
  engine_steps (NewEngine [ex_rule]) [ex_at 0; ex_at (10 * Second)] ex_fired.
Proof. apply (steps_snoc _ [ex_at 0] _ [] (ex_at _)); [apply ex_pending_steps|apply range_of_empty]. Qed.

Lemma ex_pending_wf : engine_wf ex_pending.
Proof. eapply steps_wf, ex_pending_steps. apply NewEngine_wf. Qed.

#[export] Hint Resolve ex_at_ok ex_gone_ok ex_names ex_pending_wf : castle.

Lemma Evaluate_refines_witness :
  (Evaluate [] ex_stats (10 * Second) ex_pending).2 = [ex_alert] /\
  firedAlerts ex_fired =
    take 50 (reverse (Evaluate [] ex_stats (10 * Second) ex_pending).2 ++ firedAlerts ex_pending).
Proof.
  split; [vm_compute; reflexivity|].
  pose proof (Evaluate_refines [] ex_stats (10 * Second) ex_pending ex_pending_wf
    range_of_empty (snapshot_keys_NoDup ex_pending (ex_at 0) (ex_at_ok 0) ex_names)) as H.
  rewrite (surjective_pairing (Evaluate _ _ _ _)) in H.
  destruct H as (_ & _ & _ & _ & _ & H). exact H.
Defined.

Lemma Evaluate_order_independent_witness :
  (Evaluate [] ex_stats 5 ex_pending).2 ≡ₚ (Evaluate [] ex_stats 5 ex_pending).2.
Proof.
  apply (Evaluate_order_independent {["abc" := ex_metrics]} [] [] ex_stats ex_stats 5 ex_pending).
  - apply ex_pending_wf.
  - apply range_of_empty.
  - apply range_of_empty.
  - unfold range_of. by rewrite map_to_list_singleton.
  - unfold range_of. by rewrite map_to_list_singleton.
  - apply (snapshot_keys_NoDup ex_pending (ex_at 0)); auto with castle.
Defined.

Lemma engine_invariant_witness :
  engine_wf ex_fired /\ GetPendingCount [("abc:high_cpu", 0)] ex_fired = 1 - 1.
Proof.
  apply (engine_invariant [ex_rule] [ex_at 0; ex_at (10 * Second)] ex_fired [("abc:high_cpu", 0)]).
  - apply ex_fired_steps.
  - apply range_of_singleton.
Defined.

Lemma fired_alert_persisted_witness :
  exists s r t, s ∈ ex_stats.*2 /\ r ∈ [ex_rule] /\ ex_alert = newAlert s r (10 * Second) t /\
    conditionMet s r = true /\ ar_Duration r <= Sub (10 * Second) t /\
    held_since [ex_at 0] (cm_ContainerID s) r t.
Proof.
  apply (fired_alert_persisted [ex_rule] [ex_at 0] ex_pending [] (ex_at (10 * Second)) ex_alert).
  - apply ex_pending_steps.
  - apply Forall_cons; split; [apply ex_at_ok|]. apply Forall_singleton, ex_at_ok.
  - apply ex_names.
  - apply range_of_empty.
  - apply list_elem_of_singleton. vm_compute. reflexivity.
Defined.

Lemma persistent_condition_fires_witness :
  is_firing (abs_cond ex_fired "abc:high_cpu") <->
  Exists (fun sn => 10 * Second <= Sub (sn_time sn) 0) [ex_at (10 * Second)].
Proof.
  apply (persistent_condition_fires [ex_rule] (ex_at 0) [ex_at (10 * Second)] ex_fired "abc" ex_rule).
  - apply ex_fired_steps.
  - apply Forall_cons; split; [apply ex_at_ok|]. apply Forall_singleton, ex_at_ok.
  - apply ex_names.
  - by left.
  - apply Forall_cons; split; [|apply Forall_singleton];
      (exists ex_metrics; split_and!; [by left|done|vm_compute; reflexivity]).
Defined.

Lemma pending_survives_absence_witness :
  let e' := (Evaluate [] [] Second ex_pending).1 in
  abs_cond e' "abc:high_cpu" = Pending 0 /\
  newAlert ex_metrics ex_rule Hour 0 ∈ (Evaluate [] ex_stats Hour e').2.
Proof.
  apply (pending_survives_absence [ex_rule] ex_pending [ex_gone Second] _ [] "abc" ex_rule 0
    (ex_at Hour) ex_metrics).
  - apply ex_pending_wf.
  - reflexivity.
  - apply ex_names.
  - by left.
  - reflexivity.
  - vm_compute. reflexivity.
  - apply (steps_snoc _ [] _ [] (ex_gone Second)); [apply steps_nil|apply range_of_empty].
  - apply Forall_cons; split; [apply ex_gone_ok|]. apply Forall_singleton, ex_at_ok.
  - intros sn' s' ->%list_elem_of_singleton Hin. by apply elem_of_nil in Hin.
  - apply range_of_empty.
  - by left.
  - reflexivity.
  - vm_compute. reflexivity.
  - vm_compute. discriminate.
Defined.

Lemma GetActiveAlerts_spec_witness :
  exists a, a ∈ GetActiveAlerts [("abc:cpu_percent", ex_alert)] /\
    al_ContainerID a +:+ ":" +:+ al_Metric a = "abc:cpu_percent".
Proof.
  apply (GetActiveAlerts_spec ex_fired [("abc:high_cpu", ex_alert)] [("abc:cpu_percent", ex_alert)]
    (range_of_singleton _ _) (range_of_singleton _ _)) with (k := "abc:high_cpu") (b := ex_alert).
  reflexivity.
Defined.

(** [TestFormatAlert] of the repository. *)
Example FormatAlert_example :
  FormatAlert ex_alert = "[critical] high_cpu: cpu_percent 95.5% > 80.0% (container: web)".
Proof. vm_compute. reflexivity. Qed.
