(* ===== verification/Logger.v ===== *)
(** * Logging and redaction ([internal/logger/logger.go])

    The pretty handler of [log/slog] records, the level chosen by [Setup], the
    tables printed at startup, and [Redact], which hides secrets of commands and
    environment variables before they are displayed.  What a function writes to
    its writer is its result. *)
From S2P Require Import Prelude.
From S2P Require Import GoStrings.
From S2P Require Import GoFloat.
From S2P Require Import GoTime.

(** ** ANSI colours *)

Definition esc (code : string) : string := String (Ascii.ascii_of_nat 27) code.

Definition colorReset := esc "[0m".
Definition colorBold := esc "[1m".
Definition colorDim := esc "[2m".
Definition colorItalic := esc "[3m".
Definition colorRed := esc "[31m".
Definition colorGreen := esc "[32m".
Definition colorMagenta := esc "[35m".
Definition colorCyan := esc "[36m".
Definition colorWhite := esc "[37m".
Definition colorBrightRed := esc "[91m".
Definition colorBrightGreen := esc "[92m".
Definition colorBrightYellow := esc "[93m".
Definition colorBrightBlue := esc "[94m".
Definition colorBrightCyan := esc "[96m".
Definition colorBrightWhite := esc "[97m".

(** ** The slog handler *)

(** [slog.Level]. *)
Definition Level := Z.
Definition LevelDebug : Level := -4.
Definition LevelInfo : Level := 0.
Definition LevelWarn : Level := 4.
Definition LevelError : Level := 8.

(** A [slog.Value]: the zero value, or one known by its [%v] text. *)
Inductive Value :=
  | AnyNil
  | ValueText (text : string).

#[export] Instance Value_eq_dec : EqDecision Value.
Proof. solve_decision. Defined.

Definition value_text (v : Value) : string :=
  match v with AnyNil => "<nil>" | ValueText s => s end.

Record Attr := mkAttr { at_Key : string; at_Value : Value }.

#[export] Instance Attr_eq_dec : EqDecision Attr.
Proof. solve_decision. Defined.

(** A [slog.Record]. *)
Record LogRecord := mkLogRecord {
  lr_Time : Time;
  lr_Level : Level;
  lr_Message : string;
  lr_Attrs : list Attr
}.

(** The writer is left to the caller of [Handle]. *)
Record PrettyHandler := mkPrettyHandler {
  ph_level : Level;
  ph_attrs : list Attr;
  ph_group : string
}.

(** [opts] is the level of the options, or [None] for a nil pointer. *)
Definition NewPrettyHandler (opts : option Level) : PrettyHandler := {|
  ph_level := default LevelInfo opts; ph_attrs := []; ph_group := "" |}.

Definition Enabled (h : PrettyHandler) (level : Level) : bool := ph_level h <=? level.

Definition formatLevel (level : Level) : string * string :=
  if level <? LevelInfo then ("DEBUG", colorBrightCyan)
  else if level <? LevelWarn then ("INFO", colorBrightGreen)
  else if level <? LevelError then ("WARN", colorBrightYellow)
  else ("ERROR", colorBrightRed).

Definition qualify (group key : string) : string :=
  if bool_decide (group <> "") then group +:+ "." +:+ key else key.

Definition appendAttr (h : PrettyHandler) (b : string) (a : Attr) : string :=
  if bool_decide (a = {| at_Key := ""; at_Value := AnyNil |}) then b
  else b +:+ " " +:+ colorCyan +:+ qualify (ph_group h) (at_Key a) +:+ colorReset +:+ "=" +:+
       colorWhite +:+ value_text (at_Value a) +:+ colorReset.

(** The bytes [Handle] passes to one call of [Write]; [zone] is the local offset. *)
Definition Handle (zone : Z) (h : PrettyHandler) (r : LogRecord) : string :=
  let timeStr := Format_millis zone (lr_Time r) in
  let '(levelStr, levelColor) := formatLevel (lr_Level r) in
  let b := colorDim +:+ timeStr +:+ colorReset +:+ " " +:+
    levelColor +:+ pad_right 5 levelStr +:+ colorReset +:+ " " +:+
    colorDim +:+ "│" +:+ colorReset +:+ " " +:+
    colorBold +:+ lr_Message r +:+ colorReset in
  let b1 := foldl (appendAttr h) b (ph_attrs h) in
  foldl (appendAttr h) b1 (lr_Attrs r) +:+ newline.

Definition WithAttrs (h : PrettyHandler) (attrs : list Attr) : PrettyHandler := {|
  ph_level := ph_level h; ph_attrs := ph_attrs h ++ attrs; ph_group := ph_group h |}.

Definition WithGroup (h : PrettyHandler) (name : string) : PrettyHandler := {|
  ph_level := ph_level h; ph_attrs := ph_attrs h;
  ph_group := if bool_decide (ph_group h <> "") then ph_group h +:+ "." +:+ name else name |}.

Section unicode.
Context `{UnicodeCase}.

(** [Setup], whose result is the handler it installs. *)
Definition Setup (level : string) : PrettyHandler :=
  let l := ToLower level in
  let slogLevel :=
    if bool_decide (l = "debug") then LevelDebug
    else if bool_decide (l = "warn") || bool_decide (l = "warning") then LevelWarn
    else if bool_decide (l = "error") then LevelError
    else LevelInfo in
  NewPrettyHandler (Some slogLevel).

(** ** Redaction *)

Definition sensitiveKeys : list string :=
  ["PASS"; "KEY"; "SECRET"; "TOKEN"; "AUTH"; "URL"; "URI"; "PRIVATE"].

Definition sensitive (upper : string) : bool :=
  existsb (fun sk => Contains upper sk) sensitiveKeys.

Definition Redact (s : string) : string :=
  let upperS := ToUpper s in
  let parts := SplitN2 s "="%char in
  if Contains s "=" && sensitive (ToUpper parts.1) then parts.1 +:+ "=[REDACTED]"
  else if sensitive upperS && (Contains s " " || Contains s ":") then "[REDACTED]"
  else s.

(** A [KEY=VALUE] whose key is sensitive. *)
Lemma Redact_assign k v :
  IndexByte k "="%char = None -> sensitive (ToUpper k) = true ->
  Redact (k +:+ "=" +:+ v) = k +:+ "=[REDACTED]".
Proof.
  intros Hk Hs. unfold Redact. change ("=" +:+ v) with (String "="%char v).
  rewrite SplitN2_app by done. cbn [fst]. rewrite Hs, andb_true_r.
  rewrite (proj2 (Contains_iff (k +:+ String "="%char v) "=")); [done|]. by exists k, v.
Qed.

(** Any other text is either shown as it is or hidden altogether. *)
Lemma Redact_other s :
  Contains s "=" && sensitive (ToUpper (SplitN2 s "="%char).1) = false ->
  Redact s = s \/ Redact s = "[REDACTED]".
Proof. intros E. unfold Redact. rewrite E. case_match; [by right|by left]. Qed.

Lemma Redact_marker : Redact "[REDACTED]" = "[REDACTED]".
Proof. reflexivity. Qed.

(** C38. [Redact] does not leak the value of a sensitive assignment: for a key without
    [=] whose upper case contains one of the sensitive words, the result for
    [key=value] is the same whatever the value is and shows only the key. *)
Theorem Redact_hides_value k v v' :
  IndexByte k "="%char = None -> sensitive (ToUpper k) = true ->
  Redact (k +:+ "=" +:+ v) = Redact (k +:+ "=" +:+ v') /\
  Redact (k +:+ "=" +:+ v) = k +:+ "=[REDACTED]".
Proof. intros Hk Hs. by rewrite !Redact_assign. Qed.

(** Text that was redacted once is shown unchanged by a second pass. *)
Lemma Redact_idempotent s : Redact (Redact s) = Redact s.
Proof.
  destruct (Contains s "=" && sensitive (ToUpper (SplitN2 s "="%char).1)) eqn:E.
  - apply andb_true_iff in E as [Hc Hs]. rewrite Contains_byte_IndexByte in Hc.
    apply bool_decide_eq_true in Hc as [i Hi].
    pose proof (IndexByte_Some _ _ _ Hi) as [Es Hk].
    assert ((SplitN2 s "="%char).1 = str_take i s) as Ek by (unfold SplitN2; by rewrite Hi).
    rewrite Ek in Hs. rewrite Es.
    change (String "="%char (str_drop (S i) s)) with ("=" +:+ str_drop (S i) s).
    rewrite !Redact_assign by done. by apply (Redact_assign _ "[REDACTED]").
  - destruct (Redact_other s E) as [E1|E1]; rewrite !E1; [done|apply Redact_marker].
Qed.
End unicode.

(** ** The display record *)

Record ContainerDisplay := mkContainerDisplay {
  cd_HostID : string;
  cd_ID : string;
  cd_Name : string;
  cd_Image : string;
  cd_Status : string;
  cd_State : string;
  cd_Command : string;
  cd_Ports : string;
  cd_Created : string;
  cd_Networks : list string;
  cd_Labels : gmap string string;
  cd_SizeRw : string;
  cd_Env : list string;
  cd_HealthStatus : string;
  cd_HealthLog : string;
  cd_Mounts : list string;
  cd_RestartPolicy : string;
  cd_RestartCount : Z;
  cd_CPULimit : float64;
  cd_MemoryLimit : Z;
  cd_Entrypoint : string
}.

#[export] Instance Eta_ContainerDisplay : Eta ContainerDisplay := fun c => mkContainerDisplay
  (cd_HostID c) (cd_ID c) (cd_Name c) (cd_Image c) (cd_Status c) (cd_State c) (cd_Command c) (cd_Ports c)
  (cd_Created c) (cd_Networks c) (cd_Labels c) (cd_SizeRw c) (cd_Env c) (cd_HealthStatus c)
  (cd_HealthLog c) (cd_Mounts c) (cd_RestartPolicy c) (cd_RestartCount c) (cd_CPULimit c)
  (cd_MemoryLimit c) (cd_Entrypoint c).

(** The zero value. *)
Definition zeroDisplay : ContainerDisplay := {|
  cd_HostID := ""; cd_ID := ""; cd_Name := ""; cd_Image := ""; cd_Status := ""; cd_State := "";
  cd_Command := ""; cd_Ports := ""; cd_Created := ""; cd_Networks := []; cd_Labels := ∅; cd_SizeRw := "";
  cd_Env := []; cd_HealthStatus := ""; cd_HealthLog := ""; cd_Mounts := []; cd_RestartPolicy := "";
  cd_RestartCount := 0; cd_CPULimit := f64_zero; cd_MemoryLimit := 0; cd_Entrypoint := "" |}.

(** ** The handler's contract *)

(** Attributes given to [WithAttrs] appear exactly as if every later record
    carried them first, after those of earlier calls, and neither [WithAttrs] nor
    [WithGroup] changes which levels are enabled. *)
Theorem WithAttrs_spec zone h attrs r level name :
  Handle zone (WithAttrs h attrs) r =
  Handle zone h {| lr_Time := lr_Time r; lr_Level := lr_Level r; lr_Message := lr_Message r;
                   lr_Attrs := attrs ++ lr_Attrs r |} /\
  Enabled (WithAttrs h attrs) level = Enabled h level /\
  Enabled (WithGroup h name) level = Enabled h level.
Proof.
  split; [|done]. unfold Handle. cbn [lr_Time lr_Level lr_Message lr_Attrs ph_attrs WithAttrs].
  destruct (formatLevel (lr_Level r)) as [l c]. by rewrite !foldl_app.
Qed.

(** [WithGroup] also renames the attributes added before it. *)
Example WithGroup_requalifies :
  let h := WithGroup (WithAttrs (NewPrettyHandler None) [mkAttr "component" (ValueText "docker")]) "g" in
  foldl (appendAttr h) "" (ph_attrs h) =
  " " +:+ colorCyan +:+ "g.component" +:+ colorReset +:+ "=" +:+ colorWhite +:+ "docker" +:+ colorReset.
Proof. reflexivity. Qed.

(** ** Witnesses *)

(** A case mapping that leaves text outside ASCII alone. *)
Definition ascii_only : UnicodeCase :=
  {| unicode_ToUpper := fun s => s; unicode_ToLower := fun s => s |}.

Lemma Redact_hides_value_witness :
  @Redact ascii_only "db_password=hunter2" = @Redact ascii_only "db_password=x" /\
  @Redact ascii_only "db_password=hunter2" = "db_password=[REDACTED]".
Proof.
  apply (@Redact_hides_value ascii_only "db_password" "hunter2" "x"); reflexivity.
Defined.

Example Redact_flag : @Redact ascii_only "mysql --password secret" = "[REDACTED]".
Proof. reflexivity. Qed.
Example Redact_plain : @Redact ascii_only "PATH=/usr/bin" = "PATH=/usr/bin".
Proof. reflexivity. Qed.
