(* ===== verification/LoggerDisplay.v ===== *)
(** * Startup and shutdown output ([internal/logger/logger.go])

    The banner, the table of the Docker engine, the table of containers, and the lines
    printed at shutdown.  A function's result is the list of texts it writes to the error
    stream, one per call of [Fprintf]; the range over a container's labels takes its order
    as an argument. *)
From S2P Require Import Prelude.
From S2P Require Import GoStrings.
From S2P Require Import GoTime.
From S2P Require Import Logger.

(** ** [fmt.Sprintf]

    The verbs are [%s], [%d] and [%v], with an optional minus and width; an argument is
    given as the text of its verb.  No call of this file has more arguments than verbs. *)
Inductive verb_state :=
  | VText
  | VVerb (minus : bool) (width : nat).

Definition digit_nat (a : ascii) : option nat := Z.to_nat <$> digit_val a.

Fixpoint Sprintf_from (st : verb_state) (format : string) (args : list string) : string :=
  match format with
  | EmptyString => EmptyString
  | String a f =>
      match st with
      | VText =>
          if bool_decide (a = "%"%char) then Sprintf_from (VVerb false 0) f args
          else String a (Sprintf_from VText f args)
      | VVerb minus width =>
          if bool_decide (a = "-"%char) then Sprintf_from (VVerb true width) f args
          else match digit_nat a with
          | Some d => Sprintf_from (VVerb minus (10 * width + d)) f args
          | None =>
              match args with
              | x :: args' => (if minus then pad_right width x else pad_left width x) +:+ Sprintf_from VText f args'
              | [] => "%!" +:+ String a "(MISSING)" +:+ Sprintf_from VText f []
              end
          end
      end
  end.

Definition Sprintf (format : string) (args : list string) : string := Sprintf_from VText format args.

(** A line ending with [\n]. *)
Definition Fprintln_f (format : string) (args : list string) : string := Sprintf format args +:+ newline.

(** ** The banner *)

Definition blue : list string := [colorBold; colorBrightBlue; colorReset].

(** [PrintBanner]: [os], [arch] and [pid] are those of the process. *)
Definition PrintBanner (os arch : string) (pid : Z) (version goVersion : string) : list string :=
  let field value := blue ++ [colorCyan; colorReset; value] ++ blue in
  [Sprintf (newline +:+
"%s%s┌─────────────────────────────────────────────────────────┐%s
%s%s│%s    🏰  %s%sCastle Rock Agent%s                                %s%s│%s
%s%s│%s    Real-time Docker observability                %s%s│%s
%s%s├─────────────────────────────────────────────────────────┤%s
%s%s│%s  %sVersion:%s    %-46s %s%s│%s
%s%s│%s  %sGo:%s        %-46s %s%s│%s
%s%s│%s  %sArch:%s      %-46s %s%s│%s
%s%s│%s  %sPID:%s       %-46d %s%s│%s
%s%s└─────────────────────────────────────────────────────────┘%s
")
   (blue ++
    blue ++ [colorBold; colorBrightWhite; colorReset] ++ blue ++
    blue ++ blue ++
    blue ++
    field version ++ field goVersion ++ field (Sprintf "%s/%s" [os; arch]) ++ field (itoa pid) ++
    blue)].

(** ** The Docker engine *)

Definition dockerInfoKeys : list string :=
  ["Server Version"; "API Version"; "OS/Arch"; "Kernel"; "Total Memory"; "Containers"; "Images"].

Definition PrintDockerInfo (info : gmap string string) : list string :=
  [newline +:+ Fprintln_f "%s%s  ⚙  Docker Engine%s" [colorBold; colorMagenta; colorReset];
   Fprintln_f "%s  ───────────────────────────────────────────────%s" [colorDim; colorReset]] ++
  omap (fun key => (fun val => Fprintln_f "  %s%-16s%s %s%s%s"
                      [colorCyan; key +:+ ":"; colorReset; colorWhite; val; colorReset]) <$> info !! key) dockerInfoKeys ++
  [newline].

(** ** The containers *)

Definition printField (key value : string) : string :=
  Fprintln_f "  %s│%s  %s%-14s%s %s%s%s"
    [colorDim; colorReset; colorCyan; key +:+ ":"; colorReset; colorWhite; value; colorReset].

(** The colour and the icon of a state. *)
Definition stateStyle (state : string) : string * string :=
  if bool_decide (state = "running") then (colorBrightGreen, "●")
  else if bool_decide (state = "paused") then (colorBrightYellow, "◉")
  else if bool_decide (state = "restarting") then (colorBrightCyan, "↻")
  else (colorBrightRed, "○").

(** A field shown unless its text is empty. *)
Definition printOptional (key value : string) : list string :=
  if bool_decide (value <> "") then [printField key value] else [].

Definition printLabel (kv : string * string) : string :=
  Fprintln_f "  %s│%s     %s%s%s=%s%s%s"
    [colorDim; colorReset; colorItalic; kv.1; colorReset; colorDim; kv.2; colorReset].

Section tables.
(** The order of the range over a container's labels. *)
Context (ordL : gmap string string -> list (string * string)).

Definition printContainer (i : nat) (c : ContainerDisplay) : list string :=
  let '(stateColor, stateIcon) := stateStyle (cd_State c) in
  [newline +:+ Fprintln_f "  %s%s%s #%d %s%s%s"
     [stateColor; stateIcon; colorReset; itoa (Z.of_nat i + 1); colorBold; cd_Name c; colorReset];
   Fprintln_f "  %s┌──────────────────────────────────────────────────────────────┐%s" [colorDim; colorReset];
   printField "ID" (cd_ID c);
   printField "Image" (cd_Image c);
   printField "Status" (cd_Status c);
   printField "State" (stateColor +:+ cd_State c +:+ colorReset)] ++
  printOptional "Command" (cd_Command c) ++
  printOptional "Ports" (cd_Ports c) ++
  printOptional "Created" (cd_Created c) ++
  (if (0 <? length (cd_Networks c))%nat then [printField "Networks" (Join (cd_Networks c) ", ")] else []) ++
  (if (0 <? size (cd_Labels c))%nat then printField "Labels" "" :: (printLabel <$> ordL (cd_Labels c)) else []) ++
  printOptional "Size (RW)" (cd_SizeRw c) ++
  [Fprintln_f "  %s└──────────────────────────────────────────────────────────────┘%s" [colorDim; colorReset]].

Definition PrintContainerTable (containers : list ContainerDisplay) : list string :=
  match containers with
  | [] => [newline +:+ Fprintln_f "%s  📭 No running containers found%s" [colorDim; colorReset] +:+ newline]
  | _ =>
      [newline +:+ Fprintln_f "%s%s  🐳  Running Containers (%d)%s"
         [colorBold; colorGreen; itoa (Z.of_nat (length containers)); colorReset];
       Fprintln_f "%s  ═══════════════════════════════════════════════════════════════════%s" [colorDim; colorReset]] ++
      concat (imap printContainer containers) ++
      [newline]
  end.
End tables.

(** ** Shutdown *)

Definition PrintShutdown : list string :=
  [newline +:+ Fprintln_f "%s%s  🛑  Shutting down Castle Rock Agent...%s" [colorBold; colorRed; colorReset];
   Fprintln_f "%s  ───────────────────────────────────────────────%s" [colorDim; colorReset]].

Definition PrintUptime (now startTime : Time) : list string :=
  [Fprintln_f "  %sUptime:%s          %s%s%s"
     [colorCyan; colorReset; colorWhite; Duration_String (Round_second (Sub now startTime)); colorReset]].

(** ** The order of the labels *)

(** The table differs between two orders of the labels by the order of its lines only. *)
Theorem container_table_lines ordL ordL' containers :
  (forall m, range_of m (ordL m)) -> (forall m, range_of m (ordL' m)) ->
  PrintContainerTable ordL containers ≡ₚ PrintContainerTable ordL' containers.
Proof.
  intros H H'.
  assert (forall i c, printContainer ordL i c ≡ₚ printContainer ordL' i c) as Hc.
  { intros i c. unfold printContainer. destruct (stateStyle _). do 5 f_equiv. destruct (0 <? size _)%nat; [|done].
    f_equiv; f_equiv. apply fmap_Permutation. by rewrite (H (cd_Labels c)), (H' (cd_Labels c)). }
  unfold PrintContainerTable. destruct containers as [|c l]; [done|]. f_equiv. f_equiv.
  generalize (c :: l). clear c l. intros l. 
  assert (forall n, concat (imap (fun i => printContainer ordL (n + i)%nat) l) ≡ₚ concat (imap (fun i => printContainer ordL' (n + i)%nat) l)) as G.
  { induction l as [|c l IH]; intros n; [done|]. cbn. f_equiv; [apply Hc|].
    assert (forall o, imap ((fun i => printContainer o (n + i)%nat) ∘ S) l = imap (fun i => printContainer o (S n + i)%nat) l) as E
      by (intros o; apply imap_ext; intros; cbn; f_equal; lia).
    rewrite !E. apply IH. }
  exact (G O).
Qed.

(** ** Examples *)

Example banner_version : Contains (default "" (head (PrintBanner "linux" "amd64" 7 "0.3.0" "go1.25"))) "0.3.0" = true.
Proof. vm_compute. reflexivity. Qed.

Example docker_info_order :
  length (PrintDockerInfo {["Kernel" := "6.1"; "Server Version" := "27"; "Other" := "x"]}) = 5%nat.
Proof. vm_compute. reflexivity. Qed.

Example uptime_line : PrintUptime (3723 * Second) 0 = ["  " +:+ colorCyan +:+ "Uptime:" +:+ colorReset +:+ "          " +:+
  colorWhite +:+ "1h2m3s" +:+ colorReset +:+ newline].
Proof. vm_compute. reflexivity. Qed.

Example plain_container :
  length (PrintContainerTable map_to_list [zeroDisplay]) = 10%nat.
Proof. vm_compute. reflexivity. Qed.
