(* ===== verification/InternalMetrics.v ===== *)
(** * The agent's own metrics ([internal/metrics/internal.go])

    Counters and a histogram by the number of their events, the gauge by its value. *)
From S2P Require Import Prelude.
From S2P Require Import GoFloat.

Record InternalMetrics := mkInternalMetrics {
  MetadataCacheHits : Z;
  MetadataCacheMisses : Z;
  ClusterPushDuration : Z;
  ClusterPushFailures : Z;
  MonitoredContainers : float64
}.

Definition inc_hits (m : InternalMetrics) : InternalMetrics := {|
  MetadataCacheHits := MetadataCacheHits m + 1; MetadataCacheMisses := MetadataCacheMisses m;
  ClusterPushDuration := ClusterPushDuration m; ClusterPushFailures := ClusterPushFailures m;
  MonitoredContainers := MonitoredContainers m |}.

Definition inc_misses (m : InternalMetrics) : InternalMetrics := {|
  MetadataCacheHits := MetadataCacheHits m; MetadataCacheMisses := MetadataCacheMisses m + 1;
  ClusterPushDuration := ClusterPushDuration m; ClusterPushFailures := ClusterPushFailures m;
  MonitoredContainers := MonitoredContainers m |}.

Definition observe_push (m : InternalMetrics) : InternalMetrics := {|
  MetadataCacheHits := MetadataCacheHits m; MetadataCacheMisses := MetadataCacheMisses m;
  ClusterPushDuration := ClusterPushDuration m + 1; ClusterPushFailures := ClusterPushFailures m;
  MonitoredContainers := MonitoredContainers m |}.

Definition inc_push_failures (m : InternalMetrics) : InternalMetrics := {|
  MetadataCacheHits := MetadataCacheHits m; MetadataCacheMisses := MetadataCacheMisses m;
  ClusterPushDuration := ClusterPushDuration m; ClusterPushFailures := ClusterPushFailures m + 1;
  MonitoredContainers := MonitoredContainers m |}.

Definition set_monitored (x : float64) (m : InternalMetrics) : InternalMetrics := {|
  MetadataCacheHits := MetadataCacheHits m; MetadataCacheMisses := MetadataCacheMisses m;
  ClusterPushDuration := ClusterPushDuration m; ClusterPushFailures := ClusterPushFailures m;
  MonitoredContainers := x |}.
