(* ===== verification/DockerTypes.v ===== *)
(** * The Docker SDK as the agent sees it

    The fields of the SDK's structs that the agent reads, and the class [DockerAPI]
    of the calls it makes.  The daemon's state is a type [W] of the class: a reading
    call is a function of it, a call that changes the daemon returns the next state.
    Nothing is assumed of the calls beyond these types. *)
From S2P Require Import Prelude.
From S2P Require Import GoFloat.
From S2P Require Import GoTime.

(** [types.Port]: the ports are [uint16]. *)
Record Port := mkPort {
  port_IP : string;
  port_PrivatePort : Z;
  port_PublicPort : Z;
  port_Type : string
}.

(** [types.Container]; [c_Networks] is the map of [NetworkSettings], by its keys. *)
Record Container := mkContainer {
  c_ID : string;
  c_Names : list string;
  c_Image : string;
  c_Command : string;
  c_Created : Z;
  c_Ports : list Port;
  c_Labels : gmap string string;
  c_State : string;
  c_Status : string;
  c_Networks : option (gset string)
}.

Record ContainerConfig := mkContainerConfig {
  cfg_Env : list string;
  cfg_Entrypoint : list string;
  cfg_Cmd : list string;
  cfg_User : string
}.

(** The status of a health check and the outputs of its log, oldest first. *)
Record Health := mkHealth { h_Status : string; h_Log : list string }.

Record HostConfig := mkHostConfig {
  hc_RestartPolicyName : string;
  hc_MaximumRetryCount : Z;
  hc_NanoCPUs : Z;
  hc_Memory : Z;
  hc_Privileged : bool;
  hc_CapAdd : list string;
  hc_ReadonlyRootfs : bool;
  hc_SecurityOpt : list string;
  hc_NetworkMode : string
}.

Record MountPoint := mkMountPoint { mt_Source : string; mt_Destination : string; mt_Type : string }.

(** [types.ContainerJSON]: pointers are options; [cj_State] is [State] with its
    [Health] pointer, [cj_NetworkPorts] the [Ports] of [NetworkSettings] with the
    host addresses each port is bound to. *)
Record ContainerJSON := mkContainerJSON {
  cj_Config : option ContainerConfig;
  cj_State : option (option Health);
  cj_HostConfig : option HostConfig;
  cj_RestartCount : Z;
  cj_Mounts : list MountPoint;
  cj_NetworkPorts : option (gmap string (list string))
}.

Record Endpoint := mkEndpoint { ep_Name : string; ep_IPv4Address : string }.

(** [network.Inspect]. *)
Record NetworkInspect := mkNetworkInspect {
  ni_Name : string;
  ni_ID : string;
  ni_Driver : string;
  ni_Containers : gmap string Endpoint
}.

(** The zero [network.Inspect]. *)
Definition zeroInspect : NetworkInspect :=
  {| ni_Name := ""; ni_ID := ""; ni_Driver := ""; ni_Containers := ∅ |}.

Record CPUStats := mkCPUStats {
  cpu_TotalUsage : Z;
  cpu_PercpuUsage : list Z;
  cpu_SystemUsage : Z;
  cpu_OnlineCPUs : Z
}.

Record BlkioEntry := mkBlkioEntry { bio_Op : string; bio_Value : Z }.

(** [types.StatsJSON]; the map of networks holds received and sent bytes. *)
Record StatsJSON := mkStatsJSON {
  st_CPUStats : CPUStats;
  st_PreCPUStats : CPUStats;
  st_MemoryUsage : Z;
  st_MemoryLimit : Z;
  st_Networks : gmap string (Z * Z);
  st_IoServiceBytesRecursive : list BlkioEntry
}.

(** The images (containers, shared size, size) and volumes (reference count and
    size, when known) of [types.DiskUsage]. *)
Record DiskUsage := mkDiskUsage {
  du_Images : list (Z * Z * Z);
  du_Volumes : list (option (Z * Z))
}.

Record ServerVersion := mkServerVersion {
  sv_Version : string; sv_APIVersion : string; sv_Os : string; sv_Arch : string;
  sv_KernelVersion : string
}.

Record SystemInfo := mkSystemInfo {
  si_MemTotal : Z; si_Containers : Z; si_ContainersRunning : Z; si_ContainersStopped : Z;
  si_ContainersPaused : Z; si_Images : Z
}.

Class DockerAPI (W : Type) := {
  (** Reading calls. *)
  cli_ContainerList : W -> bool -> result (list Container);
  cli_ContainerInspect : W -> string -> result ContainerJSON;
  cli_ContainerStats : W -> string -> result string;
  cli_NetworkList : W -> result (list string);
  cli_NetworkInspect : W -> string -> result NetworkInspect;
  cli_DiskUsage : W -> result DiskUsage;
  cli_ServerVersion : W -> result ServerVersion;
  cli_Info : W -> result SystemInfo;
  cli_ImageInspectWithRaw : W -> string -> result unit;
  (** Calls that change the daemon: the timeout of a stop is in seconds, a prune
      returns the bytes it reclaimed, the image filter is [dangling]'s value. *)
  cli_ContainerStop : string -> Z -> W -> result unit * W;
  cli_ContainerRestart : string -> Z -> W -> result unit * W;
  cli_ContainersPrune : W -> result Z * W;
  cli_NetworksPrune : W -> result unit * W;
  cli_ImagesPrune : option string -> W -> result Z * W;
  cli_VolumesPrune : W -> result Z * W;
  cli_ContainerRemove : string -> bool -> W -> result unit * W;
  cli_ImagePull : string -> W -> result unit * W;
  cli_ContainerCreate : string -> list string -> bool -> string -> W -> result string * W;
  cli_ContainerStart : string -> W -> result unit * W;
  (** The JSON text of a stats response as the SDK's struct. *)
  stats_Decode : string -> result StatsJSON
}.

(** ** A daemon for examples

    It answers from tables and remembers the calls that changed it. *)
Record ExDaemon := mkExDaemon {
  ex_list : list Container;
  ex_inspects : gmap string ContainerJSON;
  ex_image_present : bool;
  ex_calls : list string
}.

Definition ex_call {A} (name : string) (a : A) (d : ExDaemon) : result A * ExDaemon :=
  (Ok a, {| ex_list := ex_list d; ex_inspects := ex_inspects d;
            ex_image_present := ex_image_present d; ex_calls := ex_calls d ++ [name] |}).

Definition ex_stats_reply : StatsJSON := {|
  st_CPUStats := {| cpu_TotalUsage := 0; cpu_PercpuUsage := []; cpu_SystemUsage := 0; cpu_OnlineCPUs := 1 |};
  st_PreCPUStats := {| cpu_TotalUsage := 0; cpu_PercpuUsage := []; cpu_SystemUsage := 0; cpu_OnlineCPUs := 1 |};
  st_MemoryUsage := 1; st_MemoryLimit := 2; st_Networks := ∅; st_IoServiceBytesRecursive := [] |}.

Definition ex_docker : DockerAPI ExDaemon := {|
  cli_ContainerList := fun d _ => Ok (ex_list d);
  cli_ContainerInspect := fun d id =>
    match ex_inspects d !! id with Some j => Ok j | None => Err ("no such container " +:+ id) end;
  cli_ContainerStats := fun _ _ => Ok "{}";
  cli_NetworkList := fun _ => Ok ["n1"; "n2"];
  cli_NetworkInspect := fun _ id =>
    if bool_decide (id = "n1") then
      Ok {| ni_Name := "bridge"; ni_ID := id; ni_Driver := "bridge"; ni_Containers := ∅ |}
    else Err "gone";
  cli_DiskUsage := fun _ => Ok {| du_Images := [(0, 3, 10); (1, 0, 7)]; du_Volumes := [Some (0, 5); None] |};
  cli_ServerVersion := fun _ => Err "unknown";
  cli_Info := fun _ => Err "unknown";
  cli_ImageInspectWithRaw := fun d _ => if ex_image_present d then Ok tt else Err "no such image";
  cli_ContainerStop := fun id _ => ex_call ("stop " +:+ id) tt;
  cli_ContainerRestart := fun id _ => ex_call ("restart " +:+ id) tt;
  cli_ContainersPrune := ex_call "prune containers" 100;
  cli_NetworksPrune := ex_call "prune networks" tt;
  cli_ImagesPrune := fun _ => ex_call "prune images" 23;
  cli_VolumesPrune := ex_call "prune volumes" 5;
  cli_ContainerRemove := fun name _ => ex_call ("remove " +:+ name) tt;
  cli_ImagePull := fun img => ex_call ("pull " +:+ img) tt;
  cli_ContainerCreate := fun img _ _ name => ex_call ("create " +:+ name) "id1";
  cli_ContainerStart := fun id => ex_call ("start " +:+ id) tt;
  stats_Decode := fun _ => Ok ex_stats_reply
|}.

Definition ex_daemon : ExDaemon := {|
  ex_list := []; ex_inspects := ∅; ex_image_present := false; ex_calls := [] |}.
