(* ===== verification/ContainerEngine.v ===== *)
(** * The interface of a container engine ([internal/docker/client.go])

    What the agent's other parts ask of an engine, as a class over the engine's
    state [E] (for Docker: the daemon and the client).  An operation that can panic
    returns [None] then. *)
From S2P Require Import Prelude.
From S2P Require Import GoFloat.
From S2P Require Import GoTime.
From S2P Require Import Models.
From S2P Require Import Logger.
From S2P Require Import DockerTypes.

Record SystemDiskUsage := mkSystemDiskUsage {
  ImagesReclaimable : Z;
  VolumesReclaimable : Z
}.

Record ContainerEvent := mkContainerEvent {
  ev_Action : string;
  ev_ContainerID : string;
  ev_ContainerName : string;
  ev_Image : string;
  ev_Status : string;
  ev_Time : Time
}.

#[export] Instance ContainerEvent_eq_dec : EqDecision ContainerEvent.
Proof. solve_decision. Defined.

Class ContainerEngine (E : Type) := {
  ListRunningContainers : E -> bool -> option (result (list ContainerInfo));
  ListRunningContainersDetailed : bool -> E -> option (result (list ContainerDisplay) * E);
  GetAllContainerStats : E -> list ContainerInfo -> result (gmap string ContainerMetrics);
  StopContainer : string -> E -> result unit * E;
  RestartContainer : string -> E -> result unit * E;
  InspectContainer : E -> string -> result ContainerJSON;
  SetIncludeContainers : list string -> E -> E;
  RunStressTest : string -> Z -> E -> result unit * E;
  PruneUnused : E -> result Z * E;
  PruneImages : E -> result Z * E;
  PruneVolumes : E -> result Z * E;
  GetDiskUsage : E -> result SystemDiskUsage;
  ListNetworks : E -> result (list NetworkInspect);
  GetSystemInfo : E -> result (gmap string string)
}.

(** An engine for examples, that inspects from a table and prunes nothing. *)
Definition inspect_engine : ContainerEngine (gmap string ContainerJSON) := {|
  ListRunningContainers := fun _ _ => Some (Ok []);
  ListRunningContainersDetailed := fun _ e => Some (Ok [], e);
  GetAllContainerStats := fun _ _ => Ok ∅;
  StopContainer := fun _ e => (Ok tt, e);
  RestartContainer := fun _ e => (Ok tt, e);
  InspectContainer := fun e id => match e !! id with Some j => Ok j | None => Err "gone" end;
  SetIncludeContainers := fun _ e => e;
  RunStressTest := fun _ _ e => (Ok tt, e);
  PruneUnused := fun e => (Ok 0, e);
  PruneImages := fun e => (Ok 0, e);
  PruneVolumes := fun e => (Ok 0, e);
  GetDiskUsage := fun _ => Ok {| ImagesReclaimable := 0; VolumesReclaimable := 0 |};
  ListNetworks := fun _ => Ok
    [{| ni_Name := "host"; ni_ID := "0123456789abcdef"; ni_Driver := "host"; ni_Containers := ∅ |};
     {| ni_Name := "app"; ni_ID := "fedcba9876543210"; ni_Driver := "bridge";
        ni_Containers := {["c1" := {| ep_Name := "web"; ep_IPv4Address := "172.18.0.2/16" |}]} |}];
  GetSystemInfo := fun _ => Ok ∅
|}.

(** An engine that reports given metrics. *)
Definition metrics_engine : ContainerEngine (gmap string ContainerMetrics) := {|
  ListRunningContainers := fun _ _ => Some (Ok []);
  ListRunningContainersDetailed := fun _ e => Some (Ok [], e);
  GetAllContainerStats := fun e _ => Ok e;
  StopContainer := fun _ e => (Ok tt, e);
  RestartContainer := fun _ e => (Ok tt, e);
  InspectContainer := fun _ _ => Err "gone";
  SetIncludeContainers := fun _ e => e;
  RunStressTest := fun _ _ e => (Ok tt, e);
  PruneUnused := fun e => (Ok 0, e);
  PruneImages := fun e => (Ok 0, e);
  PruneVolumes := fun e => (Ok 0, e);
  GetDiskUsage := fun _ => Ok {| ImagesReclaimable := 0; VolumesReclaimable := 0 |};
  ListNetworks := fun _ => Ok [];
  GetSystemInfo := fun _ => Ok ∅
|}.
