(* ===== verification/DockerStats.v ===== *)
(** * Container statistics ([internal/docker/client.go])

    The percentages and sums computed from one stats response, and the parallel
    collection over all monitored containers, whose goroutines finish in an order
    given as an argument. *)
From S2P Require Import Prelude.
From S2P Require Import GoStrings.
From S2P Require Import GoFloat.
From S2P Require Import Models.
From S2P Require Import DockerTypes.

(** ** One container *)

(** [stats] is never the nil pointer at the only call. *)
Definition calculateCPUPercent (stats : StatsJSON) : float64 :=
  let cpuDelta := f64_sub (f64_of_Z (cpu_TotalUsage (st_CPUStats stats)))
                          (f64_of_Z (cpu_TotalUsage (st_PreCPUStats stats))) in
  let systemDelta := f64_sub (f64_of_Z (cpu_SystemUsage (st_CPUStats stats)))
                             (f64_of_Z (cpu_SystemUsage (st_PreCPUStats stats))) in
  if f64_gt systemDelta f64_zero && f64_gt cpuDelta f64_zero then
    let n0 := f64_of_Z (cpu_OnlineCPUs (st_CPUStats stats)) in
    let n1 := if f64_eq n0 f64_zero
              then f64_of_Z (Z.of_nat (length (cpu_PercpuUsage (st_CPUStats stats)))) else n0 in
    let numCPUs := if f64_eq n1 f64_zero then f64_of_Z 1 else n1 in
    f64_mul (f64_mul (f64_div cpuDelta systemDelta) numCPUs) (f64_of_Z 100)
  else f64_zero.

Definition memoryPercent (usage limit : Z) : float64 :=
  if 0 <? limit then f64_mul (f64_div (f64_of_Z usage) (f64_of_Z limit)) (f64_of_Z 100)
  else f64_zero.

(** The sums wrap like [uint64]; [ordN] is the order of the range over the networks. *)
Definition sumNetworks (ordN : list (string * (Z * Z))) : Z * Z :=
  foldl (fun '(rx, tx) '(_, (r, t)) => (wrap_u64 (rx + r), wrap_u64 (tx + t))) (0, 0) ordN.

Definition sumBlkio (entries : list BlkioEntry) : Z * Z :=
  foldl (fun '(r, w) bio =>
    if bool_decide (bio_Op bio ∈ ["read"; "Read"]) then (wrap_u64 (r + bio_Value bio), w)
    else if bool_decide (bio_Op bio ∈ ["write"; "Write"]) then (r, wrap_u64 (w + bio_Value bio))
    else (r, w)) (0, 0) entries.

Definition metricsOfStats (ordN : list (string * (Z * Z))) (s : StatsJSON) : ContainerMetrics :=
  let '(netRx, netTx) := sumNetworks ordN in
  let '(blockRead, blockWrite) := sumBlkio (st_IoServiceBytesRecursive s) in
  {| cm_HostID := ""; cm_ContainerID := ""; cm_ContainerName := ""; cm_Image := "";
     cm_CPUPercent := calculateCPUPercent s;
     cm_MemoryUsage := st_MemoryUsage s; cm_MemoryLimit := st_MemoryLimit s;
     cm_MemoryPercent := memoryPercent (st_MemoryUsage s) (st_MemoryLimit s);
     cm_NetworkRx := netRx; cm_NetworkTx := netTx;
     cm_BlockRead := blockRead; cm_BlockWrite := blockWrite |}.

(** Whether a container passes the include filter. *)
Definition isMonitored (includes : list string) (name : string) : bool :=
  match includes with
  | [] => true
  | _ => existsb (fun include => Contains name include) includes
  end.

Section stats.
Context {W : Type} `{Hapi : DockerAPI W}.

(** The range over the networks takes them in the order of [map_to_list]: the sums do
    not depend on it ([sumNetworks_order]). *)
Definition getContainerStats (w : W) (containerID : string) : result ContainerMetrics :=
  match cli_ContainerStats w containerID with
  | Err e => Err ("stats: " +:+ e)
  | Ok body =>
      match stats_Decode body with
      | Err e => Err ("decode stats: " +:+ e)
      | Ok s => Ok (metricsOfStats (map_to_list (st_Networks s)) s)
      end
  end.

Definition shortID (id : string) : string :=
  if (12 <? String.length id)%nat then str_take 12 id else id.

(** The goroutine of one container: an insertion in the shared map, or nothing. *)
Definition collectOne (w : W) (results : gmap string ContainerMetrics) (ctr : ContainerInfo)
    : gmap string ContainerMetrics :=
  match getContainerStats w (ci_ID ctr) with
  | Err _ => results
  | Ok stats =>
      let id := shortID (ci_ID ctr) in
      <[id := set_metrics_identity id (ci_Name ctr) (ci_Image ctr) stats]> results
  end.

(** The containers a goroutine is started for. *)
Definition monitored (includes : list string) (containers : list ContainerInfo) : list ContainerInfo :=
  filter (fun c => isMonitored includes (ci_Name c) = true) containers.

(** [sched] puts the goroutines in the order in which they lock the map. *)
Definition GetAllContainerStats (sched : list ContainerInfo -> list ContainerInfo)
    (includes : list string) (w : W) (containers : list ContainerInfo)
    : result (gmap string ContainerMetrics) :=
  Ok (foldl (collectOne w) ∅ (sched (monitored includes containers))).
End stats.

(** ** Percentages *)

Definition stats_in_range (s : StatsJSON) : Prop :=
  is_u64 (cpu_TotalUsage (st_CPUStats s)) /\ is_u64 (cpu_TotalUsage (st_PreCPUStats s)) /\
  is_u64 (cpu_SystemUsage (st_CPUStats s)) /\ is_u64 (cpu_SystemUsage (st_PreCPUStats s)) /\
  0 <= cpu_OnlineCPUs (st_CPUStats s) < 2 ^ 32 /\
  Z.of_nat (length (cpu_PercpuUsage (st_CPUStats s))) < 2 ^ 63 /\
  is_u64 (st_MemoryUsage s) /\ is_u64 (st_MemoryLimit s).

(** A number of CPUs that is not zero is positive. *)
Lemma cpu_count_positive n :
  is_u64 n -> f64_eq (f64_of_Z n) f64_zero = false -> positive_finite (f64_of_Z n).
Proof.
  intros Hn E. apply f64_of_Z_positive. unfold is_u64 in Hn.
  destruct (Z.eq_dec n 0) as [->|]; [done|lia].
Qed.

Lemma cpu_percent_nonneg s : stats_in_range s -> nonneg (calculateCPUPercent s).
Proof.
  intros (H1 & H2 & H3 & H4 & H5 & H6 & _). unfold calculateCPUPercent.
  destruct (f64_gt _ _ && f64_gt _ _) eqn:E; [|done]. reflect_bools.
  assert (is_u64 (cpu_OnlineCPUs (st_CPUStats s))) by (unfold is_u64; lia).
  assert (is_u64 (Z.of_nat (length (cpu_PercpuUsage (st_CPUStats s))))) by (unfold is_u64; lia).
  apply f64_mul_nonneg; [|done]. apply f64_mul_nonneg.
  - apply f64_div_nonneg; [apply positive_finite_nonneg|]; by apply f64_sub_positive.
  - destruct (f64_eq (f64_of_Z (cpu_OnlineCPUs _)) _) eqn:E1;
      [destruct (f64_eq (f64_of_Z (Z.of_nat _)) _) eqn:E2|]; [done|..|rewrite E1];
      by apply cpu_count_positive.
Qed.

Lemma memory_percent_nonneg usage limit :
  is_u64 usage -> is_u64 limit -> nonneg (memoryPercent usage limit).
Proof.
  intros Hu Hl. unfold memoryPercent. destruct (Z.ltb_spec 0 limit); [|done].
  apply f64_mul_nonneg; [|done]. apply f64_div_nonneg; [by apply f64_of_Z_nonneg|].
  apply f64_of_Z_positive. unfold is_u64 in Hl. lia.
Qed.

(** Percentages are never NaN and never negative: for all counters a daemon can
    send, counters that went backwards, no CPU count and a zero memory limit
    included, the CPU and memory percentages are numbers of positive sign. *)
Theorem percentages_safe ordN s :
  stats_in_range s ->
  let m := metricsOfStats ordN s in
  nonneg (cm_CPUPercent m) /\ nonneg (cm_MemoryPercent m) /\
  cm_CPUPercent m <> S754_nan /\ f64_lt (cm_CPUPercent m) f64_zero = false /\
  cm_MemoryPercent m <> S754_nan /\ f64_lt (cm_MemoryPercent m) f64_zero = false.
Proof.
  intros Hs m. unfold m, metricsOfStats.
  destruct (sumNetworks ordN), (sumBlkio _). cbn [cm_CPUPercent cm_MemoryPercent].
  assert (nonneg (calculateCPUPercent s)) by by apply cpu_percent_nonneg.
  assert (nonneg (memoryPercent (st_MemoryUsage s) (st_MemoryLimit s)))
    by (apply memory_percent_nonneg; apply Hs).
  split_and!; auto using nonneg_not_nan, nonneg_not_lt_zero.
Qed.

(** ** Sums *)

Lemma sumNetworks_fold ordN rx tx :
  foldl (fun '(rx, tx) '(_, (r, t)) => (wrap_u64 (rx + r), wrap_u64 (tx + t)))
    (wrap_u64 rx, wrap_u64 tx) (ordN : list (string * (Z * Z))) =
  (wrap_u64 (rx + foldr Z.add 0 (fst ∘ snd <$> ordN)), wrap_u64 (tx + foldr Z.add 0 (snd ∘ snd <$> ordN))).
Proof.
  revert rx tx; induction ordN as [|[k [r t]] ordN IH]; intros rx tx; cbn [foldl fmap list_fmap foldr].
  - by rewrite !Z.add_0_r.
  - rewrite !wrap_u64_add_l, IH. cbn. by rewrite !Z.add_assoc.
Qed.

(** The totals are the sums of all interfaces modulo [2^64]. *)
Lemma sumNetworks_spec ordN :
  sumNetworks ordN =
  (wrap_u64 (foldr Z.add 0 (fst ∘ snd <$> ordN)), wrap_u64 (foldr Z.add 0 (snd ∘ snd <$> ordN))).
Proof. apply (sumNetworks_fold ordN 0 0). Qed.

Lemma foldr_add_perm (l1 l2 : list Z) : l1 ≡ₚ l2 -> foldr Z.add 0 l1 = foldr Z.add 0 l2.
Proof. induction 1; cbn; lia. Qed.

Lemma sumNetworks_order o1 o2 : o1 ≡ₚ o2 -> sumNetworks o1 = sumNetworks o2.
Proof.
  intros Hp. rewrite !sumNetworks_spec. f_equal; f_equal; apply foldr_add_perm; by rewrite Hp.
Qed.

(** ** All containers *)

Section all_stats.
Context {W : Type} `{DockerAPI W} (w : W).

(** What one goroutine stores. *)
Definition entry (ctr : ContainerInfo) : option (string * ContainerMetrics) :=
  match getContainerStats w (ci_ID ctr) with
  | Err _ => None
  | Ok stats => Some (shortID (ci_ID ctr),
      set_metrics_identity (shortID (ci_ID ctr)) (ci_Name ctr) (ci_Image ctr) stats)
  end.

Lemma collectOne_entry m ctr :
  collectOne w m ctr = match entry ctr with Some (k, v) => <[k := v]> m | None => m end.
Proof. unfold collectOne, entry. by destruct (getContainerStats _ _). Qed.

Lemma entry_key ctr k v : entry ctr = Some (k, v) -> k = shortID (ci_ID ctr) /\ cm_ContainerID v = k.
Proof. unfold entry. destruct (getContainerStats _ _); [|done]. by intros [= <- <-]. Qed.

(** The map after the goroutines of [l], for distinct short identifiers. *)
Lemma collect_lookup l m k v :
  NoDup (shortID ∘ ci_ID <$> l) -> (forall c, c ∈ l -> m !! shortID (ci_ID c) = None) ->
  foldl (collectOne w) m l !! k = Some v <->
  m !! k = Some v \/ exists c, c ∈ l /\ entry c = Some (k, v).
Proof.
  revert m; induction l as [|c l IH]; intros m Hnd Hm; cbn [foldl]; [set_solver|].
  rewrite fmap_cons in Hnd. apply NoDup_cons in Hnd as [Hc Hnd].
  assert (forall c', c' ∈ l -> shortID (ci_ID c') <> shortID (ci_ID c)) as Hne.
  { intros c' Hin Heq. apply Hc. rewrite list_elem_of_fmap. by exists c'. }
  rewrite IH; [|done|].
  - rewrite collectOne_entry. destruct (entry c) as [[k' v']|] eqn:E.
    + destruct (entry_key _ _ _ E) as [-> _].
      rewrite lookup_insert_Some. setoid_rewrite elem_of_cons. split.
      * intros [[[<- <-]|[_ ?]]|(c' & ? & ?)]; eauto.
      * intros [Hk|(c' & [->|Hin] & Hc')]; [|left; left; by simplify_eq|right; eauto].
        left. right. split; [|done]. intros <-. by rewrite Hm in Hk by (by left).
    + setoid_rewrite elem_of_cons. split; [intros [?|(?&?&?)]; eauto|].
      intros [?|(c' & [->|?] & ?)]; [by left| |right; eauto]. congruence.
  - intros c' Hin. rewrite collectOne_entry. destruct (entry c) as [[k' v']|] eqn:E; [|apply Hm; by right].
    destruct (entry_key _ _ _ E) as [-> _].
    rewrite lookup_insert_ne by (intros Heq; by destruct (Hne c' Hin)). apply Hm. by right.
Qed.

(** C26. Parallel collection. For containers with distinct short identifiers the map
    [GetAllContainerStats] returns does not depend on the order in which the
    goroutines finish; it holds exactly one entry per monitored container whose stats
    could be read and decoded, under its short identifier and stamped with the
    container's identity, and containers that failed or are not monitored are
    left out. *)
Theorem GetAllContainerStats_spec sched includes containers :
  sched (monitored includes containers) ≡ₚ monitored includes containers ->
  NoDup (shortID ∘ ci_ID <$> monitored includes containers) ->
  exists m, GetAllContainerStats sched includes w containers = Ok m /\
    GetAllContainerStats id includes w containers = Ok m /\
    forall k v, m !! k = Some v <->
      exists c s, c ∈ containers /\ isMonitored includes (ci_Name c) = true /\
        k = shortID (ci_ID c) /\ getContainerStats w (ci_ID c) = Ok s /\
        v = set_metrics_identity k (ci_Name c) (ci_Image c) s.
Proof.
  intros Hp Hnd.
  assert (forall l, l ≡ₚ monitored includes containers -> forall k v,
    foldl (collectOne w) ∅ l !! k = Some v <->
    exists c, c ∈ monitored includes containers /\ entry c = Some (k, v)) as Hl.
  { intros l Hl k v. rewrite collect_lookup; [|by rewrite Hl|intros; apply lookup_empty].
    rewrite lookup_empty. setoid_rewrite Hl. naive_solver. }
  exists (foldl (collectOne w) ∅ (sched (monitored includes containers))). unfold GetAllContainerStats. split_and!; [done|..].
  - f_equal. apply map_eq. intros k. apply option_eq. intros v. by rewrite !Hl.
  - intros k v. rewrite Hl by done. unfold monitored, entry. setoid_rewrite list_elem_of_filter.
    split.
    + intros (c & [Hm Hin] & He). destruct (getContainerStats w (ci_ID c)) as [s|] eqn:Es; [|done].
      simplify_eq. by exists c, s.
    + intros (c & s & Hin & Hm & -> & Es & ->). exists c. by rewrite Es.
Qed.
End all_stats.

(** ** Witnesses *)

(** Two CPUs, half of one busy; a memory limit of four times the usage. *)
Definition ex_statsJSON : StatsJSON := {|
  st_CPUStats := {| cpu_TotalUsage := 150; cpu_PercpuUsage := []; cpu_SystemUsage := 400;
                    cpu_OnlineCPUs := 2 |};
  st_PreCPUStats := {| cpu_TotalUsage := 100; cpu_PercpuUsage := []; cpu_SystemUsage := 200;
                       cpu_OnlineCPUs := 2 |};
  st_MemoryUsage := 256; st_MemoryLimit := 1024;
  st_Networks := {["eth0" := (10, 2 ^ 64 - 1)]};
  st_IoServiceBytesRecursive := [{| bio_Op := "Read"; bio_Value := 7 |}; {| bio_Op := "sync"; bio_Value := 9 |}] |}.

Example cpu_percent_example : calculateCPUPercent ex_statsJSON = f64_of_Z 50.
Proof. vm_compute. reflexivity. Qed.

Lemma percentages_safe_witness :
  let m := metricsOfStats [] ex_statsJSON in
  nonneg (cm_CPUPercent m) /\ nonneg (cm_MemoryPercent m) /\
  cm_CPUPercent m <> S754_nan /\ f64_lt (cm_CPUPercent m) f64_zero = false /\
  cm_MemoryPercent m <> S754_nan /\ f64_lt (cm_MemoryPercent m) f64_zero = false.
Proof.
  apply (percentages_safe [] ex_statsJSON).
  unfold stats_in_range, is_u64; cbn; lia.
Defined.

Definition ex_container (id name : string) : ContainerInfo := {|
  ci_HostID := ""; ci_ID := id; ci_Name := name; ci_Image := "img"; ci_Status := "Up";
  ci_State := "running"; ci_Ports := "" |}.

Lemma GetAllContainerStats_spec_witness :
  exists m, @GetAllContainerStats ExDaemon ex_docker reverse ["we"] ex_daemon
      [ex_container "aaaaaaaaaaaa" "web"; ex_container "bbbbbbbbbbbb" "db"; ex_container "cccccccccccc" "wear"] = Ok m /\
    m !! "aaaaaaaaaaaa" <> None /\ m !! "bbbbbbbbbbbb" = None.
Proof.
  destruct (@GetAllContainerStats_spec ExDaemon ex_docker ex_daemon reverse ["we"]
      [ex_container "aaaaaaaaaaaa" "web"; ex_container "bbbbbbbbbbbb" "db"; ex_container "cccccccccccc" "wear"])
    as (m & E & _ & Hm).
  - vm_compute. apply Permutation_swap.
  - apply (bool_decide_unpack _). vm_compute. exact I.
  - exists m. split_and!; [done|..].
    + intros Hn. destruct (Hm "aaaaaaaaaaaa" (set_metrics_identity "aaaaaaaaaaaa" "web" "img"
        (metricsOfStats (map_to_list (st_Networks ex_stats_reply)) ex_stats_reply))) as [_ H].
      rewrite H in Hn; [done|]. eexists _, _. split_and!; [by left|vm_compute; reflexivity..].
    + destruct (m !! "bbbbbbbbbbbb") as [v|] eqn:Ev; [|done].
      apply Hm in Ev as (c & s & Hin & Hmon & Hk & _).
      rewrite !elem_of_cons in Hin. destruct Hin as [->|[->|[->|Hin]]]; [done..|set_solver].
Defined.
