(* ===== verification/DockerClient.v ===== *)
(** * The Docker client ([internal/docker/client.go])

    Listing and describing containers, the cache of their static data, networks,
    disk usage, pruning and the stress test, over the calls of [DockerAPI].  A
    conversion panics ([None]) on a container identifier shorter than twelve bytes. *)
From S2P Require Import Prelude.
From S2P Require Import GoStrings.
From S2P Require Import GoFloat.
From S2P Require Import GoTime.
From S2P Require Import Models.
From S2P Require Import Logger.
From S2P Require Import InternalMetrics.
From S2P Require Import DockerTypes.
From S2P Require Import ContainerEngine.
From S2P Require Import DockerStats.

(** ** Data *)

Record staticContainerData := mkStatic {
  s_Env : list string;
  s_Entrypoint : string;
  s_Command : string;
  s_Mounts : list string;
  s_RestartPolicy : string;
  s_CPULimit : float64;
  s_MemoryLimit : Z
}.

(** The client's state and the agent's metrics it updates. *)
Record Client := mkClient {
  includeContainers : list string;
  metadataCache : gmap string staticContainerData;
  prom : InternalMetrics
}.

Definition set_prom (f : InternalMetrics -> InternalMetrics) (c : Client) : Client := {|
  includeContainers := includeContainers c; metadataCache := metadataCache c; prom := f (prom c) |}.

Definition cache_insert (id : string) (s : staticContainerData) (c : Client) : Client := {|
  includeContainers := includeContainers c; metadataCache := <[id := s]> (metadataCache c);
  prom := prom c |}.

(** The zero counters the process starts with, and the client of [NewClient]. *)
Definition NewClient : Client := {|
  includeContainers := []; metadataCache := ∅;
  prom := {| MetadataCacheHits := 0; MetadataCacheMisses := 0; ClusterPushDuration := 0;
             ClusterPushFailures := 0; MonitoredContainers := f64_zero |} |}.

(** ** Conversions *)

Definition formatPort (p : Port) : string :=
  if negb (port_PublicPort p =? 0)
  then port_IP p +:+ ":" +:+ itoa (port_PublicPort p) +:+ "->" +:+ itoa (port_PrivatePort p) +:+ "/" +:+ port_Type p
  else itoa (port_PrivatePort p) +:+ "/" +:+ port_Type p.

(** The builder after the ports from index [i] on. *)
Fixpoint formatPorts_from (i : nat) (b : string) (ports : list Port) : string :=
  match ports with
  | [] => b
  | p :: ports' =>
      let b1 := if (0 <? i)%nat then b +:+ ", " else b in
      formatPorts_from (S i) (b1 +:+ formatPort p) ports'
  end.

Definition formatPorts (ports : list Port) : string :=
  match ports with [] => "" | _ => formatPorts_from 0 "" ports end.

Definition containerName (c : Container) : string :=
  match c_Names c with [] => "" | n :: _ => TrimPrefix n "/" end.

Definition toContainerInfo (c : Container) : option ContainerInfo :=
  id ← slice_to (c_ID c) 12;
  Some {| ci_HostID := ""; ci_ID := id; ci_Name := containerName c; ci_Image := c_Image c;
          ci_Status := c_Status c; ci_State := c_State c; ci_Ports := formatPorts (c_Ports c) |}.

(** The labels kept for display. *)
Definition relevant_label (k : string) : bool :=
  negb (HasPrefix k "desktop.docker.") && negb (HasPrefix k "org.opencontainers.").

(** [zone] is the local offset and [ordN] the order of the range over the networks. *)
Definition toContainerDisplay (zone : Z) (ordN : gset string -> list string) (c : Container)
    : option ContainerDisplay :=
  id ← slice_to (c_ID c) 12;
  Some {|
    cd_HostID := ""; cd_ID := id; cd_Name := containerName c; cd_Image := c_Image c;
    cd_Status := c_Status c; cd_State := c_State c; cd_Command := ellipsize 60 (c_Command c);
    cd_Ports := formatPorts (c_Ports c); cd_Created := Format_seconds zone (Unix (c_Created c));
    cd_Networks := match c_Networks c with Some ns => ordN ns | None => [] end;
    cd_Labels := filter (fun kv => relevant_label kv.1 = true) (c_Labels c);
    cd_SizeRw := ""; cd_Env := []; cd_HealthStatus := ""; cd_HealthLog := ""; cd_Mounts := [];
    cd_RestartPolicy := ""; cd_RestartCount := 0; cd_CPULimit := f64_zero; cd_MemoryLimit := 0;
    cd_Entrypoint := "" |}.

(** ** Enrichment from an inspection

    Each function sets the fields its source sets and keeps the others. *)
Section enrich.
Context `{Hcase : UnicodeCase}.

Definition set_config (env : list string) (entry : string) (cd : ContainerDisplay) : ContainerDisplay := {|
  cd_HostID := cd_HostID cd; cd_ID := cd_ID cd; cd_Name := cd_Name cd; cd_Image := cd_Image cd;
  cd_Status := cd_Status cd; cd_State := cd_State cd; cd_Command := cd_Command cd;
  cd_Ports := cd_Ports cd; cd_Created := cd_Created cd; cd_Networks := cd_Networks cd;
  cd_Labels := cd_Labels cd; cd_SizeRw := cd_SizeRw cd; cd_Env := env;
  cd_HealthStatus := cd_HealthStatus cd; cd_HealthLog := cd_HealthLog cd; cd_Mounts := cd_Mounts cd;
  cd_RestartPolicy := cd_RestartPolicy cd; cd_RestartCount := cd_RestartCount cd;
  cd_CPULimit := cd_CPULimit cd; cd_MemoryLimit := cd_MemoryLimit cd; cd_Entrypoint := entry |}.

Definition set_health (status log : string) (cd : ContainerDisplay) : ContainerDisplay := {|
  cd_HostID := cd_HostID cd; cd_ID := cd_ID cd; cd_Name := cd_Name cd; cd_Image := cd_Image cd;
  cd_Status := cd_Status cd; cd_State := cd_State cd; cd_Command := cd_Command cd;
  cd_Ports := cd_Ports cd; cd_Created := cd_Created cd; cd_Networks := cd_Networks cd;
  cd_Labels := cd_Labels cd; cd_SizeRw := cd_SizeRw cd; cd_Env := cd_Env cd;
  cd_HealthStatus := status; cd_HealthLog := log; cd_Mounts := cd_Mounts cd;
  cd_RestartPolicy := cd_RestartPolicy cd; cd_RestartCount := cd_RestartCount cd;
  cd_CPULimit := cd_CPULimit cd; cd_MemoryLimit := cd_MemoryLimit cd;
  cd_Entrypoint := cd_Entrypoint cd |}.

Definition set_host (policy : string) (restarts : Z) (cpu : float64) (mem : Z) (cd : ContainerDisplay)
    : ContainerDisplay := {|
  cd_HostID := cd_HostID cd; cd_ID := cd_ID cd; cd_Name := cd_Name cd; cd_Image := cd_Image cd;
  cd_Status := cd_Status cd; cd_State := cd_State cd; cd_Command := cd_Command cd;
  cd_Ports := cd_Ports cd; cd_Created := cd_Created cd; cd_Networks := cd_Networks cd;
  cd_Labels := cd_Labels cd; cd_SizeRw := cd_SizeRw cd; cd_Env := cd_Env cd;
  cd_HealthStatus := cd_HealthStatus cd; cd_HealthLog := cd_HealthLog cd; cd_Mounts := cd_Mounts cd;
  cd_RestartPolicy := policy; cd_RestartCount := restarts; cd_CPULimit := cpu;
  cd_MemoryLimit := mem; cd_Entrypoint := cd_Entrypoint cd |}.

Definition set_mounts (mounts : list string) (cd : ContainerDisplay) : ContainerDisplay := {|
  cd_HostID := cd_HostID cd; cd_ID := cd_ID cd; cd_Name := cd_Name cd; cd_Image := cd_Image cd;
  cd_Status := cd_Status cd; cd_State := cd_State cd; cd_Command := cd_Command cd;
  cd_Ports := cd_Ports cd; cd_Created := cd_Created cd; cd_Networks := cd_Networks cd;
  cd_Labels := cd_Labels cd; cd_SizeRw := cd_SizeRw cd; cd_Env := cd_Env cd;
  cd_HealthStatus := cd_HealthStatus cd; cd_HealthLog := cd_HealthLog cd; cd_Mounts := mounts;
  cd_RestartPolicy := cd_RestartPolicy cd; cd_RestartCount := cd_RestartCount cd;
  cd_CPULimit := cd_CPULimit cd; cd_MemoryLimit := cd_MemoryLimit cd;
  cd_Entrypoint := cd_Entrypoint cd |}.

Definition set_command (cmd : string) (cd : ContainerDisplay) : ContainerDisplay := {|
  cd_HostID := cd_HostID cd; cd_ID := cd_ID cd; cd_Name := cd_Name cd; cd_Image := cd_Image cd;
  cd_Status := cd_Status cd; cd_State := cd_State cd; cd_Command := cmd;
  cd_Ports := cd_Ports cd; cd_Created := cd_Created cd; cd_Networks := cd_Networks cd;
  cd_Labels := cd_Labels cd; cd_SizeRw := cd_SizeRw cd; cd_Env := cd_Env cd;
  cd_HealthStatus := cd_HealthStatus cd; cd_HealthLog := cd_HealthLog cd; cd_Mounts := cd_Mounts cd;
  cd_RestartPolicy := cd_RestartPolicy cd; cd_RestartCount := cd_RestartCount cd;
  cd_CPULimit := cd_CPULimit cd; cd_MemoryLimit := cd_MemoryLimit cd;
  cd_Entrypoint := cd_Entrypoint cd |}.

Definition fullCommand (cfg : ContainerConfig) : string :=
  let entry := match cfg_Entrypoint cfg with [] => "" | _ => Join (cfg_Entrypoint cfg) " " end in
  match cfg_Cmd cfg with
  | [] => entry
  | _ => let cmdStr := Join (cfg_Cmd cfg) " " in
         if bool_decide (entry <> "") then entry +:+ " " +:+ cmdStr else cmdStr
  end.

Definition enrichConfigDetails (inspect : ContainerJSON) (cd : ContainerDisplay) : ContainerDisplay :=
  match cj_Config inspect with
  | None => cd
  | Some cfg => set_config (Redact <$> cfg_Env cfg) (ellipsize 80 (Redact (fullCommand cfg))) cd
  end.

Definition enrichHealthDetails (inspect : ContainerJSON) (cd : ContainerDisplay) : ContainerDisplay :=
  match cj_State inspect with
  | None | Some None => cd
  | Some (Some h) =>
      set_health (h_Status h)
        (match last (h_Log h) with
         | Some out => ellipsize 120 (TrimSpace out)
         | None => cd_HealthLog cd
         end) cd
  end.

Definition restartPolicy (hc : HostConfig) : string :=
  hc_RestartPolicyName hc +:+
  (if 0 <? hc_MaximumRetryCount hc then ":" +:+ itoa (hc_MaximumRetryCount hc) else "").

Definition enrichHostConfigDetails (inspect : ContainerJSON) (cd : ContainerDisplay) : ContainerDisplay :=
  match cj_HostConfig inspect with
  | None => cd
  | Some hc =>
      set_host (restartPolicy hc)
        (if 0 <? cj_RestartCount inspect then cj_RestartCount inspect else cd_RestartCount cd)
        (if 0 <? hc_NanoCPUs hc then f64_div (f64_of_Z (hc_NanoCPUs hc)) (f64_of_Z (10 ^ 9)) else cd_CPULimit cd)
        (if 0 <? hc_Memory hc then hc_Memory hc else cd_MemoryLimit cd) cd
  end.

Definition mountLabel (mt : MountPoint) : string :=
  ellipsize 80 (mt_Source mt +:+ " → " +:+ mt_Destination mt +:+ " (" +:+ mt_Type mt +:+ ")").

Definition enrichMountDetails (inspect : ContainerJSON) (cd : ContainerDisplay) : ContainerDisplay :=
  foldl (fun cd mt => set_mounts (cd_Mounts cd ++ [mountLabel mt]) cd) cd (cj_Mounts inspect).

(** The four enrichments in order, and the data cached afterwards. *)
Definition enrichAll (inspect : ContainerJSON) (cd : ContainerDisplay) : ContainerDisplay :=
  enrichMountDetails inspect (enrichHostConfigDetails inspect
    (enrichHealthDetails inspect (enrichConfigDetails inspect cd))).

Definition staticOf (cd : ContainerDisplay) : staticContainerData := {|
  s_Env := cd_Env cd; s_Entrypoint := cd_Entrypoint cd; s_Command := cd_Command cd;
  s_Mounts := cd_Mounts cd; s_RestartPolicy := cd_RestartPolicy cd; s_CPULimit := cd_CPULimit cd;
  s_MemoryLimit := cd_MemoryLimit cd |}.

(** A hit fills the display from the cache. *)
Definition applyCached (s : staticContainerData) (cd : ContainerDisplay) : ContainerDisplay :=
  let cd1 := set_config (s_Env s) (s_Entrypoint s) cd in
  let cd2 := if bool_decide (s_Command s <> "") then set_command (s_Command s) cd1 else cd1 in
  let cd3 := set_mounts (s_Mounts s) cd2 in
  set_host (s_RestartPolicy s) (cd_RestartCount cd3) (s_CPULimit s) (s_MemoryLimit s) cd3.

Context {W : Type} `{Hapi : DockerAPI W}.

Definition enrichContainerDetails (w : W) (id : string) (cd : ContainerDisplay) (cl : Client)
    : ContainerDisplay * Client :=
  match metadataCache cl !! id with
  | Some cached => (applyCached cached cd, set_prom inc_hits cl)
  | None =>
      let cl1 := set_prom inc_misses cl in
      match cli_ContainerInspect w id with
      | Err _ => (cd, cl1)
      | Ok inspect =>
          let cd' := enrichAll inspect cd in
          (cd', cache_insert id (staticOf cd') cl1)
      end
  end.
End enrich.

(** ** Operations *)

Section operations.
Context `{Hcase : UnicodeCase} {W : Type} `{Hapi : DockerAPI W}.

(** [ListRunningContainers]: the conversion runs on every container before the filter. *)
Definition client_ListRunningContainers (w : W) (cl : Client) (all : bool)
    : option (result (list ContainerInfo)) :=
  match cli_ContainerList w all with
  | Err e => Some (Err ("docker.ListRunningContainers: failed to list: " +:+ e))
  | Ok containers =>
      infos ← mapM toContainerInfo containers;
      Some (Ok (filter (fun info => isMonitored (includeContainers cl) (ci_Name info) = true) infos))
  end.

(** The goroutine of index [idx]: it reads and writes only its own display. *)
Definition enrich_goroutine (w : W) (ids : list string) (st : list ContainerDisplay * Client) (idx : nat)
    : list ContainerDisplay * Client :=
  match ids !! idx, st.1 !! idx with
  | Some id, Some cd =>
      let '(cd', cl') := enrichContainerDetails w id cd st.2 in (<[idx := cd']> st.1, cl')
  | _, _ => st
  end.

(** [sched] orders the goroutines of the second pass. *)
Definition client_ListRunningContainersDetailed (zone : Z) (ordN : gset string -> list string)
    (sched : list nat -> list nat) (all : bool) (w : W) (cl : Client)
    : option (result (list ContainerDisplay) * Client) :=
  match cli_ContainerList w all with
  | Err e => Some (Err ("docker.ListRunningContainersDetailed: failed to list: " +:+ e), cl)
  | Ok containers =>
      cds ← mapM (toContainerDisplay zone ordN) containers;
      let kept := filter (fun p => isMonitored (includeContainers cl) (cd_Name p.2) = true)
                    (zip (c_ID <$> containers) cds) in
      let ids := kept.*1 in
      let monitored := kept.*2 in
      match monitored with
      | [] => Some (Ok [], set_prom (set_monitored f64_zero) cl)
      | _ =>
          let cl1 := set_prom (set_monitored (f64_of_Z (Z.of_nat (length monitored)))) cl in
          let '(res, cl2) := foldl (enrich_goroutine w ids) (monitored, cl1)
                               (sched (seq 0 (length monitored))) in
          Some (Ok res, cl2)
      end
  end.

Definition client_StopContainer (id : string) (w : W) : result unit * W :=
  let '(r, w') := cli_ContainerStop id 10 w in (wrap_err "docker.StopContainer: " r, w').

Definition client_RestartContainer (id : string) (w : W) : result unit * W :=
  let '(r, w') := cli_ContainerRestart id 10 w in (wrap_err "docker.RestartContainer: " r, w').

Definition client_InspectContainer (w : W) (id : string) : result ContainerJSON :=
  wrap_err "docker.InspectContainer: " (cli_ContainerInspect w id).

(** The bytes a prune reports, nothing when it failed. *)
Definition reclaimed (r : result Z) : Z := match r with Ok n => n | Err _ => 0 end.

Definition client_PruneUnused (w : W) : result Z * W :=
  let '(r1, w1) := cli_ContainersPrune w in
  let t1 := wrap_u64 (reclaimed r1) in
  let '(_, w2) := cli_NetworksPrune w1 in
  let '(r3, w3) := cli_ImagesPrune None w2 in
  (Ok (wrap_u64 (t1 + reclaimed r3)), w3).

Definition client_PruneImages (w : W) : result Z * W := cli_ImagesPrune (Some "true") w.

Definition client_PruneVolumes (w : W) : result Z * W := cli_VolumesPrune w.

(** The goroutine of network [i] fills slot [i] of [results]. *)
Definition inspect_goroutine (w : W) (nets : list string) (results : list NetworkInspect) (i : nat)
    : list NetworkInspect :=
  match nets !! i with
  | None => results
  | Some netID =>
      match cli_NetworkInspect w netID with
      | Ok insp => <[i := insp]> results
      | Err _ => results
      end
  end.

Definition client_ListNetworks (sched : list nat -> list nat) (w : W) : result (list NetworkInspect) :=
  match cli_NetworkList w with
  | Err e => Err ("docker.ListNetworks: " +:+ e)
  | Ok nets =>
      let results := foldl (inspect_goroutine w nets) (replicate (length nets) zeroInspect)
                       (sched (seq 0 (length nets))) in
      Ok (filter (fun res => ni_ID res <> "") results)
  end.

Definition client_GetDiskUsage (w : W) : result SystemDiskUsage :=
  match cli_DiskUsage w with
  | Err e => Err ("docker.GetDiskUsage: " +:+ e)
  | Ok du =>
      let img := foldl (fun acc '(containers, shared, size) =>
        if containers =? 0 then wrap_i64 (acc + wrap_i64 (shared + wrap_i64 (size - shared))) else acc)
        0 (du_Images du) in
      let vol := foldl (fun acc usage =>
        match usage with
        | Some (refCount, size) => if refCount =? 0 then wrap_i64 (acc + size) else acc
        | None => acc
        end) 0 (du_Volumes du) in
      Ok {| ImagesReclaimable := img; VolumesReclaimable := vol |}
  end.

Definition client_GetSystemInfo (w : W) : result (gmap string string) :=
  match cli_ServerVersion w with
  | Err e => Err ("docker.GetSystemInfo: failed to get version: " +:+ e)
  | Ok v =>
      match cli_Info w with
      | Err e => Err ("docker.GetSystemInfo: failed to get info: " +:+ e)
      | Ok info =>
          let memoryGB := f64_div (f64_of_Z (si_MemTotal info)) (f64_of_Z (1024 * 1024 * 1024)) in
          Ok (list_to_map [
            ("Server Version", sv_Version v);
            ("API Version", sv_APIVersion v);
            ("OS/Arch", sv_Os v +:+ "/" +:+ sv_Arch v);
            ("Kernel", sv_KernelVersion v);
            ("Total Memory", format_fixed 1 memoryGB +:+ " GB");
            ("Containers", itoa (si_Containers info) +:+ " total (" +:+ itoa (si_ContainersRunning info) +:+
              " running, " +:+ itoa (si_ContainersStopped info) +:+ " stopped, " +:+
              itoa (si_ContainersPaused info) +:+ " paused)");
            ("Images", itoa (si_Images info))])
      end
  end.

(** *** The stress test *)

Definition stressImage : string := "ghcr.io/alexei-led/stress-ng:latest".
Definition stressName : string := "castle-rock-stress".

(** The arguments of stress-ng for a mode. *)
Definition stressArgs (mode : string) (durationSec : Z) : option (list string) :=
  let d := itoa durationSec +:+ "s" in
  if bool_decide (mode = "cpu") then Some ["--cpu"; "2"; "--timeout"; d]
  else if bool_decide (mode = "memory") then
    Some ["--vm"; "1"; "--vm-bytes"; "256M"; "--vm-hang"; "0"; "--timeout"; d]
  else if bool_decide (mode = "both") then
    Some ["--cpu"; "2"; "--vm"; "1"; "--vm-bytes"; "256M"; "--vm-hang"; "0"; "--timeout"; d]
  else None.

(** Create and start the container, once the image is there. *)
Definition stress_create_start (cmd : list string) (w : W) : result unit * W :=
  let '(r, w1) := cli_ContainerCreate stressImage cmd true stressName w in
  match r with
  | Err e => (Err ("docker.RunStressTest: failed to create container: " +:+ e), w1)
  | Ok id =>
      let '(r', w2) := cli_ContainerStart id w1 in
      (wrap_err "docker.RunStressTest: failed to start container: " r', w2)
  end.

Definition client_RunStressTest (mode : string) (durationSec : Z) (w : W) : result unit * W :=
  match stressArgs mode durationSec with
  | None => (Err ("docker.RunStressTest: invalid mode: " +:+ mode), w)
  | Some cmd =>
      let '(_, w1) := cli_ContainerRemove stressName true w in
      match cli_ImageInspectWithRaw w1 stressImage with
      | Ok _ => stress_create_start cmd w1
      | Err _ =>
          let '(r, w2) := cli_ImagePull stressImage w1 in
          match r with
          | Err e => (Err ("docker.RunStressTest: failed to pull image " +:+ stressImage +:+ ": " +:+ e), w2)
          | Ok _ => stress_create_start cmd w2
          end
      end
  end.

(** *** The engine interface *)

(** Lift a call that changes the daemon to the pair of daemon and client. *)
Definition on_daemon {A} (f : W -> A * W) (e : W * Client) : A * (W * Client) :=
  let '(a, w') := f e.1 in (a, (w', e.2)).

Definition client_SetIncludeContainers (includes : list string) (cl : Client) : Client := {|
  includeContainers := includes; metadataCache := metadataCache cl; prom := prom cl |}.

(** The client implements [ContainerEngine]; goroutines run in creation order, which
    the theorems below show to be no loss. *)
Definition docker_engine (zone : Z) : ContainerEngine (W * Client) := {|
  ListRunningContainers := fun e all => client_ListRunningContainers e.1 e.2 all;
  ListRunningContainersDetailed := fun all e =>
    '(r, cl) ← client_ListRunningContainersDetailed zone elements id all e.1 e.2; Some (r, (e.1, cl));
  ContainerEngine.GetAllContainerStats := fun e cs => DockerStats.GetAllContainerStats id (includeContainers e.2) e.1 cs;
  StopContainer := fun id => on_daemon (client_StopContainer id);
  RestartContainer := fun id => on_daemon (client_RestartContainer id);
  InspectContainer := fun e id => client_InspectContainer e.1 id;
  SetIncludeContainers := fun includes e => (e.1, client_SetIncludeContainers includes e.2);
  RunStressTest := fun mode d => on_daemon (client_RunStressTest mode d);
  PruneUnused := on_daemon client_PruneUnused;
  PruneImages := on_daemon client_PruneImages;
  PruneVolumes := on_daemon client_PruneVolumes;
  GetDiskUsage := fun e => client_GetDiskUsage e.1;
  ListNetworks := fun e => client_ListNetworks id e.1;
  GetSystemInfo := fun e => client_GetSystemInfo e.1
|}.
End operations.

(** ** Listing *)

Section listing.
Context `{Hcase : UnicodeCase} {W : Type} `{Hapi : DockerAPI W}.

Definition long_id (c : Container) : Prop := (12 <= String.length (c_ID c))%nat.

(** The record of a container whose identifier is long enough. *)
Definition infoOf (c : Container) : ContainerInfo := {|
  ci_HostID := ""; ci_ID := str_take 12 (c_ID c); ci_Name := containerName c; ci_Image := c_Image c;
  ci_Status := c_Status c; ci_State := c_State c; ci_Ports := formatPorts (c_Ports c) |}.

Lemma slice_12 (s : string) :
  slice_to s 12 = if decide (12 <= String.length s)%nat then Some (str_take 12 s) else None.
Proof. unfold slice_to. destruct (Nat.leb_spec 12 (String.length s)); by case_decide; try lia. Qed.

Lemma toContainerInfo_long c : long_id c -> toContainerInfo c = Some (infoOf c).
Proof. intros Hc. unfold toContainerInfo. rewrite slice_12. by rewrite decide_True. Qed.

Lemma toContainerInfo_short c : ~ long_id c -> toContainerInfo c = None.
Proof. intros Hc. unfold toContainerInfo. rewrite slice_12. by rewrite decide_False. Qed.

Lemma mapM_toContainerInfo cs :
  mapM toContainerInfo cs =
  if decide (Forall long_id cs) then Some (infoOf <$> cs) else None.
Proof.
  case_decide as Hd.
  - apply mapM_Some_2. induction Hd; constructor; [by apply toContainerInfo_long|done].
  - destruct (mapM toContainerInfo cs) as [l|] eqn:E; [|done]. exfalso. apply Hd.
    apply mapM_Some_1 in E. clear Hd. induction E as [|c i cs l Hc _ IH]; constructor; [|done].
    destruct (decide (long_id c)); [done|]. by rewrite toContainerInfo_short in Hc.
Qed.

(** [ListRunningContainers] panics exactly when the daemon lists a container whose
    identifier is shorter than twelve bytes; otherwise it returns the daemon's
    containers in order, converted, without those the include filter rejects, and
    every returned identifier has twelve bytes. *)
Theorem ListRunningContainers_spec w cl all cs :
  cli_ContainerList w all = Ok cs ->
  (client_ListRunningContainers w cl all = None <-> Exists (fun c => (String.length (c_ID c) < 12)%nat) cs) /\
  (Forall long_id cs ->
    exists l, client_ListRunningContainers w cl all = Some (Ok l) /\
      l = infoOf <$> filter (fun c => isMonitored (includeContainers cl) (containerName c) = true) cs /\
      Forall (fun i => String.length (ci_ID i) = 12%nat) l).
Proof.
  intros Hl. unfold client_ListRunningContainers. rewrite Hl, mapM_toContainerInfo. split.
  - destruct (decide (Forall long_id cs)) as [Hd|Hd]; cbn; split; try done.
    + intros [c [Hin Hc]]%Exists_exists. rewrite Forall_forall in Hd. specialize (Hd c Hin).
      unfold long_id in Hd. lia.
    + intros _. apply not_Forall_Exists in Hd; [|solve_decision].
      eapply Exists_impl; [done|]. intros c Hc. unfold compose, long_id in Hc. lia.
  - intros Hd. rewrite decide_True by done. eexists. split; [reflexivity|]. split.
    + clear Hl. induction Hd as [|c cs Hc Hd IH]; [done|]. rewrite fmap_cons, !filter_cons.
      cbn [infoOf ci_Name]. case_decide; cbn; by rewrite IH.
    + apply Forall_forall. intros i [_ (c & -> & Hin)%list_elem_of_fmap]%list_elem_of_filter.
      rewrite Forall_forall in Hd. cbn [infoOf ci_ID]. apply str_take_length. by apply Hd.
Qed.

(** ** Networks *)

(** The answer that fills the slot of a network. *)
Definition slot (w : W) (netID : string) : NetworkInspect :=
  match cli_NetworkInspect w netID with Ok insp => insp | Err _ => zeroInspect end.

Lemma inspect_goroutine_lookup w nets done res ord i :
  (forall j, res !! j = (fun netID => if decide (j ∈ done) then slot w netID else zeroInspect) <$> nets !! j) ->
  foldl (inspect_goroutine w nets) res ord !! i =
  (fun netID => if decide (i ∈ done ++ ord) then slot w netID else zeroInspect) <$> nets !! i.
Proof.
  revert done res; induction ord as [|k ord IH]; intros done res Hres; cbn [foldl].
  - by rewrite app_nil_r.
  - rewrite (IH (done ++ [k])); [by rewrite <-app_assoc|]. clear IH i. intros j.
    unfold inspect_goroutine.
    assert (decide (j ∈ done ++ [k]) = decide (j ∈ done ++ [k])) as _ by done.
    destruct (nets !! k) as [netID|] eqn:Ek.
    + destruct (cli_NetworkInspect w netID) as [insp|] eqn:Ei.
      * destruct (decide (j = k)) as [->|Hne].
        -- rewrite list_lookup_insert_eq by (apply lookup_lt_is_Some; rewrite Hres, Ek; cbn; eauto).
           rewrite Ek. cbn. rewrite decide_True by set_solver. unfold slot. by rewrite Ei.
        -- rewrite list_lookup_insert_ne by done. rewrite Hres. destruct (nets !! j); [|done]. cbn.
           f_equal. apply decide_ext. set_solver.
      * rewrite Hres. destruct (nets !! j) as [n|] eqn:Ej; [|done]. cbn. f_equal.
        destruct (decide (j ∈ done)); [by rewrite decide_True by set_solver|].
        destruct (decide (j ∈ done ++ [k])) as [Hin|]; [|done].
        assert (j = k) as -> by set_solver. rewrite Ek in Ej. simplify_eq. unfold slot. by rewrite Ei.
    + rewrite Hres. destruct (nets !! j) as [n|] eqn:Ej; [|done]. cbn. f_equal. apply decide_ext.
      assert (j <> k) by congruence. set_solver.
Qed.

Lemma inspect_all w nets ord :
  ord ≡ₚ seq 0 (length nets) ->
  foldl (inspect_goroutine w nets) (replicate (length nets) zeroInspect) ord = slot w <$> nets.
Proof.
  intros Hp. apply list_eq. intros i. rewrite (inspect_goroutine_lookup w nets []).
  - rewrite list_lookup_fmap. destruct (nets !! i) as [n|] eqn:Ei; [|done]. cbn. f_equal.
    rewrite decide_True; [done|]. rewrite Hp. apply elem_of_seq. apply lookup_lt_Some in Ei. lia.
  - intros j. destruct (nets !! j) as [n|] eqn:Ej.
    + rewrite lookup_replicate_2 by (by eapply lookup_lt_Some). cbn. rewrite decide_False; [done|set_solver].
    + by apply lookup_replicate_None, lookup_ge_None.
Qed.

(** [ListNetworks] is deterministic: however the goroutines interleave, the result
    lists in the daemon's order the inspections that succeeded, without those that
    failed (their slots stay zero) or that carry no identifier. *)
Theorem ListNetworks_spec sched w nets :
  cli_NetworkList w = Ok nets ->
  sched (seq 0 (length nets)) ≡ₚ seq 0 (length nets) ->
  client_ListNetworks sched w =
  Ok (omap (fun netID => match cli_NetworkInspect w netID with
                         | Ok insp => if decide (ni_ID insp = "") then None else Some insp
                         | Err _ => None end) nets).
Proof.
  intros Hn Hs. unfold client_ListNetworks. rewrite Hn, inspect_all by done. f_equal. clear Hs Hn.
  induction nets as [|n nets IH]; [done|]. rewrite fmap_cons, filter_cons. cbn [omap list_omap].
  assert (slot w n = match cli_NetworkInspect w n with Ok insp => insp | Err _ => zeroInspect end)
    as Es by done.
  destruct (cli_NetworkInspect w n) as [insp|]; rewrite Es, IH; cbn.
  - destruct (decide (ni_ID insp = "")) as [E|E]; [by rewrite decide_False by (by intros ?)|].
    by rewrite decide_True by done.
  - done.
Qed.

(** ** Pruning and disk usage *)

(** [PruneUnused] never fails: it prunes containers, then networks, then images,
    each on the daemon the previous call left, ignores their errors, and returns the
    bytes of the successful container and image prunes, modulo [2^64]. *)
Theorem PruneUnused_spec w :
  let '(r1, w1) := cli_ContainersPrune w in
  let '(_, w2) := cli_NetworksPrune w1 in
  let '(r3, w3) := cli_ImagesPrune None w2 in
  client_PruneUnused w = (Ok (wrap_u64 (reclaimed r1 + reclaimed r3)), w3) /\
  (is_u64 (reclaimed r1 + reclaimed r3) ->
    client_PruneUnused w = (Ok (reclaimed r1 + reclaimed r3), w3)).
Proof.
  unfold client_PruneUnused. destruct (cli_ContainersPrune w) as [r1 w1].
  destruct (cli_NetworksPrune w1) as [r2 w2]. destruct (cli_ImagesPrune None w2) as [r3 w3].
  rewrite wrap_u64_add_l. split; [done|]. intros Hu. by rewrite wrap_u64_small.
Qed.
End listing.

(** ** The metadata cache *)

Section enrichment.
Context `{Hcase : UnicodeCase} {W : Type} `{Hapi : DockerAPI W}.

Lemma enrichMount_eq j cd :
  enrichMountDetails j cd = set_mounts (cd_Mounts cd ++ (mountLabel <$> cj_Mounts j)) cd.
Proof.
  unfold enrichMountDetails. revert cd; induction (cj_Mounts j) as [|mt ms IH]; intros cd; cbn [foldl].
  - rewrite app_nil_r. by destruct cd.
  - rewrite IH. cbn [cd_Mounts set_mounts]. by rewrite <-app_assoc.
Qed.

Lemma enrichAll_command j cd : cd_Command (enrichAll j cd) = cd_Command cd.
Proof.
  unfold enrichAll. rewrite enrichMount_eq. unfold enrichHostConfigDetails, enrichHealthDetails, enrichConfigDetails.
  by destruct (cj_HostConfig j), (cj_State j) as [[|]|], (cj_Config j).
Qed.

(** The fields the cache does not hold come from the listing alone. *)
Definition without_dynamic (cd base : ContainerDisplay) : ContainerDisplay :=
  set_health (cd_HealthStatus base) (cd_HealthLog base)
    (set_host (cd_RestartPolicy cd) (cd_RestartCount base) (cd_CPULimit cd) (cd_MemoryLimit cd) cd).

Lemma applyCached_static j cd :
  applyCached (staticOf (enrichAll j cd)) cd = without_dynamic (enrichAll j cd) cd.
Proof.
  unfold applyCached, staticOf, without_dynamic. cbn [s_Env s_Entrypoint s_Command s_Mounts
    s_RestartPolicy s_CPULimit s_MemoryLimit]. rewrite enrichAll_command.
  unfold enrichAll. rewrite enrichMount_eq.
  unfold enrichHostConfigDetails, enrichHealthDetails, enrichConfigDetails.
  destruct (cj_HostConfig j), (cj_State j) as [[|]|], (cj_Config j), cd; cbn; case_bool_decide; done.
Qed.

(** The cache serves what the inspection found. After a miss whose inspection
    succeeded, a second enrichment of the same listing entry, on any later daemon
    state and with no further inspection, gives the same display except for the health
    and the restart count, which fall back to the listing's; it counts one miss and
    one hit. *)
Theorem metadata_cache_hit w w' id cd cl j :
  metadataCache cl !! id = None -> cli_ContainerInspect w id = Ok j ->
  let '(cd1, cl1) := enrichContainerDetails w id cd cl in
  let '(cd2, cl2) := enrichContainerDetails w' id cd cl1 in
  cd1 = enrichAll j cd /\ cd2 = without_dynamic cd1 cd /\
  metadataCache cl2 = metadataCache cl1 /\
  prom cl2 = inc_hits (inc_misses (prom cl)).
Proof.
  intros Hc Hj. unfold enrichContainerDetails at 1. rewrite Hc, Hj.
  unfold enrichContainerDetails. cbn [metadataCache cache_insert]. rewrite lookup_insert_eq.
  by rewrite applyCached_static.
Qed.

(** *** Secrets in the environment *)

Definition redacted (s : string) : Prop := Redact s = s.

(** The cache holds redacted variables only. *)
Definition cache_redacted (cl : Client) : Prop :=
  forall id s, metadataCache cl !! id = Some s -> Forall redacted (s_Env s).

Lemma enrichAll_env j cd :
  cd_Env (enrichAll j cd) = match cj_Config j with Some cfg => Redact <$> cfg_Env cfg | None => cd_Env cd end.
Proof.
  unfold enrichAll. rewrite enrichMount_eq.
  unfold enrichHostConfigDetails, enrichHealthDetails, enrichConfigDetails.
  by destruct (cj_HostConfig j), (cj_State j) as [[|]|], (cj_Config j).
Qed.

Lemma enrich_redacted w id cd cl :
  cache_redacted cl -> Forall redacted (cd_Env cd) ->
  Forall redacted (cd_Env (enrichContainerDetails w id cd cl).1) /\
  cache_redacted (enrichContainerDetails w id cd cl).2.
Proof.
  intros Hcl Hcd. unfold enrichContainerDetails.
  destruct (metadataCache cl !! id) as [s|] eqn:Es.
  - cbn [fst snd]. split; [|done]. unfold applyCached. case_bool_decide; by apply (Hcl id).
  - destruct (cli_ContainerInspect w id) as [j|e]; [|done]. cbn [fst snd].
    assert (Forall redacted (cd_Env (enrichAll j cd))) as Hr.
    { rewrite enrichAll_env. destruct (cj_Config j) as [cfg|]; [|done].
      apply Forall_fmap, Forall_true. intros s. apply Redact_idempotent. }
    split; [done|]. intros id' s'. cbn [metadataCache cache_insert].
    intros [[<- <-]|[_ Hs]]%lookup_insert_Some; [done|by apply (Hcl id')].
Qed.

Lemma goroutines_redacted w ids ord cds cl :
  cache_redacted cl -> Forall (fun cd => Forall redacted (cd_Env cd)) cds ->
  let st := foldl (enrich_goroutine w ids) (cds, cl) ord in
  cache_redacted st.2 /\ Forall (fun cd => Forall redacted (cd_Env cd)) st.1.
Proof.
  intros Hcl Hcds st. unfold st.
  apply (foldl_inv (fun st => cache_redacted st.2 /\
    Forall (fun cd => Forall redacted (cd_Env cd)) st.1)); [done|].
  intros [cds' cl'] idx _ [Hc Hd]. unfold enrich_goroutine. cbn [fst snd] in *.
  destruct (ids !! idx) as [id|]; [|done]. destruct (cds' !! idx) as [cd|] eqn:Ecd; [|done].
  destruct (enrich_redacted w id cd cl' Hc) as [H1 H2]; [exact (Forall_lookup_1 _ _ _ _ Hd Ecd)|].
  destruct (enrichContainerDetails w id cd cl') as [cd' cl'']. cbn [fst snd] in *.
  split; [done|]. by apply Forall_insert.
Qed.

Lemma listed_env zone ordN cs cds :
  mapM (toContainerDisplay zone ordN) cs = Some cds -> Forall (fun cd => cd_Env cd = []) cds.
Proof.
  intros E%mapM_Some_1. induction E as [|c cd cs cds Hc _ IH]; constructor; [|done].
  unfold toContainerDisplay in Hc. destruct (slice_to _ _); [|done]. by simplify_eq/=.
Qed.

(** C21. No unredacted environment variable is ever displayed: if the client's cache
    holds redacted variables only, which a new client's does, then so it does after
    any detailed listing, and every variable of every container the listing returns
    is one [Redact] leaves unchanged, whichever containers came from the cache. *)
Theorem listing_env_redacted zone ordN sched all w cl r cl' :
  cache_redacted cl ->
  client_ListRunningContainersDetailed zone ordN sched all w cl = Some (r, cl') ->
  cache_redacted NewClient /\ cache_redacted cl' /\
  forall cds, r = Ok cds -> Forall (fun cd => Forall redacted (cd_Env cd)) cds.
Proof.
  intros Hcl Hr. split; [intros id s Hs; cbn in Hs; by rewrite lookup_empty in Hs|].
  unfold client_ListRunningContainersDetailed in Hr.
  destruct (cli_ContainerList w all) as [cs|e]; [|by simplify_eq].
  destruct (mapM _ cs) as [cds|] eqn:Em; [|done]. cbn [mbind option_bind] in Hr.
  apply listed_env in Em.
  set (kept := filter _ (zip _ cds)) in Hr.
  assert (Forall (fun cd => Forall redacted (cd_Env cd)) kept.*2) as Hk.
  { apply Forall_forall. intros cd ([id cd'] & -> & [_ Hin]%list_elem_of_filter)%list_elem_of_fmap.
    apply elem_of_zip_r in Hin. rewrite Forall_forall in Em. cbn. by rewrite (Em _ Hin). }
  destruct kept.*2 as [|cd0 cds0] eqn:Ek; [|rewrite <-Ek in *; clear Ek].
  - simplify_eq. split; [done|]. intros cds' [= <-]. constructor.
  - set (st := foldl _ _ _) in Hr. pose proof (goroutines_redacted w kept.*1
      (sched (seq 0 (length kept.*2))) kept.*2
      (set_prom (set_monitored (f64_of_Z (Z.of_nat (length kept.*2)))) cl) Hcl Hk) as [H1 H2].
    fold st in H1, H2. destruct st as [res cl2]. cbn [fst snd] in *. simplify_eq.
    split; [done|]. by intros cds' [= <-].
Qed.

(** *** The goroutines commute *)

Lemma inc_comm m : inc_hits (inc_misses m) = inc_misses (inc_hits m).
Proof. done. Qed.

Lemma enrich_two w id1 id2 cd1 cd2 cl :
  id1 <> id2 ->
  let '(a1, cl1) := enrichContainerDetails w id1 cd1 cl in
  let '(a2, cl2) := enrichContainerDetails w id2 cd2 cl1 in
  let '(b2, cl1') := enrichContainerDetails w id2 cd2 cl in
  let '(b1, cl2') := enrichContainerDetails w id1 cd1 cl1' in
  a1 = b1 /\ a2 = b2 /\ cl2 = cl2'.
Proof.
  intros Hne. unfold enrichContainerDetails.
  destruct (metadataCache cl !! id1) eqn:E1, (metadataCache cl !! id2) eqn:E2;
    destruct (cli_ContainerInspect w id1) eqn:I1, (cli_ContainerInspect w id2) eqn:I2;
    cbn [metadataCache set_prom cache_insert];
    rewrite ?lookup_insert_ne by done; rewrite ?E1, ?E2, ?I1, ?I2; cbn [metadataCache set_prom cache_insert];
    rewrite ?lookup_insert_ne by done; rewrite ?E1, ?E2, ?I1, ?I2; try done.
  split_and!; [done..|]. unfold cache_insert, set_prom; cbn. by rewrite insert_insert_ne.
Qed.

Lemma enrich_goroutine_comm w ids st i j :
  NoDup ids ->
  enrich_goroutine w ids (enrich_goroutine w ids st i) j =
  enrich_goroutine w ids (enrich_goroutine w ids st j) i.
Proof.
  intros Hnd. destruct (decide (i = j)) as [->|Hne]; [done|].
  destruct st as [cds cl]. unfold enrich_goroutine. cbn [fst snd].
  destruct (ids !! i) as [id1|] eqn:E1; cbn.
  2:{ destruct (ids !! j); [|done]. destruct (cds !! j); [|done].
      by destruct (enrichContainerDetails _ _ _ _). }
  destruct (ids !! j) as [id2|] eqn:E2; cbn.
  2:{ destruct (cds !! i); [|done]. by destruct (enrichContainerDetails _ _ _ _). }
  assert (id1 <> id2) as Hids by (intros Heq; subst id2; exact (Hne (NoDup_lookup ids i j id1 Hnd E1 E2))).
  destruct (cds !! i) as [cd1|] eqn:C1.
  - destruct (cds !! j) as [cd2|] eqn:C2.
    + pose proof (enrich_two w id1 id2 cd1 cd2 cl Hids) as Ht.
      destruct (enrichContainerDetails w id1 cd1 cl) as [a1 cl1]. cbn [fst snd].
      rewrite list_lookup_insert_ne, C2 by done.
      destruct (enrichContainerDetails w id2 cd2 cl1) as [a2 cl2].
      destruct (enrichContainerDetails w id2 cd2 cl) as [b2 cl1']. cbn [fst snd].
      rewrite list_lookup_insert_ne, C1 by done.
      destruct (enrichContainerDetails w id1 cd1 cl1') as [b1 cl2'].
      destruct Ht as (-> & -> & ->). by rewrite list_insert_insert_ne.
    + destruct (enrichContainerDetails w id1 cd1 cl) as [a1 cl1] eqn:Ea. cbn [fst snd].
      rewrite list_lookup_insert_ne, C2 by done. by rewrite C1, Ea.
  - destruct (cds !! j) as [cd2|] eqn:C2; cbn [fst snd]; [|by rewrite C1, C2].
    destruct (enrichContainerDetails w id2 cd2 cl) as [b2 cl1'] eqn:Eb. cbn [fst snd].
    rewrite list_lookup_insert_ne by done. by rewrite C1, C2, Eb.
Qed.

(** C29. The concurrent second pass of the detailed listing is deterministic: when the
    daemon lists no container twice, the displays, the cache and the counters do not
    depend on the order in which the goroutines run. *)
Theorem detailed_listing_deterministic zone ordN sched all w cl cs :
  cli_ContainerList w all = Ok cs -> NoDup (c_ID <$> cs) -> (forall l, sched l ≡ₚ l) ->
  client_ListRunningContainersDetailed zone ordN sched all w cl =
  client_ListRunningContainersDetailed zone ordN Datatypes.id all w cl.
Proof.
  intros Hl Hnd Hs. unfold client_ListRunningContainersDetailed. rewrite Hl.
  destruct (mapM _ cs) as [cds|] eqn:Em; [|done]. cbn [mbind option_bind].
  set (kept := filter _ (zip _ cds)).
  assert (NoDup kept.*1) as Hids.
  { assert (sublist kept.*1 (zip (c_ID <$> cs) cds).*1) as Hsub.
    { apply fmap_sublist, sublist_filter. }
    apply (fun H => sublist_NoDup _ _ H Hsub). rewrite fst_zip; [done|].
    rewrite length_fmap. by rewrite (length_mapM _ _ _ Em). }
  destruct kept.*2 as [|cd0 cds0] eqn:Ek; [done|]. rewrite <-Ek. clear Ek.
  rewrite (foldl_perm _ (sched _) (seq 0 (length kept.*2))); [done| |apply Hs].
  intros st i j _ _. by apply enrich_goroutine_comm.
Qed.
End enrichment.

(** ** Disk usage and the stress test *)

Section usage.
Context {W : Type} `{Hapi : DockerAPI W}.

Lemma wrap_i64_add_l a b : wrap_i64 (wrap_i64 a + b) = wrap_i64 (a + b).
Proof.
  unfold wrap_i64. f_equal.
  replace ((a + 2 ^ 63) mod 2 ^ 64 - 2 ^ 63 + b + 2 ^ 63) with ((a + 2 ^ 63) mod 2 ^ 64 + b) by lia.
  rewrite Z.add_mod_idemp_l by lia. f_equal. lia.
Qed.

Lemma wrap_i64_add_r a b : wrap_i64 (a + wrap_i64 b) = wrap_i64 (a + b).
Proof. rewrite Z.add_comm, wrap_i64_add_l. f_equal. lia. Qed.

(** The sizes of the images no container uses, and of the volumes nothing refers to. *)
Definition unused_images (du : DiskUsage) : list Z :=
  omap (fun '(containers, _, size) => if containers =? 0 then Some size else None) (du_Images du).
Definition unused_volumes (du : DiskUsage) : list Z :=
  omap (fun usage => match usage with
                     | Some (refCount, size) => if refCount =? 0 then Some size else None
                     | None => None end) (du_Volumes du).

Lemma images_fold (l : list (Z * Z * Z)) acc :
  foldl (fun acc '(containers, shared, size) =>
    if containers =? 0 then wrap_i64 (acc + wrap_i64 (shared + wrap_i64 (size - shared))) else acc)
    (wrap_i64 acc) l =
  wrap_i64 (acc + foldr Z.add 0
    (omap (fun '(containers, _, size) => if containers =? 0 then Some size else None) l)).
Proof.
  revert acc; induction l as [|[[c sh] sz] l IH]; intros acc; cbn [foldl omap list_omap]; [f_equal; cbn; lia|].
  destruct (c =? 0); [|by rewrite IH].
  rewrite wrap_i64_add_l, wrap_i64_add_r.
  replace (acc + (sh + wrap_i64 (sz - sh))) with ((acc + sh) + wrap_i64 (sz - sh)) by lia.
  rewrite wrap_i64_add_r, IH. f_equal. cbn. lia.
Qed.

Lemma volumes_fold (l : list (option (Z * Z))) acc :
  foldl (fun acc usage =>
    match usage with
    | Some (refCount, size) => if refCount =? 0 then wrap_i64 (acc + size) else acc
    | None => acc
    end) (wrap_i64 acc) l =
  wrap_i64 (acc + foldr Z.add 0
    (omap (fun usage => match usage with
                        | Some (refCount, size) => if refCount =? 0 then Some size else None
                        | None => None end) l)).
Proof.
  revert acc; induction l as [|[[rc sz]|] l IH]; intros acc; cbn [foldl omap list_omap];
    [f_equal; cbn; lia| |by apply IH].
  destruct (rc =? 0); [|by rewrite IH]. rewrite wrap_i64_add_l, IH. f_equal. cbn. lia.
Qed.

(** [GetDiskUsage] reports the full sizes of all images without containers and of
    all volumes without references (volumes of unknown usage excluded), modulo
    [int64]; the shared size of an image plays no part in it. *)
Theorem GetDiskUsage_spec w du :
  cli_DiskUsage w = Ok du ->
  client_GetDiskUsage w = Ok {|
    ImagesReclaimable := wrap_i64 (foldr Z.add 0 (unused_images du));
    VolumesReclaimable := wrap_i64 (foldr Z.add 0 (unused_volumes du)) |}.
Proof.
  intros Hd. unfold client_GetDiskUsage. rewrite Hd. f_equal.
  pose proof (images_fold (du_Images du) 0) as Hi. pose proof (volumes_fold (du_Volumes du) 0) as Hv.
  change (wrap_i64 0) with 0 in Hi, Hv. by rewrite Hi, Hv.
Qed.

(** Whether the image can be run after [w], and the daemon then. *)
Definition image_ready (w : W) : option W :=
  match cli_ImageInspectWithRaw w stressImage with
  | Ok _ => Some w
  | Err _ => let '(r, w') := cli_ImagePull stressImage w in if is_ok r then Some w' else None
  end.

(** [RunStressTest] succeeds exactly when the mode is one of the three it knows,
    the image is there or could be pulled, and the container could be created and
    started; an unknown mode is an error that touches nothing, and a failed pull
    creates nothing. *)
Theorem RunStressTest_spec mode d w :
  (mode ∉ ["cpu"; "memory"; "both"] ->
    exists e, client_RunStressTest mode d w = (Err e, w)) /\
  (is_ok (client_RunStressTest mode d w).1 = true <->
    exists cmd w1, stressArgs mode d = Some cmd /\
      image_ready (cli_ContainerRemove stressName true w).2 = Some w1 /\
      exists id, (cli_ContainerCreate stressImage cmd true stressName w1).1 = Ok id /\
        is_ok (cli_ContainerStart id (cli_ContainerCreate stressImage cmd true stressName w1).2).1 = true) /\
  (image_ready (cli_ContainerRemove stressName true w).2 = None -> mode ∈ ["cpu"; "memory"; "both"] ->
    exists e, client_RunStressTest mode d w =
      (Err e, (cli_ImagePull stressImage (cli_ContainerRemove stressName true w).2).2)).
Proof.
  assert (stressArgs mode d = None <-> mode ∉ ["cpu"; "memory"; "both"]) as Hm.
  { unfold stressArgs. repeat case_bool_decide; split; intros; simplify_eq; set_solver. }
  assert (forall cmd w1, is_ok (stress_create_start cmd w1).1 = true <->
    exists id, (cli_ContainerCreate stressImage cmd true stressName w1).1 = Ok id /\
      is_ok (cli_ContainerStart id (cli_ContainerCreate stressImage cmd true stressName w1).2).1 = true) as Hc.
  { intros cmd w1. unfold stress_create_start.
    destruct (cli_ContainerCreate _ _ _ _ w1) as [[id|e] w2]; cbn; [|naive_solver].
    destruct (cli_ContainerStart id w2) as [r w3] eqn:E. split.
    - intros Hr. exists id. rewrite E. split; [done|]. by destruct r.
    - intros (id' & [= <-] & Hr). rewrite E in Hr. by destruct r. }
  unfold client_RunStressTest.
  destruct (cli_ContainerRemove stressName true w) as [r0 w0]. cbn [snd].
  split_and!.
  - intros Hn%Hm. rewrite Hn. by eexists.
  - destruct (stressArgs mode d) as [cmd|] eqn:Ea; [|split; [done|naive_solver]].
    unfold image_ready. destruct (cli_ImageInspectWithRaw w0 stressImage).
    + rewrite Hc. naive_solver.
    + destruct (cli_ImagePull stressImage w0) as [[u|e2] w1]; cbn; [rewrite Hc|]; naive_solver.
  - intros Hr Hin. destruct (stressArgs mode d) as [cmd|] eqn:Ea; [|by apply Hm in Hin].
    unfold image_ready in Hr. destruct (cli_ImageInspectWithRaw w0 stressImage); [done|].
    destruct (cli_ImagePull stressImage w0) as [[u|e2] w1]; [done|]. by eexists.
Qed.
End usage.

(** ** Witnesses *)

Definition ex_listed (id name cmd : string) : Container := {|
  c_ID := id; c_Names := [name]; c_Image := "img"; c_Command := cmd; c_Created := 0;
  c_Ports := [{| port_IP := "0.0.0.0"; port_PrivatePort := 80; port_PublicPort := 8080; port_Type := "tcp" |};
              {| port_IP := ""; port_PrivatePort := 443; port_PublicPort := 0; port_Type := "tcp" |}];
  c_Labels := ∅; c_State := "running"; c_Status := "Up"; c_Networks := None |}.

Definition ex_json : ContainerJSON := {|
  cj_Config := Some {| cfg_Env := ["DB_PASSWORD=hunter2"; "LANG=C"]; cfg_Entrypoint := ["sh"];
                       cfg_Cmd := ["-c"; "run"]; cfg_User := "" |};
  cj_State := Some (Some {| h_Status := "healthy"; h_Log := ["ok "] |});
  cj_HostConfig := None; cj_RestartCount := 0; cj_Mounts := []; cj_NetworkPorts := None |}.

Definition ex_two : ExDaemon := {|
  ex_list := [ex_listed "aaaaaaaaaaaaaaaa" "/web" "run --password secret";
              ex_listed "bbbbbbbbbbbbbbbb" "/db" "postgres"];
  ex_inspects := {["aaaaaaaaaaaaaaaa" := ex_json]}; ex_image_present := false; ex_calls := [] |}.

Lemma ListRunningContainers_spec_witness :
  client_ListRunningContainers (Hapi := ex_docker) ex_two NewClient true <> None.
Proof.
  intros Hn. apply (ListRunningContainers_spec (Hapi := ex_docker) ex_two NewClient true _ eq_refl) in Hn.
  unfold ex_two in Hn. cbn [ex_list] in Hn. rewrite !Exists_cons, Exists_nil in Hn. cbn in Hn. lia.
Defined.

Lemma ListNetworks_spec_witness :
  client_ListNetworks (Hapi := ex_docker) reverse ex_two =
  Ok [{| ni_Name := "bridge"; ni_ID := "n1"; ni_Driver := "bridge"; ni_Containers := ∅ |}].
Proof.
  rewrite (ListNetworks_spec (Hapi := ex_docker) reverse ex_two ["n1"; "n2"]); [reflexivity|reflexivity|].
  apply Permutation_swap.
Defined.

Lemma metadata_cache_hit_witness :
  let cd := {| cd_HostID := ""; cd_ID := "aaaaaaaaaaaa"; cd_Name := "web"; cd_Image := "img";
    cd_Status := "Up"; cd_State := "running"; cd_Command := "run"; cd_Ports := ""; cd_Created := "";
    cd_Networks := []; cd_Labels := ∅; cd_SizeRw := ""; cd_Env := []; cd_HealthStatus := "";
    cd_HealthLog := ""; cd_Mounts := []; cd_RestartPolicy := ""; cd_RestartCount := 0;
    cd_CPULimit := f64_zero; cd_MemoryLimit := 0; cd_Entrypoint := "" |} in
  let '(cd1, cl1) := enrichContainerDetails (Hcase := ascii_only) (Hapi := ex_docker) ex_two "aaaaaaaaaaaaaaaa" cd NewClient in
  let '(cd2, cl2) := enrichContainerDetails (Hcase := ascii_only) (Hapi := ex_docker) ex_daemon "aaaaaaaaaaaaaaaa" cd cl1 in
  cd1 = enrichAll (Hcase := ascii_only) ex_json cd /\ cd2 = without_dynamic cd1 cd /\
  metadataCache cl2 = metadataCache cl1 /\ prom cl2 = inc_hits (inc_misses (prom NewClient)).
Proof.
  intros cd.
  apply (metadata_cache_hit (Hcase := ascii_only) (Hapi := ex_docker) ex_two ex_daemon "aaaaaaaaaaaaaaaa" cd
    NewClient ex_json); reflexivity.
Defined.

Definition ex_detailed := client_ListRunningContainersDetailed (Hcase := ascii_only) (Hapi := ex_docker)
  0 elements Datatypes.id true ex_two NewClient.

Lemma listing_env_redacted_witness :
  exists cds cl', ex_detailed = Some (Ok cds, cl') /\ cd_Env <$> cds = [["DB_PASSWORD=[REDACTED]"; "LANG=C"]; []] /\
    Forall (fun cd => Forall (redacted (Hcase := ascii_only)) (cd_Env cd)) cds.
Proof.
  destruct ex_detailed as [[[cds|e] cl']|] eqn:E; [|by vm_compute in E..].
  exists cds, cl'. split_and!; [done| |].
  - vm_compute in E. by simplify_eq.
  - assert (cache_redacted (Hcase := ascii_only) NewClient) as Hc.
    { intros id s Hs. cbn in Hs. by rewrite lookup_empty in Hs. }
    destruct (listing_env_redacted (Hcase := ascii_only) (Hapi := ex_docker) 0 elements Datatypes.id true ex_two
      NewClient (Ok cds) cl' Hc E) as (_ & _ & Hr). by apply Hr.
Defined.

Lemma detailed_listing_deterministic_witness :
  client_ListRunningContainersDetailed (Hcase := ascii_only) (Hapi := ex_docker)
    0 elements reverse true ex_two NewClient = ex_detailed.
Proof.
  apply (detailed_listing_deterministic (Hcase := ascii_only) (Hapi := ex_docker) 0 elements reverse true ex_two
    NewClient (ex_list ex_two)).
  - reflexivity.
  - apply (bool_decide_unpack _). vm_compute. exact I.
  - intros l. apply reverse_Permutation.
Defined.

Lemma GetDiskUsage_spec_witness :
  client_GetDiskUsage (Hapi := ex_docker) ex_two = Ok {| ImagesReclaimable := 10; VolumesReclaimable := 5 |}.
Proof.
  rewrite (GetDiskUsage_spec (Hapi := ex_docker) ex_two {| du_Images := [(0, 3, 10); (1, 0, 7)];
    du_Volumes := [Some (0, 5); None] |} eq_refl). reflexivity.
Defined.

Lemma RunStressTest_spec_witness :
  exists e, client_RunStressTest (Hapi := ex_docker) "disk" 10 ex_two = (Err e, ex_two).
Proof.
  apply (RunStressTest_spec (Hapi := ex_docker) "disk" 10 ex_two).
  apply (bool_decide_unpack _). vm_compute. exact I.
Defined.

(** The command of the listing is shown as the daemon reports it: [Redact] is applied
    to the entry point only. *)
Example command_not_redacted :
  match ex_detailed with
  | Some (Ok (cd :: _), _) => cd_Command cd = "run --password secret" /\
      @Redact ascii_only (cd_Command cd) = "[REDACTED]"
  | _ => False
  end.
Proof. vm_compute. done. Qed.

Example formatPorts_example :
  formatPorts (c_Ports (ex_listed "" "" "")) = "0.0.0.0:8080->80/tcp, 443/tcp".
Proof. reflexivity. Qed.
