(* ===== verification/DockerStreams.v ===== *)
(** * Log and event streams ([internal/docker/client.go])

    The goroutines of [StreamContainerLogs] and [WatchEvents] as state machines over
    the inputs their [select] statements and channels offer.  The log channel is a
    queue of at most 100 lines; the event channel has no buffer, so a send waits for
    its receiver. *)
From S2P Require Import Prelude.
From S2P Require Import GoStrings.
From S2P Require Import GoTime.
From S2P Require Import Logger.
From S2P Require Import DockerTypes.
From S2P Require Import ContainerEngine.
From S2P Require Import DockerStats.

(** ** Log lines *)

Definition newline_byte : ascii := Ascii.ascii_of_nat 10.

Definition cleanLogLine (line : string) : string :=
  let header := match line with
    | String a _ => (byte_val a =? 1) || (byte_val a =? 2) || (byte_val a =? 0)
    | EmptyString => false
    end in
  if (8 <? String.length line)%nat && header then TrimSpace (str_drop 8 line) else TrimSpace line.

Definition logCap : nat := 100.

(** [select { case logCh <- x: default: }]. *)
Definition try_send (ch : list string) (x : string) : list string :=
  if (length ch <? logCap)%nat then ch ++ [x] else ch.

(** [content] is [string(buf[:n])] and [ch] the lines waiting in the channel. *)
Definition processLogChunk (content : string) (ch : list string) : list string :=
  foldl (fun ch line =>
    let cleaned := cleanLogLine line in
    if bool_decide (cleaned <> "") then try_send ch cleaned else ch) ch (Split content newline_byte).

(** The stream between the goroutine and its consumer. *)
Record LogStream := mkLogStream { ls_chan : list string; ls_closed : bool }.

Inductive LogInput :=
  | LogRead (content : string)   (* [reader.Read] returned these bytes *)
  | LogReadError                 (* it returned an error *)
  | LogCtxDone                   (* the context was cancelled *)
  | LogConsume.                  (* the consumer took a line *)

Definition log_step (s : LogStream) (i : LogInput) : LogStream :=
  match i with
  | LogConsume => {| ls_chan := tail (ls_chan s); ls_closed := ls_closed s |}
  | _ =>
      if ls_closed s then s else
      match i with
      | LogRead content =>
          if bool_decide (content <> "")
          then {| ls_chan := processLogChunk content (ls_chan s); ls_closed := false |} else s
      | _ => {| ls_chan := ls_chan s; ls_closed := true |}
      end
  end.

Definition StreamContainerLogs : LogStream := {| ls_chan := []; ls_closed := false |}.

(** The lines a chunk yields. *)
Definition chunk_lines (content : string) : list string :=
  filter (fun l => l <> "") (cleanLogLine <$> Split content newline_byte).

Lemma process_fold lines ch :
  (length ch <= logCap)%nat ->
  foldl (fun ch line =>
    let cleaned := cleanLogLine line in
    if bool_decide (cleaned <> "") then try_send ch cleaned else ch) ch lines =
  take logCap (ch ++ filter (fun l => l <> "") (cleanLogLine <$> lines)).
Proof.
  revert ch; induction lines as [|line lines IH]; intros ch Hch; cbn [foldl].
  - rewrite app_nil_r, take_ge by lia. done.
  - rewrite fmap_cons, filter_cons. case_bool_decide as E.
    + rewrite decide_True by done. unfold try_send.
      destruct (Nat.ltb_spec (length ch) logCap).
      * rewrite IH by (rewrite length_app; cbn; lia). by rewrite <-app_assoc.
      * rewrite IH by done. rewrite !take_app_le by lia. done.
    + rewrite decide_False by by intros ?. by apply IH.
Qed.

Lemma processLogChunk_spec content ch :
  (length ch <= logCap)%nat -> processLogChunk content ch = take logCap (ch ++ chunk_lines content).
Proof. apply process_fold. Qed.

(** C36. The log channel is bounded and keeps the oldest lines: in any run of the
    stream it never holds more than 100 lines, a chunk's non-empty lines are appended
    in order as long as there is room and dropped once it is full (the lines already
    waiting are never displaced), and once closed it only drains. *)
Theorem log_stream_bounded inputs :
  let s := foldl log_step StreamContainerLogs inputs in
  (length (ls_chan s) <= logCap)%nat /\
  (forall content, ls_closed s = false -> content <> "" ->
    ls_chan (log_step s (LogRead content)) = take logCap (ls_chan s ++ chunk_lines content)) /\
  (forall i, ls_closed s = true ->
    ls_closed (log_step s i) = true /\ exists dropped, ls_chan s = dropped ++ ls_chan (log_step s i)).
Proof.
  intros s.
  assert (length (ls_chan s) <= logCap)%nat as Hs.
  { apply (foldl_inv (fun s => (length (ls_chan s) <= logCap)%nat)); [cbn; unfold logCap; lia|].
    intros [ch closed] i _ Hch. cbn in Hch. destruct i; cbn; try (destruct closed; cbn; done).
    - destruct closed; cbn; [done|]. case_bool_decide; cbn; [|done].
      rewrite processLogChunk_spec by done. rewrite length_take. lia.
    - destruct ch; cbn in *; lia. }
  split_and!; [done|..].
  - intros content Hc Hne. destruct s as [ch closed]. cbn in *. subst closed.
    rewrite bool_decide_eq_true_2 by done. by apply processLogChunk_spec.
  - intros i Hc. destruct s as [ch closed]. cbn in *. subst closed.
    destruct i; cbn; (split; [done|]); try by exists [].
    exists (take 1 ch). by destruct ch.
Qed.

(** *** Frames of the multiplexed stream *)

Lemma Split_no_sep s c : IndexByte s c = None -> Split s c = [s].
Proof.
  induction s as [|a s IH]; [done|]. cbn. case_bool_decide; [done|].
  destruct (IndexByte s c); [done|]. intros _. by rewrite IH.
Qed.

Lemma Split_app_sep s t c :
  IndexByte s c = None -> Split (s +:+ String c t) c = s :: Split t c.
Proof.
  induction s as [|a s IH]; intros Hs.
  - rewrite str_app_nil_l. cbn. by rewrite bool_decide_eq_true_2.
  - rewrite str_app_cons. cbn in *. case_bool_decide; [done|].
    destruct (IndexByte s c); [done|]. by rewrite IH.
Qed.

Lemma IndexByte_app_both s t c :
  IndexByte s c = None -> IndexByte t c = None -> IndexByte (s +:+ t) c = None.
Proof. intros Hs Ht. by rewrite IndexByte_app_None, Ht. Qed.

(** A frame whose eight header bytes hold no newline byte yields its line: for a
    header starting with a stream type and a non-empty payload line without newline
    or surrounding space, the chunk made of the frame adds exactly that line. *)
Theorem frame_roundtrip t header payload ch :
  byte_val t ∈ [0; 1; 2] -> String.length header = 7%nat ->
  IndexByte (String t header) newline_byte = None ->
  payload <> "" -> IndexByte payload newline_byte = None -> TrimSpace payload = payload ->
  (length ch < logCap)%nat ->
  processLogChunk (String t header +:+ payload +:+ String newline_byte EmptyString) ch = ch ++ [payload].
Proof.
  intros Ht Hh Hn Hp Hpn Htrim Hch. rewrite processLogChunk_spec by lia. unfold chunk_lines.
  rewrite <-str_app_assoc, Split_app_sep by by apply IndexByte_app_both.
  cbn [Split]. rewrite !fmap_cons, fmap_nil.
  assert (cleanLogLine (String t header +:+ payload) = payload) as ->.
  { unfold cleanLogLine. rewrite str_app_cons.
    assert ((8 <? String.length (String t (header +:+ payload)))%nat = true) as ->.
    { apply Nat.ltb_lt. cbn. rewrite str_length_app, Hh. destruct payload; [done|cbn; lia]. }
    assert ((byte_val t =? 1) || (byte_val t =? 2) || (byte_val t =? 0) = true) as ->.
    { rewrite !elem_of_cons in Ht. destruct Ht as [->|[->|[->|Ht]]]; [done..|by apply elem_of_nil in Ht]. }
    cbn [andb]. replace (str_drop 8 (String t (header +:+ payload))) with payload; [done|].
    change (payload = str_drop 7 (header +:+ payload)). rewrite <-Hh. by rewrite str_drop_app. }
  rewrite filter_cons, decide_True by done. rewrite filter_cons, decide_False by (intros E; by apply E).
  rewrite filter_nil, take_ge; [done|]. rewrite length_app. cbn. lia.
Qed.

(** A ten byte frame: its header ends in the byte 10, which is read as a newline, and
    the header's other bytes become a line of their own. *)
Example ten_byte_frame :
  let header := String (Ascii.ascii_of_nat 1) (str_repeat 6 (String Ascii.zero EmptyString)) in
  processLogChunk (header +:+ String newline_byte "123456789" +:+ String newline_byte EmptyString) [] =
  [header; "123456789"].
Proof. vm_compute. reflexivity. Qed.

(** ** Container events *)

(** A message of the daemon's event stream. *)
Record EventMessage := mkEventMessage {
  em_Action : string;
  em_ActorID : string;
  em_Attributes : gmap string string
}.

Inductive WatchPhase :=
  | Selecting
  | Sending (ev : ContainerEvent)
  | Finished
  | Panicked.

Record Watch := mkWatch {
  wa_ctxDone : bool;
  wa_phase : WatchPhase;
  wa_err : option error;                  (* the error left in [errCh] *)
  wa_delivered : list ContainerEvent
}.

Inductive WatchInput :=
  | WCancel                               (* the caller cancels the context *)
  | WTakeCtx                              (* [case <-ctx.Done()] *)
  | WTakeErr (e : option error)           (* [case err, ok := <-errs]; [None]: closed *)
  | WTakeMsg (m : option EventMessage)    (* [case msg, ok := <-msgs]; [None]: closed *)
  | WReceive.                             (* the consumer receives from [eventCh] *)

(** [msg.Attributes[k]], empty when missing. *)
Definition attribute (m : EventMessage) (k : string) : string := default "" (em_Attributes m !! k).

(** The event of a message; [None] is the panic of [ID[:12]]. *)
Definition eventOf (m : EventMessage) : option ContainerEvent :=
  id ← slice_to (em_ActorID m) 12;
  Some {| ev_Action := em_Action m; ev_ContainerID := id; ev_ContainerName := attribute m "name";
          ev_Image := attribute m "image"; ev_Status := ""; ev_Time := zeroTime |}.

Definition set_phase (p : WatchPhase) (s : Watch) : Watch := {|
  wa_ctxDone := wa_ctxDone s; wa_phase := p; wa_err := wa_err s; wa_delivered := wa_delivered s |}.

(** One step of the goroutine or its environment; [None] when it is not possible. *)
Definition watch_step (includes : list string) (s : Watch) (i : WatchInput) : option Watch :=
  match i, wa_phase s with
  | WCancel, _ => Some {| wa_ctxDone := true; wa_phase := wa_phase s; wa_err := wa_err s;
                          wa_delivered := wa_delivered s |}
  | WTakeCtx, Selecting => if wa_ctxDone s then Some (set_phase Finished s) else None
  | WTakeErr None, Selecting => Some (set_phase Finished s)
  | WTakeErr (Some e), Selecting =>
      Some {| wa_ctxDone := wa_ctxDone s; wa_phase := Finished; wa_err := Some e;
              wa_delivered := wa_delivered s |}
  | WTakeMsg None, Selecting => Some (set_phase Finished s)
  | WTakeMsg (Some m), Selecting =>
      if negb (isMonitored includes (attribute m "name")) then Some s
      else match eventOf m with
           | None => Some (set_phase Panicked s)
           | Some ev => Some (set_phase (Sending ev) s)
           end
  | WReceive, Sending ev =>
      Some {| wa_ctxDone := wa_ctxDone s; wa_phase := Selecting; wa_err := wa_err s;
              wa_delivered := wa_delivered s ++ [ev] |}
  | _, _ => None
  end.

Definition WatchEvents : Watch := {|
  wa_ctxDone := false; wa_phase := Selecting; wa_err := None; wa_delivered := [] |}.

(** The states reached by a sequence of inputs. *)
Inductive watch_run (includes : list string) (s : Watch) : list WatchInput -> Watch -> Prop :=
  | watch_run_nil : watch_run includes s [] s
  | watch_run_snoc ins s1 i s2 :
      watch_run includes s ins s1 -> watch_step includes s1 i = Some s2 ->
      watch_run includes s (ins ++ [i]) s2.

(** The events of the monitored messages among the inputs, in order. *)
Definition expected_events (includes : list string) (ins : list WatchInput) : list ContainerEvent :=
  omap (fun i => match i with
                 | WTakeMsg (Some m) => if isMonitored includes (attribute m "name") then eventOf m else None
                 | _ => None end) ins.

(** The event a phase still has to deliver. *)
Definition in_flight (p : WatchPhase) : list ContainerEvent :=
  match p with Sending ev => [ev] | _ => [] end.

(** The step that panics takes a message with a short identifier. *)
Lemma watch_step_panic includes s i s' :
  watch_step includes s i = Some s' -> wa_phase s' = Panicked ->
  wa_phase s = Panicked \/ exists m, i = WTakeMsg (Some m) /\ (String.length (em_ActorID m) < 12)%nat.
Proof.
  destruct s as [ctx ph err del]. unfold watch_step. cbn [wa_phase].
  destruct i as [| |[e|]|[m|]|], ph as [|ev| |]; intros Hstep Hs; simplify_eq/=; auto.
  - destruct ctx; by simplify_eq/=.
  - destruct (isMonitored _ _); cbn in Hstep; [|by simplify_eq/=].
    destruct (eventOf m) as [ev|] eqn:Eev; [by simplify_eq/=|]. right. exists m. split; [done|].
    unfold eventOf in Eev. destruct (slice_to _ 12) eqn:Es; [done|]. by apply slice_to_None in Es.
Qed.

(** C37. [WatchEvents] loses and invents nothing: in every run, the events delivered so
    far followed by the one being sent are exactly the events of the monitored
    containers' messages it took, in order, and it panics only on a message whose
    actor identifier is shorter than twelve bytes. *)
Theorem WatchEvents_delivers includes ins s :
  watch_run includes WatchEvents ins s ->
  wa_delivered s ++ in_flight (wa_phase s) = expected_events includes ins /\
  (wa_phase s = Panicked -> exists m, WTakeMsg (Some m) ∈ ins /\ (String.length (em_ActorID m) < 12)%nat).
Proof.
  induction 1 as [|ins s1 i s2 _ [IH IHp] Hstep]; [done|].
  unfold expected_events. rewrite omap_app. fold (expected_events includes ins). rewrite <-IH.
  destruct s1 as [ctx ph err del]. cbn in *.
  split.
  - destruct i as [| |[e|]|[m|]|], ph as [|ev| |]; cbn in Hstep |- *; simplify_eq/=;
      rewrite ?app_nil_r; try done.
    + destruct ctx; by simplify_eq/=; rewrite ?app_nil_r.
    + destruct (isMonitored includes (attribute m "name")) eqn:E; cbn in Hstep.
      * destruct (eventOf m) as [ev|]; by simplify_eq/=.
      * by simplify_eq/=.
  - intros Hs2. destruct (watch_step_panic _ _ _ _ Hstep Hs2) as [Hp|(m & -> & Hm)].
    + destruct IHp as (m & Hin & Hm); [done|]. exists m. set_solver.
    + exists m. set_solver.
Qed.

(** The goroutine does not notice a cancellation while it sends: once it is sending
    an event, every run in which the consumer does not receive leaves it there, however
    often the context is cancelled, so it ends only if the consumer takes the event. *)
Theorem WatchEvents_send_ignores_cancel includes s ev ins s' :
  wa_phase s = Sending ev -> watch_run includes s ins s' -> WReceive ∉ ins ->
  wa_phase s' = Sending ev /\ wa_delivered s' = wa_delivered s /\ Forall (fun i => i = WCancel) ins.
Proof.
  intros Hs. induction 1 as [|ins s1 i s2 _ IH Hstep]; intros Hno; [by split_and!|].
  destruct IH as (Hp & Hd & Hall); [set_solver|].
  unfold watch_step in Hstep. rewrite Hp in Hstep.
  destruct i as [| |[e|]|[m|]|]; try done; [|set_solver].
  simplify_eq/=. split_and!; [done|done|]. apply Forall_app. split; [done|]. by apply Forall_singleton.
Qed.

(** ** Witnesses *)

Lemma frame_roundtrip_witness :
  processLogChunk (String (Ascii.ascii_of_nat 1) (str_repeat 7 (String Ascii.zero EmptyString)) +:+
    "ready" +:+ String newline_byte EmptyString) ["a"] = ["a"; "ready"].
Proof.
  apply (frame_roundtrip (Ascii.ascii_of_nat 1) (str_repeat 7 (String Ascii.zero EmptyString)) "ready" ["a"]).
  - right. by left.
  - reflexivity.
  - reflexivity.
  - discriminate.
  - reflexivity.
  - vm_compute. reflexivity.
  - unfold logCap. cbn. lia.
Defined.

Definition ex_msg : EventMessage := {|
  em_Action := "die"; em_ActorID := "0123456789abcdef"; em_Attributes := {["name" := "web"]} |}.
Definition ex_event : ContainerEvent := {|
  ev_Action := "die"; ev_ContainerID := "0123456789ab"; ev_ContainerName := "web"; ev_Image := "";
  ev_Status := ""; ev_Time := zeroTime |}.
Definition ex_sending : Watch := set_phase (Sending ex_event) WatchEvents.

Lemma ex_sending_run : watch_run [] WatchEvents [WTakeMsg (Some ex_msg)] ex_sending.
Proof. apply (watch_run_snoc _ _ [] WatchEvents); [constructor|vm_compute; reflexivity]. Qed.

Lemma WatchEvents_delivers_witness :
  wa_delivered ex_sending ++ in_flight (wa_phase ex_sending) = [ex_event].
Proof. apply (WatchEvents_delivers [] [WTakeMsg (Some ex_msg)] ex_sending ex_sending_run). Defined.

Lemma WatchEvents_send_ignores_cancel_witness :
  exists s', watch_run [] ex_sending [WCancel] s' /\ wa_ctxDone s' = true /\ wa_phase s' = Sending ex_event.
Proof.
  eexists. split; [apply (watch_run_snoc _ _ [] ex_sending WCancel); [constructor|reflexivity]|].
  split; [reflexivity|].
  apply (WatchEvents_send_ignores_cancel [] ex_sending ex_event [WCancel]).
  - reflexivity.
  - apply (watch_run_snoc _ _ [] ex_sending WCancel); [constructor|reflexivity].
  - intros H. apply list_elem_of_singleton in H. discriminate H.
Defined.
