(* ===== verification/Security.v ===== *)
(** * Security auditing ([internal/security/auditor.go])

    The ten rules, and the auditor that runs them once per container and keeps their
    alerts in a cache.  The container port of the Docker SDK is converted to a number
    by the SDK: [port_Int] is a parameter. *)
From S2P Require Import Prelude.
From S2P Require Import GoStrings.
From S2P Require Import GoFloat.
From S2P Require Import GoTime.
From S2P Require Import Config.
From S2P Require Import Alerts.
From S2P Require Import Logger.
From S2P Require Import DockerTypes.
From S2P Require Import ContainerEngine.

Section security.
Context (port_Int : string -> Z).
(** The order of a range over the published ports. *)
Context (ordP : gmap string (list string) -> list (string * list string)).

(** ** Rules *)

Definition secAlert (c : ContainerDisplay) (now : Time) (name metric severity : string)
    (value : float64) : Alert := {|
  al_RuleName := name; al_ContainerID := cd_ID c; al_ContainerName := cd_Name c; al_Metric := metric;
  al_CurrentValue := value; al_Threshold := f64_zero; al_Severity := severity; al_FiredAt := now;
  al_ActiveSince := now |}.

Definition f64_one : float64 := f64_of_Z 1.

Definition Rule := ContainerDisplay -> ContainerJSON -> Time -> list Alert.

Definition PrivilegedModeRule : Rule := fun c j now =>
  match cj_HostConfig j with
  | Some hc => if hc_Privileged hc
      then [secAlert c now "Sec: Privileged Mode" "security_privileged" "critical" f64_one] else []
  | None => []
  end.

Definition RootUserRule : Rule := fun c j now =>
  let user := match cj_Config j with Some cfg => cfg_User cfg | None => "" end in
  if bool_decide (user = "") || bool_decide (user = "root") || bool_decide (user = "0")
  then [secAlert c now "Sec: Root User" "security_root_user" "warning" f64_one] else [].

Definition isDBPort (portStr : string) : bool :=
  HasPrefix portStr "3306/" || HasPrefix portStr "5432/" || HasPrefix portStr "27017/" ||
  HasPrefix portStr "6379/".

Definition isGloballyExposed (ip : string) : bool :=
  bool_decide (ip = "0.0.0.0") || bool_decide (ip = "") || bool_decide (ip = "::").

Definition DBPortExposedRule : Rule := fun c j now =>
  match cj_NetworkPorts j with
  | None => []
  | Some ports =>
      foldl (fun alertsList '(port, bindings) =>
        if negb (isDBPort port) then alertsList else
        foldl (fun alertsList ip =>
          if isGloballyExposed ip
          then alertsList ++ [secAlert c now "Sec: DB Port Exposed globally" "security_db_port" "critical"
                                (f64_of_Z (port_Int port))]
          else alertsList) alertsList bindings) [] (ordP ports)
  end.

Definition sensitiveCaps : list string :=
  ["SYS_ADMIN"; "NET_ADMIN"; "SYS_PTRACE"; "DAC_OVERRIDE"; "SYS_RAWIO"; "SYS_MODULE"; "NET_RAW"].

Definition SensitiveCapsRule : Rule := fun c j now =>
  match cj_HostConfig j with
  | None => []
  | Some hc =>
      foldl (fun alertsList cap =>
        if bool_decide (cap ∈ sensitiveCaps)
        then alertsList ++ [secAlert c now "Sec: Sensitive CAP_ADD" "security_sensitive_cap" "warning" f64_one]
        else alertsList) [] (hc_CapAdd hc)
  end.

Definition ResourceQuotasRule : Rule := fun c j now =>
  match cj_HostConfig j with
  | Some hc => if (hc_Memory hc =? 0) || (hc_NanoCPUs hc =? 0)
      then [secAlert c now "Sec: No Resource Quotas" "security_no_quotas" "warning" f64_one] else []
  | None => []
  end.

Definition WritableRootFSRule : Rule := fun c j now =>
  match cj_HostConfig j with
  | Some hc => if negb (hc_ReadonlyRootfs hc)
      then [secAlert c now "Sec: Writable RootFS" "security_writable_rootfs" "warning" f64_one] else []
  | None => []
  end.

Definition insecurePort (p : string) : bool := HasPrefix p "22/" || HasPrefix p "23/".

Fixpoint firstInsecure (ports : list (string * list string)) : bool :=
  match ports with
  | [] => false
  | (p, _) :: ports' => if insecurePort p then true else firstInsecure ports'
  end.

Definition InsecurePortsRule : Rule := fun c j now =>
  match cj_NetworkPorts j with
  | None => []
  | Some ports => if firstInsecure (ordP ports)
      then [secAlert c now "Sec: Insecure Port Exposed" "security_insecure_port" "critical" f64_one] else []
  end.

Definition noNewPrivileges (opt : string) : bool :=
  Contains opt "no-new-privileges:true" || Contains opt "no-new-privileges".

Definition NoNewPrivilegesRule : Rule := fun c j now =>
  match cj_HostConfig j with
  | None => []
  | Some hc => if existsb noNewPrivileges (hc_SecurityOpt hc) then []
      else [secAlert c now "Sec: Missing No-New-Privileges" "security_no_new_privs" "warning" f64_one]
  end.

Definition HostNetworkingRule : Rule := fun c j now =>
  match cj_HostConfig j with
  | Some hc => if bool_decide (hc_NetworkMode hc = "host")
      then [secAlert c now "Sec: Host Networking Mode" "security_host_network" "critical" f64_one] else []
  | None => []
  end.

Definition SensitiveMountsRule : Rule := fun c j now =>
  if existsb (fun m => Contains (mt_Source m) "docker.sock") (cj_Mounts j)
  then [secAlert c now "Sec: Docker Socket Mounted" "security_docker_sock" "critical" f64_one] else [].

Definition defaultRules : list Rule :=
  [PrivilegedModeRule; RootUserRule; DBPortExposedRule; SensitiveCapsRule; ResourceQuotasRule;
   WritableRootFSRule; InsecurePortsRule; NoNewPrivilegesRule; HostNetworkingRule; SensitiveMountsRule].

(** The alerts of all rules on one container. *)
Definition runRules (rules : list Rule) : Rule := fun c j now =>
  foldl (fun secAlerts rule => secAlerts ++ rule c j now) [] rules.

(** ** The auditor *)

Record Auditor := mkAuditor {
  au_rules : list Rule;
  au_cache : gmap string (list Alert)
}.

Definition NewAuditor : Auditor := {| au_rules := defaultRules; au_cache := ∅ |}.

Definition refresh (now : Time) (a : Alert) : Alert := {|
  al_RuleName := al_RuleName a; al_ContainerID := al_ContainerID a;
  al_ContainerName := al_ContainerName a; al_Metric := al_Metric a;
  al_CurrentValue := al_CurrentValue a; al_Threshold := al_Threshold a;
  al_Severity := al_Severity a; al_FiredAt := now; al_ActiveSince := al_ActiveSince a |}.

Definition refreshAll (now : Time) (l : list Alert) : list Alert := refresh now <$> l.

(** One container of the first pass: the cached slice is refreshed in place. *)
Definition check_cache (now : Time)
    (st : gmap string (list Alert) * list Alert * list ContainerDisplay) (c : ContainerDisplay)
    : gmap string (list Alert) * list Alert * list ContainerDisplay :=
  let '(cache, activeAlerts, toInspect) := st in
  match cache !! cd_ID c with
  | Some cached =>
      let cached' := refreshAll now cached in
      (<[cd_ID c := cached']> cache, activeAlerts ++ cached', toInspect)
  | None => (cache, activeAlerts, toInspect ++ [c])
  end.

(** One container of the third pass. *)
Definition store_new (newAlerts : gmap string (list Alert))
    (st : gmap string (list Alert) * list Alert) (c : ContainerDisplay)
    : gmap string (list Alert) * list Alert :=
  match newAlerts !! cd_ID c with
  | Some secAlerts => (<[cd_ID c := secAlerts]> st.1, st.2 ++ secAlerts)
  | None => st
  end.

(** Keep the entries of the containers seen in this audit. *)
Definition evict (activeIDs : gset string) (cache : gmap string (list Alert)) : gmap string (list Alert) :=
  filter (fun kv => kv.1 ∈ activeIDs) cache.

Context {Eng : Type} `{Heng : ContainerEngine Eng}.

(** The goroutine of one uncached container, writing to the shared map. *)
Definition inspect_new (e : Eng) (rules : list Rule) (now : Time)
    (newAlerts : gmap string (list Alert)) (c : ContainerDisplay) : gmap string (list Alert) :=
  match InspectContainer e (cd_ID c) with
  | Err _ => newAlerts
  | Ok j => <[cd_ID c := runRules rules c j now]> newAlerts
  end.

(** [sched] is the order in which the goroutines write their results. *)
Definition Audit (sched : list ContainerDisplay -> list ContainerDisplay) (e : Eng) (now : Time)
    (containers : list ContainerDisplay) (a : Auditor) : list Alert * Auditor :=
  let activeIDs : gset string := list_to_set (cd_ID <$> containers) in
  let '(cache1, active1, toInspect) := foldl (check_cache now) (au_cache a, [], []) containers in
  match toInspect with
  | [] => (active1, {| au_rules := au_rules a; au_cache := evict activeIDs cache1 |})
  | _ =>
      let newAlerts := foldl (inspect_new e (au_rules a) now) ∅ (sched toInspect) in
      let '(cache2, active2) := foldl (store_new newAlerts) (cache1, active1) toInspect in
      (active2, {| au_rules := au_rules a; au_cache := evict activeIDs cache2 |})
  end.

(** ** What the rules check *)

(** What the rules test, one by one, with the functions they test it with. *)
Definition rules_pass (j : ContainerJSON) : Prop :=
  (exists cfg, cj_Config j = Some cfg /\ cfg_User cfg ∉ [""; "root"; "0"]) /\
  (forall hc, cj_HostConfig j = Some hc ->
    hc_Privileged hc = false /\ Forall (fun cap => cap ∉ sensitiveCaps) (hc_CapAdd hc) /\
    hc_Memory hc <> 0 /\ hc_NanoCPUs hc <> 0 /\ hc_ReadonlyRootfs hc = true /\
    (exists opt, opt ∈ hc_SecurityOpt hc /\ Contains opt "no-new-privileges" = true) /\
    hc_NetworkMode hc <> "host") /\
  (forall ports, cj_NetworkPorts j = Some ports ->
    (forall port ips, ports !! port = Some ips ->
      insecurePort port = false /\ (isDBPort port = true -> Forall (fun ip => isGloballyExposed ip = false) ips))) /\
  Forall (fun m => Contains (mt_Source m) "docker.sock" = false) (cj_Mounts j).

(** A port of a container (published, or only exposed and then without addresses) by
    number and protocol, with the addresses it is published on. *)
Definition lists_port (j : ContainerJSON) (number proto : string) (ips : list string) : Prop :=
  exists ports, cj_NetworkPorts j = Some ports /\ ports !! (number +:+ "/" +:+ proto) = Some ips.

(** The policy, without reference to the rules. *)
Record hardened (j : ContainerJSON) : Prop := {
  hard_user : exists cfg, cj_Config j = Some cfg /\ cfg_User cfg ∉ [""; "root"; "0"];
  hard_host : forall hc, cj_HostConfig j = Some hc ->
    hc_Privileged hc = false /\
    (forall cap, cap ∈ hc_CapAdd hc -> cap ∉ ["SYS_ADMIN"; "NET_ADMIN"; "SYS_PTRACE"; "DAC_OVERRIDE";
      "SYS_RAWIO"; "SYS_MODULE"; "NET_RAW"]) /\
    hc_Memory hc <> 0 /\ hc_NanoCPUs hc <> 0 /\ hc_ReadonlyRootfs hc = true /\
    (exists l r, l +:+ "no-new-privileges" +:+ r ∈ hc_SecurityOpt hc) /\
    hc_NetworkMode hc <> "host";
  hard_remote : forall number proto ips, lists_port j number proto ips -> number ∉ ["22"; "23"];
  hard_databases : forall number proto ips, lists_port j number proto ips ->
    number ∈ ["3306"; "5432"; "27017"; "6379"] ->
    forall ip, ip ∈ ips -> ip ∉ ["0.0.0.0"; ""; "::"];
  hard_mounts : forall m l r, m ∈ cj_Mounts j -> mt_Source m <> l +:+ "docker.sock" +:+ r
}.

Lemma foldl_append_if {A B} (p : A -> bool) (f : A -> B) (l : list A) (acc : list B) :
  foldl (fun acc x => if p x then acc ++ [f x] else acc) acc l =
  acc ++ (f <$> filter (fun x => p x = true) l).
Proof.
  revert acc; induction l as [|x l IH]; intros acc; cbn [foldl]; [by rewrite app_nil_r|].
  rewrite IH, filter_cons. destruct (p x) eqn:E.
  - rewrite decide_True by done. by rewrite <-app_assoc.
  - by rewrite decide_False by done.
Qed.

Lemma foldl_append_bind {A B} (f : A -> list B) (l : list A) (acc : list B) :
  foldl (fun acc x => acc ++ f x) acc l = acc ++ (l ≫= f).
Proof.
  revert acc; induction l as [|x l IH]; intros acc; cbn; [by rewrite app_nil_r|].
  by rewrite IH, <-app_assoc.
Qed.

Lemma runRules_bind rules c j now : runRules rules c j now = rules ≫= fun rule => rule c j now.
Proof. apply (foldl_append_bind (fun rule : Rule => rule c j now)). Qed.

Lemma nil_filter {A} (p : A -> bool) (l : list A) :
  filter (fun x => p x = true) l = [] <-> Forall (fun x => p x = false) l.
Proof.
  rewrite Forall_forall. split.
  - intros E x Hx. destruct (p x) eqn:Ep; [|done].
    assert (x ∈ filter (fun x => p x = true) l) as Hin by by apply list_elem_of_filter.
    rewrite E in Hin. by apply elem_of_nil in Hin.
  - intros H. destruct (filter _ l) as [|x l'] eqn:E; [done|].
    assert (x ∈ filter (fun x => p x = true) l) as [Hp Hx]%list_elem_of_filter by (rewrite E; left).
    by rewrite H in Hp.
Qed.

Lemma db_rule_nil c j now :
  DBPortExposedRule c j now = [] <->
  forall ports, cj_NetworkPorts j = Some ports ->
    forall port ips, (port, ips) ∈ ordP ports -> isDBPort port = true ->
      Forall (fun ip => isGloballyExposed ip = false) ips.
Proof.
  unfold DBPortExposedRule. destruct (cj_NetworkPorts j) as [ports|]; [|split; [by intros|done]].
  rewrite (foldl_ext_in _ (fun acc '(port, ips) => acc ++
    (if isDBPort port then (fun _ => secAlert c now "Sec: DB Port Exposed globally" "security_db_port"
      "critical" (f64_of_Z (port_Int port))) <$> filter (fun ip => isGloballyExposed ip = true) ips else []))).
  2:{ intros acc [port ips] _. destruct (isDBPort port); cbn [negb]; [|by rewrite app_nil_r].
      apply (foldl_append_if isGloballyExposed (fun _ => _)). }
  rewrite (foldl_ext_in _ (fun acc x => acc ++ (fun '(port, ips) =>
    (if isDBPort port then (fun _ => secAlert c now "Sec: DB Port Exposed globally" "security_db_port"
      "critical" (f64_of_Z (port_Int port))) <$> filter (fun ip => isGloballyExposed ip = true) ips else [])) x))
    by by intros ? [] ?.
  rewrite foldl_append_bind, app_nil_l. split.
  - intros Hnil ports' [= <-] port ips Hin Hdb. apply (nil_filter isGloballyExposed).
    destruct (filter _ ips) as [|ip l] eqn:Ef; [done|exfalso].
    assert (secAlert c now "Sec: DB Port Exposed globally" "security_db_port" "critical"
      (f64_of_Z (port_Int port)) ∈ @nil Alert) as Hn; [|by apply elem_of_nil in Hn].
    rewrite <-Hnil. apply list_elem_of_bind. exists (port, ips). split; [|done].
    rewrite Hdb, Ef. by left.
  - intros H. destruct (ordP ports ≫= _) as [|a l] eqn:Eb; [done|exfalso].
    assert (a ∈ a :: l) as Ha by left. rewrite <-Eb in Ha.
    apply list_elem_of_bind in Ha as ([port ips] & Ha & Hin).
    destruct (isDBPort port) eqn:Hdb; [|by apply elem_of_nil in Ha].
    specialize (H ports eq_refl port ips Hin Hdb). apply (nil_filter isGloballyExposed) in H.
    rewrite H in Ha. by apply elem_of_nil in Ha.
Qed.

Lemma firstInsecure_false ports :
  firstInsecure ports = false <-> forall port ips, (port, ips) ∈ ports -> insecurePort port = false.
Proof.
  induction ports as [|[p l] ports IH]; cbn; [split; [intros _ ? ? H; by apply elem_of_nil in H|done]|].
  destruct (insecurePort p) eqn:E.
  - split; [done|]. intros H. rewrite <-E. apply (H p l). left.
  - rewrite IH. setoid_rewrite elem_of_cons. naive_solver.
Qed.

Lemma existsb_false {A} (p : A -> bool) l : existsb p l = false <-> Forall (fun x => p x = false) l.
Proof. induction l as [|x l IH]; cbn; [done|]. rewrite orb_false_iff, IH, Forall_cons. done. Qed.

Lemma existsb_true {A} (p : A -> bool) l : existsb p l = true <-> exists x, x ∈ l /\ p x = true.
Proof.
  rewrite existsb_exists. split; intros (x & Hx & Hp); exists x; (split; [|done]); by apply list_elem_of_In.
Qed.

Lemma noNewPrivileges_eq opt : noNewPrivileges opt = Contains opt "no-new-privileges".
Proof.
  unfold noNewPrivileges. destruct (Contains opt "no-new-privileges:true") eqn:E; [|done].
  symmetry. apply Contains_iff in E as (l & r & ->). apply Contains_iff. exists l, (":true" +:+ r). done.
Qed.

Lemma map_nil_iff {A B} (f : A -> B) (l : list A) : f <$> l = [] <-> l = [].
Proof. by destruct l. Qed.

Lemma caps_rule_nil c j now :
  SensitiveCapsRule c j now = [] <->
  forall hc, cj_HostConfig j = Some hc -> Forall (fun cap => cap ∉ sensitiveCaps) (hc_CapAdd hc).
Proof.
  unfold SensitiveCapsRule. destruct (cj_HostConfig j) as [hc|]; [|split; [by intros|done]].
  rewrite (foldl_append_if (fun cap => bool_decide (cap ∈ sensitiveCaps))
    (fun _ => secAlert c now "Sec: Sensitive CAP_ADD" "security_sensitive_cap" "warning" f64_one)), app_nil_l.
  rewrite map_nil_iff, (nil_filter (fun cap => bool_decide (cap ∈ sensitiveCaps))).
  split.
  - intros Hf hc' [= <-]. eapply Forall_impl; [done|]. intros cap Hc. by apply bool_decide_eq_false in Hc.
  - intros Hf. eapply Forall_impl; [by apply Hf|]. intros cap Hc. by apply bool_decide_eq_false_2.
Qed.

Lemma app_nil_iff {A} (l k : list A) : l ++ k = [] <-> l = [] /\ k = [].
Proof. split; [by intros ?%app_nil|by intros [-> ->]]. Qed.

Lemma default_rules_nil c j now :
  runRules defaultRules c j now = [] <-> Forall (fun rule : Rule => rule c j now = []) defaultRules.
Proof.
  rewrite runRules_bind. induction defaultRules as [|rule rules IH]; [done|].
  rewrite Forall_cons, <-IH. apply app_nil_iff.
Qed.

(** The rules that look at the host configuration raise no alert. *)
Lemma host_rules_nil c j now :
  (PrivilegedModeRule c j now = [] /\ ResourceQuotasRule c j now = [] /\
   WritableRootFSRule c j now = [] /\ NoNewPrivilegesRule c j now = [] /\ HostNetworkingRule c j now = []) <->
  forall hc, cj_HostConfig j = Some hc ->
    hc_Privileged hc = false /\ hc_Memory hc <> 0 /\ hc_NanoCPUs hc <> 0 /\ hc_ReadonlyRootfs hc = true /\
    (exists opt, opt ∈ hc_SecurityOpt hc /\ Contains opt "no-new-privileges" = true) /\
    hc_NetworkMode hc <> "host".
Proof.
  unfold PrivilegedModeRule, ResourceQuotasRule, WritableRootFSRule, NoNewPrivilegesRule, HostNetworkingRule.
  destruct (cj_HostConfig j) as [hc|]; [|split; [by intros|done]].
  assert (existsb noNewPrivileges (hc_SecurityOpt hc) = true <->
    exists opt, opt ∈ hc_SecurityOpt hc /\ Contains opt "no-new-privileges" = true) as Hex.
  { rewrite existsb_true. by setoid_rewrite noNewPrivileges_eq. }
  split.
  - intros (H1 & H2 & H3 & H4 & H5) hc' [= <-]. rewrite <-Hex.
    destruct (hc_Privileged hc), (hc_ReadonlyRootfs hc), (existsb _ _); try done.
    case_bool_decide; [done|].
    destruct (Z.eqb_spec (hc_Memory hc) 0), (Z.eqb_spec (hc_NanoCPUs hc) 0); done.
  - intros H. destruct (H hc eq_refl) as (-> & Hm & Hn & -> & Ho & Hh). rewrite <-Hex in Ho. rewrite Ho.
    rewrite (proj2 (Z.eqb_neq _ _) Hm), (proj2 (Z.eqb_neq _ _) Hn).
    by rewrite bool_decide_eq_false_2.
Qed.

Lemma root_user_in (u : string) :
  bool_decide (u = "") || bool_decide (u = "root") || bool_decide (u = "0") =
  bool_decide (u ∈ [""; "root"; "0"]).
Proof. repeat case_bool_decide; set_solver. Qed.

Lemma user_rule_nil c j now :
  RootUserRule c j now = [] <->
  exists cfg, cj_Config j = Some cfg /\ cfg_User cfg ∉ [""; "root"; "0"].
Proof.
  unfold RootUserRule. rewrite root_user_in. case_bool_decide as Hu.
  - split; [done|]. intros (cfg & Hc & Hn). by rewrite Hc in Hu.
  - split; [intros _|done]. destruct (cj_Config j) as [cfg|]; [by exists cfg|].
    exfalso. apply Hu. left.
Qed.

Hypothesis HordP : forall ports, range_of ports (ordP ports).

Lemma no_alert_iff_pass c j now : runRules defaultRules c j now = [] <-> rules_pass j.
Proof.
  rewrite default_rules_nil. unfold defaultRules. rewrite !Forall_cons, Forall_nil.
  rewrite user_rule_nil, caps_rule_nil, db_rule_nil.
  assert (InsecurePortsRule c j now = [] <->
    forall ports, cj_NetworkPorts j = Some ports -> forall port ips, ports !! port = Some ips ->
      insecurePort port = false) as ->.
  { unfold InsecurePortsRule. destruct (cj_NetworkPorts j) as [ports|]; [|split; [by intros|done]].
    pose proof (firstInsecure_false (ordP ports)) as Hf.
    assert (forall port ips, (port, ips) ∈ ordP ports <-> ports !! port = Some ips) as Hm
      by (intros; apply range_of_elem, HordP).
    setoid_rewrite Hm in Hf. destruct (firstInsecure _); [|naive_solver].
    split; [done|]. intros H. destruct Hf as [_ Hf]. by specialize (Hf (H ports eq_refl)). }
  assert (SensitiveMountsRule c j now = [] <->
    Forall (fun m => Contains (mt_Source m) "docker.sock" = false) (cj_Mounts j)) as ->.
  { unfold SensitiveMountsRule. rewrite <-(existsb_false (fun m => Contains (mt_Source m) "docker.sock")).
    by destruct (existsb _ _). }
  assert (forall ports port ips, (port, ips) ∈ ordP ports <-> ports !! port = Some ips) as Hm
    by (intros; apply range_of_elem, HordP).
  setoid_rewrite Hm. pose proof (host_rules_nil c j now) as Hh.
  unfold rules_pass. destruct Hh as [Hh1 Hh2]. split.
  - intros (H1 & H2 & H3 & H4 & H5 & H6 & H7 & H8 & H9 & H10 & _).
    split_and!; [done| |by eauto|done].
    intros hc Ehc. specialize (Hh1 (conj H1 (conj H5 (conj H6 (conj H8 H9)))) hc Ehc).
    naive_solver.
  - intros (H2 & H & H3 & H10). destruct Hh2 as (? & ? & ? & ? & ?); [naive_solver|].
    split_and!; try done; naive_solver.
Qed.

(** A port text that begins with one of some numbers and a slash. *)
Lemma port_number (numbers : list string) (p : string) :
  existsb (fun n => HasPrefix p (n +:+ "/")) numbers = true <->
  exists n proto, n ∈ numbers /\ p = n +:+ "/" +:+ proto.
Proof.
  rewrite existsb_true. setoid_rewrite HasPrefix_iff. setoid_rewrite str_app_assoc. naive_solver.
Qed.

Lemma insecurePort_iff p :
  insecurePort p = true <-> exists n proto, n ∈ ["22"; "23"] /\ p = n +:+ "/" +:+ proto.
Proof. rewrite <-port_number. unfold insecurePort. cbn [existsb]. by rewrite orb_false_r. Qed.

Lemma isDBPort_iff p :
  isDBPort p = true <-> exists n proto, n ∈ ["3306"; "5432"; "27017"; "6379"] /\ p = n +:+ "/" +:+ proto.
Proof. rewrite <-port_number. unfold isDBPort. cbn [existsb]. by rewrite orb_false_r, !orb_assoc. Qed.

Lemma isGloballyExposed_iff ip : isGloballyExposed ip = true <-> ip ∈ ["0.0.0.0"; ""; "::"].
Proof.
  unfold isGloballyExposed. rewrite !orb_true_iff, !bool_decide_eq_true. set_solver.
Qed.

Lemma not_true_false (b : bool) P : (b = true <-> P) -> (b = false <-> ~ P).
Proof. destruct b; naive_solver. Qed.

Lemma ports_pass j :
  (forall ports, cj_NetworkPorts j = Some ports ->
    forall port ips, ports !! port = Some ips ->
      insecurePort port = false /\ (isDBPort port = true -> Forall (fun ip => isGloballyExposed ip = false) ips)) <->
  (forall number proto ips, lists_port j number proto ips -> number ∉ ["22"; "23"]) /\
  (forall number proto ips, lists_port j number proto ips ->
    number ∈ ["3306"; "5432"; "27017"; "6379"] -> forall ip, ip ∈ ips -> ip ∉ ["0.0.0.0"; ""; "::"]).
Proof.
  unfold lists_port.
  setoid_rewrite (fun p => not_true_false _ _ (insecurePort_iff p)). setoid_rewrite isDBPort_iff.
  setoid_rewrite (fun p => not_true_false _ _ (isGloballyExposed_iff p)). setoid_rewrite Forall_forall.
  split.
  - intros H. split; intros n p ips (ports & Hp & Hl); destruct (H ports Hp _ _ Hl) as [Hn Hd]; [|by eauto].
    intros Hin. apply Hn. by eauto.
  - intros [H1 H2] ports Hp port ips Hl. split; intros (n & p & Hin & ->); [|by eauto].
    by eapply (H1 n p ips); [exists ports|].
Qed.

Lemma host_pass j :
  (forall hc, cj_HostConfig j = Some hc ->
    hc_Privileged hc = false /\ Forall (fun cap => cap ∉ sensitiveCaps) (hc_CapAdd hc) /\
    hc_Memory hc <> 0 /\ hc_NanoCPUs hc <> 0 /\ hc_ReadonlyRootfs hc = true /\
    (exists opt, opt ∈ hc_SecurityOpt hc /\ Contains opt "no-new-privileges" = true) /\
    hc_NetworkMode hc <> "host") <->
  (forall hc, cj_HostConfig j = Some hc ->
    hc_Privileged hc = false /\
    (forall cap, cap ∈ hc_CapAdd hc -> cap ∉ ["SYS_ADMIN"; "NET_ADMIN"; "SYS_PTRACE"; "DAC_OVERRIDE";
      "SYS_RAWIO"; "SYS_MODULE"; "NET_RAW"]) /\
    hc_Memory hc <> 0 /\ hc_NanoCPUs hc <> 0 /\ hc_ReadonlyRootfs hc = true /\
    (exists l r, l +:+ "no-new-privileges" +:+ r ∈ hc_SecurityOpt hc) /\
    hc_NetworkMode hc <> "host").
Proof.
  setoid_rewrite Forall_forall. setoid_rewrite Contains_iff. fold sensitiveCaps.
  split; intros H hc Hc; destruct (H hc Hc) as (? & ? & ? & ? & ? & Ho & ?);
    (split_and!; try done; [idtac]).
  - destruct Ho as (opt & Hin & l & r & ->). by exists l, r.
  - destruct Ho as (l & r & Hin). eauto.
Qed.

Lemma rules_pass_hardened j : rules_pass j <-> hardened j.
Proof.
  unfold rules_pass. rewrite ports_pass, host_pass.
  assert (Forall (fun m => Contains (mt_Source m) "docker.sock" = false) (cj_Mounts j) <->
    forall m l r, m ∈ cj_Mounts j -> mt_Source m <> l +:+ "docker.sock" +:+ r) as ->.
  { rewrite Forall_forall. setoid_rewrite (fun s => not_true_false _ _ (Contains_iff s "docker.sock")).
    split; [intros H m l r Hm E; apply (H m Hm); eauto|intros H m Hm (l & r & E); by eapply H]. }
  split; [intros (? & ? & [? ?] & ?); by split|intros []; by split_and!].
Qed.

(** C11. The auditor raises no alert for a container exactly when it is hardened: it has
    a configuration whose user is named and is not root, publishes no database port on
    all interfaces and lists no SSH or Telnet port, mounts no Docker socket, and, when its
    host configuration is known, is not privileged, adds no sensitive capability, has
    memory and CPU limits, a read-only root file system, the no-new-privileges option
    and its own network. *)
Theorem no_alert_iff_hardened c j now :
  runRules defaultRules c j now = [] <-> hardened j.
Proof. by rewrite no_alert_iff_pass, rules_pass_hardened. Qed.
End security.

(** ** The cache *)

Section auditor.
Context {Eng : Type} `{Heng : ContainerEngine Eng}.
Context (e : Eng) (now : Time).

(** The cached alerts of a container, refreshed, and those of a new inspection. *)
Definition cached_alerts (a : Auditor) (c : ContainerDisplay) : option (list Alert) :=
  refreshAll now <$> au_cache a !! cd_ID c.

Definition inspected_alerts (rules : list Rule) (c : ContainerDisplay) : option (list Alert) :=
  match InspectContainer e (cd_ID c) with Ok j => Some (runRules rules c j now) | Err _ => None end.

(** What an audit knows about a container afterwards. *)
Definition audit_result (a : Auditor) (c : ContainerDisplay) : option (list Alert) :=
  match cached_alerts a c with Some l => Some l | None => inspected_alerts (au_rules a) c end.

Lemma check_cache_fold cs cache act ins :
  NoDup (cd_ID <$> cs) ->
  let st := foldl (check_cache now) (cache, act, ins) cs in
  (forall id, st.1.1 !! id = if decide (id ∈ cd_ID <$> cs) then refreshAll now <$> cache !! id else cache !! id) /\
  st.1.2 = act ++ (cs ≫= fun c => default [] (refreshAll now <$> cache !! cd_ID c)) /\
  st.2 = ins ++ filter (fun c => cache !! cd_ID c = None) cs.
Proof.
  revert cache act ins; induction cs as [|c cs IH]; intros cache act ins Hnd; cbn [foldl].
  - cbn. rewrite !app_nil_r. split_and!; [|done|done]. intros id. by rewrite decide_False by apply not_elem_of_nil.
  - rewrite fmap_cons in Hnd. apply NoDup_cons in Hnd as [Hc Hnd].
    assert (forall c', c' ∈ cs -> cd_ID c' <> cd_ID c) as Hne.
    { intros c' Hin Heq. apply Hc. rewrite <-Heq. by apply list_elem_of_fmap_2. }
    assert (check_cache now (cache, act, ins) c = match cache !! cd_ID c with
      | Some l => (<[cd_ID c := refreshAll now l]> cache, act ++ refreshAll now l, ins)
      | None => (cache, act, ins ++ [c]) end) as -> by done.
    rewrite filter_cons. cbn [mbind list_bind].
    destruct (cache !! cd_ID c) as [l|] eqn:El; cbn zeta.
    + destruct (IH (<[cd_ID c := refreshAll now l]> cache) (act ++ (refreshAll now l)) ins Hnd) as (H1 & H2 & H3).
      split_and!.
      * intros id. rewrite H1, fmap_cons. destruct (decide (id = cd_ID c)) as [->|Hid].
        -- rewrite lookup_insert_eq, El. rewrite decide_False by done. by rewrite decide_True by left.
        -- rewrite lookup_insert_ne by done. f_equal. erewrite decide_ext; [reflexivity|]. set_solver.
      * rewrite H2, <-app_assoc. f_equal. cbn. f_equal. apply bind_ext_in. intros c' Hin. by rewrite lookup_insert_ne by (by apply not_eq_sym, Hne).
      * rewrite H3, decide_False by done. f_equal. apply filter_ext_in. intros c' Hin.
        by rewrite lookup_insert_ne by (by apply not_eq_sym, Hne).
    + destruct (IH cache act (ins ++ [c]) Hnd) as (H1 & H2 & H3). split_and!.
      * intros id. rewrite H1, fmap_cons. destruct (decide (id = cd_ID c)) as [->|Hid].
        -- rewrite El. by repeat case_decide.
        -- erewrite decide_ext; [reflexivity|]. set_solver.
      * by rewrite H2.
      * rewrite H3, decide_True by done. by rewrite <-app_assoc.
Qed.

Lemma inspect_new_fold rules cs m id :
  NoDup (cd_ID <$> cs) ->
  (forall c, c ∈ cs -> id = cd_ID c -> m !! id = None ->
    foldl (inspect_new e rules now) m cs !! id = inspected_alerts rules c) /\
  (id ∉ cd_ID <$> cs -> foldl (inspect_new e rules now) m cs !! id = m !! id).
Proof.
  revert m; induction cs as [|c cs IH]; intros m Hnd; cbn [foldl]; [split; [set_solver|done]|].
  rewrite fmap_cons in Hnd |- *. apply NoDup_cons in Hnd as [Hc Hnd].
  assert (forall id', id' <> cd_ID c -> inspect_new e rules now m c !! id' = m !! id') as Hother.
  { intros id' Hne. unfold inspect_new. destruct (InspectContainer e (cd_ID c)); [|done].
    by rewrite lookup_insert_ne. }
  destruct (IH (inspect_new e rules now m c) Hnd) as [H1 H2]. split.
  - intros c' [->|Hin]%elem_of_cons -> Hm.
    + rewrite H2 by done. unfold inspect_new, inspected_alerts.
      destruct (InspectContainer e (cd_ID c)); [by rewrite lookup_insert_eq|done].
    + apply H1; [done..|]. rewrite Hother; [done|]. intros Heq. apply Hc. rewrite <-Heq.
      by apply list_elem_of_fmap_2.
  - intros [Hne Hid]%not_elem_of_cons. rewrite H2 by done. by apply Hother.
Qed.

Lemma store_new_fold (newAlerts : gmap string (list Alert)) cs cache act :
  NoDup (cd_ID <$> cs) ->
  let st := foldl (store_new newAlerts) (cache, act) cs in
  (forall id, st.1 !! id = if decide (id ∈ cd_ID <$> cs)
     then match newAlerts !! id with Some l => Some l | None => cache !! id end else cache !! id) /\
  st.2 = act ++ (cs ≫= fun c => default [] (newAlerts !! cd_ID c)).
Proof.
  revert cache act; induction cs as [|c cs IH]; intros cache act Hnd; cbn [foldl].
  - cbn. rewrite app_nil_r. split; [|done]. intros id. by rewrite decide_False by apply not_elem_of_nil.
  - rewrite fmap_cons in Hnd |- *. apply NoDup_cons in Hnd as [Hc Hnd]. cbn [mbind list_bind].
    assert (store_new newAlerts (cache, act) c = match newAlerts !! cd_ID c with
      | Some l => (<[cd_ID c := l]> cache, act ++ l) | None => (cache, act) end) as -> by done.
    destruct (newAlerts !! cd_ID c) as [l|] eqn:El; cbn zeta.
    + destruct (IH (<[cd_ID c := l]> cache) (act ++ l) Hnd) as [H1 H2]. split.
      * intros id. rewrite H1. destruct (decide (id = cd_ID c)) as [->|Hid].
        -- rewrite lookup_insert_eq, El. rewrite decide_False by done. by rewrite decide_True by left.
        -- rewrite lookup_insert_ne by done. erewrite decide_ext; [reflexivity|]. set_solver.
      * by rewrite H2, <-app_assoc.
    + destruct (IH cache act Hnd) as [H1 H2]. split; [|by rewrite H2].
      intros id. rewrite H1. destruct (decide (id = cd_ID c)) as [->|Hid].
      * rewrite El. by repeat case_decide.
      * erewrite decide_ext; [reflexivity|]. set_solver.
Qed.

Lemma evict_lookup ids cache id :
  evict ids cache !! id = if decide (id ∈ ids) then cache !! id else None.
Proof.
  unfold evict. destruct (decide (id ∈ ids)) as [Hin|Hout].
  - destruct (cache !! id) as [l|] eqn:El; [by apply map_lookup_filter_Some|].
    apply map_lookup_filter_None. by left.
  - apply map_lookup_filter_None. right. by intros l _.
Qed.

(** Splitting a concatenation between cached and inspected containers. *)
Lemma bind_split (cs : list ContainerDisplay) (f : ContainerDisplay -> option (list Alert))
    (g : ContainerDisplay -> list Alert) :
  (cs ≫= fun c => match f c with Some l => l | None => g c end) ≡ₚ
  (cs ≫= fun c => default [] (f c)) ++ (filter (fun c => f c = None) cs ≫= g).
Proof.
  induction cs as [|c cs IH]; [done|]. cbn [mbind list_bind]. rewrite IH, filter_cons.
  destruct (f c) as [l|] eqn:Ef; cbn.
  - by rewrite <-app_assoc.
  - apply Permutation_app_swap_app.
Qed.

(** The alerts of the first and the third pass together. *)
Lemma passes_together a containers (newAlerts : gmap string (list Alert)) :
  (forall c, c ∈ containers -> au_cache a !! cd_ID c = None ->
    newAlerts !! cd_ID c = inspected_alerts (au_rules a) c) ->
  (containers ≫= fun c => default [] (refreshAll now <$> au_cache a !! cd_ID c)) ++
    (filter (fun c => au_cache a !! cd_ID c = None) containers ≫= fun c => default [] (newAlerts !! cd_ID c)) ≡ₚ
  (containers ≫= fun c => default [] (audit_result a c)).
Proof.
  intros Hnew. rewrite (bind_ext_in (fun c => default [] (audit_result a c))
    (fun c => match cached_alerts a c with Some l => l | None => default [] (inspected_alerts (au_rules a) c) end))
    by (intros c _; unfold audit_result; by destruct (cached_alerts a c)).
  rewrite bind_split. apply Permutation_app_head.
  rewrite (filter_ext_in (fun c => cached_alerts a c = None) (fun c => au_cache a !! cd_ID c = None))
    by (intros c _; unfold cached_alerts; by destruct (au_cache a !! cd_ID c)).
  erewrite bind_ext_in; [reflexivity|]. intros c [Hc Hin]%list_elem_of_filter. cbn. by rewrite Hnew.
Qed.

Lemma audit_spec sched containers a :
  NoDup (cd_ID <$> containers) -> (forall l, sched l ≡ₚ l) ->
  let '(active, a') := Audit sched e now containers a in
  au_rules a' = au_rules a /\
  active ≡ₚ (containers ≫= fun c => default [] (audit_result a c)) /\
  (forall c, c ∈ containers -> au_cache a' !! cd_ID c = audit_result a c) /\
  (forall id, id ∉ cd_ID <$> containers -> au_cache a' !! id = None).
Proof.
  intros Hnd Hs. unfold Audit.
  pose proof (check_cache_fold containers (au_cache a) [] [] Hnd) as H.
  destruct (foldl (check_cache now) _ _) as [[cache1 active1] ins]. cbn [fst snd] in H.
  destruct H as (Hc1 & Ha1 & Hi). rewrite app_nil_l in Ha1, Hi.
  set (ids := list_to_set (cd_ID <$> containers) : gset string).
  assert (NoDup (cd_ID <$> ins)) as Hni.
  { rewrite Hi. eapply sublist_NoDup; [exact Hnd|]. apply fmap_sublist, sublist_filter. }
  set (newAlerts := foldl (inspect_new e (au_rules a) now) ∅ (sched ins)).
  assert (NoDup (cd_ID <$> sched ins)) as Hns by by rewrite Hs.
  assert (forall c, c ∈ containers -> au_cache a !! cd_ID c = None ->
    newAlerts !! cd_ID c = inspected_alerts (au_rules a) c) as Hnew.
  { intros c Hin Hc. destruct (inspect_new_fold (au_rules a) (sched ins) ∅ (cd_ID c) Hns) as [H1 _].
    apply (H1 c); [|done|apply lookup_empty]. rewrite Hs, Hi. by apply list_elem_of_filter. }
  pose proof (store_new_fold newAlerts ins cache1 active1 Hni) as H.
  destruct (foldl (store_new newAlerts) _ _) as [cache2 active2]. cbn [fst snd] in H.
  destruct H as [Hc2 Ha2].
  assert (forall c, c ∈ containers -> cache2 !! cd_ID c = audit_result a c) as Hres.
  { intros c Hin. rewrite Hc2, Hc1. rewrite (decide_True (P := cd_ID c ∈ cd_ID <$> containers))
      by by apply list_elem_of_fmap_2.
    unfold audit_result, cached_alerts.
    assert (cd_ID c ∈ cd_ID <$> ins <-> au_cache a !! cd_ID c = None) as Hin'.
    { rewrite Hi, list_elem_of_fmap. setoid_rewrite list_elem_of_filter. split.
      - intros (c' & Heq & Hc' & _). by rewrite Heq.
      - intros Hc. by exists c. }
    destruct (au_cache a !! cd_ID c) as [l|] eqn:El.
    - rewrite decide_False; [done|]. by intros ?%Hin'.
    - rewrite decide_True by by apply Hin'. rewrite Hnew by done. by destruct (inspected_alerts _ c). }
  assert (active2 ≡ₚ (containers ≫= fun c => default [] (audit_result a c))) as Hact.
  { rewrite Ha2, Ha1, Hi. by apply passes_together. }
  assert (match ins with
          | [] => (active1, {| au_rules := au_rules a; au_cache := evict ids cache1 |})
          | _ => (active2, {| au_rules := au_rules a; au_cache := evict ids cache2 |})
          end = (active2, {| au_rules := au_rules a; au_cache := evict ids cache2 |})) as ->.
  { destruct ins; [|done]. cbn in Ha2. rewrite app_nil_r in Ha2. subst active2. do 3 f_equal.
    apply map_eq. intros id. rewrite Hc2. by rewrite decide_False by apply not_elem_of_nil. }
  split_and!; [done|done|..]; cbn [au_cache].
  - intros c Hin. rewrite evict_lookup, decide_True; [by apply Hres|].
    unfold ids. apply elem_of_list_to_set. by apply list_elem_of_fmap_2.
  - intros id Hid. rewrite evict_lookup, decide_False; [done|]. unfold ids. by rewrite elem_of_list_to_set.
Qed.

(** C18. One audit of containers with distinct identifiers, however its goroutines are
    scheduled, returns for every container its cached alerts, refreshed, or those of
    a new inspection, or nothing when the inspection fails; afterwards the cache holds
    exactly these, so that failed inspections are tried again and the entries of
    vanished containers are gone. *)
Theorem Audit_spec sched containers a :
  NoDup (cd_ID <$> containers) -> (forall l, sched l ≡ₚ l) ->
  let '(active, a') := Audit sched e now containers a in
  active ≡ₚ (containers ≫= fun c => default [] (audit_result a c)) /\
  (forall c, c ∈ containers -> au_cache a' !! cd_ID c = audit_result a c) /\
  (forall id, id ∉ cd_ID <$> containers -> au_cache a' !! id = None).
Proof.
  intros Hnd Hs. pose proof (audit_spec sched containers a Hnd Hs) as H.
  destruct (Audit _ _ _ _ _). tauto.
Qed.
End auditor.

Section repeated.
Context (port_Int : string -> Z) (ordP : gmap string (list string) -> list (string * list string)).
Context {Eng : Type} `{Heng : ContainerEngine Eng}.

(** A container is inspected once: after an audit in which every inspection
    succeeded, an audit of the same containers on any engine state returns the first
    audit's alerts with only their firing time renewed; each still says it is active
    since the first audit. *)
Theorem repeated_audit sched e e2 t1 t2 containers (j : ContainerDisplay -> ContainerJSON) :
  NoDup (cd_ID <$> containers) -> (forall l, sched l ≡ₚ l) ->
  (forall c, c ∈ containers -> InspectContainer e (cd_ID c) = Ok (j c)) ->
  let '(_, a1) := Audit sched e t1 containers (NewAuditor port_Int ordP) in
  (Audit sched e2 t2 containers a1).1 ≡ₚ
    (containers ≫= fun c => refreshAll t2 (runRules (defaultRules port_Int ordP) c (j c) t1)).
Proof.
  intros Hnd Hs Hj. pose proof (audit_spec e t1 sched containers (NewAuditor port_Int ordP) Hnd Hs) as H1.
  destruct (Audit sched e t1 containers _) as [act1 a1]. destruct H1 as (_ & _ & Hc & _).
  pose proof (audit_spec e2 t2 sched containers a1 Hnd Hs) as H2.
  destruct (Audit sched e2 t2 containers a1) as [act2 a2]. destruct H2 as (_ & Ha & _).
  cbn [fst]. rewrite Ha. apply reflexive_eq, bind_ext_in. intros c Hin.
  unfold audit_result, cached_alerts. rewrite Hc by done.
  unfold audit_result, cached_alerts, inspected_alerts. cbn [au_cache NewAuditor].
  rewrite lookup_empty. cbn [fmap option_fmap option_map]. rewrite Hj by done. done.
Qed.
End repeated.

(** ** Witnesses *)

Definition ex_display (id : string) : ContainerDisplay := {|
  cd_HostID := ""; cd_ID := id; cd_Name := "web"; cd_Image := ""; cd_Status := ""; cd_State := "";
  cd_Command := ""; cd_Ports := ""; cd_Created := ""; cd_Networks := []; cd_Labels := ∅; cd_SizeRw := "";
  cd_Env := []; cd_HealthStatus := ""; cd_HealthLog := ""; cd_Mounts := []; cd_RestartPolicy := "";
  cd_RestartCount := 0; cd_CPULimit := f64_zero; cd_MemoryLimit := 0; cd_Entrypoint := "" |}.

(** A container that publishes a database on all interfaces and runs as root. *)
Definition ex_risky : ContainerJSON := {|
  cj_Config := None; cj_State := None; cj_HostConfig := None; cj_RestartCount := 0; cj_Mounts := [];
  cj_NetworkPorts := Some {["5432/tcp" := ["0.0.0.0"]]} |}.

Definition ex_engine_state : gmap string ContainerJSON := {["a" := ex_risky]}.

Lemma no_alert_iff_hardened_witness :
  ~ hardened ex_risky.
Proof.
  intros H. apply (no_alert_iff_hardened (fun _ => 5432) map_to_list (fun ports => range_of_refl ports)
    (ex_display "a") ex_risky 0) in H. vm_compute in H. discriminate H.
Defined.

Lemma Audit_spec_witness :
  (Audit (Heng := inspect_engine) reverse ex_engine_state 5 [ex_display "a"; ex_display "b"]
    (NewAuditor (fun _ => 5432) map_to_list)).2.(au_cache) !! "b" = None.
Proof.
  pose proof (Audit_spec (Heng := inspect_engine) ex_engine_state 5 reverse [ex_display "a"; ex_display "b"]
    (NewAuditor (fun _ => 5432) map_to_list)) as H.
  destruct (Audit _ _ _ _ _) as [act a']. cbn [snd].
  destruct H as (_ & H & _).
  - apply (bool_decide_unpack _). vm_compute. exact I.
  - intros l. apply reverse_Permutation.
  - change "b" with (cd_ID (ex_display "b")). rewrite (H (ex_display "b")); [reflexivity|right; left].
Defined.

Lemma repeated_audit_witness :
  let '(_, a1) := Audit (Heng := inspect_engine) reverse ex_engine_state 5 [ex_display "a"]
    (NewAuditor (fun _ => 5432) map_to_list) in
  (Audit (Heng := inspect_engine) reverse ∅ 9 [ex_display "a"] a1).1 ≡ₚ
    ([ex_display "a"] ≫= fun c => refreshAll 9 (runRules (defaultRules (fun _ => 5432) map_to_list) c ex_risky 5)).
Proof.
  apply (repeated_audit (fun _ => 5432) map_to_list (Heng := inspect_engine) reverse ex_engine_state ∅ 5 9
    [ex_display "a"] (fun _ => ex_risky)).
  - apply NoDup_singleton.
  - intros l. apply reverse_Permutation.
  - intros c Hc. apply list_elem_of_singleton in Hc. subst c. vm_compute. reflexivity.
Defined.

(** What the tests on texts let through: a capability with the prefix the daemon also
    accepts, and the option that turns the protection off. *)
Example cap_prefix_not_sensitive : bool_decide ("CAP_SYS_ADMIN" ∈ sensitiveCaps) = false.
Proof. reflexivity. Qed.

Example no_new_privileges_off : existsb noNewPrivileges ["no-new-privileges:false"] = true.
Proof. reflexivity. Qed.
