(* ===== verification/Crypto.v ===== *)
(** * Payload encryption ([internal/cluster/crypto.go])

    The framing of an encrypted payload: salt, nonce, ciphertext.  The primitives of
    Go's [crypto] packages (HKDF-SHA256, AES-GCM) and the random source are operations
    of the class [CryptoLib]; their documented contracts are the hypotheses [gcm_laws]. *)
From S2P Require Import Prelude.
From S2P Require Import GoStrings.

Definition saltSize : nat := 16.
Definition keySize : nat := 32.
Definition hkdfInfo : string := "castle-rock-cluster-v1".

Class CryptoLib (R : Type) := {
  (** [io.ReadFull(rand.Reader, buf)] for a buffer of [n] bytes. *)
  rand_ReadFull : nat -> R -> result string * R;
  (** [hkdf.Key(sha256.New, secret, salt, info, length)]. *)
  hkdf_Key : string -> string -> string -> nat -> result string;
  (** [aes.NewCipher(key)] followed by [cipher.NewGCM]. *)
  gcm_New : string -> result unit;
  gcm_NonceSize : nat;
  (** [Seal(nil, nonce, plaintext, nil)] and [Open(nil, nonce, ciphertext, nil)]. *)
  gcm_Seal : string -> string -> string -> string;
  gcm_Open : string -> string -> string -> result string
}.

(** The contracts: a full read returns the bytes asked for, and [Open] inverts
    [Seal] under the same key and nonce. *)
Record gcm_laws {R} `{CryptoLib R} : Prop := {
  law_rand : forall n r b r', rand_ReadFull n r = (Ok b, r') -> String.length b = n;
  law_gcm : forall key nonce p, String.length nonce = gcm_NonceSize ->
    gcm_Open key nonce (gcm_Seal key nonce p) = Ok p
}.
Arguments gcm_laws R {_}.

Section crypto.
Context {R : Type} `{Hlib : CryptoLib R}.

Definition deriveKey (secret salt : string) : result string := hkdf_Key secret salt hkdfInfo keySize.

Definition Encrypt (payload secret : string) (r : R) : result string * R :=
  let '(salt, r1) := rand_ReadFull saltSize r in
  match salt with
  | Err e => (Err e, r1)
  | Ok salt =>
      match deriveKey secret salt with
      | Err e => (Err e, r1)
      | Ok key =>
          match gcm_New key with
          | Err e => (Err e, r1)
          | Ok _ =>
              let '(nonce, r2) := rand_ReadFull gcm_NonceSize r1 in
              match nonce with
              | Err e => (Err e, r2)
              | Ok nonce => (Ok (salt +:+ nonce +:+ gcm_Seal key nonce payload), r2)
              end
          end
      end
  end.

Definition Decrypt (ciphertext secret : string) : result string :=
  if (String.length ciphertext <? saltSize)%nat then Err "ciphertext too short to contain salt" else
  let salt := str_take saltSize ciphertext in
  let rest := str_drop saltSize ciphertext in
  match deriveKey secret salt with
  | Err e => Err e
  | Ok key =>
      match gcm_New key with
      | Err e => Err e
      | Ok _ =>
          if (String.length rest <? gcm_NonceSize)%nat
          then Err "ciphertext too short to contain nonce"
          else gcm_Open key (str_take gcm_NonceSize rest) (str_drop gcm_NonceSize rest)
      end
  end.

Lemma Encrypt_inv payload secret r c r' :
  gcm_laws R -> Encrypt payload secret r = (Ok c, r') ->
  exists salt nonce key r1, rand_ReadFull saltSize r = (Ok salt, r1) /\ rand_ReadFull gcm_NonceSize r1 = (Ok nonce, r') /\
    String.length salt = saltSize /\ String.length nonce = gcm_NonceSize /\
    deriveKey secret salt = Ok key /\ gcm_New key = Ok tt /\
    c = salt +:+ nonce +:+ gcm_Seal key nonce payload.
Proof.
  intros L. unfold Encrypt.
  destruct (rand_ReadFull saltSize r) as [[salt|] r1] eqn:E1; [|done].
  destruct (deriveKey secret salt) as [key|] eqn:E2; [|done].
  destruct (gcm_New key) as [[]|] eqn:E3; [|done].
  destruct (rand_ReadFull gcm_NonceSize r1) as [[nonce|] r2] eqn:E4; [|done].
  intros [= <- <-]. exists salt, nonce, key, r1. split_and!; try done; by eapply law_rand.
Qed.

Lemma Decrypt_Encrypt payload secret r c r' :
  gcm_laws R -> Encrypt payload secret r = (Ok c, r') -> Decrypt c secret = Ok payload.
Proof.
  intros L (salt & nonce & key & r1 & _ & _ & Hs & Hn & Hk & Hg & ->)%Encrypt_inv; [|done].
  unfold Decrypt. rewrite (proj2 (Nat.ltb_ge _ _)) by (rewrite !str_length_app; lia).
  rewrite <-Hs, str_take_app, str_drop_app, Hk, Hg.
  rewrite (proj2 (Nat.ltb_ge _ _)) by (rewrite str_length_app; lia).
  rewrite <-Hn at 1 2. rewrite str_take_app, str_drop_app. by apply law_gcm.
Qed.

(** C25. Round trip. Whatever the random bytes, a payload that [Encrypt] accepts is
    recovered by [Decrypt] under the same secret; the encrypted form is sixteen bytes of
    salt, then the nonce, then the text sealed with that nonce and with the key of 32 bytes
    derived from the secret and that salt, both drawn from the random source, the salt
    first. *)
Theorem encrypt_roundtrip payload secret r c r' :
  gcm_laws R -> Encrypt payload secret r = (Ok c, r') ->
  Decrypt c secret = Ok payload /\
  exists salt nonce key r1,
    rand_ReadFull 16 r = (Ok salt, r1) /\ rand_ReadFull gcm_NonceSize r1 = (Ok nonce, r') /\
    String.length salt = 16%nat /\ String.length nonce = gcm_NonceSize /\
    hkdf_Key secret salt "castle-rock-cluster-v1" 32 = Ok key /\
    c = salt +:+ nonce +:+ gcm_Seal key nonce payload.
Proof.
  intros L E. split; [by eapply Decrypt_Encrypt|].
  apply Encrypt_inv in E as (salt & nonce & key & r1 & H1 & H2 & Hs & Hn & Hk & _ & ->); [|done].
  by exists salt, nonce, key, r1.
Qed.

(** Input too short for a salt or a nonce is refused without opening anything. *)
Lemma Decrypt_short c secret :
  (String.length c < saltSize)%nat -> is_ok (Decrypt c secret) = false.
Proof. intros Hc. unfold Decrypt. by rewrite (proj2 (Nat.ltb_lt _ _) Hc). Qed.
End crypto.

(** ** A toy library for examples

    Its random bytes count up, its key is the secret, and sealing prefixes the key and
    the nonce. *)
Definition toy_crypto : CryptoLib nat := {|
  rand_ReadFull := fun n r => (Ok (str_repeat n (String (Ascii.ascii_of_nat (65 + r)) EmptyString)), S r);
  hkdf_Key := fun secret _ _ _ => Ok secret;
  gcm_New := fun _ => Ok tt;
  gcm_NonceSize := 12;
  gcm_Seal := fun key nonce p => nonce +:+ key +:+ p;
  gcm_Open := fun key nonce c => if HasPrefix c (nonce +:+ key)
    then Ok (TrimPrefix c (nonce +:+ key)) else Err "cipher: message authentication failed"
|}.

Lemma str_repeat_length n c : String.length (str_repeat n (String c EmptyString)) = n.
Proof. induction n as [|n IH]; [done|]. cbn [str_repeat]. rewrite str_length_app, IH. done. Qed.

Lemma toy_laws : @gcm_laws nat toy_crypto.
Proof.
  split.
  - intros n r b r' [= <- _]. apply str_repeat_length.
  - intros key nonce p _. cbn [gcm_Open gcm_Seal toy_crypto]. rewrite <-str_app_assoc, TrimPrefix_app.
    by rewrite (proj2 (HasPrefix_iff _ _)) by eauto.
Qed.

Lemma encrypt_roundtrip_witness :
  Decrypt (Hlib := toy_crypto) "AAAAAAAAAAAAAAAABBBBBBBBBBBBBBBBBBBBBBBBs3crethello" "s3cret" = Ok "hello".
Proof.
  apply (encrypt_roundtrip (Hlib := toy_crypto) "hello" "s3cret" 0%nat _ 2%nat toy_laws). vm_compute. reflexivity.
Defined.

Example decrypt_wrong_secret :
  is_ok (Decrypt (Hlib := toy_crypto) "AAAAAAAAAAAAAAAABBBBBBBBBBBBBBBBBBBBBBBBs3crethello" "other") = false.
Proof. vm_compute. reflexivity. Qed.
