(* ===== verification/MemoryStore.v ===== *)
(** * The leader's store ([internal/cluster/receiver.go])

    The sharded map of the last payload of each worker, and the flat map it refines.
    The sixteen shards are locked one at a time; within a shard an operation is
    atomic. *)
From S2P Require Import Prelude.
From S2P Require Import GoStrings.
From S2P Require Import GoFloat.
From S2P Require Import GoTime.
From S2P Require Import Models.

Record HostData := mkHostData {
  hd_LastUpdate : Time;
  hd_Payload : PushPayload
}.

(** [shards[i].hosts]. *)
Notation MemoryStore := (list (gmap string HostData)).

Definition shardMask : Z := 15.

Definition NewMemoryStore : MemoryStore := replicate 16 ∅.

Fixpoint fnv (h : Z) (s : string) : Z :=
  match s with
  | EmptyString => h
  | String a s' => fnv (wrap_u32 (Z.lxor h (byte_val a) * 16777619)) s'
  end.

(** The index of the shard of a host. *)
Definition getShard (hostID : string) : nat := Z.to_nat (Z.land (fnv 2166136261 hostID) shardMask).

Definition UpdateHost (now : Time) (payload : PushPayload) (s : MemoryStore) : MemoryStore :=
  alter (fun hosts => <[pp_HostID payload := {| hd_LastUpdate := now; hd_Payload := payload |}]> hosts)
    (getShard (pp_HostID payload)) s.

Definition isStale (now : Time) (d : HostData) : bool := 30 * Second <? Sub now (hd_LastUpdate d).

(** The loop both readers share: append the fresh payloads' items, shard by shard;
    [ordH] is the order of the range over a shard's hosts. *)
Definition collect_fresh {A} (ordH : gmap string HostData -> list (string * HostData))
    (items : PushPayload -> list A) (now : Time) (s : MemoryStore) : list A :=
  foldl (fun all hosts =>
    foldl (fun all '(_, data) => if isStale now data then all else all ++ items (hd_Payload data))
      all (ordH hosts)) [] s.

Definition GetAllMetrics ordH (now : Time) (s : MemoryStore) : list ContainerMetrics :=
  collect_fresh ordH pp_Metrics now s.

Definition GetAllContainers ordH (now : Time) (s : MemoryStore) : list ContainerInfo :=
  collect_fresh ordH pp_Containers now s.

(** ** The flat map *)

(** What the store promises: the last payload of each host, and the items of those that are
    at most thirty seconds old. *)
Notation FlatStore := (gmap string HostData).

Definition flat_update (now : Time) (payload : PushPayload) (m : FlatStore) : FlatStore :=
  <[pp_HostID payload := {| hd_LastUpdate := now; hd_Payload := payload |}]> m.

Definition flat_collect {A} (items : PushPayload -> list A) (now : Time) (m : FlatStore) : list A :=
  map_to_list m ≫= fun '(_, data) =>
    if bool_decide (now - hd_LastUpdate data <= 30 * Second) then items (hd_Payload data) else [].

(** Sixteen shards, each holding hosts of its own index only, and together the flat map. *)
Record store_refines (s : MemoryStore) (m : FlatStore) : Prop := {
  sr_length : length s = 16%nat;
  sr_lookup : forall h, (s !! getShard h ≫= (!!) h) = m !! h;
  sr_own : forall i hosts h, s !! i = Some hosts -> is_Some (hosts !! h) -> getShard h = i
}.

Lemma getShard_range h : (getShard h < 16)%nat.
Proof.
  unfold getShard, shardMask. change 15 with (Z.ones 4). rewrite Z.land_ones by lia.
  pose proof (Z.mod_pos_bound (fnv 2166136261 h) (2 ^ 4)). lia.
Qed.

Lemma new_refines : store_refines NewMemoryStore ∅.
Proof.
  split; [done|..].
  - intros h. unfold NewMemoryStore. rewrite lookup_replicate_2 by apply getShard_range. done.
  - intros i hosts h [-> _]%lookup_replicate [d Hd]. by rewrite lookup_empty in Hd.
Qed.

Lemma update_refines now p s m :
  store_refines s m -> store_refines (UpdateHost now p s) (flat_update now p m).
Proof.
  intros [Hl Hm Ho]. unfold UpdateHost, flat_update. set (k := pp_HostID p). split.
  - by rewrite length_alter.
  - intros h. destruct (decide (h = k)) as [->|Hne].
    + rewrite list_lookup_alter_eq, lookup_insert_eq.
      destruct (lookup_lt_is_Some_2 s (getShard k)) as [hosts ->]; [rewrite Hl; apply getShard_range|].
      cbn. by rewrite lookup_insert_eq.
    + rewrite lookup_insert_ne, <-Hm by done.
      destruct (decide (getShard k = getShard h)) as [E|E].
      * rewrite E, list_lookup_alter_eq. destruct (s !! getShard h); [|done]. cbn.
        by rewrite lookup_insert_ne.
      * by rewrite list_lookup_alter_ne.
  - intros i hosts h Hi Hh. destruct (decide (getShard k = i)) as [<-|E].
    + rewrite list_lookup_alter_eq in Hi. destruct (s !! getShard k) as [hosts'|] eqn:Es; [|done].
      cbn in Hi. injection Hi as <-. destruct (decide (h = k)) as [->|Hne]; [done|].
      rewrite lookup_insert_ne in Hh by done. by eapply Ho.
    + rewrite list_lookup_alter_ne in Hi by done. by eapply Ho.
Qed.

Lemma collect_bind {A} ordH (items : PushPayload -> list A) now s :
  collect_fresh ordH items now s =
  s ≫= fun hosts => ordH hosts ≫= fun '(_, data) => if isStale now data then [] else items (hd_Payload data).
Proof.
  unfold collect_fresh.
  assert (forall l acc, foldl (fun all '(_, data) => if isStale now data then all
      else all ++ items (hd_Payload data)) acc (l : list (string * HostData)) =
    acc ++ (l ≫= fun '(_, data) => if isStale now data then [] else items (hd_Payload data))) as H1.
  { induction l as [|[h d] l IH]; intros acc; cbn; [by rewrite app_nil_r|].
    rewrite IH. destruct (isStale now d); [done|]. by rewrite <-app_assoc. }
  assert (forall l acc, foldl (fun all hosts => foldl (fun all '(_, data) => if isStale now data then all
      else all ++ items (hd_Payload data)) all (ordH hosts)) acc l =
    acc ++ (l ≫= fun hosts => ordH hosts ≫= fun '(_, data) =>
      if isStale now data then [] else items (hd_Payload data))) as H2; [|apply H2].
  induction l as [|hosts l IH]; intros acc; cbn [foldl]; [by rewrite app_nil_r|].
  rewrite IH, H1. cbn. by rewrite <-app_assoc.
Qed.

(** The pairs of all shards are those of the flat map. *)
Lemma shards_pairs s m :
  store_refines s m -> (s ≫= map_to_list) ≡ₚ map_to_list m.
Proof.
  intros [Hl Hm Ho]. apply NoDup_Permutation.
  - apply NoDup_bind_index; [intros; apply NoDup_map_to_list|].
    intros i j h1 h2 [h d] Hi Hj Hx1 Hx2. apply elem_of_map_to_list in Hx1, Hx2.
    rewrite <-(Ho i h1 h), <-(Ho j h2 h); eauto.
  - apply NoDup_map_to_list.
  - intros [h d]. rewrite elem_of_map_to_list, list_elem_of_bind, <-Hm. split.
    + intros (hosts & Hd & [i Hi]%list_elem_of_lookup). apply elem_of_map_to_list in Hd.
      assert (getShard h = i) as -> by (eapply Ho; [done|eauto]). by rewrite Hi.
    + destruct (s !! getShard h) as [hosts|] eqn:Es; [|done]. cbn. intros Hd.
      exists hosts. split; [by apply elem_of_map_to_list|by eapply list_elem_of_lookup_2].
Qed.

(** Saturating subtraction does not matter at thirty seconds. *)
Lemma fresh_iff now d : isStale now d = false <-> now - hd_LastUpdate d <= 30 * Second.
Proof.
  unfold isStale. rewrite Z.ltb_ge. pose proof (Sub_gt_iff now (hd_LastUpdate d) (30 * Second)) as H.
  assert (minDuration <= 30 * Second < maxDuration) as Hr by (unfold minDuration, maxDuration, Second; lia).
  specialize (H Hr). lia.
Qed.

Lemma stale_bool now d : isStale now d = negb (bool_decide (now - hd_LastUpdate d <= 30 * Second)).
Proof. pose proof (fresh_iff now d). case_bool_decide; destruct (isStale now d); naive_solver. Qed.

Lemma collect_refines {A} ordH (items : PushPayload -> list A) now s m :
  (forall hosts, range_of hosts (ordH hosts)) -> store_refines s m ->
  collect_fresh ordH items now s ≡ₚ flat_collect items now m.
Proof.
  intros Hord Hr. rewrite collect_bind. unfold flat_collect. rewrite <-(shards_pairs s m Hr).
  clear Hr. induction s as [|hosts s IH]; [done|]. cbn [mbind list_bind]. rewrite bind_app, IH.
  f_equiv. rewrite (Hord hosts). apply Permutation_refl', list_bind_ext; [|done].
  intros [h d]. rewrite stale_bool. by destruct (bool_decide _).
Qed.

(** ** Histories of pushes *)

(** The store and the flat map after accepting payloads at given times. *)
Definition store_after (pushes : list (Time * PushPayload)) : MemoryStore :=
  foldl (fun s '(t, p) => UpdateHost t p s) NewMemoryStore pushes.

Definition flat_after (pushes : list (Time * PushPayload)) : FlatStore :=
  foldl (fun m '(t, p) => flat_update t p m) ∅ pushes.

Lemma store_after_refines pushes : store_refines (store_after pushes) (flat_after pushes).
Proof.
  unfold store_after, flat_after. generalize new_refines.
  generalize NewMemoryStore as s, (∅ : FlatStore) as m.
  induction pushes as [|[t p] pushes IH]; intros s m Hr; [done|]. apply IH. by apply update_refines.
Qed.

Lemma flat_after_snoc pushes t p : flat_after (pushes ++ [(t, p)]) = flat_update t p (flat_after pushes).
Proof. unfold flat_after. by rewrite foldl_app. Qed.

(** The flat map holds the last payload of each host. *)
Lemma flat_after_lookup pushes h d :
  flat_after pushes !! h = Some d <->
  exists before after, pushes = before ++ (hd_LastUpdate d, hd_Payload d) :: after /\
    pp_HostID (hd_Payload d) = h /\ Forall (fun tp => pp_HostID tp.2 <> h) after.
Proof.
  revert d; induction pushes as [|[t p] pushes IH] using rev_ind; intros d.
  - split; [intros H; cbn in H; by rewrite lookup_empty in H|]. by intros (before & after & E & _); destruct before.
  - rewrite flat_after_snoc. unfold flat_update. rewrite lookup_insert_Some. split.
    + intros [[<- <-]|[Hne Hd]].
      * exists pushes, []. by split_and!.
      * apply IH in Hd as (before & after & -> & Hh & Hall). exists before, (after ++ [(t, p)]).
        rewrite <-app_assoc. split_and!; [done|done|]. apply Forall_app. split; [done|]. by apply Forall_singleton.
    + intros (before & after & E & Hh & Hall).
      destruct after as [|x after _] using rev_ind.
      * apply app_inj_tail in E as [-> [= -> ->]]. left. split; [done|]. by destruct d.
      * rewrite app_comm_cons, app_assoc in E. apply app_inj_tail in E as [-> <-].
        apply Forall_app in Hall as [Hall [Hne _]%Forall_cons]. right. split; [done|].
        apply IH. by exists before, after.
Qed.

(** C17. The sharded store refines a flat map. After any sequence of pushes the sixteen
    shards hold, each under its own index, exactly the last payload of each host with its
    time, and at any time [GetAllMetrics] and [GetAllContainers] return, whatever the
    iteration orders, the items of the last payloads that are at most thirty seconds old,
    each once. *)
Theorem store_refines_flat ordH pushes now :
  (forall hosts, range_of hosts (ordH hosts)) ->
  let held := flat_after pushes in
  let fresh {A} (items : PushPayload -> list A) := map_to_list held ≫= fun '(_, d) =>
    if bool_decide (now - hd_LastUpdate d <= 30 * Second) then items (hd_Payload d) else [] in
  (forall h d, held !! h = Some d <->
     exists before after, pushes = before ++ (hd_LastUpdate d, hd_Payload d) :: after /\
       pp_HostID (hd_Payload d) = h /\ Forall (fun tp => pp_HostID tp.2 <> h) after) /\
  length (store_after pushes) = 16%nat /\
  (forall i shard h d, store_after pushes !! i = Some shard ->
     (shard !! h = Some d <-> held !! h = Some d /\ getShard h = i)) /\
  GetAllMetrics ordH now (store_after pushes) ≡ₚ fresh pp_Metrics /\
  GetAllContainers ordH now (store_after pushes) ≡ₚ fresh pp_Containers.
Proof.
  intros Hord held fresh. pose proof (store_after_refines pushes) as Hr.
  split; [apply flat_after_lookup|]. split; [by apply Hr|]. split; [|split; by apply collect_refines].
  intros i shard h d Hi. destruct Hr as [_ Hm Ho]. unfold held. rewrite <-Hm. split.
  - intros Hd. assert (getShard h = i) as <- by (eapply Ho; eauto). by rewrite Hi.
  - intros [Hd <-]. by rewrite Hi in Hd.
Qed.

Lemma elem_flat_collect {A} (items : PushPayload -> list A) now m x :
  x ∈ flat_collect items now m <->
  exists h d, m !! h = Some d /\ now - hd_LastUpdate d <= 30 * Second /\ x ∈ items (hd_Payload d).
Proof.
  unfold flat_collect. rewrite list_elem_of_bind. split.
  - intros ([h d] & Hx & Hd). apply elem_of_map_to_list in Hd.
    case_bool_decide as E; [|by apply elem_of_nil in Hx]. by exists h, d.
  - intros (h & d & Hd & Hs & Hx). exists (h, d). rewrite bool_decide_eq_true_2 by done. split; [done|]. by apply elem_of_map_to_list.
Qed.

(** The items of the last payloads that are at most thirty seconds old. *)
Lemma elem_fresh {A} (items : PushPayload -> list A) now pushes x :
  x ∈ flat_collect items now (flat_after pushes) <->
  exists before t p after, pushes = before ++ (t, p) :: after /\
    Forall (fun tp => pp_HostID tp.2 <> pp_HostID p) after /\
    now - t <= 30 * Second /\ x ∈ items p.
Proof.
  rewrite elem_flat_collect. setoid_rewrite flat_after_lookup. split.
  - intros (h & d & (before & after & E & <- & Hall) & Hn & Hx).
    exists before, (hd_LastUpdate d), (hd_Payload d), after. done.
  - intros (before & t & p & after & E & Hall & Hn & Hx).
    exists (pp_HostID p), {| hd_LastUpdate := t; hd_Payload := p |}. split_and!; [|done..].
    by exists before, after.
Qed.

(** Freshness. A container metric is visible in the leader at time [now] exactly
    when it is in the last payload some host pushed and that push is at most thirty
    seconds old: a newer push replaces a host's data and silence hides it. *)
Theorem visible_metric_iff ordH pushes now x :
  (forall hosts, range_of hosts (ordH hosts)) ->
  x ∈ GetAllMetrics ordH now (store_after pushes) <->
  exists before t p after, pushes = before ++ (t, p) :: after /\
    Forall (fun tp => pp_HostID tp.2 <> pp_HostID p) after /\
    now - t <= 30 * Second /\ x ∈ pp_Metrics p.
Proof.
  intros Hord.
  assert (GetAllMetrics ordH now (store_after pushes) ≡ₚ flat_collect pp_Metrics now (flat_after pushes)) as ->.
  { apply collect_refines; [done|]. apply store_after_refines. }
  apply elem_fresh.
Qed.

(** ** Witnesses *)

Definition ex_payload (h : string) : PushPayload := {|
  pp_HostID := h; pp_Containers := []; pp_Metrics := [set_metrics_host h zeroMetrics] |}.

(** Of two hosts the second is fresh. *)
Lemma store_refines_flat_witness :
  let pushes := [(0, ex_payload "a"); (1, ex_payload "b")] in
  GetAllMetrics map_to_list (30 * Second + 1) (store_after pushes) ≡ₚ [set_metrics_host "b" zeroMetrics].
Proof.
  intros pushes.
  destruct (store_refines_flat map_to_list pushes (30 * Second + 1) (fun hosts => range_of_refl hosts))
    as (_ & _ & _ & H & _).
  exact H.
Defined.

Lemma visible_metric_iff_witness :
  ~ set_metrics_host "a" zeroMetrics ∈
    GetAllMetrics map_to_list (31 * Second) (store_after [(0, ex_payload "a")]).
Proof.
  intros H. apply (visible_metric_iff map_to_list [(0, ex_payload "a")] (31 * Second)) in H;
    [|intros hosts; apply range_of_refl].
  destruct H as (before & t & p & after & E & _ & Hn & _).
  destruct before as [|x before]; [|destruct before; discriminate E].
  injection E as <- _ _. unfold Second in Hn. lia.
Defined.

(** Three hosts, two of which share a shard. *)
Example shard_indices : getShard <$> ["host-a"; ""; "host-b"] = [5; 5; 12]%nat.
Proof. vm_compute. reflexivity. Qed.
