(* ===== verification/Receiver.v ===== *)
(** * The leader's HTTP receiver ([internal/cluster/receiver.go])

    [ServeHTTP] over any store, as a function from the request to the status, the
    message and the next store.  The payload's JSON is that of [PayloadJson]; compression
    (Go's [compress/gzip]) is the class [Codec]. *)
From S2P Require Import Prelude.
From S2P Require Import GoStrings.
From S2P Require Import GoFloat.
From S2P Require Import GoTime.
From S2P Require Import Models.
From S2P Require Import PayloadJson.
From S2P Require Import Crypto.
From S2P Require Import MemoryStore.

Class Codec := {
  (** The compressed form of a text, and reading it back. *)
  gzip_Write : string -> string;
  gzip_Read : string -> result string
}.

(** A store for the received payloads. *)
Class ClusterStore (S : Type) := {
  cs_UpdateHost : Time -> PushPayload -> S -> S;
  cs_GetAllMetrics : Time -> S -> list ContainerMetrics;
  cs_GetAllContainers : Time -> S -> list ContainerInfo
}.

(** What a store promises to the receiver and the exporter: to hold the last payload of each
    host and to list the items of those that are fresh, in any order. *)
Class ClusterStoreLaws (S : Type) `{Hstore : ClusterStore S} := {
  cs_empty : S;
  cs_holds : S -> FlatStore -> Prop;
  cs_holds_empty : cs_holds cs_empty ∅;
  cs_holds_update : forall now p s m, cs_holds s m -> cs_holds (cs_UpdateHost now p s) (flat_update now p m);
  cs_metrics : forall now s m, cs_holds s m -> cs_GetAllMetrics now s ≡ₚ flat_collect pp_Metrics now m;
  cs_containers : forall now s m, cs_holds s m -> cs_GetAllContainers now s ≡ₚ flat_collect pp_Containers now m
}.

(** The sharded store, for an order of the ranges over its shards. *)
Definition memory_store (ordH : gmap string HostData -> list (string * HostData)) : ClusterStore MemoryStore := {|
  cs_UpdateHost := UpdateHost; cs_GetAllMetrics := GetAllMetrics ordH; cs_GetAllContainers := GetAllContainers ordH |}.

(** It keeps the promise, whatever the order. *)
Definition memory_store_laws ordH (Hord : forall hosts, range_of hosts (ordH hosts)) :
    ClusterStoreLaws MemoryStore (Hstore := memory_store ordH) :=
  let st := memory_store ordH in {|
  cs_empty := NewMemoryStore;
  cs_holds := store_refines;
  cs_holds_empty := new_refines;
  cs_holds_update := fun now p s m => update_refines now p s m;
  cs_metrics := fun now s m => collect_refines ordH pp_Metrics now s m Hord;
  cs_containers := fun now s m => collect_refines ordH pp_Containers now s m Hord |}.

(** A request: its headers by canonical name, and its body or the error of reading it. *)
Record Request := mkRequest {
  rq_Method : string;
  rq_Header : gmap string string;
  rq_Body : result string
}.

(** [req.Header.Get(k)], for the canonical form of [k] (the name
    [X-CastleRock-Encrypted] of the source has the form [X-Castlerock-Encrypted]). *)
Definition header (req : Request) (k : string) : string := default "" (rq_Header req !! k).

Record Receiver := mkReceiver {
  rc_sharedSecret : string;
  rc_token : string
}.

Record Response := mkResponse { rs_Status : Z; rs_Body : string }.

Definition NewReceiver (secret token : string) : Receiver := {| rc_sharedSecret := secret; rc_token := token |}.

Definition http_error (msg : string) (status : Z) : Response := {| rs_Status := status; rs_Body := msg |}.

Definition maxBody : Z := 5 * 1024 * 1024.

(** Reading a body through [http.MaxBytesReader]. *)
Definition limited_body (req : Request) : result string :=
  match rq_Body req with
  | Err e => Err e
  | Ok b => if maxBody <? Z.of_nat (String.length b) then Err "http: request body too large" else Ok b
  end.

Section receiver.
Context {R S : Type} `{Hlib : CryptoLib R} `{Hcodec : Codec} `{Hstore : ClusterStore S}.

(** The token check. *)
Definition authorized (r : Receiver) (req : Request) : bool :=
  if bool_decide (rc_token r <> "") then
    let authHeader := header req "Authorization" in
    if bool_decide (authHeader = "") || negb (HasPrefix authHeader "Bearer ") then false
    else bool_decide (TrimPrefix authHeader "Bearer " = rc_token r)
  else true.

(** Reading and decompressing the body. *)
Definition read_body (req : Request) : result string :=
  b ← limited_body req;
  if bool_decide (header req "Content-Encoding" = "gzip") then gzip_Read b else Ok b.

(** The decryption step: [None] when the request is to be refused. *)
Definition open_body (r : Receiver) (req : Request) (body : string) : option string :=
  if bool_decide (rc_sharedSecret r <> "") then
    if negb (bool_decide (header req "X-Castlerock-Encrypted" = "true")) then None
    else match Decrypt body (rc_sharedSecret r) with Ok b => Some b | Err _ => None end
  else Some body.

Definition ServeHTTP (r : Receiver) (now : Time) (req : Request) (s : S) : Response * S :=
  if negb (bool_decide (rq_Method req = "POST")) then (http_error "Method not allowed" 405, s) else
  if negb (authorized r req) then (http_error "Unauthorized" 401, s) else
  match read_body req with
  | Err _ => (http_error "Bad Request" 400, s)
  | Ok body =>
      match open_body r req body with
      | None => (http_error "Forbidden" 403, s)
      | Some body =>
          match json_Unmarshal body with
          | Err _ => (http_error "Bad Request" 400, s)
          | Ok payload =>
              if bool_decide (pp_HostID payload = "") then (http_error "Missing HostID" 400, s)
              else ({| rs_Status := 202; rs_Body := "" |}, cs_UpdateHost now payload s)
          end
      end
  end.

(** The receiver's own methods pass through to its store. *)
Definition Receiver_GetAllMetrics (now : Time) (s : S) : list ContainerMetrics := cs_GetAllMetrics now s.
Definition Receiver_GetAllContainers (now : Time) (s : S) : list ContainerInfo := cs_GetAllContainers now s.

(** A request the receiver accepts, with its payload: a POST with the bearer token, if there
    is one, whose body is read to its end within five mebibytes, decompresses if it is said
    to be compressed, decrypts if there is a secret, parses and names a host. *)
Definition acceptable (r : Receiver) (req : Request) (payload : PushPayload) : Prop :=
  rq_Method req = "POST" /\
  (rc_token r <> "" -> header req "Authorization" = "Bearer " +:+ rc_token r) /\
  exists sent body plain, rq_Body req = Ok sent /\ Z.of_nat (String.length sent) <= 5242880 /\
    (if decide (header req "Content-Encoding" = "gzip") then gzip_Read sent = Ok body else body = sent) /\
    (if decide (rc_sharedSecret r = "") then plain = body
     else header req "X-Castlerock-Encrypted" = "true" /\ Decrypt body (rc_sharedSecret r) = Ok plain) /\
    json_Unmarshal plain = Ok payload /\ pp_HostID payload <> "".

Lemma authorized_iff r req :
  authorized r req = true <-> (rc_token r <> "" -> header req "Authorization" = "Bearer " +:+ rc_token r).
Proof.
  unfold authorized. set (a := header req "Authorization").
  case_bool_decide as Ht; [|naive_solver].
  assert ((if bool_decide (a = "") || negb (HasPrefix a "Bearer ") then false
    else bool_decide (TrimPrefix a "Bearer " = rc_token r)) = true <-> a = "Bearer " +:+ rc_token r) as E;
    [|naive_solver].
  split.
  - destruct (bool_decide (a = "")); [done|]. cbn [orb].
    destruct (HasPrefix a "Bearer ") eqn:Hp; [|done]. cbn [negb].
    apply HasPrefix_iff in Hp as [t Hp]. rewrite Hp, TrimPrefix_app. intros E%bool_decide_eq_true. by rewrite E.
  - intros ->. rewrite TrimPrefix_app. rewrite (proj2 (HasPrefix_iff _ _)) by eauto.
    rewrite bool_decide_eq_false_2 by done. cbn. by apply bool_decide_eq_true_2.
Qed.

Lemma open_body_iff r req body plain :
  open_body r req body = Some plain <->
  (if decide (rc_sharedSecret r = "") then plain = body
   else header req "X-Castlerock-Encrypted" = "true" /\ Decrypt body (rc_sharedSecret r) = Ok plain).
Proof.
  unfold open_body. destruct (decide (rc_sharedSecret r = "")) as [E|E].
  - rewrite bool_decide_eq_false_2 by (by intros ?). naive_solver.
  - rewrite bool_decide_eq_true_2 by done. case_bool_decide; cbn [negb]; [|naive_solver].
    destruct (Decrypt body (rc_sharedSecret r)); naive_solver.
Qed.

Lemma read_body_iff req body :
  read_body req = Ok body <-> exists sent, rq_Body req = Ok sent /\ Z.of_nat (String.length sent) <= 5242880 /\
    (if decide (header req "Content-Encoding" = "gzip") then gzip_Read sent = Ok body else body = sent).
Proof.
  unfold read_body, limited_body. change maxBody with 5242880. destruct (rq_Body req) as [sent|e]; [|naive_solver].
  destruct (Z.ltb_spec 5242880 (Z.of_nat (String.length sent))); cbn.
  - split; [done|]. intros (s & [= <-] & ? & _). lia.
  - case_bool_decide; case_decide; naive_solver.
Qed.

Lemma serve_accepted r now req s payload :
  acceptable r req payload -> ServeHTTP r now req s = ({| rs_Status := 202; rs_Body := "" |}, cs_UpdateHost now payload s).
Proof.
  intros (Hm & Ha & sent & body & plain & Hs & Hl & Hz & Ho & Hj & Hh). unfold ServeHTTP.
  assert (read_body req = Ok body) as Hb by (apply read_body_iff; eauto).
  rewrite bool_decide_eq_true_2 by done. apply authorized_iff in Ha. rewrite Ha, Hb. cbn [negb].
  apply open_body_iff in Ho. rewrite Ho, Hj. by rewrite bool_decide_eq_false_2.
Qed.

Lemma serve_cases r now req s :
  (exists payload, acceptable r req payload) \/
  exists msg status, ServeHTTP r now req s = (http_error msg status, s) /\ status ∈ [400; 401; 403; 405].
Proof.
  unfold ServeHTTP. case_bool_decide as Hm; cbn [negb]; [|right; do 2 eexists; split; [done|set_solver]].
  destruct (authorized r req) eqn:Ha; cbn [negb]; [|right; do 2 eexists; split; [done|set_solver]].
  destruct (read_body req) as [body|] eqn:Hb; [|right; do 2 eexists; split; [done|set_solver]].
  destruct (open_body r req body) as [plain|] eqn:Ho; [|right; do 2 eexists; split; [done|set_solver]].
  destruct (json_Unmarshal plain) as [payload|] eqn:Hj; [|right; do 2 eexists; split; [done|set_solver]].
  case_bool_decide as Hh; [right; do 2 eexists; split; [done|set_solver]|].
  left. exists payload. split_and!; [done|by apply authorized_iff|].
  apply read_body_iff in Hb as (sent & Hs & Hl & Hz). exists sent, body, plain.
  split_and!; [done..|by apply open_body_iff|done|done].
Qed.

(** C12. The receiver accepts (202) exactly the POST requests that carry the bearer token,
    whose body is at most five mebibytes, decompresses if its encoding is gzip, decrypts
    under the shared secret when one is set (cleartext is then refused), parses and names a host; an
    accepted payload is what the store is updated with, and any other request is
    answered with 400, 401, 403 or 405 and leaves the store as it was. *)
Theorem ServeHTTP_accepts_iff r now req s :
  (rs_Status (ServeHTTP r now req s).1 = 202 <-> exists payload, acceptable r req payload) /\
  (forall payload, acceptable r req payload ->
    (ServeHTTP r now req s).2 = cs_UpdateHost now payload s) /\
  (rs_Status (ServeHTTP r now req s).1 <> 202 ->
    (ServeHTTP r now req s).2 = s /\ rs_Status (ServeHTTP r now req s).1 ∈ [400; 401; 403; 405]).
Proof.
  destruct (serve_cases r now req s) as [[p Hp]|(msg & status & E & Hin)].
  - rewrite (serve_accepted _ _ _ _ _ Hp). split_and!; [split; [by exists p|done]| |by intros []].
    intros p' Hp'. pose proof (serve_accepted r now req s p' Hp') as E'.
    rewrite (serve_accepted _ _ _ _ _ Hp) in E'. cbn. congruence.
  - rewrite E. cbn. split_and!.
    + split; [intros ->; set_solver|]. intros [p Hp]. rewrite (serve_accepted _ _ _ _ _ Hp) in E.
      unfold http_error in E. by simplify_eq.
    + intros p Hp. rewrite (serve_accepted _ _ _ _ _ Hp) in E. unfold http_error in E. by simplify_eq.
    + done.
Qed.

(** Authentication. With a token set, a POST request whose authorization is not
    exactly that bearer token is answered 401 and cannot change the store, whatever
    its other headers and its body. *)
Theorem unauthenticated_rejected r now req s :
  rq_Method req = "POST" -> rc_token r <> "" ->
  header req "Authorization" <> "Bearer " +:+ rc_token r ->
  ServeHTTP r now req s = (http_error "Unauthorized" 401, s).
Proof.
  intros Hm Ht Ha. unfold ServeHTTP. rewrite bool_decide_eq_true_2 by done.
  destruct (authorized r req) eqn:E; [|done].
  apply authorized_iff in E; [|done]. by destruct Ha.
Qed.
End receiver.
