(* ===== verification/Discovery.v ===== *)
(** * Finding the leader ([internal/cluster/discovery.go])

    The leader's mDNS advertisement and the worker's search.  The mDNS library is the
    class [MDNS], the resolver of the [net] package its [net_LookupIP]. *)
From S2P Require Import Prelude.
From S2P Require Import GoStrings.

Definition ServiceType : string := "_castlerock._tcp".
Definition ServiceName : string := "Castle Rock Leader".

(** What a query yields for a service: an IPv4 address and a port. *)
Record ServiceEntry := mkServiceEntry { se_AddrV4 : string; se_Port : Z }.

Class MDNS (Zone Server : Type) := {
  net_LookupIP : string -> list string;
  (** Instance, service, domain, host, port, addresses and the TXT records. *)
  NewMDNSService : string -> string -> string -> string -> Z -> list string -> list string -> result Zone;
  NewServer : Zone -> result Server;
  Shutdown : Server -> result unit;
  (** The answers a running server gives to queries for its service. *)
  answers : Server -> list ServiceEntry
}.

Section advertiser.
Context {Zone Server : Type} `{Hmdns : MDNS Zone Server}.

Definition NewAdvertiser (port : Z) : result Server :=
  let ips := net_LookupIP "localhost" in
  let info := ["Castle Rock Observability Leader"] in
  service ← NewMDNSService "castlerock-leader" ServiceType "" "" port ips info;
  NewServer service.

Definition Advertiser_Close (a : Server) : result unit := Shutdown a.
End advertiser.

(** ** The search *)

(** The case the [select] of [DiscoverLeader] takes: an entry of the channel (none when
    it was closed), the end of the context, or the timeout. *)
Inductive DiscoveryEvent :=
  | DiscEntry (entry : option ServiceEntry)
  | DiscCtxDone (e : error)
  | DiscTimeout.

Definition DiscoverLeader (ev : DiscoveryEvent) : result string :=
  match ev with
  | DiscEntry (Some entry) =>
      Ok ("http://" +:+ se_AddrV4 entry +:+ ":" +:+ itoa (se_Port entry) +:+ "/api/v1/push")
  | DiscEntry None => Err "mDNS: leader not found"
  | DiscCtxDone e => Err e
  | DiscTimeout => Err "mDNS: timeout searching for leader"
  end.

Lemma discovered_nonempty ev url : DiscoverLeader ev = Ok url -> url <> "".
Proof. destruct ev as [[entry|]|e|]; cbn; intros E; simplify_eq; discriminate. Qed.

(** ** What an advertised leader is found as *)

Section loopback.
Context {Zone Server : Type} `{Hmdns : MDNS Zone Server}.

(** A server answers with the addresses and the port of its service. *)
Definition mdns_laws : Prop :=
  forall inst svc dom host port ips info z srv,
    NewMDNSService inst svc dom host port ips info = Ok z -> NewServer z = Ok srv ->
    forall entry, entry ∈ answers srv -> se_AddrV4 entry ∈ ips /\ se_Port entry = port.

(** A leader advertises what [localhost] resolves to: with the usual resolver, which maps
    it to 127.0.0.1 among the IPv4 addresses, every worker that finds it through its
    answers is given a URL of the worker's own machine. *)
Theorem advertised_leader_is_local port srv entry :
  mdns_laws -> (forall ip, ip ∈ net_LookupIP "localhost" -> ip = "127.0.0.1") ->
  NewAdvertiser port = Ok srv -> entry ∈ answers srv ->
  DiscoverLeader (DiscEntry (Some entry)) = Ok ("http://127.0.0.1:" +:+ itoa port +:+ "/api/v1/push").
Proof.
  intros Hlaws Hlocal Hadv Hin. unfold NewAdvertiser in Hadv.
  destruct (NewMDNSService _ _ _ _ _ _ _) as [z|] eqn:Ez; [|done]. cbn in Hadv.
  destruct (Hlaws _ _ _ _ _ _ _ _ _ Ez Hadv entry Hin) as [Hip Hport]. apply Hlocal in Hip.
  cbn [DiscoverLeader]. by rewrite Hip, Hport.
Qed.
End loopback.

(** ** Witness *)

(** A library whose servers answer with the first address of their service. *)
Definition toy_mdns : MDNS (list string * Z) (list string * Z) := {|
  net_LookupIP := fun host => if bool_decide (host = "localhost") then ["127.0.0.1"] else [];
  NewMDNSService := fun _ _ _ _ port ips _ => if port =? 0 then Err "missing service port" else Ok (ips, port);
  NewServer := fun z => Ok z;
  Shutdown := fun _ => Ok tt;
  answers := fun srv => match srv.1 with ip :: _ => [{| se_AddrV4 := ip; se_Port := srv.2 |}] | [] => [] end
|}.

Lemma toy_mdns_laws : mdns_laws (Hmdns := toy_mdns).
Proof.
  intros inst svc dom host port ips info z srv Hz Hs entry Hin. cbn in Hz, Hs. destruct (port =? 0); [done|].
  simplify_eq. cbn in Hin. destruct ips as [|ip ips]; [by apply elem_of_nil in Hin|].
  apply list_elem_of_singleton in Hin as ->. cbn. split; [left|done].
Qed.

Lemma advertised_leader_is_local_witness :
  DiscoverLeader (DiscEntry (Some {| se_AddrV4 := "127.0.0.1"; se_Port := 9110 |})) =
  Ok "http://127.0.0.1:9110/api/v1/push".
Proof.
  apply (advertised_leader_is_local (Hmdns := toy_mdns) 9110 (["127.0.0.1"], 9110)).
  - exact toy_mdns_laws.
  - intros ip Hip. apply list_elem_of_singleton in Hip. exact Hip.
  - vm_compute. reflexivity.
  - left.
Defined.
