(* ===== verification/Sender.v ===== *)
(** * The worker's sender ([internal/cluster/sender.go])

    One push with its retries, the start and one tick of the sending loop; its runs are in
    [SenderLoop].  The HTTP client is the class [HttpClient] over the state [H] of the other
    side; a cancelled context shows in the errors of the calls and in the waits.  The
    theorem on retries relates a push to the answers that the same request would get. *)
From S2P Require Import Prelude.
From S2P Require Import GoStrings.
From S2P Require Import GoFloat.
From S2P Require Import GoTime.
From S2P Require Import Models.
From S2P Require Import PayloadJson.
From S2P Require Import Config.
From S2P Require Import InternalMetrics.
From S2P Require Import Logger.
From S2P Require Import DockerTypes.
From S2P Require Import ContainerEngine.
From S2P Require Import Crypto.
From S2P Require Import MemoryStore.
From S2P Require Import Receiver.
From S2P Require Import Discovery.

Class HttpClient (H : Type) := {
  (** Whether [http.NewRequest] accepts the URL. *)
  http_NewRequest : string -> bool;
  (** [client.Do]: the status of the response. *)
  http_Do : string -> Request -> H -> result Z * H
}.

(** How a push ended. *)
Inductive SendOutcome :=
  | Sent
  | Cancelled                (* the context ended a wait between attempts *)
  | Failed                   (* all attempts failed *)
  | Dropped (e : error).     (* the payload could not be prepared *)

#[export] Instance SendOutcome_eq_dec : EqDecision SendOutcome.
Proof. solve_decision. Defined.

(** What a push did: attempts and waits. *)
Inductive SendEvent :=
  | Attempt (ok : bool)
  | Wait (d : Duration).

Section sender.
Context {H R : Type} `{Hhttp : HttpClient H} `{Hlib : CryptoLib R} `{Hcodec : Codec}.

Definition push_headers (encrypted : bool) (authToken : string) : gmap string string :=
  let base : gmap string string :=
    if encrypted
    then <["X-Castlerock-Encrypted" := "true"]> {["Content-Type" := "application/octet-stream"]}
    else {["Content-Type" := "application/json"]} in
  let h := <["Content-Encoding" := "gzip"]> base in
  if bool_decide (authToken <> "") then <["Authorization" := "Bearer " +:+ authToken]> h else h.

Definition push_request (encrypted : bool) (authToken compressedData : string) : Request := {|
  rq_Method := "POST"; rq_Header := push_headers encrypted authToken; rq_Body := Ok compressedData |}.

(** The headers a receiver looks at. *)
Lemma push_request_headers encrypted authToken data :
  header (push_request encrypted authToken data) "Content-Encoding" = "gzip" /\
  header (push_request encrypted authToken data) "X-Castlerock-Encrypted" = (if encrypted then "true" else "") /\
  header (push_request encrypted authToken data) "Authorization" =
    (if bool_decide (authToken <> "") then "Bearer " +:+ authToken else "").
Proof.
  unfold header, push_request, push_headers. cbn [rq_Header].
  destruct encrypted; case_bool_decide; split_and!; by simplify_map_eq.
Qed.

(** The closure of one attempt. *)
Definition attempt (url : string) (req : Request) (h : H) : bool * H :=
  if http_NewRequest url then
    let '(r, h') := http_Do url req h in
    (match r with Ok status => (status =? 200) || (status =? 202) | Err _ => false end, h')
  else (false, h).

(** The retry loop from attempt [i] on, with [left] retries left; [cancelled i] says
    whether the context ends the wait after attempt [i]. *)
Fixpoint push_loop (left : nat) (url : string) (req : Request) (cancelled : nat -> bool) (i : nat)
    (backoff : Duration) (h : H) : SendOutcome * list SendEvent * H :=
  let '(ok, h1) := attempt url req h in
  if ok then (Sent, [Attempt true], h1)
  else match left with
  | O => (Failed, [Attempt false], h1)
  | S left' =>
      if cancelled i then (Cancelled, [Attempt false], h1)
      else let '(o, evs, h2) := push_loop left' url req cancelled (S i) (backoff * 2) h1 in
           (o, Attempt false :: Wait backoff :: evs, h2)
  end.

Definition maxRetries : nat := 3.

Record SendResult := mkSendResult {
  sr_outcome : SendOutcome;
  sr_trace : list SendEvent;
  sr_http : H;
  sr_rand : R;
  sr_metrics : InternalMetrics
}.

(** The marshalled and, with a secret, encrypted payload. *)
Definition prepare (payload : PushPayload) (secret : string) (r : R) : result (string * bool) * R :=
  match json_Marshal payload with
  | Err e => (Err e, r)
  | Ok data =>
      if bool_decide (secret <> "") then
        let '(c, r') := Encrypt data secret r in
        (match c with Ok c => Ok (c, true) | Err e => Err e end, r')
      else (Ok (data, false), r)
  end.

(** The deferred timer observes every push. *)
Definition sendPushPayload (url secret authToken : string) (payload : PushPayload)
    (cancelled : nat -> bool) (h : H) (r : R) (m : InternalMetrics) : SendResult :=
  let '(p, r') := prepare payload secret r in
  match p with
  | Err e => {| sr_outcome := Dropped e; sr_trace := []; sr_http := h; sr_rand := r';
                sr_metrics := observe_push m |}
  | Ok (data, encrypted) =>
      let req := push_request encrypted authToken (gzip_Write data) in
      let '(o, evs, h') := push_loop maxRetries url req cancelled 0 Second h in
      {| sr_outcome := o; sr_trace := evs; sr_http := h'; sr_rand := r';
         sr_metrics := observe_push (match o with Failed => inc_push_failures m | _ => m end) |}
  end.

(** ** The loop *)

Section loop.
Context {E : Type} `{Heng : ContainerEngine E}.

(** The URL the loop starts with; [None] when the agent is not a worker. *)
Definition sender_start (cfg : ClusterConfig) (ev : DiscoveryEvent) : option string :=
  if bool_decide (cluster_Mode cfg <> "worker") then None
  else if bool_decide (cluster_LeaderURL cfg = "")
  then Some (match DiscoverLeader ev with Ok url => url | Err _ => "" end)
  else Some (cluster_LeaderURL cfg).

(** The payload of a tick; [ordM] is the order of the range over the metrics map. *)
Definition tick_payload (hostID : string) (containers : list ContainerInfo)
    (ordM : list (string * ContainerMetrics)) : PushPayload := {|
  pp_HostID := hostID;
  pp_Containers := set_info_host hostID <$> containers;
  pp_Metrics := (fun kv => set_metrics_host hostID kv.2) <$> ordM |}.

(** What a tick does: nothing, a new URL, or a push. *)
Inductive TickResult :=
  | Skipped
  | Rediscovered (url : string)
  | Pushed (res : SendResult).

Definition sender_tick (cfg : ClusterConfig) (ordM : gmap string ContainerMetrics -> list (string * ContainerMetrics))
    (leaderURL : string) (ev : DiscoveryEvent) (cancelled : nat -> bool)
    (e : E) (h : H) (r : R) (m : InternalMetrics) : option TickResult :=
  listed ← ListRunningContainers e true;
  match listed with
  | Err _ => Some Skipped
  | Ok containers =>
      match ContainerEngine.GetAllContainerStats e containers with
      | Err _ => Some Skipped
      | Ok metricsMap =>
          let payload := tick_payload (cluster_HostID cfg) containers (ordM metricsMap) in
          if bool_decide (leaderURL <> "")
          then Some (Pushed (sendPushPayload leaderURL (cluster_SharedSecret cfg) (cluster_AuthToken cfg)
                               payload cancelled h r m))
          else Some (match DiscoverLeader ev with Ok url => Rediscovered url | Err _ => Skipped end)
      end
  end.
End loop.

(** ** Retries *)

(** The answer to a request, when the URL is accepted. *)
Definition respond (url : string) (req : Request) (h : H) : result Z * H :=
  if http_NewRequest url then http_Do url req h else (Err "invalid URL", h).

(** The answers to the same request sent [n] times, and the other side after them. *)
Fixpoint responses (n : nat) (url : string) (req : Request) (h : H) : list (result Z) :=
  match n with O => [] | S n' => let '(r, h') := respond url req h in r :: responses n' url req h' end.

Fixpoint after_requests (n : nat) (url : string) (req : Request) (h : H) : H :=
  match n with O => h | S n' => after_requests n' url req (respond url req h).2 end.

(** Whether the [k]-th answer is 200 or 202. *)
Definition answered_ok (rs : list (result Z)) (k : nat) : bool :=
  match rs !! k with Some (Ok status) => (status =? 200) || (status =? 202) | _ => false end.

Definition is_accepted (r : result Z) : bool :=
  match r with Ok status => (status =? 200) || (status =? 202) | Err _ => false end.

(** [n] failed attempts, each with the wait after it, doubling from [b]. *)
Fixpoint failed_attempts (n : nat) (b : Duration) : list SendEvent :=
  match n with O => [] | S n' => Attempt false :: Wait b :: failed_attempts n' (b * 2) end.

Lemma attempt_respond url req h :
  attempt url req h = (is_accepted (respond url req h).1, (respond url req h).2).
Proof.
  unfold attempt, respond. destruct (http_NewRequest url); [|done].
  by destruct (http_Do url req h) as [[] h'].
Qed.

Lemma answered_head r rs : answered_ok (r :: rs) 0 = is_accepted r.
Proof. by destruct r. Qed.

(** The loop: failed attempts with doubling waits between them, and a last attempt that
    succeeds, exhausts the retries or is followed by a cancellation. *)
Lemma push_loop_spec left url req cancelled i b h :
  let '(o, evs, h') := push_loop left url req cancelled i b h in
  let rs := responses (S left) url req h in
  exists n, (n <= left)%nat /\ h' = after_requests (S n) url req h /\
    evs = failed_attempts n b ++ [Attempt (answered_ok rs n)] /\
    (forall k, (k < n)%nat -> answered_ok rs k = false /\ cancelled (i + k)%nat = false) /\
    match o with
    | Sent => answered_ok rs n = true
    | Failed => n = left /\ answered_ok rs n = false
    | Cancelled => (n < left)%nat /\ answered_ok rs n = false /\ cancelled (i + n)%nat = true
    | Dropped _ => False
    end.
Proof.
  revert i b h; induction left as [|left IH]; intros i b h; cbn [push_loop]; rewrite attempt_respond;
    cbn [responses]; destruct (respond url req h) as [r h1] eqn:Er; cbn [fst snd];
    destruct (is_accepted r) eqn:E0.
  1-3: exists O; cbn [after_requests failed_attempts app]; rewrite Er, answered_head, E0; split_and!; done || lia.
  destruct (cancelled i) eqn:Ec.
  { exists O. cbn [after_requests failed_attempts app]. rewrite Er, answered_head, E0, Nat.add_0_r. split_and!; done || lia. }
  specialize (IH (S i) (b * 2) h1). destruct (push_loop left _ _ _ _ _ h1) as [[o evs] h2].
  destruct IH as (n & Hn & Hh & Hev & Hk & Ho). exists (S n).
  cbn [responses] in Hev, Hk, Ho. split_and!; [lia| | | |].
  - cbn [after_requests]. by rewrite Er.
  - cbn [failed_attempts app]. by rewrite Hev.
  - intros [|k] Hlt; [by rewrite Nat.add_0_r, answered_head|]. rewrite Nat.add_succ_r. apply (Hk k). lia.
  - rewrite Nat.add_succ_r. destruct o; [done|intuition lia|intuition lia|done].
Qed.

(** What every request of a push keeps, the push keeps. *)
Lemma push_loop_keeps (P : H -> Prop) left url req cancelled i b h :
  (forall h, P h -> P (http_Do url req h).2) -> P h -> P (push_loop left url req cancelled i b h).2.
Proof.
  intros Hdo. assert (forall h, P h -> P (attempt url req h).2) as Ha.
  { intros h' Hh. unfold attempt. destruct (http_NewRequest url); [|done].
    specialize (Hdo h' Hh). by destruct (http_Do url req h'). }
  revert i b h; induction left as [|left IH]; intros i b h Hh; cbn [push_loop];
    pose proof (Ha h Hh) as H1; destruct (attempt url req h) as [[] h1]; cbn [snd] in *; try done.
  destruct (cancelled i); [done|]. specialize (IH (S i) (b * 2) h1 H1).
  by destruct (push_loop left url req cancelled (S i) (b * 2) h1) as [[o evs] h2].
Qed.

Lemma sendPushPayload_keeps (P : H -> Prop) url secret token payload cancelled h r m :
  (forall data enc r', prepare payload secret r = (Ok (data, enc), r') ->
     forall h, P h -> P (http_Do url (push_request enc token (gzip_Write data)) h).2) ->
  P h -> P (sr_http (sendPushPayload url secret token payload cancelled h r m)).
Proof.
  intros Hdo Hh. unfold sendPushPayload. destruct (prepare payload secret r) as [[[data enc]|e] r']; [|done].
  pose proof (push_loop_keeps P maxRetries url (push_request enc token (gzip_Write data)) cancelled 0 Second h
    (Hdo _ _ _ eq_refl) Hh) as HP.
  by destruct (push_loop _ _ _ _ _ _ h) as [[o evs] h'].
Qed.

(** C22. Retries are bounded. A payload that cannot be prepared is dropped without an attempt.
    Otherwise the request is sent at most four times, [n + 1] times exactly, where [n] is the
    first attempt that is answered 200 or 202, or during whose wait the context ended, or
    the fourth; the attempts before it failed, with waits of one, two and four seconds after
    them. The push is sent exactly if the last attempt was answered so, failed exactly if
    it was the fourth and was not, and cancelled exactly if the context ended its wait; the
    failure counter rises, by one, exactly if it failed; and its time is observed once. *)
Theorem push_retries_bounded url secret token payload cancelled h r m :
  let res := sendPushPayload url secret token payload cancelled h r m in
  ClusterPushDuration (sr_metrics res) = ClusterPushDuration m + 1 /\
  match (prepare payload secret r).1 with
  | Err e =>
      sr_outcome res = Dropped e /\ sr_trace res = [] /\ sr_http res = h /\
      ClusterPushFailures (sr_metrics res) = ClusterPushFailures m
  | Ok (data, encrypted) =>
      let req := push_request encrypted token (gzip_Write data) in
      let rs := responses 4 url req h in
      let good k := match rs !! k with Some (Ok status) => (status =? 200) || (status =? 202) | _ => false end in
      exists n : nat, (n <= 3)%nat /\ sr_http res = after_requests (S n) url req h /\
        (forall k, (k < n)%nat -> good k = false /\ cancelled k = false) /\
        (good n = true \/ n = 3%nat \/ cancelled n = true) /\
        sr_trace res =
          take (2 * n) [Attempt false; Wait Second; Attempt false; Wait (2 * Second); Attempt false; Wait (4 * Second)] ++
          [Attempt (good n)] /\
        (sr_outcome res = Sent <-> good n = true) /\
        (sr_outcome res = Failed <-> n = 3%nat /\ good n = false) /\
        (sr_outcome res = Cancelled <-> (n < 3)%nat /\ good n = false /\ cancelled n = true) /\
        ClusterPushFailures (sr_metrics res) =
          ClusterPushFailures m + (if decide (n = 3%nat /\ good n = false) then 1 else 0)
  end.
Proof.
  cbn zeta. unfold sendPushPayload. destruct (prepare payload secret r) as [[[data enc]|e] r']; [|done].
  cbn [fst]. set (req := push_request enc token (gzip_Write data)).
  pose proof (push_loop_spec maxRetries url req cancelled 0 Second h) as Hs.
  destruct (push_loop _ _ _ _ _ _ h) as [[o evs] h']. change (S maxRetries) with 4%nat in Hs.
  set (rs := responses 4 url req h) in *. destruct Hs as (n & Hn & Hh & Hev & Hk & Ho).
  cbn [sr_outcome sr_trace sr_metrics sr_http]. unfold maxRetries in *.
  split; [by destruct o|]. exists n.
  change (match rs !! n with Some (Ok status) => (status =? 200) || (status =? 202) | _ => false end)
    with (answered_ok rs n).
  split_and!; [done|done|done| | | | | |].
  - destruct o; intuition.
  - rewrite Hev. f_equal. by destruct n as [|[|[|[|n]]]]; [..|lia].
  - destruct o; intuition (congruence || done).
  - destruct o; intuition (congruence || lia || done).
  - destruct o; intuition (congruence || lia || done).
  - destruct (decide _) as [Hd|Hd]; destruct o; cbn; intuition (congruence || lia).
Qed.
End sender.
