(* ===== verification/SenderLoop.v ===== *)
(** * The worker's sending loop ([StartSender] of [internal/cluster/sender.go])

    Runs of the loop over the ticks it meets until the context ends, and the leader each
    push goes to. *)
From S2P Require Import Prelude.
From S2P Require Import GoStrings.
From S2P Require Import GoFloat.
From S2P Require Import GoTime.
From S2P Require Import Models.
From S2P Require Import PayloadJson.
From S2P Require Import Config.
From S2P Require Import InternalMetrics.
From S2P Require Import Logger.
From S2P Require Import DockerTypes.
From S2P Require Import ContainerEngine.
From S2P Require Import Crypto.
From S2P Require Import MemoryStore.
From S2P Require Import Receiver.
From S2P Require Import Discovery.
From S2P Require Import Sender.

(** What a tick meets: the engine as it is, what a discovery would end with, and whether
    the context ends the wait after an attempt of the push. *)
Record TickInput (E : Type) := mkTickInput {
  ti_engine : E;
  ti_discovery : DiscoveryEvent;
  ti_cancelled : nat -> bool
}.
Arguments mkTickInput {E}.
Arguments ti_engine {E}.
Arguments ti_discovery {E}.
Arguments ti_cancelled {E}.

(** The case the loop's [select] takes. *)
Inductive SenderInput (E : Type) :=
  | SenderTick (i : TickInput E)
  | SenderDone.
Arguments SenderTick {E}.
Arguments SenderDone {E}.

(** The loop's variable [leaderURL], the other side of the HTTP client, the source of
    randomness and the agent's metrics. *)
Record SenderState (H R : Type) := mkSenderState {
  ss_url : string;
  ss_http : H;
  ss_rand : R;
  ss_metrics : InternalMetrics
}.
Arguments mkSenderState {H R}.
Arguments ss_url {H R}.
Arguments ss_http {H R}.
Arguments ss_rand {H R}.
Arguments ss_metrics {H R}.

Section loop.
Context {H R E : Type} `{Hhttp : HttpClient H} `{Hlib : CryptoLib R} `{Hcodec : Codec} `{Heng : ContainerEngine E}.
Context (ordM : gmap string ContainerMetrics -> list (string * ContainerMetrics)).

(** One tick, with the URL it found in the variable; [None] is a panic of the listing. *)
Definition sender_step (cfg : ClusterConfig) (i : TickInput E) (s : SenderState H R)
    : option (string * TickResult (H := H) (R := R) * SenderState H R) :=
  res ← sender_tick cfg ordM (ss_url s) (ti_discovery i) (ti_cancelled i) (ti_engine i)
          (ss_http s) (ss_rand s) (ss_metrics s);
  Some (ss_url s, res, match res with
    | Skipped => s
    | Rediscovered url => mkSenderState url (ss_http s) (ss_rand s) (ss_metrics s)
    | Pushed p => mkSenderState (ss_url s) (sr_http p) (sr_rand p) (sr_metrics p)
    end).

Fixpoint sender_loop (cfg : ClusterConfig) (evs : list (SenderInput E)) (s : SenderState H R)
    : option (list (string * TickResult (H := H) (R := R)) * SenderState H R) :=
  match evs with
  | [] | SenderDone :: _ => Some ([], s)
  | SenderTick i :: evs' =>
      '(res, s1) ← sender_step cfg i s;
      '(log, s2) ← sender_loop cfg evs' s1;
      Some (res :: log, s2)
  end.

Definition StartSender (cfg : ClusterConfig) (first : DiscoveryEvent) (evs : list (SenderInput E))
    (h : H) (r : R) (m : InternalMetrics)
    : option (list (string * TickResult (H := H) (R := R)) * SenderState H R) :=
  match sender_start cfg first with
  | None => Some ([], mkSenderState "" h r m)
  | Some url => sender_loop cfg evs (mkSenderState url h r m)
  end.

(** ** The leader of a tick *)

(** The ticks before the end of the context. *)
Fixpoint ticks (evs : list (SenderInput E)) : list (TickInput E) :=
  match evs with
  | SenderTick i :: evs' => i :: ticks evs'
  | _ => []
  end.

(** The payload of an engine whose collection succeeds. *)
Definition collected (cfg : ClusterConfig) (e : E) : option PushPayload :=
  match ListRunningContainers e true with
  | Some (Ok containers) =>
      match ContainerEngine.GetAllContainerStats e containers with
      | Ok metricsMap => Some (tick_payload (cluster_HostID cfg) containers (ordM metricsMap))
      | Err _ => None
      end
  | _ => None
  end.

(** The leader a tick without one finds: it looks for it only after a collection. *)
Definition found (cfg : ClusterConfig) (i : TickInput E) : option string :=
  match collected cfg (ti_engine i) with
  | Some _ => match DiscoverLeader (ti_discovery i) with Ok url => Some url | Err _ => None end
  | None => None
  end.

(** The first leader found since a start with [url], none being the empty URL. *)
Definition leader_from (cfg : ClusterConfig) (url : string) (earlier : list (TickInput E)) : string :=
  if bool_decide (url <> "") then url else default "" (head (omap (found cfg) earlier)).

Lemma leader_from_nil cfg url : leader_from cfg url [] = url.
Proof. unfold leader_from. case_bool_decide as Hu; [done|]. cbn. destruct (decide (url = "")); [done|tauto]. Qed.

Lemma leader_from_snoc_ne cfg url l l' :
  leader_from cfg url l <> "" -> leader_from cfg url (l ++ l') = leader_from cfg url l.
Proof.
  unfold leader_from. case_bool_decide; [done|]. rewrite omap_app, head_app.
  by destruct (omap (found cfg) l).
Qed.

(** What a tick does, by the URL it has. *)
Definition tick_does (cfg : ClusterConfig) (i : TickInput E) (url : string)
    (res : TickResult (H := H) (R := R)) : Prop :=
  match collected cfg (ti_engine i) with
  | None => res = Skipped
  | Some payload =>
      if bool_decide (url = "")
      then res = match found cfg i with Some u => Rediscovered u | None => Skipped end
      else exists h r m, res = Pushed (sendPushPayload url (cluster_SharedSecret cfg) (cluster_AuthToken cfg)
                                         payload (ti_cancelled i) h r m)
  end.

Lemma sender_step_does cfg i s u res s' :
  sender_step cfg i s = Some (u, res, s') ->
  u = ss_url s /\ tick_does cfg i u res /\ ss_url s' = leader_from cfg (ss_url s) [i].
Proof.
  unfold sender_step, sender_tick, tick_does, leader_from, found, collected. cbn [omap list_omap].
  destruct (ListRunningContainers (ti_engine i) true) as [[cs|err]|]; cbn; [| |done].
  2:{ intros [= <- <- <-]. split_and!; [done..|]. case_bool_decide as Hu; [done|]. destruct (decide (ss_url s = "")); [done|tauto]. }
  destruct (ContainerEngine.GetAllContainerStats (ti_engine i) cs) as [ms|err]; cbn.
  2:{ intros [= <- <- <-]. split_and!; [done..|]. case_bool_decide as Hu; [done|]. destruct (decide (ss_url s = "")); [done|tauto]. }
  case_bool_decide as Hu; cbn.
  - intros [= <- <- <-]. rewrite bool_decide_eq_false_2 by done. split_and!; [done|by eauto|done].
  - assert (ss_url s = "") as Hz by (destruct (decide (ss_url s = "")); [done|tauto]).
    destruct (DiscoverLeader (ti_discovery i)) as [url|err]; intros [= <- <- <-];
      rewrite bool_decide_eq_true_2 by done; by split_and!.
Qed.

(** A tick's requests are those of the push of its collection. *)
Lemma sender_step_http cfg i s u res s' :
  sender_step cfg i s = Some (u, res, s') ->
  ss_http s' = ss_http s \/
  exists url payload m, collected cfg (ti_engine i) = Some payload /\
    ss_http s' = sr_http (sendPushPayload url (cluster_SharedSecret cfg) (cluster_AuthToken cfg) payload
                            (ti_cancelled i) (ss_http s) (ss_rand s) m).
Proof.
  unfold sender_step, sender_tick, collected.
  destruct (ListRunningContainers (ti_engine i) true) as [[cs|err]|]; cbn; [|intros [= <- <- <-]; by left|done].
  destruct (ContainerEngine.GetAllContainerStats (ti_engine i) cs) as [ms|err]; cbn; [|intros [= <- <- <-]; by left].
  case_bool_decide; cbn.
  - intros [= <- <- <-]. right. by do 3 eexists.
  - destruct (DiscoverLeader (ti_discovery i)); intros [= <- <- <-]; by left.
Qed.

(** A tick that knows a leader pushes what it collected. *)
Lemma sender_step_pushes cfg i s payload :
  ss_url s <> "" -> collected cfg (ti_engine i) = Some payload ->
  exists p, p = sendPushPayload (ss_url s) (cluster_SharedSecret cfg) (cluster_AuthToken cfg) payload
                  (ti_cancelled i) (ss_http s) (ss_rand s) (ss_metrics s) /\
    sender_step cfg i s = Some (ss_url s, Pushed p, mkSenderState (ss_url s) (sr_http p) (sr_rand p) (sr_metrics p)).
Proof.
  intros Hu. unfold sender_step, sender_tick, collected.
  destruct (ListRunningContainers (ti_engine i) true) as [[cs|err]|]; [|done..]. cbn.
  destruct (ContainerEngine.GetAllContainerStats (ti_engine i) cs) as [ms|err]; [|done]. intros [= <-].
  rewrite bool_decide_eq_true_2 by done. by eexists.
Qed.

Lemma leader_from_cons cfg url i l : leader_from cfg url (i :: l) = leader_from cfg (leader_from cfg url [i]) l.
Proof.
  unfold leader_from. case_bool_decide; [by rewrite bool_decide_eq_true_2|]. cbn [omap list_omap].
  destruct (found cfg i) as [u|] eqn:Ef; [|done]. cbn. rewrite bool_decide_eq_true_2; [done|].
  unfold found in Ef. destruct (collected cfg (ti_engine i)); [|done].
  destruct (DiscoverLeader (ti_discovery i)) eqn:Ed; [|done]. injection Ef as <-. by eapply discovered_nonempty.
Qed.

Lemma sender_loop_does cfg evs s log s' :
  sender_loop cfg evs s = Some (log, s') ->
  length log = length (ticks evs) /\
  (forall k u res, log !! k = Some (u, res) -> exists i, ticks evs !! k = Some i /\
     u = leader_from cfg (ss_url s) (take k (ticks evs)) /\ tick_does cfg i u res) /\
  ss_url s' = leader_from cfg (ss_url s) (ticks evs).
Proof.
  revert s log; induction evs as [|[i|] evs IH]; intros s log; cbn [sender_loop ticks].
  1, 3: intros [= <- <-]; split_and!; [done|by intros k u res Hk|by rewrite leader_from_nil].
  destruct (sender_step cfg i s) as [[[u res] s1]|] eqn:Es; [|done]. cbn [mbind option_bind].
  destruct (sender_loop cfg evs s1) as [[log' s2]|] eqn:El; [|done]. cbn. intros [= <- <-].
  apply sender_step_does in Es as (Hu & Hd & Hs1). destruct (IH _ _ El) as (Hlen & Hk & Hs2).
  rewrite Hs1 in Hk, Hs2. split_and!.
  - by rewrite <-Hlen.
  - intros [|k] u' res'; cbn [lookup list_lookup take].
    + intros [= <- <-]. exists i. by rewrite leader_from_nil.
    + intros Hin. destruct (Hk _ _ _ Hin) as (i' & ? & ? & ?). exists i'. by rewrite leader_from_cons.
  - by rewrite leader_from_cons.
Qed.

End loop.

(** ** Witness *)

(** A network that answers 202 and counts the requests, without compression. *)
Definition counting_http : HttpClient nat := {|
  http_NewRequest := fun _ => true; http_Do := fun _ _ n => (Ok 202, S n) |}.

Definition plain_codec : Codec := {| gzip_Write := fun d => d; gzip_Read := fun d => Ok d |}.

Definition ex_worker : ClusterConfig := {|
  cluster_Mode := "worker"; cluster_HostID := "w1"; cluster_LeaderURL := "";
  cluster_SharedSecret := ""; cluster_AuthToken := "tok" |}.

(** Two ticks, the first of which finds the leader, and one after the end. *)
Definition ex_inputs : list (SenderInput (gmap string ContainerJSON)) :=
  let found := DiscEntry (Some {| se_AddrV4 := "10.0.0.9"; se_Port := 9110 |}) in
  let other := DiscEntry (Some {| se_AddrV4 := "10.0.0.8"; se_Port := 9110 |}) in
  [SenderTick (mkTickInput ∅ found (fun _ => false)); SenderTick (mkTickInput ∅ other (fun _ => false));
   SenderDone; SenderTick (mkTickInput ∅ other (fun _ => false))].

Definition ex_sender_run : option (list (string * TickResult) * SenderState nat nat) :=
  StartSender (Hhttp := counting_http) (Hlib := toy_crypto) (Hcodec := plain_codec) (Heng := inspect_engine)
    map_to_list ex_worker DiscTimeout ex_inputs 0%nat 0%nat
    {| MetadataCacheHits := 0; MetadataCacheMisses := 0; ClusterPushDuration := 0;
       ClusterPushFailures := 0; MonitoredContainers := f64_zero |}.

