(* ===== verification/Cluster.v ===== *)
(** * Worker to leader: the push protocol end to end

    The sender of [Sender] talking to the receiver of [Receiver] over a network that
    delivers its requests: the HTTP client's other side is the leader's store.  The client
    refuses a URL that does not parse and a header value with a control character, and a
    value loses the blanks at its ends on the way, as Go's net/http does. *)
From S2P Require Import Prelude.
From S2P Require Import GoStrings.
From S2P Require Import GoFloat.
From S2P Require Import GoTime.
From S2P Require Import Models.
From S2P Require Import GoUtf8.
From S2P Require Import GoFloatText.
From S2P Require Import PayloadJson.
From S2P Require Import Config.
From S2P Require Import InternalMetrics.
From S2P Require Import Logger.
From S2P Require Import DockerTypes.
From S2P Require Import ContainerEngine.
From S2P Require Import Crypto.
From S2P Require Import MemoryStore.
From S2P Require Import Receiver.
From S2P Require Import Sender.

(** ** Headers on the wire

    What [net/http] does to the headers of a request on its way: the client's transport
    refuses a value with a control character other than a tab, and a value arrives without
    the blanks (spaces and tabs) around it.  The server's limit on the size of all headers,
    one megabyte, is left out. *)
Definition header_byte (a : ascii) : bool :=
  let v := byte_val a in (v =? 9) || ((32 <=? v) && negb (v =? 127)).

Fixpoint valid_value (s : string) : bool :=
  match s with EmptyString => true | String a s' => header_byte a && valid_value s' end.

Definition is_blank (a : ascii) : bool := (byte_val a =? 32) || (byte_val a =? 9).

Fixpoint trim_left_blanks (s : string) : string :=
  match s with String a s' => if is_blank a then trim_left_blanks s' else s | EmptyString => s end.

Fixpoint trim_right_blanks (s : string) : string :=
  match s with
  | EmptyString => s
  | String a s' =>
      match trim_right_blanks s' with
      | EmptyString => if is_blank a then EmptyString else String a EmptyString
      | t => String a t
      end
  end.

Definition trim_blanks (s : string) : string := trim_right_blanks (trim_left_blanks s).

(** The request that arrives; [None] is the transport's error. *)
Definition wire_request (req : Request) : option Request :=
  if bool_decide (map_Forall (fun _ v => valid_value v = true) (rq_Header req))
  then Some {| rq_Method := rq_Method req; rq_Header := trim_blanks <$> rq_Header req; rq_Body := rq_Body req |}
  else None.

(** A token that arrives as it is. *)
Definition token_survives (token : string) : Prop :=
  valid_value token = true /\ trim_right_blanks token = token.

Lemma trim_right_app s t :
  trim_right_blanks (s +:+ t) =
  if decide (trim_right_blanks t = "") then trim_right_blanks s else s +:+ trim_right_blanks t.
Proof.
  induction s as [|a s IH].
  - rewrite !str_app_nil_l. case_decide as E; [exact E|done].
  - rewrite !str_app_cons. cbn [trim_right_blanks]. rewrite IH. case_decide as E; [done|].
    destruct (s +:+ trim_right_blanks t) as [|c u] eqn:Es; [|done].
    destruct s as [|c s]; [|by rewrite str_app_cons in Es]. rewrite str_app_nil_l in Es. congruence.
Qed.

(** How the authorization header arrives. *)
Lemma trim_bearer token :
  trim_blanks ("Bearer " +:+ token) =
  if decide (trim_right_blanks token = "") then "Bearer" else "Bearer " +:+ trim_right_blanks token.
Proof. unfold trim_blanks. change (trim_left_blanks ("Bearer " +:+ token)) with ("Bearer " +:+ token). apply trim_right_app. Qed.

Lemma wire_request_inv req req' :
  wire_request req = Some req' ->
  map_Forall (fun _ v => valid_value v = true) (rq_Header req) /\
  req' = {| rq_Method := rq_Method req; rq_Header := trim_blanks <$> rq_Header req; rq_Body := rq_Body req |}.
Proof. unfold wire_request. case_bool_decide; [|done]. by intros [= <-]. Qed.

Lemma wire_header req req' k : wire_request req = Some req' -> header req' k = trim_blanks (header req k).
Proof.
  intros [_ ->]%wire_request_inv. unfold header. cbn [rq_Header]. rewrite lookup_fmap. by destruct (rq_Header req !! k).
Qed.

(** A push as it arrives. *)
Record arrives (enc : bool) (data : string) (req : Request) : Prop := {
  ar_Method : rq_Method req = "POST";
  ar_Body : rq_Body req = Ok data;
  ar_gzip : header req "Content-Encoding" = "gzip";
  ar_encrypted : header req "X-Castlerock-Encrypted" = if enc then "true" else ""
}.

Lemma wire_push `{Codec} enc token data req :
  wire_request (push_request enc token data) = Some req ->
  arrives enc data req /\
  header req "Authorization" = trim_blanks (if bool_decide (token <> "") then "Bearer " +:+ token else "").
Proof.
  intros Hw. destruct (push_request_headers enc token data) as (Hce & Hx & Ha). split.
  - split.
    + by apply wire_request_inv in Hw as [_ ->].
    + by apply wire_request_inv in Hw as [_ ->].
    + by rewrite (wire_header _ _ _ Hw), Hce.
    + rewrite (wire_header _ _ _ Hw), Hx. by destruct enc.
  - by rewrite (wire_header _ _ _ Hw), Ha.
Qed.

Lemma valid_bearer token : valid_value token = true -> valid_value ("Bearer " +:+ token) = true.
Proof. intros H. exact H. Qed.

Lemma wire_push_valid enc token data :
  token_survives token ->
  exists req, wire_request (push_request enc token data) = Some req /\
    (token <> "" -> header req "Authorization" = "Bearer " +:+ token).
Proof.
  intros [Hv Ht]. eexists. split.
  - unfold wire_request. rewrite bool_decide_eq_true_2; [done|]. unfold push_request, push_headers. cbn [rq_Header].
    assert (map_Forall (fun (_ v : string) => valid_value v = true)
      (<["Content-Encoding" := "gzip"]> (if enc return gmap string string
        then <["X-Castlerock-Encrypted" := "true"]> {["Content-Type" := "application/octet-stream"]}
        else {["Content-Type" := "application/json"]}))) as Hb.
    { apply map_Forall_insert_2; [done|].
      destruct enc; [apply map_Forall_insert_2; [done|]|]; by apply map_Forall_singleton. }
    case_bool_decide; [|exact Hb]. apply map_Forall_insert_2; [by apply valid_bearer|exact Hb].
  - intros Hne. unfold header. cbn [rq_Header]. rewrite lookup_fmap. unfold push_request, push_headers. cbn [rq_Header].
    rewrite bool_decide_eq_true_2, lookup_insert_eq by done. cbn [fmap option_fmap option_map default from_option id].
    rewrite trim_bearer, Ht. by rewrite decide_False.
Qed.

Section cluster.
Context {R S : Type} `{Hlib : CryptoLib R} `{Hcodec : Codec} `{Hstore : ClusterStore S}.
Context (rc : Receiver) (now : Time).
(** Which URLs [http.NewRequest] accepts. *)
Context (url_valid : string -> bool).

(** A client whose requests reach the leader [rc] at time [now]. *)
Definition direct : HttpClient S := {|
  http_NewRequest := url_valid;
  http_Do := fun _ req s =>
    match wire_request req with
    | None => (Err "net/http: invalid header field value", s)
    | Some req => let '(resp, s') := ServeHTTP rc now req s in (Ok (rs_Status resp), s')
    end
|}.

Hypothesis Hgcm : gcm_laws R.
(** Decompression inverts compression. *)
Hypothesis Hgzip : forall data, gzip_Read (gzip_Write data) = Ok data.

(** A prepared payload, compressed and arriving with the right token, is acceptable, as the
    receiver reads it: with valid text. *)
Lemma prepared_acceptable payload r data enc r' req :
  prepare payload (rc_sharedSecret rc) r = (Ok (data, enc), r') ->
  payload_typed payload -> pp_HostID payload <> "" ->
  Z.of_nat (String.length (gzip_Write data)) <= maxBody ->
  arrives enc (gzip_Write data) req ->
  (rc_token rc <> "" -> header req "Authorization" = "Bearer " +:+ rc_token rc) ->
  acceptable rc req (sanitize_payload payload).
Proof.
  intros Hp Ht Hh Hlen [Hm Hb Hce Hx] Ha. unfold prepare in Hp.
  destruct (json_Marshal payload) as [d|] eqn:Hj; [|done].
  destruct (proj2 (json_roundtrip payload Ht) d Hj) as [Hu _].
  split; [done|]. split; [done|]. exists (gzip_Write data), data, d.
  split_and!; [done|done| |destruct (decide (rc_sharedSecret rc = "")) as [Hs|Hs]|done|by apply sanitize_nonempty].
  - rewrite decide_True by done. apply Hgzip.
  - rewrite bool_decide_eq_false_2 in Hp by (by intros ?). by simplify_eq.
  - rewrite bool_decide_eq_true_2 in Hp by done.
    destruct (Encrypt d (rc_sharedSecret rc) r) as [[c|] r1] eqn:E; [|done]. simplify_eq.
    split; [done|by eapply Decrypt_Encrypt].
Qed.

(** What the receiver takes a prepared payload for, if it accepts it, is that payload. *)
Lemma prepared_payload payload r data enc r' req p :
  prepare payload (rc_sharedSecret rc) r = (Ok (data, enc), r') -> payload_typed payload ->
  arrives enc (gzip_Write data) req -> acceptable rc req p -> p = sanitize_payload payload.
Proof.
  intros Hp Ht [_ Hb Hce _] (_ & _ & sent & body & plain & Hsent & _ & Hz & Ho & Hj & _).
  rewrite Hb in Hsent. injection Hsent as <-. rewrite decide_True, Hgzip in Hz by done. injection Hz as <-.
  unfold prepare in Hp. destruct (json_Marshal payload) as [d|] eqn:Em; [|done].
  destruct (proj2 (json_roundtrip payload Ht) d Em) as [Hu _].
  enough (plain = d) as -> by congruence.
  destruct (decide (rc_sharedSecret rc = "")) as [Hs|Hs].
  - rewrite bool_decide_eq_false_2 in Hp by (by intros ?). by simplify_eq.
  - rewrite bool_decide_eq_true_2 in Hp by done.
    destruct (Encrypt d (rc_sharedSecret rc) r) as [[c|] r1] eqn:E; [|done]. simplify_eq.
    destruct Ho as [_ Ho]. erewrite Decrypt_Encrypt in Ho; [by simplify_eq|done..].
Qed.

(** A push all of whose attempts would fail without a trace. *)
Lemma push_fails url secret token payload cancelled s r m :
  (forall enc data, attempt (Hhttp := direct) url (push_request enc token data) s = (false, s)) ->
  let res := sendPushPayload (Hhttp := direct) url secret token payload cancelled s r m in
  sr_http res = s /\ sr_outcome res <> Sent.
Proof.
  intros Hat. cbn zeta. unfold sendPushPayload. destruct (prepare payload secret r) as [[[data enc]|e] r']; [|done].
  assert (forall left i b, let '(o, _, s') := push_loop (Hhttp := direct) left url
    (push_request enc token (gzip_Write data)) cancelled i b s in s' = s /\ o <> Sent) as H.
  { induction left as [|left IH]; intros i b; cbn [push_loop]; rewrite Hat; [done|].
    destruct (cancelled i); [done|]. specialize (IH (Datatypes.S i) (b * 2)).
    by destruct (push_loop _ _ _ _ _ _ _) as [[o evs] s']. }
  specialize (H maxRetries O Second). by destruct (push_loop _ _ _ _ _ _ _) as [[o evs] s'].
Qed.

(** An attempt with another token, or with one that does not survive the way. *)
Lemma wrong_token_attempt url enc token data s :
  rc_token rc <> "" -> valid_value token = false \/ trim_right_blanks token <> rc_token rc ->
  attempt (Hhttp := direct) url (push_request enc token data) s = (false, s).
Proof.
  intros Ht Hne. unfold attempt. cbn [http_NewRequest http_Do direct]. destruct (url_valid url); [|done].
  destruct (wire_request (push_request enc token data)) as [req|] eqn:Hw; [|done].
  destruct (wire_push enc token data req Hw) as [[Hm _ _ _] Ha].
  assert (ServeHTTP rc now req s = (http_error "Unauthorized" 401, s)) as ->; [|done].
  unfold ServeHTTP. rewrite Hm, bool_decide_eq_true_2 by done.
  destruct (authorized rc req) eqn:E; [exfalso|done]. pose proof (proj1 (authorized_iff _ _) E Ht) as Ha'.
  rewrite Ha in Ha'. case_bool_decide as Htok; [|done]. rewrite trim_bearer in Ha'. destruct Hne as [Hv|Hne].
  - apply wire_request_inv in Hw as [Hall _].
    specialize (Hall "Authorization" ("Bearer " +:+ token)). unfold push_request, push_headers in Hall. cbn [rq_Header] in Hall.
    rewrite bool_decide_eq_true_2, lookup_insert_eq in Hall by done. specialize (Hall eq_refl).
    change (valid_value token = true) in Hall. congruence.
  - case_decide; [done|]. by simplify_eq.
Qed.

(** C3. End to end. When a worker and its leader share the secret and the token, a payload
    that names its host, whose percentages are finite, that is encrypted without error
    if a secret is set and that fits the leader's size limit is delivered by the first
    attempt, through JSON, encryption, compression and the headers of HTTP and back: the
    push ends as sent after one attempt, the leader's store is updated with the payload
    (its text made valid UTF-8, so the very payload if it is), and no failure is counted;
    unless the shared token cannot travel in a header, having a control character or a blank
    at its end: then no push is ever accepted. *)
Theorem push_delivers url payload cancelled s r m :
  payload_typed payload -> Forall metrics_finite (pp_Metrics payload) -> pp_HostID payload <> "" ->
  (forall d, json_Marshal payload = Ok d -> exists data enc r', prepare payload (rc_sharedSecret rc) r = (Ok (data, enc), r') /\
    Z.of_nat (String.length (gzip_Write data)) <= maxBody) ->
  url_valid url = true ->
  let res := sendPushPayload (Hhttp := direct) url (rc_sharedSecret rc) (rc_token rc) payload cancelled s r m in
  (token_survives (rc_token rc) ->
    sr_outcome res = Sent /\ sr_trace res = [Attempt true] /\
    sr_http res = cs_UpdateHost now (sanitize_payload payload) s /\
    (payload_valid payload -> sr_http res = cs_UpdateHost now payload s) /\
    ClusterPushFailures (sr_metrics res) = ClusterPushFailures m) /\
  (~ token_survives (rc_token rc) -> sr_http res = s /\ sr_outcome res <> Sent).
Proof.
  intros Ht Hf Hh Hp Hu. cbn zeta. split.
  - intros Htok. apply (json_roundtrip payload Ht) in Hf. destruct (json_Marshal payload) as [d|] eqn:Hm; [|done].
    destruct (Hp d eq_refl) as (data & enc & r' & Hprep & Hlen). clear Hp.
    destruct (wire_push_valid enc (rc_token rc) (gzip_Write data) Htok) as (req & Hw & Ha).
    destruct (wire_push _ _ _ _ Hw) as [Harr _].
    unfold sendPushPayload. rewrite Hprep. unfold maxRetries. cbn [push_loop].
    unfold attempt. cbn [http_NewRequest http_Do direct]. rewrite Hu, Hw.
    rewrite (serve_accepted rc now _ s (sanitize_payload payload)) by by eapply prepared_acceptable.
    cbn. split_and!; [done..| |done]. intros Hv. by rewrite sanitize_payload_id.
  - intros Htok. apply push_fails. intros enc data. apply wrong_token_attempt.
    + intros E. apply Htok. by rewrite E.
    + unfold token_survives in Htok. destruct (valid_value (rc_token rc)); [right|by left].
      intros E. by destruct Htok.
Qed.

(** C35. Tokens keep others out. A worker whose token differs from the leader's, blanks at its
    end aside, against a leader that has one, never changes the leader's store: the push
    fails, or is cancelled, or is dropped before the first attempt. *)
Theorem wrong_token_never_delivers url secret token payload cancelled s r m :
  rc_token rc <> "" -> trim_right_blanks token <> rc_token rc ->
  let res := sendPushPayload (Hhttp := direct) url secret token payload cancelled s r m in
  sr_http res = s /\ sr_outcome res <> Sent.
Proof. intros Ht Hne. apply push_fails. intros enc data. apply wrong_token_attempt; auto. Qed.
End cluster.

(** ** Witnesses *)

(** No compression. *)
Definition toy_codec : Codec := {| gzip_Write := fun d => d; gzip_Read := fun d => Ok d |}.

Definition toy_receiver : Receiver := {| rc_sharedSecret := "s3cret"; rc_token := "tok" |}.

Definition toy_prom : InternalMetrics := {|
  MetadataCacheHits := 0; MetadataCacheMisses := 0; ClusterPushDuration := 0;
  ClusterPushFailures := 0; MonitoredContainers := f64_zero |}.

Definition toy_send (token : string) : SendResult :=
  sendPushPayload (Hhttp := direct (Hlib := toy_crypto) (Hcodec := toy_codec) (Hstore := memory_store map_to_list) toy_receiver 7
      (fun _ => true))
    (Hlib := toy_crypto) (Hcodec := toy_codec) "http://leader" "s3cret" token ex_json_payload
    (fun _ => false) NewMemoryStore 0%nat toy_prom.

Lemma push_delivers_witness :
  sr_outcome (toy_send "tok") = Sent /\ sr_trace (toy_send "tok") = [Attempt true] /\
  sr_http (toy_send "tok") = UpdateHost 7 ex_json_payload NewMemoryStore /\
  ClusterPushFailures (sr_metrics (toy_send "tok")) = 0.
Proof.
  destruct (push_delivers (Hlib := toy_crypto) (Hcodec := toy_codec) (Hstore := memory_store map_to_list) toy_receiver 7
    (fun _ => true) toy_laws (fun _ => eq_refl) "http://leader" ex_json_payload (fun _ => false) NewMemoryStore 0%nat toy_prom
    ex_json_typed) as [H _].
  - apply Forall_cons. split; [|apply Forall_nil; exact I]. split; exact I.
  - discriminate.
  - intros d Hd. assert (d = ex_json_text) as -> by (rewrite marshal_example in Hd; congruence).
    do 3 eexists. split; [vm_compute; reflexivity|]. vm_compute. discriminate.
  - reflexivity.
  - destruct H as (H1 & H2 & H3 & _ & H4); [split; reflexivity|]. split; [exact H1|]. split; [exact H2|]. split; [|exact H4].
    etransitivity; [exact H3|]. vm_compute. reflexivity.
Defined.

Lemma wrong_token_never_delivers_witness :
  sr_http (toy_send "guess") = NewMemoryStore /\ sr_outcome (toy_send "guess") <> Sent.
Proof.
  apply (wrong_token_never_delivers (Hlib := toy_crypto) (Hcodec := toy_codec) (Hstore := memory_store map_to_list) toy_receiver 7
    (fun _ => true)); vm_compute; discriminate.
Defined.

Lemma unauthenticated_rejected_witness :
  ServeHTTP (Hlib := toy_crypto) (Hcodec := toy_codec) (Hstore := memory_store map_to_list) toy_receiver 7
    {| rq_Method := "POST"; rq_Header := ∅; rq_Body := Ok "" |} NewMemoryStore =
  (http_error "Unauthorized" 401, NewMemoryStore).
Proof.
  apply (unauthenticated_rejected (Hlib := toy_crypto) (Hcodec := toy_codec) (Hstore := memory_store map_to_list)); vm_compute; [reflexivity|discriminate..].
Defined.

(** The whole retry schedule against a leader with another token. *)
Example wrong_token_trace :
  sr_trace (toy_send "guess") =
  [Attempt false; Wait Second; Attempt false; Wait (2 * Second); Attempt false; Wait (4 * Second); Attempt false].
Proof. vm_compute. reflexivity. Qed.

(** A blank at the end of a worker's token does not matter; the leader's token with one is
    nobody's. *)
Example blank_token_accepted : sr_outcome (toy_send "tok ") = Sent.
Proof. vm_compute. reflexivity. Qed.
