(* ===== verification/Topology.v ===== *)
(** * The network map ([internal/topology/mapper.go])

    [BuildMap] over any container engine, with the iteration order of each network's
    containers as an argument; [None] is the panic of a slice out of range. *)
From S2P Require Import Prelude.
From S2P Require Import GoStrings.
From S2P Require Import GoFloat.
From S2P Require Import DockerTypes.
From S2P Require Import ContainerEngine.
From S2P Require Import DockerStats.

Record NetworkNode := mkNetworkNode {
  nn_ContainerName : string;
  nn_ContainerID : string;
  nn_IPv4Address : string
}.

Record NetworkEdge := mkNetworkEdge {
  ne_NetworkName : string;
  ne_NetworkID : string;
  ne_Driver : string;
  ne_Nodes : list NetworkNode
}.

(** [if len(id) > 12 { id = id[:12] }]. *)
Definition cutID (id : string) : option string :=
  if 12 <? Z.of_nat (String.length id) then str_slice id 0 12 else Some id.

(** The address without its prefix length. *)
Definition stripPrefixLength (ip : string) : option string :=
  match IndexByte ip "/"%char with Some idx => str_slice ip 0 (Z.of_nat idx) | None => Some ip end.

(** The body of the loop over a network's containers; [None] is a panic. *)
Definition toNode (id : string) (endpoint : Endpoint) : option NetworkNode :=
  ip ← stripPrefixLength (ep_IPv4Address endpoint);
  idStr ← cutID id;
  Some {| nn_ContainerName := ep_Name endpoint; nn_ContainerID := idStr; nn_IPv4Address := ip |}.

Section mapper.
Context {E : Type} `{Heng : ContainerEngine E}.
Context (ordC : gmap string Endpoint -> list (string * Endpoint)).

(** One turn of the loop over the networks. *)
Definition addNetwork (edges : list NetworkEdge) (n : NetworkInspect) : option (list NetworkEdge) :=
  if bool_decide (ni_Name n = "host") || bool_decide (ni_Name n = "none") then Some edges else
  nodes ← foldl (fun nodes '(id, endpoint) => nodes ← nodes; node ← toNode id endpoint; Some (nodes ++ [node]))
            (Some []) (ordC (ni_Containers n));
  if (0 <? length nodes)%nat
  then
    netID ← cutID (ni_ID n);
    Some (edges ++ [{| ne_NetworkName := ni_Name n; ne_NetworkID := netID;
                       ne_Driver := ni_Driver n; ne_Nodes := nodes |}])
  else Some edges.

Definition BuildMap (e : E) : option (result (list NetworkEdge)) :=
  match ListNetworks e with
  | Err err => Some (Err err)
  | Ok nets => edges ← foldl (fun edges n => edges ← edges; addNetwork edges n) (Some []) nets; Some (Ok edges)
  end.

(** The networks the map shows. *)
Definition shown (n : NetworkInspect) : Prop :=
  ni_Name n ∉ ["host"; "none"] /\ ni_Containers n <> ∅.

(** Its node and its edge of the map. *)
Definition nodeOf (id : string) (endpoint : Endpoint) : NetworkNode := {|
  nn_ContainerName := ep_Name endpoint; nn_ContainerID := str_take 12 id;
  nn_IPv4Address := match IndexByte (ep_IPv4Address endpoint) "/"%char with
    | Some idx => str_take idx (ep_IPv4Address endpoint) | None => ep_IPv4Address endpoint end |}.

Definition edgeOf (n : NetworkInspect) : NetworkEdge := {|
  ne_NetworkName := ni_Name n; ne_NetworkID := str_take 12 (ni_ID n); ne_Driver := ni_Driver n;
  ne_Nodes := (fun kv => nodeOf kv.1 kv.2) <$> ordC (ni_Containers n) |}.

#[export] Instance shown_dec n : Decision (shown n).
Proof. unfold shown. apply _. Defined.

Hypothesis HordC : forall m, range_of m (ordC m).

Lemma cutID_take id : cutID id = Some (str_take 12 id).
Proof.
  unfold cutID. destruct (Z.ltb_spec 12 (Z.of_nat (String.length id))).
  - apply (str_slice_prefix id 12). lia.
  - by rewrite str_take_all by lia.
Qed.

Lemma toNode_nodeOf id ep : toNode id ep = Some (nodeOf id ep).
Proof.
  unfold toNode, nodeOf, stripPrefixLength. rewrite cutID_take.
  destruct (IndexByte (ep_IPv4Address ep) "/"%char) as [i|] eqn:Ei; [|done].
  rewrite str_slice_prefix; [done|]. pose proof (IndexByte_lt _ _ _ Ei). lia.
Qed.

Lemma nodes_fold l acc :
  foldl (fun nodes '(id, endpoint) => nodes ← nodes; node ← toNode id endpoint; Some (nodes ++ [node]))
    (Some acc) (l : list (string * Endpoint)) =
  Some (acc ++ ((fun kv => nodeOf kv.1 kv.2) <$> l)).
Proof.
  revert acc; induction l as [|[id ep] l IH]; intros acc; cbn [foldl]; [by rewrite app_nil_r|].
  cbn [mbind option_bind]. rewrite toNode_nodeOf. cbn [mbind option_bind]. by rewrite IH, <-app_assoc.
Qed.

(** No slice of [BuildMap] is out of range, whatever the orders of its ranges. *)
Lemma BuildMap_total e : is_Some (BuildMap e).
Proof.
  unfold BuildMap. destruct (ListNetworks e) as [nets|]; [|done].
  enough (is_Some (foldl (fun edges n => edges ← edges; addNetwork edges n) (Some []) nets)) as [edges ->] by done.
  apply (foldl_inv is_Some); [done|]. intros o n _ [edges ->]. cbn. unfold addNetwork. rewrite nodes_fold, cutID_take.
  destruct (_ || _); [done|]. cbn [mbind option_bind]. by case_match.
Qed.

Lemma addNetwork_spec edges n :
  addNetwork edges n = Some (edges ++ (if decide (shown n) then [edgeOf n] else [])).
Proof.
  unfold addNetwork. rewrite nodes_fold, cutID_take. cbn [app mbind option_bind].
  destruct (bool_decide (ni_Name n = "host") || bool_decide (ni_Name n = "none")) eqn:En.
  - rewrite decide_False; [by rewrite app_nil_r|]. intros [Hn _].
    apply orb_true_iff in En as [En|En]; apply bool_decide_eq_true in En; rewrite En in Hn; set_solver.
  - reflect_bools. rewrite length_fmap.
    assert (length (ordC (ni_Containers n)) = size (ni_Containers n)) as -> by by apply range_of_length.
    destruct (Nat.ltb_spec 0 (size (ni_Containers n))) as [Hs|Hs].
    + rewrite decide_True; [done|]. split; [set_solver|]. intros Hm. rewrite Hm, map_size_empty in Hs. lia.
    + rewrite decide_False; [by rewrite app_nil_r|]. intros [_ Hm]. apply Hm, map_size_empty_inv. lia.
Qed.

Lemma networks_fold nets acc :
  foldl (fun edges n => edges ← edges; addNetwork edges n) (Some acc) nets = Some (acc ++ (edgeOf <$> filter shown nets)).
Proof.
  revert acc; induction nets as [|n nets IH]; intros acc; cbn [foldl]; [by rewrite app_nil_r|].
  cbn [mbind option_bind]. rewrite addNetwork_spec, IH, filter_cons. case_decide; rewrite <-app_assoc; done.
Qed.

(** An address of the map is up to the first slash of the engine's text, if it has one. *)
Lemma nodeOf_address id ep :
  let ip := nn_IPv4Address (nodeOf id ep) in
  IndexByte ip "/"%char = None /\
  (ep_IPv4Address ep = ip \/ exists len, ep_IPv4Address ep = ip +:+ "/" +:+ len).
Proof.
  cbn. destruct (IndexByte (ep_IPv4Address ep) "/"%char) as [i|] eqn:Ei; [|by split; [|left]].
  destruct (IndexByte_Some _ _ _ Ei) as [H1 H2]. split; [exact H2|]. right. by exists (str_drop (S i) (ep_IPv4Address ep)).
Qed.

(** C39. The topology shows, in the engine's order, exactly the networks other than
    [host] and [none] that have a container, each under its name, its identifier cut to
    twelve bytes and its driver, with one node per connected container (in some order):
    its name, its identifier cut to twelve bytes and its address up to the first slash,
    that is without the prefix length; an engine error is passed on,
    and no slice of an identifier or an address is out of range. *)
Theorem BuildMap_spec e :
  match ListNetworks e with
  | Err err => BuildMap e = Some (Err err)
  | Ok nets => exists edges, BuildMap e = Some (Ok edges) /\
      Forall2 (fun n edge =>
        ne_NetworkName edge = ni_Name n /\ ne_NetworkID edge = str_take 12 (ni_ID n) /\
        ne_Driver edge = ni_Driver n /\
        exists conns, NoDup conns.*1 /\ (forall id ep, (id, ep) ∈ conns <-> ni_Containers n !! id = Some ep) /\
          Forall2 (fun conn node =>
            nn_ContainerName node = ep_Name conn.2 /\ nn_ContainerID node = str_take 12 conn.1 /\
            IndexByte (nn_IPv4Address node) "/"%char = None /\
            (ep_IPv4Address conn.2 = nn_IPv4Address node \/
             exists len, ep_IPv4Address conn.2 = nn_IPv4Address node +:+ "/" +:+ len)) conns (ne_Nodes edge))
        (filter (fun n => ni_Name n <> "host" /\ ni_Name n <> "none" /\ ni_Containers n <> ∅) nets) edges
  end.
Proof.
  unfold BuildMap. destruct (ListNetworks e) as [nets|err]; [|done].
  rewrite networks_fold. eexists. split; [done|]. cbn [app].
  rewrite (list_filter_iff _ shown) by (intros n; unfold shown; set_solver).
  apply Forall2_fmap_r, Forall_Forall2_diag, Forall_true. intros n. unfold edgeOf. cbn.
  split_and!; [done..|]. exists (ordC (ni_Containers n)). split_and!.
  - by apply range_of_NoDup with (m := ni_Containers n).
  - intros id ep. apply (range_of_elem _ _ _ _ (HordC _)).
  - apply Forall2_fmap_r, Forall_Forall2_diag, Forall_true. intros [id ep]. split_and!; [done..| |]; apply nodeOf_address.
Qed.
End mapper.

Example strip_example : stripPrefixLength "172.17.0.2/16" = Some "172.17.0.2".
Proof. reflexivity. Qed.

Lemma BuildMap_spec_witness :
  exists edges, BuildMap (Heng := inspect_engine) map_to_list ∅ = Some (Ok edges) /\
    (ne_NetworkName <$> edges) = ["app"] /\ (ne_NetworkID <$> edges) = ["fedcba987654"].
Proof.
  destruct (BuildMap_spec (Heng := inspect_engine) map_to_list (fun m => range_of_refl m) ∅) as (edges & H & HF).
  exists edges. split; [exact H|]. inversion HF as [|n edge l l' (H1 & H2 & _) HF' E1 E2]; subst.
  inversion HF'; subst. cbn. rewrite H1, H2. split; reflexivity.
Defined.

(** The map of that engine. *)
Example BuildMap_example :
  BuildMap (Heng := inspect_engine) map_to_list ∅ = Some (Ok [{|
    ne_NetworkName := "app"; ne_NetworkID := "fedcba987654"; ne_Driver := "bridge";
    ne_Nodes := [{| nn_ContainerName := "web"; nn_ContainerID := "c1"; nn_IPv4Address := "172.18.0.2" |}] |}]).
Proof. vm_compute. reflexivity. Qed.
