(* ===== verification/Storage.v ===== *)
(** * The event history's write queue ([internal/storage/sqlite.go])

    The asynchronous write queue in front of the database: a channel of 500 records, a
    worker that inserts them one by one, and [Close].  The database is the list of its
    rows in insertion order; a row's timestamp is the worker's clock.  A run is any sequence
    of saves, of the worker's steps and of those of [Close]. *)
From S2P Require Import Prelude.
From S2P Require Import GoFloat.
From S2P Require Import GoTime.

Record saveOptions := mkSaveOptions {
  so_RecordType : string;
  so_ActionOrSeverity : string;
  so_Container : string;
  so_Message : string
}.

#[export] Instance saveOptions_eq_dec : EqDecision saveOptions.
Proof. solve_decision. Defined.

(** A row of the table: its id (assigned in insertion order) is its position plus one. *)
Record EventRow := mkEventRow { row_Timestamp : Time; row_Opts : saveOptions }.

Definition queueCap : nat := 500.
#[local] Arguments queueCap : simpl never.
#[local] Arguments Nat.ltb : simpl never.

(** Where the worker is: waiting for the channel, executing an insertion, or gone. *)
Inductive WorkerPhase :=
  | Receiving
  | Inserting (opts : saveOptions)
  | Done.

Record SQLiteStore := mkStore {
  st_saveCh : list saveOptions;
  st_closed : bool;            (* [saveCh] is closed *)
  st_worker : WorkerPhase;     (* [Done]: the channel [done] is closed *)
  st_rows : list EventRow;
  st_dbClosed : bool
}.

(** The store [NewSQLiteStore] makes for a new database ([History]). *)
Definition emptyStore : SQLiteStore := {|
  st_saveCh := []; st_closed := false; st_worker := Receiving; st_rows := []; st_dbClosed := false |}.

(** [save]: [None] is the panic of a send on a closed channel. *)
Definition save (opts : saveOptions) (s : SQLiteStore) : option SQLiteStore :=
  if st_closed s then None
  else if (length (st_saveCh s) <? queueCap)%nat
  then Some {| st_saveCh := st_saveCh s ++ [opts]; st_closed := false; st_worker := st_worker s;
               st_rows := st_rows s; st_dbClosed := st_dbClosed s |}
  else Some s.

Definition SaveEvent (action container message : string) (s : SQLiteStore) : option SQLiteStore :=
  save {| so_RecordType := "event"; so_ActionOrSeverity := action; so_Container := container;
          so_Message := message |} s.

(** The steps of a store; [Close] is three, made once: closing the channel, waiting for
    the worker, closing the database.  An insertion may fail, and its error is ignored. *)
Inductive StoreEvent :=
  | EvSave (opts : saveOptions)
  | EvReceive                            (* the worker takes a record *)
  | EvInsert (now : Time) (ok : bool)    (* its insertion ends *)
  | EvDrained                            (* it sees the channel closed and empty *)
  | EvCloseCh                            (* [close(s.saveCh)] *)
  | EvCloseDB.                           (* [<-s.done] and [s.db.Close()] *)

Definition store_step (s : SQLiteStore) (ev : StoreEvent) : option SQLiteStore :=
  match ev, st_worker s with
  | EvSave opts, _ => save opts s
  | EvReceive, Receiving =>
      match st_saveCh s with
      | opts :: rest => Some {| st_saveCh := rest; st_closed := st_closed s; st_worker := Inserting opts;
                                st_rows := st_rows s; st_dbClosed := st_dbClosed s |}
      | [] => None
      end
  | EvInsert now ok, Inserting opts =>
      Some {| st_saveCh := st_saveCh s; st_closed := st_closed s; st_worker := Receiving;
              st_rows := if ok : bool then st_rows s ++ [{| row_Timestamp := now; row_Opts := opts |}] else st_rows s;
              st_dbClosed := st_dbClosed s |}
  | EvDrained, Receiving =>
      if st_closed s && bool_decide (st_saveCh s = [])
      then Some {| st_saveCh := []; st_closed := true; st_worker := Done; st_rows := st_rows s;
                   st_dbClosed := st_dbClosed s |}
      else None
  | EvCloseCh, _ =>
      if st_closed s then None
      else Some {| st_saveCh := st_saveCh s; st_closed := true; st_worker := st_worker s;
                   st_rows := st_rows s; st_dbClosed := st_dbClosed s |}
  | EvCloseDB, Done =>
      if st_dbClosed s then None
      else Some {| st_saveCh := st_saveCh s; st_closed := st_closed s; st_worker := Done;
                   st_rows := st_rows s; st_dbClosed := true |}
  | _, _ => None
  end.

(** The record a step adds to the queue, if any. *)
Definition enqueued (s : SQLiteStore) (ev : StoreEvent) : list saveOptions :=
  match ev with
  | EvSave opts => if (length (st_saveCh s) <? queueCap)%nat then [opts] else []
  | _ => []
  end.

(** Runs of the store, with the records the queue accepted so far. *)
Inductive store_run : list StoreEvent -> list saveOptions -> SQLiteStore -> Prop :=
  | store_run_nil : store_run [] [] emptyStore
  | store_run_snoc evs acc s ev s' :
      store_run evs acc s -> store_step s ev = Some s' ->
      store_run (evs ++ [ev]) (acc ++ enqueued s ev) s'.

Definition insert_failed (ev : StoreEvent) : bool :=
  match ev with EvInsert _ false => true | _ => false end.

(** The record the worker holds. *)
Definition in_hand (w : WorkerPhase) : list saveOptions :=
  match w with Inserting opts => [opts] | _ => [] end.

Record store_wf (s : SQLiteStore) : Prop := {
  swf_bound : (length (st_saveCh s) <= queueCap)%nat;
  swf_done : st_worker s = Done -> st_closed s = true /\ st_saveCh s = [];
  swf_db : st_dbClosed s = true -> st_worker s = Done
}.

Lemma new_store_wf : store_wf emptyStore.
Proof. split; cbn; [lia|done|done]. Qed.

Lemma store_step_wf s ev s' : store_wf s -> store_step s ev = Some s' -> store_wf s'.
Proof.
  intros [Hb Hd Hdb]. unfold store_step, save. destruct s as [q c w rows db]; cbn in *.
  destruct ev as [opts| |now ok| | |].
  - destruct c; [done|]. destruct (Nat.ltb_spec (length q) queueCap); intros [= <-]; split; cbn; try done.
    + rewrite length_app. cbn. lia.
    + intros Hw. by destruct (Hd Hw).
  - destruct w; try done. destruct q as [|o q]; [done|]. intros [= <-]. split; cbn in *; [lia|done|].
    intros E. by specialize (Hdb E).
  - destruct w; try done. intros [= <-]. split; cbn; [done|done|]. intros E. by specialize (Hdb E).
  - destruct w; try done. destruct c; [|done]. case_bool_decide; [|done]. intros [= <-].
    split; cbn; [lia|done|done].
  - destruct c; [by destruct w|]. assert (w <> Done) by (intros ->; by destruct (Hd eq_refl)).
    destruct w; try done; intros [= <-]; split; cbn; try done; intros E; by specialize (Hdb E).
  - destruct w; try done. destruct db; [done|]. intros [= <-]. by split.
Qed.

Lemma store_run_wf evs acc s : store_run evs acc s -> store_wf s.
Proof. induction 1; [apply new_store_wf|by eapply store_step_wf]. Qed.

(** What a successful step does to the sequence of rows, hand and queue. *)
Lemma store_step_fifo s ev s' :
  insert_failed ev = false -> store_step s ev = Some s' ->
  (row_Opts <$> st_rows s') ++ in_hand (st_worker s') ++ st_saveCh s' =
  ((row_Opts <$> st_rows s) ++ in_hand (st_worker s) ++ st_saveCh s) ++ enqueued s ev.
Proof.
  intros Hok. unfold store_step, save. destruct s as [q c w rows db]; cbn.
  destruct ev as [opts| |now ok| | |]; cbn; rewrite ?app_nil_r.
  - destruct c; [done|]. destruct (length q <? queueCap)%nat; intros [= <-]; cbn.
    + by rewrite !app_assoc.
    + by rewrite app_nil_r.
  - destruct w; try done. destruct q as [|o q]; [done|]. by intros [= <-].
  - destruct w; try done. destruct ok; [|done]. intros [= <-]. cbn. by rewrite fmap_app, <-app_assoc.
  - destruct w; try done. destruct c; [|done]. case_bool_decide; [|done]. intros [= <-]. by subst.
  - destruct c; [by destruct w|]. by destruct w; intros [= <-].
  - destruct w; try done. destruct db; [done|]. by intros [= <-].
Qed.

(** C15. No event is lost or reordered. In every run whose insertions succeed, the rows
    of the database, then the record the worker holds, then the queue are exactly the
    accepted records in the order they were saved; so when [Close] closes the database
    every accepted record is in it. The queue never exceeds 500 records. *)
Theorem store_fifo evs acc s :
  store_run evs acc s -> Forall (fun ev => insert_failed ev = false) evs ->
  (row_Opts <$> st_rows s) ++ in_hand (st_worker s) ++ st_saveCh s = acc /\
  (st_dbClosed s = true -> row_Opts <$> st_rows s = acc) /\
  (length (st_saveCh s) <= queueCap)%nat.
Proof.
  intros Hr Hok. pose proof (store_run_wf _ _ _ Hr) as [Hb Hd Hdb].
  assert ((row_Opts <$> st_rows s) ++ in_hand (st_worker s) ++ st_saveCh s = acc) as Hseq.
  { clear Hb Hd Hdb. induction Hr as [|evs acc s ev s' _ IH Hstep]; [done|].
    apply Forall_app in Hok as [Hok [Hev _]%Forall_cons].
    by rewrite (store_step_fifo s ev s'), IH. }
  split_and!; [done| |done]. intros Hc. destruct (Hd (Hdb Hc)) as [_ Hq].
  rewrite (Hdb Hc), Hq in Hseq. cbn in Hseq. by rewrite app_nil_r in Hseq.
Qed.

(** Saving never blocks, and panics after [Close]: on an open store a save returns
    at once, queueing the record if there is room and dropping it otherwise; on a
    closed one it is a send on a closed channel, in every later state too. *)
Theorem save_behaviour opts s :
  (st_closed s = false -> exists s', save opts s = Some s' /\
    st_saveCh s' = (if (length (st_saveCh s) <? queueCap)%nat then st_saveCh s ++ [opts] else st_saveCh s) /\
    st_rows s' = st_rows s) /\
  (st_closed s = true -> save opts s = None /\
    forall ev s', store_step s ev = Some s' -> save opts s' = None).
Proof.
  unfold save. split; intros Hc; rewrite Hc.
  - destruct (_ <? _)%nat; eexists; by split_and!.
  - split; [done|]. intros ev s'. unfold store_step, save. rewrite Hc.
    destruct ev, (st_worker s), (st_saveCh s), (st_dbClosed s); intros; simplify_eq/=; by rewrite ?Hc.
Qed.

(** *** Close terminates *)

Definition run_from (s : SQLiteStore) (evs : list StoreEvent) : option SQLiteStore :=
  foldl (fun o ev => o ≫= fun s => store_step s ev) (Some s) evs.

(** What is still to be done before the database is closed. *)
Definition remaining (s : SQLiteStore) : nat :=
  2 * length (st_saveCh s) +
  match st_worker s with Receiving => 2 | Inserting _ => 3 | Done => if st_dbClosed s then 0 else 1 end.

(** The ends of the insertions of a run. *)
Definition insertions (evs : list StoreEvent) : list (Time * bool) :=
  omap (fun ev => match ev with EvInsert now ok => Some (now, ok) | _ => None end) evs.

(** The rows that insertions leave of the records they were for. *)
Definition inserted (opts : list saveOptions) (ends : list (Time * bool)) : list EventRow :=
  omap (fun x : saveOptions * (Time * bool) =>
    if x.2.2 then Some {| row_Timestamp := x.2.1; row_Opts := x.1 |} else None) (zip opts ends).

Lemma run_from_cons s ev evs : run_from s (ev :: evs) = store_step s ev ≫= fun s' => run_from s' evs.
Proof.
  unfold run_from. cbn. destruct (store_step s ev) as [s'|]; [done|]. cbn. by induction evs.
Qed.

(** After the channel is closed every step is progress. *)
Lemma closing_step s ev s' :
  store_wf s -> st_closed s = true -> store_step s ev = Some s' ->
  st_closed s' = true /\ (remaining s' < remaining s)%nat /\
  exists flushed, in_hand (st_worker s) ++ st_saveCh s = flushed ++ in_hand (st_worker s') ++ st_saveCh s' /\
    length flushed = length (insertions [ev]) /\ st_rows s' = st_rows s ++ inserted flushed (insertions [ev]).
Proof.
  intros [_ _ Hdb] Hc. unfold store_step, save, remaining. destruct s as [q c w rows db]; cbn in *. subst c.
  destruct ev as [opts| |now ok| | |]; cbn; [by destruct w|..].
  - destruct w; try done. destruct q as [|o q]; [done|]. intros [= <-]. cbn. split_and!; [done|lia|].
    exists []. split_and!; [done|done|symmetry; apply app_nil_r].
  - destruct w as [|o|]; try done. intros [= <-]. cbn. split_and!; [done|lia|].
    exists [o]. by destruct ok; rewrite ?app_nil_r.
  - destruct w; try done. case_bool_decide as Hq; [|done]. subst. intros [= <-]. cbn.
    assert (db = false) as -> by (destruct db; [by specialize (Hdb eq_refl)|done]).
    split_and!; [done|lia|]. exists []. split_and!; [done|done|symmetry; apply app_nil_r].
  - by destruct w.
  - destruct w; try done. destruct db; [done|]. intros [= <-]. cbn. split_and!; [done|lia|].
    exists []. split_and!; [done|done|symmetry; apply app_nil_r].
Qed.

Lemma inserted_app o1 o2 e1 e2 : length o1 = length e1 -> inserted (o1 ++ o2) (e1 ++ e2) = inserted o1 e1 ++ inserted o2 e2.
Proof. intros Hl. unfold inserted. by rewrite zip_with_app, omap_app. Qed.

Lemma insertions_cons ev evs : insertions (ev :: evs) = insertions [ev] ++ insertions evs.
Proof. unfold insertions. cbn. by destruct ev. Qed.

(** Every run after the channel is closed, with what it has flushed. *)
Lemma closing_run evs s s' :
  store_wf s -> st_closed s = true -> run_from s evs = Some s' ->
  st_closed s' = true /\ store_wf s' /\ (length evs + remaining s' <= remaining s)%nat /\
  exists flushed, in_hand (st_worker s) ++ st_saveCh s = flushed ++ in_hand (st_worker s') ++ st_saveCh s' /\
    length flushed = length (insertions evs) /\ st_rows s' = st_rows s ++ inserted flushed (insertions evs).
Proof.
  revert s; induction evs as [|ev evs IH]; intros s Hwf Hc.
  { intros [= <-]. split_and!; [done|done|cbn; lia|]. exists []. split_and!; [done|done|symmetry; apply app_nil_r]. }
  rewrite run_from_cons. destruct (store_step s ev) as [s1|] eqn:E1; [|done]. cbn [mbind option_bind]. intros Hr.
  destruct (closing_step s ev s1 Hwf Hc E1) as (Hc1 & Hlt & f1 & Hq1 & Hl1 & Hr1).
  destruct (IH s1 (store_step_wf _ _ _ Hwf E1) Hc1 Hr) as (Hc' & Hwf' & Hle & f2 & Hq2 & Hl2 & Hr2).
  split_and!; [done|done|cbn [length]; lia|]. exists (f1 ++ f2). rewrite insertions_cons, inserted_app by done.
  rewrite Hq1, Hq2, Hr2, Hr1, !length_app, !app_assoc. split_and!; [done|lia|done].
Qed.

(** Until the database is closed some step is possible that needs nobody outside. *)
Lemma closing_progress s :
  store_wf s -> st_closed s = true -> st_dbClosed s = false ->
  exists ev s', store_step s ev = Some s' /\ match ev with EvSave _ | EvCloseCh => False | _ => True end.
Proof.
  intros _ Hc Hdb. destruct s as [q c w rows db]; cbn in *. subst. destruct w as [|o|].
  - destruct q as [|o q]; [by exists EvDrained; eexists|by exists EvReceive; eexists].
  - by exists (EvInsert 0 true); eexists.
  - by exists EvCloseDB; eexists.
Qed.

(** C31. [Close] terminates with everything flushed, whatever the schedule and whether the
    insertions succeed or fail. Once the channel of a reachable store is closed, every run
    that does not panic has at most two steps per waiting record and three more, and can
    go on until the database is closed; and when it is closed the record the worker held
    and the waiting ones have each been given to the database, in order, exactly once,
    and those whose insertion succeeded, and nothing else, are the rows it has gained. *)
Theorem close_completes evs acc s evs' s' :
  store_run evs acc s -> st_closed s = true -> run_from s evs' = Some s' ->
  (length evs' <= 2 * length (st_saveCh s) + 3)%nat /\
  (st_dbClosed s' = false ->
     exists ev s'', store_step s' ev = Some s'' /\ match ev with EvSave _ | EvCloseCh => False | _ => True end) /\
  (st_dbClosed s' = true ->
     st_saveCh s' = [] /\ length (insertions evs') = length (in_hand (st_worker s) ++ st_saveCh s) /\
     st_rows s' = st_rows s ++
       omap (fun x : saveOptions * (Time * bool) =>
         if x.2.2 then Some {| row_Timestamp := x.2.1; row_Opts := x.1 |} else None)
         (zip (in_hand (st_worker s) ++ st_saveCh s) (insertions evs'))).
Proof.
  intros Hrun Hc Hr. destruct (closing_run evs' s s' (store_run_wf _ _ _ Hrun) Hc Hr)
    as (Hc' & Hwf' & Hle & flushed & Hq & Hl & Hrows).
  split_and!.
  - unfold remaining in Hle. destruct (st_worker s), (st_dbClosed s); lia.
  - by apply closing_progress.
  - intros Hdb. destruct Hwf' as [_ Hd Hdd]. destruct (Hd (Hdd Hdb)) as [_ Hq'].
    rewrite (Hdd Hdb), Hq' in Hq. cbn in Hq. rewrite app_nil_r in Hq. rewrite Hq. by split_and!.
Qed.

(** ** Witnesses *)

Definition ex_save (msg : string) : saveOptions := {|
  so_RecordType := "event"; so_ActionOrSeverity := "start"; so_Container := "web"; so_Message := msg |}.

Definition ex_events : list StoreEvent :=
  [EvSave (ex_save "a"); EvSave (ex_save "b"); EvReceive; EvCloseCh].

Definition ex_store : SQLiteStore := {|
  st_saveCh := [ex_save "b"]; st_closed := true; st_worker := Inserting (ex_save "a"); st_rows := [];
  st_dbClosed := false |}.

Lemma ex_store_run : store_run ex_events [ex_save "a"; ex_save "b"] ex_store.
Proof.
  apply (store_run_snoc [EvSave (ex_save "a"); EvSave (ex_save "b"); EvReceive] [ex_save "a"; ex_save "b"]
    {| st_saveCh := [ex_save "b"]; st_closed := false; st_worker := Inserting (ex_save "a"); st_rows := [];
       st_dbClosed := false |} EvCloseCh); [|done].
  apply (store_run_snoc [EvSave (ex_save "a"); EvSave (ex_save "b")] [ex_save "a"; ex_save "b"]
    {| st_saveCh := [ex_save "a"; ex_save "b"]; st_closed := false; st_worker := Receiving; st_rows := [];
       st_dbClosed := false |} EvReceive); [|done].
  apply (store_run_snoc [EvSave (ex_save "a")] [ex_save "a"]
    {| st_saveCh := [ex_save "a"]; st_closed := false; st_worker := Receiving; st_rows := [];
       st_dbClosed := false |} (EvSave (ex_save "b"))); [|done].
  by apply (store_run_snoc [] [] emptyStore (EvSave (ex_save "a"))); [constructor|].
Qed.

Lemma store_fifo_witness :
  (row_Opts <$> st_rows ex_store) ++ in_hand (st_worker ex_store) ++ st_saveCh ex_store =
  [ex_save "a"; ex_save "b"].
Proof.
  apply (store_fifo ex_events _ ex_store ex_store_run). unfold ex_events.
  repeat (apply Forall_cons; split; [reflexivity|]). apply Forall_nil. exact I.
Defined.

Lemma save_behaviour_witness : SaveEvent "stop" "web" "late" ex_store = None.
Proof. apply (save_behaviour {| so_RecordType := "event"; so_ActionOrSeverity := "stop"; so_Container := "web"; so_Message := "late" |} ex_store); reflexivity. Defined.

(** The insertion of the held record fails, that of the waiting one succeeds. *)
Definition ex_closing : list StoreEvent := [EvInsert 8 false; EvReceive; EvInsert 9 true; EvDrained; EvCloseDB].

Lemma close_completes_witness :
  exists s', run_from ex_store ex_closing = Some s' /\ st_dbClosed s' = true /\ st_saveCh s' = [] /\
    st_rows s' = [mkEventRow 9 (ex_save "b")].
Proof.
  assert (exists s', run_from ex_store ex_closing = Some s' /\ st_dbClosed s' = true) as (s' & Hr & Hdb)
    by (eexists; split; reflexivity).
  exists s'. split; [exact Hr|]. split; [exact Hdb|].
  destruct (close_completes ex_events _ ex_store ex_closing s' ex_store_run eq_refl Hr) as (_ & _ & H).
  destruct (H Hdb) as (Hq & _ & Hrows). split; [exact Hq|]. exact Hrows.
Defined.
