(* ===== verification/History.v ===== *)
(** * Opening and reading the event history ([internal/storage/sqlite.go])

    [NewSQLiteStore] and [GetRecent] over a database: Go's [database/sql] with its driver
    is the class [SQLDB]; the clock is read for each row.  The text of the queries is the source's; what the engine
    answers to them is assumed only where a theorem says so. *)
From stdpp Require Import sorting.
From S2P Require Import Prelude.
From S2P Require Import GoStrings.
From S2P Require Import GoFloat.
From S2P Require Import GoTime.
From S2P Require Import Storage.

(** ** Reading a date and time

    [time.Parse] for the layout [2006-01-02 15:04:05], in UTC. *)

Definition leap_year (y : Z) : bool := (y mod 4 =? 0) && (negb (y mod 100 =? 0) || (y mod 400 =? 0)).

Definition daysIn (m y : Z) : Z :=
  if (m =? 2) && leap_year y then 29
  else if m =? 2 then 28
  else if existsb (Z.eqb m) [4; 6; 9; 11] then 30 else 31.

(** The day number of a date, the inverse of [civil]. *)
Definition days_of_civil (y m d : Z) : Z :=
  let y := if m <=? 2 then y - 1 else y in
  let era := y / 400 in
  let yoe := y mod 400 in
  let doy := (153 * (if 2 <? m then m - 3 else m + 9) + 2) / 5 + d - 1 in
  let doe := yoe * 365 + yoe / 4 - yoe / 100 + doy in
  era * 146097 + doe - 306.

(** [getnum]: a number of two digits, or of one unless [fixed]. *)
Definition getnum (fixed : bool) (s : string) : option (Z * string) :=
  match s with
  | String a s1 =>
      d ← digit_val a;
      match s1 with
      | String b s2 =>
          match digit_val b with
          | Some e => Some (10 * d + e, s2)
          | None => if fixed then None else Some (d, s1)
          end
      | EmptyString => if fixed then None else Some (d, s1)
      end
  | EmptyString => None
  end.

(** Four digits. *)
Definition get_year (s : string) : option (Z * string) :=
  '(h, s1) ← getnum true s; '(l, s2) ← getnum true s1; Some (100 * h + l, s2).

(** [skip] for a prefix of one character, and for a space, which takes a run of them. *)
Definition skip_char (c : ascii) (s : string) : option string :=
  match s with String a s' => if bool_decide (a = c) then Some s' else None | EmptyString => None end.

Fixpoint cutspace (s : string) : string :=
  match s with String a s' => if bool_decide (a = " "%char) then cutspace s' else s | EmptyString => s end.

Definition skip_space (s : string) : option string :=
  match s with
  | String a _ => if bool_decide (a = " "%char) then Some (cutspace s) else None
  | EmptyString => Some s
  end.

Definition in_range (lo hi : Z) (r : option (Z * string)) : option (Z * string) :=
  '(n, s) ← r; if (lo <=? n) && (n <? hi) then Some (n, s) else None.

(** The fraction of a second the layout does not name: nine digits count. *)
Fixpoint fraction (k : nat) (s : string) : Z * string :=
  match s with
  | String a s' =>
      match digit_val a with
      | Some d => match k with
          | O => fraction O s'
          | S k' => let '(n, rest) := fraction k' s' in (d * 10 ^ Z.of_nat k' + n, rest)
          end
      | None => (0, s)
      end
  | EmptyString => (0, s)
  end.

Definition get_fraction (s : string) : Z * string :=
  match s with
  | String p (String a _ as s') =>
      if bool_decide (p ∈ ["."%char; ","%char]) && is_digit a then fraction 9 s' else (0, s)
  | _ => (0, s)
  end.

Definition Parse_datetime (s : string) : option Time :=
  '(year, s) ← get_year s; s ← skip_char "-" s;
  '(month, s) ← in_range 1 13 (getnum true s); s ← skip_char "-" s;
  '(day, s) ← getnum true s; s ← skip_space s;
  '(hour, s) ← in_range 0 24 (getnum false s); s ← skip_char ":" s;
  '(min, s) ← in_range 0 60 (getnum true s); s ← skip_char ":" s;
  '(sec, s) ← in_range 0 60 (getnum true s);
  let '(nsec, s) := get_fraction s in
  if negb (bool_decide (s = "")) then None
  else if (day <? 1) || (daysIn month year <? day) then None
  else Some (days_of_civil year month day * (24 * Hour) + hour * Hour + min * Minute + sec * Second + nsec).

(** [t.Format(time.RFC3339Nano)] in UTC. *)
Definition Format_RFC3339Nano (t : Time) : string :=
  format_date t +:+ "T" +:+ format_clock t +:+ fmtFrac 9 (t mod Second) +:+ "Z".

(** ** The database *)

(** What [rows.Scan] reads of a row: the columns of the query. *)
Record Scan := mkScan {
  sc_id : Z;
  sc_timestamp : string;
  sc_type : string;
  sc_action : string;
  sc_container : string;
  sc_message : string
}.

Class SQLDB (D : Type) := {
  sql_Open : string -> result D;
  db_Ping : D -> result unit;
  (** Creating the table and its index. *)
  db_Exec_schema : D -> result unit;
  (** The query of [GetRecent] on a table of the given rows: what each [Scan] gives. *)
  db_Query_recent : D -> list EventRow -> Z -> result (list (result Scan))
}.

Record EventRecord := mkEventRecord {
  er_ID : Z;
  er_Timestamp : Time;
  er_Type : string;
  er_Action : string;
  er_Container : string;
  er_Message : string
}.

(** The calls that hold or release the database. *)
Inductive DBCall :=
  | DBOpened (dsn : string)
  | DBClosed.

Section history.
Context {D : Type} `{Hdb : SQLDB D}.

Definition UnixNano (t : Time) : Z := t - Unix 0.

Definition dsn (dbPath : string) (now : Time) : string :=
  if bool_decide (dbPath <> ":memory:")
  then dbPath +:+ "?_pragma=busy_timeout(5000)&_pragma=journal_mode(WAL)&_pragma=synchronous(NORMAL)"
  else "file:memdb_" +:+ itoa (UnixNano now) +:+ "?mode=memory&cache=shared".

(** The store over a table that has [rows] already, and the calls made. *)
Definition NewSQLiteStore (dbPath : string) (now : Time) (rows : list EventRow)
    : result (D * SQLiteStore) * list DBCall :=
  match sql_Open (dsn dbPath now) with
  | Err e => (Err ("storage: failed to open sqlite: " +:+ e), [])
  | Ok db =>
      match db_Ping db with
      | Err e => (Err ("storage: failed to connect to database: " +:+ e), [DBOpened (dsn dbPath now); DBClosed])
      | Ok _ =>
          match db_Exec_schema db with
          | Err e => (Err ("storage: failed to initialize tables: " +:+ e), [DBOpened (dsn dbPath now); DBClosed])
          | Ok _ => (Ok (db, {| st_saveCh := []; st_closed := false; st_worker := Receiving; st_rows := rows;
                                st_dbClosed := false |}), [DBOpened (dsn dbPath now)])
          end
      end
  end.

(** One row: its time is [now] when the text of its timestamp does not parse. *)
Definition record_of (now : Time) (r : Scan) : EventRecord := {|
  er_ID := sc_id r;
  er_Timestamp := match Parse_datetime (sc_timestamp r) with Some t => t | None => now end;
  er_Type := sc_type r; er_Action := sc_action r; er_Container := sc_container r; er_Message := sc_message r |}.

(** [now i] is the clock at the reading of row [i]. *)
Fixpoint scan_rows (now : nat -> Time) (scans : list (result Scan)) : result (list EventRecord) :=
  match scans with
  | [] => Ok []
  | Err e :: _ => Err e
  | Ok r :: scans' => rest ← scan_rows (now ∘ S) scans'; Ok (record_of (now O) r :: rest)
  end.

Definition GetRecent (now : nat -> Time) (limit : Z) (db : D) (s : SQLiteStore) : result (list EventRecord) :=
  scans ← db_Query_recent db (st_rows s) limit;
  scan_rows now scans.

(** ** What the driver promises *)

(** The table's rows with their ids. *)
Definition numbered (rows : list EventRow) : list (Z * EventRow) := imap (fun i r => (Z.of_nat i + 1, r)) rows.

(** A row as it is scanned: a [DATETIME] column holding a time is read as its RFC 3339 text. *)
Definition scan_of (ir : Z * EventRow) : Scan := {|
  sc_id := ir.1; sc_timestamp := Format_RFC3339Nano (row_Timestamp ir.2);
  sc_type := so_RecordType (row_Opts ir.2); sc_action := so_ActionOrSeverity (row_Opts ir.2);
  sc_container := so_Container (row_Opts ir.2); sc_message := so_Message (row_Opts ir.2) |}.

Definition newest_first : relation (Z * EventRow) := fun a b => row_Timestamp b.2 <= row_Timestamp a.2.

(** [ORDER BY timestamp DESC LIMIT ?]. *)
Definition query_law : Prop := forall db rows limit scans,
  0 <= limit -> db_Query_recent db rows limit = Ok scans ->
  exists sorted, sorted ≡ₚ numbered rows /\ StronglySorted newest_first sorted /\
    scans = (Ok ∘ scan_of) <$> take (Z.to_nat limit) sorted.
End history.

(** ** The text of a scanned time is not in the layout *)

(** The occurrences of [T]. *)
Fixpoint count_T (s : string) : nat :=
  match s with String a s' => (if bool_decide (a = "T"%char) then 1 else 0) + count_T s' | EmptyString => 0 end.

Lemma count_T_app s t : count_T (s +:+ t) = (count_T s + count_T t)%nat.
Proof.
  induction s as [|a s IH]; [done|]. change (String a s +:+ t) with (String a (s +:+ t)). cbn [count_T].
  rewrite IH. lia.
Qed.

Lemma digit_not_T a d : digit_val a = Some d -> a <> "T"%char.
Proof. by intros H ->. Qed.

Lemma count_T_digit a d s : digit_val a = Some d -> count_T (String a s) = count_T s.
Proof. intros H. cbn. rewrite bool_decide_eq_false_2; [done|]. by eapply digit_not_T. Qed.

Lemma getnum_T fixed s n s' : getnum fixed s = Some (n, s') -> count_T s = count_T s'.
Proof.
  destruct s as [|a s1]; [done|]. unfold getnum. destruct (digit_val a) eqn:Ea; [|done]. cbn [mbind option_bind].
  rewrite (count_T_digit _ _ _ Ea). destruct s1 as [|b s2]; [destruct fixed; by intros [= _ <-]|].
  destruct (digit_val b) eqn:Eb; [intros [= _ <-]; by eapply count_T_digit|]. destruct fixed; by intros [= _ <-].
Qed.

Lemma get_year_T s n s' : get_year s = Some (n, s') -> count_T s = count_T s'.
Proof.
  unfold get_year. destruct (getnum true s) as [[h s1]|] eqn:E1; [|done]. cbn.
  destruct (getnum true s1) as [[l s2]|] eqn:E2; [|done]. cbn. intros [= _ <-].
  apply getnum_T in E1, E2. congruence.
Qed.

Lemma in_range_T lo hi fixed s n s' : in_range lo hi (getnum fixed s) = Some (n, s') -> count_T s = count_T s'.
Proof.
  unfold in_range. destruct (getnum fixed s) as [[k s1]|] eqn:E; [|done]. cbn.
  destruct (_ && _); [|done]. intros [= _ <-]. by eapply getnum_T.
Qed.

Lemma skip_char_T c s s' : c <> "T"%char -> skip_char c s = Some s' -> count_T s = count_T s'.
Proof.
  intros Hc. destruct s as [|a s]; [done|]. cbn. case_bool_decide; [|done]. subst.
  intros [= <-]. by rewrite bool_decide_eq_false_2.
Qed.

Lemma cutspace_T s : count_T (cutspace s) = count_T s.
Proof. induction s as [|a s IH]; [done|]. cbn. case_bool_decide; [|done]. by subst. Qed.

Lemma skip_space_T s s' : skip_space s = Some s' -> count_T s = count_T s'.
Proof.
  destruct s as [|a s]; [by intros [= <-]|]. unfold skip_space. case_bool_decide; [|done].
  pose proof (cutspace_T (String a s)). congruence.
Qed.

Lemma fraction_T k s : count_T (fraction k s).2 = count_T s.
Proof.
  revert k; induction s as [|a s IH]; intros k; [done|]. cbn [fraction]. destruct (digit_val a) eqn:Ea; [|done].
  rewrite (count_T_digit _ _ _ Ea). destruct k as [|k]; [apply IH|]. specialize (IH k). by destruct (fraction k s).
Qed.

Lemma get_fraction_T s : count_T (get_fraction s).2 = count_T s.
Proof.
  destruct s as [|p [|a s]]; [done..|]. unfold get_fraction.
  destruct (bool_decide _ && _) eqn:E; [|done]. rewrite fraction_T. apply andb_true_iff in E as [Hp%bool_decide_eq_true _].
  cbn. rewrite (bool_decide_eq_false_2 (p = _)); [done|]. intros ->. rewrite !elem_of_cons, elem_of_nil in Hp. naive_solver.
Qed.

(** What parses has no [T]. *)
Lemma Parse_datetime_T s t : Parse_datetime s = Some t -> count_T s = O.
Proof.
  unfold Parse_datetime. intros H.
  repeat match type of H with
  | (_ ← ?o; _) = Some _ => let E := fresh "E" in destruct o as [?|] eqn:E; [cbn [mbind option_bind] in H|discriminate H]
  | (let '(_, _) := ?p in _) = Some _ => is_var p; destruct p
  end.
  match type of H with context [get_fraction ?x] => pose proof (get_fraction_T x) as Hf; destruct (get_fraction x) as [ns s'] end.
  case_bool_decide as Hs; [|done]. cbn in Hf. subst s'.
  repeat match goal with
  | E : get_year _ = Some _ |- _ => apply get_year_T in E; rewrite E; clear E
  | E : skip_char _ _ = Some _ |- _ => apply skip_char_T in E; [|done]
  | E : skip_space _ = Some _ |- _ => apply skip_space_T in E
  | E : in_range _ _ _ = Some _ |- _ => apply in_range_T in E
  | E : getnum _ _ = Some _ |- _ => apply getnum_T in E
  end. cbn in Hf. congruence.
Qed.

(** The text of RFC 3339 is not in the layout. *)
Lemma RFC3339_not_datetime t : Parse_datetime (Format_RFC3339Nano t) = None.
Proof.
  destruct (Parse_datetime _) as [t'|] eqn:E; [|done]. apply Parse_datetime_T in E.
  unfold Format_RFC3339Nano in E. rewrite !count_T_app in E. change (count_T "T") with 1%nat in E. lia.
Qed.

(** ** What is read back *)

Section recent.
Context {D : Type} `{Hdb : SQLDB D}.

Lemma scan_rows_ok now l :
  scan_rows now ((Ok ∘ scan_of) <$> l) = Ok (imap (fun i x => record_of (now i) (scan_of x)) l).
Proof. revert now; induction l as [|x l IH]; intros now; [done|]. cbn. by rewrite IH. Qed.

Lemma numbered_elem rows i r : (i, r) ∈ numbered rows <-> 1 <= i /\ rows !! Z.to_nat (i - 1) = Some r.
Proof.
  unfold numbered. rewrite list_elem_of_lookup. setoid_rewrite list_lookup_imap_Some. split.
  - intros (k & r' & Hk & [= -> ->]). split; [lia|]. by replace (Z.to_nat (Z.of_nat k + 1 - 1)) with k by lia.
  - intros [Hi Hr]. exists (Z.to_nat (i - 1)), r. split; [done|]. f_equal. lia.
Qed.

Lemma numbered_ids rows : NoDup ((numbered rows).*1).
Proof.
  unfold numbered. rewrite fmap_imap. apply NoDup_alt. intros i j x. rewrite !list_lookup_imap_Some.
  intros (r & _ & ->) (r' & _ & E). cbn in E. lia.
Qed.

(** C33. Reading the history. When the query succeeds, [GetRecent] returns as many records as
    the table has, up to the limit, each with the identifier and the columns of a row
    and no row twice; no row left out is newer than one returned; and since the driver
    gives a stored time as RFC 3339 text, which is not in the layout the code parses,
    every record bears the time its row was read instead of that of its event. *)
Theorem GetRecent_spec now limit db s records :
  query_law -> 0 <= limit -> GetRecent now limit db s = Ok records ->
  length records = Nat.min (Z.to_nat limit) (length (st_rows s)) /\
  NoDup (er_ID <$> records) /\
  (forall i e, records !! i = Some e -> er_Timestamp e = now i /\ exists r, st_rows s !! Z.to_nat (er_ID e - 1) = Some r /\ 1 <= er_ID e /\
     row_Opts r = mkSaveOptions (er_Type e) (er_Action e) (er_Container e) (er_Message e) /\
     forall j r', st_rows s !! j = Some r' -> Z.of_nat j + 1 ∉ er_ID <$> records -> row_Timestamp r' <= row_Timestamp r).
Proof.
  intros Hlaw Hl. unfold GetRecent. destruct (db_Query_recent db (st_rows s) limit) as [scans|] eqn:Eq; [|done].
  cbn. destruct (Hlaw _ _ _ _ Hl Eq) as (sorted & Hp & Hs & ->). rewrite scan_rows_ok. intros [= <-].
  set (n := Z.to_nat limit).
  assert (er_ID <$> imap (fun i x => record_of (now i) (scan_of x)) (take n sorted) = (take n sorted).*1) as Hids.
  { rewrite fmap_imap, <-imap_const. by apply imap_ext. }
  rewrite Hids. split_and!.
  - rewrite length_imap, length_take, Hp. unfold numbered. by rewrite length_imap.
  - assert (NoDup sorted.*1) as Hnd by (rewrite Hp; apply numbered_ids).
    rewrite <-(take_drop n sorted), fmap_app in Hnd. by apply NoDup_app in Hnd as [? _].
  - intros k e ([i r] & Hin%list_elem_of_lookup_2 & ->)%list_lookup_imap_Some. cbn. rewrite RFC3339_not_datetime. split; [done|].
    assert ((i, r) ∈ numbered (st_rows s)) as [Hi Hr]%numbered_elem.
    { rewrite <-Hp, <-(take_drop n sorted). apply elem_of_app. by left. }
    exists r. split_and!; [done|done|by destruct (row_Opts r)|].
    intros j r' Hj Hout. assert ((Z.of_nat j + 1, r') ∈ sorted) as Hin'.
    { rewrite Hp. apply numbered_elem. split; [lia|]. by replace (Z.to_nat (Z.of_nat j + 1 - 1)) with j by lia. }
    rewrite <-(take_drop n sorted) in Hin', Hs. apply elem_of_app in Hin' as [Hin'|Hin'].
    + exfalso. apply Hout. by apply (list_elem_of_fmap_2 fst) in Hin'.
    + exact (StronglySorted_app_1_elem_of _ _ _ _ _ Hs Hin Hin').
Qed.

(** The database is released on every path that fails after opening it. *)
Lemma NewSQLiteStore_releases dbPath now rows :
  match NewSQLiteStore dbPath now rows with
  | (Ok (db, s), calls) => calls = [DBOpened (dsn dbPath now)] /\ st_rows s = rows /\ store_wf s
  | (Err _, calls) => calls ∈ [[]; [DBOpened (dsn dbPath now); DBClosed]]
  end.
Proof.
  unfold NewSQLiteStore. destruct (sql_Open _) as [db|]; [|left].
  destruct (db_Ping db); [|right; left]. destruct (db_Exec_schema db); [|right; left].
  split_and!; [done..|]. split; cbn; [lia|done|done].
Qed.
End recent.

(** ** Witness *)

(** A database that answers from two rows, the second the newer. *)
Definition two_rows : list EventRow :=
  [mkEventRow (Unix 1767323045) (ex_save "old"); mkEventRow (Unix 1767323046) (ex_save "new")].

Definition insert_newest (x : Z * EventRow) : list (Z * EventRow) -> list (Z * EventRow) :=
  fix go l := match l with
    | [] => [x]
    | y :: l' => if row_Timestamp y.2 <=? row_Timestamp x.2 then x :: l else y :: go l'
    end.

Definition sorting_db : SQLDB unit := {|
  sql_Open := fun _ => Ok tt;
  db_Ping := fun _ => Ok tt;
  db_Exec_schema := fun _ => Ok tt;
  db_Query_recent := fun _ rows limit =>
    Ok ((Ok ∘ scan_of) <$> take (Z.to_nat limit) (foldr insert_newest [] (numbered rows)))
|}.

Lemma sorting_db_law : query_law (Hdb := sorting_db).
Proof.
  intros db rows limit scans _ [= <-]. exists (foldr insert_newest [] (numbered rows)).
  assert (forall x l, insert_newest x l ≡ₚ x :: l) as Hi.
  { intros x l. induction l as [|y l IH]; [done|]. cbn. destruct (_ <=? _); [done|]. rewrite IH. apply Permutation_swap. }
  split_and!; [| |done]; induction (numbered rows) as [|x l IH]; cbn; [done| |constructor|].
  - by rewrite Hi, IH.
  - clear -IH Hi. revert IH. generalize (foldr insert_newest [] l). clear l. induction l as [|y l IHl]; intros Hs; cbn.
    + repeat constructor.
    + apply StronglySorted_inv in Hs as Hs'. destruct Hs' as [Hl Hy].
      destruct (Z.leb_spec (row_Timestamp y.2) (row_Timestamp x.2)).
      * constructor; [done|]. constructor; [done|]. eapply Forall_impl; [exact Hy|]. unfold newest_first. intros; lia.
      * constructor; [by apply IHl|]. rewrite Hi. constructor; [unfold newest_first; lia|done].
Qed.

Lemma GetRecent_spec_witness :
  exists records, GetRecent (Hdb := sorting_db) (fun i => 7 + Z.of_nat i) 2 tt (mkStore [] false Receiving two_rows false) = Ok records /\
    length records = 2%nat /\ er_Message <$> records = ["new"; "old"] /\ er_Timestamp <$> records = [7; 8].
Proof.
  assert (exists records, GetRecent (Hdb := sorting_db) (fun i => 7 + Z.of_nat i) 2 tt (mkStore [] false Receiving two_rows false) = Ok records) as [records E]
    by (eexists; reflexivity).
  destruct (GetRecent_spec (Hdb := sorting_db) (fun i => 7 + Z.of_nat i) 2 tt _ _ sorting_db_law ltac:(discriminate) E) as (Hl & _ & _).
  exists records. split; [exact E|]. split; [exact Hl|].
  vm_compute in E. injection E as <-. split; reflexivity.
Defined.

Example parse_datetime_examples :
  Parse_datetime "2026-01-02 03:04:05" = Some (Unix 1767323045) /\
  Parse_datetime "2024-02-29  3:04:05.25" = Some (Unix 1709175845 + 250 * Millisecond) /\
  Parse_datetime "2023-02-29 03:04:05" = None /\
  Format_RFC3339Nano (Unix 1767323045 + 500 * Millisecond) = "2026-01-02T03:04:05.5Z".
Proof. vm_compute. split_and!; reflexivity. Qed.
