(* ===== verification/Prune.v ===== *)
(** * The automatic pruner ([internal/prune/pruner.go])

    One check of the watchdog over any container engine, and runs of checks.  The clock
    is read when a check starts and again when a prune ends; the disk usage (a call of
    the gopsutil library) is an input of the check.  The prunes of a run are the calls that
    an engine that counts them receives. *)
From S2P Require Import Prelude.
From S2P Require Import GoStrings.
From S2P Require Import GoFloat.
From S2P Require Import GoTime.
From S2P Require Import DockerTypes.
From S2P Require Import ContainerEngine.
From S2P Require Import Storage.

Record AutoPruner := mkAutoPruner {
  ap_thresholdPct : float64;
  ap_checkPeriod : Duration;
  ap_pathToCheck : string;
  ap_lastPrune : Time
}.

Definition NewAutoPruner (triggerPct : float64) : AutoPruner := {|
  ap_thresholdPct := triggerPct; ap_checkPeriod := Minute * 5; ap_pathToCheck := "/";
  ap_lastPrune := zeroTime |}.

Definition set_lastPrune (t : Time) (p : AutoPruner) : AutoPruner := {|
  ap_thresholdPct := ap_thresholdPct p; ap_checkPeriod := ap_checkPeriod p;
  ap_pathToCheck := ap_pathToCheck p; ap_lastPrune := t |}.

(** The message saved after a prune. *)
Definition pruneMessage (usedPercent : float64) (r : result Z) : string :=
  "AutoPrune triggered. " +:+ format_fixed 1 usedPercent +:+ "% used." +:+
  match r with
  | Ok reclaimed =>
      " Recovered: " +:+
      format_fixed 1 (f64_div (f64_div (f64_of_Z reclaimed) (f64_of_Z 1024)) (f64_of_Z 1024)) +:+ " MB."
  | Err e => " Error: " +:+ e
  end.

Section pruner.
Context {E : Type} `{Heng : ContainerEngine E}.

(** The state around a pruner: itself, the engine and the event store, if any. *)
Record PruneState := mkPruneState {
  ps_pruner : AutoPruner;
  ps_engine : E;
  ps_store : option SQLiteStore
}.

(** What one check sees: the clock at its start, the disk usage, and the clock when the
    prune, if there is one, has ended. *)
Record CheckInput := mkCheckInput {
  ci_now : Time;
  ci_usage : result float64;
  ci_after : Time
}.

(** Whether a check prunes. *)
Definition triggers (p : AutoPruner) (i : CheckInput) : bool :=
  negb (Sub (ci_now i) (ap_lastPrune p) <? Hour) &&
  match ci_usage i with Ok used => f64_ge used (ap_thresholdPct p) | Err _ => false end.

(** [None] is the panic of saving to a closed store. *)
Definition checkAndPrune (i : CheckInput) (s : PruneState) : option PruneState :=
  let p := ps_pruner s in
  if Sub (ci_now i) (ap_lastPrune p) <? Hour then Some s else
  match ci_usage i with
  | Err _ => Some s
  | Ok used =>
      if f64_ge used (ap_thresholdPct p) then
        let '(r, e') := PruneUnused (ps_engine s) in
        let p' := set_lastPrune (ci_after i) p in
        match ps_store s with
        | None => Some {| ps_pruner := p'; ps_engine := e'; ps_store := None |}
        | Some store =>
            store' ← SaveEvent "prune" "host" (pruneMessage used r) store;
            Some {| ps_pruner := p'; ps_engine := e'; ps_store := Some store' |}
        end
      else Some s
  end.

Lemma checkAndPrune_lastPrune i s s' :
  checkAndPrune i s = Some s' ->
  ap_lastPrune (ps_pruner s') =
    (if triggers (ps_pruner s) i then ci_after i else ap_lastPrune (ps_pruner s)) /\
  (triggers (ps_pruner s) i = false -> s' = s).
Proof.
  unfold checkAndPrune, triggers. destruct (_ <? _); cbn [negb andb]; [by intros [= <-]|].
  destruct (ci_usage i) as [used|]; [|by intros [= <-]].
  destruct (f64_ge used _); [|by intros [= <-]].
  destruct (PruneUnused (ps_engine s)) as [r e'].
  destruct (ps_store s) as [store|]; [|by intros [= <-]].
  destruct (SaveEvent _ _ _ store); [|done]. by intros [= <-].
Qed.

(** A check prunes exactly when the last prune ended at least an hour ago, the disk
    usage is known and it reaches the threshold; then the engine's prune runs once and
    the event is saved if there is a store, and otherwise nothing changes at all. *)
Theorem checkAndPrune_spec i s :
  (triggers (ps_pruner s) i = false -> checkAndPrune i s = Some s) /\
  (triggers (ps_pruner s) i = true ->
    (forall store, ps_store s = Some store -> st_closed store = false) ->
    exists used s', ci_usage i = Ok used /\ checkAndPrune i s = Some s' /\
      ps_engine s' = (PruneUnused (ps_engine s)).2 /\ ap_lastPrune (ps_pruner s') = ci_after i /\
      forall store, ps_store s = Some store ->
        ps_store s' = SaveEvent "prune" "host" (pruneMessage used (PruneUnused (ps_engine s)).1) store).
Proof.
  unfold triggers, checkAndPrune. destruct (Sub _ _ <? Hour); cbn [negb andb]; [done|].
  destruct (ci_usage i) as [used|e]; [|done].
  destruct (f64_ge used _); [|done]. split; [done|]. intros _ Hopen. exists used.
  destruct (PruneUnused (ps_engine s)) as [r e'].
  destruct (ps_store s) as [store|].
  - assert (exists store', SaveEvent "prune" "host" (pruneMessage used r) store = Some store') as [store' Hs].
    { unfold SaveEvent, save. rewrite (Hopen store) by done. destruct (_ <? _)%nat; eauto. }
    rewrite Hs. eexists. split_and!; [done..|]. intros st [= <-]. cbn. by rewrite Hs.
  - eexists. by split_and!.
Qed.

(** ** The loop *)

(** The cases of the loop's [select]. *)
Inductive PruneInput :=
  | PruneTick (i : CheckInput)
  | PruneDone.

Fixpoint Start (evs : list PruneInput) (s : PruneState) : option PruneState :=
  match evs with
  | [] | PruneDone :: _ => Some s
  | PruneTick i :: evs' => s' ← checkAndPrune i s; Start evs' s'
  end.

(** The ticks before the end of the context. *)
Fixpoint checks (evs : list PruneInput) : list CheckInput :=
  match evs with PruneTick i :: evs' => i :: checks evs' | _ => [] end.

(** ** The pruner and the closing store

    The pruner's checks interleaved with the steps of the store it shares with the
    interface, its worker and its owner, who closes it. *)
Inductive SharedEvent :=
  | Checked (i : CheckInput)
  | Stored (ev : StoreEvent).

Inductive shared_run (s0 : PruneState) : list SharedEvent -> PruneState -> Prop :=
  | shared_nil : shared_run s0 [] s0
  | shared_check evs s i s' :
      shared_run s0 evs s -> checkAndPrune i s = Some s' -> shared_run s0 (evs ++ [Checked i]) s'
  | shared_store evs s ev st st' :
      shared_run s0 evs s -> ps_store s = Some st -> store_step st ev = Some st' ->
      shared_run s0 (evs ++ [Stored ev]) {| ps_pruner := ps_pruner s; ps_engine := ps_engine s; ps_store := Some st' |}.

(** Only closing closes the channel, and nothing opens it again. *)
Lemma store_step_closed st ev st' :
  store_step st ev = Some st' -> (st_closed st' = true <-> st_closed st = true \/ ev = EvCloseCh).
Proof.
  unfold store_step, save. destruct st as [q c w rows db]; cbn.
  intros H. split.
  - destruct ev as [opts| |now ok| | |], w; try done; destruct c; try (by left); try (by right);
      repeat case_match; by simplify_eq/=.
  - intros [-> | ->].
    + destruct ev as [opts| |now ok| | |], w; try done; repeat case_match; by simplify_eq/=.
    + destruct c, w; try done; by simplify_eq/=.
Qed.

Lemma checkAndPrune_store i s s' :
  checkAndPrune i s = Some s' ->
  ps_store s' = ps_store s \/
  exists st st', ps_store s = Some st /\ ps_store s' = Some st' /\ st_closed st = false /\ st_closed st' = false.
Proof.
  unfold checkAndPrune. destruct (_ <? _); [intros [= <-]; by left|].
  destruct (ci_usage i) as [used|]; [|intros [= <-]; by left].
  destruct (f64_ge used _); [|intros [= <-]; by left]. destruct (PruneUnused (ps_engine s)) as [r e'].
  destruct (ps_store s) as [st|]; [|intros [= <-]; by left]. unfold SaveEvent, save.
  destruct (st_closed st) eqn:Ec; [done|]. right. exists st.
  destruct (_ <? _)%nat; simplify_eq/=; eexists; by split_and!.
Qed.

(** C27. The shutdown race. In any interleaving of the pruner with a store that was open, a check
    panics, on a send to a closed channel, exactly when it is due to prune and the store's
    channel has been closed by then: never before [Close], and after it at the first check
    that would prune, since only the context, which [main] cancels later, stops the pruner. *)
Theorem pruner_panics_iff s0 st0 evs s i :
  ps_store s0 = Some st0 -> st_closed st0 = false -> shared_run s0 evs s ->
  (checkAndPrune i s = None <-> triggers (ps_pruner s) i = true /\ Stored EvCloseCh ∈ evs).
Proof.
  intros H0 Hc0 Hr.
  assert (exists st, ps_store s = Some st /\ (st_closed st = true <-> Stored EvCloseCh ∈ evs)) as (st & Hst & Hc).
  { induction Hr as [|evs s i' s' _ IH Hs|evs s ev st st' _ IH Hst Hs].
    - exists st0. split; [done|]. rewrite Hc0. split; [done|]. by intros ?%elem_of_nil.
    - destruct IH as (st & Hst & IH). setoid_rewrite elem_of_app. setoid_rewrite list_elem_of_singleton.
      destruct (checkAndPrune_store _ _ _ Hs) as [Eq|(st1 & st2 & E1 & E2 & F1 & F2)].
      + exists st. rewrite Eq. split; [done|]. naive_solver.
      + exists st2. split; [done|]. rewrite Hst in E1. injection E1 as ->. rewrite F1 in IH. rewrite F2. naive_solver.
    - destruct IH as (st1 & Hst1 & IH). rewrite Hst in Hst1. injection Hst1 as <-. exists st'. split; [done|].
      rewrite (store_step_closed _ _ _ Hs), IH, elem_of_app, list_elem_of_singleton. naive_solver. }
  rewrite <-Hc. unfold checkAndPrune, triggers. destruct (_ <? Hour); cbn [negb andb]; [naive_solver|].
  destruct (ci_usage i) as [used|]; [|naive_solver]. destruct (f64_ge used _); [|naive_solver].
  destruct (PruneUnused (ps_engine s)) as [r e']. rewrite Hst. unfold SaveEvent, save.
  destruct (st_closed st); [naive_solver|]. destruct (_ <? _)%nat; naive_solver.
Qed.
End pruner.

(** ** The prunes of a run

    What a pruner really does is seen by an engine that counts the calls of its prune. *)
Definition counting {E} `{Heng : ContainerEngine E} : ContainerEngine (E * nat) := {|
  ListRunningContainers := fun s all => ListRunningContainers s.1 all;
  ListRunningContainersDetailed := fun all s => '(r, e) ← ListRunningContainersDetailed all s.1; Some (r, (e, s.2));
  GetAllContainerStats := fun s cs => GetAllContainerStats s.1 cs;
  StopContainer := fun id s => let '(r, e) := StopContainer id s.1 in (r, (e, s.2));
  RestartContainer := fun id s => let '(r, e) := RestartContainer id s.1 in (r, (e, s.2));
  InspectContainer := fun s id => InspectContainer s.1 id;
  SetIncludeContainers := fun l s => (SetIncludeContainers l s.1, s.2);
  RunStressTest := fun id d s => let '(r, e) := RunStressTest id d s.1 in (r, (e, s.2));
  PruneUnused := fun s => let '(r, e) := PruneUnused s.1 in (r, (e, S s.2));
  PruneImages := fun s => let '(r, e) := PruneImages s.1 in (r, (e, s.2));
  PruneVolumes := fun s => let '(r, e) := PruneVolumes s.1 in (r, (e, s.2));
  GetDiskUsage := fun s => GetDiskUsage s.1;
  ListNetworks := fun s => ListNetworks s.1;
  GetSystemInfo := fun s => GetSystemInfo s.1
|}.

Section spacing.
Context {E : Type} `{Heng : ContainerEngine E}.
#[local] Existing Instance counting.

(** The calls of the engine's prune so far. *)
Definition prunes (s : PruneState (E := E * nat)) : nat := (ps_engine s).2.

(** Runs of checks on a clock that does not go back, with the start and the end of each
    check that called the engine's prune, newest first. *)
Inductive prune_run (s0 : PruneState (E := E * nat)) : list (Time * Time) -> Time -> PruneState (E := E * nat) -> Prop :=
  | prune_run_nil t0 : prune_run s0 [] t0 s0
  | prune_run_snoc log t s i s' :
      prune_run s0 log t s -> t <= ci_now i <= ci_after i -> checkAndPrune i s = Some s' ->
      prune_run s0 (if (prunes s' =? prunes s)%nat then log else (ci_now i, ci_after i) :: log) (ci_after i) s'.

(** A check calls the prune once or not at all, only if it is due, and then notes its end. *)
Lemma check_prunes i s s' :
  checkAndPrune i s = Some s' ->
  s' = s \/ (prunes s' = S (prunes s) /\ ap_lastPrune (ps_pruner s') = ci_after i /\
            Hour <= Sub (ci_now i) (ap_lastPrune (ps_pruner s))).
Proof.
  unfold checkAndPrune. destruct (Z.ltb_spec (Sub (ci_now i) (ap_lastPrune (ps_pruner s))) Hour) as [|Hh];
    [intros [= <-]; by left|].
  destruct (ci_usage i) as [used|]; [|intros [= <-]; by left].
  destruct (f64_ge used _); [|intros [= <-]; by left]. unfold prunes. cbn.
  destruct (PruneUnused (ps_engine s).1) as [r e'].
  destruct (ps_store s) as [store|]; [|intros [= <-]; by right].
  destruct (SaveEvent _ _ _ store); [|done]. intros [= <-]. by right.
Qed.

(** The times are those of the calls the engine got, one for each. *)
Lemma prune_run_calls s0 log t s : prune_run s0 log t s -> prunes s = (length log + prunes s0)%nat.
Proof.
  induction 1 as [|log t s i s' _ IH _ Hstep]; [done|].
  destruct (check_prunes _ _ _ Hstep) as [-> |(Hp & _)]; [by rewrite Nat.eqb_refl|].
  rewrite (proj2 (Nat.eqb_neq _ _)) by lia. cbn. lia.
Qed.

(** The pruner notes the end of the last prune. *)
Lemma prune_run_last s0 log t s :
  prune_run s0 log t s -> match log with (_, ended) :: _ => ap_lastPrune (ps_pruner s) = ended | [] => s = s0 end.
Proof.
  induction 1 as [|log t s i s' _ IH _ Hstep]; [done|].
  destruct (check_prunes _ _ _ Hstep) as [-> |(Hp & Hl & _)]; [by rewrite Nat.eqb_refl|].
  by rewrite (proj2 (Nat.eqb_neq _ _)) by lia.
Qed.

(** C28. Prunes are at least an hour apart: in any run of checks on a clock that does not
    go back, each call of the engine's prune is by a check that starts at least an hour
    after the previous call ended, however full the disk stays, and every call the engine
    got in the run is one of those listed. *)
Theorem prunes_spaced s0 log t s :
  prune_run s0 log t s ->
  prunes s = (length log + prunes s0)%nat /\
  forall k start ended, fst <$> log !! k = Some start -> snd <$> log !! S k = Some ended -> Hour <= start - ended.
Proof.
  intros Hr. split; [by eapply prune_run_calls|].
  induction Hr as [|log t s i s' Hr IH _ Hstep]; [done|]. pose proof (prune_run_last _ _ _ _ Hr) as Hlast.
  destruct (check_prunes _ _ _ Hstep) as [-> |(Hp & _ & Hh)]; [by rewrite Nat.eqb_refl|].
  rewrite (proj2 (Nat.eqb_neq _ _)) by lia. intros [|k] start ended; [|apply IH].
  destruct log as [|[st en] log]; [done|]. cbn. intros [= <-] [= <-]. rewrite Hlast in Hh.
  unfold Sub, maxDuration, minDuration, Hour, Minute, Second in *. lia.
Qed.

(** The clock of a sequence of checks does not go back. *)
Fixpoint forward (t : Time) (l : list CheckInput) : Prop :=
  match l with [] => True | i :: l' => t <= ci_now i <= ci_after i /\ forward (ci_after i) l' end.

(** The runs of the loop are the runs of checks above. *)
Lemma Start_run s0 log t s evs s' :
  prune_run s0 log t s -> forward t (checks evs) -> Start evs s = Some s' ->
  exists log' t', prune_run s0 log' t' s'.
Proof.
  revert log t s; induction evs as [|[i|] evs IH]; intros log t s Hr Hf; cbn [Start].
  1, 3: intros [= <-]; by exists log, t.
  destruct (checkAndPrune i s) as [s1|] eqn:E1; [|done]. cbn. intros Hs. destruct Hf as [Hi Hf].
  exact (IH _ _ _ (prune_run_snoc s0 log t s i s1 Hr Hi E1) Hf Hs).
Qed.
End spacing.

(** ** Witnesses *)

Definition ex_pruner (st : option SQLiteStore) : PruneState (E := gmap string ContainerJSON) := {|
  ps_pruner := NewAutoPruner (f64_of_Z 85); ps_engine := ∅; ps_store := st |}.

Definition ex_check (now : Time) : CheckInput := {|
  ci_now := now; ci_usage := Ok (f64_of_Z 90); ci_after := now + Second |}.

Lemma checkAndPrune_spec_witness :
  exists used s', Ok (f64_of_Z 90) = Ok used /\
    checkAndPrune (Heng := inspect_engine) (ex_check Hour) (ex_pruner (Some emptyStore)) = Some s' /\
    ap_lastPrune (ps_pruner s') = Hour + Second.
Proof.
  destruct (checkAndPrune_spec (Heng := inspect_engine) (ex_check Hour) (ex_pruner (Some emptyStore)))
    as [_ H].
  destruct H as (used & s' & H1 & H2 & _ & H3 & _).
  - vm_compute. reflexivity.
  - intros store Hs. injection Hs as <-. reflexivity.
  - exists used, s'. split; [exact H1|]. split; [exact H2|exact H3].
Defined.

(** Prunes after one and after three hours, and a check in between that does not prune. *)
Definition ex_pruned (last : Time) (n : nat) : PruneState (E := gmap string ContainerJSON * nat) := {|
  ps_pruner := set_lastPrune last (NewAutoPruner (f64_of_Z 85)); ps_engine := (∅, n); ps_store := None |}.

Lemma prunes_spaced_witness : Hour <= 3 * Hour - (Hour + Second).
Proof.
  refine (proj2 (prunes_spaced (Heng := inspect_engine) (ex_pruned zeroTime 0)
    [(3 * Hour, 3 * Hour + Second); (Hour, Hour + Second)] (3 * Hour + Second) (ex_pruned (3 * Hour + Second) 2) _)
    0%nat (3 * Hour) (Hour + Second) eq_refl eq_refl).
  apply (prune_run_snoc (Heng := inspect_engine) _ [(Hour, Hour + Second)] (2 * Hour)
    (ex_pruned (Hour + Second) 1) (ex_check (3 * Hour)) (ex_pruned (3 * Hour + Second) 2)).
  - apply (prune_run_snoc (Heng := inspect_engine) _ [(Hour, Hour + Second)] (Hour + Second)
      (ex_pruned (Hour + Second) 1) (mkCheckInput (2 * Hour) (Ok (f64_of_Z 90)) (2 * Hour)) (ex_pruned (Hour + Second) 1)).
    + apply (prune_run_snoc (Heng := inspect_engine) _ [] 0 (ex_pruned zeroTime 0) (ex_check Hour) (ex_pruned (Hour + Second) 1)).
      * apply prune_run_nil.
      * vm_compute. split; discriminate.
      * vm_compute. reflexivity.
    + vm_compute. split; discriminate.
    + vm_compute. reflexivity.
  - vm_compute. split; discriminate.
  - vm_compute. reflexivity.
Defined.

(** The dashboard has ended and closed the store; the next check would prune. *)
Lemma pruner_panics_iff_witness :
  checkAndPrune (Heng := inspect_engine) (ex_check Hour)
    {| ps_pruner := NewAutoPruner (f64_of_Z 85); ps_engine := ∅; ps_store := Some (mkStore [] true Receiving [] false) |} = None.
Proof.
  apply (pruner_panics_iff (Heng := inspect_engine) (ex_pruner (Some emptyStore)) emptyStore [Stored EvCloseCh] _ (ex_check Hour)
    eq_refl eq_refl).
  - exact (shared_store (Heng := inspect_engine) (ex_pruner (Some emptyStore)) [] (ex_pruner (Some emptyStore)) EvCloseCh
      emptyStore (mkStore [] true Receiving [] false) (shared_nil _) eq_refl eq_refl).
  - split; [vm_compute; reflexivity|]. left.
Defined.
