(* ===== verification/Exporter.v ===== *)
(** * Collection and export of metrics ([internal/collector/container.go],
    [internal/metrics/prometheus.go])

    The collector's snapshot and the exporter's gauges, over any container engine and,
    for a leader, any source of remote metrics.  A [GaugeVec] of the Prometheus client
    is the map from the label values of its series to their values; its [With] panics on a
    label value that is not valid UTF-8. *)
From S2P Require Import Prelude.
From S2P Require Import GoStrings.
From S2P Require Import GoFloat.
From S2P Require Import GoTime.
From S2P Require Import GoUtf8.
From S2P Require Import Models.
From S2P Require Import Config.
From S2P Require Import InternalMetrics.
From S2P Require Import DockerTypes.
From S2P Require Import ContainerEngine.

Section engine.
Context {Eng : Type} `{Heng : ContainerEngine Eng}.

(** The order of a range over a metrics map. *)
Context (ordM : gmap string ContainerMetrics -> list (string * ContainerMetrics)).

(** ** The collector *)

(** The client is [None] for a nil engine. *)
Record ContainerCollector := mkContainerCollector {
  cc_dockerClient : option Eng;
  cc_cfg : Config;
  cc_interval : Duration
}.

Definition NewContainerCollector (dockerClient : option Eng) (cfg : Config) (interval : Duration)
    : ContainerCollector := {| cc_dockerClient := dockerClient; cc_cfg := cfg; cc_interval := interval |}.

Definition Name (c : ContainerCollector) : string := "container".

(** The outer [None] is a panic of the listing. *)
Definition Collect (c : ContainerCollector) : option (result (list ContainerMetrics)) :=
  match cc_dockerClient c with
  | None => Some (Err "collector: docker client is not initialized")
  | Some e =>
      listed ← ListRunningContainers e false;
      Some (match listed with
      | Err err => Err ("collector: failed to list running containers: " +:+ err)
      | Ok containers =>
          match ContainerEngine.GetAllContainerStats e containers with
          | Err err => Err ("collector: failed to get container stats: " +:+ err)
          | Ok statsMap => Ok (ordM statsMap).*2
          end
      end)
  end.

(** A collection returns the statistics of all containers, each once, whatever the order of
    the range. *)
Lemma Collect_all (Hord : forall m, range_of m (ordM m)) c l :
  Collect c = Some (Ok l) -> exists e containers stats, cc_dockerClient c = Some e /\
    ListRunningContainers e false = Some (Ok containers) /\
    ContainerEngine.GetAllContainerStats e containers = Ok stats /\ l ≡ₚ (map_to_list stats).*2.
Proof.
  unfold Collect. destruct (cc_dockerClient c) as [e|]; [|done].
  destruct (ListRunningContainers e false) as [[cs|]|] eqn:El; [|done..]. cbn.
  destruct (ContainerEngine.GetAllContainerStats e cs) as [stats|] eqn:Es; [|done]. intros [= <-].
  exists e, cs, stats. split_and!; [done..|]. by rewrite (Hord stats).
Qed.

(** ** Gauges *)

(** Host, container identifier, container name, image. *)
Definition Labels : Type := string * string * string * string.

Notation GaugeVec := (gmap Labels float64).

Record Gauges := mkGauges {
  cpuPercent : GaugeVec;
  memoryUsage : GaugeVec;
  memoryLimit : GaugeVec;
  memoryPercent : GaugeVec;
  networkRx : GaugeVec;
  networkTx : GaugeVec;
  blockRead : GaugeVec;
  blockWrite : GaugeVec;
  containerInfo : GaugeVec
}.

(** [Reset] of the nine vectors. *)
Definition resetGauges : Gauges := {|
  cpuPercent := ∅; memoryUsage := ∅; memoryLimit := ∅; memoryPercent := ∅; networkRx := ∅;
  networkTx := ∅; blockRead := ∅; blockWrite := ∅; containerInfo := ∅ |}.

Definition labelsOf (s : ContainerMetrics) : Labels :=
  let hid := if bool_decide (cm_HostID s = "") then "unknown" else cm_HostID s in
  (hid, cm_ContainerID s, cm_ContainerName s, cm_Image s).

(** What [With] demands of label values. *)
Definition valid_labels (l : Labels) : bool :=
  let '(host, id, name, image) := l in
  ValidString host && ValidString id && ValidString name && ValidString image.

(** The nine [With(labels).Set(...)] for valid labels. *)
Definition setSeries (l : Labels) (s : ContainerMetrics) (g : Gauges) : Gauges := {|
  cpuPercent := <[l := cm_CPUPercent s]> (cpuPercent g);
  memoryUsage := <[l := f64_of_Z (cm_MemoryUsage s)]> (memoryUsage g);
  memoryLimit := <[l := f64_of_Z (cm_MemoryLimit s)]> (memoryLimit g);
  memoryPercent := <[l := cm_MemoryPercent s]> (memoryPercent g);
  networkRx := <[l := f64_of_Z (cm_NetworkRx s)]> (networkRx g);
  networkTx := <[l := f64_of_Z (cm_NetworkTx s)]> (networkTx g);
  blockRead := <[l := f64_of_Z (cm_BlockRead s)]> (blockRead g);
  blockWrite := <[l := f64_of_Z (cm_BlockWrite s)]> (blockWrite g);
  containerInfo := <[l := f64_of_Z 1]> (containerInfo g) |}.

(** One container; [None] is the panic of [With] on a label that is not valid UTF-8. *)
Definition setGauges (g : Gauges) (s : ContainerMetrics) : option Gauges :=
  let l := labelsOf s in
  if valid_labels l then Some (setSeries l s g) else None.

Record Exporter := mkExporter {
  ex_hostID : string;
  ex_receiver : option (list ContainerMetrics);   (* [GetAllMetrics] of the receiver, for a leader *)
  ex_gauges : Gauges;
  ex_lastStats : gmap string ContainerMetrics;
  ex_internal : InternalMetrics
}.

Definition NewExporter (receiver : option (list ContainerMetrics)) (hostID : string) (m : InternalMetrics)
    : Exporter := {|
  ex_hostID := hostID; ex_receiver := receiver; ex_gauges := resetGauges; ex_lastStats := ∅;
  ex_internal := m |}.

(** The metrics a collection exports: local ones stamped with the host, then remote. *)
Definition allStats (x : Exporter) (stats : gmap string ContainerMetrics) : list ContainerMetrics :=
  ((fun kv => set_metrics_host (ex_hostID x) kv.2) <$> ordM stats) ++
  match ex_receiver x with Some remote => remote | None => [] end.

(** [None] is a panic of the listing or of the gauges. *)
Definition collect (e : Eng) (x : Exporter) : option Exporter :=
  listed ← ListRunningContainers e true;
  match listed with
  | Err _ => Some x
  | Ok containers =>
      match ContainerEngine.GetAllContainerStats e containers with
      | Err _ => Some x
      | Ok stats =>
          gauges ← foldl (fun g s => g ← g; setGauges g s) (Some resetGauges) (allStats x stats);
          Some {| ex_hostID := ex_hostID x; ex_receiver := ex_receiver x;
             ex_gauges := gauges;
             ex_lastStats := stats;
             ex_internal := set_monitored (f64_of_Z (Z.of_nat (length containers))) (ex_internal x) |}
      end
  end.

Definition GetLastStats (x : Exporter) : gmap string ContainerMetrics := ex_lastStats x.

(** ** What is exported *)

(** The gauges after setting the containers [l] in order, from reset ones. *)
Definition setAll (l : list ContainerMetrics) : Gauges := foldl (fun g s => setSeries (labelsOf s) s g) resetGauges l.

Lemma setGauges_all l :
  foldl (fun g s => g ← g; setGauges g s) (Some resetGauges) l =
  if forallb (fun s => valid_labels (labelsOf s)) l then Some (setAll l) else None.
Proof.
  unfold setAll. generalize resetGauges as g. induction l as [|s l IH]; intros g; cbn [foldl forallb]; [done|].
  cbn [mbind option_bind]. unfold setGauges at 2. destruct (valid_labels (labelsOf s)); cbn [andb]; [apply IH|].
  clear IH. by induction l.
Qed.

(** The series of a vector after setting the containers [l] in order. *)
Lemma setAll_fold (field : Gauges -> GaugeVec) (value : ContainerMetrics -> float64) l k :
  (forall g s, field (setSeries (labelsOf s) s g) = <[labelsOf s := value s]> (field g)) -> field resetGauges = ∅ ->
  field (setAll l) !! k = value <$> last (filter (fun s => labelsOf s = k) l).
Proof.
  intros Hf H0. unfold setAll.
  enough (forall g, field (foldl (fun g s => setSeries (labelsOf s) s g) g l) !! k =
    match last (filter (fun s => labelsOf s = k) l) with Some s => Some (value s) | None => field g !! k end) as H.
  { rewrite H, H0, lookup_empty. by destruct (last _). }
  induction l as [|s l IH]; intros g; cbn [foldl]; [done|].
  rewrite IH, Hf, filter_cons. destruct (decide (labelsOf s = k)) as [<-|Hne].
  - rewrite last_cons. destruct (last _); [done|]. by rewrite lookup_insert_eq.
  - destruct (last _); [done|]. by rewrite lookup_insert_ne.
Qed.

Lemma last_None_filter (l : list ContainerMetrics) k :
  last (filter (fun s => labelsOf s = k) l) = None <-> k ∉ labelsOf <$> l.
Proof.
  rewrite last_None. split.
  - intros E (s & -> & Hin)%list_elem_of_fmap.
    assert (s ∈ filter (fun s' => labelsOf s' = labelsOf s) l) as H by by apply list_elem_of_filter.
    rewrite E in H. by apply elem_of_nil in H.
  - intros Hk. destruct (filter _ l) as [|s l'] eqn:E; [done|].
    assert (s ∈ filter (fun s' => labelsOf s' = k) l) as [Hs Hin]%list_elem_of_filter by (rewrite E; left).
    exfalso. apply Hk. rewrite <-Hs. by apply list_elem_of_fmap_2.
Qed.

(** The labels of the series of a metric, and the nine series that show it. *)
Definition series (m : ContainerMetrics) : Labels :=
  (if decide (cm_HostID m = "") then "unknown" else cm_HostID m, cm_ContainerID m, cm_ContainerName m, cm_Image m).

Definition shows (g : Gauges) (k : Labels) (m : ContainerMetrics) : Prop :=
  cpuPercent g !! k = Some (cm_CPUPercent m) /\
  memoryUsage g !! k = Some (f64_of_Z (cm_MemoryUsage m)) /\
  memoryLimit g !! k = Some (f64_of_Z (cm_MemoryLimit m)) /\
  memoryPercent g !! k = Some (cm_MemoryPercent m) /\
  networkRx g !! k = Some (f64_of_Z (cm_NetworkRx m)) /\
  networkTx g !! k = Some (f64_of_Z (cm_NetworkTx m)) /\
  blockRead g !! k = Some (f64_of_Z (cm_BlockRead m)) /\
  blockWrite g !! k = Some (f64_of_Z (cm_BlockWrite m)) /\
  containerInfo g !! k = Some (f64_of_Z 1).

(** No vector has the series [k]. *)
Definition hides (g : Gauges) (k : Labels) : Prop :=
  cpuPercent g !! k = None /\ memoryUsage g !! k = None /\ memoryLimit g !! k = None /\
  memoryPercent g !! k = None /\ networkRx g !! k = None /\ networkTx g !! k = None /\
  blockRead g !! k = None /\ blockWrite g !! k = None /\ containerInfo g !! k = None.

Lemma series_labels m : series m = labelsOf m.
Proof. unfold series, labelsOf. by case_bool_decide; case_decide. Qed.

(** The gauges show, under each label set of the containers [l], the last one that has it. *)
Lemma setAll_shows l k :
  match last (filter (fun s => labelsOf s = k) l) with
  | Some m => shows (setAll l) k m
  | None => hides (setAll l) k
  end.
Proof.
  pose proof (fun field value => setAll_fold field value l k) as H.
  destruct (last _) as [m|]; unfold shows, hides; split_and!.
  1, 10: by apply (H cpuPercent cm_CPUPercent).
  1, 9: by apply (H memoryUsage (f64_of_Z ∘ cm_MemoryUsage)).
  1, 8: by apply (H memoryLimit (f64_of_Z ∘ cm_MemoryLimit)).
  1, 7: by apply (H memoryPercent cm_MemoryPercent).
  1, 6: by apply (H networkRx (f64_of_Z ∘ cm_NetworkRx)).
  1, 5: by apply (H networkTx (f64_of_Z ∘ cm_NetworkTx)).
  1, 4: by apply (H blockRead (f64_of_Z ∘ cm_BlockRead)).
  1, 3: by apply (H blockWrite (f64_of_Z ∘ cm_BlockWrite)).
  1, 2: by apply (H containerInfo (fun _ => f64_of_Z 1)).
Qed.

(** So there is nothing else on them, and nothing is missing. *)
Lemma setAll_series l k :
  (exists m, m ∈ l /\ series m = k /\ shows (setAll l) k m) \/
  ((forall m, m ∈ l -> series m <> k) /\ hides (setAll l) k).
Proof.
  pose proof (setAll_shows l k) as H. destruct (last _) as [m|] eqn:El.
  - left. exists m. rewrite series_labels. apply last_Some_elem_of, list_elem_of_filter in El as [Hk Hin]. done.
  - right. split; [|done]. intros m Hm Hk. rewrite series_labels in Hk. apply last_None_filter in El.
    apply El. rewrite <-Hk. by apply list_elem_of_fmap_2.
Qed.

(** A collection whose listing does not panic and whose statistics are there panics exactly
    if some label is not valid UTF-8, and otherwise exports exactly the current containers:
    every gauge has one series per label set of the local containers, stamped with this
    host, and of the remote ones, carrying the last one's value; series of containers that
    are gone are gone; the last snapshot is kept unstamped. A collection that fails changes
    nothing. *)
Theorem collect_spec e x containers :
  ListRunningContainers e true = Some (Ok containers) ->
  match ContainerEngine.GetAllContainerStats e containers with
  | Err _ => collect e x = Some x
  | Ok stats =>
      (collect e x = None <-> exists m, m ∈ allStats x stats /\ valid_labels (series m) = false) /\
      forall x', collect e x = Some x' -> GetLastStats x' = stats /\
        forall k, match last (filter (fun s => series s = k) (allStats x stats)) with
          | Some m => shows (ex_gauges x') k m
          | None => hides (ex_gauges x') k
          end
  end.
Proof.
  intros Hl. unfold collect. rewrite Hl. cbn [mbind option_bind].
  destruct (ContainerEngine.GetAllContainerStats e containers) as [stats|]; [|done].
  rewrite setGauges_all. split.
  - transitivity (forallb (fun s => valid_labels (labelsOf s)) (allStats x stats) = false); [by case_match|].
    setoid_rewrite series_labels. induction (allStats x stats) as [|s l IH]; cbn [forallb]; [set_solver|].
    rewrite andb_false_iff, IH. set_unfold. naive_solver.
  - intros x'. case_match; [|done]. intros [= <-]. split; [done|]. intros k. cbn [ex_gauges].
    rewrite (list_filter_iff _ (fun s => labelsOf s = k)) by (intros s; by rewrite series_labels).
    apply setAll_shows.
Qed.
End engine.

(** ** Witnesses *)

(** A leader with a remote metric of an unnamed host. *)
Definition ex_exporter : Exporter :=
  NewExporter (Some [set_metrics_identity "r1" "remote" "img" zeroMetrics]) "leader"
    {| MetadataCacheHits := 0; MetadataCacheMisses := 0; ClusterPushDuration := 0;
       ClusterPushFailures := 0; MonitoredContainers := f64_zero |}.

Lemma collect_spec_witness :
  exists x', collect (Heng := inspect_engine) map_to_list ∅ ex_exporter = Some x' /\
    containerInfo (ex_gauges x') !! ("unknown", "r1", "remote", "img") = Some (f64_of_Z 1).
Proof.
  destruct (collect_spec (Heng := inspect_engine) map_to_list ∅ ex_exporter [] eq_refl) as [_ H].
  assert (exists x', collect (Heng := inspect_engine) map_to_list ∅ ex_exporter = Some x') as [x' Hx] by (eexists; reflexivity).
  exists x'. split; [exact Hx|]. destruct (H x' Hx) as [_ Hk].
  destruct (Hk ("unknown", "r1", "remote", "img")) as (_ & _ & _ & _ & _ & _ & _ & _ & Hc). exact Hc.
Defined.

(** A byte that is not UTF-8 in the host's identifier panics. *)
Example invalid_host_panics :
  collect (Heng := metrics_engine) map_to_list {["c1" := zeroMetrics]}
    (NewExporter None (String (Ascii.ascii_of_nat 255) "") (ex_internal ex_exporter)) = None.
Proof. vm_compute. reflexivity. Qed.
