(* ===== verification/ExporterServer.v ===== *)
(** * The exporter's server and loop ([internal/metrics/prometheus.go])

    The registration of the gauges ([NewExporter]), the routes of the HTTP server and the
    periodic collection ([Start]).  The Prometheus registry is the class [Registerer], the
    handler that renders it the class [PromHTTP]; a leader's receiver is that of
    [Receiver]. *)
From S2P Require Import Prelude.
From S2P Require Import GoStrings.
From S2P Require Import GoFloat.
From S2P Require Import GoTime.
From S2P Require Import Models.
From S2P Require Import InternalMetrics.
From S2P Require Import DockerTypes.
From S2P Require Import ContainerEngine.
From S2P Require Import Crypto.
From S2P Require Import MemoryStore.
From S2P Require Import Receiver.
From S2P Require Import Exporter.

(** ** Registration *)

Record GaugeOpts := mkGaugeOpts {
  go_Namespace : string;
  go_Subsystem : string;
  go_Name : string;
  go_Help : string
}.

#[export] Instance GaugeOpts_eq_dec : EqDecision GaugeOpts.
Proof. solve_decision. Defined.

Definition containerLabels : list string := ["host_id"; "container_id"; "container_name"; "image"].

Definition gauge_opts (name help : string) : GaugeOpts := {|
  go_Namespace := "castle_rock"; go_Subsystem := "container"; go_Name := name; go_Help := help |}.

(** The list [metricsList] of [NewExporter]. *)
Definition metricsList : list GaugeOpts := [
  gauge_opts "cpu_percent" "CPU usage percentage of the container";
  gauge_opts "memory_usage_bytes" "Memory usage of the container in bytes";
  gauge_opts "memory_limit_bytes" "Memory limit of the container in bytes";
  gauge_opts "memory_percent" "Memory usage percentage of the container";
  gauge_opts "network_rx_bytes" "Total bytes received over the network";
  gauge_opts "network_tx_bytes" "Total bytes transmitted over the network";
  gauge_opts "block_read_bytes" "Total bytes read from disk";
  gauge_opts "block_write_bytes" "Total bytes written to disk";
  gauge_opts "info" "Container info (value always 1, metadata in labels)"].

(** [prometheus.BuildFQName]. *)
Definition fqName (o : GaugeOpts) : string :=
  go_Namespace o +:+ "_" +:+ go_Subsystem o +:+ "_" +:+ go_Name o.

Inductive RegisterResult :=
  | Registered
  | AlreadyRegistered
  | RegisterError (e : error).

(** The default registry. *)
Class Registerer (Reg : Type) := {
  Register : GaugeOpts -> list string -> Reg -> RegisterResult * Reg
}.

Section registration.
Context {Reg : Type} `{Hreg : Registerer Reg}.

(** The registrations of [NewExporter], with the warnings it logs. *)
Definition register_all (reg : Reg) : list error * Reg :=
  foldl (fun '(warnings, reg) o =>
    let '(r, reg') := Register o containerLabels reg in
    (match r with RegisterError e => warnings ++ [e] | Registered | AlreadyRegistered => warnings end, reg'))
  ([], reg) metricsList.
End registration.

(** ** The routes *)

(** Rendering the registered metrics ([promhttp.Handler()]). *)
Class PromHTTP := { promhttp_Handler : Gauges -> Request -> Response }.

(** The handlers [Start] mounts. *)
Inductive Handler :=
  | PromHandler
  | HealthHandler
  | ReceiverHandler (r : Receiver).

Definition mux (receiver : option Receiver) : list (string * Handler) :=
  [("/metrics", PromHandler); ("/health", HealthHandler)] ++
  match receiver with Some r => [("/api/v1/push", ReceiverHandler r)] | None => [] end.

(** The handler of a clean path: patterns without a trailing slash match exactly. *)
Definition route (m : list (string * Handler)) (path : string) : option Handler :=
  snd <$> find (fun p => bool_decide (p.1 = path)) m.

Section server.
Context {R S : Type} `{Hlib : CryptoLib R} `{Hcodec : Codec} `{Hstore : ClusterStore S} `{Hprom : PromHTTP}.

(** One request to the server: the response and the store. *)
Definition serve (receiver : option Receiver) (g : Gauges) (now : Time) (path : string) (req : Request) (s : S)
    : Response * S :=
  match route (mux receiver) path with
  | Some PromHandler => (promhttp_Handler g req, s)
  | Some HealthHandler =>
      ({| rs_Status := 200; rs_Body := "{" +:+ String (Ascii.ascii_of_nat 34) "status" +:+ String (Ascii.ascii_of_nat 34) ":" +:+
            String (Ascii.ascii_of_nat 34) "ok" +:+ String (Ascii.ascii_of_nat 34) "}" |}, s)
  | Some (ReceiverHandler r) => ServeHTTP r now req s
  | None => (http_error "404 page not found" 404, s)
  end.

(** Only an accepted push on a leader's endpoint changes the store: a request that changes
    it went to [/api/v1/push] of a leader and was acceptable to its receiver. *)
Theorem serve_changes_store receiver g now path req s :
  (serve receiver g now path req s).2 <> s ->
  path = "/api/v1/push" /\ exists r payload, receiver = Some r /\ acceptable r req payload /\
    (serve receiver g now path req s).2 = cs_UpdateHost now payload s.
Proof.
  unfold serve, route, mux. destruct (decide (path = "/metrics")) as [->|H1]; [done|].
  destruct (decide (path = "/health")) as [->|H2]; [done|].
  destruct receiver as [r|].
  - destruct (decide (path = "/api/v1/push")) as [->|H3].
    + cbn. intros Hne. split; [done|]. destruct (serve_cases r now req s) as [[p Hp]|(msg & status & E & _)].
      * exists r, p. split_and!; [done|done|]. change ((ServeHTTP r now req s).2 = cs_UpdateHost now p s).
        by rewrite (serve_accepted _ _ _ _ _ Hp).
      * change ((ServeHTTP r now req s).2 <> s) in Hne. by rewrite E in Hne.
    + cbn. by rewrite !bool_decide_eq_false_2 by congruence.
  - cbn. by rewrite !bool_decide_eq_false_2 by congruence.
Qed.
End server.

(** ** The collection loop *)

Section loop.
Context {Eng : Type} `{Heng : ContainerEngine Eng}.
Context (ordM : gmap string ContainerMetrics -> list (string * ContainerMetrics)).

(** What a collection finds: the engine and, for a leader, the metrics of the receiver. *)
Record Sight := mkSight { sg_engine : Eng; sg_remote : option (list ContainerMetrics) }.

Inductive LoopEvent :=
  | LoopTick (now : Sight)
  | LoopDone.

Definition see (sg : Sight) (x : Exporter) : Exporter := {|
  ex_hostID := ex_hostID x; ex_receiver := sg_remote sg; ex_gauges := ex_gauges x;
  ex_lastStats := ex_lastStats x; ex_internal := ex_internal x |}.

Definition collect_at (sg : Sight) (x : Exporter) : option Exporter := collect ordM (sg_engine sg) (see sg x).

(** The second goroutine of [Start]; [None] is a panic of a collection. *)
Fixpoint loop_from (evs : list LoopEvent) (x : Exporter) : option Exporter :=
  match evs with
  | [] | LoopDone :: _ => Some x
  | LoopTick sg :: evs' => x' ← collect_at sg x; loop_from evs' x'
  end.

Definition collection_loop (first : Sight) (evs : list LoopEvent) (x : Exporter) : option Exporter :=
  x' ← collect_at first x; loop_from evs x'.

(** The collections the loop makes. *)
Fixpoint sights (evs : list LoopEvent) : list Sight :=
  match evs with
  | LoopTick sg :: evs' => sg :: sights evs'
  | _ => []
  end.

(** The containers of a collection that succeeds. *)
Definition succeeds (sg : Sight) : option (list ContainerInfo * gmap string ContainerMetrics) :=
  match ListRunningContainers (sg_engine sg) true with
  | Some (Ok containers) =>
      match ContainerEngine.GetAllContainerStats (sg_engine sg) containers with
      | Ok stats => Some (containers, stats)
      | Err _ => None
      end
  | _ => None
  end.

(** The gauges after a successful collection. *)
Definition shown (hostID : string) (sg : Sight) (stats : gmap string ContainerMetrics) : Gauges :=
  setAll
    (((fun kv => set_metrics_host hostID kv.2) <$> ordM stats) ++ default [] (sg_remote sg)).

Lemma collect_at_cases sg x x' :
  collect_at sg x = Some x' ->
  ex_hostID x' = ex_hostID x /\
  match succeeds sg with
  | Some (_, stats) => ex_gauges x' = shown (ex_hostID x) sg stats /\ GetLastStats x' = stats
  | None => ex_gauges x' = ex_gauges x /\ GetLastStats x' = GetLastStats x
  end.
Proof.
  unfold collect_at, collect, succeeds. destruct (ListRunningContainers _ true) as [[cs|]|]; [|by intros [= <-]|done].
  cbn [mbind option_bind]. destruct (ContainerEngine.GetAllContainerStats _ cs) as [stats|]; [|by intros [= <-]].
  rewrite setGauges_all. destruct (forallb _ _); [|done]. intros [= <-].
  split; [done|]. split; [|done]. unfold shown, allStats. cbn. by destruct (sg_remote sg).
Qed.

Lemma loop_from_sights evs x : loop_from evs x = foldl (fun o sg => o ≫= collect_at sg) (Some x) (sights evs).
Proof.
  revert x; induction evs as [|[sg|] evs IH]; intros x; [done| |done]. cbn.
  destruct (collect_at sg x) as [x'|]; cbn; [apply IH|].
  clear IH. generalize (sights evs). intros l. by induction l.
Qed.

(** C32. What is exported depends on the last successful collection only. After any run of
    the collection loop that did not panic, with its failed collections and whatever was
    exported before, the gauges show exactly what the last collection that succeeded
    found, and the snapshot is its; if none succeeded nothing has changed. *)
Theorem exports_last_success first evs x x' :
  collection_loop first evs x = Some x' ->
  match last (omap (fun sg => pair sg <$> succeeds sg) (first :: sights evs)) with
  | Some (sg, (_, stats)) => ex_gauges x' = shown (ex_hostID x) sg stats /\ GetLastStats x' = stats
  | None => ex_gauges x' = ex_gauges x /\ GetLastStats x' = GetLastStats x
  end.
Proof.
  unfold collection_loop. intros H.
  assert (foldl (fun o sg => o ≫= collect_at sg) (Some x) (first :: sights evs) = Some x') as Hf.
  { cbn [foldl mbind option_bind]. destruct (collect_at first x) as [x1|]; [|done]. by rewrite <-loop_from_sights. }
  clear H. enough (ex_hostID x' = ex_hostID x /\
    match last (omap (fun sg => pair sg <$> succeeds sg) (first :: sights evs)) with
    | Some (sg, (_, stats)) => ex_gauges x' = shown (ex_hostID x) sg stats /\ GetLastStats x' = stats
    | None => ex_gauges x' = ex_gauges x /\ GetLastStats x' = GetLastStats x
    end) by tauto.
  revert x' Hf. generalize (first :: sights evs). clear first evs.
  induction l as [|sg l IH] using rev_ind; intros x'; [by intros [= <-]|].
  rewrite foldl_app. cbn [foldl].
  destruct (foldl _ (Some x) l) as [x1|]; [|done]. cbn [mbind option_bind]. intros E.
  destruct (IH x1 eq_refl) as [Hh H1]. apply collect_at_cases in E as [Hh' H2]. split; [congruence|].
  rewrite omap_app, last_app. cbn [omap list_omap]. destruct (succeeds sg) as [[cs stats]|]; cbn.
  - by rewrite <-Hh.
  - destruct H2 as [-> ->]. by destruct (last _) as [[? [? ?]]|].
Qed.
End loop.

(** ** Witnesses *)

(** A leader whose receiver brings a remote metric, then none. *)
Definition ex_sight (remote : option (list ContainerMetrics)) : Sight (Eng := gmap string ContainerJSON) := {|
  sg_engine := ∅; sg_remote := remote |}.

Definition ex_remote : list ContainerMetrics := [set_metrics_identity "r1" "remote" "img" zeroMetrics].

Lemma exports_last_success_witness :
  exists x', collection_loop (Heng := inspect_engine) map_to_list (ex_sight (Some ex_remote))
      [LoopTick (ex_sight None); LoopDone; LoopTick (ex_sight (Some ex_remote))] ex_exporter = Some x' /\
    ex_gauges x' = resetGauges.
Proof.
  assert (exists x', collection_loop (Heng := inspect_engine) map_to_list (ex_sight (Some ex_remote))
      [LoopTick (ex_sight None); LoopDone; LoopTick (ex_sight (Some ex_remote))] ex_exporter = Some x') as [x' E]
    by (eexists; reflexivity).
  exists x'. split; [exact E|]. apply (exports_last_success (Heng := inspect_engine) map_to_list _ _ _ _ E).
Defined.

Definition no_prom : PromHTTP := {| promhttp_Handler := fun _ _ => {| rs_Status := 200; rs_Body := "" |} |}.

(** Distinct names, so that registering them all in a fresh registry succeeds. *)
Example metric_names_distinct : NoDup (fqName <$> metricsList).
Proof. apply (bool_decide_unpack _). vm_compute. exact I. Qed.

Example first_metric : fqName <$> head metricsList = Some "castle_rock_container_cpu_percent".
Proof. reflexivity. Qed.
