(* ===== verification/Fleet.v ===== *)
(** * The cluster as a whole: workers, leader and exporter

    Workers whose loops push to a leader ([Sender], [SenderLoop]), the leader's server
    ([ExporterServer], [Receiver]) with any other request that reaches it, and the
    leader's collections ([Exporter]), interleaved in any order.  The network between
    them loses requests and answers as it likes, and carries headers as [Cluster] says.
    The theorems are over any store with its laws, run inside a store that writes down the
    updates the receiver makes of it ([logged]): what is accepted is what [ServeHTTP] does. *)
From S2P Require Import Prelude.
From S2P Require Import GoStrings.
From S2P Require Import GoFloat.
From S2P Require Import GoTime.
From S2P Require Import Models.
From S2P Require Import GoUtf8.
From S2P Require Import PayloadJson.
From S2P Require Import Config.
From S2P Require Import InternalMetrics.
From S2P Require Import Logger.
From S2P Require Import DockerTypes.
From S2P Require Import ContainerEngine.
From S2P Require Import Crypto.
From S2P Require Import MemoryStore.
From S2P Require Import Receiver.
From S2P Require Import Discovery.
From S2P Require Import Sender.
From S2P Require Import SenderLoop.
From S2P Require Import Cluster.
From S2P Require Import Exporter.
From S2P Require Import ExporterServer.

(** ** The network *)

(** What happens to an attempt: it reaches its server at a time, and is answered or not, or
    it is lost. *)
Inductive Fate :=
  | Reached (t : Time) (answered : bool)
  | Lost.

(** The leader's store and the fates of the attempts to come. *)
Record Net (S : Type) := mkNet {
  nt_store : S;
  nt_script : list Fate
}.
Arguments mkNet {S}.
Arguments nt_store {S}.
Arguments nt_script {S}.

(** A worker: its configuration and its loop's state but for the network. *)
Record Worker (R : Type) := mkWorker {
  wk_cfg : ClusterConfig;
  wk_url : string;
  wk_rand : R;
  wk_metrics : InternalMetrics
}.
Arguments mkWorker {R}.
Arguments wk_cfg {R}.
Arguments wk_url {R}.
Arguments wk_rand {R}.
Arguments wk_metrics {R}.

Record Fleet (R S : Type) := mkFleet {
  fl_store : S;
  fl_exporter : Exporter;
  fl_workers : gmap string (Worker R)
}.
Arguments mkFleet {R S}.
Arguments fl_store {R S}.
Arguments fl_exporter {R S}.
Arguments fl_workers {R S}.

(** A tick of a worker, with the fates of its attempts; a request from elsewhere; a
    collection of the leader, which runs the engine [e] itself. *)
Inductive FleetEvent (E : Type) :=
  | WorkerTick (w : string) (i : TickInput E) (fates : list Fate)
  | Outside (t : Time) (path : string) (req : Request)
  | Collection (now : Time) (e : E).
Arguments WorkerTick {E}.
Arguments Outside {E}.
Arguments Collection {E}.

Section fleet.
Context {R S E : Type} `{Hlib : CryptoLib R} `{Hcodec : Codec} `{Hstore : ClusterStore S}
  `{Hprom : PromHTTP} `{Heng : ContainerEngine E}.
Context (ordM : gmap string ContainerMetrics -> list (string * ContainerMetrics)).
Context (rc : Receiver).
(** Which URLs [http.NewRequest] accepts, and the path on the leader's server a URL leads
    to, if it leads there. *)
Context (url_valid : string -> bool) (leader_path : string -> option string).

(** The request [req] served by the leader at time [t]. *)
Definition deliver (g : Gauges) (t : Time) (path : string) (req : Request) (n : Net S) : Response * Net S :=
  let '(resp, s) := serve (Some rc) g t path req (nt_store n) in (resp, mkNet s (nt_script n)).

Definition network (g : Gauges) : HttpClient (Net S) := {|
  http_NewRequest := url_valid;
  http_Do := fun url req n =>
    match wire_request req with
    | None => (Err "net/http: invalid header field value", n)
    | Some req =>
        match leader_path url, nt_script n with
        | None, _ => (Err "connection refused", n)
        | Some path, Reached t answered :: fates =>
            let '(resp, n') := deliver g t path req (mkNet (nt_store n) fates) in
            (if answered then Ok (rs_Status resp) else Err "context deadline exceeded", n')
        | Some _, Lost :: fates => (Err "connection reset", mkNet (nt_store n) fates)
        | Some _, [] => (Err "connection reset", n)
        end
    end
|}.

Definition fleet_step (f : Fleet R S) (ev : FleetEvent E) : option (Fleet R S) :=
  match ev with
  | WorkerTick w i fates =>
      match fl_workers f !! w with
      | None => Some f
      | Some wk =>
          '(_, _, s) ← sender_step (Hhttp := network (ex_gauges (fl_exporter f))) ordM (wk_cfg wk) i
            (mkSenderState (wk_url wk) (mkNet (fl_store f) fates) (wk_rand wk) (wk_metrics wk));
          Some (mkFleet (nt_store (ss_http s)) (fl_exporter f)
            (<[w := mkWorker (wk_cfg wk) (ss_url s) (ss_rand s) (ss_metrics s)]> (fl_workers f)))
      end
  | Outside t path req =>
      let n := (deliver (ex_gauges (fl_exporter f)) t path req (mkNet (fl_store f) [])).2 in
      Some (mkFleet (nt_store n) (fl_exporter f) (fl_workers f))
  | Collection now e =>
      x ← collect_at ordM (mkSight e (Some (Receiver_GetAllMetrics now (fl_store f)))) (fl_exporter f);
      Some (mkFleet (fl_store f) x (fl_workers f))
  end.

Definition fleet_run (evs : list (FleetEvent E)) (f : Fleet R S) : option (Fleet R S) :=
  foldl (fun o ev => f ← o; fleet_step f ev) (Some f) evs.

Lemma fleet_run_snoc evs ev f : fleet_run (evs ++ [ev]) f = (f' ← fleet_run evs f; fleet_step f' ev).
Proof. unfold fleet_run. by rewrite foldl_app. Qed.

(** An invariant of the steps is one of the runs. *)
Lemma fleet_run_keeps (P : Fleet R S -> Prop) evs f f' :
  (forall f ev f', ev ∈ evs -> P f -> fleet_step f ev = Some f' -> P f') ->
  P f -> fleet_run evs f = Some f' -> P f'.
Proof.
  revert f'; induction evs as [|ev evs IH] using rev_ind; intros f' Hstep Hf; [by intros [= <-]|].
  rewrite fleet_run_snoc. destruct (fleet_run evs f) as [f1|]; [|done]. cbn. apply Hstep.
  - apply elem_of_app. right. left.
  - apply IH; [|done|done]. intros f2 ev2 f3 Hin. apply Hstep. apply elem_of_app. by left.
Qed.

(** *** What a tick keeps *)

Lemma route_receiver path r : route (mux (Some rc)) path = Some (ReceiverHandler r) -> r = rc.
Proof.
  unfold route, mux. destruct (find _ _) as [p|] eqn:Ef; [|done]. apply find_some in Ef as [Hin _].
  cbn. intros [= E']. destruct Hin as [<- | [<- | [<- | []]]]; cbn in E'; congruence.
Qed.

(** A delivered request is accepted and stored, or changes nothing. *)
Lemma deliver_cases g t path req n :
  (exists p, acceptable rc req p /\ (deliver g t path req n).2 = mkNet (cs_UpdateHost t p (nt_store n)) (nt_script n)) \/
  (deliver g t path req n).2 = n.
Proof.
  unfold deliver, serve. destruct n as [s sc]. cbn [nt_store nt_script].
  destruct (route (mux (Some rc)) path) as [[| |r]|] eqn:Er; cbn [snd]; [by right..| |by right].
  apply route_receiver in Er as ->. destruct (serve_cases rc t req s) as [[p Hp]|(msg & status & -> & _)]; [left|by right].
  exists p. split; [done|]. by rewrite (serve_accepted rc t req s p Hp).
Qed.

(** What every delivery of an acceptable request keeps, a request keeps. *)
Lemma network_keeps g (P : S -> Prop) url req n :
  (forall req' t p s, wire_request req = Some req' -> acceptable rc req' p -> (exists b, Reached t b ∈ nt_script n) ->
     P s -> P (cs_UpdateHost t p s)) ->
  P (nt_store n) ->
  let n' := (http_Do (HttpClient := network g) url req n).2 in P (nt_store n') /\ nt_script n' ⊆ nt_script n.
Proof.
  intros Hp Hn. cbn. destruct (wire_request req) as [req'|] eqn:Ew; [|done]. destruct (leader_path url) as [path|]; [|done].
  destruct (nt_script n) as [|[t answered|] fates] eqn:Esc; cbn; [by rewrite Esc| |by split; [|set_solver]].
  pose proof (deliver_cases g t path req' (mkNet (nt_store n) fates)) as Hc.
  destruct (deliver g t path req' _) as [resp n']. cbn [snd] in *. destruct Hc as [(p & Hacc & ->)| ->]; cbn.
  - split; [|set_solver]. apply (Hp req'); [done|done| |done]. exists answered. left.
  - split; [done|set_solver].
Qed.

Lemma tick_keeps g (P : S -> Prop) cfg i s u res s' :
  sender_step (Hhttp := network g) ordM cfg i s = Some (u, res, s') ->
  (forall payload data enc r r' req t p st, collected ordM cfg (ti_engine i) = Some payload ->
     prepare payload (cluster_SharedSecret cfg) r = (Ok (data, enc), r') ->
     wire_request (push_request enc (cluster_AuthToken cfg) (gzip_Write data)) = Some req ->
     acceptable rc req p -> (exists b, Reached t b ∈ nt_script (ss_http s)) -> P st -> P (cs_UpdateHost t p st)) ->
  P (nt_store (ss_http s)) -> P (nt_store (ss_http s')).
Proof.
  intros Hstep Hp Hs. apply sender_step_http in Hstep as [-> | (url & payload & m & Hc & ->)]; [done|].
  enough (P (nt_store (sr_http (sendPushPayload (Hhttp := network g) url (cluster_SharedSecret cfg) (cluster_AuthToken cfg) payload
      (ti_cancelled i) (ss_http s) (ss_rand s) m))) /\
    nt_script (sr_http (sendPushPayload (Hhttp := network g) url (cluster_SharedSecret cfg) (cluster_AuthToken cfg) payload
      (ti_cancelled i) (ss_http s) (ss_rand s) m)) ⊆ nt_script (ss_http s)) by tauto.
  apply (sendPushPayload_keeps (Hhttp := network g) (fun n => P (nt_store n) /\ nt_script n ⊆ nt_script (ss_http s))); [|done].
  intros data enc r' Hprep n [Hn Hsub].
  destruct (network_keeps g P url (push_request enc (cluster_AuthToken cfg) (gzip_Write data)) n) as [H1 H2]; [|done|].
  - intros req t p st Hw Hacc [b Hb]. eapply Hp; [done..|]. exists b. by apply Hsub.
  - split; [done|]. set_solver.
Qed.

(** What every update of an acceptable request keeps, a step keeps. *)
Lemma fleet_step_keeps (P : S -> Prop) f ev f' :
  (forall t p st, P st -> P (cs_UpdateHost t p st)) -> P (fl_store f) -> fleet_step f ev = Some f' -> P (fl_store f').
Proof.
  intros Hp Hf. destruct ev as [w i fates|t path req|now e]; cbn [fleet_step].
  - destruct (fl_workers f !! w) as [wk|]; [|by intros [= <-]].
    destruct (sender_step _ _ _ _) as [[[u res] s]|] eqn:Es; [|done]. cbn. intros [= <-]. cbn.
    eapply (tick_keeps _ P); [exact Es| |exact Hf]. intros; by apply Hp.
  - intros [= <-]. cbn [fl_store].
    destruct (deliver_cases (ex_gauges (fl_exporter f)) t path req (mkNet (fl_store f) []))
      as [(p & _ & ->)| ->]; [by apply Hp|done].
  - destruct (collect_at _ _ _) as [x|]; [|done]. cbn. by intros [= <-].
Qed.

(** The workers' configurations, which stay. *)
Definition workers_of (cfgs : gmap string ClusterConfig) (ws : gmap string (Worker R)) : Prop :=
  wk_cfg <$> ws = cfgs.

Definition shares_secret (cfg : ClusterConfig) : Prop :=
  cluster_SharedSecret cfg = rc_sharedSecret rc /\ cluster_AuthToken cfg = rc_token rc.

Lemma worker_cfg (f : Fleet R S) cfgs w wk : workers_of cfgs (fl_workers f) -> fl_workers f !! w = Some wk -> cfgs !! w = Some (wk_cfg wk).
Proof. intros <- Hw. by rewrite lookup_fmap, Hw. Qed.

Lemma fleet_step_workers cfgs (f : Fleet R S) ev f' :
  workers_of cfgs (fl_workers f) -> fleet_step f ev = Some f' -> workers_of cfgs (fl_workers f').
Proof.
  intros Hw. destruct ev as [w i fates|t path req|now e]; cbn [fleet_step].
  - destruct (fl_workers f !! w) as [wk|] eqn:Ewk; [|by intros [= <-]].
    destruct (sender_step _ _ _ _) as [[[u res] s]|]; [|done]. cbn. intros [= <-]. unfold workers_of in *.
    cbn [fl_workers]. rewrite fmap_insert, Hw. apply insert_id. cbn. by eapply worker_cfg.
  - by intros [= <-].
  - destruct (collect_at _ _ _); [|done]. cbn. by intros [= <-].
Qed.

(** An engine reports metrics of their Go types. *)
Definition engine_typed (e : E) : Prop :=
  forall containers stats, ContainerEngine.GetAllContainerStats e containers = Ok stats ->
    map_Forall (fun _ m => metrics_typed m) stats.

Lemma collected_typed cfg e p :
  (forall m, range_of m (ordM m)) -> engine_typed e -> collected ordM cfg e = Some p -> payload_typed p.
Proof.
  intros Hord He. unfold collected. destruct (ListRunningContainers e true) as [[cs|]|]; [|done..].
  destruct (ContainerEngine.GetAllContainerStats e cs) as [stats|] eqn:Est; [|done]. intros [= <-].
  unfold payload_typed, tick_payload. cbn [pp_Metrics]. apply Forall_fmap, Forall_forall. intros [k m] Hin.
  rewrite (Hord stats) in Hin. apply elem_of_map_to_list in Hin. specialize (He _ _ Est _ _ Hin).
  by destruct He.
Qed.

(** *** A push that gets through *)

(** Lost attempts, then one that is served and answered. *)
Definition gets_through (fates : list Fate) (k : nat) (t : Time) : Prop :=
  exists rest, fates = replicate k Lost ++ Reached t true :: rest.

Lemma push_loop_gets_through g url req req' cancelled payload t k : forall left i b n,
  url_valid url = true -> leader_path url = Some "/api/v1/push" -> wire_request req = Some req' -> acceptable rc req' payload ->
  (k <= left)%nat -> (forall j, (j < k)%nat -> cancelled (i + j)%nat = false) -> gets_through (nt_script n) k t ->
  let '(o, _, n') := push_loop (Hhttp := network g) left url req cancelled i b n in
  o = Sent /\ nt_store n' = cs_UpdateHost t payload (nt_store n).
Proof.
  induction k as [|k IH]; intros left i b [st sc] Hv Hp Hw Ha Hk Hc [rest Hsc]; cbn [nt_script] in Hsc; subst sc.
  - assert (attempt (Hhttp := network g) url req (mkNet st ([Reached t true] ++ rest)) =
      (true, mkNet (cs_UpdateHost t payload st) rest)) as Hat.
    { unfold attempt, network, deliver. cbn. rewrite Hv, Hp, Hw. unfold serve.
      change (route (mux (Some rc)) "/api/v1/push") with (Some (ReceiverHandler rc)). cbn beta iota.
      by rewrite (serve_accepted rc t req' st payload). }
    cbn [replicate app] in *. destruct left as [|left]; cbn [push_loop]; rewrite Hat; by split_and!.
  - destruct left as [|left]; [lia|]. cbn [push_loop replicate app].
    assert (attempt (Hhttp := network g) url req (mkNet st (Lost :: replicate k Lost ++ Reached t true :: rest)) =
      (false, mkNet st (replicate k Lost ++ Reached t true :: rest))) as Hat.
    { unfold attempt, network. cbn. by rewrite Hv, Hp, Hw. }
    rewrite Hat. pose proof (Hc O ltac:(lia)) as Hc0. rewrite Nat.add_0_r in Hc0. rewrite Hc0.
    specialize (IH left (Datatypes.S i) (b * 2) (mkNet st (replicate k Lost ++ Reached t true :: rest)) Hv Hp Hw Ha ltac:(lia)).
    destruct (push_loop left url req cancelled (Datatypes.S i) (b * 2) _) as [[o evs] n'].
    apply IH; [|by exists rest]. intros j Hj. replace (Datatypes.S i + j)%nat with (i + Datatypes.S j)%nat by lia. apply Hc. lia.
Qed.

Hypothesis Hgcm : gcm_laws R.
(** Decompression inverts compression. *)
Hypothesis Hgzip : forall data, gzip_Read (gzip_Write data) = Ok data.

(** A push that gets through is accepted, once. *)
Lemma push_gets_through g url payload cancelled n r m k t data enc r' :
  url_valid url = true -> leader_path url = Some "/api/v1/push" -> token_survives (rc_token rc) ->
  payload_typed payload -> pp_HostID payload <> "" ->
  prepare payload (rc_sharedSecret rc) r = (Ok (data, enc), r') -> Z.of_nat (String.length (gzip_Write data)) <= maxBody ->
  (k <= 3)%nat -> (forall j, (j < k)%nat -> cancelled j = false) -> gets_through (nt_script n) k t ->
  let n' := sr_http (sendPushPayload (Hhttp := network g) url (rc_sharedSecret rc) (rc_token rc) payload cancelled n r m) in
  nt_store n' = cs_UpdateHost t (sanitize_payload payload) (nt_store n).
Proof.
  intros Hv Hp Htok Ht Hh Hprep Hl Hk Hc Hg. cbn zeta. unfold sendPushPayload. rewrite Hprep.
  destruct (wire_push_valid enc (rc_token rc) (gzip_Write data) Htok) as (req & Hw & Hauth).
  destruct (wire_push _ _ _ _ Hw) as [Harr _].
  pose proof (prepared_acceptable rc Hgcm Hgzip _ _ _ _ _ _ Hprep Ht Hh Hl Harr Hauth) as Ha.
  pose proof (push_loop_gets_through g url _ req cancelled (sanitize_payload payload) t k
    maxRetries O Second n Hv Hp Hw Ha Hk Hc Hg) as Hs.
  destruct (push_loop _ _ _ _ _ _ n) as [[o evs] n']. cbn. tauto.
Qed.

(** A tick whose push gets through. *)
Lemma tick_gets_through f w wk i fates k t payload data enc r' f1 :
  (forall m, range_of m (ordM m)) ->
  fl_workers f !! w = Some wk -> shares_secret (wk_cfg wk) -> token_survives (rc_token rc) ->
  wk_url wk <> "" -> url_valid (wk_url wk) = true -> leader_path (wk_url wk) = Some "/api/v1/push" ->
  engine_typed (ti_engine i) -> collected ordM (wk_cfg wk) (ti_engine i) = Some payload -> pp_HostID payload <> "" ->
  prepare payload (rc_sharedSecret rc) (wk_rand wk) = (Ok (data, enc), r') ->
  Z.of_nat (String.length (gzip_Write data)) <= maxBody ->
  (k <= 3)%nat -> (forall j, (j < k)%nat -> ti_cancelled i j = false) -> gets_through fates k t ->
  fleet_step f (WorkerTick w i fates) = Some f1 ->
  fl_store f1 = cs_UpdateHost t (sanitize_payload payload) (fl_store f).
Proof.
  intros Hord Hwk [Hs1 Hs2] Htok Hu Hv Hp He Hc Hh Hprep Hl Hk Hcan Hg Hstep. cbn [fleet_step] in Hstep. rewrite Hwk in Hstep.
  destruct (sender_step_pushes (Hhttp := network (ex_gauges (fl_exporter f))) ordM (wk_cfg wk) i
    (mkSenderState (wk_url wk) (mkNet (fl_store f) fates) (wk_rand wk) (wk_metrics wk)) payload Hu Hc)
    as (p & Ep & Es). rewrite Es in Hstep. cbn in Hstep. injection Hstep as <-. cbn [fl_store].
  cbn [ss_url ss_http ss_rand ss_metrics] in Ep. rewrite Hs1, Hs2 in Ep. rewrite Ep.
  exact (push_gets_through (ex_gauges (fl_exporter f)) (wk_url wk) payload (ti_cancelled i)
    (mkNet (fl_store f) fates) (wk_rand wk) (wk_metrics wk) k t data enc r' Hv Hp Htok
    (collected_typed _ _ _ Hord He Hc) Hh Hprep Hl Hk Hcan Hg).
Qed.
End fleet.

(** ** The updates of the store

    A store that writes down the updates that are made of it, with their times.  The
    receiver, which works with any store, makes them as it makes those of the store inside. *)
Definition logged {S} `{Hstore : ClusterStore S} : ClusterStore (S * list (Time * PushPayload)) := {|
  cs_UpdateHost := fun t p s => (cs_UpdateHost t p s.1, s.2 ++ [(t, p)]);
  cs_GetAllMetrics := fun t s => cs_GetAllMetrics t s.1;
  cs_GetAllContainers := fun t s => cs_GetAllContainers t s.1
|}.

Section leader.
Context {R S E : Type} `{Hlib : CryptoLib R} `{Hcodec : Codec} `{Hstore : ClusterStore S} `{Hlaws : !ClusterStoreLaws S}
  `{Hprom : PromHTTP} `{Heng : ContainerEngine E}.
#[local] Existing Instance logged.
Context (ordM : gmap string ContainerMetrics -> list (string * ContainerMetrics)).
Context (Hord : forall m, range_of m (ordM m)).
Context (rc : Receiver) (url_valid : string -> bool) (leader_path : string -> option string).

Notation step := (fleet_step ordM rc url_valid leader_path).
Notation runs := (fleet_run ordM rc url_valid leader_path).
Notation LoggedFleet := (Fleet R (S * list (Time * PushPayload))).

(** The updates so far, oldest first. *)
Definition updates (f : LoggedFleet) : list (Time * PushPayload) := (fl_store f).2.

(** A cluster at its start. *)
Definition fresh_fleet (x : Exporter) (ws : gmap string (Worker R)) : LoggedFleet := mkFleet (cs_empty, []) x ws.

(** The store holds the last update of each host. *)
Definition store_holds (s : S * list (Time * PushPayload)) : Prop := cs_holds s.1 (flat_after s.2).

Lemma run_holds evs x ws f : runs evs (fresh_fleet x ws) = Some f -> store_holds (fl_store f).
Proof.
  apply (fleet_run_keeps _ _ _ _ (fun f => store_holds (fl_store f))); [|exact cs_holds_empty].
  intros f1 ev f2 _ Hf. apply fleet_step_keeps; [|exact Hf].
  intros t p [st l] Hh. unfold store_holds in *. cbn in *. rewrite flat_after_snoc. by apply cs_holds_update.
Qed.

(** The updates only grow. *)
Lemma run_updates evs f f' : runs evs f = Some f' -> exists later, updates f' = updates f ++ later.
Proof.
  apply (fleet_run_keeps _ _ _ _ (fun f' => exists later, updates f' = updates f ++ later)); [|exists []; by rewrite app_nil_r].
  intros f1 ev f2 _ Hf. apply (fleet_step_keeps _ _ _ _ (fun s => exists later, s.2 = updates f ++ later)); [|exact Hf].
  intros t p st [later Hl]. exists (later ++ [(t, p)]). cbn. by rewrite Hl, app_assoc.
Qed.

(** *** What the leader exports *)

(** The metrics a collection at [now] is to export: the local ones, and those of the last
    push of each host the store was updated with if it is at most thirty seconds old. *)
Definition exportable (f : LoggedFleet) (now : Time) (stats : gmap string ContainerMetrics) (m : ContainerMetrics) : Prop :=
  (exists id m0, stats !! id = Some m0 /\ m = set_metrics_host (ex_hostID (fl_exporter f)) m0) \/
  (exists before t p after, updates f = before ++ (t, p) :: after /\
     Forall (fun tp => pp_HostID tp.2 <> pp_HostID p) after /\ now - t <= 30 * Second /\ m ∈ pp_Metrics p).

Lemma elem_allStats f now stats m :
  store_holds (fl_store f) ->
  m ∈ ((fun kv => set_metrics_host (ex_hostID (fl_exporter f)) kv.2) <$> ordM stats) ++ cs_GetAllMetrics now (fl_store f).1 <->
  exportable f now stats m.
Proof.
  intros Hh. rewrite elem_of_app, (cs_metrics now _ _ Hh), elem_fresh, list_elem_of_fmap. unfold exportable.
  assert (forall kv : string * ContainerMetrics, kv ∈ ordM stats <-> stats !! kv.1 = Some kv.2) as Hin.
  { intros [k v]. rewrite (Hord stats). apply elem_of_map_to_list. }
  setoid_rewrite Hin. split; (intros [H|H]; [left|right; exact H]).
  - destruct H as ([k v] & -> & Hk). by exists k, v.
  - destruct H as (k & v & Hk & ->). by exists (k, v).
Qed.

(** A collection that succeeds shows the exportable metrics. *)
Lemma leader_shows evs x ws f now e f' containers stats :
  runs evs (fresh_fleet x ws) = Some f -> step f (Collection now e) = Some f' ->
  succeeds (mkSight e (Some [])) = Some (containers, stats) ->
  forall k, (exists m, exportable f now stats m /\ series m = k /\ shows (ex_gauges (fl_exporter f')) k m) \/
    ((forall m, exportable f now stats m -> series m <> k) /\ hides (ex_gauges (fl_exporter f')) k).
Proof.
  intros Hrun Hstep Hs k. pose proof (run_holds _ _ _ _ Hrun) as Hh.
  cbn [fleet_step] in Hstep. destruct (collect_at _ _ _) as [x'|] eqn:Ec; [|done]. cbn in Hstep. injection Hstep as <-.
  apply collect_at_cases in Ec as [_ Hc]. unfold succeeds in Hs, Hc. cbn [sg_engine] in Hs, Hc. rewrite Hs in Hc.
  destruct Hc as [Hg _]. cbn [fl_exporter]. rewrite Hg. unfold shown. cbn [sg_remote default from_option id].
  pose proof (elem_allStats f now stats) as Hel.
  match goal with |- context [setAll ?x] => set (l := x) end.
  assert (forall m, m ∈ l <-> exportable f now stats m) as Hl by (intros m; by apply Hel).
  setoid_rewrite <-Hl. apply setAll_series.
Qed.

(** C4. What the leader exports. In any interleaving of the workers' ticks, other requests and
    collections, over a network that loses requests and answers as it likes, after a
    collection that succeeds the nine gauges show exactly the leader's own containers and
    those of the last push its store was updated with from each host, if that is at most
    thirty seconds old: under any host, identifier, name and image either one of these
    metrics has them, and all nine series are there with the values of one such metric, or
    none has, and there is no such series. Nothing is lost, invented, mixed or kept by the
    sharded store, the receiver or the gauges. *)
Theorem fleet_exports evs x ws f now e f' containers stats :
  runs evs (fresh_fleet x ws) = Some f -> step f (Collection now e) = Some f' ->
  succeeds (mkSight e (Some [])) = Some (containers, stats) ->
  forall host id name image,
    let g := ex_gauges (fl_exporter f') in
    let k : Labels := (host, id, name, image) in
    let has m := (if decide (cm_HostID m = "") then "unknown" else cm_HostID m) = host /\
      cm_ContainerID m = id /\ cm_ContainerName m = name /\ cm_Image m = image in
    (exists m, exportable f now stats m /\ has m /\
       cpuPercent g !! k = Some (cm_CPUPercent m) /\
       memoryUsage g !! k = Some (f64_of_Z (cm_MemoryUsage m)) /\
       memoryLimit g !! k = Some (f64_of_Z (cm_MemoryLimit m)) /\
       memoryPercent g !! k = Some (cm_MemoryPercent m) /\
       networkRx g !! k = Some (f64_of_Z (cm_NetworkRx m)) /\
       networkTx g !! k = Some (f64_of_Z (cm_NetworkTx m)) /\
       blockRead g !! k = Some (f64_of_Z (cm_BlockRead m)) /\
       blockWrite g !! k = Some (f64_of_Z (cm_BlockWrite m)) /\
       containerInfo g !! k = Some (f64_of_Z 1)) \/
    ((forall m, exportable f now stats m -> ~ has m) /\
     cpuPercent g !! k = None /\ memoryUsage g !! k = None /\ memoryLimit g !! k = None /\
     memoryPercent g !! k = None /\ networkRx g !! k = None /\ networkTx g !! k = None /\
     blockRead g !! k = None /\ blockWrite g !! k = None /\ containerInfo g !! k = None).
Proof.
  intros Hrun Hstep Hs host id name image. cbn zeta.
  destruct (leader_shows _ _ _ _ _ _ _ _ _ Hrun Hstep Hs (host, id, name, image)) as [(m & Hm & Hk & H)|[Hno H]].
  - left. exists m. split; [done|]. unfold series in Hk. split; [by simplify_eq|exact H].
  - right. split; [|exact H]. intros m Hm (H1 & H2 & H3 & H4). apply (Hno m Hm). unfold series. congruence.
Qed.

(** *** Where the updates come from *)

Hypothesis Hgcm : gcm_laws R.
(** Decompression inverts compression. *)
Hypothesis Hgzip : forall data, gzip_Read (gzip_Write data) = Ok data.

(** The collection of a worker at a tick that reached the leader at [t]. *)
Definition collected_by (cfgs : gmap string ClusterConfig) (evs : list (FleetEvent E)) (t : Time) (p : PushPayload) : Prop :=
  exists w i fates b cfg payload, WorkerTick w i fates ∈ evs /\ Reached t b ∈ fates /\ cfgs !! w = Some cfg /\
    collected ordM cfg (ti_engine i) = Some payload /\ p = sanitize_payload payload.

Lemma collected_by_host cfgs evs t p :
  collected_by cfgs evs t p -> exists w cfg, cfgs !! w = Some cfg /\ pp_HostID p = sanitize (cluster_HostID cfg).
Proof.
  intros (w & i & fates & b & cfg & payload & _ & _ & Hcw & Hc & ->). exists w, cfg. split; [done|].
  unfold collected in Hc. destruct (ListRunningContainers _ true) as [[cs|]|]; [|done..].
  destruct (ContainerEngine.GetAllContainerStats _ cs); [|done]. by injection Hc as <-.
Qed.

(** Requests from elsewhere without the token, and engines that report what Go's types hold. *)
Definition no_token_outside (ev : FleetEvent E) : Prop :=
  match ev with
  | Outside _ _ req => header req "Authorization" <> "Bearer " +:+ rc_token rc
  | WorkerTick _ i _ => engine_typed (ti_engine i)
  | Collection _ _ => True
  end.

Lemma run_collected cfgs evs x ws f :
  workers_of cfgs ws -> rc_token rc <> "" -> map_Forall (fun _ => shares_secret rc) cfgs -> Forall no_token_outside evs ->
  runs evs (fresh_fleet x ws) = Some f -> Forall (fun tp => collected_by cfgs evs tp.1 tp.2) (updates f).
Proof.
  intros Hw Htok Hsec Hev Hrun.
  enough (workers_of cfgs (fl_workers f) /\ Forall (fun tp => collected_by cfgs evs tp.1 tp.2) (updates f)) by tauto.
  revert Hrun. apply (fleet_run_keeps _ _ _ _ (fun f => workers_of cfgs (fl_workers f) /\
    Forall (fun tp => collected_by cfgs evs tp.1 tp.2) (updates f))); [|by split].
  intros f1 ev f2 Hinev [Hw1 Hacc] Hstep. split; [by eapply fleet_step_workers|].
  rewrite Forall_forall in Hev. specialize (Hev ev Hinev). unfold updates in *.
  destruct ev as [w i fates|t' path req|now e]; cbn [fleet_step] in Hstep.
  - destruct (fl_workers f1 !! w) as [wk|] eqn:Ewk; [|by simplify_eq].
    destruct (sender_step _ _ _ _) as [[[u res] s]|] eqn:Es; [|done]. cbn in Hstep. injection Hstep as <-.
    pose proof (worker_cfg _ _ _ _ Hw1 Ewk) as Hcw. destruct (Hsec _ _ Hcw) as [Hs1 Hs2].
    refine (tick_keeps _ _ _ _ _ (fun st => Forall (fun tp => collected_by cfgs evs tp.1 tp.2) st.2) _ _ _ _ _ _ Es _ Hacc).
    intros payload data enc r r' req t1 p1 st Hc Hprep Hwire Hacp [b Hb] Hf. cbn. apply Forall_app. split; [done|].
    apply Forall_singleton. cbn. rewrite Hs1 in Hprep. destruct (wire_push _ _ _ _ Hwire) as [Harr _].
    exists w, i, fates, b, (wk_cfg wk), payload. split_and!; [done..|].
    eapply (prepared_payload rc Hgcm Hgzip); [exact Hprep| |exact Harr|exact Hacp]. by eapply collected_typed.
  - injection Hstep as <-. cbn [fl_store].
    destruct (deliver_cases rc (ex_gauges (fl_exporter f1)) t' path req (mkNet (fl_store f1) []))
      as [(p' & (_ & Ha & _) & _)| ->]; [|done]. by destruct (Hev (Ha Htok)).
  - destruct (collect_at _ _ _) as [x'|]; [|done]. cbn in Hstep. by injection Hstep as <-.
Qed.

(** C9. Only workers' data gets in. When the leader has a token, its workers share its secret
    and token, and no other request carries the token, every update the receiver ever makes
    of the leader's store is the collection of one of its workers at a tick of that worker,
    as that worker collected it then but for invalid bytes of its text, under the worker's
    host, whatever else arrives and whatever the network loses or the workers send again;
    so every metric and every container the store returns at any time is of such a
    collection. *)
Theorem fleet_only_workers cfgs evs x ws f :
  workers_of cfgs ws -> rc_token rc <> "" -> map_Forall (fun _ => shares_secret rc) cfgs ->
  Forall (fun ev => match ev with
    | Outside _ _ req => header req "Authorization" <> "Bearer " +:+ rc_token rc
    | WorkerTick _ i _ => engine_typed (ti_engine i)
    | Collection _ _ => True
    end) evs ->
  runs evs (fresh_fleet x ws) = Some f ->
  (forall t p, (t, p) ∈ updates f -> collected_by cfgs evs t p /\
     exists w cfg, cfgs !! w = Some cfg /\ pp_HostID p = sanitize (cluster_HostID cfg)) /\
  (forall now m, m ∈ cs_GetAllMetrics now (fl_store f).1 -> exists t p, collected_by cfgs evs t p /\ m ∈ pp_Metrics p) /\
  (forall now c, c ∈ cs_GetAllContainers now (fl_store f).1 -> exists t p, collected_by cfgs evs t p /\ c ∈ pp_Containers p).
Proof.
  intros Hw Htok Hsec Hev Hrun. pose proof (run_collected _ _ _ _ _ Hw Htok Hsec Hev Hrun) as Hall.
  rewrite Forall_forall in Hall. pose proof (run_holds _ _ _ _ Hrun) as Hh. split_and!.
  - intros t p Hin. specialize (Hall _ Hin). split; [exact Hall|]. by eapply collected_by_host.
  - intros now m Hm. rewrite (cs_metrics now _ _ Hh), elem_fresh in Hm. destruct Hm as (l1 & t & p & l2 & E' & _ & _ & Hm).
    exists t, p. split; [|done]. apply (Hall (t, p)). unfold updates. rewrite E'. apply elem_of_app. right. left.
  - intros now m Hm. rewrite (cs_containers now _ _ Hh), elem_fresh in Hm. destruct Hm as (l1 & t & p & l2 & E' & _ & _ & Hm).
    exists t, p. split; [|done]. apply (Hall (t, p)). unfold updates. rewrite E'. apply elem_of_app. right. left.
Qed.

(** *** What a worker measures is exported *)

(** C5. What a worker measures is exported. In any reachable state of the cluster, when a worker
    that knows the leader's push URL collects at a tick, its payload names its host, is
    finite and fits the limit, the shared token can travel in a header, and one of its up
    to four attempts gets through before the context ends, all before it being lost, then
    after any further events every container of that collection has its nine series, with
    the values of a metric that is to be exported, in what the leader collects within the
    thirty seconds that follow, unless the store has been updated since with another push
    under the same host. *)
Theorem fleet_delivers evs x ws f w wk i fates k t payload data enc r' f1 evs2 f2 now e f3 containers stats :
  runs evs (fresh_fleet x ws) = Some f ->
  fl_workers f !! w = Some wk -> shares_secret rc (wk_cfg wk) -> token_survives (rc_token rc) ->
  wk_url wk <> "" -> url_valid (wk_url wk) = true -> leader_path (wk_url wk) = Some "/api/v1/push" ->
  engine_typed (ti_engine i) -> collected ordM (wk_cfg wk) (ti_engine i) = Some payload -> pp_HostID payload <> "" ->
  prepare payload (rc_sharedSecret rc) (wk_rand wk) = (Ok (data, enc), r') ->
  Z.of_nat (String.length (gzip_Write data)) <= maxBody ->
  (k <= 3)%nat -> (forall j, (j < k)%nat -> ti_cancelled i j = false) -> gets_through fates k t ->
  step f (WorkerTick w i fates) = Some f1 ->
  runs evs2 f1 = Some f2 ->
  Forall (fun tp => pp_HostID tp.2 <> sanitize (pp_HostID payload)) (drop (length (updates f1)) (updates f2)) ->
  now - t <= 30 * Second -> succeeds (mkSight e (Some [])) = Some (containers, stats) ->
  step f2 (Collection now e) = Some f3 ->
  forall m, m ∈ pp_Metrics payload ->
    exportable f2 now stats (sanitize_metrics m) /\
    exists m', exportable f2 now stats m' /\ series m' = series (sanitize_metrics m) /\
      shows (ex_gauges (fl_exporter f3)) (series m') m'.
Proof.
  intros Hrun Hwk Hsec Htok Hu Hv Hp He Hc Hh Hprep Hl Hk Hcan Hg Hstep1 Hrun2 Hlater Hnow Hsuc Hstep3 m Hm.
  pose proof (tick_gets_through ordM rc url_valid leader_path Hgcm Hgzip f w wk i fates k t payload data enc r' f1 Hord
    Hwk Hsec Htok Hu Hv Hp He Hc Hh Hprep Hl Hk Hcan Hg Hstep1) as Hst.
  destruct (run_updates _ _ _ Hrun2) as [later Hlog].
  assert (exportable f2 now stats (sanitize_metrics m)) as Hex.
  { right. rewrite Hlog, drop_app_length in Hlater. exists (updates f), t, (sanitize_payload payload), later.
    split_and!; [|exact Hlater|done|unfold sanitize_payload; cbn; by apply list_elem_of_fmap_2].
    rewrite Hlog. unfold updates at 1. rewrite Hst. cbn. by rewrite <-app_assoc. }
  split; [done|].
  assert (runs (evs ++ WorkerTick w i fates :: evs2) (fresh_fleet x ws) = Some f2) as Hrun'.
  { unfold fleet_run. rewrite foldl_app. cbn [foldl]. fold (runs evs (fresh_fleet x ws)). rewrite Hrun.
    cbn [mbind option_bind]. rewrite Hstep1. exact Hrun2. }
  destruct (leader_shows _ _ _ _ _ _ _ _ _ Hrun' Hstep3 Hsuc (series (sanitize_metrics m))) as [(m' & Hm' & Hk' & H)|[Hno _]].
  - exists m'. by rewrite Hk'.
  - by destruct (Hno _ Hex).
Qed.
End leader.

(** ** Witnesses *)

Definition ex_metric : ContainerMetrics := {|
  cm_HostID := ""; cm_ContainerID := "c1"; cm_ContainerName := "web"; cm_Image := "nginx";
  cm_CPUPercent := f64_ratio 25 2; cm_MemoryUsage := 2048; cm_MemoryLimit := 4096;
  cm_MemoryPercent := f64_of_Z 50; cm_NetworkRx := 1; cm_NetworkTx := 2; cm_BlockRead := 3; cm_BlockWrite := 4 |}.

Definition ex_fleet_cfg : ClusterConfig := {|
  cluster_Mode := "worker"; cluster_LeaderURL := "http://leader:9110/api/v1/push"; cluster_HostID := "w1";
  cluster_SharedSecret := "s3cret"; cluster_AuthToken := "tok" |}.

Definition ex_wk : Worker nat := mkWorker ex_fleet_cfg (cluster_LeaderURL ex_fleet_cfg) 0%nat toy_prom.

Definition ex_fleet_cfgs : gmap string ClusterConfig := {["w1" := ex_fleet_cfg]}.
Definition ex_workers : gmap string (Worker nat) := {["w1" := ex_wk]}.

(** The leader's address. *)
Definition ex_path (url : string) : option string :=
  if bool_decide (url = "http://leader:9110/api/v1/push") then Some "/api/v1/push" else None.

(** A tick whose second attempt gets through at second 5. *)
Definition ex_tick : TickInput (gmap string ContainerMetrics) :=
  mkTickInput {["c1" := ex_metric]} DiscTimeout (fun _ => false).
Definition ex_fates : list Fate := [Lost; Reached (5 * Second) true].

(** After a request without the token. *)
Definition ex_fleet_events : list (FleetEvent (gmap string ContainerMetrics)) :=
  [Outside (4 * Second) "/api/v1/push" (mkRequest "POST" ∅ (Ok "")); WorkerTick "w1" ex_tick ex_fates].

Definition LoggedStore : Type := MemoryStore * list (Time * PushPayload).

Definition ex_fleet : Fleet nat LoggedStore := mkFleet (NewMemoryStore, []) ex_exporter ex_workers.

Definition logged_memory : ClusterStore LoggedStore := logged (Hstore := memory_store map_to_list).

Definition ex_fleet_step := fleet_step (Hlib := toy_crypto) (Hcodec := plain_codec) (Hstore := logged_memory)
  (Hprom := no_prom) (Heng := metrics_engine) map_to_list toy_receiver (fun _ => true) ex_path.

Definition ex_fleet_run := fleet_run (Hlib := toy_crypto) (Hcodec := plain_codec) (Hstore := logged_memory)
  (Hprom := no_prom) (Heng := metrics_engine) map_to_list toy_receiver (fun _ => true) ex_path.

Definition ex_labels : Labels := ("w1", "c1", "web", "nginx").

Definition has_series (k : Labels) (f : Fleet nat LoggedStore) : bool :=
  bool_decide (is_Some (containerInfo (ex_gauges (fl_exporter f)) !! k)).

Definition ex_laws := memory_store_laws map_to_list (fun m => range_of_refl m).

Lemma ex_engine_typed : engine_typed (Heng := metrics_engine) (ti_engine ex_tick).
Proof. intros cs stats [= <-] k m [<- <-]%lookup_singleton_Some. constructor; vm_compute; intuition discriminate. Qed.

Lemma ex_fleet_secrets : map_Forall (fun _ => shares_secret toy_receiver) ex_fleet_cfgs.
Proof. unfold ex_fleet_cfgs. intros k cfg [<- <-]%lookup_singleton_Some. by split. Qed.

Lemma ex_fleet_shows :
  has_series ex_labels <$> ex_fleet_run (ex_fleet_events ++ [Collection (35 * Second) ∅]) ex_fleet = Some true.
Proof. vm_compute. reflexivity. Qed.

(** A nanosecond later the worker's series is gone. *)
Example fleet_stale :
  has_series ex_labels <$> ex_fleet_run (ex_fleet_events ++ [Collection (35 * Second + 1) ∅]) ex_fleet = Some false.
Proof. vm_compute. reflexivity. Qed.

Lemma ex_fleet_accepts : length ∘ updates <$> ex_fleet_run ex_fleet_events ex_fleet = Some 1%nat.
Proof. vm_compute. reflexivity. Qed.

Lemma fleet_exports_witness :
  exists f f', ex_fleet_run ex_fleet_events ex_fleet = Some f /\
    ex_fleet_step f (Collection (35 * Second) ∅) = Some f' /\
    exists m, exportable f (35 * Second) ∅ m /\ cm_ContainerID m = "c1" /\
      networkTx (ex_gauges (fl_exporter f')) !! ex_labels = Some (f64_of_Z (cm_NetworkTx m)).
Proof.
  pose proof ex_fleet_shows as Hs. unfold ex_fleet_run in *. rewrite fleet_run_snoc in Hs.
  destruct (fleet_run _ _ _ _ ex_fleet_events ex_fleet) as [f|] eqn:Hrun; [|discriminate Hs].
  cbn [mbind option_bind] in Hs. unfold ex_fleet_step.
  destruct (fleet_step _ _ _ _ f (Collection (35 * Second) ∅)) as [f'|] eqn:Hstep; [|discriminate Hs].
  cbn [fmap option_fmap option_map] in Hs. injection Hs as Hk%bool_decide_eq_true_1.
  exists f, f'. split; [reflexivity|]. split; [exact Hstep|].
  destruct (fleet_exports (Hlib := toy_crypto) (Hcodec := plain_codec) (Hstore := memory_store map_to_list) (Hprom := no_prom)
    (Heng := metrics_engine) (Hlaws := ex_laws) map_to_list (fun m => range_of_refl m) toy_receiver (fun _ => true) ex_path
    ex_fleet_events ex_exporter ex_workers f (35 * Second) ∅ f' [] ∅ Hrun Hstep eq_refl "w1" "c1" "web" "nginx")
    as [(m & Hm & (_ & Hid & _) & _ & _ & _ & _ & _ & Htx & _)|(_ & _ & _ & _ & _ & _ & _ & _ & _ & Hnone)].
  - exists m. split; [exact Hm|]. split; [exact Hid|exact Htx].
  - exfalso. destruct Hk as [v Hv]. pose proof (eq_trans (eq_sym Hv) Hnone) as H0. discriminate H0.
Defined.

Lemma fleet_only_workers_witness :
  exists f t p, ex_fleet_run ex_fleet_events ex_fleet = Some f /\ (t, p) ∈ updates f /\ pp_HostID p = "w1".
Proof.
  pose proof ex_fleet_accepts as Hs.
  destruct (ex_fleet_run ex_fleet_events ex_fleet) as [f|] eqn:Hrun; [|discriminate Hs].
  cbn [fmap option_fmap option_map compose] in Hs. injection Hs as Hl.
  destruct (updates f) as [|[t p] l] eqn:Ef; [discriminate Hl|].
  assert ((t, p) ∈ updates f) as Hin by (rewrite Ef; left).
  exists f, t, p. split; [reflexivity|]. split; [exact Hin|].
  destruct (fleet_only_workers (Hlib := toy_crypto) (Hcodec := plain_codec) (Hstore := memory_store map_to_list) (Hprom := no_prom)
    (Heng := metrics_engine) (Hlaws := ex_laws) map_to_list (fun m => range_of_refl m) toy_receiver (fun _ => true) ex_path
    toy_laws (fun _ => eq_refl) ex_fleet_cfgs ex_fleet_events ex_exporter ex_workers f
    (map_fmap_singleton wk_cfg "w1" ex_wk) ltac:(discriminate) ex_fleet_secrets
    ltac:(repeat (apply Forall_cons; split); [discriminate|exact ex_engine_typed|apply Forall_nil; exact I]) Hrun)
    as (H & _ & _).
  destruct (H t p Hin) as (_ & w & cfg & Hc & Hh).
  unfold ex_fleet_cfgs in Hc. apply lookup_singleton_Some in Hc as [_ <-]. exact Hh.
Defined.

Definition ex_sent : PushPayload := {|
  pp_HostID := "w1"; pp_Containers := []; pp_Metrics := [set_metrics_host "w1" ex_metric] |}.

(** The worker's text, encrypted by the toy library. *)
Definition ex_prepared : result (string * bool) * nat := prepare (Hlib := toy_crypto) ex_sent "s3cret" 0%nat.

Lemma ex_prepared_fits :
  match ex_prepared.1 with Ok (data, _) => Z.of_nat (String.length data) <=? maxBody | Err _ => false end = true.
Proof. vm_compute. reflexivity. Qed.

(** A request without the token, and an earlier collection, before the collection. *)
Definition ex_between : list (FleetEvent (gmap string ContainerMetrics)) :=
  [Outside (6 * Second) "/api/v1/push" (mkRequest "POST" ∅ (Ok "")); Collection (7 * Second) ∅].

Definition ex_delivery : option (Fleet nat LoggedStore * Fleet nat LoggedStore * Fleet nat LoggedStore) :=
  f1 ← ex_fleet_step ex_fleet (WorkerTick "w1" ex_tick ex_fates);
  f2 ← ex_fleet_run ex_between f1;
  f3 ← ex_fleet_step f2 (Collection (20 * Second) ∅);
  Some (f1, f2, f3).

(** No push of the host comes in between. *)
Lemma ex_delivery_later :
  (fun '(f1, f2, _) => length (drop (length (updates f1)) (updates f2))) <$> ex_delivery = Some 0%nat.
Proof. vm_compute. reflexivity. Qed.

Lemma fleet_delivers_witness :
  exists f1 f2 f3, ex_fleet_step ex_fleet (WorkerTick "w1" ex_tick ex_fates) = Some f1 /\
    ex_fleet_run ex_between f1 = Some f2 /\ ex_fleet_step f2 (Collection (20 * Second) ∅) = Some f3 /\
    exists m, exportable f2 (20 * Second) ∅ m /\ shows (ex_gauges (fl_exporter f3)) (series m) m.
Proof.
  pose proof ex_delivery_later as Hlater. unfold ex_delivery in Hlater.
  destruct (ex_fleet_step ex_fleet (WorkerTick "w1" ex_tick ex_fates)) as [f1|] eqn:E1; [|discriminate Hlater].
  cbn [mbind option_bind] in Hlater. destruct (ex_fleet_run ex_between f1) as [f2|] eqn:E2; [|discriminate Hlater].
  cbn [mbind option_bind] in Hlater. destruct (ex_fleet_step f2 (Collection (20 * Second) ∅)) as [f3|] eqn:E3; [|discriminate Hlater].
  cbn [mbind option_bind fmap option_fmap option_map] in Hlater. injection Hlater as Hl.
  exists f1, f2, f3. split; [reflexivity|]. split; [exact E2|]. split; [exact E3|].
  pose proof ex_prepared_fits as Hfit. unfold ex_prepared in Hfit.
  destruct (prepare (Hlib := toy_crypto) ex_sent "s3cret" 0%nat) as [[[data enc]|e] r'] eqn:Hprep; [|discriminate Hfit].
  apply Z.leb_le in Hfit.
  assert (Forall (fun tp => pp_HostID tp.2 <> sanitize "w1") (drop (length (updates f1)) (updates f2))) as Hno
    by (apply nil_length_inv in Hl; rewrite Hl; apply Forall_nil; exact I).
  destruct (fleet_delivers (Hlib := toy_crypto) (Hcodec := plain_codec) (Hstore := memory_store map_to_list) (Hprom := no_prom)
    (Heng := metrics_engine) (Hlaws := ex_laws) map_to_list (fun m => range_of_refl m) toy_receiver (fun _ => true) ex_path
    toy_laws (fun _ => eq_refl)
    [] ex_exporter ex_workers ex_fleet "w1" ex_wk ex_tick ex_fates 1%nat (5 * Second) ex_sent data enc r' f1 ex_between f2
    (20 * Second) ∅ f3 [] ∅ eq_refl (lookup_singleton_eq "w1" ex_wk) (conj eq_refl eq_refl) (conj eq_refl eq_refl)
    ltac:(discriminate) eq_refl eq_refl
    ex_engine_typed eq_refl ltac:(discriminate) Hprep Hfit ltac:(lia) (fun _ _ => eq_refl) (ex_intro _ [] eq_refl) E1 E2 Hno
    ltac:(vm_compute; discriminate) eq_refl E3 (set_metrics_host "w1" ex_metric)) as [_ (m & Hm & _ & Hshows)].
  - left.
  - exists m. split; [exact Hm|exact Hshows].
Defined.
