(* ===== verification/DockerWorker.v ===== *)
(** * Workers over Docker

    What the Docker client computes can be sent: its metrics have their Go types and are
    finite, so that a worker's payload always marshals and the promises of [Fleet] hold
    for a cluster of Docker hosts. *)
From S2P Require Import Prelude.
From S2P Require Import GoStrings.
From S2P Require Import GoFloat.
From S2P Require Import GoTime.
From S2P Require Import GoUtf8.
From S2P Require Import GoFloatText.
From S2P Require Import GoFloatBounds.
From S2P Require Import Models.
From S2P Require Import PayloadJson.
From S2P Require Import Config.
From S2P Require Import InternalMetrics.
From S2P Require Import Logger.
From S2P Require Import DockerTypes.
From S2P Require Import ContainerEngine.
From S2P Require Import DockerStats.
From S2P Require Import DockerClient.
From S2P Require Import Sender.
From S2P Require Import SenderLoop.
From S2P Require Import Fleet.

Definition float_ok (x : float64) : Prop := is_float64 x /\ finite64 x.

Lemma zero_ok : float_ok f64_zero.
Proof. by split. Qed.

(** The processor count is between one and [2^64]. *)
Lemma cpu_count_sized n : is_u64 n -> f64_eq (f64_of_Z n) f64_zero = false -> sized 1 65 (f64_of_Z n).
Proof.
  intros Hn E. apply f64_of_Z_sized. unfold is_u64 in Hn. destruct (Z.eq_dec n 0) as [->|]; [done|lia].
Qed.

Lemma cpu_percent_ok s : stats_in_range s -> float_ok (calculateCPUPercent s).
Proof.
  intros (H1 & H2 & H3 & H4 & H5 & H6 & _). unfold calculateCPUPercent.
  destruct (f64_gt _ _ && f64_gt _ _) eqn:E; [|apply zero_ok]. reflect_bools.
  set (n1 := if f64_eq (f64_of_Z (cpu_OnlineCPUs _)) _ then _ else _).
  assert (sized 1 65 (if f64_eq n1 f64_zero then f64_of_Z 1 else n1)) as Hn.
  { assert (is_u64 (cpu_OnlineCPUs (st_CPUStats s))) by (unfold is_u64; lia).
    assert (is_u64 (Z.of_nat (length (cpu_PercpuUsage (st_CPUStats s))))) by (unfold is_u64; lia).
    destruct (f64_eq n1 f64_zero) eqn:E1; [by apply f64_of_Z_sized|]. unfold n1 in *.
    destruct (f64_eq (f64_of_Z (cpu_OnlineCPUs _)) _) eqn:E2; by apply cpu_count_sized. }
  match goal with H : f64_gt (f64_sub (f64_of_Z (cpu_TotalUsage _)) _) _ = true |- _ =>
    apply f64_sub_sized in H as Hc; [|done..] end.
  match goal with H : f64_gt (f64_sub (f64_of_Z (cpu_SystemUsage _)) _) _ = true |- _ =>
    apply f64_sub_sized in H as Hsys; [|done..] end.
  pose proof (f64_div_sized _ _ _ _ _ _ Hc Hsys ltac:(lia) ltac:(lia) ltac:(lia) ltac:(lia)) as Hd.
  pose proof (f64_mul_sized _ _ _ _ _ _ Hd Hn ltac:(lia) ltac:(lia) ltac:(lia) ltac:(lia)) as Hm.
  eapply sized_finite, (f64_mul_sized _ _ _ _ _ _ Hm (f64_of_Z_sized 100 ltac:(lia))); lia.
Qed.

Lemma memory_percent_ok usage limit : is_u64 usage -> is_u64 limit -> float_ok (memoryPercent usage limit).
Proof.
  intros Hu Hl. unfold memoryPercent. destruct (Z.ltb_spec 0 limit) as [Hl0|]; [|apply zero_ok]. unfold is_u64 in *.
  pose proof (f64_of_Z_sized limit ltac:(lia)) as Hls. destruct (Z.eq_dec usage 0) as [->|Hu0].
  - change (f64_of_Z 0) with (S754_zero false). destruct (f64_of_Z limit) as [|[]| |[]]; by destruct Hls.
  - pose proof (f64_div_sized _ _ _ _ _ _ (f64_of_Z_sized usage ltac:(lia)) Hls ltac:(lia) ltac:(lia) ltac:(lia) ltac:(lia)) as Hd.
    eapply sized_finite, (f64_mul_sized _ _ _ _ _ _ Hd (f64_of_Z_sized 100 ltac:(lia))); lia.
Qed.

Lemma sumBlkio_u64 l : is_u64 (sumBlkio l).1 /\ is_u64 (sumBlkio l).2.
Proof.
  unfold sumBlkio. assert (is_u64 0) as H0 by (unfold is_u64; lia). pose proof (conj H0 H0) as H. revert H.
  change (is_u64 0 /\ is_u64 0) with (is_u64 (0, 0).1 /\ is_u64 (0, 0).2). generalize (0, 0).
  induction l as [|b l IH]; intros [r w] [Hr Hw]; [done|]. cbn [foldl]. apply IH.
  repeat case_bool_decide; cbn [fst snd] in *; split; try done; apply wrap_u64_range.
Qed.

(** What the metrics of one container satisfy. *)
Lemma metricsOfStats_sendable ordN s :
  stats_in_range s -> metrics_typed (metricsOfStats ordN s) /\ metrics_finite (metricsOfStats ordN s).
Proof.
  intros Hs. pose proof Hs as (_ & _ & _ & _ & _ & _ & Hu & Hl). unfold metricsOfStats.
  pose proof (sumNetworks_spec ordN) as Hn. pose proof (sumBlkio_u64 (st_IoServiceBytesRecursive s)) as [Hb1 Hb2].
  destruct (sumNetworks ordN) as [rx tx], (sumBlkio _) as [br bw]. injection Hn as -> ->.
  destruct (cpu_percent_ok s Hs) as [Hc1 Hc2], (memory_percent_ok _ _ Hu Hl) as [Hm1 Hm2].
  split; [|by split]. constructor; cbn; try done; apply wrap_u64_range.
Qed.

Section docker.
Context {W : Type} `{Hcase : UnicodeCase} `{Hapi : DockerAPI W}.

(** The fields of the SDK's struct are [uint64], [uint32] and slices. *)
Definition stats_law : Prop := forall body s, stats_Decode body = Ok s -> stats_in_range s.

Hypothesis Hlaw : stats_law.

Lemma collectOne_sendable w l m :
  map_Forall (fun _ x => metrics_typed x /\ metrics_finite x) m ->
  map_Forall (fun _ x => metrics_typed x /\ metrics_finite x) (foldl (collectOne w) m l).
Proof.
  revert m; induction l as [|c l IH]; intros m Hm; [done|]. cbn [foldl]. apply IH. unfold collectOne.
  destruct (getContainerStats w (ci_ID c)) as [st|] eqn:Es; [|done]. apply map_Forall_insert_2; [|done].
  unfold getContainerStats in Es. destruct (cli_ContainerStats w (ci_ID c)) as [body|]; [|done].
  destruct (stats_Decode body) as [s|] eqn:Ed; [|done]. injection Es as <-.
  destruct (metricsOfStats_sendable (map_to_list (st_Networks s)) s (Hlaw _ _ Ed)) as [[] [? ?]].
  split; [by constructor|by split].
Qed.

Lemma docker_stats_sendable zone e cs stats :
  ContainerEngine.GetAllContainerStats (ContainerEngine := docker_engine zone) e cs = Ok stats ->
  map_Forall (fun _ x => metrics_typed x /\ metrics_finite x) stats.
Proof. cbn. unfold DockerStats.GetAllContainerStats. intros [= <-]. apply collectOne_sendable. apply map_Forall_empty. Qed.

(** Docker hosts are what [Fleet] asks of its workers. *)
Lemma docker_engine_typed zone e : engine_typed (Heng := docker_engine zone) e.
Proof.
  intros cs stats Hs k m Hm. by apply (docker_stats_sendable zone e cs stats Hs) in Hm as [? _].
Qed.

(** C20. A Docker worker can always send. Whatever counters its daemon reports, wrapped, reset
    or zero included, the payload of a tick whose collection succeeded marshals: no
    percentage overflows to an infinity or is NaN, so that a push is never dropped for
    its content, and the leader reads the payload back with its text made valid UTF-8. *)
Theorem docker_payload_marshals zone ordM cfg e p :
  (forall m, range_of m (ordM m)) ->
  collected (Heng := docker_engine zone) ordM cfg e = Some p ->
  payload_typed p /\ Forall metrics_finite (pp_Metrics p) /\
  exists d, json_Marshal p = Ok d /\ json_Unmarshal d = Ok (sanitize_payload p).
Proof.
  intros Hord Hc. pose proof (collected_typed (Heng := docker_engine zone) ordM cfg e p Hord (docker_engine_typed zone e) Hc) as Ht.
  assert (Forall metrics_finite (pp_Metrics p)) as Hf.
  { unfold collected in Hc. destruct (ListRunningContainers e true) as [[cs|]|]; [|done..].
    destruct (ContainerEngine.GetAllContainerStats e cs) as [stats|] eqn:Es; [|done]. injection Hc as <-.
    apply docker_stats_sendable in Es. cbn. apply Forall_fmap, Forall_forall. intros [k m] Hin.
    rewrite (Hord stats) in Hin. apply elem_of_map_to_list in Hin. by apply Es in Hin as [_ ?]. }
  split_and!; [done..|]. destruct (json_roundtrip p Ht) as [Hok Hrt]. apply Hok in Hf.
  destruct (json_Marshal p) as [d|] eqn:E; [|done]. exists d. split; [done|]. by apply Hrt.
Qed.
End docker.

(** ** Witness *)

Lemma ex_stats_law : stats_law (Hapi := ex_docker).
Proof. intros body s [= <-]. unfold stats_in_range, is_u64. cbn. lia. Qed.

Definition ex_docker_host : ExDaemon * Client := (ex_two, NewClient).

Lemma docker_payload_marshals_witness :
  exists p d, collected (Heng := docker_engine 0 (Hcase := ascii_only) (Hapi := ex_docker)) map_to_list ex_worker ex_docker_host = Some p /\
    json_Marshal p = Ok d /\ json_Unmarshal d = Ok (sanitize_payload p).
Proof.
  assert (is_Some (collected (Heng := docker_engine 0 (Hcase := ascii_only) (Hapi := ex_docker)) map_to_list ex_worker ex_docker_host)) as [p Hp]
    by (eexists; reflexivity).
  destruct (docker_payload_marshals (Hcase := ascii_only) (Hapi := ex_docker) ex_stats_law 0 map_to_list ex_worker ex_docker_host p
    (fun m => range_of_refl m) Hp) as (_ & _ & d & Hd & Hu).
  exists p, d. split; [exact Hp|]. split; [exact Hd|exact Hu].
Defined.

(** Two containers are listed and both have metrics. *)
Example docker_payload_example :
  (fun p => (ci_Name <$> pp_Containers p, cm_ContainerName <$> pp_Metrics p)) <$>
    collected (Heng := docker_engine 0 (Hcase := ascii_only) (Hapi := ex_docker)) map_to_list ex_worker ex_docker_host =
  Some (["web"; "db"], ["web"; "db"]).
Proof. vm_compute. reflexivity. Qed.
