(* ===== verification/MainApp.v ===== *)
(** * The entry point ([cmd/agent/main.go])

    Which configuration the agent runs with, which of its parts it starts, and the order in
    which it takes and releases its resources: the run is the list of its effects. *)
From S2P Require Import Prelude.
From S2P Require Import GoStrings.
From S2P Require Import GoFloat.
From S2P Require Import GoTime.
From S2P Require Import Config.
From S2P Require Import Logger.

(** ** Configuration *)

(** [loadConfig]: the loaded configuration, or the defaults when loading fails. *)
Definition loadConfig (loaded : Config * option error) : Config :=
  match loaded.2 with None => loaded.1 | Some _ => DefaultConfig end.

(** ** Parts *)

(** The receiver of a leader, with its secret and token. *)
Definition setupClusterReceiver (cfg : Config) : option (string * string) :=
  if bool_decide (cluster_Mode (Cluster cfg) = "leader")
  then Some (cluster_SharedSecret (Cluster cfg), cluster_AuthToken (Cluster cfg)) else None.

(** The port advertised over mDNS; [advertised] says whether the library could start. *)
Definition startMDNSAdvertiser (cfg : Config) (advertised : bool) : option Z :=
  if bool_decide (cluster_Mode (Cluster cfg) = "leader")
  then if advertised then Some (prom_Port (Prometheus cfg)) else None
  else None.

(** The HTTP endpoints of the exporter: it alone serves the receiver. *)
Definition startPrometheusExporter (cfg : Config) (receiver : option (string * string)) : list string :=
  if prom_Enabled (Prometheus cfg)
  then ["/metrics"; "/health"] ++ (match receiver with Some _ => ["/api/v1/push"] | None => [] end)
  else [].

Inductive ExecutionMode := WorkerMode | HeadlessMode | TUIMode.

#[export] Instance ExecutionMode_eq_dec : EqDecision ExecutionMode.
Proof. solve_decision. Defined.

(** [mode] is the variable [CASTLE_ROCK_MODE]. *)
Definition runExecutionMode (cfg : Config) (mode : string) : ExecutionMode :=
  if bool_decide (cluster_Mode (Cluster cfg) = "worker") then WorkerMode
  else if bool_decide (mode = "headless") || bool_decide (cluster_Mode (Cluster cfg) = "leader")
  then HeadlessMode else TUIMode.

(** The store and the pruner are set up by the interactive mode only. *)
Definition setupStorageAndPruner (cfg : Config) (storeOpened : bool) : bool * option float64 :=
  if storeOpened
  then (true, if prune_Enabled (Prune cfg) then Some (prune_TriggerDiskPercent (Prune cfg)) else None)
  else (false, None).

(** Everything [main] starts once the Docker client exists. *)
Record Running := mkRunning {
  run_mode : ExecutionMode;
  run_endpoints : list string;
  run_advertised : option Z;
  run_sender : bool;
  run_store : bool;
  run_pruner : option float64
}.

(** [None]: the Docker client could not be created and the agent stops. *)
Definition main (cfg : Config) (mode : string) (dockerOk advertised storeOpened : bool) : option Running :=
  if negb dockerOk then None else
  let receiver := setupClusterReceiver cfg in
  let adv := startMDNSAdvertiser cfg advertised in
  let endpoints := startPrometheusExporter cfg receiver in
  let m := runExecutionMode cfg mode in
  let '(store, pruner) := match m with TUIMode => setupStorageAndPruner cfg storeOpened | _ => (false, None) end in
  Some {| run_mode := m; run_endpoints := endpoints; run_advertised := adv;
          run_sender := bool_decide (m = WorkerMode); run_store := store; run_pruner := pruner |}.

(** A leader accepts pushes only through the metrics server. The push endpoint is
    served exactly when the agent is a leader and Prometheus is enabled; a leader with
    Prometheus disabled serves nothing and yet, when mDNS works, advertises its port to
    the workers. *)
Theorem push_endpoint_iff cfg mode advertised storeOpened run :
  main cfg mode true advertised storeOpened = Some run ->
  ("/api/v1/push" ∈ run_endpoints run <->
    cluster_Mode (Cluster cfg) = "leader" /\ prom_Enabled (Prometheus cfg) = true) /\
  (cluster_Mode (Cluster cfg) = "leader" -> prom_Enabled (Prometheus cfg) = false -> advertised = true ->
    run_endpoints run = [] /\ run_advertised run = Some (prom_Port (Prometheus cfg))).
Proof.
  unfold main. cbn [negb]. set (p := match runExecutionMode cfg mode with TUIMode => _ | _ => _ end).
  destruct p as [store pruner]. intros [= <-]. cbn [run_endpoints run_advertised].
  unfold startPrometheusExporter, setupClusterReceiver, startMDNSAdvertiser.
  destruct (prom_Enabled (Prometheus cfg)), (decide (cluster_Mode (Cluster cfg) = "leader")) as [El|El].
  - rewrite bool_decide_eq_true_2 by done. split; [|done]. set_solver.
  - rewrite bool_decide_eq_false_2 by done. split; [|done]. rewrite !elem_of_app, !elem_of_cons. set_solver.
  - rewrite bool_decide_eq_true_2 by done. split; [|by intros _ _ ->]. set_solver.
  - split; [|done]. set_solver.
Qed.

(** The pruner and the event store run in the interactive mode only: a worker, a
    leader or a headless agent never prunes, whatever its prune configuration. *)
Theorem pruner_only_interactive cfg mode advertised storeOpened run :
  main cfg mode true advertised storeOpened = Some run ->
  cluster_Mode (Cluster cfg) ∈ ["worker"; "leader"] \/ mode = "headless" ->
  run_pruner run = None /\ run_store run = false.
Proof.
  unfold main, runExecutionMode. cbn [negb]. intros Hrun Hmode.
  destruct (decide (cluster_Mode (Cluster cfg) = "worker")) as [E1|E1];
    [rewrite bool_decide_eq_true_2 in Hrun by done; injection Hrun as <-; done|].
  rewrite bool_decide_eq_false_2 in Hrun by done.
  assert (bool_decide (mode = "headless") || bool_decide (cluster_Mode (Cluster cfg) = "leader") = true) as E.
  { apply orb_true_iff. rewrite !bool_decide_eq_true. set_solver. }
  rewrite E in Hrun. injection Hrun as <-. done.
Qed.

(** ** The order of things

    What [main] does, as the sequence of its effects: each resource it holds is taken and
    given back by an effect, and the deferred releases run last in, first out. *)

Inductive Resource := Signals | DockerConnection | Advertiser | EventStore.

#[export] Instance Resource_eq_dec : EqDecision Resource.
Proof. solve_decision. Defined.

Inductive Action :=
  | SetupLogger (level : string)
  | Acquire (r : Resource)
  | Release (r : Resource)
  | IncludeContainers (includes : list string)
  | MountReceiver (secret token : string)
  | ServeMetrics (endpoints : list string)
  | SpawnSender
  | SpawnPruner (threshold : float64)
  | RunTUI (sysInfo : gmap string string) (store : bool)
  | AwaitDone.                  (* [<-a.ctx.Done()] *)

#[export] Instance Action_eq_dec : EqDecision Action.
Proof. solve_decision. Defined.

(** What the run meets: the configuration as loaded, the variable, whether the Docker
    client, the advertiser and the store come up, and the daemon's information. *)
Record Environment := mkEnvironment {
  env_loaded : Config * option error;
  env_mode : string;
  env_docker : bool;
  env_info : result (gmap string string);
  env_advertised : bool;
  env_store : bool
}.

(** [defer]: the release of [r] after [body]. *)
Definition holding (r : Resource) (body : list Action) : list Action := Acquire r :: body ++ [Release r].

(** [initDockerClient] once the client exists; the information is empty when it is not to be had. *)
Definition initDockerClient (cfg : Config) (info : result (gmap string string)) : list Action * gmap string string :=
  ([IncludeContainers (stats_IncludeContainers (Stats cfg))],
   match info with Ok i => i | Err _ => ∅ end).

Definition runTUIMode (cfg : Config) (sysInfo : gmap string string) (storeOpened : bool) : list Action :=
  match setupStorageAndPruner cfg storeOpened with
  | (true, pruner) => holding EventStore
      ((match pruner with Some t => [SpawnPruner t] | None => [] end) ++ [RunTUI sysInfo true])
  | (false, _) => [RunTUI sysInfo false]
  end.

Definition run_mode_actions (cfg : Config) (env : Environment) (sysInfo : gmap string string) : list Action :=
  match runExecutionMode cfg (env_mode env) with
  | WorkerMode => [SpawnSender; AwaitDone]
  | HeadlessMode => [AwaitDone]
  | TUIMode => runTUIMode cfg sysInfo (env_store env)
  end.

(** [main] after the Docker client is up. *)
Definition main_connected (cfg : Config) (env : Environment) : list Action :=
  let '(setup, sysInfo) := initDockerClient cfg (env_info env) in
  let receiver := setupClusterReceiver cfg in
  let body :=
    (match startPrometheusExporter cfg receiver with [] => [] | endpoints => [ServeMetrics endpoints] end) ++
    run_mode_actions cfg env sysInfo in
  setup ++ (match receiver with Some (secret, token) => [MountReceiver secret token] | None => [] end) ++
  match startMDNSAdvertiser cfg (env_advertised env) with
  | Some _ => holding Advertiser body
  | None => body
  end.

Definition main_trace (env : Environment) : list Action :=
  let cfg := loadConfig (env_loaded env) in
  SetupLogger (LogLevel cfg) ::
  holding Signals (if env_docker env then holding DockerConnection (main_connected cfg env) else []).

(** The resources held after a sequence of effects, the last taken first; [None] when one
    is released that is not the last one taken. *)
Fixpoint held (l : list Action) (stack : list Resource) : option (list Resource) :=
  match l with
  | [] => Some stack
  | Acquire r :: l' => held l' (r :: stack)
  | Release r :: l' =>
      match stack with
      | r' :: stack' => if bool_decide (r = r') then held l' stack' else None
      | [] => None
      end
  | _ :: l' => held l' stack
  end.

Lemma held_app l l' stack : held (l ++ l') stack = (s ← held l stack; held l' s).
Proof.
  revert stack; induction l as [|a l IH]; intros stack; [done|]. destruct a; cbn; try apply IH.
  destruct stack as [|r' stack]; [done|]. case_bool_decide; [apply IH|done].
Qed.

Lemma held_holding r l stack : held l (r :: stack) = Some (r :: stack) -> held (holding r l) stack = Some stack.
Proof. intros H. unfold holding. cbn. rewrite held_app, H. cbn. by rewrite bool_decide_eq_true_2. Qed.

Lemma held_mode cfg env i stack : held (run_mode_actions cfg env i) stack = Some stack.
Proof.
  unfold run_mode_actions, runTUIMode. destruct (runExecutionMode cfg (env_mode env)); [done..|].
  unfold setupStorageAndPruner. destruct (env_store env); [|done]. apply held_holding. by destruct (prune_Enabled _).
Qed.

Lemma held_connected cfg env stack : held (main_connected cfg env) stack = Some stack.
Proof.
  unfold main_connected. cbn [initDockerClient]. set (body := _ ++ run_mode_actions _ _ _).
  assert (forall stack, held body stack = Some stack) as Hb.
  { intros st. unfold body. rewrite held_app. destruct (startPrometheusExporter _ _); cbn; apply held_mode. }
  rewrite !held_app. cbn. destruct (setupClusterReceiver cfg) as [[secret token]|]; cbn;
    (destruct (startMDNSAdvertiser _ _); [by apply held_holding|done]).
Qed.

(** The trace spelled out. *)
Lemma main_trace_eq env :
  let cfg := loadConfig (env_loaded env) in
  let role := cluster_Mode (Cluster cfg) in
  let leads := bool_decide (role = "leader") in
  let info := match env_info env with Ok i => i | Err _ => ∅ end in
  main_trace env =
    [SetupLogger (LogLevel cfg); Acquire Signals] ++
    (if env_docker env then
       [Acquire DockerConnection; IncludeContainers (stats_IncludeContainers (Stats cfg))] ++
       (if leads then [MountReceiver (cluster_SharedSecret (Cluster cfg)) (cluster_AuthToken (Cluster cfg))] else []) ++
       (if leads && env_advertised env then [Acquire Advertiser] else []) ++
       (if prom_Enabled (Prometheus cfg)
        then [ServeMetrics (["/metrics"; "/health"] ++ if leads then ["/api/v1/push"] else [])] else []) ++
       (if decide (role = "worker") then [SpawnSender; AwaitDone]
        else if decide (env_mode env = "headless" \/ role = "leader") then [AwaitDone]
        else if env_store env then
          [Acquire EventStore] ++
          (if prune_Enabled (Prune cfg) then [SpawnPruner (prune_TriggerDiskPercent (Prune cfg))] else []) ++
          [RunTUI info true; Release EventStore]
        else [RunTUI info false]) ++
       (if leads && env_advertised env then [Release Advertiser] else []) ++
       [Release DockerConnection]
     else []) ++
    [Release Signals].
Proof.
  cbn zeta. unfold main_trace, main_connected, run_mode_actions, runExecutionMode, runTUIMode, setupStorageAndPruner,
    setupClusterReceiver, startMDNSAdvertiser, startPrometheusExporter, initDockerClient, holding.
  destruct (env_docker env); [|done]. set (cfg := loadConfig (env_loaded env)).
  destruct (decide (cluster_Mode (Cluster cfg) = "worker")) as [Ew|Ew].
  { rewrite (bool_decide_eq_true_2 _ Ew), (bool_decide_eq_false_2 (_ = "leader")) by congruence.
    by destruct (prom_Enabled (Prometheus cfg)). }
  rewrite (bool_decide_eq_false_2 _ Ew).
  destruct (decide (cluster_Mode (Cluster cfg) = "leader")) as [El|El].
  - rewrite (bool_decide_eq_true_2 _ El), orb_true_r, decide_True by (by right).
    by destruct (prom_Enabled (Prometheus cfg)), (env_advertised env).
  - rewrite (bool_decide_eq_false_2 _ El), orb_false_r.
    destruct (decide (env_mode env = "headless")) as [Eh|Eh].
    + rewrite (bool_decide_eq_true_2 _ Eh), decide_True by (by left). by destruct (prom_Enabled (Prometheus cfg)).
    + rewrite (bool_decide_eq_false_2 _ Eh), decide_False by tauto.
      by destruct (prom_Enabled (Prometheus cfg)), (env_store env), (prune_Enabled (Prune cfg)).
Qed.

(** The part of a trace before its last five effects. *)
Ltac trace_end :=
  match goal with |- exists before, ?l = _ => exists (take (length l - 5) l); reflexivity end.

(** Membership in a trace that is written out, and its end. *)
Ltac solve_trace :=
  split; [intros _; split_and!; intros; rewrite !elem_of_cons, elem_of_nil; naive_solver|];
  intros t Ht;
  repeat (apply elem_of_cons in Ht as [Ht|Ht]; [discriminate Ht || (injection Ht as ->; trace_end)|]);
  by apply elem_of_nil in Ht.


(** ** Witnesses *)

Definition ex_leader : Config := {|
  LogLevel := "info"; Language := "en"; Prometheus := {| prom_Enabled := false; prom_Port := 9110 |};
  Stats := Stats DefaultConfig;
  Cluster := {| cluster_Mode := "leader"; cluster_LeaderURL := ""; cluster_HostID := "h";
                cluster_SharedSecret := ""; cluster_AuthToken := "" |};
  Alerts := Alerts DefaultConfig;
  Prune := {| prune_Enabled := true; prune_TriggerDiskPercent := f64_of_Z 85 |} |}.

Definition ex_running : Running := {|
  run_mode := HeadlessMode; run_endpoints := []; run_advertised := Some 9110; run_sender := false;
  run_store := false; run_pruner := None |}.

(** An interactive agent that prunes. *)
Definition ex_interactive : Environment := {|
  env_loaded := (DefaultConfig, Some "open configs/config.yaml: no such file or directory");
  env_mode := ""; env_docker := true; env_info := Err "timeout"; env_advertised := false; env_store := true |}.


Example interactive_trace :
  main_trace ex_interactive =
  [SetupLogger "info"; Acquire Signals; Acquire DockerConnection; IncludeContainers []; ServeMetrics ["/metrics"; "/health"];
   Acquire EventStore; RunTUI ∅ true; Release EventStore; Release DockerConnection; Release Signals].
Proof. vm_compute. reflexivity. Qed.

Lemma push_endpoint_iff_witness :
  run_endpoints ex_running = [] /\ run_advertised ex_running = Some 9110.
Proof. apply (push_endpoint_iff ex_leader "" true true ex_running); reflexivity. Defined.

Lemma pruner_only_interactive_witness :
  run_pruner ex_running = None /\ run_store ex_running = false.
Proof.
  apply (pruner_only_interactive ex_leader "" true true ex_running); [reflexivity|].
  left. right. left.
Defined.
