(* ===== verification/I18n.v ===== *)
(** * Display texts ([internal/i18n/i18n.go])

    The texts of the terminal interface in English and Portuguese, as UTF-8 bytes. *)
From S2P Require Import Prelude.
From S2P Require Import GoStrings.

Record Messages := mkMessages {
  msg_DetailsTitle : string;
  msg_Name : string;
  msg_Image : string;
  msg_Status : string;
  msg_Command : string;
  msg_Created : string;
  msg_Ports : string;
  msg_Networks : string;
  msg_SecurityAudit : string;
  msg_Metrics : string;
  msg_Memory : string;
  msg_NetworkDown : string;
  msg_NetworkUp : string;
  msg_LogsTitle : string;
  msg_EventsTitle : string;
  msg_WaitingEvents : string;
  msg_HelpBar : string;
  msg_TableHost : string;
  msg_TableName : string;
  msg_TableState : string;
  msg_NoContainers : string;
  msg_ErrorSmallTerminal : string;
  msg_StressTestTitle : string;
  msg_StressTestMenu : string;
  msg_ConfirmStop : string;
  msg_ConfirmRestart : string;
  msg_ServiceMapTitle : string;
  msg_ServiceMapNoCustom : string;
  msg_ServiceMapBack : string;
  msg_SecPrivileged : string;
  msg_SecRootUser : string;
  msg_SecDBPort : string;
  msg_SecSensitiveCap : string;
  msg_SecNoResourceQuotas : string;
  msg_SecWritableRootFS : string;
  msg_SecInsecurePort : string;
  msg_SecMissingNoNewPrivs : string;
  msg_SecHostNetwork : string;
  msg_AlertSecPrivileged : string;
  msg_AlertSecRootUser : string;
  msg_AlertSecDBPort : string;
  msg_AlertSecSensitiveCap : string;
  msg_AlertSecNoQuotas : string;
  msg_AlertSecWritableFS : string;
  msg_AlertSecInsecurePort : string;
  msg_AlertSecNoNewPrivs : string;
  msg_AlertSecHostNet : string
}.

Definition En : Messages := {|
  msg_DetailsTitle := "Details";
  msg_Name := "Name:";
  msg_Image := "Image:";
  msg_Status := "Status:";
  msg_Command := "Command:";
  msg_Created := "Created:";
  msg_Ports := "Ports:";
  msg_Networks := "Networks:";
  msg_SecurityAudit := "Security Audit";
  msg_Metrics := "Metrics";
  msg_Memory := "Memory:";
  msg_NetworkDown := "Net ↓:";
  msg_NetworkUp := "Net ↑:";
  msg_LogsTitle := "Logs: %s";
  msg_EventsTitle := "Events";
  msg_WaitingEvents := "Waiting for events...";
  msg_HelpBar := "  ↑↓ nav │ space multi-select │ enter details │ l log 1 │ L log N │ / grep │ f tail │ E export │ x shell │ C prune │ s stop │ R restart │ S stress │ M map │ r refresh │ ? help │ q quit";
  msg_TableHost := "HOST";
  msg_TableName := "NAME";
  msg_TableState := "STATE";
  msg_NoContainers := "No running containers";
  msg_ErrorSmallTerminal := "Terminal is too small (min 60 cols).";
  msg_StressTestTitle := "Stress Test — Spawn stress container (30s)";
  msg_StressTestMenu := "[c] CPU (2 cores @ 100%)" +:+ newline +:+
    "  [m] Memory (256MB)" +:+ newline +:+
    "  [b] Both" +:+ newline +:+
    "  [Esc] Cancel";
  msg_ConfirmStop := "stop";
  msg_ConfirmRestart := "restart";
  msg_ServiceMapTitle := "Service & Network Map";
  msg_ServiceMapNoCustom := "No custom networks detected.";
  msg_ServiceMapBack := "[M / Esc] Back to Dashboard";
  msg_SecPrivileged := "Privileged Mode enabled (grants near full control over host)";
  msg_SecRootUser := "Container runs internal processes as root user";
  msg_SecDBPort := "Database port (e.g. 3306, 5432) widely exposed on 0.0.0.0. Phishing risk.";
  msg_SecSensitiveCap := "Sensitive Linux Capabilities injected (e.g. SYS_ADMIN/NET_ADMIN)";
  msg_SecNoResourceQuotas := "No CPU or Memory limits configured (Risk of Host DoS)";
  msg_SecWritableRootFS := "Root Filesystem is writable (Immutable readonly-rootfs is best practice)";
  msg_SecInsecurePort := "Insecure management ports (SSH:22 or Telnet:23) exposed";
  msg_SecMissingNoNewPrivs := "Missing 'no-new-privileges' flag (Allows SUID escalation)";
  msg_SecHostNetwork := "Running with --network=host (Bypasses network isolation)";
  msg_AlertSecPrivileged := "Privileged Mode";
  msg_AlertSecRootUser := "Root User";
  msg_AlertSecDBPort := "DB Port Exposed";
  msg_AlertSecSensitiveCap := "Sensitive CAP_ADD";
  msg_AlertSecNoQuotas := "No Resource Quotas";
  msg_AlertSecWritableFS := "Writable RootFS";
  msg_AlertSecInsecurePort := "Insecure Port";
  msg_AlertSecNoNewPrivs := "Missing No-New-Privileges";
  msg_AlertSecHostNet := "Host Networking"
|}.

Definition Pt : Messages := {|
  msg_DetailsTitle := "Detalhes";
  msg_Name := "Nome:";
  msg_Image := "Imagem:";
  msg_Status := "Status:";
  msg_Command := "solicitação:";
  msg_Created := "Criado:";
  msg_Ports := "Portas:";
  msg_Networks := "Redes:";
  msg_SecurityAudit := "Auditoria de Segurança";
  msg_Metrics := "Métricas";
  msg_Memory := "Memória:";
  msg_NetworkDown := "Rede ↓:";
  msg_NetworkUp := "Rede ↑:";
  msg_LogsTitle := "Logs: %s";
  msg_EventsTitle := "Eventos";
  msg_WaitingEvents := "Aguardando eventos...";
  msg_HelpBar := "  ↑↓ nav │ space selec. mult. │ enter detalhe │ l log 1 │ L log N │ / buscar log │ f seguir │ E export │ x shell │ C faxina │ s stop │ R restart │ S stress │ M map │ r refresh │ ? ajuda │ q sair";
  msg_TableHost := "HOST";
  msg_TableName := "NOME";
  msg_TableState := "ESTADO";
  msg_NoContainers := "Nenhum container em execução";
  msg_ErrorSmallTerminal := "Terminal muito pequeno (min 60 cols).";
  msg_StressTestTitle := "Stress Test — Criar container de stress (30s)";
  msg_StressTestMenu := "[c] CPU (2 cores a 100%)" +:+ newline +:+
    "  [m] Memória (256MB)" +:+ newline +:+
    "  [b] Ambos" +:+ newline +:+
    "  [Esc] Cancelar";
  msg_ConfirmStop := "parar";
  msg_ConfirmRestart := "reiniciar";
  msg_ServiceMapTitle := "Mapa de Serviços e Redes";
  msg_ServiceMapNoCustom := "Nenhuma rede customizada detectada.";
  msg_ServiceMapBack := "[M / Esc] Voltar ao Dashboard";
  msg_SecPrivileged := "Modo Privilegiado habilitado (dá controle quase total sobre o host)";
  msg_SecRootUser := "Container está rodando suas rotinas internas com o usuário root";
  msg_SecDBPort := "Porta de Banco de Dados (ex: 3306, 5432) exposta sem restrições em 0.0.0.0. Perigoso para invasões.";
  msg_SecSensitiveCap := "Capabilities Linux muito sensíveis foram injetadas (ex: SYS_ADMIN/NET_ADMIN)";
  msg_SecNoResourceQuotas := "Container sem limite de Memória ou CPU configurado (Risco de DoS no Host)";
  msg_SecWritableRootFS := "Root Filesystem aberto para escrita (O ideal é rodar containers imutáveis c/ readonly-rootfs)";
  msg_SecInsecurePort := "Portas de gerenciamento inseguras (SSH:22 ou Telnet:23) expostas pelo container";
  msg_SecMissingNoNewPrivs := "Faltando flag 'no-new-privileges' (Permite escalonamento SUID)";
  msg_SecHostNetwork := "Rodando com --network=host (Burla o isolamento de rede nativo)";
  msg_AlertSecPrivileged := "Modo Privilegiado";
  msg_AlertSecRootUser := "Usuário Root";
  msg_AlertSecDBPort := "Porta DB Exposta";
  msg_AlertSecSensitiveCap := "CAP_ADD Sensível";
  msg_AlertSecNoQuotas := "Sem Limites de Recurso";
  msg_AlertSecWritableFS := "RootFS Gravável";
  msg_AlertSecInsecurePort := "Porta Insegura";
  msg_AlertSecNoNewPrivs := "Sem No-New-Privileges";
  msg_AlertSecHostNet := "Rede Host"
|}.

(** The texts of a language. *)
Definition Get (lang : string) : Messages :=
  if bool_decide (lang = "pt") || bool_decide (lang = "pt-BR") then Pt else En.
