(* ===== verification/Tui.v ===== *)
(** * The terminal interface's model and update function ([internal/tui/tui.go])

    The Bubble Tea model as a record, messages and commands as inductive types, and
    [Update] with every handler.  [None] is a Go panic: of an index or a slice out of range,
    or of a call on a nil error or a closed channel.  A command is the closure the
    source returns, with the values it captures; [exec_cmd] is its body.  What a handler
    takes from outside (the clock, the orders of its ranges over maps, the engine, the
    log streams it opens and the file it writes) is the record [UpdateEnv]; the clock
    does not advance within one update. *)
From S2P Require Import Prelude.
From S2P Require Import GoStrings.
From S2P Require Import GoFloat.
From S2P Require Import GoTime.
From S2P Require Import Models.
From S2P Require Import Config.
From S2P Require Import Alerts.
From S2P Require Import Logger.
From S2P Require Import DockerTypes.
From S2P Require Import ContainerEngine.
From S2P Require Import DockerStreams.
From S2P Require Import Security.
From S2P Require Import Topology.
From S2P Require Import Storage.
From S2P Require Import I18n.

(** ** Formatting *)

Definition KB : Z := 1024.
Definition MB : Z := KB * 1024.
Definition GB : Z := MB * 1024.

(** [float64(b) / float64(unit)]. *)
Definition scaled (b unit : Z) : float64 := f64_div (f64_of_Z b) (f64_of_Z unit).

Definition formatBytes (b : Z) : string :=
  if GB <=? b then format_fixed 1 (scaled b GB) +:+ "GB"
  else if MB <=? b then format_fixed 1 (scaled b MB) +:+ "MB"
  else if KB <=? b then format_fixed 1 (scaled b KB) +:+ "KB"
  else itoa b +:+ "B".

Definition formatBytesShort (b : Z) : string :=
  if GB <=? b then format_fixed 0 (scaled b GB) +:+ "G"
  else if MB <=? b then format_fixed 0 (scaled b MB) +:+ "M"
  else if KB <=? b then format_fixed 0 (scaled b KB) +:+ "K"
  else itoa b +:+ "B".

(** [None] is the panic of a negative slice bound; [n] is 6 or 18 at the calls. *)
Definition truncate (s : string) (n : Z) : option string :=
  if Z.of_nat (String.length s) <=? n then Some s
  else prefix ← str_slice s 0 (n - 3); Some (prefix +:+ "...").

Definition min (a b : Z) : Z := if a <? b then a else b.

(** ** Messages *)

(** A log stream opened by the engine, by number. *)
Definition Chan := nat.

(** Errors are [None] when nil. *)
Inductive Msg :=
  | KeyMsg (key : string)                         (* [msg.String()] *)
  | WindowSizeMsg (width height : Z)
  | containerListMsg (containers : list ContainerDisplay)
  | statsMsg (stats : gmap string ContainerMetrics)
  | dockerEventMsg (event : ContainerEvent)
  | dockerErrorMsg (err : option error)
  | logLineMsg (container line : string) (nextCh : option Chan)
  | actionResultMsg (success : bool) (action container : string) (err : option error)
  | stressResultMsg (success : bool) (mode : string) (err : option error)
  | diskUsageMsg (usage : SystemDiskUsage)
  | pruneResultMsg (reclaimed : Z) (target : string) (err : option error)
  | hostStatsMsg (cpu mem : float64)
  | tickMsg (t : Time).

(** ** Commands *)

Inductive Cmd :=
  | fetchContainers (showAll : bool)
  | fetchStats (showAll : bool)
  | fetchHostStats
  | watchDockerEvents
  | tickCmd
  | waitForNextLog (containerName : string) (logCh : Chan)
  | executeAction (action containerID containerName : string)
  | executeStress (mode : string)
  | runPrune (target : string)
  | fetchDiskUsage
  | executeShell (containerName : string)
  | Quit.

#[export] Instance Cmd_eq_dec : EqDecision Cmd.
Proof. solve_decision. Defined.

(** ** Model *)

Record LogEntry := mkLogEntry { le_Container : string; le_Text : string }.

Record EventLogEntry := mkEventLogEntry {
  ee_Time : Time;
  ee_Icon : string;
  ee_Action : string;
  ee_Name : string
}.

Record Model := mkModel {
  m_containers : list ContainerDisplay;
  m_stats : gmap string ContainerMetrics;
  m_events : list EventLogEntry;
  m_sysInfo : gmap string string;
  m_alertEngine : option Engine;
  m_activeAlerts : list Alert;
  m_securityAlerts : list Alert;
  m_securityAlertsMap : gmap string (list Alert);
  m_alertMarks : gmap string string;
  m_auditor : option Auditor;
  m_logLines : list LogEntry;
  m_showLogs : bool;
  m_logContainers : list string;
  m_logOffset : Z;
  m_logSearch : string;
  m_searchMode : bool;
  m_selectedIDs : gset string;          (* the keys of [selectedIDs], all mapped to true *)
  m_showAll : bool;
  m_confirmAction : string;
  m_showStress : bool;
  m_showCleanup : bool;
  m_diskUsage : SystemDiskUsage;
  m_pruning : bool;
  m_pruneFeedback : string;
  m_showMap : bool;
  m_mapData : list NetworkEdge;
  m_cursor : Z;
  m_showHelp : bool;
  m_showDetail : bool;
  m_width : Z;
  m_height : Z;
  m_startTime : Time;
  m_version : string;
  m_store : option SQLiteStore;
  m_cfg : Config;
  m_eventCount : Z;
  m_lastUpdate : Time;
  m_quitting : bool;
  m_msg : Messages;
  m_hostCPU : float64;
  m_hostMem : float64
}.

#[export] Instance Eta_Model : Eta Model := fun m => mkModel
  (m_containers m) (m_stats m) (m_events m) (m_sysInfo m) (m_alertEngine m) (m_activeAlerts m)
  (m_securityAlerts m) (m_securityAlertsMap m) (m_alertMarks m) (m_auditor m) (m_logLines m) (m_showLogs m)
  (m_logContainers m) (m_logOffset m) (m_logSearch m) (m_searchMode m) (m_selectedIDs m) (m_showAll m)
  (m_confirmAction m) (m_showStress m) (m_showCleanup m) (m_diskUsage m) (m_pruning m) (m_pruneFeedback m)
  (m_showMap m) (m_mapData m) (m_cursor m) (m_showHelp m) (m_showDetail m) (m_width m) (m_height m)
  (m_startTime m) (m_version m) (m_store m) (m_cfg m) (m_eventCount m) (m_lastUpdate m) (m_quitting m)
  (m_msg m) (m_hostCPU m) (m_hostMem m).

(** The model of a new program.  The engine, the cluster receiver and the context,
    which no handler assigns, are arguments of the update and of the commands; the
    auditor's rules take the parser of ports and the order of a container's ports.
    The source's literal has no [store] field: the argument is not used. *)
Definition NewModel (port_Int : string -> Z)
    (ordP : gmap string (list string) -> list (string * list string)) (now : Time)
    (sysInfo : gmap string string) (version : string) (cfg : Config) (store : option SQLiteStore) : Model := {|
  m_containers := []; m_stats := ∅; m_events := []; m_sysInfo := sysInfo;
  m_alertEngine := if alerts_Enabled (Config.Alerts cfg) then Some (NewEngine (alerts_Rules (Config.Alerts cfg))) else None;
  m_activeAlerts := []; m_securityAlerts := []; m_securityAlertsMap := ∅; m_alertMarks := ∅;
  m_auditor := Some (NewAuditor port_Int ordP); m_logLines := []; m_showLogs := false; m_logContainers := [];
  m_logOffset := 0; m_logSearch := ""; m_searchMode := false; m_selectedIDs := ∅; m_showAll := false;
  m_confirmAction := ""; m_showStress := false; m_showCleanup := false;
  m_diskUsage := {| ImagesReclaimable := 0; VolumesReclaimable := 0 |}; m_pruning := false;
  m_pruneFeedback := ""; m_showMap := false; m_mapData := []; m_cursor := 0; m_showHelp := false;
  m_showDetail := false; m_width := 0; m_height := 0; m_startTime := now; m_version := version;
  m_store := None; m_cfg := cfg; m_eventCount := 0; m_lastUpdate := now; m_quitting := false;
  m_msg := I18n.Get (Language cfg); m_hostCPU := f64_zero; m_hostMem := f64_zero |}.

(** ** What an update takes from outside *)

Record UpdateEnv (Eng : Type) := mkUpdateEnv {
  ue_now : Time;
  ue_engine : Eng;
  (** The order of the n-th range over a map in the update. *)
  ue_order : forall V : Type, nat -> gmap string V -> list (string * V);
  (** The order in which the auditor's goroutines write. *)
  ue_sched : list ContainerDisplay -> list ContainerDisplay;
  (** [StreamContainerLogs] of a container. *)
  ue_streams : string -> result Chan;
  (** Creating the export file from a pattern and a content: its name. *)
  ue_export : string -> string -> result string
}.
Arguments ue_now {Eng}.
Arguments ue_engine {Eng}.
Arguments ue_order {Eng} _ {V}.
Arguments ue_sched {Eng}.
Arguments ue_streams {Eng}.
Arguments ue_export {Eng}.

(** What a handler returns: the next model and the batch of its commands. *)
Notation Updated := (option (Model * list Cmd)).

(** [m, nil]. *)
Definition idle (m : Model) : Updated := Some (m, []).

Definition add_event (now : Time) (icon action name : string) (m : Model) : Model :=
  m <| m_events := {| ee_Time := now; ee_Icon := icon; ee_Action := action; ee_Name := name |} :: m_events m |>.

(** [len(m.containers)]. *)
Definition n_containers (m : Model) : Z := Z.of_nat (length (m_containers m)).

(** [m.containers[m.cursor]]. *)
Definition at_cursor (m : Model) : option ContainerDisplay := index (m_containers m) (m_cursor m).

(** The two refreshing commands most handlers return. *)
Definition refresh_cmds (m : Model) : list Cmd := [fetchContainers (m_showAll m); fetchStats (m_showAll m)].

(** Membership of a key in the list of a [case]. *)
Definition key_in (k : string) (l : list string) : bool := bool_decide (k ∈ l).

Definition mark_sec_crit : string := " 🛡️ 🚨".
Definition mark_sec_warn : string := " 🛡️ ⚠️".
Definition mark_crit : string := " 🚨".
Definition mark_warn : string := " ⚠️".

(** [marks[id]], empty when missing. *)
Definition mark_of (marks : gmap string string) (id : string) : string := default "" (marks !! id).

(** One turn of the loop over the security alerts. *)
Definition mark_security (marks : gmap string string) (sa : Alert) : gmap string string :=
  if bool_decide (al_Severity sa = "critical") then <[al_ContainerID sa := mark_sec_crit]> marks
  else if bool_decide (mark_of marks (al_ContainerID sa) <> mark_sec_crit)
  then <[al_ContainerID sa := mark_sec_warn]> marks
  else marks.

(** One turn of the loop over the active alerts. *)
Definition mark_active (marks : gmap string string) (a : Alert) : gmap string string :=
  if bool_decide (al_Severity a = "critical") then <[al_ContainerID a := mark_crit]> marks
  else if bool_decide (mark_of marks (al_ContainerID a) <> mark_crit) &&
          bool_decide (mark_of marks (al_ContainerID a) <> mark_sec_crit)
  then <[al_ContainerID a := mark_warn]> marks
  else marks.

Definition updateAlertMarks (m : Model) : Model :=
  let marks := foldl mark_security ∅ (m_securityAlerts m) in
  let marks := foldl mark_active marks (m_activeAlerts m) in
  m <| m_alertMarks := marks |>.

Definition dockerEventIcon (action : string) : string :=
  if bool_decide (action = "start") then "🟢"
  else if bool_decide (action = "stop") then "🟡"
  else if bool_decide (action = "die") then "🔴"
  else if bool_decide (action = "create") then "📦"
  else if bool_decide (action = "destroy") then "🗑️ "
  else if bool_decide (action = "pause") then "⏸️ "
  else if bool_decide (action = "unpause") then "▶️ "
  else "📋".

(** The grouping of [processSecurityAlerts]: append to the alert's container. *)
Definition group_alert (groups : gmap string (list Alert)) (a : Alert) : gmap string (list Alert) :=
  <[al_ContainerID a := default [] (groups !! al_ContainerID a) ++ [a]]> groups.

Definition eventCapacity : nat := 50.
Arguments eventCapacity : simpl never.

Definition logCapacity : nat := 1000.
Arguments logCapacity : simpl never.

Section update.
Context {Eng : Type} `{Heng : ContainerEngine Eng} `{Hcase : UnicodeCase}.
Implicit Types (env : UpdateEnv Eng) (m : Model) (k : string).

(** *** Handlers of data *)

Definition processSecurityAlerts env m : Model :=
  match m_auditor m with
  | None => m
  | Some auditor =>
      let oldAlertsCount := length (m_securityAlerts m) in
      let '(secAlerts, auditor') :=
        Audit (ue_sched env) (ue_engine env) (ue_now env) (m_containers m) auditor in
      let m := m <| m_auditor := Some auditor' |> <| m_securityAlerts := secAlerts |>
                 <| m_securityAlertsMap := foldl group_alert ∅ secAlerts |> in
      let m := if (oldAlertsCount <? length secAlerts)%nat
               then add_event (ue_now env) "🛡️ " "SEC-AUDIT"
                      (itoa (Z.of_nat (length secAlerts)) +:+ " issues found") m
               else m in
      updateAlertMarks m
  end.

Definition handleContainerListMsg env (containers : list ContainerDisplay) m : Updated :=
  let m := m <| m_containers := containers |> <| m_lastUpdate := ue_now env |> in
  let m := if (n_containers m <=? m_cursor m) && (0 <? n_containers m)
           then m <| m_cursor := n_containers m - 1 |> else m in
  idle (processSecurityAlerts env m).

(** The event of one new alert. *)
Definition alert_event (now : Time) m (a : Alert) : Model :=
  let icon := if bool_decide (al_Severity a = "critical") then "🚨" else "⚠️ " in
  add_event now icon "ALERT" (FormatAlert a) m.

Definition handleStatsMsg env (stats : gmap string ContainerMetrics) m : Updated :=
  let m := m <| m_stats := stats |> in
  let m := match m_alertEngine m with
    | None => m
    | Some e =>
        let '(e', newAlerts) := Evaluate (ue_order env 0 (activeAlerts e)) (ue_order env 1 stats) (ue_now env) e in
        let best := bestAlerts (ue_order env 2 (activeAlerts e')) in
        let m := m <| m_alertEngine := Some e' |> <| m_activeAlerts := GetActiveAlerts (ue_order env 3 best) |> in
        foldl (alert_event (ue_now env)) m newAlerts
    end in
  idle (updateAlertMarks m).

Definition handleDockerEventMsg env (ev : ContainerEvent) m : Updated :=
  let m := m <| m_eventCount := m_eventCount m + 1 |> in
  let m := add_event (ue_now env) (dockerEventIcon (ev_Action ev)) (ev_Action ev) (ev_ContainerName ev) m in
  m ← match m_store m with
      | None => Some m
      | Some store =>
          store' ← SaveEvent (ev_Action ev) (ev_ContainerName ev) "" store;
          Some (m <| m_store := Some store' |>)
      end;
  m ← if (eventCapacity <? length (m_events m))%nat
      then events ← slice (m_events m) 0 (Z.of_nat eventCapacity); Some (m <| m_events := events |>)
      else Some m;
  Some (m, refresh_cmds m ++ [watchDockerEvents]).

Definition handleLogLineMsg (container line : string) (nextCh : option Chan) m : Updated :=
  let lines := m_logLines m ++ [{| le_Container := container; le_Text := line |}] in
  let len := Z.of_nat (length lines) in
  lines ← if (logCapacity <? length lines)%nat then slice lines (len - Z.of_nat logCapacity) len else Some lines;
  let m := m <| m_logLines := lines |> in
  Some (m, match nextCh with Some ch => [waitForNextLog container ch] | None => [] end).

Definition handleActionResultMsg env (success : bool) (action container : string) m : Updated :=
  let '(icon, action) := if success then ("✅", action) else ("❌", action +:+ " FAILED") in
  let m := add_event (ue_now env) icon action container m in
  Some (m, refresh_cmds m).

Definition handleStressResultMsg env (success : bool) (mode : string) (err : option error) m : Updated :=
  '(icon, name) ← (if success then Some ("⚡", "stress-" +:+ mode +:+ " (30s)")
                   else e ← err; Some ("❌", "stress FAILED: " +:+ e));
  let m := add_event (ue_now env) icon "stress" name m in
  Some (m, refresh_cmds m).

Definition handlePruneResultMsg env (reclaimed : Z) (target : string) (err : option error) m : Updated :=
  let m := m <| m_pruning := false |> in
  let m := match err with
    | Some e => add_event (ue_now env) "❌" "prune fail" e
                  (m <| m_pruneFeedback := "❌ Error cleaning " +:+ target +:+ ": " +:+ e |>)
    | None =>
        let reclaimedStr := formatBytes reclaimed in
        add_event (ue_now env) "🧹 " ("prune " +:+ target) ("Freed " +:+ reclaimedStr)
          (m <| m_pruneFeedback := "✅ Cleanup complete! Reclaimed " +:+ reclaimedStr +:+ " of free space." |>)
    end in
  Some (m, [fetchDiskUsage]).

Definition handleTickMsg (t : Time) m : Updated :=
  let m := m <| m_lastUpdate := t |> in
  if negb (m_showLogs m) && negb (m_showMap m) && bool_decide (m_confirmAction m = "")
  then Some (m, refresh_cmds m ++ [fetchHostStats; tickCmd])
  else Some (m, [tickCmd]).

(** *** Keys of the modal states *)

(** A modal handler's [handled] is always true. *)
Definition handleConfirmKeys k m : Updated :=
  if key_in k ["y"; "Y"] then
    let action := m_confirmAction m in
    let m := m <| m_confirmAction := "" |> in
    if m_cursor m <? n_containers m
    then c ← at_cursor m; Some (m, [executeAction action (cd_ID c) (cd_Name c)])
    else idle m
  else idle (m <| m_confirmAction := "" |>).

Definition handleStressKeys k m : Updated :=
  if key_in k ["c"; "m"; "b"] then
    let m := m <| m_showStress := false |> in
    let mode := if bool_decide (k = "c") then "cpu" else if bool_decide (k = "m") then "memory" else "both" in
    Some (m, [executeStress mode])
  else idle (m <| m_showStress := false |>).

Definition handleCleanupKeys k m : Updated :=
  if key_in k ["esc"; "c"; "C"] then idle (m <| m_showCleanup := false |> <| m_pruneFeedback := "" |>)
  else if bool_decide (k = "i")
  then Some (m <| m_pruning := true |> <| m_pruneFeedback := "" |>, [runPrune "images"])
  else if bool_decide (k = "v")
  then Some (m <| m_pruning := true |> <| m_pruneFeedback := "" |>, [runPrune "volumes"])
  else idle m.

Definition handleSearchKeys k m : Updated :=
  if bool_decide (k = "esc") then
    if m_searchMode m then idle (m <| m_searchMode := false |> <| m_logSearch := "" |>) else idle m
  else idle m.

(** [None]: not handled, no modal state is active. *)
Definition handleModalKeys k m : option Updated :=
  if bool_decide (m_confirmAction m <> "") then Some (handleConfirmKeys k m)
  else if m_showStress m then Some (handleStressKeys k m)
  else if m_showCleanup m then Some (handleCleanupKeys k m)
  else if m_searchMode m then Some (handleSearchKeys k m)
  else None.

(** *** Navigation *)

Definition handleSearchToggle m : Model := if m_showLogs m then m <| m_searchMode := true |> else m.

Definition handleScrollUp m : Model :=
  if m_showLogs m then m <| m_logOffset := m_logOffset m + 1 |>
  else if 0 <? m_cursor m then m <| m_cursor := m_cursor m - 1 |> else m.

Definition handleScrollDown m : Model :=
  if m_showLogs m then
    if 0 <? m_logOffset m then m <| m_logOffset := m_logOffset m - 1 |> else m
  else if m_cursor m <? n_containers m - 1 then m <| m_cursor := m_cursor m + 1 |> else m.

Definition handleScrollReset m : Model := if m_showLogs m then m <| m_logOffset := 0 |> else m.

(** The dashboard itself is on screen, and its cursor on a container. *)
Definition on_dashboard m : bool :=
  negb (m_showLogs m) && negb (m_showDetail m) && negb (m_showMap m) && (m_cursor m <? n_containers m).

Definition handleSpaceSelection m : option Model :=
  if on_dashboard m then
    c ← at_cursor m;
    let id := cd_ID c in
    Some (if bool_decide (id ∈ m_selectedIDs m)
          then m <| m_selectedIDs := m_selectedIDs m ∖ {[id]} |>
          else m <| m_selectedIDs := {[id]} ∪ m_selectedIDs m |>)
  else Some m.

Definition handleNavigationKeys k m : Updated :=
  if bool_decide (k = "/") then idle (handleSearchToggle m)
  else if key_in k ["up"; "k"] then idle (handleScrollUp m)
  else if key_in k ["down"; "j"] then idle (handleScrollDown m)
  else if bool_decide (k = "f") then idle (handleScrollReset m)
  else if bool_decide (k = " ") then m ← handleSpaceSelection m; idle m
  else idle m.

(** *** Logs *)

(** Whether a line passes the search text. *)
Definition log_matches (search : string) (entry : LogEntry) : bool :=
  bool_decide (search = "") || Contains (ToLower (le_Text entry)) (ToLower search).

(** The lines an export writes, and their number. *)
Definition export_content m : string * Z :=
  foldl (fun '(content, lineCount) entry =>
    if log_matches (m_logSearch m) entry then
      let content := if (1 <? length (m_logContainers m))%nat
                     then content +:+ "[" +:+ le_Container entry +:+ "] " else content in
      (content +:+ le_Text entry +:+ newline, lineCount + 1)
    else (content, lineCount)) ("", 0) (m_logLines m).

Definition export_pattern m : option string :=
  middle ← (if (length (m_logContainers m) =? 1)%nat
            then name ← index (m_logContainers m) 0; Some (name +:+ "-")
            else Some "multi-");
  Some ("castle-rock-logs-" +:+ middle +:+ "*.txt").

Definition exportLogs env m : Updated :=
  if negb (m_showLogs m) || bool_decide (m_logLines m = []) then idle m else
  let '(content, lineCount) := export_content m in
  pattern ← export_pattern m;
  idle (match ue_export env pattern content with
        | Err e => add_event (ue_now env) "❌" "export fail" e m
        | Ok fileName => add_event (ue_now env) "📤" "export" (itoa lineCount +:+ " lines → " +:+ fileName) m
        end).

(** The wait for the first line of a container's logs, if the stream opens. *)
Definition open_stream env (c : ContainerDisplay) : list Cmd :=
  match ue_streams env (cd_ID c) with Ok ch => [waitForNextLog (cd_Name c) ch] | Err _ => [] end.

Definition startMultiTailLogs env m : Updated :=
  if m_showLogs m || bool_decide (m_selectedIDs m = ∅) then idle m else
  let m := m <| m_showLogs := true |> <| m_logOffset := 0 |>
             <| m_logLines := [{| le_Container := "System"; le_Text := "Loading aggregate logs..." |}] |> in
  let '(names, cmds) := foldl (fun '(names, cmds) c =>
      if bool_decide (cd_ID c ∈ m_selectedIDs m)
      then (names ++ [cd_Name c], cmds ++ open_stream env c) else (names, cmds)) ([], []) (m_containers m) in
  Some (m <| m_logContainers := names |>, cmds).

Definition toggleSingleContainerLogs env m : Updated :=
  if m_showLogs m then idle (m <| m_showLogs := false |> <| m_logLines := [] |>)
  else if n_containers m <=? m_cursor m then idle m
  else
    c ← at_cursor m;
    let m := m <| m_showLogs := true |> <| m_logOffset := 0 |>
               <| m_logLines := [{| le_Container := cd_Name c; le_Text := "Loading logs..." |}] |>
               <| m_logContainers := [cd_Name c] |> in
    Some (m, open_stream env c).

Definition handleLogKeys env k m : Updated :=
  if bool_decide (k = "E") then exportLogs env m
  else if bool_decide (k = "L") then startMultiTailLogs env m
  else if bool_decide (k = "l") then toggleSingleContainerLogs env m
  else idle m.

(** *** Actions and views *)

Definition handleActionKeys k m : Updated :=
  if bool_decide (k = "s") then
    idle (if m_cursor m <? n_containers m then m <| m_confirmAction := "stop" |> else m)
  else if bool_decide (k = "R") then
    idle (if m_cursor m <? n_containers m then m <| m_confirmAction := "restart" |> else m)
  else if bool_decide (k = "x") then
    if on_dashboard m then c ← at_cursor m; Some (m, [executeShell (cd_Name c)]) else idle m
  else if bool_decide (k = "S") then idle (m <| m_showStress := true |>)
  else idle m.

Definition handleViewKeys env k m : Updated :=
  if bool_decide (k = "?") then idle (m <| m_showHelp := negb (m_showHelp m) |>)
  else if bool_decide (k = "enter") then idle (m <| m_showDetail := negb (m_showDetail m) |>)
  else if bool_decide (k = "esc") then
    idle (m <| m_showDetail := false |> <| m_showHelp := false |> <| m_showLogs := false |>
            <| m_logLines := [] |> <| m_searchMode := false |> <| m_logSearch := "" |>
            <| m_confirmAction := "" |> <| m_showStress := false |> <| m_showMap := false |>
            <| m_showCleanup := false |>)
  else if bool_decide (k = "C") then
    if negb (m_showLogs m) && negb (m_showDetail m) && negb (m_showMap m) then
      let m := m <| m_showCleanup := negb (m_showCleanup m) |> in
      if m_showCleanup m then Some (m, [fetchDiskUsage]) else idle m
    else idle m
  else if key_in k ["m"; "M"] then
    let m := m <| m_showMap := negb (m_showMap m) |> in
    if m_showMap m then
      built ← BuildMap (ue_order env 0) (ue_engine env);
      idle (match built with Ok edges => m <| m_mapData := edges |> | Err _ => m end)
    else idle m
  else idle m.

Definition handleNormalKeys env k m : Updated :=
  if key_in k ["a"; "A"] then
    let m := m <| m_showAll := negb (m_showAll m) |> in Some (m, refresh_cmds m)
  else if key_in k ["q"; "ctrl+c"] then Some (m <| m_quitting := true |>, [Quit])
  else if key_in k ["/"; "up"; "k"; "down"; "j"; "f"; " "] then handleNavigationKeys k m
  else if key_in k ["l"; "L"; "E"] then handleLogKeys env k m
  else if key_in k ["s"; "R"; "x"; "S"] then handleActionKeys k m
  else if bool_decide (k = "r") then Some (m, refresh_cmds m)
  else if key_in k ["?"; "enter"; "esc"; "C"; "m"; "M"] then handleViewKeys env k m
  else idle m.

Definition handleKeyMsg env k m : Updated :=
  match handleModalKeys k m with Some r => r | None => handleNormalKeys env k m end.

(** *** Update *)

Definition Update env (msg : Msg) m : Updated :=
  match msg with
  | KeyMsg k => handleKeyMsg env k m
  | WindowSizeMsg w h => idle (m <| m_width := w |> <| m_height := h |>)
  | containerListMsg cs => handleContainerListMsg env cs m
  | statsMsg stats => handleStatsMsg env stats m
  | dockerEventMsg ev => handleDockerEventMsg env ev m
  | dockerErrorMsg err => e ← err; idle (add_event (ue_now env) "❌" "error" e m)
  | logLineMsg c line ch => handleLogLineMsg c line ch m
  | actionResultMsg ok action c _ => handleActionResultMsg env ok action c m
  | stressResultMsg ok mode err => handleStressResultMsg env ok mode err m
  | diskUsageMsg usage => idle (m <| m_diskUsage := usage |>)
  | pruneResultMsg n target err => handlePruneResultMsg env n target err m
  | hostStatsMsg c h => idle (m <| m_hostCPU := c |> <| m_hostMem := h |>)
  | tickMsg t => handleTickMsg t m
  end.

(** ** Commands *)

(** How the [select] of [watchDockerEvents] ends: the context is done, a value from the
    error channel (nil when it is closed), or one from the event channel. *)
Inductive WatchOutcome :=
  | WatchCtxDone
  | WatchError (err : option error)
  | WatchEvent (ev : option ContainerEvent).

(** The cases the [select] can take on a subscription. *)
Definition watch_ready (s : Watch) (o : WatchOutcome) : Prop :=
  match o with
  | WatchCtxDone => wa_ctxDone s = true
  | WatchError (Some e) => wa_err s = Some e
  | WatchError None => wa_phase s = Finished /\ wa_err s = None
  | WatchEvent (Some ev) => wa_phase s = Sending ev
  | WatchEvent None => wa_phase s = Finished
  end.

(** What a command takes from outside the engine. *)
Record Outside := mkOutside {
  os_cpu : list float64;              (* [cpu.Percent(0, false)] *)
  os_mem : option float64;            (* [mem.VirtualMemory()], if not nil *)
  os_time : Time;                     (* of the tick *)
  os_watch : WatchOutcome;
  os_line : option string;            (* from the log channel; [None] when it is closed *)
  os_shell : option error * option error   (* of [/bin/sh] and, if it failed, [/bin/bash] *)
}.

(** A remote container as the leader's store lists it. *)
Definition remoteDisplay (r : ContainerInfo) : ContainerDisplay :=
  zeroDisplay <| cd_HostID := ci_HostID r |> <| cd_ID := ci_ID r |> <| cd_Name := ci_Name r |>
    <| cd_Image := ci_Image r |> <| cd_Status := ci_Status r |> <| cd_State := ci_State r |>
    <| cd_Ports := ci_Ports r |>.

Definition localDisplay (hostID : string) (c : ContainerDisplay) : ContainerDisplay :=
  c <| cd_HostID := if bool_decide (hostID = "") then "local" else hostID |>.

(** The body of a command: its message, if any, and the engine after it.  [receiver]
    holds what the cluster receiver returns, for a leader. *)
Definition exec_cmd (cfg : Config) (receiver : option (list ContainerInfo * list ContainerMetrics))
    (o : Outside) (c : Cmd) (e : Eng) : option (option Msg * Eng) :=
  match c with
  | fetchContainers showAll =>
      '(r, e) ← ListRunningContainersDetailed showAll e;
      Some (match r with
      | Err err => (Some (dockerErrorMsg (Some err)), e)
      | Ok containers =>
          let local := localDisplay (cluster_HostID (Config.Cluster cfg)) <$> containers in
          let remotes := match receiver with Some (rs, _) => remoteDisplay <$> rs | None => [] end in
          (Some (containerListMsg (local ++ remotes)), e)
      end)
  | fetchStats showAll =>
      listed ← ListRunningContainers e showAll;
      Some (match listed with
      | Err err => (Some (dockerErrorMsg (Some err)), e)
      | Ok containers =>
          match ContainerEngine.GetAllContainerStats e containers with
          | Err err => (Some (dockerErrorMsg (Some err)), e)
          | Ok stats =>
              let remotes := match receiver with Some (_, ms) => ms | None => [] end in
              (Some (statsMsg (foldl (fun stats rs => <[cm_ContainerID rs := rs]> stats) stats remotes)), e)
          end
      end)
  | fetchHostStats =>
      Some (Some (hostStatsMsg (default f64_zero (head (os_cpu o))) (default f64_zero (os_mem o))), e)
  | watchDockerEvents =>
      Some (match os_watch o with
      | WatchCtxDone => None
      | WatchError err => Some (dockerErrorMsg err)
      | WatchEvent None => None
      | WatchEvent (Some ev) => Some (dockerEventMsg ev)
      end, e)
  | tickCmd => Some (Some (tickMsg (os_time o)), e)
  | waitForNextLog name ch =>
      Some (match os_line o with Some line => Some (logLineMsg name line (Some ch)) | None => None end, e)
  | executeAction action id name =>
      let '(r, e) := if bool_decide (action = "stop") then StopContainer id e
                     else if bool_decide (action = "restart") then RestartContainer id e
                     else (Ok tt, e) in
      let err := match r with Ok _ => None | Err err => Some err end in
      Some (Some (actionResultMsg (bool_decide (err = None)) action name err), e)
  | executeStress mode =>
      let '(r, e) := RunStressTest mode 30 e in
      let err := match r with Ok _ => None | Err err => Some err end in
      Some (Some (stressResultMsg (bool_decide (err = None)) mode err), e)
  | runPrune target =>
      let '(r, e) := if bool_decide (target = "images") then PruneImages e
                     else if bool_decide (target = "volumes") then PruneVolumes e
                     else (Ok 0, e) in
      Some (Some (match r with
        | Ok n => pruneResultMsg n target None
        | Err err => pruneResultMsg 0 target (Some err)
        end), e)
  | fetchDiskUsage =>
      Some (Some (match GetDiskUsage e with
        | Ok usage => diskUsageMsg usage
        | Err err => dockerErrorMsg (Some err)
        end), e)
  | executeShell _ =>
      Some (match os_shell o with
        | (Some _, Some err2) => Some (dockerErrorMsg (Some ("shell exec failed (sh/bash): " +:+ err2)))
        | _ => None
        end, e)
  | Quit => Some (None, e)
  end.

(** The commands of [Init]. *)
Definition Init m : list Cmd := refresh_cmds m ++ [fetchHostStats; watchDockerEvents; tickCmd].
End update.
