(* ===== verification/TuiRuntime.v ===== *)
(** * The terminal program's runs

    The Bubble Tea loop around [Update]: outstanding commands and undelivered messages as
    lists any element of which may be next, keys and window sizes from the terminal, and
    an engine that changes on its own.  The theorems are about every run. *)
From S2P Require Import Prelude.
From S2P Require Import GoStrings.
From S2P Require Import GoFloat.
From S2P Require Import GoTime.
From S2P Require Import Models.
From S2P Require Import Config.
From S2P Require Import Alerts.
From S2P Require Import Logger.
From S2P Require Import DockerTypes.
From S2P Require Import ContainerEngine.
From S2P Require Import DockerStreams.
From S2P Require Import Security.
From S2P Require Import Topology.
From S2P Require Import Storage.
From S2P Require Import I18n.
From S2P Require Import Tui.

(** ** The program *)

Record Program (Eng : Type) := mkProgram {
  p_model : Model;
  p_cmds : list Cmd;       (* started and not finished *)
  p_msgs : list Msg;       (* sent and not delivered *)
  p_engine : Eng
}.
Arguments mkProgram {Eng}.
Arguments p_model {Eng}.
Arguments p_cmds {Eng}.
Arguments p_msgs {Eng}.
Arguments p_engine {Eng}.

(** What happens in a step: the terminal sends a message, a command finishes, a message
    is delivered, or the engine changes. *)
Inductive Input :=
  | Terminal (msg : Msg)
  | Finish (c : Cmd)
  | Deliver (msg : Msg)
  | World.

Definition from_terminal (msg : Msg) : Prop :=
  match msg with KeyMsg _ | WindowSizeMsg _ _ => True | _ => False end.

(** The orders of an environment are orders Go's ranges may take. *)
Definition env_ok {Eng} (env : UpdateEnv Eng) : Prop :=
  (forall V n (m : gmap string V), range_of m (ue_order env n m)) /\
  (forall cs, ue_sched env cs ≡ₚ cs).

Section program.
Context {Eng : Type} `{Heng : ContainerEngine Eng} `{Hcase : UnicodeCase}.
Context (cfg : Config).
Implicit Types (p : Program Eng) (m : Model) (k : string).

(** A step with the commands it starts.  The program runs until [Quit] is taken: no step
    finishes that command.  A panic is a missing step. *)
Inductive step : Program Eng -> Input -> list Cmd -> Program Eng -> Prop :=
  | step_terminal m cmds msgs e env msg m' new :
      from_terminal msg -> env_ok env -> ue_engine env = e -> Update env msg m = Some (m', new) ->
      step (mkProgram m cmds msgs e) (Terminal msg) new (mkProgram m' (cmds ++ new) msgs e)
  | step_deliver m cmds l1 msg l2 e env m' new :
      env_ok env -> ue_engine env = e -> Update env msg m = Some (m', new) ->
      step (mkProgram m cmds (l1 ++ msg :: l2) e) (Deliver msg) new (mkProgram m' (cmds ++ new) (l1 ++ l2) e)
  | step_finish m c1 c c2 msgs e receiver o r e' :
      c <> Quit -> exec_cmd cfg receiver o c e = Some (r, e') ->
      step (mkProgram m (c1 ++ c :: c2) msgs e) (Finish c) []
           (mkProgram m (c1 ++ c2) (msgs ++ option_list r) e')
  | step_world m cmds msgs e e' :
      step (mkProgram m cmds msgs e) World [] (mkProgram m cmds msgs e').

(** Runs from a program, with their inputs and the commands each step started. *)
Inductive run (p0 : Program Eng) : list (Input * list Cmd) -> Program Eng -> Prop :=
  | run_nil : run p0 [] p0
  | run_snoc tr p i new p' : run p0 tr p -> step p i new p' -> run p0 (tr ++ [(i, new)]) p'.

(** A program at its start. *)
Definition start port_Int ordP now sysInfo version store (e : Eng) : Program Eng :=
  let m := NewModel port_Int ordP now sysInfo version cfg store in mkProgram m (Init m) [] e.

Lemma run_trans p0 tr1 p1 tr2 p2 : run p0 tr1 p1 -> run p1 tr2 p2 -> run p0 (tr1 ++ tr2) p2.
Proof.
  intros H1 H2. induction H2 as [|tr p i new p' _ IH Hs]; [by rewrite app_nil_r|].
  rewrite app_assoc. by eapply run_snoc.
Qed.

(** A property of the model that every update preserves holds throughout a run. *)
Lemma run_model_inv (P : Model -> Prop) p0 tr p :
  (forall env msg m m' new, env_ok env -> Update (Eng:=Eng) env msg m = Some (m', new) -> P m -> P m') ->
  run p0 tr p -> P (p_model p0) -> P (p_model p).
Proof. intros HP Hr H0. induction Hr as [|tr p i new p' _ IH Hs]; [done|]. destruct Hs; cbn in *; eauto. Qed.

(** ** What one update does *)

(** The handlers, unfolded. *)
Ltac open_handlers :=
  unfold Update, handleKeyMsg, handleModalKeys, handleConfirmKeys, handleStressKeys, handleCleanupKeys,
    handleSearchKeys, handleNormalKeys, handleNavigationKeys, handleSpaceSelection, handleLogKeys, exportLogs,
    startMultiTailLogs, toggleSingleContainerLogs, handleActionKeys, handleViewKeys, handleContainerListMsg,
    handleStatsMsg, handleDockerEventMsg, handleLogLineMsg, handleActionResultMsg, handleStressResultMsg,
    handlePruneResultMsg, handleTickMsg, idle in *.

(** What the handlers of data leave alone: everything but the alerts and the events. *)
Record same_ui (m m' : Model) : Prop := {
  su_containers : m_containers m' = m_containers m;
  su_logLines : m_logLines m' = m_logLines m;
  su_showLogs : m_showLogs m' = m_showLogs m;
  su_logOffset : m_logOffset m' = m_logOffset m;
  su_logSearch : m_logSearch m' = m_logSearch m;
  su_searchMode : m_searchMode m' = m_searchMode m;
  su_confirm : m_confirmAction m' = m_confirmAction m;
  su_stress : m_showStress m' = m_showStress m;
  su_cleanup : m_showCleanup m' = m_showCleanup m;
  su_map : m_showMap m' = m_showMap m;
  su_detail : m_showDetail m' = m_showDetail m;
  su_cursor : m_cursor m' = m_cursor m;
  su_store : m_store m' = m_store m;
  su_showAll : m_showAll m' = m_showAll m
}.

Lemma same_ui_refl m : same_ui m m.
Proof. by split. Qed.

Lemma same_ui_trans m1 m2 m3 : same_ui m1 m2 -> same_ui m2 m3 -> same_ui m1 m3.
Proof. intros [] []. split; congruence. Qed.

Lemma processSecurityAlerts_ui env m : same_ui m (processSecurityAlerts (Eng:=Eng) env m).
Proof.
  unfold processSecurityAlerts. destruct (m_auditor m) as [a|]; [|apply same_ui_refl].
  destruct (Audit _ _ _ _ _) as [l a']. by destruct (_ <? _)%nat.
Qed.

Lemma alert_events_ui now l m : same_ui m (foldl (alert_event now) m l).
Proof.
  apply (foldl_inv (same_ui m)); [apply same_ui_refl|]. intros m' a _ Hm.
  eapply same_ui_trans; [exact Hm|by split].
Qed.

Lemma handleStatsMsg_ui env stats m m' new :
  handleStatsMsg (Eng:=Eng) env stats m = Some (m', new) -> same_ui m m' /\ new = [].
Proof.
  unfold handleStatsMsg, idle. cbn [update m_alertEngine]. destruct (m_alertEngine m) as [e|].
  - destruct (Evaluate _ _ _ e) as [e' l]. intros [= <- <-]. split; [|done].
    set (m1 := _ <| m_activeAlerts := _ |>). eapply (same_ui_trans _ m1); [by split|].
    eapply same_ui_trans; [apply (alert_events_ui (ue_now env) l m1)|by split].
  - intros [= <- <-]. by split.
Qed.
(** A Docker event without a store. *)
Lemma docker_event_ui env ev m :
  m_store m = None ->
  exists m', handleDockerEventMsg (Eng:=Eng) env ev m = Some (m', refresh_cmds m ++ [watchDockerEvents]) /\
    same_ui m m'.
Proof.
  intros Hs. unfold handleDockerEventMsg. cbn [update m_store add_event]. rewrite Hs.
  cbn [mbind option_bind update m_events].
  match goal with |- context [slice ?l _ _] => destruct (Nat.ltb_spec eventCapacity (length l)) end;
    [rewrite slice_in_range by lia|]; by eexists.
Qed.

(** The end of a list. *)
Definition keep_last {A} (n : nat) (l : list A) : list A := drop (length l - n) l.

(** A log line: the slice is in range. *)
Lemma log_line_update container line nextCh m :
  handleLogLineMsg container line nextCh m =
  Some (m <| m_logLines := keep_last logCapacity (m_logLines m ++ [{| le_Container := container; le_Text := line |}]) |>,
        match nextCh with Some ch => [waitForNextLog container ch] | None => [] end).
Proof.
  unfold handleLogLineMsg, keep_last. set (l := m_logLines m ++ _).
  destruct (Nat.ltb_spec logCapacity (length l)).
  - rewrite slice_in_range by lia. rewrite take_ge by (rewrite length_drop; lia).
    by replace (Z.to_nat (Z.of_nat (length l) - Z.of_nat logCapacity)) with (length l - logCapacity)%nat by lia.
  - replace (length l - logCapacity)%nat with O by lia. done.
Qed.

Lemma export_pattern_total m : is_Some (export_pattern m).
Proof. unfold export_pattern. by destruct (m_logContainers m) as [|n [|n2 l]]. Qed.

(** *** Invariant of the interface *)

Definition b2z (b : bool) : Z := if b then 1 else 0.

(** The number of states that take the keys for themselves. *)
Definition modals (m : Model) : Z :=
  b2z (bool_decide (m_confirmAction m <> "")) + b2z (m_showStress m) + b2z (m_showCleanup m) +
  b2z (m_searchMode m).

Record ui_wf (m : Model) : Prop := {
  wf_cursor : 0 <= m_cursor m /\ (m_containers m = [] \/ m_cursor m < n_containers m);
  wf_modals : modals m <= 1;
  wf_search : m_searchMode m = true -> m_showLogs m = true;
  wf_cleanup : m_showCleanup m = true ->
    m_showLogs m = false /\ m_showDetail m = false /\ m_showMap m = false;
  wf_logSearch : m_logSearch m = "";
  wf_logLines : (length (m_logLines m) <= logCapacity)%nat;
  wf_logOffset : 0 <= m_logOffset m;
  wf_store : m_store m = None
}.

Lemma same_ui_wf m m' : same_ui m m' -> ui_wf m -> ui_wf m'.
Proof.
  intros [] []. split; unfold modals, n_containers in *; try congruence.
  - by rewrite su_confirm0, su_stress0, su_cleanup0, su_searchMode0.
  - by rewrite su_showLogs0, su_searchMode0.
  - by rewrite su_showLogs0, su_detail0, su_map0, su_cleanup0.
Qed.

Lemma containers_wf env cs m m' new :
  handleContainerListMsg (Eng:=Eng) env cs m = Some (m', new) -> ui_wf m -> ui_wf m'.
Proof.
  intros [= <- <-] Hwf. eapply same_ui_wf; [apply processSecurityAlerts_ui|].
  destruct Hwf as [[Hc _] H1 H2 H3 H4 H5 H6 H7]. cbn [update].
  destruct (_ && _) eqn:E; split; unfold modals, n_containers in *; cbn in *; try done.
  - reflect_bools. split; [lia|]. right. lia.
  - split; [done|]. apply andb_false_iff in E as [E|E]; reflect_bools.
    + by right.
    + left. apply nil_length_inv. lia.
Qed.

Lemma keep_last_length {A} n (l : list A) : (length (keep_last n l) <= n)%nat.
Proof. unfold keep_last. rewrite length_drop. lia. Qed.

Lemma logCapacity_pos : (1 <= logCapacity)%nat.
Proof. unfold logCapacity. lia. Qed.

(** Close the goals of an invariant after the handler's branches are open. *)
Ltac solve_wf :=
  pose proof logCapacity_pos;
  match goal with H : ui_wf _ |- _ => destruct H as [[? ?] ? ? ? ? ? ? ?] end;
  split; unfold modals, n_containers, b2z in *; cbn in *; reflect_bools;
  try (by intuition congruence); try lia; try (by intuition lia);
  repeat case_bool_decide; try done;
  repeat match goal with
  | |- context [if ?b then _ else _] => destruct b
  | H : context [if ?b then _ else _] |- _ => destruct b
  end; lia.

Lemma modal_keys_wf k m r m' new :
  handleModalKeys k m = Some r -> r = Some (m', new) -> ui_wf m -> ui_wf m'.
Proof.
  intros Hm -> Hwf. open_handlers.
  repeat (case_match; simplify_option_eq); try done; solve_wf.
Qed.

(** No modal state: the keys go to [handleNormalKeys]. *)
Definition no_modal (m : Model) : Prop :=
  m_confirmAction m = "" /\ m_showStress m = false /\ m_showCleanup m = false /\ m_searchMode m = false.

Lemma modal_None k m : handleModalKeys k m = None -> no_modal m.
Proof.
  unfold handleModalKeys, no_modal. case_bool_decide; [done|].
  by destruct (m_showStress m), (m_showCleanup m), (m_searchMode m).
Qed.

Lemma modals_zero m : no_modal m -> modals m = 0.
Proof. unfold modals. intros (-> & -> & -> & ->). done. Qed.

Lemma navigation_wf k m m' new :
  no_modal m -> handleNavigationKeys k m = Some (m', new) -> ui_wf m -> ui_wf m'.
Proof.
  intros (? & ? & ? & ?) Hr Hwf. unfold handleNavigationKeys, handleSearchToggle, handleScrollUp,
    handleScrollDown, handleScrollReset, handleSpaceSelection, idle in Hr.
  repeat (case_match; simplify_option_eq); try done; solve_wf.
Qed.

Lemma action_wf k m m' new :
  no_modal m -> handleActionKeys k m = Some (m', new) -> ui_wf m -> ui_wf m'.
Proof.
  intros (? & ? & ? & ?) Hr Hwf. unfold handleActionKeys, idle in Hr.
  repeat (case_match; simplify_option_eq); try done; solve_wf.
Qed.

Lemma log_keys_wf env k m m' new :
  no_modal m -> handleLogKeys (Eng:=Eng) env k m = Some (m', new) -> ui_wf m -> ui_wf m'.
Proof.
  intros (? & ? & ? & ?) Hr Hwf. unfold handleLogKeys, exportLogs, startMultiTailLogs,
    toggleSingleContainerLogs, idle in Hr.
  repeat (case_match; simplify_option_eq); try done; solve_wf.
Qed.

Lemma view_keys_wf env k m m' new :
  no_modal m -> handleViewKeys (Eng:=Eng) env k m = Some (m', new) -> ui_wf m -> ui_wf m'.
Proof.
  intros (? & ? & ? & ?) Hr Hwf. unfold handleViewKeys, idle in Hr.
  repeat (case_match; simplify_option_eq); try done; solve_wf.
Qed.

Lemma normal_keys_wf env k m m' new :
  no_modal m -> handleNormalKeys (Eng:=Eng) env k m = Some (m', new) -> ui_wf m -> ui_wf m'.
Proof.
  intros Hm Hr Hwf. unfold handleNormalKeys, idle in Hr.
  repeat (case_match; [simplify_eq; first
    [by eapply navigation_wf | by eapply log_keys_wf | by eapply action_wf | by eapply view_keys_wf
    | destruct Hm as (? & ? & ? & ?); solve_wf]|]).
  by simplify_eq.
Qed.

(** A handler that leaves the interface alone. *)
Ltac same_ui := eapply same_ui_wf; [|eassumption]; by split.

Lemma Update_wf env msg m m' new :
  Update (Eng:=Eng) env msg m = Some (m', new) -> ui_wf m -> ui_wf m'.
Proof.
  intros Hu Hwf. destruct msg; cbn [Update] in Hu; unfold idle in Hu.
  - unfold handleKeyMsg in Hu. destruct (handleModalKeys key m) as [r|] eqn:E; [by eapply modal_keys_wf|].
    eapply normal_keys_wf; [by eapply modal_None|done..].
  - simplify_eq. same_ui.
  - by eapply containers_wf.
  - apply handleStatsMsg_ui in Hu as [Hu _]. exact (same_ui_wf _ _ Hu Hwf).
  - destruct (docker_event_ui env event m (wf_store _ Hwf)) as (m2 & E & Hs).
    rewrite E in Hu. simplify_eq. exact (same_ui_wf _ _ Hs Hwf).
  - destruct err; simplify_option_eq. same_ui.
  - rewrite log_line_update in Hu. simplify_eq. destruct Hwf. split; cbn; try done. apply keep_last_length.
  - unfold handleActionResultMsg in Hu. destruct success; simplify_eq; same_ui.
  - unfold handleStressResultMsg in Hu. destruct success, err; simplify_option_eq; same_ui.
  - simplify_eq. same_ui.
  - destruct err; unfold handlePruneResultMsg in Hu; simplify_eq; same_ui.
  - simplify_eq. same_ui.
  - unfold handleTickMsg in Hu. destruct (_ && _); simplify_eq; same_ui.
Qed.

Lemma start_wf port_Int ordP now sysInfo version store e :
  ui_wf (p_model (start port_Int ordP now sysInfo version store e)).
Proof.
  split; unfold modals, n_containers; cbn; try done; [split; [done|by left]|apply Nat.le_0_l].
Qed.

Lemma run_wf port_Int ordP now sysInfo version store e tr p :
  run (start port_Int ordP now sysInfo version store e) tr p -> ui_wf (p_model p).
Proof.
  intros Hr. eapply (run_model_inv ui_wf); [|exact Hr|apply start_wf].
  intros. by eapply Update_wf.
Qed.

(** *** Panics *)

Lemma at_cursor_Some m :
  0 <= m_cursor m -> m_cursor m < n_containers m -> exists c, at_cursor m = Some c /\ c ∈ m_containers m.
Proof.
  intros H0 Hn. unfold at_cursor. destruct (index_in_range (m_containers m) (m_cursor m)) as (c & -> & Hc); [done|].
  exists c. split; [done|]. by eapply list_elem_of_lookup_2.
Qed.

(** A message its command could send: a failed stress test has an error. *)
Definition msg_ok (msg : Msg) : Prop :=
  match msg with stressResultMsg success _ err => success = false -> err <> None | _ => True end.

Lemma confirm_keys_total k m : ui_wf m -> is_Some (handleConfirmKeys k m).
Proof.
  intros [[Hc _] _ _ _ _ _ _ _]. unfold handleConfirmKeys, idle. destruct (key_in _ _); [|done].
  cbn [update m_cursor]. destruct (_ <? _) eqn:E; [|done]. apply Z.ltb_lt in E.
  destruct (at_cursor_Some (m <| m_confirmAction := "" |>)) as (c & -> & _); [exact Hc|exact E|done].
Qed.

Lemma modal_keys_total k m r : ui_wf m -> handleModalKeys k m = Some r -> is_Some r.
Proof.
  intros Hwf. unfold handleModalKeys, handleStressKeys, handleCleanupKeys, handleSearchKeys, idle.
  pose proof (confirm_keys_total k m Hwf).
  repeat (case_match; simplify_eq; try (intros [= <-]); try done).
Qed.

Lemma on_dashboard_Some m : ui_wf m -> on_dashboard m = true -> exists c, at_cursor m = Some c.
Proof.
  intros [[Hc _] _ _ _ _ _ _ _] Hd. unfold on_dashboard in Hd. reflect_bools.
  destruct (at_cursor_Some m) as (c & Ec & _); eauto.
Qed.

Lemma normal_keys_total env k m : ui_wf m -> is_Some (handleNormalKeys (Eng:=Eng) env k m).
Proof.
  intros Hwf. pose proof (on_dashboard_Some m Hwf) as Hd. pose proof Hwf as [[Hc _] _ _ _ _ _ _ _].
  assert (n_containers m <=? m_cursor m = false -> exists c, at_cursor m = Some c) as Ht.
  { intros E. apply Z.leb_gt in E. destruct (at_cursor_Some m) as (c & ? & _); eauto. }
  unfold handleNormalKeys, handleNavigationKeys, handleLogKeys, handleActionKeys, handleViewKeys, exportLogs,
    startMultiTailLogs, toggleSingleContainerLogs, handleSpaceSelection, idle.
  repeat match goal with
  | |- is_Some (Some _) => done
  | |- context [match export_content m with _ => _ end] => destruct (export_content m)
  | |- context [export_pattern m] => destruct (export_pattern_total m) as [? ->]
  | |- context [BuildMap ?o ?e] => destruct (BuildMap_total o e) as [? ->]
  | |- context [foldl ?f ?a (m_containers ?x)] => destruct (foldl f a (m_containers x))
  | |- is_Some (if on_dashboard m then _ else _) => destruct (on_dashboard m)
  | |- is_Some (_ ← if on_dashboard m then _ else _; _) => destruct (on_dashboard m)
  | |- is_Some (if ?b then _ else _) => destruct b
  | |- context [at_cursor m] => destruct (Hd eq_refl) as [c ->] || destruct (Ht eq_refl) as [c ->]
  | _ => progress cbn [mbind option_bind]
  end.
Qed.

Lemma Update_total env msg m :
  ui_wf m -> msg_ok msg -> Update (Eng:=Eng) env msg m = None <-> msg = dockerErrorMsg None.
Proof.
  intros Hwf Hok. split; [|by intros ->]. intros Hn. destruct msg; cbn [Update] in Hn; unfold idle in Hn; try done.
  - unfold handleKeyMsg in Hn. destruct (handleModalKeys key m) as [r|] eqn:E.
    + destruct (modal_keys_total key m r Hwf E). congruence.
    + destruct (normal_keys_total env key m Hwf). congruence.
  - destruct (docker_event_ui env event m (wf_store _ Hwf)) as (m2 & E & _). by rewrite E in Hn.
  - by destruct err.
  - by rewrite log_line_update in Hn.
  - unfold handleActionResultMsg in Hn. by destruct success.
  - unfold handleStressResultMsg in Hn. destruct success; [done|]. destruct err; [done|]. by destruct Hok.
  - unfold handleTickMsg in Hn. by destruct (_ && _).
Qed.

(** Which command sends which message. *)
Lemma exec_cmd_msg receiver o c (e : Eng) r e' :
  exec_cmd cfg receiver o c e = Some (Some r, e') ->
  msg_ok r /\
  match r with
  | KeyMsg _ | WindowSizeMsg _ _ => False
  | tickMsg _ => c = tickCmd
  | dockerEventMsg _ => c = watchDockerEvents
  | dockerErrorMsg None => c = watchDockerEvents
  | _ => c <> tickCmd
  end.
Proof.
  destruct c; cbn [exec_cmd]; intros H.
  - destruct (ListRunningContainersDetailed _ _) as [[[l|err] e1]|]; cbn in H; by simplify_eq.
  - destruct (ListRunningContainers _ _) as [[l|err]|]; cbn in H; [|by simplify_eq|done].
    destruct (ContainerEngine.GetAllContainerStats _ _); by simplify_eq.
  - by simplify_eq.
  - destruct (os_watch o) as [|[err|]|[ev|]]; by simplify_eq.
  - by simplify_eq.
  - destruct (os_line o); by simplify_eq.
  - match type of H with (let '(_, _) := ?x in _) = _ => destruct x as [res e1] end. by simplify_eq.
  - destruct (RunStressTest _ _ _) as [res e1]. simplify_eq. split; [|done]. cbn. intros Hb.
    by apply bool_decide_eq_false in Hb.
  - match type of H with (let '(_, _) := ?x in _) = _ => destruct x as [[n|err] e1] end; by simplify_eq.
  - destruct (GetDiskUsage _); by simplify_eq.
  - destruct (os_shell o) as [[] []]; by simplify_eq.
  - by simplify_eq.
Qed.

(** A message a command sent. *)
Definition sent (msg : Msg) : Prop := msg_ok msg /\ ~ from_terminal msg.

Lemma run_msgs_sent p0 tr p : run p0 tr p -> Forall sent (p_msgs p0) -> Forall sent (p_msgs p).
Proof.
  intros Hr H0. induction Hr as [|tr p i new p' _ IH Hs]; [done|].
  destruct Hs as [| |? c1 c c2 msgs e receiver o r e' ? Hx|]; cbn in *; try done.
  - apply Forall_app in IH as [? [_ ?]%Forall_cons]. by apply Forall_app.
  - apply Forall_app. split; [done|]. destruct r as [r|]; [|done]. apply Forall_singleton.
    apply exec_cmd_msg in Hx as [Hok Hr']. split; [done|]. intros Ht. by destruct r.
Qed.

Lemma start_msgs_sent port_Int ordP now sysInfo version store e tr p :
  run (start port_Int ordP now sysInfo version store e) tr p -> Forall sent (p_msgs p).
Proof. intros Hr. eapply run_msgs_sent; [done|by constructor]. Qed.

(** C16. Panics. In a run of the program no index and no slice of the update is out of
    range (of the containers, the events, the log lines and their containers, the texts of
    the network map) and no update panics, whatever the terminal sends and whatever message is delivered, with
    one exception: the message of a nil error. *)
Theorem update_panics_iff port_Int ordP now sysInfo version store e tr p env msg :
  run (start port_Int ordP now sysInfo version store e) tr p ->
  from_terminal msg \/ msg ∈ p_msgs p ->
  Update (Eng:=Eng) env msg (p_model p) = None <-> msg = dockerErrorMsg None.
Proof.
  intros Hr Hmsg. apply Update_total; [by eapply run_wf|].
  destruct Hmsg as [Ht|Hin]; [by destruct msg|].
  pose proof (start_msgs_sent _ _ _ _ _ _ _ _ _ Hr) as Hall. rewrite Forall_forall in Hall. by apply Hall.
Qed.

(** ** Confirmation *)

Definition key_of (i : Input) : option string :=
  match i with Terminal (KeyMsg k) => Some k | _ => None end.

(** The last key of a run. *)
Definition last_key (tr : list (Input * list Cmd)) : option string := last (omap key_of tr.*1).

(** The key that asks for an action. *)
Definition asking_key (action : string) : option string :=
  if decide (action = "stop") then Some "s" else if decide (action = "restart") then Some "R" else None.

(** Commands that neither act on a container nor belong to the two permanent chains. *)
Definition quiet (c : Cmd) : Prop :=
  match c with executeAction _ _ _ | tickCmd | watchDockerEvents => False | _ => True end.

(** What a key does besides acting: it may ask for an action, and start quiet commands. *)
Definition asks (k : string) (m' : Model) (new : list Cmd) : Prop :=
  (m_confirmAction m' <> "" -> asking_key (m_confirmAction m') = Some k) /\ Forall quiet new.

Lemma open_stream_quiet env c : Forall quiet (open_stream (Eng:=Eng) env c).
Proof. unfold open_stream. destruct (ue_streams _ _); by repeat constructor. Qed.

Lemma multi_tail_quiet env (ids : gset string) cs :
  Forall quiet (foldl (fun '(names, cmds) c => if bool_decide (cd_ID c ∈ ids)
    then (names ++ [cd_Name c], cmds ++ open_stream (Eng:=Eng) env c) else (names, cmds)) ([], []) cs).2.
Proof.
  apply (foldl_inv (fun st : list string * list Cmd => Forall quiet st.2)); [constructor|].
  intros [names cmds] c _ Hq. case_bool_decide; [|done]. cbn. apply Forall_app. split; [done|].
  apply open_stream_quiet.
Qed.

Ltac solve_asks :=
  repeat (case_match; simplify_option_eq); try done;
  (split; cbn; [try by intros ?; simplify_eq; try congruence|]);
  try by repeat constructor.

Lemma navigation_asks k m m' new :
  no_modal m -> handleNavigationKeys k m = Some (m', new) -> asks k m' new.
Proof.
  intros (Hc & _) Hr. unfold handleNavigationKeys, handleSearchToggle, handleScrollUp,
    handleScrollDown, handleScrollReset, handleSpaceSelection, idle in Hr.
  solve_asks.
Qed.

Lemma action_asks k m m' new : no_modal m -> handleActionKeys k m = Some (m', new) -> asks k m' new.
Proof.
  intros (Hc & _) Hr. unfold handleActionKeys, idle in Hr. solve_asks.
Qed.

Lemma log_asks env k m m' new :
  no_modal m -> handleLogKeys (Eng:=Eng) env k m = Some (m', new) -> asks k m' new.
Proof.
  intros (Hc & _) Hr. unfold handleLogKeys, exportLogs, startMultiTailLogs, toggleSingleContainerLogs, idle in Hr.
  pose proof (multi_tail_quiet env (m_selectedIDs m) (m_containers m)) as Hq.
  repeat (case_match; simplify_option_eq); try done; split; cbn; try done; try by constructor.
  apply open_stream_quiet.
Qed.

Lemma view_asks env k m m' new :
  no_modal m -> handleViewKeys (Eng:=Eng) env k m = Some (m', new) -> asks k m' new.
Proof.
  intros (Hc & _) Hr. unfold handleViewKeys, idle in Hr. solve_asks.
Qed.

Lemma normal_asks env k m m' new :
  no_modal m -> handleNormalKeys (Eng:=Eng) env k m = Some (m', new) -> asks k m' new.
Proof.
  intros Hm Hr. unfold handleNormalKeys, idle in Hr.
  repeat (case_match; [simplify_eq; first
    [by eapply navigation_asks | by eapply log_asks | by eapply action_asks | by eapply view_asks
    | destruct Hm as (Hc & _); split; cbn; [by rewrite Hc|by repeat constructor]]|]).
  simplify_eq. destruct Hm as (Hc & _). split; [by rewrite Hc|done].
Qed.

(** What a key does: it asks, or it confirms the pending action on the container under
    the cursor. *)
Definition confirms (k : string) (m m' : Model) (new : list Cmd) : Prop :=
  k ∈ ["y"; "Y"] /\ m_confirmAction m <> "" /\ m_confirmAction m' = "" /\
  exists c, at_cursor m = Some c /\ new = [executeAction (m_confirmAction m) (cd_ID c) (cd_Name c)].

Lemma key_asks env k m m' new :
  handleKeyMsg (Eng:=Eng) env k m = Some (m', new) -> asks k m' new \/ confirms k m m' new.
Proof.
  unfold handleKeyMsg. destruct (handleModalKeys k m) as [r|] eqn:E.
  - unfold handleModalKeys in E. intros ->. case_bool_decide as Hc.
    + unfold handleConfirmKeys, idle in E. destruct (key_in k _) eqn:Ek.
      * destruct (_ <? _); [|left; by simplify_eq; repeat constructor].
        change (at_cursor (m <| m_confirmAction := "" |>)) with (at_cursor m) in E.
        destruct (at_cursor m) as [c|] eqn:Ea; [|done]. cbn in E. simplify_eq. right.
        apply bool_decide_eq_true in Ek. split_and!; eauto.
      * left. by simplify_eq; repeat constructor.
    + left.
      unfold handleStressKeys, handleCleanupKeys, handleSearchKeys, idle in E. solve_asks.
  - intros Hr. left. eapply normal_asks; [|done]. by eapply modal_None.
Qed.

(** The other messages leave the confirmation alone and start no action. *)
Lemma data_asks env msg m m' new :
  Update (Eng:=Eng) env msg m = Some (m', new) -> key_of (Terminal msg) = None ->
  m_store m = None -> m_confirmAction m' = m_confirmAction m /\ forall a id n, executeAction a id n ∉ new.
Proof.
  intros Hu Hk Hs.
  assert (forall l, Forall (fun c => match c with executeAction _ _ _ => False | _ => True end) l ->
    forall a id n, executeAction a id n ∉ l) as Hno.
  { intros l Hl a id n Hin. rewrite Forall_forall in Hl. by apply Hl in Hin. }
  destruct msg; cbn [Update] in Hu; unfold idle in Hu; try done.
  - simplify_eq. split; [done|]. set_solver.
  - unfold handleContainerListMsg, idle in Hu. simplify_eq. split; [|set_solver].
    rewrite (su_confirm _ _ (processSecurityAlerts_ui _ _)). by destruct (_ && _).
  - apply handleStatsMsg_ui in Hu as [[] ->]. split; [done|set_solver].
  - destruct (docker_event_ui env event m Hs) as (m2 & E & []). rewrite E in Hu. simplify_eq.
    split; [done|]. apply Hno. by repeat constructor.
  - destruct err; simplify_option_eq. split; [done|set_solver].
  - rewrite log_line_update in Hu. simplify_eq. split; [done|]. apply Hno.
    destruct nextCh; by repeat constructor.
  - unfold handleActionResultMsg in Hu. destruct success; simplify_eq; (split; [done|]);
      apply Hno; by repeat constructor.
  - unfold handleStressResultMsg in Hu. destruct success, err; simplify_option_eq; (split; [done|]);
      apply Hno; by repeat constructor.
  - simplify_eq. split; [done|]. set_solver.
  - destruct err; unfold handlePruneResultMsg in Hu; simplify_eq; (split; [done|]);
      apply Hno; by repeat constructor.
  - simplify_eq. split; [done|]. set_solver.
  - unfold handleTickMsg in Hu. destruct (_ && _); simplify_eq; (split; [done|]);
      apply Hno; by repeat constructor.
Qed.

Lemma last_key_snoc tr i new :
  last_key (tr ++ [(i, new)]) = match key_of i with Some k => Some k | None => last_key tr end.
Proof.
  unfold last_key. rewrite fmap_app, omap_app. cbn. destruct (key_of i) as [k|]; [by rewrite last_snoc|].
  by rewrite app_nil_r.
Qed.

(** A pending confirmation was asked for by the last key. *)
Definition asked (tr : list (Input * list Cmd)) (m : Model) : Prop :=
  m_confirmAction m <> "" -> exists k, last_key tr = Some k /\ asking_key (m_confirmAction m) = Some k.

(** One update: a key decides about the confirmation, other messages leave it alone. *)
Lemma update_asked env msg m m' new tr i :
  Update (Eng:=Eng) env msg m = Some (m', new) -> m_store m = None ->
  key_of i = key_of (Terminal msg) -> asked tr m -> asked (tr ++ [(i, new)]) m'.
Proof.
  intros Hu Hs Hi Ha. unfold asked. rewrite last_key_snoc, Hi.
  destruct (key_of (Terminal msg)) as [k|] eqn:Ek.
  - destruct msg; cbn in Ek; simplify_eq. cbn in Hu.
    apply key_asks in Hu as [[Hq _]|(_ & _ & Hc & _)]; [|by rewrite Hc]. intros Hc. eauto.
  - destruct (data_asks env msg m m' new Hu Ek Hs) as [-> _]. exact Ha.
Qed.

Lemma run_asked port_Int ordP now sysInfo version store e tr p :
  run (start port_Int ordP now sysInfo version store e) tr p -> asked tr (p_model p).
Proof.
  intros Hr. induction Hr as [|tr p i new p' Hr IH Hs]; [by intros []|].
  pose proof (run_wf _ _ _ _ _ _ _ _ _ Hr) as Hwf. apply start_msgs_sent in Hr.
  destruct Hs as [m cmds msgs e1 env msg m' new ? ? ? Hu|m cmds l1 msg l2 e1 env m' new ? ? Hu
    |m c1 c c2 msgs e1 receiver o r e' ? Hx|]; cbn in *.
  - eapply update_asked; [done|by apply wf_store|done..].
  - eapply update_asked; [done|by apply wf_store| |done]. apply Forall_app in Hr as [_ [[_ Hr] _]%Forall_cons].
    by destruct msg.
  - unfold asked in *. by rewrite last_key_snoc.
  - unfold asked in *. by rewrite last_key_snoc.
Qed.

(** C13. No container is stopped or restarted without confirmation. When a step of a run
    starts an action on a container, the step is the key [y] or [Y], the last key before
    it was [s] for a stop and [R] for a restart, and the container is the one under the
    cursor at the confirmation. *)
Theorem actions_confirmed port_Int ordP now sysInfo version store e tr p i new p' action id name :
  run (start port_Int ordP now sysInfo version store e) tr p -> step p i new p' ->
  executeAction action id name ∈ new ->
  (i = Terminal (KeyMsg "y") \/ i = Terminal (KeyMsg "Y")) /\
  (action = "stop" /\ last_key tr = Some "s" \/ action = "restart" /\ last_key tr = Some "R") /\
  exists c, at_cursor (p_model p) = Some c /\ id = cd_ID c /\ name = cd_Name c.
Proof.
  intros Hr Hs Hin. pose proof (run_wf _ _ _ _ _ _ _ _ _ Hr) as Hwf.
  pose proof (run_asked _ _ _ _ _ _ _ _ _ Hr) as Ha. apply start_msgs_sent in Hr.
  assert (forall env msg m m' new, Update (Eng:=Eng) env msg m = Some (m', new) -> m_store m = None ->
    executeAction action id name ∈ new -> exists k, msg = KeyMsg k /\ confirms k m m' new) as Hkey.
  { intros env msg m m' new' Hu Hst Hin'. destruct (key_of (Terminal msg)) as [k|] eqn:Ek.
    - destruct msg; cbn in Ek; simplify_eq. exists k. split; [done|].
      apply key_asks in Hu as [[_ Hq]|]; [|done]. rewrite Forall_forall in Hq. by apply Hq in Hin'.
    - destruct (data_asks env msg m m' new' Hu Ek Hst) as [_ Hno]. by apply Hno in Hin'. }
  destruct Hs as [m cmds msgs e1 env msg m' new ? ? ? Hu|m cmds l1 msg l2 e1 env m' new ? ? Hu| |]; cbn in *;
    [..|by apply elem_of_nil in Hin|by apply elem_of_nil in Hin];
    destruct (Hkey _ _ _ _ _ Hu (wf_store _ Hwf) Hin) as (k & -> & Hk & Hc & _ & c & Hat & ->).
  - apply list_elem_of_singleton in Hin. simplify_eq. destruct (Ha Hc) as (k' & Hl & Hask).
    unfold asking_key in Hask. rewrite Hl. split_and!; [set_solver|repeat case_decide; naive_solver|eauto].
  - apply Forall_app in Hr as [_ [[_ Hr] _]%Forall_cons]. by destruct Hr.
Qed.

(** ** The two permanent chains *)

(** The sum of a weight over a list. *)
Definition tally {A} (w : A -> nat) (l : list A) : nat := sum_list_with w l.

Definition tick_cmd (c : Cmd) : nat := match c with tickCmd => 1 | _ => 0 end.
Definition tick_msg (msg : Msg) : nat := match msg with tickMsg _ => 1 | _ => 0 end.
Definition watch_cmd (c : Cmd) : nat := match c with watchDockerEvents => 1 | _ => 0 end.
Definition event_msg (msg : Msg) : nat := match msg with dockerEventMsg _ => 1 | _ => 0 end.

(** The ticks under way, and the subscriptions to the engine's events. *)
Definition ticks p : nat := tally tick_cmd (p_cmds p) + tally tick_msg (p_msgs p).
Definition subscriptions p : nat := tally watch_cmd (p_cmds p) + tally event_msg (p_msgs p).

Lemma tally_app {A} (w : A -> nat) (l l2 : list A) : tally w (l ++ l2) = (tally w l + tally w l2)%nat.
Proof. apply sum_list_with_app. Qed.

Lemma quiet_chain new : Forall quiet new -> tally tick_cmd new = O /\ tally watch_cmd new = O.
Proof. induction 1 as [|c new Hc _ [IH1 IH2]]; [done|]. cbn. unfold tally in *. destruct c; by auto. Qed.

(** An update starts a tick for a tick, a subscription for an event, and no other. *)
Lemma update_chain env msg m m' new :
  Update (Eng:=Eng) env msg m = Some (m', new) -> m_store m = None ->
  tally tick_cmd new = tick_msg msg /\ tally watch_cmd new = event_msg msg.
Proof.
  intros Hu Hs. destruct msg; cbn [Update] in Hu; unfold idle in Hu.
  - apply key_asks in Hu as [[_ Hq]|(_ & _ & _ & c & _ & ->)]; [by apply quiet_chain|done].
  - by simplify_eq.
  - unfold handleContainerListMsg, idle in Hu. by simplify_eq.
  - by apply handleStatsMsg_ui in Hu as [_ ->].
  - destruct (docker_event_ui env event m Hs) as (m2 & E & _). rewrite E in Hu. by simplify_eq.
  - by destruct err; simplify_option_eq.
  - rewrite log_line_update in Hu. by destruct nextCh; simplify_eq.
  - unfold handleActionResultMsg in Hu. by destruct success; simplify_eq.
  - unfold handleStressResultMsg in Hu. by destruct success, err; simplify_option_eq.
  - by simplify_eq.
  - by destruct err; unfold handlePruneResultMsg in Hu; simplify_eq.
  - by simplify_eq.
  - unfold handleTickMsg in Hu. by destruct (_ && _); simplify_eq.
Qed.

(** A finished command sends a tick exactly if it was one, and an event only if it was a
    subscription. *)
Lemma exec_chain receiver o c (e : Eng) r e' :
  exec_cmd cfg receiver o c e = Some (r, e') ->
  tally tick_msg (option_list r) = tick_cmd c /\ (tally event_msg (option_list r) <= watch_cmd c)%nat.
Proof.
  intros Hx. destruct r as [r|].
  - apply exec_cmd_msg in Hx as [_ Hm]. cbn. unfold tally; cbn.
    destruct r as [| | | |ev|[err|]| | | | | | |t]; try done; try subst c; cbn;
      try (split; lia); (destruct c; first [done | cbn; split; [done|lia]]).
  - split; [|apply Nat.le_0_l]. by destruct c.
Qed.

Lemma step_chains p i new p' :
  step p i new p' -> m_store (p_model p) = None ->
  ticks p' = ticks p /\ (subscriptions p' <= subscriptions p)%nat /\
  (subscriptions p = O -> forall ev, i <> Deliver (dockerEventMsg ev)).
Proof.
  intros Hs Hst. unfold ticks, subscriptions.
  destruct Hs as [m cmds msgs e1 env msg m' new Ht ? ? Hu|m cmds l1 msg l2 e1 env m' new ? ? Hu
    |m c1 c c2 msgs e1 receiver o r e' ? Hx|]; cbn [p_cmds p_msgs p_model] in *; rewrite ?tally_app.
  - apply update_chain in Hu as [-> ->]; [|done]. destruct msg; try done; cbn; split_and!; (done || lia).
  - apply update_chain in Hu as [-> ->]; [|done]. unfold tally; cbn.
    split_and!; [lia..|]. intros Hn ev [= ->]. cbn in Hn. lia.
  - apply exec_chain in Hx as [-> Hw]. unfold tally in *; cbn. split_and!; [lia..|done].
  - done.
Qed.

(** C19. The clock of the dashboard neither stops nor multiplies: at every moment of a
    run exactly one tick is under way, as a waiting command or as an undelivered
    message, whatever keys are pressed and whatever commands fail. *)
Theorem one_ticker port_Int ordP now sysInfo version store e tr p :
  run (start port_Int ordP now sysInfo version store e) tr p -> ticks p = 1%nat.
Proof.
  intros Hr. induction Hr as [|tr p i new p' Hr IH Hs]; [done|].
  pose proof (run_wf _ _ _ _ _ _ _ _ _ Hr) as Hwf.
  destruct (step_chains p i new p' Hs (wf_store _ Hwf)) as [-> _]. exact IH.
Qed.

(** The subscription to the engine's events is not renewed. There is never more than
    one; once there is none, as after an error of the event stream, there is none in
    every continuation of the run, and no event is ever delivered again. *)
Theorem subscription_not_renewed port_Int ordP now sysInfo version store e tr p tr' p' :
  run (start port_Int ordP now sysInfo version store e) tr p -> run p tr' p' ->
  (subscriptions p' <= subscriptions p <= 1)%nat /\
  (subscriptions p = O -> forall ev new, (Deliver (dockerEventMsg ev), new) ∉ tr').
Proof.
  intros Hr Hr'.
  assert (subscriptions p <= 1)%nat as H1.
  { clear Hr'. induction Hr as [|tr p i new p2 Hr IH Hs]; [done|].
    pose proof (run_wf _ _ _ _ _ _ _ _ _ Hr) as Hwf.
    destruct (step_chains p i new p2 Hs (wf_store _ Hwf)) as (_ & Hle & _). lia. }
  induction Hr' as [|tr' q i new q' Hr' IH Hs]; [split; [lia|set_solver]|].
  pose proof (run_wf _ _ _ _ _ _ _ _ _ (run_trans _ _ _ _ _ Hr Hr')) as Hwf.
  destruct (step_chains q i new q' Hs (wf_store _ Hwf)) as (_ & Hle & Hno), IH as [IH1 IH2].
  split; [lia|]. intros H0 ev new' [Hin|Hin%list_elem_of_singleton]%elem_of_app.
  - by eapply IH2.
  - simplify_eq. by eapply Hno; [lia|].
Qed.

(** ** The log search *)

(** A line of an export. *)
Definition export_line (multi : bool) (entry : LogEntry) : string :=
  (if multi then "[" +:+ le_Container entry +:+ "] " else "") +:+ le_Text entry +:+ newline.

Lemma export_all m :
  m_logSearch m = "" ->
  export_content m =
    (foldl (fun content entry => content +:+ export_line (1 <? length (m_logContainers m))%nat entry)
       "" (m_logLines m), Z.of_nat (length (m_logLines m))).
Proof.
  intros Hs. unfold export_content. rewrite Hs.
  enough (forall l content n,
    foldl (fun '(content, lineCount) entry =>
      if log_matches "" entry then
        (( if (1 <? length (m_logContainers m))%nat then content +:+ "[" +:+ le_Container entry +:+ "] " else content)
          +:+ le_Text entry +:+ newline, lineCount + 1)
      else (content, lineCount)) (content, n) l =
    (foldl (fun content entry => content +:+ export_line (1 <? length (m_logContainers m))%nat entry) content l,
     n + Z.of_nat (length l))) as H by (rewrite H; f_equal; lia).
  induction l as [|x l IH]; intros content n; cbn [foldl]; [f_equal; cbn; lia|].
  change (log_matches "" x) with true. cbn iota. rewrite IH. f_equal; [|cbn [length]; lia].
  f_equal. unfold export_line. by destruct (_ <? _)%nat; rewrite ?str_app_assoc.
Qed.

(** The search never filters. Whatever is typed after [/], in every state of every
    run the search text is empty: every log line passes it, and an export writes all
    lines in order and reports their number. *)
Theorem search_never_filters port_Int ordP now sysInfo version store e tr p :
  run (start port_Int ordP now sysInfo version store e) tr p ->
  let m := p_model p in
  m_logSearch m = "" /\ Forall (fun entry => log_matches (m_logSearch m) entry = true) (m_logLines m) /\
  export_content m =
    (foldl (fun content entry => content +:+ export_line (1 <? length (m_logContainers m))%nat entry)
       "" (m_logLines m), Z.of_nat (length (m_logLines m))).
Proof.
  intros Hr m. apply run_wf in Hr. pose proof (wf_logSearch _ Hr) as Hs. fold m in Hs.
  split_and!; [done| |by apply export_all]. rewrite Hs. by apply Forall_forall.
Qed.

(** C23. The interface stays consistent. In every state of every run the cursor is on a
    container or the list is empty; at most one of confirmation, stress menu, cleanup
    panel and search takes the keys; the search is open only over the logs and the
    cleanup panel only over the dashboard; at most 1000 log lines are kept; and the model
    holds no event store, so no event is ever saved. *)
Theorem interface_invariant port_Int ordP now sysInfo version store e tr p :
  run (start port_Int ordP now sysInfo version store e) tr p ->
  let m := p_model p in
  (m_containers m <> [] -> is_Some (at_cursor m)) /\ modals m <= 1 /\
  (m_searchMode m = true -> m_showLogs m = true) /\
  (m_showCleanup m = true -> m_showLogs m = false /\ m_showDetail m = false /\ m_showMap m = false) /\
  (length (m_logLines m) <= logCapacity)%nat /\ m_store m = None.
Proof.
  intros Hr m. apply run_wf in Hr. destruct Hr as [[Hc0 Hc] ? ? ? ? ? ? ?]. fold m in Hc0, Hc.
  split_and!; try done. intros Hne. destruct Hc as [|Hc]; [done|].
  destruct (at_cursor_Some m Hc0 Hc) as (c & -> & _). done.
Qed.
End program.

(** ** Alert marks *)

Definition of_container (id : string) (l : list Alert) : list Alert :=
  filter (fun a => al_ContainerID a = id) l.

Definition is_critical (a : Alert) : bool := bool_decide (al_Severity a = "critical").

Lemma of_container_cons id a l :
  of_container id (a :: l) = if decide (al_ContainerID a = id) then a :: of_container id l else of_container id l.
Proof. unfold of_container. by rewrite filter_cons. Qed.

Lemma mark_of_insert marks id id' s :
  mark_of (<[id' := s]> marks) id = if decide (id' = id) then s else mark_of marks id.
Proof. unfold mark_of. case_decide as E; [subst; by rewrite lookup_insert_eq|by rewrite lookup_insert_ne]. Qed.

Lemma security_marks marks l id :
  mark_of marks id ∈ [""; mark_sec_warn; mark_sec_crit] ->
  mark_of (foldl mark_security marks l) id =
    if existsb is_critical (of_container id l) then mark_sec_crit
    else if bool_decide (of_container id l = []) then mark_of marks id
    else if bool_decide (mark_of marks id = mark_sec_crit) then mark_sec_crit else mark_sec_warn.
Proof.
  revert marks; induction l as [|a l IH]; intros marks Hm; cbn [foldl]; [done|].
  assert (mark_of (mark_security marks a) id =
    if decide (al_ContainerID a = id) then
      if is_critical a then mark_sec_crit
      else if bool_decide (mark_of marks id = mark_sec_crit) then mark_sec_crit else mark_sec_warn
    else mark_of marks id) as E.
  { unfold mark_security, is_critical.
    destruct (bool_decide (al_Severity a = "critical")); [by rewrite mark_of_insert|].
    rewrite bool_decide_not. destruct (decide (al_ContainerID a = id)) as [<-|Hne].
    - destruct (bool_decide (mark_of marks (al_ContainerID a) = _)) eqn:Eb; cbn [negb].
      + by apply bool_decide_eq_true in Eb.
      + by rewrite mark_of_insert, decide_True.
    - destruct (negb _); [by rewrite mark_of_insert, decide_False|done]. }
  rewrite IH, E, of_container_cons; clear IH.
  - destruct (decide (al_ContainerID a = id)); [|done]. cbn [existsb].
    destruct (is_critical a); cbn [orb]; [by repeat (case_bool_decide || case_match)|].
    destruct (existsb _ _); [done|]. rewrite (bool_decide_eq_false_2 (a :: _ = [])) by done.
    by repeat case_bool_decide.
  - rewrite E. repeat (case_decide || case_match); set_solver.
Qed.

Lemma active_marks marks l id :
  mark_of (foldl mark_active marks l) id =
    if existsb is_critical (of_container id l) then mark_crit
    else if bool_decide (of_container id l = []) then mark_of marks id
    else if bool_decide (mark_of marks id ∈ [mark_crit; mark_sec_crit]) then mark_of marks id else mark_warn.
Proof.
  revert marks; induction l as [|a l IH]; intros marks; cbn [foldl]; [done|].
  assert (mark_of (mark_active marks a) id =
    if decide (al_ContainerID a = id) then
      if is_critical a then mark_crit
      else if bool_decide (mark_of marks id ∈ [mark_crit; mark_sec_crit]) then mark_of marks id else mark_warn
    else mark_of marks id) as E.
  { unfold mark_active, is_critical.
    destruct (bool_decide (al_Severity a = "critical")); [by rewrite mark_of_insert|].
    assert (bool_decide (mark_of marks (al_ContainerID a) <> mark_crit) &&
      bool_decide (mark_of marks (al_ContainerID a) <> mark_sec_crit) =
      negb (bool_decide (mark_of marks (al_ContainerID a) ∈ [mark_crit; mark_sec_crit]))) as ->.
    { rewrite !bool_decide_not, <-negb_orb. f_equal. apply eq_true_iff_eq.
      rewrite orb_true_iff, !bool_decide_eq_true. set_solver. }
    destruct (decide (al_ContainerID a = id)) as [<-|Hne].
    - destruct (bool_decide (mark_of marks (al_ContainerID a) ∈ _)); cbn [negb]; [done|].
      by rewrite mark_of_insert, decide_True.
    - destruct (negb _); [by rewrite mark_of_insert, decide_False|done]. }
  rewrite IH, E, of_container_cons; clear IH.
  destruct (decide (al_ContainerID a = id)); [|done]. cbn [existsb].
  rewrite (bool_decide_eq_false_2 (a :: _ = [])) by done.
  destruct (is_critical a); cbn [orb]; (destruct (existsb _ _); [done|]).
  - destruct (bool_decide (of_container id l = [])); [done|]. by rewrite bool_decide_eq_true_2 by left.
  - destruct (bool_decide (mark_of marks id ∈ _)) eqn:Em; [rewrite Em|];
      by destruct (bool_decide (of_container id l = [])).
Qed.

(** The mark of a container. A critical resource alert shows the siren; otherwise a
    critical security alert the shield with the siren; otherwise any resource alert the
    warning sign; otherwise any security alert the shield with it; otherwise nothing. The
    order of the alerts does not matter. *)
Theorem alert_marks_spec m id :
  let active := of_container id (m_activeAlerts m) in
  let security := of_container id (m_securityAlerts m) in
  mark_of (m_alertMarks (updateAlertMarks m)) id =
    if existsb is_critical active then mark_crit
    else if existsb is_critical security then mark_sec_crit
    else if negb (bool_decide (active = [])) then mark_warn
    else if negb (bool_decide (security = [])) then mark_sec_warn
    else "".
Proof.
  cbn. assert (mark_of ∅ id = "") as E by (unfold mark_of; by rewrite lookup_empty).
  rewrite active_marks, security_marks, E by (rewrite E; left).
  destruct (existsb is_critical (of_container id (m_activeAlerts m))); [done|].
  destruct (existsb is_critical (of_container id (m_securityAlerts m))),
    (bool_decide (of_container id (m_activeAlerts m) = [])),
    (bool_decide (of_container id (m_securityAlerts m) = [])); done.
Qed.
