(* ===== verification/TuiScenarios.v ===== *)
(** * Scenarios of the terminal program

    An executable scheduler that drives the program of [TuiRuntime] through a script,
    its soundness, and the concrete runs that show the theorems' hypotheses hold and
    what the interface does in the cases the theorems single out. *)
From S2P Require Import Prelude.
From S2P Require Import GoStrings.
From S2P Require Import GoFloat.
From S2P Require Import GoTime.
From S2P Require Import Models.
From S2P Require Import Config.
From S2P Require Import Alerts.
From S2P Require Import Logger.
From S2P Require Import DockerTypes.
From S2P Require Import ContainerEngine.
From S2P Require Import DockerStreams.
From S2P Require Import Security.
From S2P Require Import Topology.
From S2P Require Import Storage.
From S2P Require Import I18n.
From S2P Require Import Tui.
From S2P Require Import TuiRuntime.

(** ** The scheduler *)

(** Press a key, resize the terminal, finish the n-th command (with what it takes from outside), deliver the
    n-th message, or put the engine in another state. *)
Inductive Act (Eng : Type) :=
  | Press (k : string)
  | Resize (width height : Z)
  | FinishNth (n : nat) (o : Outside)
  | DeliverNth (n : nat)
  | Become (e : Eng).
Arguments Press {Eng}.
Arguments Resize {Eng}.
Arguments FinishNth {Eng}.
Arguments DeliverNth {Eng}.
Arguments Become {Eng}.

Section scheduler.
Context {Eng : Type} `{Heng : ContainerEngine Eng} `{Hcase : UnicodeCase}.
Context (cfg : Config) (streams : string -> result Chan) (export : string -> string -> result string).

(** An environment that ranges over maps in their canonical order. *)
Definition canonical_env (e : Eng) : UpdateEnv Eng := {|
  ue_now := 0; ue_engine := e; ue_order := fun _ _ m => map_to_list m; ue_sched := id;
  ue_streams := streams; ue_export := export |}.

Lemma canonical_env_ok e : env_ok (canonical_env e).
Proof. split; [intros; apply range_of_refl|done]. Qed.

Definition act (a : Act Eng) (p : Program Eng) : option (Input * list Cmd * Program Eng) :=
  let e := p_engine p in
  match a with
  | Press k =>
      '(m', new) ← Update (canonical_env e) (KeyMsg k) (p_model p);
      Some (Terminal (KeyMsg k), new, mkProgram m' (p_cmds p ++ new) (p_msgs p) e)
  | Resize w h =>
      '(m', new) ← Update (canonical_env e) (WindowSizeMsg w h) (p_model p);
      Some (Terminal (WindowSizeMsg w h), new, mkProgram m' (p_cmds p ++ new) (p_msgs p) e)
  | FinishNth n o =>
      c ← p_cmds p !! n;
      if decide (c = Quit) then None else
      '(r, e') ← exec_cmd cfg None o c e;
      Some (Finish c, [], mkProgram (p_model p) (take n (p_cmds p) ++ drop (S n) (p_cmds p))
                            (p_msgs p ++ option_list r) e')
  | DeliverNth n =>
      msg ← p_msgs p !! n;
      '(m', new) ← Update (canonical_env e) msg (p_model p);
      Some (Deliver msg, new, mkProgram m' (p_cmds p ++ new) (take n (p_msgs p) ++ drop (S n) (p_msgs p)) e)
  | Become e' => Some (World, [], mkProgram (p_model p) (p_cmds p) (p_msgs p) e')
  end.

Fixpoint play (script : list (Act Eng)) (tr : list (Input * list Cmd)) (p : Program Eng)
    : option (list (Input * list Cmd) * Program Eng) :=
  match script with
  | [] => Some (tr, p)
  | a :: script' => '(i, new, p') ← act a p; play script' (tr ++ [(i, new)]) p'
  end.

Lemma act_step a p i new p' : act a p = Some (i, new, p') -> step cfg p i new p'.
Proof.
  destruct p as [m cmds msgs e]. destruct a as [k|w h|n o|n|e0]; unfold act; cbn [p_engine p_model p_cmds p_msgs]; intros H.
  - destruct (Update _ _ _) as [[m' new']|] eqn:E; [|done]. cbn in H. simplify_eq.
    eapply step_terminal; [done|apply canonical_env_ok|done|exact E].
  - destruct (Update _ _ _) as [[m' new']|] eqn:E; [|done]. cbn in H. simplify_eq.
    eapply step_terminal; [done|apply canonical_env_ok|done|exact E].
  - destruct (cmds !! n) as [c|] eqn:Ec; [|done]. cbn [mbind option_bind] in H.
    destruct (decide (c = Quit)) as [|Hq]; [done|].
    destruct (exec_cmd _ _ _ _ _) as [[r e']|] eqn:E; [|done]. cbn in H. simplify_eq.
    rewrite <-(take_drop_middle cmds n c Ec) at 1. by eapply step_finish.
  - destruct (msgs !! n) as [msg|] eqn:Em; [|done]. cbn [mbind option_bind] in H.
    destruct (Update _ _ _) as [[m' new']|] eqn:E; [|done]. cbn in H. simplify_eq.
    rewrite <-(take_drop_middle msgs n msg Em) at 1.
    eapply step_deliver; [apply canonical_env_ok|done|exact E].
  - simplify_eq. constructor.
Qed.

Lemma play_run script tr p p0 tr' p' :
  run cfg p0 tr p -> play script tr p = Some (tr', p') -> run cfg p0 tr' p'.
Proof.
  revert tr p; induction script as [|a script IH]; intros tr p Hr H; cbn in H; [by simplify_eq|].
  destruct (act a p) as [[[i new] p1]|] eqn:E; [|done]. cbn in H.
  eapply IH; [|exact H]. eapply run_snoc; [exact Hr|by eapply act_step].
Qed.

(** The program after a script, and its trace. *)
Definition final (script : list (Act Eng)) (p : Program Eng) : Program Eng :=
  match play script [] p with Some (_, p') => p' | None => p end.

Definition trace (script : list (Act Eng)) (p : Program Eng) : list (Input * list Cmd) :=
  match play script [] p with Some (tr, _) => tr | None => [] end.

Lemma script_run script p : run cfg p (trace script p) (final script p).
Proof.
  unfold trace, final. destruct (play script [] p) as [[tr p']|] eqn:E; [|constructor].
  eapply play_run; [constructor|exact E].
Qed.
End scheduler.

(** ** An engine with two containers *)

Definition web : ContainerDisplay :=
  zeroDisplay <| cd_ID := "aaaaaaaaaaaa" |> <| cd_Name := "web" |> <| cd_State := "running" |>.
Definition db : ContainerDisplay :=
  zeroDisplay <| cd_ID := "bbbbbbbbbbbb" |> <| cd_Name := "db" |> <| cd_State := "running" |>.

(** The state is the list it reports, the newest container first; a stop removes one. *)
#[local] Instance demo_engine : ContainerEngine (list ContainerDisplay) := {|
  ListRunningContainers := fun _ _ => Some (Ok []);
  ListRunningContainersDetailed := fun _ e => Some (Ok e, e);
  ContainerEngine.GetAllContainerStats := fun _ _ => Ok ∅;
  StopContainer := fun id e => (Ok tt, filter (fun c => cd_ID c <> id) e);
  RestartContainer := fun _ e => (Ok tt, e);
  InspectContainer := fun _ _ => Err "not found";
  SetIncludeContainers := fun _ e => e;
  RunStressTest := fun _ _ e => (Ok tt, e);
  PruneUnused := fun e => (Ok 0, e);
  PruneImages := fun e => (Ok 0, e);
  PruneVolumes := fun e => (Ok 0, e);
  GetDiskUsage := fun _ => Ok {| ImagesReclaimable := 0; VolumesReclaimable := 0 |};
  ListNetworks := fun _ => Ok [];
  GetSystemInfo := fun _ => Ok ∅
|}.

#[local] Instance demo_case : UnicodeCase := {| unicode_ToUpper := id; unicode_ToLower := id |}.

(** Nothing comes from outside but the ticks. *)
Definition calm : Outside := {|
  os_cpu := []; os_mem := None; os_time := 0; os_watch := WatchCtxDone; os_line := None;
  os_shell := (None, None) |}.

Definition outside_watch (o : WatchOutcome) : Outside := {|
  os_cpu := []; os_mem := None; os_time := 0; os_watch := o; os_line := None; os_shell := (None, None) |}.

Definition demo : Program (list ContainerDisplay) :=
  start DefaultConfig (fun _ => 0) map_to_list 0 ∅ "1.0" None [web].

(** Streams numbered one; exports named after their pattern. *)
Definition demo_final : list (Act (list ContainerDisplay)) -> Program (list ContainerDisplay) -> Program _ :=
  final DefaultConfig (fun _ => Ok 1%nat) (fun pattern _ => Ok pattern).
Definition demo_trace : list (Act (list ContainerDisplay)) -> Program (list ContainerDisplay) -> list _ :=
  trace DefaultConfig (fun _ => Ok 1%nat) (fun pattern _ => Ok pattern).

Lemma demo_run script p : run DefaultConfig p (demo_trace script p) (demo_final script p).
Proof. apply script_run. Qed.

(** The list arrives, and [s] asks to stop the container under the cursor. *)
Definition listed : list (Act (list ContainerDisplay)) := [FinishNth 0 calm; DeliverNth 0].
Definition asked_stop : list (Act (list ContainerDisplay)) := listed ++ [Press "r"; Press "s"].

Example listed_names : cd_Name <$> m_containers (p_model (demo_final listed demo)) = ["web"].
Proof. vm_compute. reflexivity. Qed.

Example stop_confirmed :
  p_cmds (demo_final (asked_stop ++ [Press "y"]) demo) =
  p_cmds (demo_final asked_stop demo) ++ [executeAction "stop" "aaaaaaaaaaaa" "web"].
Proof. vm_compute. reflexivity. Qed.

(** The list changes between the question and the answer: the answer acts on another
    container than the one the question showed. *)
Example stop_hits_other_container :
  let p := demo_final asked_stop demo in
  let p' := demo_final [Become [db; web]; FinishNth 4 calm; DeliverNth 0; Press "y"] p in
  cd_Name <$> at_cursor (p_model p) = Some "web" /\
  executeAction "stop" "bbbbbbbbbbbb" "db" ∈ p_cmds p'.
Proof. vm_compute. split; [reflexivity|]. repeat (left || right). Qed.

(** ** The theorems on concrete runs *)

Definition demo_env : UpdateEnv (list ContainerDisplay) :=
  canonical_env (fun _ => Ok 1%nat) (fun pattern _ => Ok pattern) [web].

(** The event subscription ends without an error: its nil is delivered as an error. *)
Definition closed_stream : list (Act (list ContainerDisplay)) := [FinishNth 3 (outside_watch (WatchError None))].

Example closed_subscription :
  exists s, watch_run [] WatchEvents [WCancel; WTakeCtx] s /\ watch_ready s (WatchError None).
Proof.
  eexists. split; [eapply (watch_run_snoc _ _ [WCancel]); [eapply (watch_run_snoc _ _ []); [constructor|]|];
    vm_compute; reflexivity|]. by split.
Qed.

Lemma update_panics_iff_witness :
  dockerErrorMsg None ∈ p_msgs (demo_final closed_stream demo) /\
  Update demo_env (dockerErrorMsg None) (p_model (demo_final closed_stream demo)) = None.
Proof.
  split; [vm_compute; left|].
  apply (update_panics_iff DefaultConfig (fun _ => 0) map_to_list 0 ∅ "1.0" None [web] _ _ _ _
    (demo_run closed_stream demo)); [right; vm_compute; left|reflexivity].
Defined.

Lemma actions_confirmed_witness :
  let p := demo_final asked_stop demo in
  exists c, at_cursor (p_model p) = Some c /\ "aaaaaaaaaaaa" = cd_ID c /\ "web" = cd_Name c.
Proof.
  cbn zeta.
  destruct (act DefaultConfig (fun _ => Ok 1%nat) (fun pattern _ => Ok pattern) (Press "y")
    (demo_final asked_stop demo)) as [[[i new] p']|] eqn:E; [|vm_compute in E; discriminate].
  assert (new = [executeAction "stop" "aaaaaaaaaaaa" "web"]) as Hnew.
  { assert (fst <$> act DefaultConfig (fun _ => Ok 1%nat) (fun pattern _ => Ok pattern) (Press "y")
      (demo_final asked_stop demo) =
      Some (Terminal (KeyMsg "y"), [executeAction "stop" "aaaaaaaaaaaa" "web"])) as E' by (vm_compute; reflexivity).
    rewrite E in E'. cbn in E'. congruence. }
  subst new.
  destruct (actions_confirmed DefaultConfig (fun _ => 0) map_to_list 0 ∅ "1.0" None [web] _ _ i _ p' "stop"
    "aaaaaaaaaaaa" "web" (demo_run asked_stop demo) (act_step _ _ _ _ _ _ _ _ E)) as (_ & _ & H);
    [left|exact H].
Defined.

Lemma one_ticker_witness : ticks (demo_final asked_stop demo) = 1%nat.
Proof. eapply (one_ticker DefaultConfig), (demo_run asked_stop demo). Defined.

(** The stream fails once; a new list is fetched later. *)
Definition failed_stream : list (Act (list ContainerDisplay)) :=
  [FinishNth 3 (outside_watch (WatchError (Some "EOF"))); DeliverNth 0].

Lemma subscription_not_renewed_witness :
  let p := demo_final failed_stream demo in
  subscriptions p = O /\
  forall ev new, (Deliver (dockerEventMsg ev), new) ∉ demo_trace [Press "r"; FinishNth 0 calm; DeliverNth 0] p.
Proof.
  cbn zeta. assert (subscriptions (demo_final failed_stream demo) = O) as E by (vm_compute; reflexivity).
  split; [exact E|].
  eapply (subscription_not_renewed DefaultConfig); [apply (demo_run failed_stream demo)|apply demo_run|exact E].
Defined.

(** Typing a search over the logs. *)
Definition searching : list (Act (list ContainerDisplay)) :=
  listed ++ [Press "l"; Press "/"; Press "z"; Press "z"].

Lemma search_never_filters_witness :
  m_searchMode (p_model (demo_final searching demo)) = true /\
  m_logSearch (p_model (demo_final searching demo)) = "".
Proof.
  split; [vm_compute; reflexivity|].
  apply (search_never_filters DefaultConfig _ _ _ _ _ _ _ _ _ (demo_run searching demo)).
Defined.

Lemma interface_invariant_witness : is_Some (at_cursor (p_model (demo_final listed demo))).
Proof.
  apply (interface_invariant DefaultConfig _ _ _ _ _ _ _ _ _ (demo_run listed demo)).
  vm_compute. discriminate.
Defined.

(** A line of a stream whose panel was closed appears in the next panel. *)
Example stale_log_line :
  let o := {| os_cpu := []; os_mem := None; os_time := 0; os_watch := WatchCtxDone;
              os_line := Some "old line"; os_shell := (None, None) |} in
  let p := demo_final (listed ++ [Press "l"; Press "l"; Press "l"; FinishNth 4 o; DeliverNth 0; FinishNth 5 o;
                                  DeliverNth 0]) demo in
  le_Text <$> m_logLines (p_model p) = ["Loading logs..."; "old line"; "old line"].
Proof. vm_compute. reflexivity. Qed.

(** In the cleanup panel and in the search neither [q] nor [ctrl+c] quits. *)
Example modal_swallows_quit :
  m_quitting (p_model (demo_final (listed ++ [Press "C"; Press "q"; Press "ctrl+c"]) demo)) = false.
Proof. vm_compute. reflexivity. Qed.

(** Errors are added to the event list without a bound. *)
Example errors_grow : forall n,
  let m := Nat.iter n (fun m => match Update demo_env (dockerErrorMsg (Some "down")) m with
                                | Some (m', _) => m' | None => m end) (p_model demo) in
  length (m_events m) = n.
Proof.
  intros n. cbn zeta. induction n as [|n IH]; [reflexivity|]. rewrite Nat.iter_succ. cbn. by f_equal.
Qed.

Example formatBytes_examples :
  formatBytes <$> [0; 512; 1024; 150 * MB; 8272408576] = ["0B"; "512B"; "1.0KB"; "150.0MB"; "7.7GB"] /\
  formatBytesShort <$> [0; 500; 2048; 150 * MB; 2 * GB] = ["0B"; "500B"; "2K"; "150M"; "2G"].
Proof. vm_compute. split; reflexivity. Qed.
