(* ===== verification/TuiView.v ===== *)
(** * The terminal interface's view ([internal/tui/tui.go])

    [View] and the functions that render its parts.  The styling library (lipgloss) is
    the class [Lipgloss]: a style is the list of the attributes it was built with, and
    [Render] applies one to a text.  [None] is a Go panic, here an index or a slice out of
    range; a test by [&&] does not look at its second operand when the first is false. *)
From S2P Require Import Prelude.
From S2P Require Import GoStrings.
From S2P Require Import GoFloat.
From S2P Require Import GoTime.
From S2P Require Import Models.
From S2P Require Import Config.
From S2P Require Import Alerts.
From S2P Require Import Logger.
From S2P Require Import DockerTypes.
From S2P Require Import ContainerEngine.
From S2P Require Import Security.
From S2P Require Import Topology.
From S2P Require Import Storage.
From S2P Require Import I18n.
From S2P Require Import Tui.
From S2P Require Import TuiRuntime.
From S2P Require Import TuiScenarios.

(** ** Styles *)

Inductive StyleAttr :=
  | Bold
  | Foreground (color : string)
  | Background (color : string)
  | Padding (vertical horizontal : Z)
  | RoundedBorder (color : string)      (* [Border(RoundedBorder())] and [BorderForeground] *)
  | MarginLeft (n : Z)
  | Width (n : Z).

#[export] Instance StyleAttr_eq_dec : EqDecision StyleAttr.
Proof. solve_decision. Defined.

Definition Style := list StyleAttr.

Class Lipgloss := { Render : Style -> string -> string }.

Definition primaryColor := "#7C3AED".
Definition secondaryColor := "#06B6D4".
Definition successColor := "#22C55E".
Definition warningColor := "#EAB308".
Definition dangerColor := "#EF4444".
Definition mutedColor := "#6B7280".

Definition titleStyle : Style := [Bold; Foreground "#FFFFFF"; Background primaryColor; Padding 0 2].
Definition statusBarStyle : Style := [Foreground "#FFFFFF"; Background "#3B3552"; Padding 0 1].
Definition selectedStyle : Style := [Bold; Foreground primaryColor].
Definition normalStyle : Style := [Foreground "#E2E8F0"].
Definition headerStyle : Style := [Bold; Foreground secondaryColor].
Definition stateRunning : Style := [Foreground successColor; Bold].
Definition statePaused : Style := [Foreground warningColor; Bold].
Definition stateStopped : Style := [Foreground dangerColor; Bold].
Definition cpuLowStyle : Style := [Foreground successColor].
Definition cpuMedStyle : Style := [Foreground warningColor].
Definition cpuHighStyle : Style := [Foreground dangerColor; Bold].
Definition memLowStyle : Style := [Foreground successColor].
Definition memMedStyle : Style := [Foreground warningColor].
Definition memHighStyle : Style := [Foreground dangerColor; Bold].
Definition netStyle : Style := [Foreground secondaryColor].
Definition alertCritStyle : Style := [Bold; Foreground "#FFFFFF"; Background dangerColor; Padding 0 1].
Definition alertWarnStyle : Style := [Bold; Foreground "#000000"; Background warningColor; Padding 0 1].
Definition eventPanelStyle : Style := [RoundedBorder mutedColor; Padding 0 1].
Definition logPanelStyle : Style := [RoundedBorder secondaryColor; Padding 0 1].
Definition helpStyle : Style := [Foreground mutedColor].
Definition confirmStyle : Style := [Bold; Foreground "#FFFFFF"; Background dangerColor; Padding 0 2].
Definition stressStyle : Style := [Bold; Foreground "#FFFFFF"; Background "#F97316"; Padding 0 2].

Section view.
Context `{Hlip : Lipgloss} `{Hcase : UnicodeCase}.
(** The clock at the call, and the local zone. *)
Context (now : Time) (zone : Z).
Implicit Types (m : Model) (c : ContainerDisplay).

Definition muted (s : string) : string := Render [Foreground mutedColor] s.

(** [lipgloss.NewStyle().Bold(true).Foreground(color).Render(s)]. *)
Definition strong (color s : string) : string := Render [Bold; Foreground color] s.

(** ** Numbers *)

Definition percent (p : float64) : string := format_fixed 1 p +:+ "%".

Definition formatCPU (p : float64) : string :=
  if f64_ge p (f64_of_Z 80) then Render cpuHighStyle (percent p)
  else if f64_ge p (f64_of_Z 40) then Render cpuMedStyle (percent p)
  else Render cpuLowStyle (percent p).

Definition formatMemPercent (p : float64) : string :=
  if f64_ge p (f64_of_Z 80) then Render memHighStyle (percent p)
  else if f64_ge p (f64_of_Z 50) then Render memMedStyle (percent p)
  else Render memLowStyle (percent p).

(** ** Header and table *)

Definition renderHeader m : string :=
  let title := Render titleStyle " 🏰 Castle Rock Agent " in
  let uptime := Round_second (Sub now (m_startTime m)) in
  let dockerVer := default "N/A" (m_sysInfo m !! "Server Version") in
  let n := length (m_activeAlerts m) in
  let alertIndicator := if (0 <? n)%nat then " │ 🚨 " +:+ itoa (Z.of_nat n) +:+ " alerts" else "" in
  let info := Render statusBarStyle
    (" v" +:+ m_version m +:+ " │ Docker " +:+ dockerVer +:+ " │ ⏱  " +:+ Duration_String uptime +:+
     " │ 📡 " +:+ itoa (m_eventCount m) +:+ " events" +:+ alertIndicator +:+ " ") in
  title +:+ "  " +:+ info.

Definition getContainerAlertMark m (id : string) : string := mark_of (m_alertMarks m) id.

Definition getContainerHealthMark (healthStatus : string) : string :=
  if bool_decide (healthStatus = "healthy") then " ❤️"
  else if bool_decide (healthStatus = "unhealthy") then " 🩺"
  else if bool_decide (healthStatus = "starting") then " ⏳"
  else "".

Definition stateText (state : string) : string :=
  if bool_decide (state = "running") then Render stateRunning "● up"
  else if bool_decide (state = "paused") then Render statePaused "◉ pause"
  else Render stateStopped ("○ " +:+ state).

(** The four columns of metrics. *)
Definition statColumns m (id : string) : string * string * string * string :=
  match m_stats m !! id with
  | Some s => (formatCPU (cm_CPUPercent s), formatMemPercent (cm_MemoryPercent s), formatBytes (cm_MemoryUsage s),
               Render netStyle (formatBytesShort (cm_NetworkRx s) +:+ "/" +:+ formatBytesShort (cm_NetworkTx s)))
  | None => (muted "  -  ", muted "  -  ", muted "   -   ", muted "    -     ")
  end.

Definition formatContainerRow m (index : Z) c : option string :=
  let '(cursor, style) := if index =? m_cursor m then ("▸ ", selectedStyle) else ("  ", normalStyle) in
  let '(cpuStr, memPctStr, memUseStr, netStr) := statColumns m (cd_ID c) in
  let alertMark := getContainerAlertMark m (cd_ID c) +:+ getContainerHealthMark (cd_HealthStatus c) in
  hostID ← truncate (cd_HostID c) 6;
  let hostID := if bool_decide (hostID = "") then "local" else hostID in
  name ← truncate (cd_Name c) 18;
  id ← (if 12 <? Z.of_nat (String.length (cd_ID c)) then str_slice (cd_ID c) 0 12 else Some (cd_ID c));
  Some (Render style (cursor +:+ pad_right 6 hostID +:+ " " +:+ pad_right 12 id +:+ " " +:+ pad_right 20 name +:+
    " " +:+ Render [Width 7] cpuStr +:+ " " +:+ Render [Width 7] memPctStr +:+ " " +:+
    Render [Width 9] memUseStr +:+ " " +:+ Render [Width 10] netStr +:+ " " +:+
    stateText (cd_State c) +:+ alertMark)).

(** The rows from index [i] on. *)
Fixpoint container_rows m (i : Z) (cs : list ContainerDisplay) : option string :=
  match cs with
  | [] => Some ""
  | c :: cs' =>
      row ← formatContainerRow m i c; rest ← container_rows m (i + 1) cs';
      Some (row +:+ newline +:+ rest)
  end.

Definition renderContainerTable m : option string :=
  if bool_decide (m_containers m = [])
  then Some (Render [Foreground mutedColor; Padding 1 2] ("📭 " +:+ msg_NoContainers (m_msg m) +:+ newline))
  else
    let header := "  " +:+ pad_right 6 (msg_TableHost (m_msg m)) +:+ " " +:+ pad_right 12 "ID" +:+ " " +:+
      pad_right 20 (msg_TableName (m_msg m)) +:+ " " +:+ pad_right 7 "CPU%" +:+ " " +:+ pad_right 7 "MEM%" +:+
      " " +:+ pad_right 9 "MEM" +:+ " " +:+ pad_right 10 "NET" +:+ " " +:+ msg_TableState (m_msg m) in
    rows ← container_rows m 0 (m_containers m);
    Some (Render headerStyle header +:+ newline +:+ rows).

(** ** Details *)

(** The text of a security rule in the detail panel. *)
Definition securityText (msgs : Messages) (ruleName : string) : string :=
  if bool_decide (ruleName = "Sec: Privileged Mode") then msg_SecPrivileged msgs
  else if bool_decide (ruleName = "Sec: Root User") then msg_SecRootUser msgs
  else if bool_decide (ruleName = "Sec: DB Port Exposed globally") then msg_SecDBPort msgs
  else if bool_decide (ruleName = "Sec: Sensitive CAP_ADD") then msg_SecSensitiveCap msgs
  else if bool_decide (ruleName = "Sec: No Resource Quotas") then msg_SecNoResourceQuotas msgs
  else if bool_decide (ruleName = "Sec: Writable RootFS") then msg_SecWritableRootFS msgs
  else if bool_decide (ruleName = "Sec: Insecure Port Exposed") then msg_SecInsecurePort msgs
  else if bool_decide (ruleName = "Sec: Missing No-New-Privileges") then msg_SecMissingNoNewPrivs msgs
  else if bool_decide (ruleName = "Sec: Host Networking Mode") then msg_SecHostNetwork msgs
  else ruleName.

(** The concatenation of the texts of a list. *)
Definition concat_map {A} (f : A -> string) (l : list A) : string := foldr (fun a s => f a +:+ s) "" l.

Definition appendSecurityAlerts m (containerID : string) (maxW : Z) : string :=
  match default [] (m_securityAlertsMap m !! containerID) with
  | [] => ""
  | cSecAlerts =>
      Render [Bold; Foreground warningColor] (newline +:+ " 🛡️ " +:+ msg_SecurityAudit (m_msg m)) +:+ newline +:+
      concat_map (fun a =>
        let '(icon, style) := if bool_decide (al_Severity a = "critical") then ("🚨", alertCritStyle)
                              else ("⚠️", alertWarnStyle) in
        Render (style ++ [Width (maxW - 4)])
          (" " +:+ icon +:+ " " +:+ securityText (m_msg m) (al_RuleName a)) +:+ newline) cSecAlerts
  end.

(** The lines of a range over a list that breaks after a maximum with a line that counts
    the rest. *)
Definition capped_lines (max : nat) (line : string -> option string) (l : list string) : option string :=
  lines ← mapM line (take max l);
  Some (concat_map id lines +:+
    if (max <? length l)%nat
    then "   " +:+ muted ("... +" +:+ itoa (Z.of_nat (length l - max)) +:+ " more") +:+ newline else "").

Definition appendCommandAndMounts c : option string :=
  mounts ← capped_lines 8 (fun mt => Some ("   " +:+ muted mt +:+ newline)) (cd_Mounts c);
  Some (
  (if bool_decide (cd_Entrypoint c = "") then "" else
     strong secondaryColor (newline +:+ " ⚙️  Command") +:+ newline +:+ "   " +:+
     Render [Foreground primaryColor] (cd_Entrypoint c) +:+ newline) +:+
  (if bool_decide (cd_Mounts c = []) then "" else
     strong secondaryColor (newline +:+ " 📂 Volumes / Mounts") +:+ newline +:+ mounts)).

Definition appendRestartAndLimits c : string :=
  let red := Render [Foreground "#BF616A"] in
  let green := Render [Foreground "#A3BE8C"] in
  (if bool_decide (cd_RestartPolicy c = "") then "" else
     strong secondaryColor (newline +:+ " 🔄 Restart Policy") +:+ newline +:+ "   " +:+ cd_RestartPolicy c +:+
     (if 0 <? cd_RestartCount c then red ("  (crashed " +:+ itoa (cd_RestartCount c) +:+ "x)") else "") +:+
     newline) +:+
  let cpuLabel := if f64_gt (cd_CPULimit c) f64_zero
    then green (format_fixed 1 (cd_CPULimit c) +:+ " cores") else red "unlimited ⚠" in
  let memLabel := if 0 <? cd_MemoryLimit c then green (formatBytes (cd_MemoryLimit c)) else red "unlimited ⚠" in
  newline +:+ " " +:+ strong secondaryColor "🚧 Resource Limits" +:+ newline +:+
  "   CPU: " +:+ cpuLabel +:+ "   MEM: " +:+ memLabel +:+ newline.

(** A variable in the detail panel, its value cut to fifty bytes. *)
Definition envLine (env : string) : option string :=
  match SplitN2 env "="%char with
  | (k, Some val) =>
      val ← (if 50 <? Z.of_nat (String.length val)
             then prefix ← str_slice val 0 47; Some (prefix +:+ "...") else Some val);
      Some ("   " +:+ Render [Foreground primaryColor] k +:+ "=" +:+ val +:+ newline)
  | (_, None) => Some ("   " +:+ env +:+ newline)
  end.

Definition appendHealthAndEnv c : option string :=
  let '(healthIcon, healthColor) :=
    if bool_decide (cd_HealthStatus c = "unhealthy") then ("⚠️ ", "#BF616A")
    else if bool_decide (cd_HealthStatus c = "starting") then ("⏳", "#EBCB8B") else ("✅", "#A3BE8C") in
  vars ← capped_lines 15 envLine (cd_Env c);
  Some (
  (if bool_decide (cd_HealthStatus c = "") then "" else
     newline +:+ " " +:+ strong healthColor (healthIcon +:+ " Health: " +:+ cd_HealthStatus c) +:+ newline +:+
     (if bool_decide (cd_HealthLog c = "") then "" else
        "   " +:+ muted ("Last check: " +:+ cd_HealthLog c) +:+ newline)) +:+
  (if bool_decide (cd_Env c = []) then "" else
     strong secondaryColor (newline +:+ " 🔎 Env Variables") +:+ newline +:+ vars)).

Definition appendStats m c : string :=
  match m_stats m !! cd_ID c with
  | None => ""
  | Some s =>
      newline +:+ " " +:+ strong secondaryColor ("📊 " +:+ msg_Metrics (m_msg m)) +:+ newline +:+
      " CPU:      " +:+ formatCPU (cm_CPUPercent s) +:+ newline +:+
      " " +:+ pad_right 9 (msg_Memory (m_msg m)) +:+ " " +:+ formatBytes (cm_MemoryUsage s) +:+ " / " +:+
      formatBytes (cm_MemoryLimit s) +:+ " (" +:+ formatMemPercent (cm_MemoryPercent s) +:+ ")" +:+ newline +:+
      " " +:+ pad_right 9 (msg_NetworkDown (m_msg m)) +:+ " " +:+ pad_right 12 (formatBytes (cm_NetworkRx s)) +:+
      " " +:+ pad_right 9 (msg_NetworkUp (m_msg m)) +:+ " " +:+ formatBytes (cm_NetworkTx s) +:+ newline
  end.

(** [min(w, hi)], and at least 40: the width of the panels. *)
Definition panelWidth (w hi : Z) : Z := let maxW := min w hi in if maxW <? 40 then 40 else maxW.

(** A label of the table of texts and its value. *)
Definition field_line (label value : string) : string :=
  " " +:+ pad_right 9 label +:+ " " +:+ value +:+ newline.

Definition renderContainerDetail m : option string :=
  if n_containers m <=? m_cursor m then Some "" else
  c ← at_cursor m;
  let maxW := panelWidth (m_width m - 6) 72 in
  let msgs := m_msg m in
  commandAndMounts ← appendCommandAndMounts c;
  healthAndEnv ← appendHealthAndEnv c;
  let body :=
    " " +:+ strong primaryColor (msg_DetailsTitle msgs) +:+ "  " +:+ muted (cd_ID c) +:+ newline +:+
    field_line (msg_Name msgs) (cd_Name c) +:+ field_line (msg_Image msgs) (cd_Image c) +:+
    field_line (msg_Status msgs) (cd_Status c) +:+ field_line (msg_Command msgs) (cd_Command c) +:+
    field_line (msg_Created msgs) (cd_Created c) +:+
    (if bool_decide (cd_Ports c = "") then "" else field_line (msg_Ports msgs) (cd_Ports c)) +:+
    (if bool_decide (cd_Networks c = []) then ""
     else field_line (msg_Networks msgs) (Join (cd_Networks c) ", ")) +:+
    appendSecurityAlerts m (cd_ID c) maxW +:+ commandAndMounts +:+ appendRestartAndLimits c +:+
    healthAndEnv +:+ appendStats m c in
  Some (Render [RoundedBorder primaryColor; Padding 0 1; MarginLeft 2; Width maxW] body +:+ newline).

(** ** Logs *)

Definition quote : string := String (Ascii.ascii_of_nat 34) EmptyString.

(** The text of a log level in a JSON line. *)
Definition json_level (level : string) : string :=
  quote +:+ "level" +:+ quote +:+ ":" +:+ quote +:+ level +:+ quote.

Definition colorLevel (level color text : string) : string :=
  ReplaceAll text (json_level level) (Render [Foreground color] (json_level level)).

(** [a && b] of tests that may panic: the second is not evaluated after a false one. *)
Definition and_then (a b : option bool) : option bool := x ← a; if x : bool then b else Some false.

(** [text[i] == c]. *)
Definition byte_is (text : string) (i : Z) (c : ascii) : option bool :=
  b ← str_index text i; Some (bool_decide (b = c)).

(** Whether a line begins with a timestamp, by three of its bytes. *)
Definition has_timestamp (text : string) : option bool :=
  and_then (Some (30 <? Z.of_nat (String.length text)))
    (and_then (byte_is text 4 "-") (and_then (byte_is text 7 "-") (byte_is text 10 "T"))).

Definition formatLogText (text : string) : option string :=
  stamped ← has_timestamp text;
  text ← (if stamped : bool then
            ts ← str_slice text 0 30; rest ← str_slice text 30 (Z.of_nat (String.length text));
            Some (Render [Foreground "#5C6370"] ts +:+ rest)
          else Some text);
  Some (if Contains text (quote +:+ ":")
        then colorLevel "info" "#61AFEF" (colorLevel "warn" "#E5C07B" (colorLevel "error" "#E06C75" text))
        else text).

Definition filterAndFormatLogs m : option (list LogEntry) :=
  mapM (fun entry => text ← formatLogText (le_Text entry);
                     Some {| le_Container := le_Container entry; le_Text := text |})
    (filter (fun entry => log_matches (m_logSearch m) entry = true) (m_logLines m)).

(** The bounds of the part of [total] lines on screen. *)
Definition log_window (total maxLines logOffset : Z) : Z * Z :=
  let start := if maxLines + logOffset <? total then total - maxLines - logOffset else 0 in
  let stop := start + maxLines in
  (start, if total <? stop then total else stop).

Definition logPanelLines m : Z := if 50 <? m_height m then 15 else 10.

(** A line of the panel. *)
Definition logPanelLine m (entry : LogEntry) : option string :=
  let max := m_width m + 50 in
  truncated ← (if max <? Z.of_nat (String.length (le_Text entry))
               then prefix ← str_slice (le_Text entry) 0 max; Some (prefix +:+ "...")
               else Some (le_Text entry));
  let prefix := if (1 <? length (m_logContainers m))%nat
    then Render [Foreground primaryColor] ("[" +:+ le_Container entry +:+ "] ") else "" in
  Some ("  " +:+ prefix +:+ Render [Foreground "#A0AEC0"] truncated +:+ newline).

Definition buildLogFooter m : string :=
  (if m_searchMode m
   then newline +:+ "  " +:+ Render [Foreground primaryColor] ("🔍 Search: " +:+ m_logSearch m +:+ "█")
   else if bool_decide (m_logSearch m <> "")
   then newline +:+ "  " +:+ muted ("Active filter: " +:+ m_logSearch m) else "") +:+
  (if 0 <? m_logOffset m
   then Render [Foreground warningColor] ("  [History offset: " +:+ itoa (m_logOffset m) +:+ "]") else "").

Definition renderLogPanel m : option string :=
  let names := Join (m_logContainers m) ", " in
  let title := Render [Bold; Foreground secondaryColor; MarginLeft 2]
    (Sprintf_s ("📜 " +:+ msg_LogsTitle (m_msg m)) names) in
  filtered ← filterAndFormatLogs m;
  let '(start, stop) := log_window (Z.of_nat (length filtered)) (logPanelLines m) (m_logOffset m) in
  shown ← slice filtered start stop;
  lines ← mapM (logPanelLine m) shown;
  let maxW := panelWidth (m_width m - 4) 90 in
  Some (title +:+ newline +:+ Render (logPanelStyle ++ [Width maxW; MarginLeft 2]) (concat_map id lines) +:+
        buildLogFooter m).

(** ** Alerts, events, help *)

(** The short name of a security rule in the list of alerts. *)
Definition securityAlertName (msgs : Messages) (ruleName : string) : string :=
  if bool_decide (ruleName = "Sec: Privileged Mode") then "Sec: " +:+ msg_AlertSecPrivileged msgs
  else if bool_decide (ruleName = "Sec: Root User") then "Sec: " +:+ msg_AlertSecRootUser msgs
  else if bool_decide (ruleName = "Sec: DB Port Exposed globally") then "Sec: " +:+ msg_AlertSecDBPort msgs
  else if bool_decide (ruleName = "Sec: Sensitive CAP_ADD") then "Sec: " +:+ msg_AlertSecSensitiveCap msgs
  else if bool_decide (ruleName = "Sec: No Resource Quotas") then "Sec: " +:+ msg_AlertSecNoQuotas msgs
  else if bool_decide (ruleName = "Sec: Writable RootFS") then "Sec: " +:+ msg_AlertSecWritableFS msgs
  else if bool_decide (ruleName = "Sec: Insecure Port Exposed") then "Sec: " +:+ msg_AlertSecInsecurePort msgs
  else if bool_decide (ruleName = "Sec: Missing No-New-Privileges") then "Sec: " +:+ msg_AlertSecNoNewPrivs msgs
  else if bool_decide (ruleName = "Sec: Host Networking Mode") then "Sec: " +:+ msg_AlertSecHostNet msgs
  else ruleName.

Definition alertLine m (maxW : Z) (a : Alert) : string :=
  let msg :=
    if HasPrefix (al_RuleName a) "Sec:"
    then " " +:+ securityAlertName (m_msg m) (al_RuleName a) +:+ ": " +:+ al_ContainerName a +:+ " [" +:+
         al_Severity a +:+ "] "
    else " " +:+ al_RuleName a +:+ ": " +:+ al_ContainerName a +:+ " " +:+ percent (al_CurrentValue a) +:+
         " > " +:+ percent (al_Threshold a) +:+ " [" +:+ al_Severity a +:+ "] " in
  if bool_decide (al_Severity a = "critical")
  then "  " +:+ Render (alertCritStyle ++ [Width maxW]) (" 🚨" +:+ msg) +:+ newline
  else "  " +:+ Render (alertWarnStyle ++ [Width maxW]) (" ⚠️" +:+ msg) +:+ newline.

Definition renderAlerts m : string :=
  let allAlerts := m_activeAlerts m ++ m_securityAlerts m in
  if bool_decide (allAlerts = []) then "" else
  concat_map (alertLine m (panelWidth (m_width m - 4) 80)) allAlerts.

Definition eventLine (e : EventLogEntry) : string :=
  "  " +:+ muted (Format_clock zone (ee_Time e)) +:+ " " +:+ ee_Icon e +:+ " " +:+
  pad_right 10 (Render [Foreground warningColor] (ee_Action e)) +:+ " " +:+ ee_Name e +:+ newline.

Definition renderEventLog m : option string :=
  let title := Render [Bold; Foreground secondaryColor; MarginLeft 2] ("📋 " +:+ msg_EventsTitle (m_msg m)) in
  match m_events m with
  | [] => Some (title +:+ newline +:+
          Render [Foreground mutedColor; MarginLeft 4] (msg_WaitingEvents (m_msg m) +:+ newline))
  | _ =>
      let n := Z.of_nat (length (m_events m)) in
      let count := if 45 <? m_height m then min 8 n else min 5 n in
      lines ← mapM (fun i => e ← index (m_events m) i; Some (eventLine e)) (seqZ 0 count);
      Some (title +:+ newline +:+
        Render (eventPanelStyle ++ [Width (panelWidth (m_width m - 4) 80); MarginLeft 2]) (concat_map id lines))
  end.

Definition helpText m : string :=
  if m_showLogs m then "  ↑↓ scroll │ / grep │ f tail │ E export │ Esc back"
  else if m_showCleanup m then "  [i] images │ [v] volumes │ Esc back"
  else if m_showMap m then "  M / Esc back"
  else if m_showStress m then "  [c] CPU │ [m] mem │ [b] both │ Esc cancel"
  else if m_showDetail m then "  x shell │ l log │ s stop │ R restart │ Esc back"
  else if bool_decide (m_confirmAction m <> "") then "  y confirm │ Esc cancel"
  else "  ↑↓ nav │ space select │ enter details │ l log 1 │ L log N │ a all │ x shell │ C prune │ s stop │ R restart │ S stress │ M map │ ? help │ q quit".

Definition renderHelpBar m : string :=
  let bar := helpText m in
  if m_showHelp m then
    let legend := newline +:+ "  Icons: 🚨 Critical Alert │ ⚠️ Warning Alert │ 🛡️ Security Issue │ ❤️ Healthy │ 🩺 Unhealthy │ ⏳ Starting" in
    Render [RoundedBorder primaryColor; Padding 0 1; MarginLeft 2] (bar +:+ legend) +:+ newline
  else
    let promInfo := if prom_Enabled (Prometheus (m_cfg m))
      then " │ prometheus :" +:+ itoa (prom_Port (Prometheus (m_cfg m))) else "" in
    Render (helpStyle ++ [MarginLeft 2]) (bar +:+ promInfo) +:+ newline.

(** ** Cleanup *)

Definition reclaimColor (n : Z) : string :=
  if 1024 * 1024 * 1024 * 2 <? n then "#BF616A"
  else if 1024 * 1024 * 500 <? n then "#EBCB8B" else "#A3BE8C".

(** [uint64(n)] of a positive size, and zero otherwise. *)
Definition reclaimable (n : Z) : Z := if 0 <? n then n else 0.

Definition renderCleanupPanel m : string :=
  Render titleStyle " 🧹 Interactive Prune Dashboard " +:+ newline +:+ newline +:+
  if m_pruning m
  then Render [Foreground mutedColor; MarginLeft 4] "⏳ Processing Docker daemon cleanup... please wait." +:+ newline
  else
    let images := ImagesReclaimable (m_diskUsage m) in
    let volumes := VolumesReclaimable (m_diskUsage m) in
    let note := Render [Foreground mutedColor; MarginLeft 7] in
    (if bool_decide (m_pruneFeedback m = "") then ""
     else Render [Foreground "#A3BE8C"; Bold; MarginLeft 4] (m_pruneFeedback m) +:+ newline +:+ newline) +:+
    "    📦 " +:+ Render [Bold] "Dangling Images: " +:+
    Render [Foreground (reclaimColor images)] (formatBytes (reclaimable images)) +:+ newline +:+
    note "Untagged images not used by any container." +:+ newline +:+ newline +:+
    "    💾 " +:+ Render [Bold] "Volumes Locais Ociosos:   " +:+
    Render [Foreground (reclaimColor volumes)] (formatBytes (reclaimable volumes)) +:+ newline +:+
    note "Persistent volumes created by Docker not attached to any container." +:+ newline +:+ newline +:+ newline +:+
    "    " +:+ Render [Background "#4C566A"; Foreground "#ECEFF4"; Padding 0 1] " Actions: " +:+
    "  [i] Clean Images  │  [v] Clean Volumes  │  [ESC] Back" +:+ newline.

(** ** View *)

Definition confirmText m c : string :=
  Render confirmStyle ("  ⚠️  " +:+ m_confirmAction m +:+ " container '" +:+ cd_Name c +:+
                       "'? (y = confirm, any key = cancel)  ").

Definition mapNode (node : NetworkNode) : string :=
  "     ├─ " +:+ pad_right 25 (nn_ContainerName node) +:+ " [" +:+ nn_IPv4Address node +:+ "]" +:+ newline.

Definition mapNetwork (net : NetworkEdge) : string :=
  Render headerStyle ("  🌐 " +:+ ne_NetworkName net +:+ " (" +:+ ne_Driver net +:+ ")") +:+ newline +:+
  concat_map mapNode (ne_Nodes net) +:+ newline.

Definition renderMap m : string :=
  Render titleStyle (" 🕸️  " +:+ msg_ServiceMapTitle (m_msg m) +:+ " ") +:+ newline +:+ newline +:+
  (if bool_decide (m_mapData m = []) then "  " +:+ msg_ServiceMapNoCustom (m_msg m) +:+ newline
   else concat_map mapNetwork (m_mapData m)) +:+
  newline +:+ "  " +:+ msg_ServiceMapBack (m_msg m) +:+ newline.

(** The header and an empty line, before the panels. *)
Definition paragraph m : string := renderHeader m +:+ newline +:+ newline.

Definition View m : option string :=
  if m_quitting m
  then Some (newline +:+ "  👋 Castle Rock Agent encerrado." +:+ newline +:+ newline)
  else if m_width m <? 60
  then Some (newline +:+ "  ⚠️  " +:+ msg_ErrorSmallTerminal (m_msg m) +:+ newline)
  else if m_showStress m
  then Some (paragraph m +:+ Render stressStyle ("  ⚡ " +:+ msg_StressTestTitle (m_msg m) +:+ "  ") +:+
             newline +:+ newline +:+ Render [MarginLeft 4] (msg_StressTestMenu (m_msg m) +:+ newline))
  else if m_showCleanup m
  then Some (paragraph m +:+ renderCleanupPanel m)
  else if bool_decide (m_confirmAction m <> "") && (m_cursor m <? n_containers m)
  then c ← at_cursor m; Some (paragraph m +:+ confirmText m c +:+ newline)
  else if m_showMap m
  then Some (paragraph m +:+ renderMap m)
  else
    table ← renderContainerTable m;
    detail ← (if m_showDetail m && (0 <? n_containers m)
              then d ← renderContainerDetail m; Some (d +:+ newline) else Some "");
    logs ← (if m_showLogs m then l ← renderLogPanel m; Some (l +:+ newline) else Some "");
    let alerts := match m_activeAlerts m with [] => "" | _ => renderAlerts m +:+ newline end in
    events ← renderEventLog m;
    Some (renderHeader m +:+ newline +:+ table +:+ detail +:+ logs +:+ alerts +:+
          events +:+ newline +:+ renderHelpBar m).

(** ** No panic *)

Lemma truncate_total s n : 3 <= n -> is_Some (truncate s n).
Proof.
  intros Hn. unfold truncate. destruct (Z.leb_spec (Z.of_nat (String.length s)) n); [done|].
  by rewrite str_slice_in_range by lia.
Qed.

Lemma rows_total m i cs : is_Some (container_rows m i cs).
Proof.
  revert i; induction cs as [|c cs IH]; intros i; [done|]. cbn [container_rows].
  assert (is_Some (formatContainerRow m i c)) as [row ->].
  { unfold formatContainerRow. destruct (if i =? m_cursor m then _ else _) as [cur st].
    destruct (statColumns m (cd_ID c)) as [[[? ?] ?] ?].
    destruct (truncate_total (cd_HostID c) 6) as [h ->]; [lia|].
    destruct (truncate_total (cd_Name c) 18) as [n ->]; [lia|]. cbn [mbind option_bind].
    destruct (Z.ltb_spec 12 (Z.of_nat (String.length (cd_ID c)))); [by rewrite str_slice_in_range by lia|done]. }
  destruct (IH (i + 1)) as [rest Hrest]. cbn [mbind option_bind]. by rewrite Hrest.
Qed.

Lemma table_total m : is_Some (renderContainerTable m).
Proof.
  unfold renderContainerTable. case_bool_decide; [done|].
  by destruct (rows_total m 0 (m_containers m)) as [rows ->].
Qed.

Lemma capped_total max line l : (forall s, is_Some (line s)) -> is_Some (capped_lines max line l).
Proof.
  intros Hl. unfold capped_lines. assert (is_Some (mapM line (take max l))) as [ls ->]; [|done].
  apply mapM_is_Some, Forall_forall. intros s _. apply Hl.
Qed.

Lemma envLine_total env : is_Some (envLine env).
Proof.
  unfold envLine. destruct (SplitN2 env "="%char) as [k [val|]]; [|done].
  destruct (Z.ltb_spec 50 (Z.of_nat (String.length val))); [|done]. by rewrite str_slice_in_range by lia.
Qed.

Lemma detail_total m : 0 <= m_cursor m -> is_Some (renderContainerDetail m).
Proof.
  intros H0. unfold renderContainerDetail. destruct (Z.leb_spec (n_containers m) (m_cursor m)); [done|].
  destruct (at_cursor_Some m H0) as (c & -> & _); [done|]. cbn [mbind option_bind].
  unfold appendCommandAndMounts, appendHealthAndEnv.
  destruct (capped_total 8 (fun mt => Some ("   " +:+ muted mt +:+ newline)) (cd_Mounts c)) as [? ->]; [done|].
  destruct (capped_total 15 envLine (cd_Env c) envLine_total) as [? ->]. cbn [mbind option_bind].
  by destruct (if bool_decide (cd_HealthStatus c = "unhealthy") then _ else _).
Qed.

(** The window is a window: it is in range, shows as many lines as there is room for,
    and ends [logOffset] lines before the end unless that is above the first page. *)
Lemma log_window_bounds total maxLines logOffset :
  0 <= total -> 0 < maxLines -> 0 <= logOffset ->
  let '(start, stop) := log_window total maxLines logOffset in
  0 <= start <= stop /\ stop <= total /\ stop - start = Z.min maxLines total /\
  (logOffset <= total - maxLines -> stop = total - logOffset) /\
  (total - maxLines < logOffset -> start = 0).
Proof.
  intros. unfold log_window. destruct (Z.ltb_spec (maxLines + logOffset) total);
    match goal with |- context [total <? ?s] => destruct (Z.ltb_spec total s) end; lia.
Qed.

Lemma panel_lines_pos m : 0 < logPanelLines m.
Proof. unfold logPanelLines. destruct (_ <? _); lia. Qed.

Lemma and_then_total a b : is_Some a -> (a = Some true -> is_Some b) -> is_Some (and_then a b).
Proof. intros [[] ->] Hb; cbn; [by apply Hb|done]. Qed.

Lemma byte_is_total text i (a : ascii) : 0 <= i < Z.of_nat (String.length text) -> is_Some (byte_is text i a).
Proof. intros Hi. unfold byte_is. by destruct (str_index_in_range text i Hi) as [b ->]. Qed.

Lemma has_timestamp_total text : is_Some (has_timestamp text).
Proof.
  apply and_then_total; [done|]. intros [= Hl%Z.ltb_lt].
  apply and_then_total; [apply byte_is_total; lia|intros _].
  apply and_then_total; [apply byte_is_total; lia|intros _]. apply byte_is_total. lia.
Qed.

(** A stamped line is long enough for its stamp. *)
Lemma has_timestamp_long text : has_timestamp text = Some true -> 30 < Z.of_nat (String.length text).
Proof. unfold has_timestamp, and_then at 1. cbn. destruct (Z.ltb_spec 30 (Z.of_nat (String.length text))); [done|done]. Qed.

Lemma formatLogText_total text : is_Some (formatLogText text).
Proof.
  unfold formatLogText. destruct (has_timestamp_total text) as [b E]. rewrite E. cbn [mbind option_bind].
  destruct b; [|done]. pose proof (has_timestamp_long text E). by rewrite !str_slice_in_range by lia.
Qed.

Lemma logs_total m : is_Some (filterAndFormatLogs m).
Proof.
  apply mapM_is_Some, Forall_forall. intros entry _.
  destruct (formatLogText_total (le_Text entry)) as [t E]. unfold compose. by rewrite E.
Qed.

Lemma panel_line_total m entry : 60 <= m_width m -> is_Some (logPanelLine m entry).
Proof.
  intros Hw. unfold logPanelLine. destruct (Z.ltb_spec (m_width m + 50) (Z.of_nat (String.length (le_Text entry)))); [|done].
  by rewrite str_slice_in_range by lia.
Qed.

Lemma log_panel_total m : 60 <= m_width m -> 0 <= m_logOffset m -> is_Some (renderLogPanel m).
Proof.
  intros Hw H0. unfold renderLogPanel. destruct (logs_total m) as [filtered ->]. cbn [mbind option_bind].
  pose proof (log_window_bounds (Z.of_nat (length filtered)) (logPanelLines m) (m_logOffset m)
    (Nat2Z.is_nonneg _) (panel_lines_pos m) H0) as Hb.
  destruct (log_window _ _ _) as [start stop]. destruct Hb as (H1 & H2 & _).
  rewrite (slice_in_range filtered start stop H1 H2). cbn [mbind option_bind]. set (shown := take _ _).
  assert (is_Some (mapM (logPanelLine m) shown)) as [ls ->]; [|done].
  apply mapM_is_Some, Forall_forall. intros entry _. by apply panel_line_total.
Qed.

(** No event beyond the last is shown. *)
Lemma event_log_total m : is_Some (renderEventLog m).
Proof.
  unfold renderEventLog. destruct (m_events m) as [|e l] eqn:E; [done|]. rewrite <-E. clear E.
  set (count := if 45 <? m_height m then _ else _).
  assert (count <= Z.of_nat (length (m_events m))) as Hc.
  { unfold count, min. repeat case_match; reflect_bools; lia. }
  assert (is_Some (mapM (fun i => e ← index (m_events m) i; Some (eventLine e)) (seqZ 0 count))) as [ls ->]; [|done].
  apply mapM_is_Some, Forall_forall. intros i Hi%elem_of_seqZ.
  destruct (index_in_range (m_events m) i) as (x & Ex & _); [lia|]. unfold compose. by rewrite Ex.
Qed.

Lemma View_total m : ui_wf m -> is_Some (View m).
Proof.
  intros Hwf. destruct (wf_cursor _ Hwf) as [H0 _]. pose proof (wf_logOffset _ Hwf) as Ho. unfold View.
  destruct (m_quitting m); [done|]. destruct (Z.ltb_spec (m_width m) 60) as [|Hw]; [done|].
  destruct (m_showStress m); [done|]. destruct (m_showCleanup m); [done|].
  destruct (_ && _) eqn:Ec.
  { apply andb_true_iff in Ec as [_ Ec]. apply Z.ltb_lt in Ec.
    by destruct (at_cursor_Some m H0 Ec) as (c & -> & _). }
  destruct (m_showMap m); [done|].
  destruct (table_total m) as [t ->], (detail_total m H0) as [d ->], (log_panel_total m Hw Ho) as [ls ->], (event_log_total m) as [evs ->].
  cbn [mbind option_bind].
  by destruct (m_showDetail m && _), (m_showLogs m).
Qed.
End view.

Section runs.
Context `{Hlip : Lipgloss} `{Hcase : UnicodeCase} {Eng : Type} `{Heng : ContainerEngine Eng}.
Context (cfg : Config) (now : Time) (zone : Z).

(** C24. The view never panics: in every state of every run, at every terminal size and
    scroll position, every slice and index of the rendering is in range. *)
Theorem view_never_panics port_Int ordP t0 sysInfo version store (e : Eng) tr p :
  run cfg (start cfg port_Int ordP t0 sysInfo version store e) tr p -> is_Some (View now zone (p_model p)).
Proof. intros Hr. apply View_total. by eapply run_wf. Qed.

(** A pending confirmation is what the screen shows. In every state of every run in
    which an action waits for its confirmation on a terminal that is wide enough, the
    screen is the question, with the action and the name of the container under the
    cursor, which is the one [y] would act on. *)
Theorem confirmation_is_shown port_Int ordP t0 sysInfo version store (e : Eng) tr p env :
  run cfg (start cfg port_Int ordP t0 sysInfo version store e) tr p ->
  let m := p_model p in
  m_confirmAction m <> "" -> m_containers m <> [] -> m_quitting m = false -> 60 <= m_width m ->
  exists c, at_cursor m = Some c /\
    View now zone m = Some (paragraph now m +:+ confirmText m c +:+ newline) /\
    Update (Eng:=Eng) env (KeyMsg "y") m =
      Some (m <| m_confirmAction := "" |>, [executeAction (m_confirmAction m) (cd_ID c) (cd_Name c)]).
Proof.
  intros Hr m Hc Hne Hq Hw. apply run_wf in Hr. fold m in Hr. destruct Hr as [[H0 Hcur] Hmod _ _ _ _ _ _].
  destruct Hcur as [|Hcur]; [done|]. destruct (at_cursor_Some m H0 Hcur) as (c & Hat & _).
  exists c. split; [done|]. unfold modals in Hmod. rewrite (bool_decide_eq_true_2 _ Hc) in Hmod.
  assert (m_showStress m = false /\ m_showCleanup m = false) as [Hs Hcl].
  { destruct (m_showStress m), (m_showCleanup m), (m_searchMode m); cbn in Hmod; (done || lia). }
  apply Z.ltb_lt in Hcur. split.
  - unfold View. rewrite Hq, Hs, Hcl, (proj2 (Z.ltb_ge _ _)), (bool_decide_eq_true_2 _ Hc), Hcur by lia.
    cbn [andb]. by rewrite Hat.
  - cbn [Update]. unfold handleKeyMsg, handleModalKeys. rewrite (bool_decide_eq_true_2 _ Hc).
    unfold handleConfirmKeys. change (key_in "y" ["y"; "Y"]) with true. cbn iota.
    change (n_containers (m <| m_confirmAction := "" |>)) with (n_containers m).
    cbn [update m_cursor]. rewrite Hcur.
    change (at_cursor _) with (at_cursor m). by rewrite Hat.
Qed.

(** The help bar follows the screen only for logs and details. Whenever the screen
    has a help bar its text is that of the logs, of the details, or the general one (or,
    with no container left, that of a confirmation); the texts for the cleanup panel, the
    map and the stress menu are never shown, since those screens have no help bar. *)
Theorem help_bar_contexts port_Int ordP t0 sysInfo version store (e : Eng) tr p :
  run cfg (start cfg port_Int ordP t0 sysInfo version store e) tr p ->
  let m := p_model p in
  m_showStress m = false -> m_showCleanup m = false -> m_showMap m = false ->
  bool_decide (m_confirmAction m <> "") && (m_cursor m <? n_containers m) = false ->
  helpText m = "  ↑↓ scroll │ / grep │ f tail │ E export │ Esc back" /\ m_showLogs m = true \/
  helpText m = "  x shell │ l log │ s stop │ R restart │ Esc back" /\ m_showDetail m = true \/
  helpText m = "  y confirm │ Esc cancel" /\ m_containers m = [] \/
  helpText m = "  ↑↓ nav │ space select │ enter details │ l log 1 │ L log N │ a all │ x shell │ C prune │ s stop │ R restart │ S stress │ M map │ ? help │ q quit".
Proof.
  intros Hr m Hs Hc Hm Hq. apply run_wf in Hr. fold m in Hr. unfold helpText. rewrite Hs, Hc, Hm.
  destruct (m_showLogs m); [by left|]. destruct (m_showDetail m); [by right; left|].
  destruct (bool_decide _) eqn:E; [|by do 3 right].
  right; right; left. split; [done|]. cbn in Hq. apply Z.ltb_ge in Hq.
  destruct (wf_cursor _ Hr) as [_ [|]]; [done|lia].
Qed.
End runs.

(** ** Witnesses *)

#[local] Existing Instances demo_engine demo_case.

(** Text without styles. *)
#[local] Instance plain : Lipgloss := {| Render := fun _ s => s |}.

Definition asked_wide : list (Act (list ContainerDisplay)) := Resize 100 30 :: asked_stop.

Lemma view_never_panics_witness : is_Some (View (3 * Second) 0 (p_model (demo_final asked_wide demo))).
Proof. apply (view_never_panics DefaultConfig _ _ _ _ _ _ _ _ _ _ _ (demo_run asked_wide demo)). Defined.

Lemma confirmation_is_shown_witness :
  exists c, at_cursor (p_model (demo_final asked_wide demo)) = Some c.
Proof.
  destruct (confirmation_is_shown DefaultConfig (3 * Second) 0 _ _ _ _ _ _ _ _ _ demo_env
    (demo_run asked_wide demo)) as (c & Hc & _); [vm_compute; discriminate..|reflexivity| |by exists c].
  vm_compute. discriminate.
Defined.

Example confirmation_text :
  View (3 * Second) 0 (p_model (demo_final asked_wide demo)) =
  Some (" 🏰 Castle Rock Agent    v1.0 │ Docker N/A │ ⏱  3s │ 📡 0 events " +:+ newline +:+ newline +:+
    "  ⚠️  stop container 'web'? (y = confirm, any key = cancel)  " +:+ newline).
Proof. vm_compute. reflexivity. Qed.

Lemma help_bar_contexts_witness :
  helpText (p_model (demo_final listed demo)) = "  ↑↓ scroll │ / grep │ f tail │ E export │ Esc back" /\
    m_showLogs (p_model (demo_final listed demo)) = true \/
  helpText (p_model (demo_final listed demo)) = "  x shell │ l log │ s stop │ R restart │ Esc back" /\
    m_showDetail (p_model (demo_final listed demo)) = true \/
  helpText (p_model (demo_final listed demo)) = "  y confirm │ Esc cancel" /\
    m_containers (p_model (demo_final listed demo)) = [] \/
  helpText (p_model (demo_final listed demo)) = "  ↑↓ nav │ space select │ enter details │ l log 1 │ L log N │ a all │ x shell │ C prune │ s stop │ R restart │ S stress │ M map │ ? help │ q quit".
Proof.
  apply (help_bar_contexts DefaultConfig _ _ _ _ _ _ _ _ _ (demo_run listed demo)); vm_compute; reflexivity.
Defined.

(** A socket mount has no text of its own in either language. *)
Example docker_socket_untranslated :
  (fun msgs => (securityText msgs "Sec: Docker Socket Mounted", securityAlertName msgs "Sec: Docker Socket Mounted"))
    <$> [En; Pt] = replicate 2 ("Sec: Docker Socket Mounted", "Sec: Docker Socket Mounted").
Proof. vm_compute. reflexivity. Qed.
